(* ===== verification/_CoqProject ===== *)
-Q . S2P
Prelude.v
Hshm.v
RefLib.v
Types.v
Queue.v
Yaml.v
Config.v
QueueManager.v
LocalSerialize.v
Archive.v
Task.v
TaskTypes.v
World.v
LibExec.v
Registry.v
Rpc.v
Thallium.v
Exec.v
WorkerLoop.v
Schedulers.v
ProcQueue.v
SmallMessage.v
Admin.v
RemoteQueue.v
TaskName.v
TaskTyping.v
LibClients.v
Libs.v
Runtime.v
Startup.v
Scenario.v
IoPath.v
Broadcast.v
IoRemote.v
Shutdown.v
