(* ===== verification/Prelude.v ===== *)
(** * Hermes-Run: a verification library for the task runtime

    Hermes-Run is a distributed task runtime in C++. Clients build tasks in shared memory
    and push their pointers to multi-lane queues; the workers of a node's runtime poll the
    lanes and run each task through the task library its state is an instance of; a task
    addressed to other nodes is serialized, pushed to them by remote procedure call, run
    there, and its results are put back in the original. Tasks administer the runtime too:
    they load libraries, create states with their queues, and choose the schedulers that
    assign lanes to workers.

    ** Parts and files

    File names are those of [include/hermes_run/], [src/] and [tasks_required/] of the
    repository.

    - [Prelude]: machine integers, the [outcome] of a computation (a value, a wait, the end
      of the process, an exception, undefined behaviour) and its monad, byte and codec
      lemmas, indexing, copying and moving ([CopyOps]).
    - [Hshm], [RefLib]: the libraries the runtime is built on (bit fields, queues, vectors,
      containers, allocators, archives), as classes of operations with the laws relied on;
      reference instances on which the witnesses run.
    - [Types]: identifiers and domains ([hermes_run_types.h]).
    - [Queue]: the multi-lane queue ([queue.h], [queues/hshm_queue.h]); [QueueManager]: the
      map of queues of a node ([queue_manager*.h]).
    - [Yaml]: the YAML library as a class of operations, and the part of the language the
      texts inside the program are written in, read by an executable reader ([read_yaml]).
    - [Config]: the configuration files ([config/], [config_server.cc], [config_client.cc]).
    - [LocalSerialize], [Archive]: the byte buffers that name task groups and the archives
      that carry tasks between nodes ([network/local_serialize.h], [network/serialize.h]).
    - [Task], [TaskTypes]: the base task ([task.h]) and the types derived from it
      ([*_tasks.h], [scheduler.h]).
    - [World]: the state of a node and the client operations on it
      ([hermes_run_client.h], [manager.h]).
    - [LibExec]: the generated dispatch of every library ([*_lib_exec.h]).
    - [Registry]: the task registry ([task_registry.h], [task_lib.h]).
    - [Rpc], [Thallium]: hosts and remote calls ([rpc.h], [ResolveDomainId]); the RPC
      server, its daemons and what ends them, the calls that do not wait, bulk transfers
      ([rpc_thallium.h]). The class [DaemonOps] is what the libraries know of the daemons.
    - [Exec]: the interface between worker and libraries; [WorkerLoop]: the worker
      ([worker.h], [worker.cc]).
    - [Schedulers]: the work orchestrator with the affinities it sets, and the two
      scheduling libraries.
    - [ProcQueue], [SmallMessage], [Admin], [RemoteQueue], [TaskName]: the other libraries,
      clients and handlers ([tasks_required/*]; [TASK_NAME] is the template for new ones);
      [LibClients]: the functions of every client that create and destroy states.
    - [TaskTyping]: the types of tasks, and the casts of the generated dispatch.
    - [Libs]: the virtual functions dispatched over all the libraries, and the proof that
      they obey the interfaces of [Exec] and [Registry].
    - [Runtime]: the processes: configuration, start-up and shut-down of a runtime, and the
      client's ([hermes_run_runtime.h], [hermes_run_client.h], [manager.h],
      [hermes_run_constants.h]); [Startup]: what a started runtime looks like.
    - [Scenario]: a run of the whole system, evaluated; [IoPath]: the path of a client's
      request through the worker and two libraries, and back; [Broadcast]: the path of a
      message to other nodes, with the calls between the nodes of a cluster defined by what
      the called nodes do, where the procedure was registered; [IoRemote]: the path of a client's data message to other nodes,
      with the push task on a thread of its own and the bytes by bulk transfer.
    - [Shutdown]: the programs that start and stop a runtime
      ([src/hermes_run_start_runtime.cc], [src/hermes_run_stop_runtime.cc]).

    ** State and operations

    [World.Node] is what the components of one node share: the task objects by address
    (every pointer to a task is an address in this heap, so aliasing is the code's), the
    queue map, the task states and the registry, the workers, the counter of unique ids,
    the open library handles, the stacks of coroutines and the procedures registered with
    the RPC server. An operation of the code is a
    function from a node to an [outcome] with the new node; the address of an object that
    the code passes by pointer is a parameter. A member a constructor does not set keeps
    what the memory held ([RawMemory]). A method that yields is a function from its saved
    local variables to the next yield ([exec_resume]). A wait on another thread ends a
    function: what follows the wait is a function of its own ([RpcExec], [RpcPush_finish],
    [ServerInit_queue_sched], the functions with suffix [_finish]).

    Threads interleave at three places. During a remote call other threads of the node run:
    what the call leaves of the caller's node ([Libs.waits]) is a result of [ThalliumOps] of
    which no law is assumed, and what is proved of the one method that makes such calls says
    so ([Libs.libraries_implement_exec]). Between the passes of a worker, and before each pass
    of a worker that [Join] waits for, other threads change the node by a function that is a
    parameter ([env]). Polling a lane is a step relation ([lane_step]) that any number of other
    steps may interleave with.

    An array that a constructor leaves unconstructed reads as whatever the memory holds
    ([raw_ints]), which may be no array with elements; using it then is undefined behaviour.

    ** Theorems

    - The whole path ([IoPath.IoRoot_answers]): a client's request is answered, with the
      verdict that its data arrived, after three polls, and leaves no task behind.
    - Several nodes ([Broadcast.Md_broadcast]): a message whose domain is other nodes, or all,
      is dispersed, run on each of them, and completed with all the answers. A data message
      takes its bytes along ([IoRemote.IoRoot_remote]).
    - Stopping ([Shutdown.stop_runtime_stops]): the program that stops a runtime submits one
      task, whose poll signals the server of the node; when that has ended, the daemon tells
      every worker to end and waits for it, which takes one pass of each.
    - The worker: polling a lane refines [lane_step], keeps the order of the lane, and
      drains it when its tasks run to completion; an unfinished head keeps the whole lane;
      the lock of task groups admits one root at a time; how often a lane is polled; what is
      done with requests; the loop of a worker ends once it is told to.
    - Types: the constructors make well-typed tasks, with one exception (a push message, cast
      to another type), and the generated dispatch does to every other task what the type of
      the object itself asks for.
    - Libraries: every library of the repository obeys the interface the worker and the
      registry assume of libraries, so the theorems on the worker apply to them, where nothing
      else happens to the lanes while the remote queue waits for other nodes.
    - Tasks between nodes: what a node sends of a task of any type of any library, the
      other rebuilds, and its results come back; dispersal, the remote execution and the
      collection of replicas as functions of the messages.
    - Administration: creation of a state on every path (existing, without id, resumed,
      rejected), destruction, registration of libraries without leaked handles,
      one scheduling task at a time; the ids of states outgrow the slots of queues.
    - Queues: the map keeps each queue in the slot its id names, and destroying one is
      undefined behaviour on every manager [ServerInit] leaves; lanes are chosen by hash
      and first in, first out; the round robin schedules each lane once and fairly.
    - Start-up: the runtime [ServerInit] leaves before its first wait satisfies the
      invariants of its components, and its first request is in the lane a worker polls
      ([Startup.ServerInit_ready]); hosts; what the text of the default configuration gives
      ([Config.ServerConfig_LoadDefault_spec]); search paths are lemmas of their file.

    ** Bounds and fuel

    No function of the program's own loops is given artificial fuel but one. The polling loop of
    a lane runs at most 1024 iterations because the code's does; the loops over requests and
    lanes are structural in the list or count the code iterates over, or run for one more step
    than the size of the queue they empty. Integers are kept at their width ([wrap32],
    [wrap64]) where the code computes with them. [WorkerLoop.Loop] alone takes fuel, one unit
    for a pass, since a worker runs until it is told to end; [Loop_ends] states that any fuel
    not below the passes made until then gives the result, and a worker [Join] waits for makes
    its last pass whatever the fuel. The reader of YAML texts recurses with the number of lines
    as fuel, and takes one at least each time.

    ** Not modelled

    The thallium engine and its threads, argobots and boost coroutines (their effect is in
    the interfaces), the shared-memory back ends and the creation of OS threads, logging
    other than a fatal entry that may end the process, the macros of singletons and
    namespaces, the benchmarks, tests, code generators and build scripts. The affinity of a
    process or thread is the call made, not its effect. *)

From Stdlib Require Export ZArith Lia.
From stdpp Require Export base option gmap strings fin_maps numbers list pretty.

#[global] Open Scope Z_scope.

(** ** Machine integers

    A [w]-bit unsigned integer is a [Z]; the arithmetic of the C++ code wraps. *)

Definition wrap32 (z : Z) : Z := z `mod` 2 ^ 32.
Definition wrap64 (z : Z) : Z := z `mod` 2 ^ 64.

Definition is_u32 (z : Z) : Prop := 0 ≤ z < 2 ^ 32.
Definition is_u64 (z : Z) : Prop := 0 ≤ z < 2 ^ 64.
Definition is_i32 (z : Z) : Prop := - 2 ^ 31 ≤ z < 2 ^ 31.

(** Conversion of a [u32] to [int] on a two's complement machine. *)
Definition to_i32 (z : Z) : Z :=
  let u := wrap32 z in if u <? 2 ^ 31 then u else u - 2 ^ 32.

Lemma wrap32_small z : is_u32 z → wrap32 z = z.
Proof. intros. by apply Z.mod_small. Qed.

Lemma wrap64_small z : is_u64 z → wrap64 z = z.
Proof. intros. by apply Z.mod_small. Qed.

Lemma wrap32_range z : is_u32 (wrap32 z).
Proof. apply Z.mod_pos_bound. lia. Qed.

Lemma wrap64_range z : is_u64 (wrap64 z).
Proof. apply Z.mod_pos_bound. lia. Qed.

(** A [u32] is a nonnegative number with no bit at or above position 32. *)
Lemma is_u32_bits z :
  is_u32 z ↔ 0 ≤ z ∧ ∀ i, 32 ≤ i → Z.testbit z i = false.
Proof.
  split.
  - intros Hz. split; [apply Hz|]. intros i Hi.
    rewrite <- (wrap32_small z Hz). apply Z.mod_pow2_bits_high. lia.
  - intros [Hz Hb]. enough (z = z `mod` 2 ^ 32) as -> by apply wrap32_range.
    apply Z.bits_inj'. intros i Hi. destruct (decide (i < 32)).
    + by rewrite Z.mod_pow2_bits_low by lia.
    + rewrite Z.mod_pow2_bits_high, Hb by lia. done.
Qed.

(** ** Outcomes

    What running a piece of the C++ code yields: a value, the end of the process
    (a fatal log entry, [exit]), a C++ exception, or undefined behaviour (a null
    or dangling pointer, an index out of range, an integer division by zero); or
    that the thread spins until another thread changes the state. *)

Inductive outcome (A : Type) : Type :=
  | Ok (a : A)
  | Blocked
  | Exit
  | Throw (what : string)
  | Undefined.
Arguments Ok {A} a.
Arguments Blocked {A}.
Arguments Exit {A}.
Arguments Throw {A} what.
Arguments Undefined {A}.

#[export] Instance outcome_ret : MRet outcome := @Ok.
#[export] Instance outcome_bind : MBind outcome := λ _ _ f r,
  match r with
  | Ok a => f a
  | Blocked => Blocked
  | Exit => Exit
  | Throw e => Throw e
  | Undefined => Undefined
  end.
#[export] Instance outcome_fmap : FMap outcome := λ _ _ f r,
  match r with
  | Ok a => Ok (f a)
  | Blocked => Blocked
  | Exit => Exit
  | Throw e => Throw e
  | Undefined => Undefined
  end.

(** Reading through a pointer or an index that may not be valid. *)
Definition deref {A} (o : option A) : outcome A :=
  match o with Some a => Ok a | None => Undefined end.

Lemma bind_Ok {A B} (m : outcome A) (f : A → outcome B) b :
  (m ≫= f) = Ok b → ∃ a, m = Ok a ∧ f a = Ok b.
Proof. destruct m; simpl; try done. eauto. Qed.

Lemma deref_Ok {A} (o : option A) a : deref o = Ok a → o = Some a.
Proof. destruct o; simpl; congruence. Qed.

(** Inverts a hypothesis [m1 ≫= ... = Ok _] step by step. *)
Ltac invert_ok :=
  repeat match goal with
  | H : (_ ≫= _) = Ok _ |- _ =>
      let a := fresh "x" in let H1 := fresh "Hx" in let H2 := fresh "Hk" in
      apply bind_Ok in H as (a & H1 & H2)
  | H : deref _ = Ok _ |- _ => apply deref_Ok in H
  | H : Ok _ = Ok _ |- _ => injection H as H
  | H : mret _ = Ok _ |- _ => injection H as H
  | H : (_, _) = (_, _) |- _ => injection H as H
  | H : Undefined = Ok _ |- _ => discriminate H
  | H : Exit = Ok _ |- _ => discriminate H
  | H : Blocked = Ok _ |- _ => discriminate H
  | H : Throw _ = Ok _ |- _ => discriminate H
  end; subst.

(** Case analysis on the boolean conditions of a definition. *)
Ltac case_bool :=
  match goal with
  | |- context [if ?b then _ else _] => destruct b eqn:?
  | H : context [if ?b then _ else _] |- _ => destruct b eqn:?
  end.

(** ** Copies and moves of plain structures

    A structure's copy and move constructors and assignments, as functions of the objects
    they read. An assignment compares the addresses of its operands: [same] is the outcome,
    [this] and [other] the objects before. A move yields the new object and what is left in
    [other]. *)
Class CopyOps (A : Type) := {
  copy : A → A;
  assign : bool → A → A → A;
  move : A → A * A;
  move_assign : bool → A → A → A * A;
}.

(** The structures that behave as values: all of them make the target equal to the source
    and leave the source alone, also when both are one object. *)
Class CopyLaws (A : Type) `{CopyOps A} : Prop := {
  copy_value (a : A) : copy a = a;
  assign_value same (a b : A) : (same = true → a = b) → assign same a b = b;
  move_value (a : A) : move a = (a, a);
  move_assign_value same (a b : A) :
    (same = true → a = b) → move_assign same a b = (b, b);
}.

(** For structures whose members are all assigned. *)
Ltac solve_copy_laws :=
  split;
  [intros []; reflexivity
  |intros [] [] [] Hsame; [by rewrite Hsame|reflexivity]
  |intros []; reflexivity
  |intros [] [] [] Hsame; [by rewrite Hsame|reflexivity]].

(** ** Lists *)

Lemma lookup_app_last {A} (l : list A) x : (l ++ [x]) !! length l = Some x.
Proof. rewrite lookup_app_r by lia. by rewrite Nat.sub_diag. Qed.

Lemma take_app_exact {A} (l k : list A) n : n = length l → take n (l ++ k) = l.
Proof. intros ->. by rewrite take_app_length. Qed.

Lemma drop_app_exact {A} (l k : list A) n : n = length l → drop n (l ++ k) = k.
Proof. intros ->. by rewrite drop_app_length. Qed.

(** ** Object representations

    The bytes of an integer object of [n] bytes on the little-endian machines the
    code runs on ([memcpy] of the object). A byte is a [Z] in [0, 256). *)

Fixpoint le_bytes (n : nat) (z : Z) : list Z :=
  match n with
  | O => []
  | S n => z `mod` 256 :: le_bytes n (z `div` 256)
  end.

Fixpoint le_value (bs : list Z) : Z :=
  match bs with
  | [] => 0
  | b :: bs => b + 256 * le_value bs
  end.

Lemma length_le_bytes n z : length (le_bytes n z) = n.
Proof. revert z. induction n; simpl; auto. Qed.

Lemma le_value_bytes n z : le_value (le_bytes n z) = z `mod` 256 ^ Z.of_nat n.
Proof.
  revert z. induction n as [|n IH]; intros z; cbn [le_bytes le_value].
  { by rewrite Z.mod_1_r. }
  rewrite IH, Nat2Z.inj_succ, Z.pow_succ_r by lia.
  rewrite Z.rem_mul_r by lia. lia.
Qed.

Lemma le_value_u32 z : is_u32 z → le_value (le_bytes 4 z) = z.
Proof. intros. rewrite le_value_bytes. by apply Z.mod_small. Qed.

Lemma le_value_u64 z : is_u64 z → le_value (le_bytes 8 z) = z.
Proof. intros. rewrite le_value_bytes. by apply Z.mod_small. Qed.

Lemma le_bytes_inj32 a b : is_u32 a → is_u32 b → le_bytes 4 a = le_bytes 4 b → a = b.
Proof. intros Ha Hb E. by rewrite <- (le_value_u32 a), <- (le_value_u32 b), E. Qed.

(** Codecs: an encoder to bytes with a decoder that returns the unread bytes. *)
Record codec (T : Type) : Type := Codec {
  enc : T → list Z;
  dec : list Z → option (T * list Z);
}.
Arguments Codec {T}.
Arguments enc {T}.
Arguments dec {T}.

Definition codec_ok {T} (c : codec T) (P : T → Prop) : Prop :=
  ∀ x rest, P x → dec c (enc c x ++ rest) = Some (x, rest).

Definition pair_codec {A B} (a : codec A) (b : codec B) : codec (A * B) := {|
  enc p := enc a p.1 ++ enc b p.2;
  dec bs := '(x, bs1) ← dec a bs; '(y, bs2) ← dec b bs1; Some ((x, y), bs2);
|}.

Definition map_codec {A B} (f : A → B) (g : B → A) (a : codec A) : codec B := {|
  enc y := enc a (g y);
  dec bs := '(x, bs1) ← dec a bs; Some (f x, bs1);
|}.

Infix "⊗c" := pair_codec (at level 35, right associativity) : stdpp_scope.

Lemma pair_codec_ok {A B} (a : codec A) (b : codec B) P Q :
  codec_ok a P → codec_ok b Q → codec_ok (a ⊗c b) (λ p, P p.1 ∧ Q p.2).
Proof.
  intros Ha Hb [x y] rest [Hx Hy]. simpl.
  rewrite <- (assoc_L app), Ha by done. simpl. by rewrite Hb.
Qed.

Lemma map_codec_ok {A B} (f : A → B) (g : B → A) (a : codec A) P (Q : B → Prop) :
  codec_ok a P → (∀ y, Q y → P (g y) ∧ f (g y) = y) → codec_ok (map_codec f g a) Q.
Proof.
  intros Ha HQ y rest Hy. destruct (HQ y Hy) as [HP E]. simpl.
  rewrite Ha by done. simpl. by rewrite E.
Qed.

Lemma codec_ok_weaken {A} (a : codec A) (P Q : A → Prop) :
  codec_ok a P → (∀ x, Q x → P x) → codec_ok a Q.
Proof. intros Ha HQ x rest Hx. apply Ha. auto. Qed.

Create HintDb hrun.
#[export] Hint Resolve wrap32_range wrap64_range pair_codec_ok : hrun.

(** Indexing with an unsigned machine integer. *)
Definition at_index {A} (l : list A) (i : Z) : option A :=
  if i <? 0 then None else l !! Z.to_nat i.

Definition set_index {A} (i : Z) (x : A) (l : list A) : list A :=
  <[Z.to_nat i := x]> l.

#[global] Arguments at_index : simpl never.
#[global] Arguments set_index : simpl never.

Lemma at_index_Some {A} (l : list A) i x :
  at_index l i = Some x → 0 ≤ i < Z.of_nat (length l) ∧ l !! Z.to_nat i = Some x.
Proof.
  unfold at_index. destruct (Z.ltb_spec i 0); [done|]. intros Hl.
  split; [|done]. apply lookup_lt_Some in Hl. lia.
Qed.

Lemma at_index_lookup {A} (l : list A) i : 0 ≤ i → at_index l i = l !! Z.to_nat i.
Proof. intros. unfold at_index. destruct (Z.ltb_spec i 0); [lia|done]. Qed.

Lemma at_index_is_Some {A} (l : list A) i :
  0 ≤ i < Z.of_nat (length l) → is_Some (at_index l i).
Proof. intros. rewrite at_index_lookup by lia. apply lookup_lt_is_Some. lia. Qed.

Lemma at_set_index_eq {A} (l : list A) i x y :
  at_index l i = Some y → at_index (set_index i x l) i = Some x.
Proof.
  intros [Hi Hl]%at_index_Some. rewrite at_index_lookup by lia.
  unfold set_index. apply list_lookup_insert_eq. lia.
Qed.

Lemma at_set_index_ne {A} (l : list A) i j x :
  0 ≤ i → i ≠ j → at_index (set_index i x l) j = at_index l j.
Proof.
  intros Hi Hne. unfold at_index, set_index. destruct (Z.ltb_spec j 0); [done|].
  apply list_lookup_insert_ne. lia.
Qed.

Lemma length_set_index {A} (l : list A) i x : length (set_index i x l) = length l.
Proof. apply length_insert. Qed.

Lemma set_index_id {A} (l : list A) i x : at_index l i = Some x → set_index i x l = l.
Proof. intros [_ Hl]%at_index_Some. by apply list_insert_id. Qed.

Lemma set_set_index {A} (l : list A) i x y : set_index i x (set_index i y l) = set_index i x l.
Proof. apply list_insert_insert_eq. Qed.

Lemma Forall_set_index {A} (P : A → Prop) l i x :
  Forall P l → P x → Forall P (set_index i x l).
Proof. intros. by apply Forall_insert. Qed.

(** Unsigned remainder: a zero divisor is undefined behaviour. *)
Definition urem (a b : Z) : outcome Z := if b =? 0 then Undefined else Ok (a `mod` b).

#[export] Hint Resolve Forall_set_index : hrun.

(** [unordered_map::emplace]: a key that is present keeps its value. *)
Definition emplace {K A} `{Countable K} (k : K) (x : A) (m : gmap K A) : gmap K A :=
  match m !! k with Some _ => m | None => <[k := x]> m end.

Lemma lookup_emplace {K A} `{Countable K} (k j : K) (x : A) (m : gmap K A) :
  emplace k x m !! j = if decide (k = j) then Some (default x (m !! k)) else m !! j.
Proof.
  unfold emplace. destruct (m !! k) eqn:E; destruct (decide (k = j)) as [<-|]; try done.
  - by rewrite lookup_insert_eq.
  - by rewrite lookup_insert_ne.
Qed.

(** [new]: the address of a fresh object, one above the largest address in use. *)
Definition fresh_addr {A} (h : gmap Z A) : Z :=
  1 + foldr Z.max 0 (map_to_list h).*1.

Lemma foldr_max_ge (l : list Z) x : x ∈ l → x ≤ foldr Z.max 0 l.
Proof. induction 1; simpl; lia. Qed.

Lemma fresh_addr_above {A} (h : gmap Z A) a x : h !! a = Some x → a < fresh_addr h.
Proof.
  intros H%elem_of_map_to_list%(list_elem_of_fmap_2 fst). simpl in H.
  apply foldr_max_ge in H. unfold fresh_addr. lia.
Qed.

Lemma fresh_addr_pos {A} (h : gmap Z A) : 0 < fresh_addr h.
Proof.
  unfold fresh_addr. enough (∀ l, 0 ≤ foldr Z.max 0 l) as H; [specialize (H (map_to_list h).*1); lia|].
  induction l; simpl; lia.
Qed.

Lemma fresh_addr_None {A} (h : gmap Z A) : h !! fresh_addr h = None.
Proof. destruct (h !! fresh_addr h) eqn:E; [|done]. apply fresh_addr_above in E. lia. Qed.

(** Removing one occurrence of an element. *)
Fixpoint remove_one (x : Z) (l : list Z) : list Z :=
  match l with
  | [] => []
  | y :: l => if x =? y then l else y :: remove_one x l
  end.

Lemma remove_one_Permutation x l : x ∈ l → x :: remove_one x l ≡ₚ l.
Proof.
  induction l as [|y l IH]; intros Hin; [by apply not_elem_of_nil in Hin|]. simpl.
  destruct (Z.eqb_spec x y) as [->|]; [done|].
  apply elem_of_cons in Hin as [|Hin]; [done|]. by rewrite Permutation_swap, IH.
Qed.

Lemma remove_one_perm_cons x l k : l ≡ₚ x :: k → remove_one x l ≡ₚ k.
Proof.
  intros Hl. apply (Permutation_cons_inv (a:=x)). rewrite remove_one_Permutation; [done|].
  rewrite Hl. apply elem_of_cons. by left.
Qed.

(** Doing a step [n] times. *)
Fixpoint times {A} (n : nat) (f : A → outcome A) (a : A) : outcome A :=
  match n with
  | O => Ok a
  | S n => a ← f a; times n f a
  end.

Lemma times_S_last {A} n (f : A → outcome A) a : times (S n) f a = a ← times n f a; f a.
Proof.
  revert a. induction n as [|n IH]; intros a; [by simpl; destruct (f a)|].
  change (times (S (S n)) f a) with (a ← f a; times (S n) f a).
  change (times (S n) f a) with (a ← f a; times n f a).
  destruct (f a); simpl; try done. apply IH.
Qed.

(** ** Decimal representations

    [std::to_string] of an unsigned integer *)
Definition to_string (z : Z) : string := pretty (Z.to_N z).

Lemma to_string_inj a b : 0 ≤ a → 0 ≤ b → to_string a = to_string b → a = b.
Proof. unfold to_string. intros ? ? E%(inj pretty). lia. Qed.

(** [c] does not occur in [s]. *)
Fixpoint free_of (c : Ascii.ascii) (s : string) : bool :=
  match s with
  | EmptyString => true
  | String d s => negb (Ascii.eqb c d) && free_of c s
  end.

Lemma free_of_app c s1 s2 : free_of c (s1 +:+ s2) = free_of c s1 && free_of c s2.
Proof. induction s1 as [|d s1 IH]; [done|]. simpl. by rewrite IH, andb_assoc. Qed.

Lemma pretty_N_free_of c x s :
  (∀ y, pretty_N_char y ≠ c) → free_of c s = true → free_of c (pretty_N_go x s) = true.
Proof.
  intros Hc. revert s. induction (N.lt_wf_0 x) as [x _ IH]; intros s Hs.
  destruct (decide (x = 0)%N) as [->|Hx]; [by rewrite pretty_N_go_0|].
  rewrite pretty_N_go_step by lia. apply IH; [apply N.div_lt; lia|]. simpl. rewrite Hs.
  destruct (Ascii.eqb_spec c (pretty_N_char (x `mod` 10))) as [E|]; [|done].
  by destruct (Hc (x `mod` 10)%N).
Qed.

Lemma to_string_free_of c z : (∀ y, pretty_N_char y ≠ c) → free_of c (to_string z) = true.
Proof.
  intros Hc. unfold to_string, pretty, pretty_N. case_decide.
  - change "0" with (String (pretty_N_char 0) ""). cbn [free_of].
    destruct (Ascii.eqb_spec c (pretty_N_char 0)) as [E|]; [|done]. symmetry in E. by apply Hc in E.
  - by apply pretty_N_free_of.
Qed.

(** A string is cut in one way at the first occurrence of a character. *)
Lemma cut_inj c s1 s2 r1 r2 :
  free_of c s1 = true → free_of c s2 = true →
  s1 +:+ String c r1 = s2 +:+ String c r2 → s1 = s2 ∧ r1 = r2.
Proof.
  revert s2. induction s1 as [|d s1 IH]; intros [|d' s2]; simpl.
  - by intros _ _ [= <-].
  - intros _ Hd [= <- _]. by rewrite Ascii.eqb_refl in Hd.
  - intros Hd _ [= -> _]. by rewrite Ascii.eqb_refl in Hd.
  - intros [_ H1]%andb_true_iff [_ H2]%andb_true_iff [= <- E]. by destruct (IH s2 H1 H2 E) as [<- <-].
Qed.

(** Numbers joined by a separator are determined by the string. *)
Lemma to_string_cut c a b r1 r2 :
  (∀ y, pretty_N_char y ≠ c) → 0 ≤ a → 0 ≤ b →
  to_string a +:+ String c r1 = to_string b +:+ String c r2 → a = b ∧ r1 = r2.
Proof.
  intros Hc Ha Hb [E ->]%cut_inj; [|by apply to_string_free_of..].
  split; [|done]. by apply to_string_inj.
Qed.

Lemma digit_not_separator c :
  (c = Ascii.ascii_of_nat 46 ∨ c = Ascii.ascii_of_nat 47) → ∀ y, pretty_N_char y ≠ c.
Proof. intros Hc y. unfold pretty_N_char. destruct Hc as [-> | ->]; by repeat case_match. Qed.
