(* ===== verification/Hshm.v ===== *)
(** * Interfaces of the libraries the runtime is built on

    The runtime is written on top of [hermes_shm] (namespaces [hshm] and [hipc]),
    [cereal], and the hash functions of the C++ library. Their code is not part of
    the repository: each is a class of operations, the parameters of the model, and
    a class of laws that states the documented behaviour the runtime relies on.
    [RefLib] gives the instances the witnesses run on. *)

From S2P Require Import Prelude.

(** ** [hshm::bitfield32_t]

    The structure's only member, [bits_], is public and a [u32]; a bitfield is its
    [bits_]. [BIT_OPT(u32, n)] is the mask of bit [n]. *)
Class BitfieldOps := {
  BIT_OPT : Z → Z;
  bitfield_new : Z;
  bitfield_of : Z → Z;
  SetBits : Z → Z → Z;
  UnsetBits : Z → Z → Z;
  Any : Z → Z → bool;
}.

Class BitfieldLaws `{BitfieldOps} : Prop := {
  BIT_OPT_spec n : 0 ≤ n < 32 → BIT_OPT n = 2 ^ n;
  bitfield_new_spec : bitfield_new = 0;
  bitfield_of_spec m : bitfield_of m = m;
  SetBits_spec b m : SetBits b m = Z.lor b m;
  UnsetBits_spec b m : UnsetBits b m = Z.ldiff b m;
  Any_spec b m : Any b m = negb (Z.land b m =? 0);
}.

(** ** [HELOG(kFatal, ...)]: whether a fatal log entry ends the process. *)
Class Logger := { fatal_exits : bool }.

Definition HELOG_kFatal `{Logger} {A} (k : outcome A) : outcome A :=
  if fatal_exits then Exit else k.

(** ** [hshm::charbuf]: a resizable byte buffer. *)
Class CharbufOps := { buf_resize : list Z → nat → list Z }.

Class CharbufLaws `{CharbufOps} : Prop := {
  length_buf_resize b n : length (buf_resize b n) = n;
  buf_resize_keeps b n i : (i < n)%nat → (i < length b)%nat → buf_resize b n !! i = b !! i;
}.

(** ** [hipc::mpsc_queue]: a bounded queue in shared memory, by its contents.

    [emplace] yields a token, null ([None]) when the element was not stored; [peek]
    reads at an offset from the head; [pop] drops the head. *)
Class MpscOps := {
  mpsc_emplace : ∀ {A : Type}, Z → list A → A → option (list A);
  mpsc_peek : ∀ {A : Type}, list A → Z → option A;
  mpsc_pop : ∀ {A : Type}, list A → list A;
}.

Class MpscLaws `{MpscOps} : Prop := {
  mpsc_emplace_room {A} d (l : list A) a :
    Z.of_nat (length l) < d → mpsc_emplace d l a = Some (l ++ [a]);
  mpsc_emplace_fifo {A} d (l : list A) a l' :
    mpsc_emplace d l a = Some l' → l' = l ++ [a];
  mpsc_peek_spec {A} (l : list A) off : 0 ≤ off → mpsc_peek l off = l !! Z.to_nat off;
  mpsc_pop_spec {A} (l : list A) : mpsc_pop l = tail l;
}.

(** ** [hshm::spsc_queue]: a bounded single-producer single-consumer queue. *)
Class SpscOps := {
  spsc_emplace : ∀ {A : Type}, Z → list A → A → list A;
  spsc_pop : ∀ {A : Type}, list A → option (A * list A);
  spsc_size : ∀ {A : Type}, list A → Z;
}.

Class SpscLaws `{SpscOps} : Prop := {
  spsc_emplace_room {A} d (l : list A) a :
    Z.of_nat (length l) < d → spsc_emplace d l a = l ++ [a];
  spsc_pop_nil {A} : spsc_pop (A:=A) [] = None;
  spsc_pop_cons {A} (a : A) l : spsc_pop (a :: l) = Some (a, l);
  spsc_size_spec {A} (l : list A) : spsc_size l = Z.of_nat (length l);
}.

(** ** [hipc::vector] and [hipc::pod_array]: [resize] (with the value of new elements),
    [replace] and [erase] at an iterator. *)
Class HvecOps := {
  hvec_resize : ∀ {A : Type}, A → list A → nat → list A;
  hvec_replace : ∀ {A : Type}, list A → nat → A → list A;
  hvec_erase : ∀ {A : Type}, list A → nat → list A;
}.

Class HvecLaws `{HvecOps} : Prop := {
  hvec_resize_spec {A} (d : A) l n :
    hvec_resize d l n = take n l ++ replicate (n - length l)%nat d;
  hvec_replace_spec {A} (l : list A) i x :
    (i < length l)%nat → hvec_replace l i x = <[i := x]> l;
  hvec_erase_spec {A} (l : list A) i :
    (i < length l)%nat → hvec_erase l i = take i l ++ drop (S i) l;
}.

(** ** Copies, moves and destruction of containers in shared memory

    The copy assignment of a [hipc::vector] constructs a copy of the [i]-th element with the
    element's copy constructor, [f i]; the move assignment yields the new vector and what is
    left. [shm_destroy] of a container calls the members [IsNull], [shm_destroy_main] and
    [SetNull] that the container defines. *)
Class ContainerOps := {
  hvec_assign : ∀ {A : Type}, (nat → A → A) → list A → list A;
  hvec_move : ∀ {A : Type}, list A → list A * list A;
  hvec_destroy : ∀ {A : Type}, list A → list A;
  hvec_IsNull : ∀ {A : Type}, list A → bool;
  shm_destroy : ∀ {A : Type}, (A → bool) → (A → A) → (A → A) → A → A;
}.

Class ContainerLaws `{ContainerOps} : Prop := {
  hvec_assign_spec {A} (f : nat → A → A) l : hvec_assign f l = imap f l;
  hvec_move_spec {A} (l : list A) : (hvec_move l).1 = l ∧ hvec_IsNull (hvec_move l).2 = true;
  hvec_destroy_null {A} (l : list A) : hvec_IsNull (hvec_destroy l) = true;
  shm_destroy_spec {A} (IsNull : A → bool) main SetNull a :
    shm_destroy IsNull main SetNull a = if IsNull a then a else SetNull (main a);
}.

(** ** [hipc::split_ticket_queue]: a pool of tickets, by the tickets it holds. *)
Class TicketOps := { ticket_emplace : list Z → Z → list Z }.

Class TicketLaws `{TicketOps} : Prop := {
  ticket_emplace_spec l x : ticket_emplace l x = l ++ [x];
}.

(** ** [hipc::Allocator]

    A [hipc::Pointer] is an offset that [Convert] maps to an address of the process;
    address 0 is null. An allocation yields a pointer and its address, or fails. *)
Class AllocOps := {
  Convert : Z → Z;
  allocate : ∀ {A : Type}, gmap Z A → option (Z * Z);
}.

Class AllocLaws `{AllocOps} : Prop := {
  allocate_fresh {A} (h : gmap Z A) p a :
    allocate h = Some (p, a) → h !! a = None ∧ a ≠ 0 ∧ Convert p = a;
}.

(** ** [cereal::BinaryOutputArchive] / [BinaryInputArchive] on the leaf types *)
Class CerealOps := {
  cereal_u32 : codec Z;
  cereal_u64 : codec Z;
  cereal_int : codec Z;
  cereal_bitfield : codec Z;
  cereal_string : codec string;
  cereal_vector : ∀ {A : Type}, codec A → codec (list A);
}.

Class CerealLaws `{CerealOps} : Prop := {
  cereal_u32_ok : codec_ok cereal_u32 is_u32;
  cereal_u64_ok : codec_ok cereal_u64 is_u64;
  cereal_int_ok : codec_ok cereal_int is_i32;
  cereal_bitfield_ok : codec_ok cereal_bitfield is_u32;
  cereal_string_ok : codec_ok cereal_string (λ s, is_u64 (Z.of_nat (String.length s)));
  cereal_vector_ok {A} (c : codec A) P :
    codec_ok c P →
    codec_ok (cereal_vector c) (λ l, is_u64 (Z.of_nat (length l)) ∧ Forall P l);
}.

(** ** [std::hash] of the C++ library: unspecified functions to [size_t]. *)
Class StdHash := { hash_u64 : Z → Z; hash_u32 : Z → Z }.

(** ** Reasoning about flags *)

#[export] Hint Rewrite @BIT_OPT_spec using lia : hrun.
#[export] Hint Rewrite @bitfield_new_spec @bitfield_of_spec @SetBits_spec @UnsetBits_spec
  @Any_spec using typeclasses eauto : hrun.

Section bitfield_lemmas.
Context `{BitfieldLaws}.

Lemma Any_testbit b n : 0 ≤ n < 32 → Any b (BIT_OPT n) = Z.testbit b n.
Proof.
  intros Hn. rewrite Any_spec, BIT_OPT_spec by done.
  destruct (Z.testbit b n) eqn:E.
  - destruct (Z.eqb_spec (Z.land b (2 ^ n)) 0) as [E0|]; [|done].
    apply (f_equal (λ z, Z.testbit z n)) in E0.
    by rewrite Z.land_spec, E, Z.pow2_bits_true, Z.bits_0 in E0 by lia.
  - enough (Z.land b (2 ^ n) = 0) as ->; [done|].
    apply Z.bits_inj'. intros i Hi. rewrite Z.land_spec, Z.bits_0, Z.pow2_bits_eqb by lia.
    destruct (Z.eqb_spec n i) as [->|]; [by rewrite E | apply andb_false_r].
Qed.

Lemma Any_lor b m1 m2 : Any b (Z.lor m1 m2) = Any b m1 || Any b m2.
Proof.
  rewrite !Any_spec, Z.land_lor_distr_r.
  destruct (Z.eqb_spec (Z.lor (Z.land b m1) (Z.land b m2)) 0) as [E|E];
    rewrite Z.lor_eq_0_iff in E;
    destruct (Z.eqb_spec (Z.land b m1) 0), (Z.eqb_spec (Z.land b m2) 0); naive_solver.
Qed.

Lemma testbit_BIT_OPT n i :
  0 ≤ n < 32 → 0 ≤ i → Z.testbit (BIT_OPT n) i = (n =? i).
Proof. intros. rewrite BIT_OPT_spec by done. apply Z.pow2_bits_eqb. lia. Qed.

Lemma testbit_SetBits b m i : Z.testbit (SetBits b m) i = Z.testbit b i || Z.testbit m i.
Proof. by rewrite SetBits_spec, Z.lor_spec. Qed.

Lemma testbit_UnsetBits b m i :
  Z.testbit (UnsetBits b m) i = Z.testbit b i && negb (Z.testbit m i).
Proof. by rewrite UnsetBits_spec, Z.ldiff_spec. Qed.

Lemma lor_u32 b m : is_u32 b → is_u32 m → is_u32 (Z.lor b m).
Proof.
  rewrite !is_u32_bits, Z.lor_nonneg. intros [? Hb] [? Hm].
  split; [done|]. intros i Hi. by rewrite Z.lor_spec, Hb, Hm.
Qed.

Lemma SetBits_u32 b m : is_u32 b → is_u32 m → is_u32 (SetBits b m).
Proof. rewrite SetBits_spec. apply lor_u32. Qed.

Lemma UnsetBits_u32 b m : is_u32 b → is_u32 (UnsetBits b m).
Proof.
  rewrite !is_u32_bits, UnsetBits_spec, Z.ldiff_nonneg. intros [? Hb].
  split; [by left|]. intros i Hi. by rewrite Z.ldiff_spec, Hb.
Qed.

Lemma BIT_OPT_u32 n : 0 ≤ n < 32 → is_u32 (BIT_OPT n).
Proof.
  intros. rewrite BIT_OPT_spec by done. split; [lia|].
  apply Z.pow_lt_mono_r; lia.
Qed.
End bitfield_lemmas.

#[export] Hint Resolve lor_u32 SetBits_u32 UnsetBits_u32 BIT_OPT_u32 : hrun.

(** [flags] reduces a statement about the flags of a bitfield to its bits. *)
Ltac flags :=
  repeat (rewrite ?Any_lor, ?testbit_SetBits, ?testbit_UnsetBits, ?Z.lor_spec;
          first [rewrite Any_testbit by lia | rewrite testbit_BIT_OPT by lia | idtac]);
  rewrite ?Any_lor, ?testbit_SetBits, ?testbit_UnsetBits, ?Z.lor_spec;
  repeat rewrite Any_testbit by lia;
  repeat rewrite testbit_BIT_OPT by lia.

(** Evaluates the comparisons of literals. *)
Ltac eval_eqb :=
  repeat match goal with
  | |- context [?a =? ?b] =>
      let v := eval vm_compute in (a =? b) in
      match v with
      | true => change (a =? b) with true
      | false => change (a =? b) with false
      end
  end.

(** [solve_codec] finds the well-formedness predicate of a composite codec. *)
Ltac solve_codec :=
  repeat first
    [ eapply pair_codec_ok
    | apply cereal_u32_ok | apply cereal_u64_ok | apply cereal_int_ok
    | apply cereal_bitfield_ok | apply cereal_string_ok
    | eapply cereal_vector_ok
    | solve [eauto with hrun] ].
