(* ===== verification/RefLib.v ===== *)
(** * Reference instances of the library interfaces

    Concrete implementations of the classes of [Hshm], with their laws. The witnesses
    of the development run on them; no theorem depends on them. *)

From S2P Require Import Prelude Hshm.
From Stdlib Require Ascii String.

Definition ref_bitfield : BitfieldOps := {|
  BIT_OPT n := Z.shiftl 1 n;
  bitfield_new := 0;
  bitfield_of m := m;
  SetBits := Z.lor;
  UnsetBits := Z.ldiff;
  Any b m := negb (Z.land b m =? 0);
|}.

Lemma ref_bitfield_laws : @BitfieldLaws ref_bitfield.
Proof. split; try done. intros n Hn. simpl. rewrite Z.shiftl_mul_pow2; lia. Qed.

Definition ref_logger : Logger := {| fatal_exits := true |}.
Definition ref_logger_continue : Logger := {| fatal_exits := false |}.

Definition ref_charbuf : CharbufOps := {|
  buf_resize b n := take n b ++ replicate (n - length b)%nat (0 : Z);
|}.

Lemma ref_charbuf_laws : @CharbufLaws ref_charbuf.
Proof.
  split.
  - intros b n. simpl. rewrite length_app, length_take, length_replicate. lia.
  - intros b n i Hn Hb. simpl. rewrite lookup_app_l by (rewrite length_take; lia).
    by apply lookup_take_lt.
Qed.

Definition ref_mpsc : MpscOps := {|
  mpsc_emplace _ d l a := if Z.of_nat (length l) <? d then Some (l ++ [a]) else None;
  mpsc_peek _ l off := if off <? 0 then None else l !! Z.to_nat off;
  mpsc_pop _ l := tail l;
|}.

Lemma ref_mpsc_laws : @MpscLaws ref_mpsc.
Proof.
  split; simpl; try done.
  - intros A d l a H. by rewrite (proj2 (Z.ltb_lt _ _) H).
  - intros A d l a l' H. case_bool; by simplify_eq.
  - intros A l off H. by rewrite (proj2 (Z.ltb_ge _ _) H).
Qed.

Definition ref_spsc : SpscOps := {|
  spsc_emplace _ d l a := if Z.of_nat (length l) <? d then l ++ [a] else l;
  spsc_pop _ l := match l with [] => None | a :: l => Some (a, l) end;
  spsc_size _ l := Z.of_nat (length l);
|}.

Lemma ref_spsc_laws : @SpscLaws ref_spsc.
Proof. split; simpl; try done. intros A d l a H. by rewrite (proj2 (Z.ltb_lt _ _) H). Qed.

Definition ref_hvec : HvecOps := {|
  hvec_resize _ d l n := take n l ++ replicate (n - length l)%nat d;
  hvec_replace _ l i x := <[i := x]> l;
  hvec_erase _ l i := take i l ++ drop (S i) l;
|}.

Lemma ref_hvec_laws : @HvecLaws ref_hvec.
Proof. by split. Qed.

Definition ref_container : ContainerOps := {|
  hvec_assign _ f l := imap f l;
  hvec_move _ l := (l, []);
  hvec_destroy _ _ := [];
  hvec_IsNull _ l := bool_decide (length l = 0%nat);
  shm_destroy _ IsNull main SetNull a := if IsNull a then a else SetNull (main a);
|}.

Lemma ref_container_laws : @ContainerLaws ref_container.
Proof. by split. Qed.

Definition ref_ticket : TicketOps := {| ticket_emplace l x := l ++ [x] |}.

Lemma ref_ticket_laws : @TicketLaws ref_ticket.
Proof. by split. Qed.

Definition ref_alloc : AllocOps := {|
  Convert p := p;
  allocate _ h := Some (fresh_addr h, fresh_addr h);
|}.

Lemma ref_alloc_laws : @AllocLaws ref_alloc.
Proof.
  split. intros A h p a [= <- <-]. split; [|split; [|done]].
  - apply fresh_addr_None.
  - pose proof (fresh_addr_pos h). lia.
Qed.

(** ** Binary archives: fixed-width little-endian integers, length-prefixed sequences *)

Definition ref_uint (n : nat) : codec Z := {|
  enc z := le_bytes n z;
  dec bs := if (length bs <? n)%nat then None else Some (le_value (take n bs), drop n bs);
|}.

Lemma ref_uint_ok n : codec_ok (ref_uint n) (λ z, 0 ≤ z < 256 ^ Z.of_nat n).
Proof.
  intros z rest Hz. simpl. rewrite length_app, length_le_bytes.
  rewrite (proj2 (Nat.ltb_ge _ _)) by lia.
  rewrite take_app_exact, drop_app_exact by (by rewrite length_le_bytes).
  by rewrite le_value_bytes, Z.mod_small.
Qed.

Definition ref_int : codec Z := map_codec to_i32 wrap32 (ref_uint 4).

Lemma ref_int_ok : codec_ok ref_int is_i32.
Proof.
  apply (map_codec_ok _ _ _ _ _ (ref_uint_ok 4)). intros z [H1 H2]. split.
  - apply wrap32_range.
  - unfold to_i32. rewrite (wrap32_small (wrap32 z)) by apply wrap32_range.
    unfold wrap32. destruct (decide (0 ≤ z)).
    + rewrite Z.mod_small by lia. by rewrite (proj2 (Z.ltb_lt _ _)).
    + replace (z `mod` 2 ^ 32) with (z + 2 ^ 32);
        [rewrite (proj2 (Z.ltb_ge _ _)); lia|].
      rewrite <- (Z_mod_plus_full z 1), Z.mod_small; lia.
Qed.

Fixpoint dec_n {A} (c : codec A) (n : nat) (bs : list Z) : option (list A * list Z) :=
  match n with
  | O => Some ([], bs)
  | S n => '(x, bs1) ← dec c bs; '(xs, bs2) ← dec_n c n bs1; Some (x :: xs, bs2)
  end.

Definition ref_vector {A} (c : codec A) : codec (list A) := {|
  enc l := enc (ref_uint 8) (Z.of_nat (length l)) ++ concat (enc c <$> l);
  dec bs := '(n, bs1) ← dec (ref_uint 8) bs; dec_n c (Z.to_nat n) bs1;
|}.

Lemma ref_vector_ok {A} (c : codec A) P :
  codec_ok c P →
  codec_ok (ref_vector c) (λ l, is_u64 (Z.of_nat (length l)) ∧ Forall P l).
Proof.
  intros Hc l rest [Hn HP]. cbn [enc dec ref_vector].
  rewrite <- (assoc_L app), (ref_uint_ok 8) by apply Hn. cbn [mbind option_bind].
  rewrite Nat2Z.id. clear Hn. induction HP as [|x l Hx HP IH]; [done|].
  cbn [length dec_n fmap list_fmap concat]. rewrite <- (assoc_L app), Hc by done.
  cbn [mbind option_bind]. change (list_fmap A (list Z) (enc c) l) with (enc c <$> l). rewrite IH. done.
Qed.

Definition ref_string : codec string :=
  map_codec (λ l, String.string_of_list_ascii (map (λ z, Ascii.ascii_of_nat (Z.to_nat z)) l))
            (λ s, map (λ a, Z.of_nat (Ascii.nat_of_ascii a)) (String.list_ascii_of_string s))
            (ref_vector (ref_uint 1)).

Lemma length_list_ascii s : length (String.list_ascii_of_string s) = String.length s.
Proof. induction s; simpl; auto. Qed.

Lemma ascii_codes_bytes l :
  Forall (λ z, 0 ≤ z < 256) (map (λ a, Z.of_nat (Ascii.nat_of_ascii a)) l).
Proof.
  induction l as [|a l IH]; constructor; [|done].
  pose proof (Ascii.nat_ascii_bounded a). lia.
Qed.

Lemma ascii_codes_inv l :
  map (λ z, Ascii.ascii_of_nat (Z.to_nat z)) (map (λ a, Z.of_nat (Ascii.nat_of_ascii a)) l) = l.
Proof. induction l as [|a l IH]; simpl; [done|]. by rewrite Nat2Z.id, Ascii.ascii_nat_embedding, IH. Qed.

Lemma ref_string_ok : codec_ok ref_string (λ s, is_u64 (Z.of_nat (String.length s))).
Proof.
  apply (map_codec_ok _ _ _ _ _ (ref_vector_ok _ _ (ref_uint_ok 1))).
  intros s Hs. split; [split|].
  - by rewrite length_map, length_list_ascii.
  - apply ascii_codes_bytes.
  - by rewrite ascii_codes_inv, String.string_of_list_ascii_of_string.
Qed.

Definition ref_cereal : CerealOps := {|
  cereal_u32 := ref_uint 4;
  cereal_u64 := ref_uint 8;
  cereal_int := ref_int;
  cereal_bitfield := ref_uint 4;
  cereal_string := ref_string;
  cereal_vector _ c := ref_vector c;
|}.

Lemma ref_cereal_laws : @CerealLaws ref_cereal.
Proof.
  split.
  - apply (ref_uint_ok 4).
  - apply (ref_uint_ok 8).
  - apply ref_int_ok.
  - apply (ref_uint_ok 4).
  - apply ref_string_ok.
  - intros A c P. apply ref_vector_ok.
Qed.

Definition ref_hash : StdHash := {| hash_u64 z := z; hash_u32 z := z |}.

(** The witnesses of a file import this module to run on the reference instances. *)
Module RefInstances.
  #[export] Existing Instance ref_bitfield.
  #[export] Existing Instance ref_bitfield_laws.
  #[export] Existing Instance ref_logger.
  #[export] Existing Instance ref_charbuf.
  #[export] Existing Instance ref_charbuf_laws.
  #[export] Existing Instance ref_mpsc.
  #[export] Existing Instance ref_mpsc_laws.
  #[export] Existing Instance ref_spsc.
  #[export] Existing Instance ref_spsc_laws.
  #[export] Existing Instance ref_hvec.
  #[export] Existing Instance ref_hvec_laws.
  #[export] Existing Instance ref_container.
  #[export] Existing Instance ref_container_laws.
  #[export] Existing Instance ref_ticket.
  #[export] Existing Instance ref_ticket_laws.
  #[export] Existing Instance ref_alloc.
  #[export] Existing Instance ref_alloc_laws.
  #[export] Existing Instance ref_cereal.
  #[export] Existing Instance ref_cereal_laws.
  #[export] Existing Instance ref_hash.
End RefInstances.
