(* ===== verification/Types.v ===== *)
(** * Identifiers ([include/hermes_run/hermes_run_types.h])

    [UniqueId] identifies task states, queues and tasks; [DomainId] names the nodes a
    task runs on. The C++ template [UniqueId<TYPE>] has the same members at every
    [TYPE], and a converting constructor between them: one record models them all. *)

From S2P Require Import Prelude Hshm RefLib.

Module UniqueId.

Record UniqueId := mkUniqueId {
  node_id_ : Z;
  hash_ : Z;
  unique_ : Z;
}.

#[export] Instance UniqueId_eq_dec : EqDecision UniqueId.
Proof. solve_decision. Defined.

(** [UniqueId(u32 node_id, u64 unique)] *)
Definition make (node_id unique : Z) : UniqueId :=
  {| node_id_ := node_id; hash_ := 0; unique_ := unique |}.

(** [UniqueId(u32 node_id, u32 hash, u64 unique)] *)
Definition make_hash (node_id hash unique : Z) : UniqueId :=
  {| node_id_ := node_id; hash_ := hash; unique_ := unique |}.

(** The converting constructor, [UniqueId(const UniqueId<OTHER_TYPE> &other)] *)
Definition convert (other : UniqueId) : UniqueId :=
  {| node_id_ := node_id_ other; hash_ := hash_ other; unique_ := unique_ other |}.

Definition IsNull (id : UniqueId) : bool := node_id_ id =? 0.

Definition GetNull : UniqueId := make 0 0.

(** [SetNull] assigns the three members. *)
Definition SetNull (id : UniqueId) : UniqueId :=
  {| node_id_ := 0; hash_ := 0; unique_ := 0 |}.

Definition GetNodeId (id : UniqueId) : Z := node_id_ id.

(** [operator==]: the hash is not compared. *)
Definition equal (a b : UniqueId) : bool :=
  (unique_ a =? unique_ b) && (node_id_ a =? node_id_ b).

(** [operator!=] *)
Definition not_equal (a b : UniqueId) : bool :=
  negb (unique_ a =? unique_ b) || negb (node_id_ a =? node_id_ b).

(** [std::hash<UniqueId>]: a sum of [size_t]. *)
Definition std_hash `{StdHash} (key : UniqueId) : Z :=
  wrap64 (hash_u64 (unique_ key) + hash_u32 (node_id_ key)).

(** [UniqueId::serialize]: the three members in order. *)
Definition serialize `{CerealOps} : codec UniqueId :=
  map_codec (λ '(n, (h, u)), mkUniqueId n h u)
            (λ id, (node_id_ id, (hash_ id, unique_ id)))
            (cereal_u32 ⊗c cereal_u32 ⊗c cereal_u64).

(** Ids hold machine integers. *)
Definition wf (id : UniqueId) : Prop :=
  is_u32 (node_id_ id) ∧ is_u32 (hash_ id) ∧ is_u64 (unique_ id).

(** The copy and move constructors and assignments *)
#[export] Instance uid_copy : CopyOps UniqueId := {|
  copy other :=
    {| node_id_ := node_id_ other; hash_ := hash_ other; unique_ := unique_ other |};
  assign same this other :=
    if same then this
    else {| node_id_ := node_id_ other; hash_ := hash_ other; unique_ := unique_ other |};
  move other :=
    ({| node_id_ := node_id_ other; hash_ := hash_ other; unique_ := unique_ other |}, other);
  move_assign same this other :=
    if same then (this, this)
    else ({| node_id_ := node_id_ other; hash_ := hash_ other; unique_ := unique_ other |},
          other);
|}.

#[export] Instance uid_copy_laws : CopyLaws UniqueId.
Proof. solve_copy_laws. Qed.

(** [operator<<]: the string that is sent to the stream. *)
Definition print (obj : UniqueId) : string :=
  to_string (node_id_ obj) +:+ "." +:+ to_string (unique_ obj).

(** The part of an id that [operator==] and [std::hash] read: the key under which an
    [unordered_map] indexed by [UniqueId] stores its entry. *)
Definition key (id : UniqueId) : Z * Z := (node_id_ id, unique_ id).

Lemma equal_key a b : equal a b = true ↔ key a = key b.
Proof.
  unfold equal, key. rewrite andb_true_iff, !Z.eqb_eq, pair_equal_spec. naive_solver.
Qed.

Lemma print_free_of c id : c = Ascii.ascii_of_nat 47 → free_of c (print id) = true.
Proof.
  intros ->. unfold print. rewrite !free_of_app, !to_string_free_of; [done|..];
    auto using digit_not_separator.
Qed.

(** Ids print alike exactly when [operator==] holds. *)
Lemma print_equal a b : wf a → wf b → (print a = print b ↔ equal a b = true).
Proof.
  intros (Ha&_&Hua) (Hb&_&Hub). rewrite equal_key. unfold print, key, is_u32, is_u64 in *.
  split; [|by intros [= -> ->]].
  intros [-> E]%to_string_cut; [|auto using digit_not_separator|lia..].
  f_equal. apply to_string_inj; [lia..|done].
Qed.

Lemma uid_serialize_ok `{CerealLaws} : codec_ok serialize wf.
Proof.
  eapply map_codec_ok; [solve_codec|].
  intros [n h u] (?&?&?). simpl. auto.
Qed.

End UniqueId.
Export (hints) UniqueId.
Abbreviation UniqueId := UniqueId.UniqueId.

(** [using TaskStateId = UniqueId<1>] and the other identifier types *)
Abbreviation TaskStateId := UniqueId.UniqueId.
Abbreviation QueueId := UniqueId.UniqueId.
Abbreviation TaskId := UniqueId.UniqueId.

Module DomainId.

Record DomainId := mkDomainId {
  flags_ : Z;
  id_ : Z;
}.

#[export] Instance DomainId_eq_dec : EqDecision DomainId.
Proof. solve_decision. Defined.

Section domain.
Context `{BitfieldOps}.

(** The domain flags *)
Definition kLocal : Z := BIT_OPT 0.
Definition kGlobal : Z := BIT_OPT 1.
Definition kSet : Z := BIT_OPT 2.
Definition kNode : Z := BIT_OPT 3.

(** The default constructor *)
Definition new : DomainId := {| flags_ := bitfield_new; id_ := 0 |}.

Definition IsRemote (d : DomainId) (num_hosts this_node : Z) : bool :=
  if num_hosts =? 1 then false
  else Any (flags_ d) (Z.lor kGlobal kSet)
       || (Any (flags_ d) kNode && negb (id_ d =? this_node)).

Definition GetLocal : DomainId :=
  let id := new in {| id_ := 0; flags_ := SetBits (flags_ id) kLocal |}.

Definition GetId (d : DomainId) : Z := id_ d.

Definition IsNode (d : DomainId) : bool := Any (flags_ d) kNode.

Definition GetNode (node_id : Z) : DomainId :=
  let id := new in {| id_ := node_id; flags_ := SetBits (flags_ id) kNode |}.

Definition GetNodeWithLocal (node_id : Z) : DomainId :=
  let id := new in {| id_ := node_id; flags_ := SetBits (flags_ id) kLocal |}.

Definition IsGlobal (d : DomainId) : bool := Any (flags_ d) kGlobal.

Definition GetGlobal : DomainId :=
  let id := new in {| id_ := 0; flags_ := SetBits (flags_ id) kGlobal |}.

Definition IsSet (d : DomainId) : bool := Any (flags_ d) kSet.

Definition GetSet (domain_id : Z) : DomainId :=
  let id := new in {| id_ := domain_id; flags_ := SetBits (flags_ id) kSet |}.

Definition GetSetWithLocal (domain_id : Z) : DomainId :=
  let id := new in
  {| id_ := domain_id; flags_ := SetBits (flags_ id) (Z.lor kSet kLocal) |}.

(** [operator==] and [operator!=] *)
Definition equal (a b : DomainId) : bool :=
  (id_ a =? id_ b) && (flags_ a =? flags_ b).

Definition not_equal (a b : DomainId) : bool :=
  negb (id_ a =? id_ b) || negb (flags_ a =? flags_ b).

End domain.

(** [std::hash<DomainId>] *)
Definition std_hash `{StdHash} (key : DomainId) : Z :=
  wrap64 (hash_u32 (id_ key) + hash_u32 (flags_ key)).

(** [DomainId::serialize] *)
Definition serialize `{CerealOps} : codec DomainId :=
  map_codec (λ '(f, i), mkDomainId f i) (λ d, (flags_ d, id_ d))
            (cereal_bitfield ⊗c cereal_u32).

(** The copy and move constructors and assignments *)
#[export] Instance domain_copy : CopyOps DomainId := {|
  copy other := {| id_ := id_ other; flags_ := flags_ other |};
  assign same this other :=
    if same then this else {| id_ := id_ other; flags_ := flags_ other |};
  move other := ({| id_ := id_ other; flags_ := flags_ other |}, other);
  move_assign same this other :=
    if same then (this, this) else ({| id_ := id_ other; flags_ := flags_ other |}, other);
|}.

#[export] Instance domain_copy_laws : CopyLaws DomainId.
Proof. solve_copy_laws. Qed.

Definition wf (d : DomainId) : Prop := is_u32 (flags_ d) ∧ is_u32 (id_ d).

Lemma equal_eq a b : equal a b = true ↔ a = b.
Proof.
  unfold equal. rewrite andb_true_iff, !Z.eqb_eq. destruct a, b; simpl.
  split; [intros []|intros [=]]; subst; auto.
Qed.

Lemma domain_serialize_ok `{CerealLaws} : codec_ok serialize wf.
Proof.
  eapply map_codec_ok; [solve_codec|].
  intros [f i] []. simpl. auto.
Qed.

End DomainId.
Export (hints) DomainId.
Abbreviation DomainId := DomainId.DomainId.

(** The bits of the flag constants, for the [flags] tactic. *)
Ltac unfold_domain :=
  unfold DomainId.IsRemote, DomainId.IsNode, DomainId.IsGlobal, DomainId.IsSet,
    DomainId.GetLocal, DomainId.GetNode, DomainId.GetNodeWithLocal, DomainId.GetGlobal,
    DomainId.GetSet, DomainId.GetSetWithLocal, DomainId.new, DomainId.kLocal,
    DomainId.kGlobal, DomainId.kSet, DomainId.kNode in *;
  cbn [DomainId.flags_ DomainId.id_] in *.

(** [enum class IoType] *)
Inductive IoType := kRead | kWrite | kNone.

#[export] Instance IoType_eq_dec : EqDecision IoType.
Proof. solve_decision. Defined.

(** [template<typename T> struct DataPointer]: a sized pointer *)
Record DataPointer := { dp_ptr_ : Z; dp_size_ : Z }.

(** [enum class HermesRunMode] *)
Inductive HermesRunMode := kModeNone | kClient | kServer.

(** ** Properties *)

(** [std::hash<UniqueId>] is compatible with [operator==], and [operator!=] is its
    negation: ids that differ only in [hash_] are one key of an [unordered_map]. *)
Lemma uid_equal_hash_compatible `{StdHash} a b :
  UniqueId.not_equal a b = negb (UniqueId.equal a b) ∧
  (UniqueId.equal a b = true → UniqueId.std_hash a = UniqueId.std_hash b).
Proof.
  split.
  - unfold UniqueId.not_equal, UniqueId.equal. by rewrite negb_andb.
  - intros [= Hn Hu]%UniqueId.equal_key. unfold UniqueId.std_hash. by rewrite Hn, Hu.
Qed.

(** Where each kind of domain sends a task on a cluster of more than one host: the
    local domain nowhere else, the global domain and node sets to other nodes always, a
    node domain to another node when the node is not this one. A node domain "with
    local" keeps no trace of its node: it is never remote. *)
Theorem domain_IsRemote_cases `{BitfieldLaws} num_hosts this_node n :
  num_hosts ≠ 1 →
  DomainId.IsRemote DomainId.GetLocal num_hosts this_node = false ∧
  DomainId.IsRemote DomainId.GetGlobal num_hosts this_node = true ∧
  DomainId.IsRemote (DomainId.GetNode n) num_hosts this_node = negb (n =? this_node) ∧
  DomainId.IsRemote (DomainId.GetSet n) num_hosts this_node = true ∧
  DomainId.IsRemote (DomainId.GetSetWithLocal n) num_hosts this_node = true ∧
  DomainId.IsRemote (DomainId.GetNodeWithLocal n) num_hosts this_node = false.
Proof.
  intros Hn. unfold_domain. rewrite (proj2 (Z.eqb_neq _ _) Hn), bitfield_new_spec.
  flags. done.
Qed.

Section witness.
Import RefInstances.

Lemma domain_IsRemote_cases_witness :
  DomainId.IsRemote (DomainId.GetNode 2) 3 1 = true ∧
  DomainId.IsRemote (DomainId.GetNodeWithLocal 2) 3 1 = false.
Proof.
  assert (3 ≠ 1) as Hn by discriminate.
  destruct (domain_IsRemote_cases 3 1 2 Hn) as (_ & _ & Hr & _ & _ & Hl).
  split; [exact Hr|exact Hl].
Defined.

End witness.
