(* ===== verification/Queue.v ===== *)
(** * Task queues ([include/hermes_run/queue_manager])

    A [MultiQueue] divides its lanes into groups by priority; a lane is a bounded
    queue of pointers to tasks. The state is [queue.h] and [queues/hshm_queue.h]. *)

From S2P Require Import Prelude Hshm RefLib Types.

Section flags.
Context `{BitfieldOps}.

Definition QUEUE_LOW_LATENCY : Z := BIT_OPT 0.
Definition QUEUE_RESIZE : Z := BIT_OPT 1.
Definition QUEUE_UPDATE : Z := BIT_OPT 2.
Definition QUEUE_UNORDERED : Z := BIT_OPT 3.
Definition QUEUE_LONG_RUNNING : Z := BIT_OPT 3.

End flags.

Module PriorityInfo.

Record PriorityInfo := mkPriorityInfo {
  max_lanes_ : Z;
  num_lanes_ : Z;
  depth_ : Z;
  flags_ : Z;
}.

#[export] Instance PriorityInfo_eq_dec : EqDecision PriorityInfo.
Proof. solve_decision. Defined.

(** [PriorityInfo(u32 num_lanes, u32 max_lanes, u32 depth, u32 flags)] *)
Definition make `{BitfieldOps} (num_lanes max_lanes depth flags : Z) : PriorityInfo := {|
  max_lanes_ := max_lanes;
  num_lanes_ := num_lanes;
  depth_ := depth;
  flags_ := bitfield_of flags;
|}.

(** The copy and move constructors and assignments *)
#[export] Instance priority_copy : CopyOps PriorityInfo := {|
  copy priority := {| max_lanes_ := max_lanes_ priority; num_lanes_ := num_lanes_ priority;
                      depth_ := depth_ priority; flags_ := flags_ priority |};
  assign same this priority :=
    if same then this
    else {| max_lanes_ := max_lanes_ priority; num_lanes_ := num_lanes_ priority;
            depth_ := depth_ priority; flags_ := flags_ priority |};
  move priority := ({| max_lanes_ := max_lanes_ priority; num_lanes_ := num_lanes_ priority;
                       depth_ := depth_ priority; flags_ := flags_ priority |}, priority);
  move_assign same this priority :=
    if same then (this, this)
    else ({| max_lanes_ := max_lanes_ priority; num_lanes_ := num_lanes_ priority;
             depth_ := depth_ priority; flags_ := flags_ priority |}, priority);
|}.

#[export] Instance priority_copy_laws : CopyLaws PriorityInfo.
Proof. solve_copy_laws. Qed.

(** [PriorityInfo::serialize] *)
Definition serialize `{CerealOps} : codec PriorityInfo :=
  map_codec (λ '(m, (n, (d, f))), mkPriorityInfo m n d f)
            (λ p, (max_lanes_ p, (num_lanes_ p, (depth_ p, flags_ p))))
            (cereal_u32 ⊗c cereal_u32 ⊗c cereal_u32 ⊗c cereal_bitfield).

Definition wf (p : PriorityInfo) : Prop :=
  is_u32 (max_lanes_ p) ∧ is_u32 (num_lanes_ p) ∧ is_u32 (depth_ p) ∧ is_u32 (flags_ p).

Lemma priority_serialize_ok `{CerealLaws} : codec_ok serialize wf.
Proof.
  eapply map_codec_ok; [solve_codec|].
  intros [m n d f] (?&?&?&?). simpl. auto.
Qed.

End PriorityInfo.
Export (hints) PriorityInfo.
Abbreviation PriorityInfo := PriorityInfo.PriorityInfo.

Module LaneData.

(** [thread_] is left uninitialised ([None]) by the constructor. *)
Record LaneData := mkLaneData {
  p_ : Z;
  complete_ : bool;
  thread_ : option Z;
}.

(** [LaneData(hipc::Pointer &p, bool complete)] *)
Definition make (p : Z) (complete : bool) : LaneData :=
  {| p_ := p; complete_ := complete; thread_ := None |}.

(** [entry->complete_ = true] *)
Definition set_complete (d : LaneData) : LaneData :=
  {| p_ := p_ d; complete_ := true; thread_ := thread_ d |}.

(** [entry->thread_ = t] *)
Definition set_thread (t : Z) (d : LaneData) : LaneData :=
  {| p_ := p_ d; complete_ := complete_ d; thread_ := Some t |}.

End LaneData.
Abbreviation LaneData := LaneData.LaneData.

(** [hipc::mpsc_queue<LaneData>]: its contents, its depth and its public flags. *)
Module Lane.

Record Lane := mkLane {
  data : list LaneData;
  depth_ : Z;
  flags_ : Z;
}.

Definition set_data (l : list LaneData) (q : Lane) : Lane :=
  {| data := l; depth_ := depth_ q; flags_ := flags_ q |}.

(** [Lane::emplace]: the token and the lane afterwards. *)
Definition emplace `{MpscOps} (q : Lane) (d : LaneData) : bool * Lane :=
  match mpsc_emplace (depth_ q) (data q) d with
  | Some l => (true, set_data l q)
  | None => (false, q)
  end.

Definition wf (q : Lane) : Prop := is_u32 (depth_ q).

End Lane.
Abbreviation Lane := Lane.Lane.

Module LaneGroup.

(** [struct LaneGroup : public PriorityInfo] *)
Record LaneGroup := mkLaneGroup {
  max_lanes_ : Z;
  num_lanes_ : Z;
  depth_ : Z;
  flags_ : Z;
  prio_ : Z;
  num_scheduled_ : Z;
  lanes_ : list Lane;
}.

(** [LaneGroup(const PriorityInfo &priority)]; [prio_] and [lanes_] are set by the
    queue that builds the group. *)
Definition make (priority : PriorityInfo) (prio : Z) (lanes : list Lane) : LaneGroup := {|
  max_lanes_ := PriorityInfo.max_lanes_ priority;
  num_lanes_ := PriorityInfo.num_lanes_ priority;
  num_scheduled_ := 0;
  depth_ := PriorityInfo.depth_ priority;
  flags_ := PriorityInfo.flags_ priority;
  prio_ := prio;
  lanes_ := lanes;
|}.

(** [LaneGroup(const LaneGroup &priority)]: the priority and the lanes of the copy are what
    its memory holds. *)
Definition copy (memory priority : LaneGroup) : LaneGroup := {|
  max_lanes_ := max_lanes_ priority;
  num_lanes_ := num_lanes_ priority;
  num_scheduled_ := num_scheduled_ priority;
  depth_ := depth_ priority;
  flags_ := flags_ priority;
  prio_ := prio_ memory;
  lanes_ := lanes_ memory;
|}.

(** [LaneGroup(LaneGroup &&priority)] assigns the same members, and leaves [priority]. *)
Definition move (memory priority : LaneGroup) : LaneGroup * LaneGroup :=
  ({| max_lanes_ := max_lanes_ priority;
      num_lanes_ := num_lanes_ priority;
      num_scheduled_ := num_scheduled_ priority;
      depth_ := depth_ priority;
      flags_ := flags_ priority;
      prio_ := prio_ memory;
      lanes_ := lanes_ memory |}, priority).

Definition set_lanes (l : list Lane) (g : LaneGroup) : LaneGroup := {|
  max_lanes_ := max_lanes_ g; num_lanes_ := num_lanes_ g; depth_ := depth_ g;
  flags_ := flags_ g; prio_ := prio_ g; num_scheduled_ := num_scheduled_ g; lanes_ := l;
|}.

(** [lane_group.num_scheduled_ = n] *)
Definition set_num_scheduled (n : Z) (g : LaneGroup) : LaneGroup := {|
  max_lanes_ := max_lanes_ g; num_lanes_ := num_lanes_ g; depth_ := depth_ g;
  flags_ := flags_ g; prio_ := prio_ g; num_scheduled_ := n; lanes_ := lanes_ g;
|}.

Definition IsLowPriority `{BitfieldOps} (g : LaneGroup) : bool :=
  Any (flags_ g) QUEUE_LONG_RUNNING || (prio_ g =? 0).

(** A group holds the [num_lanes_] lanes it declares. *)
Definition wf (g : LaneGroup) : Prop :=
  is_u32 (num_lanes_ g) ∧ Z.of_nat (length (lanes_ g)) = num_lanes_ g.

End LaneGroup.
Abbreviation LaneGroup := LaneGroup.LaneGroup.

Module MultiQueue.

Record MultiQueue := mkMultiQueue {
  id_ : QueueId;
  groups_ : list LaneGroup;
  flags_ : Z;
}.

Definition set_groups (l : list LaneGroup) (q : MultiQueue) : MultiQueue :=
  {| id_ := id_ q; groups_ := l; flags_ := flags_ q |}.

Definition set_flags (f : Z) (q : MultiQueue) : MultiQueue :=
  {| id_ := id_ q; groups_ := groups_ q; flags_ := f |}.

Section queue.
Context `{BitfieldOps}.

(** [MultiQueueT(hipc::Allocator *alloc)] assigns neither [id_] nor [groups_]: they hold what
    the memory the queue is built in holds. *)
Definition new (memory : MultiQueue) : MultiQueue :=
  {| id_ := id_ memory; groups_ := groups_ memory; flags_ := bitfield_new |}.

(** One group of the constructor below: the group's lanes, with its flags. *)
Definition make_group (prio : nat) (prio_info : PriorityInfo) : LaneGroup :=
  let lane := Lane.mkLane [] (PriorityInfo.depth_ prio_info) (PriorityInfo.flags_ prio_info) in
  LaneGroup.make prio_info (Z.of_nat prio)
    (replicate (Z.to_nat (PriorityInfo.num_lanes_ prio_info)) lane).

(** [MultiQueueT(hipc::Allocator *alloc, const QueueId &id, prios)] *)
Definition make (id : QueueId) (prios : list PriorityInfo) : MultiQueue :=
  {| id_ := id; groups_ := imap make_group prios; flags_ := bitfield_new |}.

(** Copies and moves. [raw i] is what the memory holds in which the [i]-th group is
    constructed; [same] tells whether both operands of an assignment are one object,
    [same_alloc] whether [GetAllocator() == other.GetAllocator()]. *)
Section copies.
Context `{ContainerOps}.

Definition IsNull (q : MultiQueue) : bool := hvec_IsNull (groups_ q).
Definition SetNull (q : MultiQueue) : MultiQueue := q.

Definition shm_destroy_main (q : MultiQueue) : MultiQueue :=
  set_groups (hvec_destroy (groups_ q)) q.

Definition destroy : MultiQueue → MultiQueue := shm_destroy IsNull shm_destroy_main SetNull.

(** The assignment of the groups is all it does. *)
Definition shm_strong_copy_construct_and_op (raw : nat → LaneGroup) (this other : MultiQueue)
    : MultiQueue :=
  set_groups (hvec_assign (λ i, LaneGroup.copy (raw i)) (groups_ other)) this.

(** [MultiQueueT(hipc::Allocator *alloc, const MultiQueueT &other)] *)
Definition copy (raw : nat → LaneGroup) (memory other : MultiQueue) : MultiQueue :=
  let this := SetNull (set_flags bitfield_new memory) in
  shm_strong_copy_construct_and_op raw this other.

(** [operator=(const MultiQueueT &other)] *)
Definition assign (raw : nat → LaneGroup) (same : bool) (this other : MultiQueue) : MultiQueue :=
  if same then this
  else
    let this := destroy this in
    shm_strong_copy_construct_and_op raw this other.

(** What both moves do: this object and [other] afterwards. *)
Definition take_groups (raw : nat → LaneGroup) (same_alloc : bool) (this other : MultiQueue)
    : MultiQueue * MultiQueue :=
  if same_alloc then
    let '(groups, rest) := hvec_move (groups_ other) in
    (set_groups groups this, SetNull (set_groups rest other))
  else
    let this := shm_strong_copy_construct_and_op raw this other in
    (this, destroy other).

(** [MultiQueueT(hipc::Allocator *alloc, MultiQueueT &&other)] *)
Definition move (raw : nat → LaneGroup) (same_alloc : bool) (memory other : MultiQueue)
    : MultiQueue * MultiQueue :=
  take_groups raw same_alloc (set_flags bitfield_new memory) other.

(** [operator=(MultiQueueT &&other)] *)
Definition move_assign (raw : nat → LaneGroup) (same same_alloc : bool)
    (this other : MultiQueue) : MultiQueue * MultiQueue :=
  if same then (this, this)
  else
    let this := destroy this in
    take_groups raw same_alloc this other.

End copies.

(** [Resize(u32 num_lanes)] has an empty body. *)
Definition Resize (num_lanes : Z) (q : MultiQueue) : MultiQueue := q.

Definition GetGroup (q : MultiQueue) (prio : Z) : outcome LaneGroup :=
  deref (at_index (groups_ q) prio).

(** [GetLane(LaneGroup &lane_group, u32 lane_id)] *)
Definition GetLaneIn (lane_group : LaneGroup) (lane_id : Z) : outcome Lane :=
  deref (at_index (LaneGroup.lanes_ lane_group) lane_id).

(** [GetLane(u32 prio, u32 lane_id)] *)
Definition GetLane (q : MultiQueue) (prio lane_id : Z) : outcome Lane :=
  lane_group ← GetGroup q prio; GetLaneIn lane_group lane_id.

(** Writing through the reference [GetLane] returns. *)
Definition put_lane (q : MultiQueue) (prio lane_id : Z) (lane : Lane) : MultiQueue :=
  match at_index (groups_ q) prio with
  | Some g =>
      let g' := LaneGroup.set_lanes (set_index lane_id lane (LaneGroup.lanes_ g)) g in
      set_groups (set_index prio g' (groups_ q)) q
  | None => q
  end.

Definition IsEmplacePlugged (q : MultiQueue) : bool := Any (flags_ q) QUEUE_RESIZE.

Definition IsPopPlugged (q : MultiQueue) : bool :=
  Any (flags_ q) (Z.lor QUEUE_UPDATE QUEUE_RESIZE).

(** [while (flags_.Any(QUEUE_UPDATE)) Yield();] *)
Definition WaitForEmplacePlug (q : MultiQueue) : outcome unit :=
  if Any (flags_ q) QUEUE_UPDATE then Blocked else Ok tt.

Definition PlugForResize (q : MultiQueue) : bool * MultiQueue := (true, q).
Definition PlugForUpdateTask (q : MultiQueue) : bool * MultiQueue := (true, q).

Definition UnplugForResize (q : MultiQueue) : MultiQueue :=
  set_flags (UnsetBits (flags_ q) QUEUE_RESIZE) q.

Definition UnplugForUpdateTask (q : MultiQueue) : MultiQueue :=
  set_flags (UnsetBits (flags_ q) QUEUE_UPDATE) q.

(** [Emplace(u32 prio, u32 lane_hash, const LaneData &data)] *)
Definition EmplaceData `{MpscOps} (q : MultiQueue) (prio lane_hash : Z) (data : LaneData)
    : outcome (bool * MultiQueue) :=
  _ ← (if IsEmplacePlugged q then WaitForEmplacePlug q else mret tt);
  lane_group ← GetGroup q prio;
  lane_id ← urem lane_hash (LaneGroup.num_lanes_ lane_group);
  lane ← GetLaneIn lane_group lane_id;
  let '(ret, lane') := Lane.emplace lane data in
  mret (ret, put_lane q prio lane_id lane').

(** [Emplace(u32 prio, u32 lane_hash, hipc::Pointer &p, bool complete = false)] *)
Definition Emplace `{MpscOps} (q : MultiQueue) (prio lane_hash p : Z)
    : outcome (bool * MultiQueue) :=
  EmplaceData q prio lane_hash (LaneData.make p false).

End queue.

(** Well-formed queue: every group holds its lanes and knows its priority. *)
Definition wf (q : MultiQueue) : Prop :=
  ∀ prio g, groups_ q !! prio = Some g →
    LaneGroup.wf g ∧ LaneGroup.prio_ g = Z.of_nat prio.

End MultiQueue.
Abbreviation MultiQueue := MultiQueue.MultiQueue.

(** ** Lemmas *)

Section lane_lemmas.
Context `{BitfieldOps}.
Implicit Types q : MultiQueue.
Implicit Types lane : Lane.

Lemma GetLane_Ok q prio lid lane :
  MultiQueue.GetLane q prio lid = Ok lane ↔
  ∃ g, at_index (MultiQueue.groups_ q) prio = Some g ∧
       at_index (LaneGroup.lanes_ g) lid = Some lane.
Proof.
  unfold MultiQueue.GetLane, MultiQueue.GetGroup, MultiQueue.GetLaneIn. split.
  - intros. invert_ok. eauto.
  - intros (g & Hg & Hl). rewrite Hg. simpl. by rewrite Hl.
Qed.

Lemma GetLane_nonneg q prio lid lane :
  MultiQueue.GetLane q prio lid = Ok lane → 0 ≤ prio ∧ 0 ≤ lid.
Proof.
  intros (g & Hg & Hl)%GetLane_Ok.
  apply at_index_Some in Hg as [? _]. apply at_index_Some in Hl as [? _]. lia.
Qed.

Lemma GetLane_put_eq q prio lid lane lane' :
  MultiQueue.GetLane q prio lid = Ok lane →
  MultiQueue.GetLane (MultiQueue.put_lane q prio lid lane') prio lid = Ok lane'.
Proof.
  intros (g & Hg & Hl)%GetLane_Ok. apply GetLane_Ok. unfold MultiQueue.put_lane. rewrite Hg.
  eexists. split; [eapply at_set_index_eq, Hg|]. eapply at_set_index_eq, Hl.
Qed.

Lemma put_put_lane q prio lid l1 l2 :
  MultiQueue.put_lane (MultiQueue.put_lane q prio lid l1) prio lid l2 =
  MultiQueue.put_lane q prio lid l2.
Proof.
  destruct (at_index (MultiQueue.groups_ q) prio) as [g|] eqn:Hg; unfold MultiQueue.put_lane;
    rewrite !Hg; [|done].
  cbn [MultiQueue.groups_ MultiQueue.set_groups]. erewrite at_set_index_eq by done.
  unfold MultiQueue.set_groups, LaneGroup.set_lanes. simpl. by rewrite !set_set_index.
Qed.

Lemma put_lane_id q prio lid lane :
  MultiQueue.GetLane q prio lid = Ok lane → MultiQueue.put_lane q prio lid lane = q.
Proof.
  intros (g & Hg & Hl)%GetLane_Ok. unfold MultiQueue.put_lane. rewrite Hg, (set_index_id _ _ _ Hl).
  unfold LaneGroup.set_lanes, MultiQueue.set_groups. destruct g. simpl.
  rewrite (set_index_id _ _ _ Hg). by destruct q.
Qed.

Lemma GetLane_put_ne q prio lid lane' prio' lid' :
  0 ≤ lid → (prio, lid) ≠ (prio', lid') →
  MultiQueue.GetLane (MultiQueue.put_lane q prio lid lane') prio' lid' =
  MultiQueue.GetLane q prio' lid'.
Proof.
  intros Hl Hne. unfold MultiQueue.put_lane.
  destruct (at_index (MultiQueue.groups_ q) prio) as [g|] eqn:Hg; [|done].
  unfold MultiQueue.GetLane, MultiQueue.GetGroup. simpl.
  destruct (decide (prio = prio')) as [<-|Hp].
  - erewrite at_set_index_eq, Hg by done. simpl. unfold MultiQueue.GetLaneIn. simpl.
    rewrite at_set_index_ne by (auto; congruence). done.
  - apply at_index_Some in Hg as [? _]. by rewrite at_set_index_ne by lia.
Qed.

Lemma wf_put_lane q prio lid lane : MultiQueue.wf q → MultiQueue.wf (MultiQueue.put_lane q prio lid lane).
Proof.
  intros Hq. unfold MultiQueue.put_lane.
  destruct (at_index (MultiQueue.groups_ q) prio) as [g|] eqn:Hg; [|done].
  apply at_index_Some in Hg as [Hp Hg]. intros i g'. simpl. unfold set_index.
  destruct (decide (i = Z.to_nat prio)) as [->|Hne].
  - rewrite list_lookup_insert_eq by (by apply lookup_lt_Some in Hg). intros [= <-].
    destruct (Hq _ _ Hg) as [[? ?] ?]. split; [split|]; simpl; try done.
    by rewrite length_insert.
  - rewrite list_lookup_insert_ne by done. apply Hq.
Qed.

Lemma wf_make id prios :
  Forall PriorityInfo.wf prios → MultiQueue.wf (MultiQueue.make id prios).
Proof.
  intros Hps i g. simpl. rewrite list_lookup_imap. intros (p & Hp & ->)%fmap_Some.
  eapply Forall_lookup_1 in Hps as (?&?&?&?); [|done].
  split; [split|]; simpl; try done. rewrite length_replicate. unfold is_u32 in *. lia.
Qed.

Lemma wf_set_flags f q : MultiQueue.wf q → MultiQueue.wf (MultiQueue.set_flags f q).
Proof. done. Qed.

(** In a well-formed queue a hash always selects a lane of a non-empty group. *)
Lemma hash_selects_lane q prio g hash :
  MultiQueue.wf q → MultiQueue.GetGroup q prio = Ok g → 0 < LaneGroup.num_lanes_ g →
  ∃ lane, at_index (LaneGroup.lanes_ g) (hash `mod` LaneGroup.num_lanes_ g) = Some lane.
Proof.
  intros Hq Hg Hn. unfold MultiQueue.GetGroup in Hg. apply deref_Ok, at_index_Some in Hg as [_ Hg].
  destruct (Hq _ _ Hg) as [[_ Hlen] _]. apply at_index_is_Some. rewrite Hlen.
  by apply Z.mod_pos_bound.
Qed.

End lane_lemmas.

#[export] Hint Resolve wf_put_lane wf_make wf_set_flags : hrun.

Section emplace.
Context `{BitfieldOps} `{MpscLaws}.
Implicit Types q : MultiQueue.

Lemma Lane_emplace_cases (lane : Lane) d ret lane' :
  Lane.emplace lane d = (ret, lane') →
  lane' = (if ret then Lane.set_data (Lane.data lane ++ [d]) lane else lane).
Proof.
  unfold Lane.emplace. destruct (mpsc_emplace _ _ _) eqn:E; intros [= <- <-]; [|done].
  by apply mpsc_emplace_fifo in E as ->.
Qed.

(** What a completed [Emplace] did. *)
Lemma EmplaceData_Ok q prio hash d ret q' :
  MultiQueue.EmplaceData q prio hash d = Ok (ret, q') →
  ∃ g lane, MultiQueue.GetGroup q prio = Ok g ∧ LaneGroup.num_lanes_ g ≠ 0 ∧
    let lid := hash `mod` LaneGroup.num_lanes_ g in
    MultiQueue.GetLane q prio lid = Ok lane ∧
    q' = MultiQueue.put_lane q prio lid
           (if ret then Lane.set_data (Lane.data lane ++ [d]) lane else lane).
Proof.
  unfold MultiQueue.EmplaceData. intros. invert_ok.
  destruct (Lane.emplace _ _) as [r l'] eqn:E. invert_ok.
  unfold urem in *. destruct (Z.eqb_spec (LaneGroup.num_lanes_ x0) 0); [done|]. invert_ok.
  exists x0, x2. split; [done|]. split; [done|]. split.
  - unfold MultiQueue.GetLane. by rewrite Hx0.
  - by apply Lane_emplace_cases in E as ->.
Qed.

End emplace.

(** ** Copies and moves

    A move within an allocator hands over the groups with their lanes. A copy, and a move
    between allocators, reproduce the sizes and flags of the groups; their priorities and
    lanes, and the id of the queue, are not those of the source. *)
Section copy_lemmas.
Context `{BitfieldOps} `{ContainerLaws}.
Implicit Types q other memory : MultiQueue.

Lemma copy_lookup raw memory other i g :
  MultiQueue.groups_ other !! i = Some g →
  MultiQueue.groups_ (MultiQueue.copy raw memory other) !! i = Some (LaneGroup.copy (raw i) g).
Proof. intros Hg. simpl. by rewrite hvec_assign_spec, list_lookup_imap, Hg. Qed.

Lemma copy_id raw memory other :
  MultiQueue.id_ (MultiQueue.copy raw memory other) = MultiQueue.id_ memory.
Proof. done. Qed.

Lemma copy_lane raw memory other prio lid lane :
  0 ≤ prio → MultiQueue.GetLane other prio lid = Ok lane →
  MultiQueue.GetLane (MultiQueue.copy raw memory other) prio lid =
  MultiQueue.GetLaneIn (raw (Z.to_nat prio)) lid.
Proof.
  intros Hp (g & Hg & _)%GetLane_Ok. apply at_index_Some in Hg as [_ Hg].
  unfold MultiQueue.GetLane, MultiQueue.GetGroup. rewrite at_index_lookup by done.
  by erewrite copy_lookup by done.
Qed.

Lemma move_lanes raw memory other prio lid :
  let '(this, rest) := MultiQueue.move raw true memory other in
  MultiQueue.GetLane this prio lid = MultiQueue.GetLane other prio lid ∧
  MultiQueue.id_ this = MultiQueue.id_ memory ∧
  MultiQueue.IsNull rest = true ∧ MultiQueue.id_ rest = MultiQueue.id_ other.
Proof.
  unfold MultiQueue.move, MultiQueue.take_groups.
  destruct (hvec_move_spec (MultiQueue.groups_ other)) as [Hm Hn].
  destruct (hvec_move _) as [gs rest]. simpl in *. by subst gs.
Qed.

Lemma destroy_IsNull q : MultiQueue.IsNull (MultiQueue.destroy q) = true.
Proof.
  unfold MultiQueue.destroy. rewrite shm_destroy_spec.
  destruct (MultiQueue.IsNull q) eqn:E; [done|]. apply hvec_destroy_null.
Qed.

End copy_lemmas.

(** ** Properties *)

(** A task pushed to a priority is appended to the lane its hash selects, the hash
    modulo the number of lanes, when the lane has room; tasks pushed with the same
    priority and hash therefore keep their order. No other lane changes. *)
Theorem Emplace_appends `{BitfieldOps} `{MpscLaws} (q : MultiQueue) prio hash p g :
  MultiQueue.wf q →
  MultiQueue.IsEmplacePlugged q = false →
  MultiQueue.GetGroup q prio = Ok g →
  0 < LaneGroup.num_lanes_ g →
  let lid := hash `mod` LaneGroup.num_lanes_ g in
  ∃ lane, MultiQueue.GetLane q prio lid = Ok lane ∧
    (Z.of_nat (length (Lane.data lane)) < Lane.depth_ lane →
     ∃ q', MultiQueue.Emplace q prio hash p = Ok (true, q') ∧
       MultiQueue.wf q' ∧
       MultiQueue.GetLane q' prio lid =
         Ok (Lane.set_data (Lane.data lane ++ [LaneData.make p false]) lane) ∧
       ∀ prio' lid', (prio, lid) ≠ (prio', lid') →
         MultiQueue.GetLane q' prio' lid' = MultiQueue.GetLane q prio' lid').
Proof.
  intros Hq Hplug Hg Hn lid.
  destruct (hash_selects_lane q prio g hash Hq Hg Hn) as [lane Hl].
  assert (MultiQueue.GetLane q prio lid = Ok lane) as HL.
  { unfold MultiQueue.GetLane, MultiQueue.GetLaneIn. rewrite Hg. simpl. unfold lid. by rewrite Hl. }
  exists lane. split; [done|]. intros Hroom.
  exists (MultiQueue.put_lane q prio lid
    (Lane.set_data (Lane.data lane ++ [LaneData.make p false]) lane)).
  split; [|split; [auto with hrun|split]].
  - unfold MultiQueue.Emplace, MultiQueue.EmplaceData, urem, MultiQueue.GetLaneIn.
    rewrite Hplug, Hg. simpl. rewrite (proj2 (Z.eqb_neq _ _)) by lia. simpl. rewrite Hl. simpl.
    unfold Lane.emplace. by rewrite mpsc_emplace_room.
  - eapply GetLane_put_eq, HL.
  - intros prio' lid' Hne. apply GetLane_put_ne; [|done]. by apply Z.mod_pos_bound.
Qed.

(** The wait that guards [Emplace] tests the flag of updates, not the one of
    resizes: on a queue plugged for a resize only, [Emplace] does exactly what it does
    on the unplugged queue. *)
Lemma Emplace_ignores_resize_plug `{BitfieldLaws} `{MpscOps} (q : MultiQueue) prio hash d :
  MultiQueue.IsEmplacePlugged q = true →
  Any (MultiQueue.flags_ q) QUEUE_UPDATE = false →
  MultiQueue.EmplaceData q prio hash d =
  (λ '(ret, q'), (ret, MultiQueue.set_flags (MultiQueue.flags_ q) q'))
    <$> MultiQueue.EmplaceData (MultiQueue.UnplugForResize q) prio hash d.
Proof.
  intros Hr Hu. unfold MultiQueue.EmplaceData, MultiQueue.WaitForEmplacePlug. rewrite Hr, Hu.
  assert (MultiQueue.IsEmplacePlugged (MultiQueue.UnplugForResize q) = false) as ->.
  { unfold MultiQueue.IsEmplacePlugged, MultiQueue.UnplugForResize, QUEUE_RESIZE. simpl.
    flags. apply andb_false_r. }
  unfold MultiQueue.GetGroup. simpl.
  destruct (at_index (MultiQueue.groups_ q) prio) as [g|] eqn:Hg; simpl; [|done].
  unfold urem. case_bool; simpl; [done|].
  unfold MultiQueue.GetLaneIn.
  destruct (at_index (LaneGroup.lanes_ g) _) as [lane|]; simpl; [|done].
  destruct (Lane.emplace lane d) as [r l']. simpl. unfold MultiQueue.put_lane. simpl. rewrite Hg.
  by destruct q.
Qed.

(** A queue whose memory held zeros, built by the default constructor *)
Definition free_queue `{BitfieldOps} : MultiQueue :=
  MultiQueue.new (MultiQueue.mkMultiQueue UniqueId.GetNull [] 0).

Section witness.
Import RefInstances.

(** A queue of two priorities, of one and of two lanes *)
Definition wit_queue : MultiQueue :=
  MultiQueue.make (UniqueId.make 1 2) [PriorityInfo.make 1 1 4 0; PriorityInfo.make 2 2 4 0].

Lemma Emplace_appends_witness :
  ∃ lane, MultiQueue.GetLane wit_queue 1 1 = Ok lane ∧
    ∃ q', MultiQueue.Emplace wit_queue 1 5 42 = Ok (true, q') ∧ MultiQueue.wf q' ∧
      MultiQueue.GetLane q' 1 1 = Ok (Lane.set_data (Lane.data lane ++ [LaneData.make 42 false]) lane) ∧
      MultiQueue.GetLane q' 1 0 = MultiQueue.GetLane wit_queue 1 0.
Proof.
  assert (MultiQueue.wf wit_queue) as Hwf by (apply wf_make; repeat constructor; done).
  destruct (Emplace_appends wit_queue 1 5 42
    (MultiQueue.make_group 1 (PriorityInfo.make 2 2 4 0)) Hwf ltac:(by vm_compute) eq_refl ltac:(by vm_compute))
    as (lane & Hl & He).
  exists lane. split; [exact Hl|].
  destruct He as (q' & Hq & Hw & Hl' & Hs); [vm_compute in Hl; injection Hl as <-; reflexivity|].
  exists q'. split; [exact Hq|]. split; [exact Hw|]. split; [exact Hl'|]. by apply Hs.
Defined.

End witness.
