(* ===== verification/Yaml.v ===== *)
(** * The YAML library, as far as the configuration relies on it

    The program reads its configuration through yaml-cpp: [YamlOps] is the part of that
    library the code calls, a parameter of the development. What is assumed of it is what the
    YAML specification says of a small part of the language, the part the texts inside the
    program are written in: [read_yaml] reads a document of block mappings, flow sequences
    over one or more lines, plain and quoted scalars and comment lines into a tree, and gives
    [None] for every text that uses anything else; [YamlLaws] says that the library loads a
    text [read_yaml] can read as a node that represents the tree. *)

From S2P Require Import Prelude Hshm RefLib.
From Stdlib Require Import Ascii.

(** [yaml-cpp]: [yaml_get] is [node\[key\]], [None] when the key is not defined; the
    conversions [as<T>()] and the loaders throw an exception when they yield [None]. *)
Class YamlOps := {
  YamlNode : Type;
  yaml_get : YamlNode → string → option YamlNode;
  as_size_t : YamlNode → option Z;
  as_int : YamlNode → option Z;
  as_string : YamlNode → option string;
  yaml_elements : YamlNode → list YamlNode;
  yaml_load : string → option YamlNode;
  yaml_load_file : string → option YamlNode;
}.

(** ** Documents *)

Inductive ydoc : Type :=
  | YScalar (s : string)
  | YSeq (l : list ydoc)
  | YMap (l : list (string * ydoc)).

Fixpoint ydoc_find (l : list (string * ydoc)) (key : string) : option ydoc :=
  match l with
  | [] => None
  | (k, d) :: l => if String.eqb k key then Some d else ydoc_find l key
  end.

(** *** Characters *)
Definition newline_char : ascii := ascii_of_nat 10.
Definition quote_char : ascii := ascii_of_nat 34.
Definition apostrophe : ascii := ascii_of_nat 39.

(** A space, or the end of a line within brackets (a line itself holds none) *)
Definition blank (c : ascii) : bool := Ascii.eqb c " "%char || Ascii.eqb c newline_char.
Definition digit (c : ascii) : bool := let n := nat_of_ascii c in Nat.leb 48 n && Nat.leb n 57.
Definition letter (c : ascii) : bool :=
  let n := nat_of_ascii c in
  (Nat.leb 65 n && Nat.leb n 90) || (Nat.leb 97 n && Nat.leb n 122).

(** What a plain scalar or a key of the subset is made of *)
Definition plain (c : ascii) : bool := digit c || letter c || Ascii.eqb c "_"%char.

(** What may stand between quotes of the subset: printable characters that need no escape, no
    bracket and no comma (so that a flow sequence splits at its commas) *)
Definition quotable (c : ascii) : bool :=
  Nat.leb 32 (nat_of_ascii c) && Nat.leb (nat_of_ascii c) 126 &&
  negb (existsb (Ascii.eqb c) [quote_char; apostrophe; "\"%char; ","%char; "["%char; "]"%char; "#"%char]).

(** The words a plain scalar is not a string for *)
Definition is_null (s : string) : bool := existsb (String.eqb s) ["null"; "Null"; "NULL"]%string.

(** *** Lines *)

(** The pieces of [s] between the characters [c] *)
Fixpoint split_at (c : ascii) (s : list ascii) : list (list ascii) :=
  match s with
  | [] => [[]]
  | x :: s =>
      if Ascii.eqb x c then [] :: split_at c s
      else match split_at c s with
           | [] => [[x]]
           | p :: ps => (x :: p) :: ps
           end
  end.

(** The indentation of a line and what follows it *)
Fixpoint indent (s : list ascii) : nat * list ascii :=
  match s with
  | c :: s' => if blank c then (let '(n, r) := indent s' in (S n, r)) else (0%nat, s)
  | [] => (0%nat, [])
  end.

Definition trim (s : list ascii) : list ascii := rev (indent (rev (indent s).2)).2.

(** A line with its indentation; blank lines and lines of comment alone do not count. *)
Definition Line : Type := nat * list ascii.

Definition significant (l : Line) : bool :=
  match l.2 with
  | [] => false
  | c :: _ => negb (Ascii.eqb c "#"%char)
  end.

Definition lines_of (text : string) : list Line :=
  List.filter significant
    ((λ l, ((indent l).1, trim l)) <$> split_at newline_char (String.list_ascii_of_string text)).

(** *** Scalars and flow sequences *)

Definition between (q : ascii) (s : list ascii) : option (list ascii) :=
  match s, rev s with
  | c :: ((_ :: _) as t), c' :: _ =>
      let inner := removelast t in
      if Ascii.eqb c q && Ascii.eqb c' q && forallb quotable inner then Some inner else None
  | _, _ => None
  end.

Definition read_scalar (s : list ascii) : option string :=
  match s with
  | [] => None
  | c :: _ =>
      String.string_of_list_ascii <$>
      (if Ascii.eqb c quote_char then between quote_char s
       else if Ascii.eqb c apostrophe then between apostrophe s
       else if forallb plain s && negb (is_null (String.string_of_list_ascii s)) then Some s
       else None)
  end.

(** What stands between the brackets *)
Definition read_elements (s : list ascii) : option (list ydoc) :=
  match trim s with
  | [] => Some []
  | s => mapM (λ e, YScalar <$> read_scalar (trim e)) (split_at ","%char s)
  end.

(** The lines of a flow sequence, up to the one that ends with its bracket: what it holds, and
    the lines after it. Within brackets indentation does not matter. *)
Fixpoint read_flow (acc : list ascii) (rest : list Line) : option (ydoc * list Line) :=
  match rev acc with
  | c :: inner =>
      if Ascii.eqb c "]"%char then (λ l, (YSeq l, rest)) <$> read_elements (rev inner)
      else match rest with
           | [] => None
           | (_, l) :: rest => read_flow (acc ++ newline_char :: l) rest
           end
  | [] => match rest with
          | [] => None
          | (_, l) :: rest => read_flow l rest
          end
  end.

(** *** Block mappings *)

(** [key: value], with a value that may be empty *)
Fixpoint split_key (s : list ascii) : option (list ascii * list ascii) :=
  match s with
  | [] => None
  | c :: s =>
      if Ascii.eqb c ":"%char then
        match s with
        | [] => Some ([], [])
        | b :: _ => if blank b then Some ([], trim s) else None
        end
      else if plain c then (λ '(k, v), (c :: k, v)) <$> split_key s
      else None
  end.

(** The mapping whose entries are indented by [n], and the lines after it. Each step takes a
    line, so fuel for the number of lines is enough. *)
Fixpoint read_map (fuel : nat) (n : nat) (ls : list Line) : option (list (string * ydoc) * list Line) :=
  match fuel, ls with
  | _, [] => Some ([], [])
  | O, _ => None
  | S fuel, (i, l) :: rest =>
      if (i <? n)%nat then Some ([], ls)
      else if negb (i =? n)%nat then None
      else
        '(k, v) ← split_key l;
        '(d, rest) ←
          match v, rest with
          | [], (j, _) :: _ =>
              if (n <? j)%nat then (λ '(m, rest), (YMap m, rest)) <$> read_map fuel j rest else None
          | [], [] => None
          | c :: v', _ =>
              if Ascii.eqb c "["%char then read_flow v' rest
              else (λ s, (YScalar s, rest)) <$> read_scalar v
          end;
        '(m, rest) ← read_map fuel n rest;
        let key := String.string_of_list_ascii k in
        match k, ydoc_find m key with
        | _ :: _, None => if is_null key then None else Some ((key, d) :: m, rest)
        | _, _ => None
        end
  end.

Definition read_yaml (text : string) : option ydoc :=
  match lines_of text with
  | [] => None
  | ((n, _) :: _) as ls =>
      '(m, rest) ← read_map (length ls) n ls;
      match rest with [] => Some (YMap m) | _ => None end
  end.

(** ** What the library makes of a document *)

(** A decimal number without sign and without leading zero *)
Definition decimal (s : string) : option Z :=
  let l := String.list_ascii_of_string s in
  let value := foldl (λ a c, 10 * a + (Z.of_nat (nat_of_ascii c) - 48)) 0 l in
  match l with
  | [] => None
  | c :: l' =>
      if forallb digit l && (negb (Ascii.eqb c "0"%char) || match l' with [] => true | _ => false end)
      then Some value else None
  end.

(** The conversions of a decimal scalar give its value where it is in the range of the type. *)
Inductive represents `{YamlOps} : YamlNode → ydoc → Prop :=
  | represents_scalar n s :
      as_string n = Some s →
      (∀ z, decimal s = Some z → z < 2 ^ 64 → as_size_t n = Some z) →
      (∀ z, decimal s = Some z → z < 2 ^ 31 → as_int n = Some z) →
      represents n (YScalar s)
  | represents_seq n l :
      Forall2 represents (yaml_elements n) l → represents n (YSeq l)
  | represents_map n l :
      (∀ key d, ydoc_find l key = Some d → ∃ m, yaml_get n key = Some m ∧ represents m d) →
      (∀ key, ydoc_find l key = None → yaml_get n key = None) →
      represents n (YMap l).

Class YamlLaws `{YamlOps} : Prop :=
  yaml_load_spec text d : read_yaml text = Some d → ∃ n, yaml_load text = Some n ∧ represents n d.

Section lemmas.
Context `{YamlOps}.

Lemma represents_at n l key d :
  represents n (YMap l) → ydoc_find l key = Some d → ∃ m, yaml_get n key = Some m ∧ represents m d.
Proof. inversion 1; subst. auto. Qed.

Lemma represents_string n s : represents n (YScalar s) → as_string n = Some s.
Proof. by inversion 1. Qed.

Lemma represents_size_t n s z :
  represents n (YScalar s) → decimal s = Some z → z < 2 ^ 64 → as_size_t n = Some z.
Proof. inversion 1; subst. auto. Qed.

Lemma represents_int n s z :
  represents n (YScalar s) → decimal s = Some z → z < 2 ^ 31 → as_int n = Some z.
Proof. inversion 1; subst. auto. Qed.

Lemma represents_strings n xs :
  represents n (YSeq (YScalar <$> xs)) → mapM as_string (yaml_elements n) = Some xs.
Proof.
  inversion 1 as [|? ? Hl|]; subst. apply mapM_Some. revert Hl.
  generalize (yaml_elements n). intros ns Hl. apply (Forall2_fmap_r YScalar) in Hl.
  eapply Forall2_impl; [exact Hl|]. intros m s. apply represents_string.
Qed.

End lemmas.

(** ** A reference library: its nodes are the documents [read_yaml] reads. *)
Definition ref_yaml_with (load : string → option ydoc) : YamlOps := {|
  YamlNode := ydoc;
  yaml_get n key := match n with YMap l => ydoc_find l key | _ => None end;
  as_size_t n := match n with YScalar s => decimal s | _ => None end;
  as_int n := match n with YScalar s => decimal s | _ => None end;
  as_string n := match n with YScalar s => Some s | _ => None end;
  yaml_elements n := match n with YSeq l => l | _ => [] end;
  yaml_load := load;
  yaml_load_file _ := None;
|}.

Definition ref_yaml : YamlOps := ref_yaml_with read_yaml.

Fixpoint ydoc_size (d : ydoc) : nat :=
  match d with
  | YScalar _ => 1
  | YSeq l => S (foldr (λ d n, ydoc_size d + n)%nat 0%nat l)
  | YMap l => S (foldr (λ e n, ydoc_size e.2 + n)%nat 0%nat l)
  end.

Lemma ydoc_find_size l key d :
  ydoc_find l key = Some d → (ydoc_size d < ydoc_size (YMap l))%nat.
Proof.
  induction l as [|[k d'] l IH]; simpl; [done|]. destruct (String.eqb k key).
  - intros [= ->]. lia.
  - intros Hd%IH. simpl in Hd. lia.
Qed.

Lemma ydoc_elem_size l d : In d l → (ydoc_size d < ydoc_size (YSeq l))%nat.
Proof.
  induction l as [|d' l IH]; simpl; [done|]. intros [->|Hd%IH]; simpl in *; lia.
Qed.

Lemma ref_represents d : @represents ref_yaml d d.
Proof.
  remember (ydoc_size d) as k eqn:Hk. revert d Hk.
  induction k as [k IH] using lt_wf_ind. intros d ->. destruct d as [s|l|l].
  - by constructor.
  - constructor. simpl. apply Forall_Forall2_diag, Forall_forall. intros d Hd.
    eapply IH; [|done]. apply ydoc_elem_size. by apply list_elem_of_In.
  - constructor; simpl; [|done]. intros key d Hd. exists d. split; [done|].
    eapply IH; [|done]. by eapply ydoc_find_size.
Qed.

#[export] Instance ref_yaml_laws : @YamlLaws ref_yaml.
Proof. intros text d Hd. exists d. split; [exact Hd|apply ref_represents]. Qed.
