(* ===== verification/Config.v ===== *)
(** * Configuration ([include/hermes_run/config], [src/config_server.cc], [src/config_client.cc])

    A configuration is read from YAML: the defaults first, then the user's document over
    them. The YAML library ([Yaml.v]) and [hshm::ConfigParse] are parameters. *)

From S2P Require Import Prelude Hshm RefLib Yaml.

(** [hshm::ConfigParse] *)
Class ConfigParse := {
  ParseSize : string → Z;
  ExpandPath : string → string;
  ParseHostfile : string → list string;
  ParseHostNameString : string → list string → list string;
}.

(** A statement that updates an object of type [S] and may throw: the object as far as
    it was updated, and the exception. *)
Definition stmt (S : Type) : Type := S → S * option string.

Definition seq_stmt {S} (a b : stmt S) : stmt S := λ s,
  match a s with
  | (s', None) => b s'
  | (s', Some e) => (s', Some e)
  end.
Infix ";;s" := seq_stmt (at level 62, right associativity) : stdpp_scope.

Definition assign {S} (f : S → S) : stmt S := λ s, (f s, None).

(** [x = node.as<T>()] *)
Definition assign_as {S T} (o : option T) (set : T → S → S) : stmt S := λ s,
  match o with
  | Some x => (set x s, None)
  | None => (s, Some "bad conversion"%string)
  end.

Lemma seq_stmt_None {S} (a b : stmt S) s s' :
  (a ;;s b) s = (s', None) → ∃ s1, a s = (s1, None) ∧ b s1 = (s', None).
Proof. unfold seq_stmt. destruct (a s) as [s1 [e|]]; [done|]. eauto. Qed.

Lemma assign_as_None {S T} (o : option T) (set : T → S → S) s s' :
  assign_as o set s = (s', None) → ∃ x, o = Some x ∧ s' = set x s.
Proof. unfold assign_as. destruct o; intros [= <-]. eauto. Qed.

(** [WorkOrchestratorInfo], [QueueManagerInfo] and [RpcInfo] *)
Module QueueManagerInfo.
Record QueueManagerInfo := mk {
  queue_depth_ : Z;
  max_lanes_ : Z;
  max_queues_ : Z;
  shm_allocator_ : string;
  shm_name_ : string;
  shm_size_ : Z;
}.
End QueueManagerInfo.
Abbreviation QueueManagerInfo := QueueManagerInfo.QueueManagerInfo.

Module RpcInfo.
Record RpcInfo := mk {
  host_file_ : string;
  host_names_ : list string;
  protocol_ : string;
  domain_ : string;
  port_ : Z;
  num_threads_ : Z;
}.
End RpcInfo.
Abbreviation RpcInfo := RpcInfo.RpcInfo.

Module ServerConfig.

Record ServerConfig := mk {
  max_workers_ : Z;
  queue_manager_ : QueueManagerInfo;
  rpc_ : RpcInfo;
  task_libs_ : list string;
}.

Definition set_max_workers (x : Z) (c : ServerConfig) : ServerConfig :=
  mk x (queue_manager_ c) (rpc_ c) (task_libs_ c).
Definition on_queue_manager (f : QueueManagerInfo → QueueManagerInfo) (c : ServerConfig)
    : ServerConfig := mk (max_workers_ c) (f (queue_manager_ c)) (rpc_ c) (task_libs_ c).
Definition on_rpc (f : RpcInfo → RpcInfo) (c : ServerConfig) : ServerConfig :=
  mk (max_workers_ c) (queue_manager_ c) (f (rpc_ c)) (task_libs_ c).
Definition set_task_libs (x : list string) (c : ServerConfig) : ServerConfig :=
  mk (max_workers_ c) (queue_manager_ c) (rpc_ c) x.

Section parse.
Context `{YamlOps} `{ConfigParse}.

(** [if (yaml_conf\[key\]) { ... }] *)
Definition when {S} (yaml_conf : YamlNode) (key : string) (body : YamlNode → stmt S) : stmt S :=
  match yaml_get yaml_conf key with
  | Some n => body n
  | None => λ s, (s, None)
  end.

Definition ParseWorkOrchestrator (yaml_conf : YamlNode) : stmt ServerConfig :=
  when yaml_conf "max_workers" (λ n, assign_as (as_size_t n) set_max_workers).

(** The three sizes are read as [size_t] and stored as [u32]. *)
Definition ParseQueueManager (yaml_conf : YamlNode) : stmt ServerConfig :=
  when yaml_conf "queue_depth" (λ n, assign_as (as_size_t n) (λ x, on_queue_manager (λ q,
    QueueManagerInfo.mk (wrap32 x) (QueueManagerInfo.max_lanes_ q) (QueueManagerInfo.max_queues_ q)
      (QueueManagerInfo.shm_allocator_ q) (QueueManagerInfo.shm_name_ q)
      (QueueManagerInfo.shm_size_ q)))) ;;s
  when yaml_conf "max_lanes" (λ n, assign_as (as_size_t n) (λ x, on_queue_manager (λ q,
    QueueManagerInfo.mk (QueueManagerInfo.queue_depth_ q) (wrap32 x) (QueueManagerInfo.max_queues_ q)
      (QueueManagerInfo.shm_allocator_ q) (QueueManagerInfo.shm_name_ q)
      (QueueManagerInfo.shm_size_ q)))) ;;s
  when yaml_conf "max_queues" (λ n, assign_as (as_size_t n) (λ x, on_queue_manager (λ q,
    QueueManagerInfo.mk (QueueManagerInfo.queue_depth_ q) (QueueManagerInfo.max_lanes_ q) (wrap32 x)
      (QueueManagerInfo.shm_allocator_ q) (QueueManagerInfo.shm_name_ q)
      (QueueManagerInfo.shm_size_ q)))) ;;s
  when yaml_conf "shm_allocator" (λ n, assign_as (as_string n) (λ x, on_queue_manager (λ q,
    QueueManagerInfo.mk (QueueManagerInfo.queue_depth_ q) (QueueManagerInfo.max_lanes_ q)
      (QueueManagerInfo.max_queues_ q) x (QueueManagerInfo.shm_name_ q)
      (QueueManagerInfo.shm_size_ q)))) ;;s
  when yaml_conf "shm_name" (λ n, assign_as (as_string n) (λ x, on_queue_manager (λ q,
    QueueManagerInfo.mk (QueueManagerInfo.queue_depth_ q) (QueueManagerInfo.max_lanes_ q)
      (QueueManagerInfo.max_queues_ q) (QueueManagerInfo.shm_allocator_ q) x
      (QueueManagerInfo.shm_size_ q)))) ;;s
  when yaml_conf "shm_size" (λ n, assign_as (as_string n) (λ x, on_queue_manager (λ q,
    QueueManagerInfo.mk (QueueManagerInfo.queue_depth_ q) (QueueManagerInfo.max_lanes_ q)
      (QueueManagerInfo.max_queues_ q) (QueueManagerInfo.shm_allocator_ q)
      (QueueManagerInfo.shm_name_ q) (ParseSize x)))).

(** Updates of [rpc_] *)
Definition set_host_file (x : string) : ServerConfig → ServerConfig := on_rpc (λ r,
  RpcInfo.mk x (RpcInfo.host_names_ r) (RpcInfo.protocol_ r) (RpcInfo.domain_ r)
    (RpcInfo.port_ r) (RpcInfo.num_threads_ r)).
Definition set_host_names (x : list string) : ServerConfig → ServerConfig := on_rpc (λ r,
  RpcInfo.mk (RpcInfo.host_file_ r) x (RpcInfo.protocol_ r) (RpcInfo.domain_ r)
    (RpcInfo.port_ r) (RpcInfo.num_threads_ r)).
Definition set_domain (x : string) : ServerConfig → ServerConfig := on_rpc (λ r,
  RpcInfo.mk (RpcInfo.host_file_ r) (RpcInfo.host_names_ r) (RpcInfo.protocol_ r) x
    (RpcInfo.port_ r) (RpcInfo.num_threads_ r)).
Definition set_protocol (x : string) : ServerConfig → ServerConfig := on_rpc (λ r,
  RpcInfo.mk (RpcInfo.host_file_ r) (RpcInfo.host_names_ r) x (RpcInfo.domain_ r)
    (RpcInfo.port_ r) (RpcInfo.num_threads_ r)).
Definition set_port (x : Z) : ServerConfig → ServerConfig := on_rpc (λ r,
  RpcInfo.mk (RpcInfo.host_file_ r) (RpcInfo.host_names_ r) (RpcInfo.protocol_ r)
    (RpcInfo.domain_ r) x (RpcInfo.num_threads_ r)).
Definition set_num_threads (x : Z) : ServerConfig → ServerConfig := on_rpc (λ r,
  RpcInfo.mk (RpcInfo.host_file_ r) (RpcInfo.host_names_ r) (RpcInfo.protocol_ r)
    (RpcInfo.domain_ r) (RpcInfo.port_ r) x).

(** The loop over [yaml_conf\["host_names"\]] *)
Fixpoint ParseHostNames (nodes : list YamlNode) : stmt ServerConfig :=
  match nodes with
  | [] => λ s, (s, None)
  | n :: nodes =>
      assign_as (as_string n) (λ x s,
        set_host_names (ParseHostNameString x (RpcInfo.host_names_ (rpc_ s))) s) ;;s
      ParseHostNames nodes
  end.

Definition ParseRpcInfo (yaml_conf : YamlNode) : stmt ServerConfig :=
  assign (set_host_names []) ;;s
  when yaml_conf "host_file" (λ n,
    assign_as (as_string n) (λ x, set_host_file (ExpandPath x)) ;;s
    λ s, if String.eqb (RpcInfo.host_file_ (rpc_ s)) "" then (s, None)
         else (set_host_names (ParseHostfile (RpcInfo.host_file_ (rpc_ s))) s, None)) ;;s
  when yaml_conf "host_names" (λ n s,
    match RpcInfo.host_names_ (rpc_ s) with
    | [] => ParseHostNames (yaml_elements n) s
    | _ => (s, None)
    end) ;;s
  when yaml_conf "domain" (λ n, assign_as (as_string n) set_domain) ;;s
  when yaml_conf "protocol" (λ n, assign_as (as_string n) set_protocol) ;;s
  when yaml_conf "port" (λ n, assign_as (as_int n) set_port) ;;s
  when yaml_conf "num_threads" (λ n, assign_as (as_int n) set_num_threads).

(** [ParseVector<std::string>(list_node, task_libs_)] *)
Fixpoint ParseVector (nodes : list YamlNode) : stmt ServerConfig :=
  match nodes with
  | [] => λ s, (s, None)
  | val_node :: nodes =>
      assign_as (as_string val_node) (λ x s, set_task_libs (task_libs_ s ++ [x]) s) ;;s
      ParseVector nodes
  end.

Definition ParseYAML (yaml_conf : YamlNode) : stmt ServerConfig :=
  when yaml_conf "work_orchestrator" ParseWorkOrchestrator ;;s
  when yaml_conf "queue_manager" ParseQueueManager ;;s
  when yaml_conf "rpc" ParseRpcInfo ;;s
  when yaml_conf "task_registry" (λ n, ParseVector (yaml_elements n)).

End parse.
End ServerConfig.
Abbreviation ServerConfig := ServerConfig.ServerConfig.

Module ClientConfig.

Record ClientConfig := mk { thread_model_ : string }.

Definition ParseYAML `{YamlOps} (yaml_conf : YamlNode) : stmt ClientConfig :=
  ServerConfig.when yaml_conf "thread_model"
    (λ n, assign_as (as_string n) (λ x _, mk x)).

End ClientConfig.
Abbreviation ClientConfig := ClientConfig.ClientConfig.

(** ** Loading ([BaseConfig])

    A configuration class has a parser and the text of its defaults. *)
Module BaseConfig.
Section base.
Context `{YamlOps} `{ConfigParse} `{Logger}.
Context {S : Type} (ParseYAML : YamlNode → stmt S) (default_text : string).

(** [LoadText(config_string, false)] *)
Definition LoadTextOnly (config_string : string) : stmt S := λ s,
  if String.eqb config_string "" then (s, None)
  else match yaml_load config_string with
       | Some yaml_conf => ParseYAML yaml_conf s
       | None => (s, Some "invalid YAML"%string)
       end.

Definition LoadDefault : stmt S := LoadTextOnly default_text.

Definition LoadText (config_string : string) (with_default : bool) : stmt S :=
  (if with_default then LoadDefault else λ s, (s, None)) ;;s LoadTextOnly config_string.

(** [LoadFromFile]: an exception raised by the user's document is a fatal error. *)
Definition LoadFromFile (path : string) (with_default : bool) (s : S) : outcome S :=
  match (if with_default then LoadDefault s else (s, None)) with
  | (_, Some e) => Throw e
  | (s, None) =>
      if String.eqb path "" then Ok s
      else
        let r := match yaml_load_file (ExpandPath path) with
                 | Some yaml_conf => ParseYAML yaml_conf s
                 | None => (s, Some "bad file"%string)
                 end in
        match r with
        | (s, None) => Ok s
        | (s, Some _) => HELOG_kFatal (Ok s)
        end
  end.

End base.
End BaseConfig.

(** ** The default configurations ([config_server_default.h], [config_client_default.h]) *)
Definition newline : string := String.String (Ascii.ascii_of_nat 10) "".
Definition quote : string := String.String (Ascii.ascii_of_nat 34) "".

(** A text of lines, each ended by a newline *)
Definition text (lines : list string) : string := foldr (λ l t, l +:+ newline +:+ t) ""%string lines.

Definition kHermesRunServerDefaultConfigStr : string := text [
    "### Runtime orchestration settings";
    "work_orchestrator:";
    "  # The number of worker threads to spawn";
    "  max_workers: 4";
    "";
    "### Queue Manager settings";
    "queue_manager:";
    "  # The default depth of allocated queues";
    "  queue_depth: 256";
    "  # The maximum number of lanes per queue";
    "  max_lanes: 16";
    "  # The maximum number of queues";
    "  max_queues: 1024";
    "  # The shared memory allocator to use";
    "  shm_allocator: kScalablePageAllocator";
    "  # The name of the shared memory region to create";
    "  shm_name: " +:+ quote +:+ "hermes_run_shm" +:+ quote;
    "  # The size of the shared memory region to allocate";
    "  shm_size: 0g";
    "";
    "### Define properties of RPCs";
    "rpc:";
    "  # A path to a file containing a list of server names, 1 per line. If your";
    "  # servers are named according to a pattern (e.g., server-1, server-2, etc.),";
    "  # prefer the `rpc_server_base_name` and `rpc_host_number_range` options. If this";
    "  # option is not empty, it will override anything in `rpc_server_base_name`.";
    "  host_file: " +:+ quote +:+ quote;
    "";
    "  # Host names can be defined using the following syntax:";
    "  # ares-comp-[0-9]-40g will convert to ares-comp-0-40g, ares-comp-1-40g, ...";
    "  # ares-comp[00-09] will convert to ares-comp-00, ares-comp-01, ...";
    "  host_names: [" +:+ quote +:+ "localhost" +:+ quote +:+ "]";
    "";
    "  # The RPC protocol. This must come from the documentation of the specific RPC";
    "  # library in use.";
    "  protocol: " +:+ quote +:+ "ofi+sockets" +:+ quote;
    "";
    "  # RPC domain name for verbs transport. Blank for tcp.";
    "  domain: " +:+ quote +:+ quote;
    "";
    "  # Desired RPC port number.";
    "  port: 8080";
    "";
    "  # The number of handler threads for each RPC server.";
    "  num_threads: 4";
    "";
    "### Task Registry";
    "task_registry: [";
    "  'hermes_mdm',";
    "  'hermes_blob_mdm',";
    "  'hermes_bucket_mdm',";
    "  'posix_bdev',";
    "  'ram_bdev'";
    "]"
  ]%string.

Definition kHermesRunClientDefaultConfigStr : string := text ["thread_model: kStd"]%string.

(** [ServerConfig::LoadDefault] and [ClientConfig::LoadDefault] *)
Definition ServerConfig_LoadDefault `{YamlOps} `{ConfigParse} : stmt ServerConfig :=
  BaseConfig.LoadText ServerConfig.ParseYAML "" kHermesRunServerDefaultConfigStr false.
Definition ClientConfig_LoadDefault `{YamlOps} : stmt ClientConfig :=
  BaseConfig.LoadText ClientConfig.ParseYAML "" kHermesRunClientDefaultConfigStr false.

(** What the text of the server's defaults says: the values of its keys *)
Section default_document.
Context `{YamlOps}.

(** [n\[section\]\[key\]], read by [read] *)
Definition yaml_at {T} (read : YamlNode → option T) (n : YamlNode) (section key : string) : option T :=
  s ← yaml_get n section; m ← yaml_get s key; read m.

Record default_document (n : YamlNode) : Prop := {
  doc_workers : yaml_at as_size_t n "work_orchestrator" "max_workers" = Some 4;
  doc_depth : yaml_at as_size_t n "queue_manager" "queue_depth" = Some 256;
  doc_lanes : yaml_at as_size_t n "queue_manager" "max_lanes" = Some 16;
  doc_queues : yaml_at as_size_t n "queue_manager" "max_queues" = Some 1024;
  doc_allocator :
    yaml_at as_string n "queue_manager" "shm_allocator" = Some "kScalablePageAllocator"%string;
  doc_shm_name : yaml_at as_string n "queue_manager" "shm_name" = Some "hermes_run_shm"%string;
  doc_shm_size : yaml_at as_string n "queue_manager" "shm_size" = Some "0g"%string;
  doc_host_file : yaml_at as_string n "rpc" "host_file" = Some ""%string;
  doc_host_names : yaml_at (λ m, mapM as_string (yaml_elements m)) n "rpc" "host_names" =
    Some ["localhost"%string];
  doc_domain : yaml_at as_string n "rpc" "domain" = Some ""%string;
  doc_protocol : yaml_at as_string n "rpc" "protocol" = Some "ofi+sockets"%string;
  doc_port : yaml_at as_int n "rpc" "port" = Some 8080;
  doc_threads : yaml_at as_int n "rpc" "num_threads" = Some 4;
  doc_libs : (l ← yaml_get n "task_registry"; mapM as_string (yaml_elements l)) =
    Some ["hermes_mdm"; "hermes_blob_mdm"; "hermes_bucket_mdm"; "posix_bdev"; "ram_bdev"]%string;
}.

End default_document.

(** The tree of that text *)
Definition default_tree : list (string * ydoc) := [
    ("work_orchestrator", YMap [("max_workers", YScalar "4")]);
    ("queue_manager", YMap [("queue_depth", YScalar "256"); ("max_lanes", YScalar "16");
       ("max_queues", YScalar "1024"); ("shm_allocator", YScalar "kScalablePageAllocator");
       ("shm_name", YScalar "hermes_run_shm"); ("shm_size", YScalar "0g")]);
    ("rpc", YMap [("host_file", YScalar ""); ("host_names", YSeq [YScalar "localhost"]);
       ("protocol", YScalar "ofi+sockets"); ("domain", YScalar ""); ("port", YScalar "8080");
       ("num_threads", YScalar "4")]);
    ("task_registry", YSeq (YScalar <$> ["hermes_mdm"; "hermes_blob_mdm"; "hermes_bucket_mdm";
       "posix_bdev"; "ram_bdev"]))]%string.

(** ** Lemmas: what a statement leaves unchanged *)

Definition preserves {S T} (p : S → T) (a : stmt S) : Prop := ∀ s, p (a s).1 = p s.

Section preserves.
Context `{YamlOps} {S T : Type} (p : S → T).

Lemma preserves_seq a b : preserves p a → preserves p b → preserves p (a ;;s b).
Proof.
  intros Ha Hb s. unfold seq_stmt. specialize (Ha s). destruct (a s) as [s' [e|]]; simpl in *.
  - done.
  - by rewrite Hb.
Qed.

Lemma preserves_assign f : (∀ s, p (f s) = p s) → preserves p (assign f).
Proof. intros Hf s. apply Hf. Qed.

Lemma preserves_assign_as {U} (o : option U) set :
  (∀ x s, p (set x s) = p s) → preserves p (assign_as o set).
Proof. intros Hs s. unfold assign_as. destruct o; simpl; auto. Qed.

Lemma preserves_when n k body :
  (∀ m, preserves p (body m)) → preserves p (ServerConfig.when (S:=S) n k body).
Proof. intros Hb s. unfold ServerConfig.when. destruct (yaml_get n k); [apply Hb|done]. Qed.

End preserves.

#[export] Hint Resolve preserves_seq preserves_assign preserves_assign_as preserves_when : hrun.

Section server_lemmas.
Context `{YamlOps} `{ConfigParse}.
Import ServerConfig.
Implicit Types c : ServerConfig.

Lemma ParseWorkOrchestrator_task_libs n : preserves task_libs_ (ParseWorkOrchestrator n).
Proof. unfold ParseWorkOrchestrator. eauto with hrun. Qed.

Lemma ParseQueueManager_task_libs n : preserves task_libs_ (ParseQueueManager n).
Proof. unfold ParseQueueManager. auto 20 with hrun. Qed.

Lemma ParseHostNames_task_libs l : preserves task_libs_ (ParseHostNames l).
Proof. induction l; simpl; [done|]. auto with hrun. Qed.

Lemma ParseRpcInfo_task_libs n : preserves task_libs_ (ParseRpcInfo n).
Proof.
  unfold ParseRpcInfo. repeat (apply preserves_seq; [|]); auto with hrun.
  - apply preserves_when. intros m. apply preserves_seq; [auto with hrun|].
    intros s. by case_bool.
  - apply preserves_when. intros m s. destruct (RpcInfo.host_names_ _); [|done].
    apply ParseHostNames_task_libs.
Qed.

Lemma ParseVector_appends l c c' :
  ParseVector l c = (c', None) →
  ∃ xs, mapM as_string l = Some xs ∧ c' = set_task_libs (task_libs_ c ++ xs) c.
Proof.
  revert c. induction l as [|n l IH]; intros c; simpl.
  { intros [= <-]. exists []. rewrite app_nil_r. by destruct c. }
  intros (c1 & (x & Hx & ->)%assign_as_None & Hrest)%seq_stmt_None.
  apply IH in Hrest as (xs & Hxs & ->). exists (x :: xs). rewrite Hx. simpl. rewrite Hxs.
  split; [done|]. simpl. unfold set_task_libs. simpl. by rewrite <- (assoc_L app).
Qed.


End server_lemmas.

(** *** Reading the defaults *)

Section defaults.
Context `{YamlOps} `{ConfigParse}.
Import ServerConfig.

Lemma yaml_at_Some {T} (read : YamlNode → option T) n section key x :
  yaml_at read n section key = Some x →
  ∃ s m, yaml_get n section = Some s ∧ yaml_get s key = Some m ∧ read m = Some x.
Proof. unfold yaml_at. intros (s & ? & (m & ? & ?)%bind_Some)%bind_Some. eauto. Qed.

Lemma when_Some {S} n key m (body : YamlNode → stmt S) s :
  yaml_get n key = Some m → when n key body s = body m s.
Proof. unfold when. by intros ->. Qed.

Lemma when_as {S T} n key m (read : YamlNode → option T) x (set : T → S → S) s :
  yaml_get n key = Some m → read m = Some x →
  when n key (λ m, assign_as (read m) set) s = (set x s, None).
Proof. intros. erewrite when_Some by done. unfold assign_as. by simplify_option_eq. Qed.

Lemma seq_stmt_Ok {S} (a b : stmt S) s s' : a s = (s', None) → (a ;;s b) s = b s'.
Proof. unfold seq_stmt. by intros ->. Qed.

Lemma ParseVector_Ok l xs c :
  mapM as_string l = Some xs → ParseVector l c = (set_task_libs (task_libs_ c ++ xs) c, None).
Proof.
  revert xs c. induction l as [|n l IH]; intros xs c; simpl.
  { intros [= <-]. rewrite app_nil_r. by destruct c. }
  intros (x & Hx & (xs' & Hxs & [= <-])%bind_Some)%bind_Some.
  erewrite seq_stmt_Ok by (unfold assign_as; by rewrite Hx). rewrite (IH xs') by done.
  simpl. unfold set_task_libs. simpl. by rewrite <- (assoc_L app).
Qed.

Lemma ParseHostNames_one l x c :
  mapM as_string l = Some [x] →
  ParseHostNames l c = (set_host_names (ParseHostNameString x (RpcInfo.host_names_ (rpc_ c))) c, None).
Proof.
  destruct l as [|n [|n' l]]; simpl; [done| |].
  - intros (y & Hy & [= <-])%bind_Some. unfold seq_stmt, assign_as. by rewrite Hy.
  - by intros (y & Hy & (ys & (z & ? & (zs & ? & [= <-])%bind_Some)%bind_Some & ?)%bind_Some)%bind_Some.
Qed.

(** The three sections *)
Lemma default_work_orchestrator n c :
  default_document n → when n "work_orchestrator" ParseWorkOrchestrator c = (set_max_workers 4 c, None).
Proof.
  intros [(s & m & Hs & Hm & Hr)%yaml_at_Some]. erewrite when_Some by done.
  unfold ParseWorkOrchestrator. by eapply when_as.
Qed.

Lemma default_queue_manager n c :
  default_document n →
  when n "queue_manager" ParseQueueManager c =
    (on_queue_manager (λ _, QueueManagerInfo.mk 256 16 1024 "kScalablePageAllocator"
       "hermes_run_shm" (ParseSize "0g")) c, None).
Proof.
  intros [_ (s & m1 & Hs & ? & ?)%yaml_at_Some (? & ? & ? & ? & ?)%yaml_at_Some
    (? & ? & ? & ? & ?)%yaml_at_Some (? & ? & ? & ? & ?)%yaml_at_Some
    (? & ? & ? & ? & ?)%yaml_at_Some (? & ? & ? & ? & ?)%yaml_at_Some _ _ _ _ _ _ _].
  simplify_eq. erewrite when_Some by done. unfold ParseQueueManager.
  repeat (erewrite seq_stmt_Ok by (by eapply when_as)).
  erewrite when_as by done. by destruct c.
Qed.

Lemma default_rpc n c :
  default_document n → ExpandPath "" = ""%string →
  when n "rpc" ParseRpcInfo c =
    (on_rpc (λ _, RpcInfo.mk "" (ParseHostNameString "localhost" []) "ofi+sockets" "" 8080 4) c, None).
Proof.
  intros [_ _ _ _ _ _ _ (s & mf & Hs & Hf & Hrf)%yaml_at_Some (? & mh & ? & Hh & Hrh)%yaml_at_Some
    (? & ? & ? & ? & ?)%yaml_at_Some (? & ? & ? & ? & ?)%yaml_at_Some
    (? & ? & ? & ? & ?)%yaml_at_Some (? & ? & ? & ? & ?)%yaml_at_Some _] Hexp.
  simplify_eq. erewrite when_Some by done. unfold ParseRpcInfo.
  erewrite seq_stmt_Ok by done.
  erewrite seq_stmt_Ok.
  2: { erewrite when_Some by done. erewrite seq_stmt_Ok by (unfold assign_as; by rewrite Hrf).
       rewrite Hexp. done. }
  erewrite seq_stmt_Ok.
  2: { erewrite when_Some by done. simpl. by erewrite ParseHostNames_one. }
  repeat (erewrite seq_stmt_Ok by (by eapply when_as)).
  erewrite when_as by done. by destruct c.
Qed.

(** The values of a key of a section in a node that represents a document *)
Definition ydoc_at (l : list (string * ydoc)) (section key : string) : option ydoc :=
  match ydoc_find l section with Some (YMap s) => ydoc_find s key | _ => None end.

Lemma represents_yaml_at {T} (read : YamlNode → option T) n l section key d x :
  represents n (YMap l) → ydoc_at l section key = Some d →
  (∀ m, represents m d → read m = Some x) → yaml_at read n section key = Some x.
Proof.
  intros Hn Hd Hr. unfold ydoc_at in Hd.
  destruct (ydoc_find l section) as [[| |s]|] eqn:Es; [done..| |done].
  destruct (represents_at _ _ _ _ Hn Es) as (ns & Hns & Rs).
  destruct (represents_at _ _ _ _ Rs Hd) as (m & Hm & Rm).
  unfold yaml_at. rewrite Hns. simpl. rewrite Hm. simpl. by apply Hr.
Qed.

Lemma default_document_text `{!YamlLaws} :
  ∃ n, yaml_load kHermesRunServerDefaultConfigStr = Some n ∧ default_document n.
Proof.
  assert (∃ l, read_yaml kHermesRunServerDefaultConfigStr = Some (YMap l) ∧ l = default_tree) as (l & Hread & ->)
    by (eexists; split; vm_compute; reflexivity).
  destruct (yaml_load_spec _ _ Hread) as (n & Hload & Hn). exists n. split; [done|].
  split; try (eapply represents_yaml_at; [exact Hn|reflexivity|];
    intros m Hm; first [by apply represents_string in Hm|by eapply represents_size_t|by eapply represents_int
      |by apply (represents_strings m ["localhost"%string])]).
  destruct (represents_at _ _ "task_registry" _ Hn eq_refl) as (m & Hm & Rm).
  rewrite Hm. simpl. by apply (represents_strings m ["hermes_mdm"; "hermes_blob_mdm"; "hermes_bucket_mdm"; "posix_bdev"; "ram_bdev"]%string).
Qed.

End defaults.

(** ** Properties *)

(** C33: the default configuration. With a library that reads YAML as specified ([YamlLaws],
    which names no key and no value) and a path expansion that keeps the empty path, loading the
    text of the defaults sets every member to what the text says, whatever the configuration
    held before: four workers, which is more than the two the round robin needs, 1024 queues of
    at most 16 lanes and depth 256, and the single host; the task libraries are added to those
    there were. *)
Theorem ServerConfig_LoadDefault_spec `{YamlLaws} `{ConfigParse} (c : ServerConfig) :
  ExpandPath "" = ""%string →
  ServerConfig_LoadDefault c =
    (ServerConfig.mk 4
       (QueueManagerInfo.mk 256 16 1024 "kScalablePageAllocator" "hermes_run_shm" (ParseSize "0g"))
       (RpcInfo.mk "" (ParseHostNameString "localhost" []) "ofi+sockets" "" 8080 4)
       (ServerConfig.task_libs_ c ++
        ["hermes_mdm"; "hermes_blob_mdm"; "hermes_bucket_mdm"; "posix_bdev"; "ram_bdev"]%string),
     None).
Proof.
  intros Hexp. destruct default_document_text as (n & Hload & Hdoc).
  unfold ServerConfig_LoadDefault, BaseConfig.LoadText.
  erewrite seq_stmt_Ok by done. unfold BaseConfig.LoadTextOnly. rewrite Hload.
  change (String.eqb kHermesRunServerDefaultConfigStr "") with false. cbv iota.
  unfold ServerConfig.ParseYAML.
  erewrite seq_stmt_Ok by (by apply default_work_orchestrator).
  erewrite seq_stmt_Ok by (by apply default_queue_manager).
  erewrite seq_stmt_Ok by (by apply default_rpc).
  pose proof (doc_libs _ Hdoc) as (l & Hl & Hlibs)%bind_Some.
  erewrite when_Some by done. by rewrite (ParseVector_Ok _ _ _ Hlibs).
Qed.

(** The list of task libraries accumulates: whatever else a document configures, after
    it was parsed the libraries are those configured before (the defaults) followed by
    the document's; a document without the section changes none. *)
Theorem ParseYAML_task_libs `{YamlOps} `{ConfigParse} (n : YamlNode) (c c' : ServerConfig) :
  ServerConfig.ParseYAML n c = (c', None) →
  match yaml_get n "task_registry" with
  | None => ServerConfig.task_libs_ c' = ServerConfig.task_libs_ c
  | Some l => ∃ libs, mapM as_string (yaml_elements l) = Some libs ∧
      ServerConfig.task_libs_ c' = ServerConfig.task_libs_ c ++ libs
  end.
Proof.
  intros (c1 & H1 & (c2 & H2 & (c3 & H3 & H4)%seq_stmt_None)%seq_stmt_None)%seq_stmt_None.
  assert (ServerConfig.task_libs_ c3 = ServerConfig.task_libs_ c) as E.
  { transitivity (ServerConfig.task_libs_ c2); [|transitivity (ServerConfig.task_libs_ c1)].
    - change c3 with (c3, @None string).1. rewrite <- H3. apply preserves_when, ParseRpcInfo_task_libs.
    - change c2 with (c2, @None string).1. rewrite <- H2. apply preserves_when, ParseQueueManager_task_libs.
    - change c1 with (c1, @None string).1. rewrite <- H1. apply preserves_when, ParseWorkOrchestrator_task_libs. }
  unfold ServerConfig.when in H4. destruct (yaml_get n "task_registry") as [l|].
  - apply ParseVector_appends in H4 as (xs & ? & ->). exists xs. by rewrite <- E.
  - by injection H4 as <-.
Qed.

(** Parsing an RPC section forgets the host names configured before: when the section
    names neither a host file nor host names, the parsed configuration has no hosts. *)
Lemma ParseRpcInfo_forgets_hosts `{YamlOps} `{ConfigParse} (n : YamlNode) (c c' : ServerConfig) :
  yaml_get n "host_file" = None → yaml_get n "host_names" = None →
  ServerConfig.ParseRpcInfo n c = (c', None) →
  RpcInfo.host_names_ (ServerConfig.rpc_ c') = [].
Proof.
  intros Hf Hn. unfold ServerConfig.ParseRpcInfo, assign at 1. unfold seq_stmt at 1.
  unfold ServerConfig.when at 1 2. rewrite Hf, Hn. unfold seq_stmt at 1 2.
  set (c0 := ServerConfig.set_host_names [] c).
  set (rest := ServerConfig.when n "domain" _ ;;s _).
  assert (preserves (λ c, RpcInfo.host_names_ (ServerConfig.rpc_ c)) rest) as Hp.
  { unfold rest. auto 10 with hrun. }
  intros E. specialize (Hp c0). rewrite E in Hp. exact Hp.
Qed.

(** ** Witnesses, with the reference library of [Yaml.v] *)
Definition ref_config_parse : ConfigParse := {|
  ParseSize _ := 0; ExpandPath s := s; ParseHostfile _ := []; ParseHostNameString s l := l ++ [s];
|}.

Section witness.
#[local] Existing Instance ref_yaml.
#[local] Existing Instance ref_config_parse.

Definition wit_defaults : ServerConfig :=
  ServerConfig.mk 4 (QueueManagerInfo.mk 16 2 4 "" "" 0) (RpcInfo.mk "" ["a"] "" "" 0 0) ["admin"].
Definition wit_document : ydoc :=
  YMap [("task_registry"%string, YSeq [YScalar "small_message"])].

Lemma ParseYAML_task_libs_witness :
  ∃ c', @ServerConfig.ParseYAML ref_yaml _ wit_document wit_defaults = (c', None) ∧
    ServerConfig.task_libs_ c' = ["admin"; "small_message"]%string.
Proof.
  eexists. split; [reflexivity|].
  destruct (@ParseYAML_task_libs ref_yaml _ wit_document wit_defaults _ eq_refl) as (libs & Hl & Hc).
  rewrite Hc. injection Hl as <-. reflexivity.
Defined.

Lemma ServerConfig_LoadDefault_spec_witness :
  ∃ c, ServerConfig_LoadDefault wit_defaults = (c, None) ∧ ServerConfig.max_workers_ c = 4 ∧
    RpcInfo.host_names_ (ServerConfig.rpc_ c) = ["localhost"%string].
Proof.
  eexists. split.
  - apply (ServerConfig_LoadDefault_spec wit_defaults). reflexivity.
  - split; reflexivity.
Defined.

End witness.
