(* ===== verification/QueueManager.v ===== *)
(** * The queue manager ([include/hermes_run/queue_manager/queue_manager*.h])

    Queues live in a vector in shared memory; a queue's slot is the [unique_] part of
    its id. A slot is free when the id of its queue is null. *)

From S2P Require Import Prelude Hshm RefLib Types Queue Config.

(** [QueueManager], the members the client and the runtime share. The queue map itself is
    an argument of the operations. *)
Module QueueManager.

Record QueueManager := mk {
  node_id_ : Z;
  admin_queue_ : QueueId;
  process_queue_ : QueueId;
  admin_task_state_ : TaskStateId;
}.

Definition Init (node_id : Z) : QueueManager := {|
  node_id_ := node_id;
  admin_queue_ := UniqueId.make 1 0;
  admin_task_state_ := UniqueId.make 1 0;
  process_queue_ := UniqueId.make 1 1;
|}.

(** [GetQueue]: the index of the slot in the queue map; an index out of range designates
    no object. *)
Definition GetQueue (id : QueueId) (queue_map : list MultiQueue) : outcome nat :=
  let u := UniqueId.unique_ id in
  if (0 <=? u) && (u <? Z.of_nat (length queue_map)) then Ok (Z.to_nat u) else Undefined.

(** [QueueManagerClient::ClientInit]: the client attaches to the map of the runtime. *)
Definition ClientInit (queue_map : list MultiQueue) (node_id : Z)
    : QueueManager * list MultiQueue := (Init node_id, queue_map).

End QueueManager.
Abbreviation QueueManager := QueueManager.QueueManager.

(** [QueueManagerShm]: what the runtime leaves in shared memory *)
Record QueueManagerShm := mkQueueManagerShm {
  shm_queue_map_ : list MultiQueue;
  shm_tickets_ : list Z;
}.

Module QueueManagerRuntime.

(** [base_] is the inherited part. The member [node_id_] hides the inherited one and no
    function assigns it; neither does any function assign the pointer [tickets_], whose
    value is [None] unless the memory happened to hold the address of a ticket queue. *)
Record QueueManagerRuntime := mk {
  base_ : QueueManager;
  max_queues_ : Z;
  max_lanes_ : Z;
  tickets_ : option (list Z);
  node_id_ : Z;
}.

Section runtime.
Context `{BitfieldOps} `{HvecOps} `{TicketOps}.

(** [CreateQueue(id, queue_info)] on the queue map *)
Definition CreateQueue (id : QueueId) (queue_info : list PriorityInfo)
    (queue_map : list MultiQueue) : outcome (list MultiQueue) :=
  queue ← QueueManager.GetQueue id queue_map;
  if UniqueId.IsNull id then Ok queue_map
  else
    q ← deref (queue_map !! queue);
    if negb (UniqueId.IsNull (MultiQueue.id_ q)) then Ok queue_map
    else Ok (hvec_replace queue_map (Z.to_nat (UniqueId.unique_ id))
               (MultiQueue.make id queue_info)).

(** [DestroyQueue(id)]: the element is erased from the vector, and the ticket returned. *)
Definition DestroyQueue (id : QueueId) (this : QueueManagerRuntime)
    (queue_map : list MultiQueue) : outcome (QueueManagerRuntime * list MultiQueue) :=
  let u := UniqueId.unique_ id in
  if (0 <=? u) && (u <? Z.of_nat (length queue_map)) then
    tickets ← deref (tickets_ this);
    Ok (mk (base_ this) (max_queues_ this) (max_lanes_ this)
          (Some (ticket_emplace tickets u)) (node_id_ this),
        hvec_erase queue_map (Z.to_nat u))
  else Undefined.

(** The queues [ServerInit] creates *)
Definition admin_queue_info (qm : QueueManagerInfo) : list PriorityInfo :=
  [PriorityInfo.make 1 1 (QueueManagerInfo.queue_depth_ qm) QUEUE_UNORDERED].

Definition process_queue_info (qm : QueueManagerInfo) : list PriorityInfo :=
  [PriorityInfo.make 1 1 (QueueManagerInfo.queue_depth_ qm) QUEUE_UNORDERED;
   PriorityInfo.make 1 1 (QueueManagerInfo.queue_depth_ qm) QUEUE_LONG_RUNNING;
   PriorityInfo.make (QueueManagerInfo.max_lanes_ qm) (QueueManagerInfo.max_lanes_ qm)
     (QueueManagerInfo.queue_depth_ qm) QUEUE_LOW_LATENCY].

(** [ServerInit]: [memory_queue i] is what the memory of the [i]-th queue holds; [memory]
    what that of the manager holds. *)
Definition ServerInit (memory : QueueManagerRuntime) (memory_queue : nat → MultiQueue)
    (node_id : Z) (config : ServerConfig) : outcome (QueueManagerRuntime * QueueManagerShm) :=
  let base := QueueManager.Init node_id in
  let qm := ServerConfig.queue_manager_ config in
  let max_queues := QueueManagerInfo.max_queues_ qm in
  let this := mk base max_queues (QueueManagerInfo.max_lanes_ qm) (tickets_ memory)
                (node_id_ memory) in
  let tickets := foldl (λ t i, ticket_emplace t (Z.of_nat i)) [] (seq 1 (Z.to_nat max_queues)) in
  let queue_map := imap (λ i _, MultiQueue.new (memory_queue i))
                        (hvec_resize tt [] (Z.to_nat max_queues)) in
  queue_map ← CreateQueue (QueueManager.admin_queue_ base) (admin_queue_info qm) queue_map;
  queue_map ← CreateQueue (QueueManager.process_queue_ base) (process_queue_info qm) queue_map;
  Ok (this, mkQueueManagerShm queue_map tickets).

End runtime.
End QueueManagerRuntime.
Abbreviation QueueManagerRuntime := QueueManagerRuntime.QueueManagerRuntime.

(** ** Invariant: a queue is in the slot its id names. *)
Definition map_ok (queue_map : list MultiQueue) : Prop :=
  ∀ i q, queue_map !! i = Some q → UniqueId.IsNull (MultiQueue.id_ q) = false →
    UniqueId.unique_ (MultiQueue.id_ q) = Z.of_nat i ∧ MultiQueue.wf q.

(** ** Lemmas *)

Section lemmas.
Context `{BitfieldLaws} `{HvecLaws} `{TicketLaws}.
Implicit Types m : list MultiQueue.
Implicit Types id : QueueId.

Lemma GetQueue_Ok id m i :
  QueueManager.GetQueue id m = Ok i ↔ UniqueId.unique_ id = Z.of_nat i ∧ (i < length m)%nat.
Proof.
  unfold QueueManager.GetQueue. destruct (Z.leb_spec 0 (UniqueId.unique_ id)); simpl;
    [|split; [done|lia]].
  destruct (Z.ltb_spec (UniqueId.unique_ id) (Z.of_nat (length m))); split; intros E; try done; try lia.
  - injection E as <-. lia.
  - f_equal. lia.
Qed.

Lemma CreateQueue_free id info m i q :
  QueueManager.GetQueue id m = Ok i → m !! i = Some q →
  UniqueId.IsNull id = false → UniqueId.IsNull (MultiQueue.id_ q) = true →
  QueueManagerRuntime.CreateQueue id info m = Ok (<[i := MultiQueue.make id info]> m).
Proof.
  intros Hi Hq Hn Hf. unfold QueueManagerRuntime.CreateQueue. rewrite Hi. simpl.
  rewrite Hn, Hq. simpl. rewrite Hf. simpl.
  apply GetQueue_Ok in Hi as [-> Hlt]. rewrite Nat2Z.id. by rewrite hvec_replace_spec.
Qed.

Lemma CreateQueue_taken id info m i q :
  QueueManager.GetQueue id m = Ok i → m !! i = Some q →
  UniqueId.IsNull id = true ∨ UniqueId.IsNull (MultiQueue.id_ q) = false →
  QueueManagerRuntime.CreateQueue id info m = Ok m.
Proof.
  intros Hi Hq Hn. unfold QueueManagerRuntime.CreateQueue. rewrite Hi. simpl.
  destruct (UniqueId.IsNull id); [done|]. rewrite Hq. simpl.
  destruct Hn as [|Hn]; [done|]. by rewrite Hn.
Qed.

Lemma map_ok_insert id info m i :
  map_ok m → UniqueId.unique_ id = Z.of_nat i → Forall PriorityInfo.wf info →
  map_ok (<[i := MultiQueue.make id info]> m).
Proof.
  intros Hm Hid Hinfo j q Hj Hn. destruct (decide (i = j)) as [<-|Hne].
  - apply list_lookup_insert_Some in Hj as [(_ & <- & _)|(? & _)]; [|done].
    split; [done|]. by apply wf_make.
  - rewrite list_lookup_insert_ne in Hj by done. by apply Hm.
Qed.

(** What the result of a [CreateQueue] that completes is. *)
Lemma CreateQueue_cases id info m m' :
  QueueManagerRuntime.CreateQueue id info m = Ok m' →
  ∃ i q, QueueManager.GetQueue id m = Ok i ∧ m !! i = Some q ∧
    m' = (if UniqueId.IsNull id then m
          else if UniqueId.IsNull (MultiQueue.id_ q)
               then <[i := MultiQueue.make id info]> m else m).
Proof.
  intros E. pose proof E as E0. unfold QueueManagerRuntime.CreateQueue in E0.
  apply bind_Ok in E0 as (i & Hi & _). pose proof Hi as [_ Hlt]%GetQueue_Ok.
  destruct (lookup_lt_is_Some_2 m i Hlt) as [q Hq]. exists i, q. split; [done|]. split; [done|].
  destruct (UniqueId.IsNull id) eqn:Hn; [|destruct (UniqueId.IsNull (MultiQueue.id_ q)) eqn:Hf].
  - erewrite CreateQueue_taken in E by eauto. by injection E.
  - erewrite CreateQueue_free in E by eauto. by injection E.
  - erewrite CreateQueue_taken in E by eauto. by injection E.
Qed.

Lemma CreateQueue_map_ok id info m m' :
  map_ok m → Forall PriorityInfo.wf info →
  QueueManagerRuntime.CreateQueue id info m = Ok m' → map_ok m' ∧ length m' = length m.
Proof.
  intros Hm Hinfo (i & q & Hi & Hq & ->)%CreateQueue_cases.
  apply GetQueue_Ok in Hi as [Hi _].
  repeat case_bool; auto. split; [by apply map_ok_insert|]. apply length_insert.
Qed.

Lemma tickets_seq n k l :
  foldl (λ t i, ticket_emplace t (Z.of_nat i)) l (seq k n) = l ++ (Z.of_nat <$> seq k n).
Proof.
  revert k l. induction n as [|n IH]; intros k l; simpl; [by rewrite app_nil_r|].
  by rewrite IH, ticket_emplace_spec, <- (assoc_L app).
Qed.

Lemma length_fresh_map n (f : nat → MultiQueue) :
  length (imap (λ i (_ : unit), MultiQueue.new (f i)) (hvec_resize tt [] n)) = n.
Proof.
  rewrite length_imap, hvec_resize_spec, take_nil. simpl. rewrite length_replicate. simpl. lia.
Qed.

Lemma lookup_fresh_map n (f : nat → MultiQueue) i :
  (i < n)%nat →
  imap (λ i (_ : unit), MultiQueue.new (f i)) (hvec_resize tt [] n) !! i =
    Some (MultiQueue.new (f i)).
Proof.
  intros Hi. rewrite list_lookup_imap, hvec_resize_spec, take_nil. simpl.
  rewrite lookup_replicate_2 by (simpl; lia). done.
Qed.

End lemmas.

#[export] Hint Resolve map_ok_insert : hrun.

(** After initialisation on memory where the ids are null, with room for the two
    queues, slot 0 holds the admin queue and slot 1 the process queue with its three
    priorities, every other slot is free, and the invariant of the map holds; but no
    function ever sets the pointer the tickets are returned through. *)
Lemma ServerInit_queues `{BitfieldLaws} `{HvecLaws} `{TicketLaws}
    (memory : QueueManagerRuntime) memory_queue node_id (config : ServerConfig) :
  let qm := ServerConfig.queue_manager_ config in
  2 ≤ QueueManagerInfo.max_queues_ qm →
  is_u32 (QueueManagerInfo.queue_depth_ qm) → is_u32 (QueueManagerInfo.max_lanes_ qm) →
  (∀ i, UniqueId.IsNull (MultiQueue.id_ (memory_queue i)) = true) →
  ∃ this shm, QueueManagerRuntime.ServerInit memory memory_queue node_id config = Ok (this, shm) ∧
    Z.of_nat (length (shm_queue_map_ shm)) = QueueManagerInfo.max_queues_ qm ∧
    map_ok (shm_queue_map_ shm) ∧
    shm_queue_map_ shm !! 0%nat =
      Some (MultiQueue.make (UniqueId.make 1 0) (QueueManagerRuntime.admin_queue_info qm)) ∧
    shm_queue_map_ shm !! 1%nat =
      Some (MultiQueue.make (UniqueId.make 1 1) (QueueManagerRuntime.process_queue_info qm)) ∧
    (∀ i, (2 ≤ i < length (shm_queue_map_ shm))%nat →
      shm_queue_map_ shm !! i = Some (MultiQueue.new (memory_queue i))) ∧
    shm_tickets_ shm = Z.of_nat <$> seq 1 (Z.to_nat (QueueManagerInfo.max_queues_ qm)) ∧
    QueueManagerRuntime.tickets_ this = QueueManagerRuntime.tickets_ memory ∧
    QueueManagerRuntime.base_ this = QueueManager.Init node_id.
Proof.
  intros qm Hmax Hd Hl Hnull. unfold QueueManagerRuntime.ServerInit. fold qm.
  set (n := Z.to_nat (QueueManagerInfo.max_queues_ qm)).
  set (m0 := imap _ _).
  assert (length m0 = n) as Hlen by apply length_fresh_map.
  assert (∀ i, (i < n)%nat → m0 !! i = Some (MultiQueue.new (memory_queue i))) as Hm0
    by apply lookup_fresh_map.
  assert (map_ok m0) as Hok0.
  { intros i q Hq Hn. pose proof (lookup_lt_Some _ _ _ Hq) as Hlt. rewrite Hlen in Hlt.
    rewrite Hm0 in Hq by done. injection Hq as <-. simpl in Hn. by rewrite Hnull in Hn. }
  assert (∀ lanes flags, is_u32 lanes → 0 ≤ flags < 32 →
    PriorityInfo.wf (PriorityInfo.make lanes lanes (QueueManagerInfo.queue_depth_ qm) (BIT_OPT flags))) as Hwf.
  { intros. unfold PriorityInfo.wf, PriorityInfo.make. simpl. rewrite bitfield_of_spec.
    auto with hrun. }
  assert (is_u32 1) as Hone by done.
  erewrite (CreateQueue_free _ _ _ 0%nat);
    [|apply GetQueue_Ok; simpl; lia|apply Hm0; lia|done|apply Hnull].
  simpl.
  erewrite (CreateQueue_free _ _ _ 1%nat);
    [|apply GetQueue_Ok; simpl; rewrite length_insert; lia
     |rewrite list_lookup_insert_ne by done; apply Hm0; lia|done|apply Hnull].
  simpl. eexists _, _. split; [done|]. simpl. rewrite !length_insert, Hlen.
  split; [lia|]. split.
  { apply map_ok_insert; [apply map_ok_insert|..]; try done; repeat constructor; apply Hwf; lia || done. }
  split; [rewrite list_lookup_insert_ne by done; apply list_lookup_insert_eq; lia|].
  split; [apply list_lookup_insert_eq; rewrite length_insert; lia|].
  split; [|split; [by rewrite tickets_seq|done]].
  intros i Hi. by rewrite !list_lookup_insert_ne, Hm0 by lia.
Qed.

(** ** Properties *)

(** C27: creating a queue is idempotent and local. On an index in range it always
    completes; a null id or a slot already in use leaves every queue as it was; a free
    slot then holds the queue built from the given lanes under the given id, found again by
    [GetQueue], and every other slot is unchanged. In every case each queue stays in the
    slot its id names. *)
Theorem CreateQueue_spec `{BitfieldLaws} `{HvecLaws} (id : QueueId) info (m : list MultiQueue) i q :
  map_ok m → Forall PriorityInfo.wf info →
  QueueManager.GetQueue id m = Ok i → m !! i = Some q →
  ∃ m', QueueManagerRuntime.CreateQueue id info m = Ok m' ∧ map_ok m' ∧
    length m' = length m ∧
    (∀ j, j ≠ i → m' !! j = m !! j) ∧
    m' !! i = Some (if UniqueId.IsNull id then q
                    else if UniqueId.IsNull (MultiQueue.id_ q)
                         then MultiQueue.make id info else q) ∧
    QueueManagerRuntime.CreateQueue id info m' = Ok m'.
Proof.
  intros Hm Hinfo Hi Hq. pose proof Hi as [Hid Hlt]%GetQueue_Ok.
  destruct (UniqueId.IsNull id) eqn:Hn; [|destruct (UniqueId.IsNull (MultiQueue.id_ q)) eqn:Hf].
  1,3: exists m; rewrite (CreateQueue_taken _ _ _ _ _ Hi Hq) by auto; auto 10.
  exists (<[i := MultiQueue.make id info]> m). rewrite (CreateQueue_free _ _ _ _ _ Hi Hq) by auto.
  split; [done|]. split; [by apply map_ok_insert|]. split; [apply length_insert|].
  split; [intros; by apply list_lookup_insert_ne|].
  split; [by apply list_lookup_insert_eq|].
  apply CreateQueue_taken with (i := i) (q := MultiQueue.make id info); [|by apply list_lookup_insert_eq|by right].
  apply GetQueue_Ok. by rewrite length_insert.
Qed.

(** The manager had its pointer been set to a ticket queue, as no function of the program does *)
Definition with_tickets (tickets : list Z) (this : QueueManagerRuntime) : QueueManagerRuntime :=
  QueueManagerRuntime.mk (QueueManagerRuntime.base_ this) (QueueManagerRuntime.max_queues_ this)
    (QueueManagerRuntime.max_lanes_ this) (Some tickets) (QueueManagerRuntime.node_id_ this).

(** C39: [DestroyQueue] cannot be used. On the manager [ServerInit] leaves, whose pointer to
    the tickets nothing has assigned, the call is undefined behaviour for every id and every
    map; setting the pointer to the ticket queue [ServerInit] fills would not repair it: the
    call would then return the ticket of the slot but erase the slot from the vector, so that
    every later slot holds the queue whose id names the next one, no longer found where its id
    says, and the invariant of the map is broken. *)
Theorem DestroyQueue_unusable `{BitfieldOps} `{HvecLaws} `{TicketLaws}
    (memory : QueueManagerRuntime) memory_queue node_id (config : ServerConfig) this shm (id : QueueId) :
  QueueManagerRuntime.tickets_ memory = None →
  QueueManagerRuntime.ServerInit memory memory_queue node_id config = Ok (this, shm) →
  (∀ m, QueueManagerRuntime.DestroyQueue id this m = Undefined) ∧
  ∀ (m : list MultiQueue) i j q, map_ok m →
    QueueManager.GetQueue id m = Ok i → (i < j)%nat →
    m !! j = Some q → UniqueId.IsNull (MultiQueue.id_ q) = false →
    ∃ this' m', QueueManagerRuntime.DestroyQueue id (with_tickets (shm_tickets_ shm) this) m = Ok (this', m') ∧
      QueueManagerRuntime.tickets_ this' = Some (shm_tickets_ shm ++ [UniqueId.unique_ id]) ∧
      m' !! (j - 1)%nat = Some q ∧ QueueManager.GetQueue (MultiQueue.id_ q) m = Ok j ∧ ¬ map_ok m'.
Proof.
  intros Hmem Hinit. split.
  { intros m. assert (QueueManagerRuntime.tickets_ this = None) as Ht.
    { revert Hinit. unfold QueueManagerRuntime.ServerInit. intros. by invert_ok. }
    unfold QueueManagerRuntime.DestroyQueue. rewrite Ht. by destruct (_ && _). }
  intros m i j q Hm Hi Hij Hj Hn. pose proof Hi as [Hid Hlt]%GetQueue_Ok.
  unfold QueueManagerRuntime.DestroyQueue.
  rewrite (proj2 (Z.leb_le _ _)), (proj2 (Z.ltb_lt _ _)) by lia. simpl.
  rewrite Hid, Nat2Z.id, hvec_erase_spec, ticket_emplace_spec by done.
  assert ((take i m ++ drop (S i) m) !! (j - 1)%nat = Some q) as Hq.
  { rewrite lookup_app_r by (rewrite length_take; lia).
    rewrite length_take, lookup_drop, <- Hj. f_equal. lia. }
  destruct (Hm _ _ Hj Hn) as [Hu _].
  eexists _, _. split; [done|]. split; [done|]. split; [done|]. split.
  - apply GetQueue_Ok. split; [done|]. by eapply lookup_lt_Some.
  - intros Hbad. destruct (Hbad _ _ Hq Hn) as [Hu' _]. lia.
Qed.

Section witness.
Import RefInstances.

(** A map of four slots, with a queue in slot 2 and in slot 3 *)
Definition wit_info : list PriorityInfo := [PriorityInfo.make 1 1 4 0].
Definition wit_map : list MultiQueue :=
  [free_queue; free_queue;
   MultiQueue.make (UniqueId.make 1 2) wit_info; MultiQueue.make (UniqueId.make 1 3) wit_info].

Lemma wit_map_ok : map_ok wit_map.
Proof.
  intros i q Hi Hn. destruct i as [|[|[|[|i]]]]; simpl in Hi; simplify_eq; try done;
    (split; [done|apply wf_make; repeat constructor; done]).
Qed.

Lemma CreateQueue_spec_witness :
  ∃ m', QueueManagerRuntime.CreateQueue (UniqueId.make 1 1) wit_info wit_map = Ok m' ∧ map_ok m' ∧
    m' !! 1%nat = Some (MultiQueue.make (UniqueId.make 1 1) wit_info).
Proof.
  assert (Forall PriorityInfo.wf wit_info) as Hinfo by (repeat constructor; done).
  destruct (CreateQueue_spec (UniqueId.make 1 1) wit_info wit_map 1
    free_queue wit_map_ok Hinfo eq_refl eq_refl)
    as (m' & Hc & Hok & _ & _ & Hi & _).
  exists m'. split; [exact Hc|]. split; [exact Hok|exact Hi].
Defined.

(** The memory the manager is built in, and a configuration of four queues *)
Definition wit_memory : QueueManagerRuntime :=
  QueueManagerRuntime.mk (QueueManager.Init 0) 0 0 None 0.

Lemma DestroyQueue_unusable_witness :
  ∃ config this shm this' m', QueueManagerRuntime.ServerInit wit_memory (λ _, free_queue) 1 config = Ok (this, shm) ∧
    QueueManagerRuntime.DestroyQueue (UniqueId.make 1 2) this wit_map = Undefined ∧
    QueueManagerRuntime.DestroyQueue (UniqueId.make 1 2) (with_tickets (shm_tickets_ shm) this) wit_map
      = Ok (this', m') ∧
    m' !! 2%nat = Some (MultiQueue.make (UniqueId.make 1 3) wit_info) ∧ ¬ map_ok m'.
Proof.
  set (config := ServerConfig.mk 1 (QueueManagerInfo.mk 4 2 4 "" "" 0) (RpcInfo.mk "" [] "" "" 0 0) []).
  assert (∃ this shm, QueueManagerRuntime.ServerInit wit_memory (λ _, free_queue) 1 config = Ok (this, shm))
    as (this & shm & Hinit) by (eexists _, _; vm_compute; reflexivity).
  destruct (DestroyQueue_unusable wit_memory (λ _, free_queue) 1 config this shm
    (UniqueId.make 1 2) eq_refl Hinit) as [Hu Hs].
  destruct (Hs wit_map 2%nat 3%nat (MultiQueue.make (UniqueId.make 1 3) wit_info) wit_map_ok eq_refl
    ltac:(lia) eq_refl eq_refl) as (this' & m' & Hd & _ & Hi & _ & Hbad).
  exists config, this, shm, this', m'. split; [exact Hinit|]. split; [exact (Hu wit_map)|].
  split; [exact Hd|]. split; [exact Hi|exact Hbad].
Defined.

End witness.
