(* ===== verification/LocalSerialize.v ===== *)
(** * Serialization to private memory ([include/hermes_run/network/local_serialize.h])

    [LocalSerialize] appends objects to a resizable buffer; its constructor empties the
    buffer. [LocalDeserialize] reads them back at a cursor. *)

From S2P Require Import Prelude Hshm RefLib.

(** [memcpy(data.data() + off, src, size)] inside a buffer *)
Definition memcpy_at (off : nat) (src data : list Z) : list Z :=
  take off data ++ src ++ drop (off + length src) data.

(** The argument types the [if constexpr] of the operators distinguishes: an arithmetic
    object of [size] bytes, a [std::string] or [charbuf], anything else. *)
Inductive local_obj : Type :=
  | LArith (size : nat) (v : Z)
  | LBytes (bs : list Z)
  | LOther.

Section local.
Context `{CharbufOps}.

(** [LocalSerialize(DataT &data)] *)
Definition LocalSerialize_new (data : list Z) : list Z := buf_resize data 0.

(** [LocalSerialize::operator<<] *)
Definition LocalSerialize_shl (data : list Z) (obj : local_obj) : outcome (list Z) :=
  match obj with
  | LArith size v =>
      let off := length data in
      let data := buf_resize data (off + size) in
      Ok (memcpy_at off (le_bytes size v) data)
  | LBytes bs =>
      let size := length bs in
      let off := length data in
      let data := buf_resize data (off + size) in
      Ok (memcpy_at off bs data)
  | LOther => Throw "Cannot serialize object"
  end.

End local.

(** [LocalDeserialize]: the buffer and the cursor [cur_off_]. *)
Record LocalDeserialize := mkLocalDeserialize { ld_data_ : list Z; ld_cur_off_ : nat }.

Definition LocalDeserialize_new (data : list Z) : LocalDeserialize :=
  {| ld_data_ := data; ld_cur_off_ := 0 |}.

(** [LocalDeserialize::operator>>]: the object read, whose bytes must lie in the buffer,
    and the reader afterwards. An object is given by its previous value: a string reads
    as many bytes as it holds. *)
Definition LocalDeserialize_shr (r : LocalDeserialize) (obj : local_obj)
    : outcome (local_obj * LocalDeserialize) :=
  let off := ld_cur_off_ r in
  let read size :=
    if (length (ld_data_ r) <? off + size)%nat then Undefined
    else Ok (take size (drop off (ld_data_ r))) in
  match obj with
  | LArith size _ =>
      bs ← read size;
      Ok (LArith size (le_value bs),
          {| ld_data_ := ld_data_ r; ld_cur_off_ := (off + size)%nat |})
  | LBytes old =>
      bs ← read (length old);
      Ok (LBytes bs,
          {| ld_data_ := ld_data_ r; ld_cur_off_ := (off + length old)%nat |})
  | LOther => Throw "Cannot serialize object"
  end.

(** [srl << o1 << o2 << ...] and [drl >> o1 >> o2 >> ...] *)
Fixpoint shl_all `{CharbufOps} (data : list Z) (objs : list local_obj) : outcome (list Z) :=
  match objs with
  | [] => Ok data
  | o :: objs => data ← LocalSerialize_shl data o; shl_all data objs
  end.

Fixpoint shr_all (r : LocalDeserialize) (objs : list local_obj)
    : outcome (list local_obj * LocalDeserialize) :=
  match objs with
  | [] => Ok ([], r)
  | o :: objs =>
      '(o, r) ← LocalDeserialize_shr r o;
      '(os, r) ← shr_all r objs;
      Ok (o :: os, r)
  end.

(** The bytes of an object, and the values an object of its type can hold. *)
Definition obj_bytes (o : local_obj) : list Z :=
  match o with LArith size v => le_bytes size v | LBytes bs => bs | LOther => [] end.

Definition obj_wf (o : local_obj) : Prop :=
  match o with
  | LArith size v => 0 ≤ v < 256 ^ Z.of_nat size
  | LBytes _ => True
  | LOther => False
  end.

(** An object of the same type: what the reader passes to receive it. *)
Definition same_type (a b : local_obj) : Prop :=
  match a, b with
  | LArith s _, LArith s' _ => s = s'
  | LBytes l, LBytes l' => length l = length l'
  | LOther, LOther => True
  | _, _ => False
  end.

Section lemmas.
Context `{CharbufLaws}.

Lemma buf_resize_0 data : buf_resize data 0 = [].
Proof. apply nil_length_inv, length_buf_resize. Qed.

Lemma take_buf_resize data n :
  (length data ≤ n)%nat → take (length data) (buf_resize data n) = data.
Proof.
  intros Hn. apply list_eq. intros i. destruct (decide (i < length data)%nat).
  - rewrite lookup_take_lt by done. apply buf_resize_keeps; lia.
  - rewrite !lookup_ge_None_2; [done|lia|]. rewrite length_take. lia.
Qed.

Lemma memcpy_append data bs :
  memcpy_at (length data) bs (buf_resize data (length data + length bs)) = data ++ bs.
Proof.
  unfold memcpy_at. rewrite take_buf_resize by lia.
  rewrite drop_ge by (rewrite length_buf_resize; lia). by rewrite app_nil_r.
Qed.

Lemma shl_appends data o :
  o ≠ LOther → LocalSerialize_shl data o = Ok (data ++ obj_bytes o).
Proof.
  destruct o as [size v|bs|]; intros Ho; simpl; [| |done].
  - rewrite <- memcpy_append. by rewrite length_le_bytes.
  - by rewrite memcpy_append.
Qed.

Lemma shl_all_appends data objs :
  Forall obj_wf objs → shl_all data objs = Ok (data ++ concat (obj_bytes <$> objs)).
Proof.
  intros Hw. revert data. induction Hw as [|o objs Ho _ IH]; intros data; simpl.
  { by rewrite app_nil_r. }
  rewrite shl_appends by (by intros ->). simpl. rewrite IH. by rewrite <- (assoc_L app).
Qed.

End lemmas.

(** Reading one object at the cursor. *)
Lemma shr_read pre o o' post :
  obj_wf o → same_type o' o →
  LocalDeserialize_shr {| ld_data_ := pre ++ obj_bytes o ++ post; ld_cur_off_ := length pre |} o' =
  Ok (o, {| ld_data_ := pre ++ obj_bytes o ++ post;
            ld_cur_off_ := length (pre ++ obj_bytes o) |}).
Proof.
  intros Ho Ht. destruct o as [size v|bs|], o' as [size' v'|bs'|]; try done;
    simpl in Ht; unfold LocalDeserialize_shr; cbn [ld_data_ ld_cur_off_ obj_bytes];
    rewrite ?Ht, !length_app, ?length_le_bytes, (proj2 (Nat.ltb_ge _ _)) by lia;
    cbn [mbind outcome_bind];
    rewrite drop_app_exact, take_app_exact by (by rewrite ?length_le_bytes); [|done].
  by rewrite le_value_bytes, Z.mod_small.
Qed.

Lemma shr_all_read pre objs objs' post :
  Forall obj_wf objs → Forall2 same_type objs' objs →
  shr_all {| ld_data_ := pre ++ concat (obj_bytes <$> objs) ++ post;
             ld_cur_off_ := length pre |} objs' =
  Ok (objs, {| ld_data_ := pre ++ concat (obj_bytes <$> objs) ++ post;
               ld_cur_off_ := length (pre ++ concat (obj_bytes <$> objs)) |}).
Proof.
  intros Hw Ht. revert pre. induction Ht as [|o' o objs' objs Ho Ht IH]; intros pre.
  { simpl. by rewrite app_nil_r. }
  inversion Hw; subst. cbn [shr_all fmap list_fmap concat].
  rewrite <- (assoc_L app), shr_read by done. cbn [mbind outcome_bind].
  rewrite (assoc_L app pre). rewrite IH by done. cbn [mbind outcome_bind].
  by rewrite <- !(assoc_L app).
Qed.

(** ** Properties *)

(** C37: objects serialized to a buffer, whatever the buffer held before, are read back
    equal and in order, and the reader ends exactly at the end of the buffer. *)
Theorem local_serialize_roundtrip `{CharbufLaws} data objs objs' :
  Forall obj_wf objs → Forall2 same_type objs' objs →
  ∃ buf, shl_all (LocalSerialize_new data) objs = Ok buf ∧
    shr_all (LocalDeserialize_new buf) objs' =
      Ok (objs, {| ld_data_ := buf; ld_cur_off_ := length buf |}).
Proof.
  intros Hw Ht. exists (concat (obj_bytes <$> objs)). split.
  - unfold LocalSerialize_new. by rewrite buf_resize_0, shl_all_appends.
  - pose proof (shr_all_read [] objs objs' [] Hw Ht) as E.
    by rewrite app_nil_r in E.
Qed.

Section witness.
Import RefInstances.

Lemma local_serialize_roundtrip_witness :
  ∃ buf, shl_all (LocalSerialize_new [9; 9]) [LArith 4 258; LBytes [7; 8]] = Ok buf ∧
    shr_all (LocalDeserialize_new buf) [LArith 4 0; LBytes [0; 0]] =
      Ok ([LArith 4 258; LBytes [7; 8]], {| ld_data_ := buf; ld_cur_off_ := length buf |}).
Proof.
  apply (local_serialize_roundtrip [9; 9] [LArith 4 258; LBytes [7; 8]]
           [LArith 4 0; LBytes [0; 0]]).
  - repeat constructor; vm_compute; congruence.
  - repeat constructor.
Defined.

End witness.
