(* ===== verification/Archive.v ===== *)
(** * Serialization archives ([include/hermes_run/network/serialize.h])

    A [BinaryOutputArchive] sends plain members to a byte stream through [cereal] and
    collects [DataTransfer] members in a list; [Get] appends the byte stream to that list
    as the last transfer. A [BinaryInputArchive] reads them back.

    A member function [serialize(Ar &ar)] is a [visitor]: what it writes to an output
    archive, and how it updates the object it is called on from an input archive. *)

From S2P Require Import Prelude Hshm RefLib Types.

Section flags.
Context `{BitfieldOps}.

Definition DT_RECEIVER_READ : Z := BIT_OPT 0.
Definition DT_RECEIVER_WRITE : Z := BIT_OPT 1.
Definition DT_FREE_DATA : Z := BIT_OPT 2.

End flags.

Module DataTransfer.

(** [struct DataTransferBase]. [data_] is the memory the pointer designates. *)
Record DataTransfer := mkDataTransfer {
  flags_ : Z;
  data_ : list Z;
  data_size_ : Z;
  node_id_ : DomainId;
}.

#[export] Instance DataTransfer_eq_dec : EqDecision DataTransfer.
Proof. solve_decision. Defined.

(** [DataTransferBase(u32 flags, void *data, size_t data_size, node_id)] *)
Definition make `{BitfieldOps} (flags : Z) (data : list Z) (data_size : Z)
    (node_id : DomainId) : DataTransfer :=
  {| flags_ := bitfield_of flags; data_ := data; data_size_ := data_size; node_id_ := node_id |}.

(** [var.node_id_ = node_id] *)
Definition set_node_id (node_id : DomainId) (x : DataTransfer) : DataTransfer :=
  {| flags_ := flags_ x; data_ := data_ x; data_size_ := data_size_ x; node_id_ := node_id |}.

(** The copy and move constructors and the copy assignment, which does not compare the
    addresses; there is no move assignment, so the copy assignment serves for it. *)
#[export] Instance transfer_copy : CopyOps DataTransfer := {|
  copy xfer := {| flags_ := flags_ xfer; data_ := data_ xfer; data_size_ := data_size_ xfer;
                  node_id_ := copy (node_id_ xfer) |};
  assign same this xfer :=
    {| flags_ := flags_ xfer; data_ := data_ xfer; data_size_ := data_size_ xfer;
       node_id_ := assign same (node_id_ this) (node_id_ xfer) |};
  move xfer := ({| flags_ := flags_ xfer; data_ := data_ xfer; data_size_ := data_size_ xfer;
                   node_id_ := copy (node_id_ xfer) |}, xfer);
  move_assign same this xfer :=
    ({| flags_ := flags_ xfer; data_ := data_ xfer; data_size_ := data_size_ xfer;
        node_id_ := assign same (node_id_ this) (node_id_ xfer) |}, xfer);
|}.

#[export] Instance transfer_copy_laws : CopyLaws DataTransfer.
Proof.
  split; [intros [? ? ? []]|intros [] [? ? ? []] [? ? ? []] Hsame|intros [? ? ? []]|
    intros [] [? ? ? []] [? ? ? []] Hsame]; try done;
    by injection (Hsame eq_refl) as -> -> -> -> ->.
Qed.

End DataTransfer.
Export (hints) DataTransfer.
Abbreviation DataTransfer := DataTransfer.DataTransfer.

Record BinaryOutputArchive := mkOutput {
  out_xfer_ : list DataTransfer;
  out_ss_ : list Z;
  out_node_id_ : DomainId;
}.

Record BinaryInputArchive := mkInput {
  in_xfer_ : list DataTransfer;
  in_ss_ : list Z;
  in_xfer_off_ : nat;
}.

(** [BinaryOutputArchive(const DomainId &node_id)] *)
Definition BinaryOutputArchive_new (node_id : DomainId) : BinaryOutputArchive :=
  {| out_xfer_ := []; out_ss_ := []; out_node_id_ := node_id |}.

(** [BinaryOutputArchive::Get] *)
Definition Get `{BitfieldOps} (ar : BinaryOutputArchive) : list DataTransfer :=
  let str := out_ss_ ar in
  out_xfer_ ar ++
    [DataTransfer.make (Z.lor DT_RECEIVER_READ DT_FREE_DATA) str
       (Z.of_nat (length str)) (out_node_id_ ar)].

(** Building a [std::string] of [size] bytes from a pointer. *)
Definition read_memory (data : list Z) (size : Z) : outcome (list Z) :=
  if Z.of_nat (length data) <? size then Undefined else Ok (take (Z.to_nat size) data).

(** [BinaryInputArchive(std::vector<DataTransfer> &xfer)] *)
Definition BinaryInputArchive_new (xfer : list DataTransfer) : outcome BinaryInputArchive :=
  param_xfer ← deref (list.last xfer);
  str ← read_memory (DataTransfer.data_ param_xfer) (DataTransfer.data_size_ param_xfer);
  Ok {| in_xfer_ := xfer; in_ss_ := str; in_xfer_off_ := 0 |}.

Record visitor (T : Type) := Visitor {
  v_save : T → BinaryOutputArchive → outcome BinaryOutputArchive;
  v_load : T → BinaryInputArchive → outcome (T * BinaryInputArchive);
}.
Arguments Visitor {T}.
Arguments v_save {T}.
Arguments v_load {T}.

(** A parameter that is neither a task nor a transfer: [ar_ << var], [ar_ >> var]. *)
Definition ser_pod {T} (c : codec T) : visitor T := {|
  v_save x ar :=
    Ok {| out_xfer_ := out_xfer_ ar; out_ss_ := out_ss_ ar ++ enc c x;
          out_node_id_ := out_node_id_ ar |};
  v_load _ ar :=
    match dec c (in_ss_ ar) with
    | Some (x, rest) =>
        Ok (x, {| in_xfer_ := in_xfer_ ar; in_ss_ := rest; in_xfer_off_ := in_xfer_off_ ar |})
    | None => Throw "cereal::Exception"
    end;
|}.

(** A [DataTransfer] parameter: it takes the archive's node when saved, and the next
    transfer when loaded. *)
Definition ser_xfer : visitor DataTransfer := {|
  v_save x ar :=
    Ok {| out_xfer_ := out_xfer_ ar ++ [DataTransfer.set_node_id (out_node_id_ ar) x];
          out_ss_ := out_ss_ ar; out_node_id_ := out_node_id_ ar |};
  v_load _ ar :=
    x ← deref (in_xfer_ ar !! in_xfer_off_ ar);
    Ok (x, {| in_xfer_ := in_xfer_ ar; in_ss_ := in_ss_ ar;
              in_xfer_off_ := S (in_xfer_off_ ar) |});
|}.

(** Visiting a member of an object. *)
Definition at_member {S T} (get : S → T) (set : T → S → S) (v : visitor T) : visitor S := {|
  v_save s ar := v_save v (get s) ar;
  v_load s ar := '(x, ar) ← v_load v (get s) ar; Ok (set x s, ar);
|}.

(** [ar(a, b, ...)]: the parameters in order; [ar()] ends the recursion. *)
Definition ser_seq {S} (v w : visitor S) : visitor S := {|
  v_save s ar := ar ← v_save v s ar; v_save w s ar;
  v_load s ar := '(s, ar) ← v_load v s ar; v_load w s ar;
|}.

Definition ser_end {S} : visitor S := {|
  v_save _ ar := Ok ar;
  v_load s ar := Ok (s, ar);
|}.

Infix ";;v" := ser_seq (at level 60, right associativity) : stdpp_scope.

(** The operators of the archives: a call with parameters, [<<] and [>>], [&]. Each is
    [Serialize] or [Deserialize] with replica 0, which recurses to the end of the
    parameters. *)
Definition out_call {T} (v : visitor T) (var : T) (ar : BinaryOutputArchive)
    : outcome BinaryOutputArchive := v_save (v ;;v ser_end) var ar.
Definition in_call {T} (v : visitor T) (var : T) (ar : BinaryInputArchive)
    : outcome (T * BinaryInputArchive) := v_load (v ;;v ser_end) var ar.

(** The member functions of a task type the archives dispatch on at compile time, with
    the type's [TaskFlags]. Asymmetric ones are a pair [SaveStart]/[LoadStart]. *)
Record task_serial (T : Type) := TaskSerial {
  SUPPORTS_SRL : bool;
  SRL_SYM_START : bool;
  SRL_SYM_END : bool;
  SerializeStart : visitor T;
  SaveLoadStart : visitor T;
  SerializeEnd : Z → visitor T;
  SaveLoadEnd : Z → visitor T;
}.
Arguments TaskSerial {T}.
Arguments SUPPORTS_SRL {T}.
Arguments SRL_SYM_START {T}.
Arguments SRL_SYM_END {T}.
Arguments SerializeStart {T}.
Arguments SaveLoadStart {T}.
Arguments SerializeEnd {T}.
Arguments SaveLoadEnd {T}.

(** [BinaryOutputArchive<is_start>::Serialize(replica, task)] and
    [BinaryInputArchive<is_start>::Deserialize(replica, task)] on a task. *)
Definition ser_task {T} (is_start : bool) (replica : Z) (t : task_serial T) : visitor T :=
  if SUPPORTS_SRL t then
    if is_start then
      if SRL_SYM_START t then SerializeStart t else SaveLoadStart t
    else
      if SRL_SYM_END t then SerializeEnd t replica else SaveLoadEnd t replica
  else ser_end.

(** ** Round trips

    [visitor_ok v P M]: what [v] saves for an object [s] with [P s] is read back into
    any object [o] as [M nid s o], [nid] being the archive's node. *)
Definition visitor_ok {T} (v : visitor T) (P : T → Prop) (M : DomainId → T → T → T) : Prop :=
  ∀ s nid, P s → ∃ bs xs,
    (∀ xfer ss, v_save v s (mkOutput xfer ss nid) = Ok (mkOutput (xfer ++ xs) (ss ++ bs) nid)) ∧
    (∀ o pre post rest,
      v_load v o (mkInput (pre ++ xs ++ post) (bs ++ rest) (length pre)) =
      Ok (M nid s o, mkInput (pre ++ xs ++ post) rest (length (pre ++ xs)))).

Lemma ser_pod_ok {T} (c : codec T) P :
  codec_ok c P → visitor_ok (ser_pod c) P (λ _ s _, s).
Proof.
  intros Hc s nid Hs. exists (enc c s), []. split.
  - intros. simpl. by rewrite app_nil_r.
  - intros. simpl. by rewrite Hc, app_nil_r.
Qed.

Lemma ser_xfer_ok : visitor_ok ser_xfer (λ _, True) (λ nid s _, DataTransfer.set_node_id nid s).
Proof.
  intros s nid _. exists [], [DataTransfer.set_node_id nid s]. split.
  - intros. simpl. by rewrite app_nil_r.
  - intros. simpl. rewrite list_lookup_middle by done. simpl.
    by rewrite length_app, Nat.add_1_r.
Qed.

Lemma at_member_ok {S T} (get : S → T) (set : T → S → S) v P M :
  visitor_ok v P M →
  visitor_ok (at_member get set v) (λ s, P (get s)) (λ nid s o, set (M nid (get s) (get o)) o).
Proof.
  intros Hv s nid Hs. destruct (Hv _ nid Hs) as (bs & xs & Hsave & Hload).
  exists bs, xs. split; [apply Hsave|]. intros. simpl. by rewrite Hload.
Qed.

Lemma ser_seq_ok {S} (v w : visitor S) P Q M N :
  visitor_ok v P M → visitor_ok w Q N →
  visitor_ok (v ;;v w) (λ s, P s ∧ Q s) (λ nid s o, N nid s (M nid s o)).
Proof.
  intros Hv Hw s nid [HP HQ].
  destruct (Hv _ nid HP) as (bs1 & xs1 & Hs1 & Hl1).
  destruct (Hw _ nid HQ) as (bs2 & xs2 & Hs2 & Hl2).
  exists (bs1 ++ bs2), (xs1 ++ xs2). split.
  - intros. simpl. rewrite Hs1. simpl. rewrite Hs2. by rewrite <- !(assoc_L app).
  - intros. cbn [v_load ser_seq]. rewrite <- !(assoc_L app), Hl1. cbn [mbind outcome_bind].
    pose proof (Hl2 (M nid s o) (pre ++ xs1) post rest) as E.
    rewrite <- !(assoc_L app) in E. by rewrite E.
Qed.

Lemma ser_end_ok {S} : visitor_ok (@ser_end S) (λ _, True) (λ _ _ o, o).
Proof.
  intros s nid _. exists [], []. split; intros; simpl; by rewrite ?app_nil_r.
Qed.

Lemma visitor_ok_weaken {T} (v : visitor T) (P Q : T → Prop) (M N : DomainId → T → T → T) :
  visitor_ok v P M → (∀ s, Q s → P s) → (∀ nid s o, M nid s o = N nid s o) →
  visitor_ok v Q N.
Proof.
  intros Hv HPQ HMN s nid Hs. destruct (Hv s nid (HPQ _ Hs)) as (bs & xs & H1 & H2).
  exists bs, xs. split; [done|]. intros. by rewrite H2, HMN.
Qed.

Lemma read_memory_all bs : read_memory bs (Z.of_nat (length bs)) = Ok bs.
Proof. unfold read_memory. by rewrite Z.ltb_irrefl, Nat2Z.id, firstn_all. Qed.

(** An archive that is saved, sent as its transfers and loaded again. *)
Lemma archive_roundtrip `{BitfieldOps} {T} (v : visitor T) P M s o nid :
  visitor_ok v P M → P s →
  ∃ ar0 ar1 ar2,
    v_save v s (BinaryOutputArchive_new nid) = Ok ar0 ∧
    BinaryInputArchive_new (Get ar0) = Ok ar1 ∧
    v_load v o ar1 = Ok (M nid s o, ar2) ∧ in_ss_ ar2 = [] ∧
    S (in_xfer_off_ ar2) = length (in_xfer_ ar2).
Proof.
  intros Hv Hs. destruct (Hv s nid Hs) as (bs & xs & Hsave & Hload).
  unfold BinaryOutputArchive_new. rewrite Hsave. eexists _, _, _. split; [done|].
  unfold Get, BinaryInputArchive_new. simpl.
  rewrite last_snoc. simpl. rewrite read_memory_all. simpl. split; [done|]. specialize (Hload o [] [DataTransfer.make
    (Z.lor DT_RECEIVER_READ DT_FREE_DATA) bs (Z.of_nat (length bs)) nid] []).
  rewrite app_nil_r in Hload. simpl in Hload. rewrite Hload.
  split; [done|]. split; [done|]. simpl. rewrite length_app. simpl. lia.
Qed.

#[export] Hint Resolve ser_xfer_ok ser_end_ok : hrun.
