(* ===== verification/Task.v ===== *)
(** * Tasks ([include/hermes_run/task_registry/task.h])

    The base class of every task: its flags, its position in the task graph, where it
    runs and what it runs. *)

From S2P Require Import Prelude Hshm RefLib Types Archive.

Section flags.
Context `{BitfieldOps}.

Definition TASK_READ : Z := BIT_OPT 0.
Definition TASK_WRITE : Z := BIT_OPT 1.
Definition TASK_UPDATE : Z := BIT_OPT 2.
Definition TASK_BLOCKED : Z := BIT_OPT 3.
Definition TASK_LOW_LATENCY : Z := BIT_OPT 4.
Definition TASK_SYSCALL : Z := BIT_OPT 5.
Definition TASK_STATELESS : Z := BIT_OPT 6.
Definition TASK_UNORDERED : Z := BIT_OPT 7.
Definition TASK_HAS_STARTED : Z := BIT_OPT 8.
Definition TASK_COMPLETE : Z := BIT_OPT 9.
Definition TASK_MODULE_COMPLETE : Z := BIT_OPT 10.
Definition TASK_LONG_RUNNING : Z := Z.lor (BIT_OPT 11) TASK_UNORDERED.
Definition TASK_FIRE_AND_FORGET : Z := BIT_OPT 12.
Definition TASK_DISABLE_RUN : Z := BIT_OPT 13.
Definition TASK_DATA_OWNER : Z := BIT_OPT 14.
Definition TASK_MARKED : Z := BIT_OPT 15.
Definition TASK_COROUTINE : Z := BIT_OPT 16.
Definition TASK_PREEMPTIVE : Z := BIT_OPT 17.
Definition TASK_REMOTE_DEBUG_MARK : Z := BIT_OPT 18.

Definition TF_SRL_SYM_START : Z := BIT_OPT 0.
Definition TF_SRL_ASYM_START : Z := BIT_OPT 1.
Definition TF_SRL_SYM_END : Z := BIT_OPT 2.
Definition TF_SRL_ASYM_END : Z := BIT_OPT 3.
Definition TF_SRL_SYM : Z := Z.lor TF_SRL_SYM_START TF_SRL_SYM_END.
Definition TF_SRL_ASYM : Z := Z.lor TF_SRL_ASYM_START TF_SRL_ASYM_END.
Definition TF_REPLICA : Z := BIT_OPT 31.
Definition TF_LOCAL : Z := BIT_OPT 5.

End flags.

(** The yields of the three thread models *)
Definition TASK_YIELD_STD : Z := 0.
Definition TASK_YIELD_CO : Z := 1.
Definition TASK_YIELD_ABT : Z := 2.

(** [struct TaskMethod] *)
Module TaskMethod.
Definition kConstruct : Z := 0.
Definition kDestruct : Z := 1.
Definition kLast : Z := 2.
End TaskMethod.

(** [class TaskPrio] *)
Module TaskPrio.
Definition kAdmin : Z := 0.
Definition kLongRunning : Z := 1.
Definition kLowLatency : Z := 2.
End TaskPrio.

(** [template<u32 FLAGS> struct TaskFlags]: the conversion of a masked word to [bool]. *)
Module TaskFlags.
Section taskflags.
Context `{BitfieldOps}.
Definition has (FLAGS mask : Z) : bool := negb (Z.land FLAGS mask =? 0).
Definition IS_LOCAL (FLAGS : Z) : bool := has FLAGS TF_LOCAL.
Definition SUPPORTS_SRL (FLAGS : Z) : bool := has FLAGS (Z.lor TF_SRL_SYM TF_SRL_ASYM).
Definition SRL_SYM_START (FLAGS : Z) : bool := has FLAGS TF_SRL_SYM_START.
Definition SRL_SYM_END (FLAGS : Z) : bool := has FLAGS TF_SRL_SYM_END.
Definition REPLICA (FLAGS : Z) : bool := has FLAGS TF_REPLICA.
End taskflags.
End TaskFlags.

Module TaskNode.

Record TaskNode := mkTaskNode {
  root_ : TaskId;
  node_depth_ : Z;
}.

#[export] Instance TaskNode_eq_dec : EqDecision TaskNode.
Proof. solve_decision. Defined.

(** [TaskNode(TaskId root)] *)
Definition make (root : TaskId) : TaskNode := {| root_ := root; node_depth_ := 0 |}.

(** [operator+(int i)]: the depth is a [u32]. *)
Definition add (n : TaskNode) (i : Z) : TaskNode :=
  {| root_ := root_ n; node_depth_ := wrap32 (node_depth_ n + i) |}.

Definition GetNull : TaskNode := {| root_ := UniqueId.GetNull; node_depth_ := 0 |}.
Definition IsNull (n : TaskNode) : bool := UniqueId.IsNull (root_ n).
Definition IsRoot (n : TaskNode) : bool := node_depth_ n =? 0.

(** [node.node_depth_ = d] *)
Definition set_depth (d : Z) (n : TaskNode) : TaskNode :=
  {| root_ := root_ n; node_depth_ := d |}.

(** The copy and move constructors and assignments; these assignments do not compare the
    addresses. *)
#[export] Instance task_node_copy : CopyOps TaskNode := {|
  copy other := {| root_ := copy (root_ other); node_depth_ := node_depth_ other |};
  assign same this other :=
    {| root_ := assign same (root_ this) (root_ other); node_depth_ := node_depth_ other |};
  move other := ({| root_ := copy (root_ other); node_depth_ := node_depth_ other |}, other);
  move_assign same this other :=
    ({| root_ := assign same (root_ this) (root_ other); node_depth_ := node_depth_ other |},
     other);
|}.

#[export] Instance task_node_copy_laws : CopyLaws TaskNode.
Proof.
  split; [intros [[] ?]|intros [] [[] ?] [[] ?] Hsame|intros [[] ?]|
    intros [] [[] ?] [[] ?] Hsame]; try done; by injection (Hsame eq_refl) as -> -> -> ->.
Qed.

(** [operator<<]: the string that is sent to the stream. *)
Definition print (obj : TaskNode) : string :=
  UniqueId.print (root_ obj) +:+ "/" +:+ to_string (node_depth_ obj).

(** [TaskNode::serialize] *)
Definition serialize `{CerealOps} : codec TaskNode :=
  map_codec (λ '(r, d), mkTaskNode r d) (λ n, (root_ n, node_depth_ n))
            (UniqueId.serialize ⊗c cereal_u32).

Definition wf (n : TaskNode) : Prop := UniqueId.wf (root_ n) ∧ is_u32 (node_depth_ n).

(** Nodes print alike exactly when they are one depth below equal roots. *)
Lemma print_node a b : wf a → wf b →
  (print a = print b ↔
   UniqueId.equal (root_ a) (root_ b) = true ∧ node_depth_ a = node_depth_ b).
Proof.
  intros [Ha Hda] [Hb Hdb]. pose proof (UniqueId.print_equal _ _ Ha Hb) as Hp.
  unfold print, is_u32 in *. split; [|by intros [->%Hp ->]].
  intros [E1 E2]%cut_inj; [|by apply UniqueId.print_free_of..].
  split; [by apply Hp|]. apply to_string_inj; [lia..|done].
Qed.

Lemma node_serialize_ok `{CerealLaws} : codec_ok serialize wf.
Proof.
  eapply map_codec_ok; [apply pair_codec_ok; [apply UniqueId.uid_serialize_ok|solve_codec]|].
  intros [r d] []. simpl. auto.
Qed.

End TaskNode.
Export (hints) TaskNode.
Abbreviation TaskNode := TaskNode.TaskNode.

(** The execution context of a coroutine, [bctx::transfer_t]: none yet, made but not
    entered, suspended at a yield of the method of the state it called, with the values of
    its local variables, or at the yield that follows that call. *)
Inductive fcontext : Type :=
  | NoContext
  | Entry
  | Suspended (exec method : Z) (frame : list Z)
  | Returned.

Module RunContext.

Record RunContext := mkRunContext {
  lane_id_ : Z;
  jmp_ : fcontext;
  stack_size_ : Z;
  stack_ptr_ : Z;
  exec_ : Z;
}.

(** [RunContext()]: [stack_size_ = KILOBYTES(64)], the other members hold what the memory
    holds. *)
Definition new (memory : RunContext) : RunContext := {|
  lane_id_ := lane_id_ memory;
  jmp_ := jmp_ memory;
  stack_size_ := 65536;
  stack_ptr_ := stack_ptr_ memory;
  exec_ := exec_ memory;
|}.

(** [RunContext(u32 lane_id)], with [stack_size_ = KILOBYTES(64)]; the other members
    hold what the memory holds. *)
Definition make (lane_id : Z) (memory : RunContext) : RunContext := {|
  lane_id_ := lane_id;
  jmp_ := jmp_ memory;
  stack_size_ := 65536;
  stack_ptr_ := stack_ptr_ memory;
  exec_ := exec_ memory;
|}.

Definition set_lane_id (l : Z) (c : RunContext) : RunContext :=
  mkRunContext l (jmp_ c) (stack_size_ c) (stack_ptr_ c) (exec_ c).
Definition set_jmp (j : fcontext) (c : RunContext) : RunContext :=
  mkRunContext (lane_id_ c) j (stack_size_ c) (stack_ptr_ c) (exec_ c).
Definition set_stack_ptr (p : Z) (c : RunContext) : RunContext :=
  mkRunContext (lane_id_ c) (jmp_ c) (stack_size_ c) p (exec_ c).
Definition set_exec (e : Z) (c : RunContext) : RunContext :=
  mkRunContext (lane_id_ c) (jmp_ c) (stack_size_ c) (stack_ptr_ c) e.

End RunContext.
Abbreviation RunContext := RunContext.RunContext.

Module Task.

Record Task := mkTask {
  task_state_ : TaskStateId;
  task_node_ : TaskNode;
  domain_id_ : DomainId;
  prio_ : Z;
  lane_hash_ : Z;
  method_ : Z;
  task_flags_ : Z;
  delcnt_ : Z;
  ctx_ : RunContext;
}.

Definition set_task_state (x : TaskStateId) (t : Task) : Task :=
  mkTask x (task_node_ t) (domain_id_ t) (prio_ t) (lane_hash_ t) (method_ t)
    (task_flags_ t) (delcnt_ t) (ctx_ t).
Definition set_task_node (x : TaskNode) (t : Task) : Task :=
  mkTask (task_state_ t) x (domain_id_ t) (prio_ t) (lane_hash_ t) (method_ t)
    (task_flags_ t) (delcnt_ t) (ctx_ t).
Definition set_domain_id (x : DomainId) (t : Task) : Task :=
  mkTask (task_state_ t) (task_node_ t) x (prio_ t) (lane_hash_ t) (method_ t)
    (task_flags_ t) (delcnt_ t) (ctx_ t).
Definition set_prio (x : Z) (t : Task) : Task :=
  mkTask (task_state_ t) (task_node_ t) (domain_id_ t) x (lane_hash_ t) (method_ t)
    (task_flags_ t) (delcnt_ t) (ctx_ t).
Definition set_lane_hash (x : Z) (t : Task) : Task :=
  mkTask (task_state_ t) (task_node_ t) (domain_id_ t) (prio_ t) x (method_ t)
    (task_flags_ t) (delcnt_ t) (ctx_ t).
Definition set_method (x : Z) (t : Task) : Task :=
  mkTask (task_state_ t) (task_node_ t) (domain_id_ t) (prio_ t) (lane_hash_ t) x
    (task_flags_ t) (delcnt_ t) (ctx_ t).
Definition set_task_flags (x : Z) (t : Task) : Task :=
  mkTask (task_state_ t) (task_node_ t) (domain_id_ t) (prio_ t) (lane_hash_ t) (method_ t)
    x (delcnt_ t) (ctx_ t).
Definition set_delcnt (x : Z) (t : Task) : Task :=
  mkTask (task_state_ t) (task_node_ t) (domain_id_ t) (prio_ t) (lane_hash_ t) (method_ t)
    (task_flags_ t) x (ctx_ t).
Definition set_ctx (x : RunContext) (t : Task) : Task :=
  mkTask (task_state_ t) (task_node_ t) (domain_id_ t) (prio_ t) (lane_hash_ t) (method_ t)
    (task_flags_ t) (delcnt_ t) x.

Section task.
Context `{BitfieldOps}.

(** [task_flags_.SetBits(m)], [task_flags_.UnsetBits(m)], [task_flags_.Any(m)] *)
Definition SetTaskFlags (m : Z) (t : Task) : Task := set_task_flags (SetBits (task_flags_ t) m) t.
Definition UnsetTaskFlags (m : Z) (t : Task) : Task :=
  set_task_flags (UnsetBits (task_flags_ t) m) t.
Definition AnyTaskFlags (m : Z) (t : Task) : bool := Any (task_flags_ t) m.

Definition SetModuleComplete : Task → Task := SetTaskFlags TASK_MODULE_COMPLETE.
Definition IsModuleComplete : Task → bool := AnyTaskFlags TASK_MODULE_COMPLETE.
Definition IsFireAndForget : Task → bool := AnyTaskFlags TASK_FIRE_AND_FORGET.
Definition UnsetFireAndForget : Task → Task := UnsetTaskFlags TASK_FIRE_AND_FORGET.
Definition IsLongRunning : Task → bool := AnyTaskFlags TASK_LONG_RUNNING.
Definition IsUnordered : Task → bool := AnyTaskFlags TASK_UNORDERED.

(** [SetUnordered] returns whether the flag is set; it does not set it. *)
Definition SetUnordered (t : Task) : bool * Task := (AnyTaskFlags TASK_UNORDERED t, t).

Definition SetComplete : Task → Task :=
  SetTaskFlags (Z.lor TASK_MODULE_COMPLETE TASK_COMPLETE).
Definition IsComplete : Task → bool := AnyTaskFlags TASK_COMPLETE.
Definition DisableRun : Task → Task := SetTaskFlags TASK_DISABLE_RUN.
Definition IsRunDisabled : Task → bool := AnyTaskFlags TASK_DISABLE_RUN.
Definition SetDataOwner : Task → Task := SetTaskFlags TASK_DATA_OWNER.
Definition IsDataOwner : Task → bool := AnyTaskFlags TASK_DATA_OWNER.
Definition UnsetDataOwner : Task → Task := UnsetTaskFlags TASK_DATA_OWNER.
Definition SetStarted : Task → Task := SetTaskFlags TASK_HAS_STARTED.
Definition UnsetStarted : Task → Task := UnsetTaskFlags TASK_HAS_STARTED.
Definition IsStarted : Task → bool := AnyTaskFlags TASK_HAS_STARTED.
Definition SetMarked : Task → Task := SetTaskFlags TASK_MARKED.
Definition UnsetMarked : Task → Task := UnsetTaskFlags TASK_MARKED.
Definition IsMarked : Task → bool := AnyTaskFlags TASK_MARKED.
Definition UnsetLongRunning : Task → Task := UnsetTaskFlags TASK_LONG_RUNNING.
Definition IsCoroutine : Task → bool := AnyTaskFlags TASK_COROUTINE.
Definition UnsetCoroutine : Task → Task := UnsetTaskFlags TASK_COROUTINE.
Definition IsPreemptive : Task → bool := AnyTaskFlags TASK_PREEMPTIVE.

(** [Task(alloc)]: the domain, the flags, the deletion count and the context have
    initialisers, the other members hold what the [memory] holds. *)
Definition new (memory : Task) : Task :=
  set_ctx (RunContext.new (ctx_ memory))
    (set_domain_id DomainId.new (set_delcnt 0 (set_task_flags bitfield_new memory))).

(** [Task(alloc, task_node)] *)
Definition new_node (memory : Task) (task_node : TaskNode) : Task :=
  set_task_node task_node (new memory).

(** [Task(alloc, task_node, domain_id, task_state, lane_hash, method, task_flags)] *)
Definition make (memory : Task) (task_node : TaskNode) (domain_id : DomainId)
    (task_state : TaskStateId) (lane_hash method task_flags : Z) : Task := {|
  task_state_ := task_state;
  task_node_ := task_node;
  domain_id_ := domain_id;
  prio_ := TaskPrio.kLowLatency;
  lane_hash_ := lane_hash;
  method_ := method;
  task_flags_ := task_flags;
  delcnt_ := 0;
  ctx_ := RunContext.new (ctx_ memory);
|}.

(** The copy and move constructors have empty bodies, and the assignments assign nothing:
    a copied task is a new one, and an assigned one is as it was. *)
Definition copy (memory other : Task) : Task := new memory.
Definition assign (this other : Task) : Task := this.
Definition move (memory other : Task) : Task * Task := (new memory, other).
Definition move_assign (this other : Task) : Task * Task := (this, other).

(** The members [hipc::ShmContainer] asks for *)
Definition shm_destroy_main (t : Task) : Task := t.
Definition IsNull (t : Task) : bool := false.
Definition SetNull (t : Task) : Task := t.

(** [Task::GetGroup] *)
Definition GetGroup (group : list Z) : Z * list Z := (TASK_UNORDERED, group).

(** [Yield<THREAD_MODEL>()], the task when the yield has returned: a coroutine that is
    resumed finds the context it was resumed from, [from], in [jmp_]; the other models do
    not touch the task. *)
Definition Yield (THREAD_MODEL : Z) (from : fcontext) (t : Task) : Task :=
  if THREAD_MODEL =? TASK_YIELD_STD then t
  else if THREAD_MODEL =? TASK_YIELD_CO then set_ctx (RunContext.set_jmp from (ctx_ t)) t
  else t.

(** One pass of the loop of [Wait]: the waiting thread yields until the task, which
    another thread completes, is complete. *)
Definition Wait (t : Task) : outcome unit := if IsComplete t then Ok tt else Blocked.

(** [Wait(Task *yield_task)]: one pass, in which [yield_task] yields when the task is not
    complete: whether the loop goes on, and [yield_task] afterwards. *)
Definition WaitYielding (THREAD_MODEL : Z) (from : fcontext) (t yield_task : Task)
    : bool * Task :=
  if negb (IsComplete t) then (true, Yield THREAD_MODEL from yield_task)
  else (false, yield_task).

End task.

(** [task_serialize]: [ar(task_state_, task_node_, domain_id_, lane_hash_, prio_, method_,
    task_flags_)] *)
Definition task_serialize `{CerealOps} : visitor Task :=
  at_member task_state_ set_task_state (ser_pod UniqueId.serialize) ;;v
  at_member task_node_ set_task_node (ser_pod TaskNode.serialize) ;;v
  at_member domain_id_ set_domain_id (ser_pod DomainId.serialize) ;;v
  at_member lane_hash_ set_lane_hash (ser_pod cereal_u32) ;;v
  at_member prio_ set_prio (ser_pod cereal_u32) ;;v
  at_member method_ set_method (ser_pod cereal_u32) ;;v
  at_member task_flags_ set_task_flags (ser_pod cereal_bitfield).

Definition wf (t : Task) : Prop :=
  UniqueId.wf (task_state_ t) ∧ TaskNode.wf (task_node_ t) ∧ DomainId.wf (domain_id_ t) ∧
  is_u32 (lane_hash_ t) ∧ is_u32 (prio_ t) ∧ is_u32 (method_ t) ∧ is_u32 (task_flags_ t).

(** The task read back: the serialized members of [s], the rest of [o]. *)
Definition received (s o : Task) : Task :=
  mkTask (task_state_ s) (task_node_ s) (domain_id_ s) (prio_ s) (lane_hash_ s) (method_ s)
    (task_flags_ s) (delcnt_ o) (ctx_ o).

Lemma task_serialize_ok `{CerealLaws} : visitor_ok task_serialize wf (λ _ s o, received s o).
Proof.
  eapply visitor_ok_weaken.
  - repeat eapply ser_seq_ok; eapply at_member_ok, ser_pod_ok;
      first [apply UniqueId.uid_serialize_ok | apply TaskNode.node_serialize_ok
            | apply DomainId.domain_serialize_ok | solve_codec].
  - intros t (?&?&?&?&?&?&?). auto 10.
  - done.
Qed.

End Task.
Abbreviation Task := Task.Task.

(** [flags_task] reduces a statement about the flags of tasks to their bits. *)
Ltac unfold_task_flags :=
  unfold Task.SetModuleComplete, Task.IsModuleComplete, Task.IsFireAndForget,
    Task.UnsetFireAndForget, Task.IsLongRunning, Task.IsUnordered, Task.SetComplete,
    Task.IsComplete, Task.DisableRun, Task.IsRunDisabled, Task.SetDataOwner,
    Task.IsDataOwner, Task.UnsetDataOwner, Task.SetStarted, Task.UnsetStarted,
    Task.IsStarted, Task.SetMarked, Task.UnsetMarked, Task.IsMarked,
    Task.UnsetLongRunning, Task.IsCoroutine, Task.UnsetCoroutine, Task.IsPreemptive,
    Task.SetTaskFlags, Task.UnsetTaskFlags, Task.AnyTaskFlags in *;
  cbn [Task.task_flags_ Task.set_task_flags] in *;
  unfold TASK_MODULE_COMPLETE, TASK_COMPLETE, TASK_LONG_RUNNING, TASK_UNORDERED,
    TASK_FIRE_AND_FORGET, TASK_DISABLE_RUN, TASK_DATA_OWNER, TASK_HAS_STARTED,
    TASK_MARKED, TASK_COROUTINE, TASK_PREEMPTIVE in *.

Ltac flags_task := unfold_task_flags; flags; eval_eqb; cbn [orb andb negb].

Section task_lemmas.
Context `{BitfieldLaws}.
Implicit Types t : Task.

Lemma IsModuleComplete_SetStarted t :
  Task.IsModuleComplete (Task.SetStarted t) = Task.IsModuleComplete t.
Proof. flags_task. by rewrite orb_false_r. Qed.

Lemma IsModuleComplete_set t : Task.IsModuleComplete (Task.SetModuleComplete t) = true.
Proof. flags_task. by rewrite orb_true_r. Qed.

Lemma IsFireAndForget_SetComplete t :
  Task.IsFireAndForget (Task.SetComplete t) = Task.IsFireAndForget t.
Proof. flags_task. by rewrite !orb_false_r. Qed.

Lemma IsComplete_set t : Task.IsComplete (Task.SetComplete t) = true.
Proof. flags_task. by rewrite orb_true_r. Qed.

Lemma IsModuleComplete_SetComplete t : Task.IsModuleComplete (Task.SetComplete t) = true.
Proof. flags_task. by rewrite orb_true_r. Qed.

Lemma IsStarted_set t : Task.IsStarted (Task.SetStarted t) = true.
Proof. flags_task. by rewrite orb_true_r. Qed.

End task_lemmas.

#[export] Hint Rewrite @IsModuleComplete_SetStarted @IsModuleComplete_set @IsComplete_set
  @IsModuleComplete_SetComplete @IsStarted_set using typeclasses eauto : hrun.

(** ** Properties *)

(** Completing a task makes it complete for its client and for the worker, and
    changes no other flag; only the completion of a worker ([SetComplete]) is seen by a
    client, the completion of a module is not. *)
Theorem task_completion_flags `{BitfieldLaws} (t : Task) :
  Task.IsComplete (Task.SetComplete t) = true ∧
  Task.IsModuleComplete (Task.SetComplete t) = true ∧
  Task.IsComplete (Task.SetModuleComplete t) = Task.IsComplete t ∧
  (∀ n, 0 ≤ n → n ≠ 9 → n ≠ 10 →
    Z.testbit (Task.task_flags_ (Task.SetComplete t)) n = Z.testbit (Task.task_flags_ t) n) ∧
  (is_u32 (Task.task_flags_ t) → is_u32 (Task.task_flags_ (Task.SetComplete t))).
Proof.
  split_and!.
  - by autorewrite with hrun.
  - by autorewrite with hrun.
  - flags_task. by rewrite orb_false_r.
  - intros n Hn H9 H10. flags_task.
    rewrite (proj2 (Z.eqb_neq 10 n)), (proj2 (Z.eqb_neq 9 n)) by lia. by rewrite orb_false_r.
  - intros Ht. apply SetBits_u32; [exact Ht|]. apply lor_u32; apply BIT_OPT_u32; lia.
Qed.

(** [TASK_LONG_RUNNING] contains the bit of [TASK_UNORDERED]: an unordered task counts
    as long-running, and a task that stops being long-running (as the remote queue makes
    every task it receives) is no longer unordered. *)
Lemma long_running_and_unordered `{BitfieldLaws} (t : Task) :
  (Task.IsUnordered t = true → Task.IsLongRunning t = true) ∧
  Task.IsUnordered (Task.UnsetLongRunning t) = false.
Proof.
  split.
  - flags_task. intros ->. by rewrite orb_true_r.
  - flags_task. by rewrite andb_false_r.
Qed.

Section witness.
Import RefInstances.

Definition wit_task : Task :=
  Task.mkTask UniqueId.GetNull TaskNode.GetNull (DomainId.mkDomainId 0 0) 0 0 0 16 0
    (RunContext.mkRunContext 0 NoContext 0 0 0).

Lemma task_completion_flags_witness :
  Task.IsComplete (Task.SetComplete wit_task) = true ∧
  Z.testbit (Task.task_flags_ (Task.SetComplete wit_task)) 4 = true ∧
  is_u32 (Task.task_flags_ (Task.SetComplete wit_task)).
Proof.
  destruct (task_completion_flags wit_task) as (Hc & _ & _ & Hn & Hu).
  split; [exact Hc|]. split; [|by apply Hu].
  rewrite Hn by discriminate. reflexivity.
Defined.

End witness.
