(* ===== verification/TaskTypes.v ===== *)
(** * The task types of the required task libraries

    Each structure derived from [Task] is the base task together with a record of its
    own members: [hermes_run_admin_tasks.h], [scheduler.h], [proc_queue_tasks.h],
    [remote_queue_tasks.h], [small_message_tasks.h] and [TASK_NAME_tasks.h]. A constructor is given the
    memory it runs on, so that members it leaves uninitialised keep what was there. *)

From S2P Require Import Prelude Hshm RefLib Types Queue LocalSerialize Archive Task.

(** The method identifiers of the libraries ([*_methods.h], [scheduler.h]) *)
Module AdminMethod.
Definition kCreateTaskState : Z := TaskMethod.kLast + 0.
Definition kDestroyTaskState : Z := TaskMethod.kLast + 1.
Definition kRegisterTaskLib : Z := TaskMethod.kLast + 2.
Definition kDestroyTaskLib : Z := TaskMethod.kLast + 3.
Definition kGetOrCreateTaskStateId : Z := TaskMethod.kLast + 4.
Definition kGetTaskStateId : Z := TaskMethod.kLast + 5.
Definition kStopRuntime : Z := TaskMethod.kLast + 6.
Definition kSetWorkOrchQueuePolicy : Z := TaskMethod.kLast + 7.
Definition kSetWorkOrchProcPolicy : Z := TaskMethod.kLast + 8.
End AdminMethod.

Module SchedulerMethod.
Definition kSchedule : Z := TaskMethod.kLast.
End SchedulerMethod.

Module ProcQueueMethod.
Definition kPush : Z := TaskMethod.kLast + 0.
End ProcQueueMethod.

Module RemoteQueueMethod.
Definition kPush : Z := TaskMethod.kLast + 0.
End RemoteQueueMethod.

Module SmallMessageMethod.
Definition kMd : Z := TaskMethod.kLast + 0.
Definition kIo : Z := TaskMethod.kLast + 1.
Definition kMdPush : Z := TaskMethod.kLast + 2.
End SmallMessageMethod.

Module TaskNameMethod.
Definition kCustom : Z := TaskMethod.kLast + 0.
End TaskNameMethod.

(** The "Initialize task" block of the constructors: [Task(alloc)] followed by the
    assignments of the members and [task_flags_.SetBits(flags)]. *)
Definition init_task `{BitfieldOps} (memory : Task) (task_node : TaskNode)
    (domain_id : DomainId) (lane_hash prio : Z) (task_state : TaskStateId)
    (method flags : Z) : Task :=
  let t := Task.new memory in
  let t := Task.set_task_node task_node t in
  let t := Task.set_lane_hash lane_hash t in
  let t := Task.set_prio prio t in
  let t := Task.set_task_state task_state t in
  let t := Task.set_method method t in
  let t := Task.SetTaskFlags flags t in
  Task.set_domain_id domain_id t.

(** [task_serialize<Ar>(ar)] in a derived class. *)
Definition base_serialize `{CerealOps} {P} : visitor (Task * P) :=
  at_member fst (λ t s, (t, s.2)) Task.task_serialize.

(** A member of the derived class. *)
Definition member `{CerealOps} {P T} (get : P → T) (set : T → P → P) (c : codec T) :
    visitor (Task * P) :=
  at_member (λ s, get s.2) (λ x s, (s.1, set x s.2)) (ser_pod c).

(** The [task_serial] of a task type with flags [FLAGS]; a function the class does not
    declare is never selected. *)
Definition make_serial `{BitfieldOps} {T} (FLAGS : Z) (start sl_start : visitor T)
    (end_ sl_end : Z → visitor T) : task_serial T := {|
  SUPPORTS_SRL := TaskFlags.SUPPORTS_SRL FLAGS;
  SRL_SYM_START := TaskFlags.SRL_SYM_START FLAGS;
  SRL_SYM_END := TaskFlags.SRL_SYM_END FLAGS;
  SerializeStart := start;
  SaveLoadStart := sl_start;
  SerializeEnd := end_;
  SaveLoadEnd := sl_end;
|}.

Definition no_end {T} : Z → visitor T := λ _, ser_end.

(** ** Administrative tasks *)

(** [RegisterTaskLibTaskTempl<method>] *)
Module RegisterTaskLib.

Record RegisterTaskLibTask := mk { lib_name_ : string; id_ : TaskStateId }.

Section task.
Context `{BitfieldOps} `{CerealOps}.

Definition make (method : Z) (memory : Task * RegisterTaskLibTask) (task_node : TaskNode)
    (domain_id : DomainId) (admin_task_state : TaskStateId) (lib_name : string)
    : Task * RegisterTaskLibTask :=
  (init_task memory.1 task_node domain_id 0 TaskPrio.kAdmin admin_task_state
     (if method =? 0 then AdminMethod.kRegisterTaskLib else AdminMethod.kDestroyTaskLib) 0,
   {| lib_name_ := lib_name; id_ := id_ memory.2 |}).

Definition SerializeStart : visitor (Task * RegisterTaskLibTask) :=
  base_serialize ;;v
  member lib_name_ (λ x p, mk x (id_ p)) cereal_string.

Definition SerializeEnd (replica : Z) : visitor (Task * RegisterTaskLibTask) :=
  member id_ (λ x p, mk (lib_name_ p) x) UniqueId.serialize.

Definition GetGroup (group : list Z) : Z * list Z := (TASK_UNORDERED, group).

Definition FLAGS : Z := TF_SRL_SYM.

Definition serial : task_serial (Task * RegisterTaskLibTask) :=
  make_serial FLAGS SerializeStart ser_end SerializeEnd no_end.

End task.
End RegisterTaskLib.

Module GetOrCreateTaskStateId.

Record GetOrCreateTaskStateIdTask := mk { state_name_ : string; id_ : TaskStateId }.

Section task.
Context `{BitfieldOps} `{CerealOps}.

Definition make (memory : Task * GetOrCreateTaskStateIdTask) (task_node : TaskNode)
    (domain_id : DomainId) (admin_task_state : TaskStateId) (state_name : string)
    : Task * GetOrCreateTaskStateIdTask :=
  (init_task memory.1 task_node domain_id 0 TaskPrio.kAdmin admin_task_state
     AdminMethod.kGetOrCreateTaskStateId 0,
   {| state_name_ := state_name; id_ := id_ memory.2 |}).

Definition SerializeStart : visitor (Task * GetOrCreateTaskStateIdTask) :=
  base_serialize ;;v
  member state_name_ (λ x p, mk x (id_ p)) cereal_string.

Definition SerializeEnd (replica : Z) : visitor (Task * GetOrCreateTaskStateIdTask) :=
  member id_ (λ x p, mk (state_name_ p) x) UniqueId.serialize.

Definition GetGroup (group : list Z) : Z * list Z := (TASK_UNORDERED, group).

Definition FLAGS : Z := TF_SRL_SYM.

Definition serial : task_serial (Task * GetOrCreateTaskStateIdTask) :=
  make_serial FLAGS SerializeStart ser_end SerializeEnd no_end.

End task.
End GetOrCreateTaskStateId.

Module CreateTaskState.

Record CreateTaskStateTask := mk {
  lib_name_ : string;
  state_name_ : string;
  queue_info_ : list PriorityInfo;
  id_ : TaskStateId;
}.

Section task.
Context `{BitfieldOps} `{CerealOps}.

Definition make (memory : Task * CreateTaskStateTask) (task_node : TaskNode)
    (domain_id : DomainId) (admin_task_state : TaskStateId)
    (state_name lib_name : string) (id : TaskStateId) (queue_info : list PriorityInfo)
    : Task * CreateTaskStateTask :=
  (init_task memory.1 task_node domain_id 0 TaskPrio.kAdmin admin_task_state
     AdminMethod.kCreateTaskState TASK_COROUTINE,
   {| state_name_ := state_name; lib_name_ := lib_name; queue_info_ := queue_info; id_ := id |}).

(** Replication does nothing. *)
Definition ReplicateStart (count : Z) (p : CreateTaskStateTask) : CreateTaskStateTask := p.
Definition ReplicateEnd (p : CreateTaskStateTask) : CreateTaskStateTask := p.

Definition SerializeStart : visitor (Task * CreateTaskStateTask) :=
  base_serialize ;;v
  member lib_name_ (λ x p, mk x (state_name_ p) (queue_info_ p) (id_ p)) cereal_string ;;v
  member state_name_ (λ x p, mk (lib_name_ p) x (queue_info_ p) (id_ p)) cereal_string ;;v
  member id_ (λ x p, mk (lib_name_ p) (state_name_ p) (queue_info_ p) x) UniqueId.serialize ;;v
  member queue_info_ (λ x p, mk (lib_name_ p) (state_name_ p) x (id_ p))
    (cereal_vector PriorityInfo.serialize).

Definition SerializeEnd (replica : Z) : visitor (Task * CreateTaskStateTask) :=
  member id_ (λ x p, mk (lib_name_ p) (state_name_ p) (queue_info_ p) x) UniqueId.serialize.

(** [LocalSerialize srl(group); srl << 16; return 0;] *)
Definition GetGroup `{CharbufOps} (group : list Z) : outcome (Z * list Z) :=
  group ← LocalSerialize_shl (LocalSerialize_new group) (LArith 4 16);
  mret (0, group).

Definition FLAGS : Z := Z.lor TF_SRL_SYM TF_REPLICA.

Definition serial : task_serial (Task * CreateTaskStateTask) :=
  make_serial FLAGS SerializeStart ser_end SerializeEnd no_end.

End task.
End CreateTaskState.

Module GetTaskStateId.

Record GetTaskStateIdTask := mk { state_name_ : string; id_ : TaskStateId }.

Section task.
Context `{BitfieldOps} `{CerealOps}.

Definition make (memory : Task * GetTaskStateIdTask) (task_node : TaskNode)
    (domain_id : DomainId) (admin_task_state : TaskStateId) (state_name : string)
    : Task * GetTaskStateIdTask :=
  (init_task memory.1 task_node domain_id 0 TaskPrio.kAdmin admin_task_state
     AdminMethod.kGetTaskStateId 0,
   {| state_name_ := state_name; id_ := id_ memory.2 |}).

Definition SerializeStart : visitor (Task * GetTaskStateIdTask) :=
  base_serialize ;;v
  member state_name_ (λ x p, mk x (id_ p)) cereal_string.

Definition SerializeEnd (replica : Z) : visitor (Task * GetTaskStateIdTask) :=
  member id_ (λ x p, mk (state_name_ p) x) UniqueId.serialize.

Definition GetGroup (group : list Z) : Z * list Z := (TASK_UNORDERED, group).

Definition FLAGS : Z := TF_SRL_SYM.

Definition serial : task_serial (Task * GetTaskStateIdTask) :=
  make_serial FLAGS SerializeStart ser_end SerializeEnd no_end.

End task.
End GetTaskStateId.

Module DestroyTaskState.

Record DestroyTaskStateTask := mk { id_ : TaskStateId }.

Section task.
Context `{BitfieldOps} `{CerealOps}.

Definition make (memory : Task * DestroyTaskStateTask) (task_node : TaskNode)
    (domain_id : DomainId) (admin_task_state : TaskStateId) (id : TaskStateId)
    : Task * DestroyTaskStateTask :=
  (init_task memory.1 task_node domain_id 0 TaskPrio.kAdmin admin_task_state
     AdminMethod.kDestroyTaskState 0,
   {| id_ := id |}).

Definition SerializeStart : visitor (Task * DestroyTaskStateTask) :=
  base_serialize ;;v
  member id_ (λ x _, mk x) UniqueId.serialize.

Definition SerializeEnd (replica : Z) : visitor (Task * DestroyTaskStateTask) := ser_end.

Definition GetGroup (group : list Z) : Z * list Z := (TASK_UNORDERED, group).

Definition FLAGS : Z := TF_SRL_SYM.

Definition serial : task_serial (Task * DestroyTaskStateTask) :=
  make_serial FLAGS SerializeStart ser_end SerializeEnd no_end.

End task.
End DestroyTaskState.

(** [StopRuntimeTask] has no member of its own. *)
Module StopRuntime.
Section task.
Context `{BitfieldOps} `{CerealOps}.

Definition make (memory : Task * unit) (task_node : TaskNode) (domain_id : DomainId)
    (admin_task_state : TaskStateId) : Task * unit :=
  (init_task memory.1 task_node domain_id 0 TaskPrio.kAdmin admin_task_state
     AdminMethod.kStopRuntime TASK_FIRE_AND_FORGET, tt).

Definition SerializeStart : visitor (Task * unit) := base_serialize.

Definition SerializeEnd (replica : Z) : visitor (Task * unit) := ser_end.

Definition GetGroup (group : list Z) : Z * list Z := (TASK_UNORDERED, group).

Definition FLAGS : Z := TF_SRL_SYM.

Definition serial : task_serial (Task * unit) :=
  make_serial FLAGS SerializeStart ser_end SerializeEnd no_end.

End task.
End StopRuntime.

(** [SetWorkOrchestratorPolicyTask<method>] *)
Module SetWorkOrchestratorPolicy.

Record SetWorkOrchestratorPolicyTask := mk { policy_id_ : TaskStateId }.

Section task.
Context `{BitfieldOps} `{CerealOps}.

Definition make (method : Z) (memory : Task * SetWorkOrchestratorPolicyTask)
    (task_node : TaskNode) (domain_id : DomainId) (admin_task_state policy_id : TaskStateId)
    : Task * SetWorkOrchestratorPolicyTask :=
  (init_task memory.1 task_node domain_id 0 TaskPrio.kAdmin admin_task_state
     (if method =? 0 then AdminMethod.kSetWorkOrchQueuePolicy
      else AdminMethod.kSetWorkOrchProcPolicy) 0,
   {| policy_id_ := policy_id |}).

Definition SerializeStart : visitor (Task * SetWorkOrchestratorPolicyTask) :=
  base_serialize ;;v
  member policy_id_ (λ x _, mk x) UniqueId.serialize.

Definition SerializeEnd (replica : Z) : visitor (Task * SetWorkOrchestratorPolicyTask) :=
  ser_end.

Definition GetGroup (group : list Z) : Z * list Z := (TASK_UNORDERED, group).

Definition FLAGS : Z := TF_SRL_SYM.

Definition serial : task_serial (Task * SetWorkOrchestratorPolicyTask) :=
  make_serial FLAGS SerializeStart ser_end SerializeEnd no_end.

End task.
End SetWorkOrchestratorPolicy.

(** ** Scheduling tasks ([work_orchestrator/scheduler.h]) *)
Module Schedule.

Record ScheduleTask := mk { ret_ : list Z }.

Section task.
Context `{BitfieldOps} `{CerealOps}.

(** [ret_.construct(alloc, 1)] makes one element, not initialised: [junk]. *)
Definition make (memory : Task) (junk : Z) (task_node : TaskNode) (domain_id : DomainId)
    (state_id : TaskStateId) : Task * ScheduleTask :=
  (init_task memory task_node domain_id 0 TaskPrio.kLongRunning state_id
     SchedulerMethod.kSchedule (Z.lor TASK_LONG_RUNNING TASK_REMOTE_DEBUG_MARK),
   {| ret_ := [junk] |}).

Definition GetGroup (group : list Z) : Z * list Z := (TASK_UNORDERED, group).

Definition FLAGS : Z := TF_LOCAL.

Definition serial : task_serial (Task * ScheduleTask) :=
  make_serial FLAGS ser_end ser_end no_end no_end.

End task.
End Schedule.

(** ** Process queue ([proc_queue_tasks.h]) *)

(** [hipc::LPointer]: an address with the shared-memory pointer to it *)
Record LPointer := mkLPointer { ptr_ : Z; shm_ : Z }.

Module PushTaskPhase.
Definition kSchedule : Z := 0.
Definition kWaitSchedule : Z := 1.
End PushTaskPhase.

Module TypedPush.

(** [TypedPushTask<TaskT>]; [PushTask] is [TypedPushTask<Task>]. *)
Record TypedPushTask := mk {
  sub_cli_ : LPointer;
  sub_run_ : LPointer;
  phase_ : Z;
}.

Section task.
Context `{BitfieldOps} `{CerealOps}.

(** [tid] and [pid] are the numbers [hshm::NodeThreadId] gives for the calling thread. *)
Definition make (memory : Task * TypedPushTask) (tid pid : Z) (task_node : TaskNode)
    (domain_id : DomainId) (state_id : TaskStateId) (subtask : LPointer)
    : Task * TypedPushTask :=
  (init_task memory.1 task_node domain_id (wrap32 (tid + pid)) TaskPrio.kLowLatency state_id
     ProcQueueMethod.kPush
     (Z.lor TASK_DATA_OWNER (Z.lor TASK_LOW_LATENCY TASK_REMOTE_DEBUG_MARK)),
   {| sub_cli_ := subtask; sub_run_ := sub_run_ memory.2; phase_ := PushTaskPhase.kSchedule |}).

(** [group.resize(sizeof(u32)); memcpy(group.data(), &lane_hash_, sizeof(u32)); return 0;] *)
Definition GetGroup `{CharbufOps} (t : Task) (group : list Z) : Z * list Z :=
  (0, memcpy_at 0 (le_bytes 4 (Task.lane_hash_ t)) (buf_resize group 4)).

(** [get] returns the client's pointer to the subtask. *)
Definition get (p : TypedPushTask) : Z := ptr_ (sub_cli_ p).

Definition FLAGS : Z := TF_LOCAL.

Definition serial : task_serial (Task * TypedPushTask) :=
  make_serial FLAGS ser_end ser_end no_end no_end.

End task.

Definition set_sub_run (l : LPointer) (p : TypedPushTask) : TypedPushTask :=
  mk (sub_cli_ p) l (phase_ p).
Definition set_phase (x : Z) (p : TypedPushTask) : TypedPushTask :=
  mk (sub_cli_ p) (sub_run_ p) x.

End TypedPush.

(** ** Remote queue ([remote_queue_tasks.h]) *)
Module RemotePush.

Record PushTask := mk {
  domain_ids_ : list DomainId;
  orig_task_ : Z;
  exec_ : Z;
  exec_method_ : Z;
  xfer_ : list DataTransfer;
  params_ : list Z;
}.

Section task.
Context `{BitfieldOps} `{CerealOps}.

Definition make (memory : Task) (task_node : TaskNode) (domain_id : DomainId)
    (state_id : TaskStateId) (domain_ids : list DomainId) (orig_task exec exec_method : Z)
    (xfer : list DataTransfer) : Task * PushTask :=
  (init_task memory task_node domain_id 0 TaskPrio.kLowLatency state_id
     RemoteQueueMethod.kPush
     (Z.lor TASK_LOW_LATENCY (Z.lor TASK_PREEMPTIVE TASK_REMOTE_DEBUG_MARK)),
   {| domain_ids_ := domain_ids; orig_task_ := orig_task; exec_ := exec;
      exec_method_ := exec_method; xfer_ := xfer; params_ := [] |}).

Definition GetGroup (group : list Z) : Z * list Z := (TASK_UNORDERED, group).

Definition FLAGS : Z := TF_LOCAL.

Definition serial : task_serial (Task * PushTask) :=
  make_serial FLAGS ser_end ser_end no_end no_end.

End task.

(** [task->params_ = params] *)
Definition set_params (x : list Z) (p : PushTask) : PushTask :=
  mk (domain_ids_ p) (orig_task_ p) (exec_ p) (exec_method_ p) (xfer_ p) x.

End RemotePush.

(** ** Small messages ([small_message_tasks.h]) *)

Module Md.

Record MdTask := mk { ret_ : list Z }.

(** Visiting [ret_[replica]]: an index out of range is undefined behaviour. *)
Definition at_replica (replica : Z) (v : visitor Z) : visitor (Task * MdTask) := {|
  v_save s ar := x ← deref (at_index (ret_ s.2) replica); v_save v x ar;
  v_load s ar :=
    x ← deref (at_index (ret_ s.2) replica);
    '(y, ar) ← v_load v x ar;
    Ok ((s.1, mk (set_index replica y (ret_ s.2))), ar);
|}.

Section task.
Context `{BitfieldOps} `{CerealOps}.

Definition make (memory : Task) (junk : Z) (task_node : TaskNode) (domain_id : DomainId)
    (state_id : TaskStateId) : Task * MdTask :=
  (init_task memory task_node domain_id 0 TaskPrio.kLowLatency state_id
     SmallMessageMethod.kMd TASK_LOW_LATENCY,
   {| ret_ := [junk] |}).

(** [ret_.resize(count)]; the value of new elements is [junk]. *)
Definition ReplicateStart `{HvecOps} (junk count : Z) (p : MdTask) : MdTask :=
  mk (hvec_resize junk (ret_ p) (Z.to_nat count)).

Definition ReplicateEnd (p : MdTask) : MdTask := p.

Definition SerializeStart : visitor (Task * MdTask) := base_serialize.

Definition SerializeEnd (replica : Z) : visitor (Task * MdTask) :=
  at_replica replica (ser_pod cereal_int).

Definition GetGroup (group : list Z) : Z * list Z := (TASK_UNORDERED, group).

Definition FLAGS : Z := Z.lor TF_SRL_SYM TF_REPLICA.

Definition serial : task_serial (Task * MdTask) :=
  make_serial FLAGS SerializeStart ser_end SerializeEnd no_end.

End task.
End Md.

(** [MdPushTask] has members of the same names and types as [MdTask], and its constructor sets the
    method of [MdTask]; it is another type. *)
Module MdPush.

Record MdPushTask := mk { ret_ : list Z }.

Definition at_replica (replica : Z) (v : visitor Z) : visitor (Task * MdPushTask) := {|
  v_save s ar := x ← deref (at_index (ret_ s.2) replica); v_save v x ar;
  v_load s ar :=
    x ← deref (at_index (ret_ s.2) replica);
    '(y, ar) ← v_load v x ar;
    Ok ((s.1, mk (set_index replica y (ret_ s.2))), ar);
|}.

Section task.
Context `{BitfieldOps} `{CerealOps}.

Definition make (memory : Task) (junk : Z) (task_node : TaskNode) (domain_id : DomainId)
    (state_id : TaskStateId) : Task * MdPushTask :=
  (init_task memory task_node domain_id 0 TaskPrio.kLowLatency state_id
     SmallMessageMethod.kMd TASK_LOW_LATENCY,
   {| ret_ := [junk] |}).

Definition ReplicateStart `{HvecOps} (junk count : Z) (p : MdPushTask) : MdPushTask :=
  mk (hvec_resize junk (ret_ p) (Z.to_nat count)).

Definition ReplicateEnd (p : MdPushTask) : MdPushTask := p.

Definition SerializeStart : visitor (Task * MdPushTask) := base_serialize.

Definition SerializeEnd (replica : Z) : visitor (Task * MdPushTask) :=
  at_replica replica (ser_pod cereal_int).

Definition GetGroup (group : list Z) : Z * list Z := (TASK_UNORDERED, group).

Definition FLAGS : Z := Z.lor TF_SRL_SYM TF_REPLICA.

Definition serial : task_serial (Task * MdPushTask) :=
  make_serial FLAGS SerializeStart ser_end SerializeEnd no_end.

End task.
End MdPush.

Module Io.

Record IoTask := mk { data_ : list Z; ret_ : Z }.

Definition DATA_SIZE : Z := 4096.

Section task.
Context `{BitfieldOps} `{CerealOps}.

(** [memset(data_, 10, DATA_SIZE)] *)
Definition make (memory : Task * IoTask) (task_node : TaskNode) (domain_id : DomainId)
    (state_id : TaskStateId) : Task * IoTask :=
  (init_task memory.1 task_node domain_id 3 TaskPrio.kLowLatency state_id
     SmallMessageMethod.kIo 0,
   {| data_ := replicate (Z.to_nat DATA_SIZE) 10; ret_ := ret_ memory.2 |}).

Definition SaveStart (s : Task * IoTask) (ar : BinaryOutputArchive)
    : outcome BinaryOutputArchive :=
  let xfer := DataTransfer.make DT_RECEIVER_READ (data_ s.2) DATA_SIZE (Task.domain_id_ s.1) in
  ar ← v_save base_serialize s ar;
  v_save ser_xfer xfer ar.

(** The last line is [memcpy(data_, xfer.data_, xfer.data_size_)]. *)
Definition LoadStart (s : Task * IoTask) (ar : BinaryInputArchive)
    : outcome ((Task * IoTask) * BinaryInputArchive) :=
  let xfer := DataTransfer.make 0 [] 0 DomainId.new in
  '(s, ar) ← v_load base_serialize s ar;
  '(xfer, ar) ← v_load ser_xfer xfer ar;
  bs ← read_memory (DataTransfer.data_ xfer) (DataTransfer.data_size_ xfer);
  if DATA_SIZE <? DataTransfer.data_size_ xfer then Undefined
  else Ok ((s.1, mk (memcpy_at 0 bs (data_ s.2)) (ret_ s.2)), ar).

Definition SerializeEnd (replica : Z) : visitor (Task * IoTask) :=
  member ret_ (λ x p, mk (data_ p) x) cereal_int.

Definition GetGroup (group : list Z) : Z * list Z := (TASK_UNORDERED, group).

Definition FLAGS : Z := Z.lor TF_SRL_ASYM_START TF_SRL_SYM_END.

Definition serial : task_serial (Task * IoTask) :=
  make_serial FLAGS ser_end (Visitor SaveStart LoadStart) SerializeEnd no_end.

End task.
End Io.

(** ** The template library ([TASK_NAME_tasks.h])

    [CustomTask] has no member of its own. *)
Module Custom.
Section task.
Context `{BitfieldOps} `{CerealOps}.

Definition make (memory : Task * unit) (task_node : TaskNode) (domain_id : DomainId)
    (state_id : TaskStateId) : Task * unit :=
  (init_task memory.1 task_node domain_id 0 TaskPrio.kLowLatency state_id
     TaskNameMethod.kCustom 0, tt).

Definition SerializeStart : visitor (Task * unit) := base_serialize.

Definition SerializeEnd (replica : Z) : visitor (Task * unit) := ser_end.

Definition GetGroup (group : list Z) : Z * list Z := (TASK_UNORDERED, group).

Definition FLAGS : Z := TF_SRL_SYM.

Definition serial : task_serial (Task * unit) :=
  make_serial FLAGS SerializeStart ser_end SerializeEnd no_end.

End task.
End Custom.

(** ** Task objects

    A pointer to [Task] designates an object of one of the derived types; casting it to
    another type than its own is undefined behaviour. *)

Inductive TaskBody : Type :=
  | BRegisterTaskLib (p : RegisterTaskLib.RegisterTaskLibTask)
  | BGetOrCreateTaskStateId (p : GetOrCreateTaskStateId.GetOrCreateTaskStateIdTask)
  | BCreateTaskState (p : CreateTaskState.CreateTaskStateTask)
  | BGetTaskStateId (p : GetTaskStateId.GetTaskStateIdTask)
  | BDestroyTaskState (p : DestroyTaskState.DestroyTaskStateTask)
  | BStopRuntime
  | BSetWorkOrchestratorPolicy (p : SetWorkOrchestratorPolicy.SetWorkOrchestratorPolicyTask)
  | BSchedule (p : Schedule.ScheduleTask)
  | BTypedPush (p : TypedPush.TypedPushTask)
  | BRemotePush (p : RemotePush.PushTask)
  | BMd (p : Md.MdTask)
  | BMdPush (p : MdPush.MdPushTask)
  | BIo (p : Io.IoTask)
  | BCustom
  | BTask.

Record TaskObj := mkTaskObj { base : Task; body : TaskBody }.

Definition set_base (t : Task) (o : TaskObj) : TaskObj := mkTaskObj t (body o).
Definition set_body (b : TaskBody) (o : TaskObj) : TaskObj := mkTaskObj (base o) b.
Definition on_base (f : Task → Task) (o : TaskObj) : TaskObj := set_base (f (base o)) o.

(** A new task is not complete. *)
Lemma init_task_IsComplete `{BitfieldLaws} memory node dom hash prio state method f :
  Z.testbit f 9 = false →
  Task.IsComplete (init_task memory node dom hash prio state method f) = false.
Proof.
  intros Hf. unfold init_task, Task.set_domain_id, Task.new. flags_task.
  rewrite bitfield_new_spec, Hf. by rewrite Z.bits_0.
Qed.
