(* ===== verification/World.v ===== *)
(** * The state of a runtime node

    One record holds what the components of a node share: the task objects and queues of
    the shared memory, the task states and their registry, and the workers. The
    operations of the components are functions from this state to an [outcome]. The
    file also holds the [Client] operations on it ([api/hermes_run_client.h]). *)

From S2P Require Import Prelude Hshm RefLib Types Queue Config QueueManager Archive Task.
From S2P Require Import TaskTypes.

(** What uninitialised memory holds, [raw_ints] being what an array of integers whose constructor was
    not called reads as; and whether [std::vector::emplace_back] moves the
    elements of a vector of [n] elements to new memory, which is up to the C++ library. *)
Class RawMemory := {
  raw_task : Task;
  raw_id : UniqueId;
  raw_int : Z;
  raw_ints : list Z;
  vector_moves : nat → bool;
}.

(** ** Task states ([task_registry/task_lib.h])

    The members of a [TaskLib], with those of the library's [Server] class. *)
Inductive ServerData : Type :=
  | AdminServer (queue_sched_ proc_sched_ : Z)
  | ProcQueueServer
  | RemoteQueueServer (client_id_ : TaskStateId) (client_queue_id_ : QueueId)
  | QueueRoundRobinServer (count_ : Z)
  | ProcRoundRobinServer
  | SmallMessageServer (count_ : Z)
  | TaskNameServer
  | OtherServer.

Module TaskLib.

Record TaskLib := mkTaskLib {
  id_ : TaskStateId;
  queue_id_ : QueueId;
  name_ : string;
  server : ServerData;
}.

(** [TaskLib::Init] *)
Definition Init (id : TaskStateId) (name : string) (t : TaskLib) : TaskLib := {|
  id_ := id;
  queue_id_ := UniqueId.convert id;
  name_ := name;
  server := server t;
|}.

Definition set_id (id : TaskStateId) (t : TaskLib) : TaskLib :=
  mkTaskLib id (queue_id_ t) (name_ t) (server t).
Definition set_name (name : string) (t : TaskLib) : TaskLib :=
  mkTaskLib (id_ t) (queue_id_ t) name (server t).
Definition set_server (d : ServerData) (t : TaskLib) : TaskLib :=
  mkTaskLib (id_ t) (queue_id_ t) (name_ t) d.

End TaskLib.
Abbreviation TaskState := TaskLib.TaskLib.

(** [TaskLibInfo]: the handle of a library and its two functions, by address. *)
Record TaskLibInfo := mkTaskLibInfo {
  lib_ : Z;
  create_state_ : Z;
  get_task_lib_name : Z;
}.

(** The copy constructor duplicates the handle; the move constructor leaves null pointers in
    the source. *)
Definition TaskLibInfo_copy (other : TaskLibInfo) : TaskLibInfo :=
  mkTaskLibInfo (lib_ other) (create_state_ other) (get_task_lib_name other).
Definition TaskLibInfo_move (other : TaskLibInfo) : TaskLibInfo * TaskLibInfo :=
  (mkTaskLibInfo (lib_ other) (create_state_ other) (get_task_lib_name other),
   mkTaskLibInfo 0 0 0).

Module TaskRegistry.

Record TaskRegistry := mkTaskRegistry {
  node_id_ : Z;
  lib_dirs_ : list string;
  libs_ : gmap string TaskLibInfo;
  task_state_ids_ : gmap string TaskStateId;
  task_states_ : gmap (Z * Z) Z;
}.

Definition set_libs (x : gmap string TaskLibInfo) (r : TaskRegistry) : TaskRegistry :=
  mkTaskRegistry (node_id_ r) (lib_dirs_ r) x (task_state_ids_ r) (task_states_ r).
Definition set_task_state_ids (x : gmap string TaskStateId) (r : TaskRegistry) : TaskRegistry :=
  mkTaskRegistry (node_id_ r) (lib_dirs_ r) (libs_ r) x (task_states_ r).
Definition set_task_states (x : gmap (Z * Z) Z) (r : TaskRegistry) : TaskRegistry :=
  mkTaskRegistry (node_id_ r) (lib_dirs_ r) (libs_ r) (task_state_ids_ r) x.

End TaskRegistry.
Abbreviation TaskRegistry := TaskRegistry.TaskRegistry.

(** ** Workers ([work_orchestrator/worker.h]) *)

Module WorkEntry.

(** [lane_] and [group_] point into the queue at [queue_], at [prio_] and [lane_id_]; the
    queue is given by its index in the queue map. *)
Record WorkEntry := mkWorkEntry {
  prio_ : Z;
  lane_id_ : Z;
  count_ : Z;
  queue_ : nat;
}.

#[export] Instance WorkEntry_eq_dec : EqDecision WorkEntry.
Proof. solve_decision. Defined.

Definition set_count (c : Z) (e : WorkEntry) : WorkEntry :=
  mkWorkEntry (prio_ e) (lane_id_ e) c (queue_ e).

(** The copy constructor does not copy [count_], which holds what the memory held. *)
Definition copy (memory_count : Z) (other : WorkEntry) : WorkEntry :=
  mkWorkEntry (prio_ other) (lane_id_ other) memory_count (queue_ other).

(** The copy assignment leaves [count_] as it was; [same] is [this == &other]. *)
Definition assign (same : bool) (this other : WorkEntry) : WorkEntry :=
  if same then this
  else mkWorkEntry (prio_ other) (lane_id_ other) (count_ this) (queue_ other).

(** The move constructor and assignment do the same, and leave the source. *)
Definition move (memory_count : Z) (other : WorkEntry) : WorkEntry * WorkEntry :=
  (mkWorkEntry (prio_ other) (lane_id_ other) memory_count (queue_ other), other).
Definition move_assign (same : bool) (this other : WorkEntry) : WorkEntry * WorkEntry :=
  if same then (this, this)
  else (mkWorkEntry (prio_ other) (lane_id_ other) (count_ this) (queue_ other), other).

(** [std::hash<WorkEntry>]; [hash_ptr] is the hash of a pointer to a queue. *)
Definition std_hash `{StdHash} (hash_ptr : nat → Z) (key : WorkEntry) : Z :=
  wrap64 (hash_ptr (queue_ key) + hash_u32 (lane_id_ key) + hash_u64 (prio_ key)).

(** [operator==] *)
Definition equal (a b : WorkEntry) : bool :=
  (queue_ a =? queue_ b)%nat && (lane_id_ a =? lane_id_ b) && (prio_ a =? prio_ b).

(** Equality ignores [count_], so copies are equal to their source, and equal entries have
    one hash. *)
Lemma equal_copy c e : equal (copy c e) e = true.
Proof. unfold equal. simpl. by rewrite Nat.eqb_refl, !Z.eqb_refl. Qed.

Lemma equal_assign same a b : (same = true → a = b) → equal (assign same a b) b = true.
Proof.
  intros Hs. unfold equal, assign. destruct same; [rewrite Hs by done|];
    simpl; by rewrite Nat.eqb_refl, !Z.eqb_refl.
Qed.

Lemma equal_std_hash `{StdHash} hash_ptr a b :
  equal a b = true → std_hash hash_ptr a = std_hash hash_ptr b.
Proof.
  unfold equal, std_hash. rewrite !andb_true_iff, Nat.eqb_eq, !Z.eqb_eq.
  by intros [[-> ->] ->].
Qed.

End WorkEntry.
Export (hints) WorkEntry.
Abbreviation WorkEntry := WorkEntry.WorkEntry.

Module Worker.

Record Worker := mkWorker {
  id_ : Z;
  pid_ : Z;
  work_queue_ : list WorkEntry;
  poll_queues_ : list (list WorkEntry);
  relinquish_queues_ : list (list WorkEntry);
  sleep_us_ : Z;
  retries_ : Z;
  flags_ : Z;
  group_map_ : gmap (list Z) TaskNode;
  group_ : list Z;
}.

Definition set_pid (x : Z) (w : Worker) : Worker :=
  mkWorker (id_ w) x (work_queue_ w) (poll_queues_ w) (relinquish_queues_ w) (sleep_us_ w)
    (retries_ w) (flags_ w) (group_map_ w) (group_ w).
Definition set_work_queue (x : list WorkEntry) (w : Worker) : Worker :=
  mkWorker (id_ w) (pid_ w) x (poll_queues_ w) (relinquish_queues_ w) (sleep_us_ w)
    (retries_ w) (flags_ w) (group_map_ w) (group_ w).
Definition set_poll_queues (x : list (list WorkEntry)) (w : Worker) : Worker :=
  mkWorker (id_ w) (pid_ w) (work_queue_ w) x (relinquish_queues_ w) (sleep_us_ w)
    (retries_ w) (flags_ w) (group_map_ w) (group_ w).
Definition set_relinquish_queues (x : list (list WorkEntry)) (w : Worker) : Worker :=
  mkWorker (id_ w) (pid_ w) (work_queue_ w) (poll_queues_ w) x (sleep_us_ w)
    (retries_ w) (flags_ w) (group_map_ w) (group_ w).
Definition set_polling (sleep_us retries flags : Z) (w : Worker) : Worker :=
  mkWorker (id_ w) (pid_ w) (work_queue_ w) (poll_queues_ w) (relinquish_queues_ w) sleep_us
    retries flags (group_map_ w) (group_ w).
Definition set_group_map (x : gmap (list Z) TaskNode) (w : Worker) : Worker :=
  mkWorker (id_ w) (pid_ w) (work_queue_ w) (poll_queues_ w) (relinquish_queues_ w)
    (sleep_us_ w) (retries_ w) (flags_ w) x (group_ w).
Definition set_group (x : list Z) (w : Worker) : Worker :=
  mkWorker (id_ w) (pid_ w) (work_queue_ w) (poll_queues_ w) (relinquish_queues_ w)
    (sleep_us_ w) (retries_ w) (flags_ w) (group_map_ w) x.

End Worker.
Abbreviation Worker := Worker.Worker.

(** ** Nodes *)

(** [struct HostInfo] ([network/rpc.h]) *)
Record HostInfo := mkHostInfo {
  hostname_ : string;
  ip_addr_ : string;
  host_node_id_ : Z;
}.

(** The closures registered as remote procedures, each over the address of the remote queue's
    state ([remote_queue.cc]) *)
Inductive RpcLambda :=
  | RpcPushSmall_of (this : Z)
  | RpcPushBulk_of (this : Z).

Module Node.

Record Node := mkNode {
  (** task objects of the shared memory, by address *)
  heap : gmap Z TaskObj;
  (** [QueueManager::queue_map_] *)
  queue_map_ : list MultiQueue;
  (** task states, by address, and the registry that indexes them *)
  states : gmap Z TaskState;
  task_registry_ : TaskRegistry;
  (** [HermesRunShm]: the node's id and the counter unique ids are drawn from *)
  node_id_ : Z;
  unique_ : Z;
  (** [RpcContext::hosts_] *)
  hosts_ : list HostInfo;
  (** [WorkOrchestrator] *)
  workers_ : list Worker;
  stop_runtime_ : bool;
  kill_requested_ : bool;
  (** argobots threads spawned and not finished: the tasks they run, by thread *)
  threads : gmap Z Z;
  (** [dlfcn]: one entry per call of [dlopen] not matched by a [dlclose] *)
  dl_open : list Z;
  (** blocks of [malloc] not freed *)
  stacks : list Z;
  (** the ids of the client [Runtime::remote_queue_] *)
  remote_queue_ : TaskStateId * QueueId;
  (** what the server engine was told to call for the name of a procedure *)
  rpcs_ : list (string * RpcLambda);
  (** the servers this node's client engine has told to shut down *)
  signals_ : list string;
  (** [WorkOrchestrator::xstream_], the execution stream of the threads; 0 is the null handle *)
  xstream_ : Z;
}.

Definition set_heap (x : gmap Z TaskObj) (w : Node) : Node :=
  mkNode x (queue_map_ w) (states w) (task_registry_ w) (node_id_ w) (unique_ w)
    (hosts_ w) (workers_ w) (stop_runtime_ w) (kill_requested_ w) (threads w) (dl_open w) (stacks w)
    (remote_queue_ w) (rpcs_ w) (signals_ w) (xstream_ w).
Definition set_queue_map (x : list MultiQueue) (w : Node) : Node :=
  mkNode (heap w) x (states w) (task_registry_ w) (node_id_ w) (unique_ w)
    (hosts_ w) (workers_ w) (stop_runtime_ w) (kill_requested_ w) (threads w) (dl_open w) (stacks w)
    (remote_queue_ w) (rpcs_ w) (signals_ w) (xstream_ w).
Definition set_states (x : gmap Z TaskState) (w : Node) : Node :=
  mkNode (heap w) (queue_map_ w) x (task_registry_ w) (node_id_ w) (unique_ w)
    (hosts_ w) (workers_ w) (stop_runtime_ w) (kill_requested_ w) (threads w) (dl_open w) (stacks w)
    (remote_queue_ w) (rpcs_ w) (signals_ w) (xstream_ w).
Definition set_task_registry (x : TaskRegistry) (w : Node) : Node :=
  mkNode (heap w) (queue_map_ w) (states w) x (node_id_ w) (unique_ w)
    (hosts_ w) (workers_ w) (stop_runtime_ w) (kill_requested_ w) (threads w) (dl_open w) (stacks w)
    (remote_queue_ w) (rpcs_ w) (signals_ w) (xstream_ w).
Definition set_unique (x : Z) (w : Node) : Node :=
  mkNode (heap w) (queue_map_ w) (states w) (task_registry_ w) (node_id_ w) x
    (hosts_ w) (workers_ w) (stop_runtime_ w) (kill_requested_ w) (threads w) (dl_open w) (stacks w)
    (remote_queue_ w) (rpcs_ w) (signals_ w) (xstream_ w).
Definition set_workers (x : list Worker) (w : Node) : Node :=
  mkNode (heap w) (queue_map_ w) (states w) (task_registry_ w) (node_id_ w) (unique_ w)
    (hosts_ w) x (stop_runtime_ w) (kill_requested_ w) (threads w) (dl_open w) (stacks w)
    (remote_queue_ w) (rpcs_ w) (signals_ w) (xstream_ w).
Definition set_stop_runtime (x : bool) (w : Node) : Node :=
  mkNode (heap w) (queue_map_ w) (states w) (task_registry_ w) (node_id_ w) (unique_ w)
    (hosts_ w) (workers_ w) x (kill_requested_ w) (threads w) (dl_open w) (stacks w)
    (remote_queue_ w) (rpcs_ w) (signals_ w) (xstream_ w).
Definition set_kill_requested (x : bool) (w : Node) : Node :=
  mkNode (heap w) (queue_map_ w) (states w) (task_registry_ w) (node_id_ w) (unique_ w)
    (hosts_ w) (workers_ w) (stop_runtime_ w) x (threads w) (dl_open w) (stacks w)
    (remote_queue_ w) (rpcs_ w) (signals_ w) (xstream_ w).
Definition set_threads (x : gmap Z Z) (w : Node) : Node :=
  mkNode (heap w) (queue_map_ w) (states w) (task_registry_ w) (node_id_ w) (unique_ w)
    (hosts_ w) (workers_ w) (stop_runtime_ w) (kill_requested_ w) x (dl_open w) (stacks w)
    (remote_queue_ w) (rpcs_ w) (signals_ w) (xstream_ w).
Definition set_dl_open (x : list Z) (w : Node) : Node :=
  mkNode (heap w) (queue_map_ w) (states w) (task_registry_ w) (node_id_ w) (unique_ w)
    (hosts_ w) (workers_ w) (stop_runtime_ w) (kill_requested_ w) (threads w) x (stacks w)
    (remote_queue_ w) (rpcs_ w) (signals_ w) (xstream_ w).
Definition set_stacks (x : list Z) (w : Node) : Node :=
  mkNode (heap w) (queue_map_ w) (states w) (task_registry_ w) (node_id_ w) (unique_ w)
    (hosts_ w) (workers_ w) (stop_runtime_ w) (kill_requested_ w) (threads w) (dl_open w) x
    (remote_queue_ w) (rpcs_ w) (signals_ w) (xstream_ w).
Definition set_remote_queue (x : TaskStateId * QueueId) (w : Node) : Node :=
  mkNode (heap w) (queue_map_ w) (states w) (task_registry_ w) (node_id_ w) (unique_ w)
    (hosts_ w) (workers_ w) (stop_runtime_ w) (kill_requested_ w) (threads w) (dl_open w)
    (stacks w) x (rpcs_ w) (signals_ w) (xstream_ w).
Definition set_rpcs (x : list (string * RpcLambda)) (w : Node) : Node :=
  mkNode (heap w) (queue_map_ w) (states w) (task_registry_ w) (node_id_ w) (unique_ w)
    (hosts_ w) (workers_ w) (stop_runtime_ w) (kill_requested_ w) (threads w) (dl_open w) (stacks w)
    (remote_queue_ w) x (signals_ w) (xstream_ w).
Definition set_signals (x : list string) (w : Node) : Node :=
  mkNode (heap w) (queue_map_ w) (states w) (task_registry_ w) (node_id_ w) (unique_ w)
    (hosts_ w) (workers_ w) (stop_runtime_ w) (kill_requested_ w) (threads w) (dl_open w) (stacks w)
    (remote_queue_ w) (rpcs_ w) x (xstream_ w).
Definition set_xstream (x : Z) (w : Node) : Node :=
  mkNode (heap w) (queue_map_ w) (states w) (task_registry_ w) (node_id_ w) (unique_ w)
    (hosts_ w) (workers_ w) (stop_runtime_ w) (kill_requested_ w) (threads w) (dl_open w) (stacks w)
    (remote_queue_ w) (rpcs_ w) (signals_ w) x.

End Node.
Abbreviation Node := Node.Node.

(** ** Access to the state through pointers *)

Section access.
Context `{BitfieldOps}.

Definition get_task (a : Z) (w : Node) : outcome TaskObj := deref (Node.heap w !! a).

(** [*task = o] *)
Definition put_task (a : Z) (o : TaskObj) (w : Node) : Node :=
  Node.set_heap (<[a := o]> (Node.heap w)) w.

(** [task->f()] for an update [f] of the base task *)
Definition upd_task (a : Z) (f : Task → Task) (w : Node) : outcome Node :=
  o ← get_task a w; mret (put_task a (on_base f o) w).

Definition get_queue (q : nat) (w : Node) : outcome MultiQueue :=
  deref (Node.queue_map_ w !! q).

Definition put_queue (q : nat) (x : MultiQueue) (w : Node) : Node :=
  Node.set_queue_map (<[q := x]> (Node.queue_map_ w)) w.

(** The lane a [WorkEntry] points to *)
Definition get_lane (q : nat) (prio lane_id : Z) (w : Node) : outcome Lane :=
  x ← get_queue q w; MultiQueue.GetLane x prio lane_id.

Definition put_lane (q : nat) (prio lane_id : Z) (l : Lane) (w : Node) : outcome Node :=
  x ← get_queue q w; mret (put_queue q (MultiQueue.put_lane x prio lane_id l) w).

Definition get_worker (i : nat) (w : Node) : outcome Worker :=
  deref (Node.workers_ w !! i).

Definition put_worker (i : nat) (x : Worker) (w : Node) : Node :=
  Node.set_workers (<[i := x]> (Node.workers_ w)) w.

Definition get_state (a : Z) (w : Node) : outcome TaskState := deref (Node.states w !! a).

Definition put_state (a : Z) (s : TaskState) (w : Node) : Node :=
  Node.set_states (<[a := s]> (Node.states w)) w.

End access.

(** ** [class Client] *)

Module Client.
Section client.
Context `{BitfieldOps} `{Logger} `{MpscOps} `{AllocOps}.

(** [unique_->fetch_add(1)] *)
Definition fetch_add_unique (w : Node) : Z * Node :=
  (Node.unique_ w, Node.set_unique (wrap64 (Node.unique_ w + 1)) w).

Definition MakeTaskNodeId (w : Node) : TaskNode * Node :=
  let '(u, w') := fetch_add_unique w in
  (TaskNode.make (UniqueId.make (Node.node_id_ w) u), w').

Definition MakeTaskStateId (w : Node) : TaskStateId * Node :=
  let '(u, w') := fetch_add_unique w in
  (UniqueId.make (Node.node_id_ w) u, w').

(** [NewTask], [AllocateTask] followed by [ConstructTask], [NewEmptyTask]: the object is
    built at a fresh address. *)
Definition NewTask (o : TaskObj) (w : Node) : outcome (LPointer * Node) :=
  match allocate (Node.heap w) with
  | Some (p, a) => Ok (mkLPointer a p, put_task a o w)
  | None => Throw "Could not allocate buffer"
  end.

(** [NewTaskRoot] *)
Definition NewTaskRoot (make : TaskNode → TaskObj) (w : Node) : outcome (LPointer * Node) :=
  let '(task_node, w) := MakeTaskNodeId w in NewTask (make task_node) w.

(** [DelTask(TaskT *task)] for a [TaskT] whose destructor deletes no other task: a task
    freed for the second time is a fatal error. *)
Definition DelTask (a : Z) (w : Node) : outcome Node :=
  o ← get_task a w;
  let t := Task.set_delcnt (Task.delcnt_ (base o) + 1) (base o) in
  let w := put_task a (set_base t o) w in
  let free := Ok (Node.set_heap (delete a (Node.heap w)) w) in
  if Task.delcnt_ t =? 1 then free else HELOG_kFatal free.

(** [DelTask] of a [TypedPushTask]: its destructor deletes the subtask through the
    client's pointer, or the runtime's when the task is fire-and-forget. *)
Definition DelTask_TypedPush (a : Z) (w : Node) : outcome Node :=
  o ← get_task a w;
  match body o with
  | BTypedPush p =>
      let sub := if negb (Task.IsFireAndForget (base o)) then TypedPush.sub_cli_ p
                 else TypedPush.sub_run_ p in
      let t := Task.set_delcnt (Task.delcnt_ (base o) + 1) (base o) in
      let w := put_task a (set_base t o) w in
      let free :=
        w ← DelTask (ptr_ sub) w;
        Ok (Node.set_heap (delete a (Node.heap w)) w) in
      if Task.delcnt_ t =? 1 then free else HELOG_kFatal free
  | _ => Undefined
  end.

(** Raw buffers: the bytes of the allocated blocks, by address. *)
Definition AllocateBuffer (memory : nat → Z) (size : nat) (bufs : gmap Z (list Z))
    : outcome (LPointer * gmap Z (list Z)) :=
  match allocate bufs with
  | Some (p, a) => Ok (mkLPointer a p, <[a := memory <$> seq 0 size]> bufs)
  | None => Throw "Could not allocate buffer"
  end.

(** [GetPrivatePointer(p)] *)
Definition GetPrivatePointer (p : Z) : Z := Convert p.

(** [FreeBuffer(hipc::Pointer &p)], [FreeBuffer(LPointer<char> &p)]: freeing what is not
    allocated is undefined. *)
Definition FreeBuffer (p : Z) (bufs : gmap Z (list Z)) : outcome (gmap Z (list Z)) :=
  _ ← deref (bufs !! Convert p); Ok (delete (Convert p) bufs).

Definition FreeBufferLocal (p : LPointer) (bufs : gmap Z (list Z)) : outcome (gmap Z (list Z)) :=
  _ ← deref (bufs !! ptr_ p); Ok (delete (ptr_ p) bufs).

(** [GetQueue]: [HERMES_RUN_QM_CLIENT->GetQueue(queue_id)] *)
Definition GetQueue (id : QueueId) (w : Node) : outcome nat :=
  QueueManager.GetQueue id (Node.queue_map_ w).

(** [queue->Emplace(prio, lane_hash, p)] *)
Definition Emplace (q : nat) (prio lane_hash p : Z) (w : Node) : outcome (bool * Node) :=
  x ← get_queue q w;
  '(ret, x) ← MultiQueue.Emplace x prio lane_hash p;
  mret (ret, put_queue q x w).

(** [IsRemote(Task *task)] *)
Definition IsRemote (t : Task) (w : Node) : bool :=
  if DomainId.IsNode (Task.domain_id_ t) then
    negb (DomainId.GetId (Task.domain_id_ t) =? Node.node_id_ w)
  else DomainId.IsGlobal (Task.domain_id_ t).

(** [AsyncX(task_node, ...)] of a library client: the task is allocated, constructed and
    pushed to the library's queue. *)
Definition Async (queue_id : QueueId) (o : TaskObj) (w : Node) : outcome (LPointer * Node) :=
  '(task, w) ← NewTask o w;
  q ← GetQueue queue_id w;
  '(_, w) ← Emplace q (Task.prio_ (base o)) (Task.lane_hash_ (base o)) (shm_ task) w;
  mret (task, w).

End client.

(** [HASH_TO_NODE_ID(hash)] *)
Definition HASH_TO_NODE_ID (hash num_nodes : Z) : outcome Z :=
  r ← urem hash num_nodes; mret (1 + r).

End Client.

(** ** Lemmas *)

Section lemmas.
Context `{BitfieldOps}.

Lemma get_put_task_eq a o w : get_task a (put_task a o w) = Ok o.
Proof. unfold get_task. simpl. by rewrite lookup_insert_eq. Qed.

Lemma get_put_task_ne a b o w : a ≠ b → get_task b (put_task a o w) = get_task b w.
Proof. intros. unfold get_task. simpl. by rewrite lookup_insert_ne. Qed.

Lemma put_put_task a o o' w : put_task a o (put_task a o' w) = put_task a o w.
Proof. destruct w. unfold put_task. simpl. unfold Node.set_heap. simpl. by rewrite insert_insert_eq. Qed.

Lemma upd_get_Ok a f o w : get_task a w = Ok o → upd_task a f w = Ok (put_task a (on_base f o) w).
Proof. intros Ho. unfold upd_task. by rewrite Ho. Qed.

Lemma get_task_Ok a o w : get_task a w = Ok o ↔ Node.heap w !! a = Some o.
Proof. unfold get_task. destruct (Node.heap w !! a); simpl; split; congruence. Qed.

Lemma put_task_id a o w : get_task a w = Ok o → put_task a o w = w.
Proof.
  intros Ho%get_task_Ok. unfold put_task, Node.set_heap. rewrite insert_id by done. by destruct w.
Qed.

Lemma get_put_queue_eq q x y w : get_queue q w = Ok y → get_queue q (put_queue q x w) = Ok x.
Proof.
  unfold get_queue. intros Hq%deref_Ok. simpl.
  by rewrite list_lookup_insert_eq by (by apply lookup_lt_Some in Hq).
Qed.

Lemma get_put_queue_ne q q' x w : q ≠ q' → get_queue q' (put_queue q x w) = get_queue q' w.
Proof. intros. unfold get_queue. simpl. by rewrite list_lookup_insert_ne. Qed.

Lemma get_put_lane_eq q p l lane lane' w :
  get_lane q p l w = Ok lane →
  ∃ w', put_lane q p l lane' w = Ok w' ∧ get_lane q p l w' = Ok lane'.
Proof.
  unfold get_lane, put_lane. intros. invert_ok. rewrite Hx. eexists. split; [done|].
  erewrite get_put_queue_eq by done. simpl. eapply GetLane_put_eq. done.
Qed.

Lemma get_put_lane_ne q p l lane w w' q' p' l' :
  0 ≤ l → put_lane q p l lane w = Ok w' → (q, p, l) ≠ (q', p', l') →
  get_lane q' p' l' w' = get_lane q' p' l' w.
Proof.
  unfold get_lane, put_lane. intros Hl Hput Hne. invert_ok.
  destruct (decide (q = q')) as [<-|].
  - erewrite get_put_queue_eq, Hx by done. simpl. apply GetLane_put_ne; [done|congruence].
  - by rewrite get_put_queue_ne.
Qed.

Lemma get_put_worker_eq i x y w : get_worker i w = Ok y → get_worker i (put_worker i x w) = Ok x.
Proof.
  unfold get_worker. intros Hq%deref_Ok. simpl.
  by rewrite list_lookup_insert_eq by (by apply lookup_lt_Some in Hq).
Qed.

End lemmas.

Section client_lemmas.
Context `{BitfieldOps} `{Logger} `{MpscOps} `{AllocOps}.

Lemma Emplace_result q prio hash p w ret w' :
  Client.Emplace q prio hash p w = Ok (ret, w') → w' = Node.set_queue_map (Node.queue_map_ w') w.
Proof.
  unfold Client.Emplace. intros. invert_ok. destruct x0 as [r x']. invert_ok. by destruct w.
Qed.

(** [Emplace] reads only the queues. *)
Lemma Emplace_heap q prio hash p w h ret w' :
  Client.Emplace q prio hash p w = Ok (ret, w') →
  Client.Emplace q prio hash p (Node.set_heap h w) = Ok (ret, Node.set_heap h w').
Proof.
  unfold Client.Emplace, get_queue. simpl. intros. invert_ok. destruct x0 as [r x']. invert_ok.
  rewrite Hx. simpl. rewrite Hx0. done.
Qed.

Lemma Emplace_same q prio hash p w ret w' :
  Client.Emplace q prio hash p w = Ok (ret, w') → Node.heap w' = Node.heap w.
Proof. intros E. by rewrite (Emplace_result _ _ _ _ _ _ _ E). Qed.

(** A task submitted asynchronously is at the address allocated, and in its queue. *)
Lemma Async_Ok queue_id o w shm ptr q ret wq :
  allocate (Node.heap w) = Some (shm, ptr) → Client.GetQueue queue_id w = Ok q →
  Client.Emplace q (Task.prio_ (base o)) (Task.lane_hash_ (base o)) shm w = Ok (ret, wq) →
  Client.Async queue_id o w = Ok (mkLPointer ptr shm, put_task ptr o wq).
Proof.
  intros Ha Hq He. unfold Client.Async, Client.NewTask. rewrite Ha. cbn [mbind outcome_bind].
  change (Client.GetQueue queue_id (put_task ptr o w)) with (Client.GetQueue queue_id w).
  rewrite Hq. cbn [mbind outcome_bind shm_].
  unfold put_task at 1. rewrite (Emplace_heap _ _ _ _ _ _ _ _ He). cbn [mbind outcome_bind].
  unfold put_task. by rewrite (Emplace_same _ _ _ _ _ _ _ He).
Qed.

(** An allocated buffer has the size asked for, at the address the runtime converts its
    pointer to, where nothing was allocated; freeing it through either pointer restores the
    memory. *)
Lemma AllocateBuffer_free memory size bufs p bufs' `{!AllocLaws} :
  Client.AllocateBuffer memory size bufs = Ok (p, bufs') →
  Client.GetPrivatePointer (shm_ p) = ptr_ p ∧ bufs !! ptr_ p = None ∧
  length <$> bufs' !! ptr_ p = Some size ∧
  (∀ a, a ≠ ptr_ p → bufs' !! a = bufs !! a) ∧
  Client.FreeBuffer (shm_ p) bufs' = Ok bufs ∧ Client.FreeBufferLocal p bufs' = Ok bufs.
Proof.
  unfold Client.AllocateBuffer, Client.GetPrivatePointer, Client.FreeBuffer,
    Client.FreeBufferLocal.
  destruct (allocate bufs) as [[s a]|] eqn:Ha; [|done]. intros [= <- <-].
  apply allocate_fresh in Ha as (Hn & _ & HC). cbn [shm_ ptr_].
  rewrite HC, lookup_insert_eq, delete_insert_id by done. simpl.
  rewrite length_fmap, length_seq. split_and!; try done.
  intros b Hb. by apply lookup_insert_ne.
Qed.

End client_lemmas.

(** ** A reference memory, and an empty node, for the witnesses *)
Definition ref_ctx : RunContext := RunContext.mkRunContext 0 NoContext 0 0 0.
Definition ref_task : Task :=
  Task.mkTask UniqueId.GetNull TaskNode.GetNull (DomainId.mkDomainId 0 0) 0 0 0 0 0 ref_ctx.
Definition ref_raw : RawMemory := {|
  raw_task := ref_task;
  raw_id := UniqueId.GetNull;
  raw_int := 0;
  raw_ints := [0];
  vector_moves n := Nat.eqb n 1;
|}.

Definition ref_registry : TaskRegistry := TaskRegistry.mkTaskRegistry 1 [] ∅ ∅ ∅.
Definition ref_node : Node :=
  Node.mkNode ∅ [] ∅ ref_registry 1 0 [] [] false false ∅ [] []
    (UniqueId.GetNull, UniqueId.GetNull) [] [] 0.
