(* ===== verification/LibExec.v ===== *)
(** * The generated dispatch of the task libraries ([*_lib_exec.h])

    The generated file of a library overrides the virtual functions of [TaskLib] with a
    switch over the methods; each case casts the task to the type of the method and
    applies the operation of that type. A [task_class] is what the cases use of a type,
    a [method_table] the types of a library's methods. *)

From S2P Require Import Prelude Hshm RefLib Types Queue LocalSerialize Config QueueManager.
From S2P Require Import Archive Task TaskTypes World.

Record task_class := TaskClass {
  tc_payload : Type;
  tc_get : TaskBody → option tc_payload;
  tc_put : tc_payload → TaskBody;
  tc_get_put p : tc_get (tc_put p) = Some p;
  tc_put_get b p : tc_get b = Some p → tc_put p = b;
  (** the members the constructor of an empty task leaves *)
  tc_empty : tc_payload;
  tc_serial : task_serial (Task * tc_payload);
  (** [T::REPLICA] with the two functions it enables *)
  tc_replica : bool;
  tc_ReplicateStart : Z → tc_payload → tc_payload;
  tc_ReplicateEnd : tc_payload → tc_payload;
  tc_GetGroup : Task → tc_payload → list Z → outcome (Z * list Z);
  tc_DelTask : Z → Node → outcome Node;
}.

Definition method_table : Type := Z → option task_class.

Section classes.
Context `{BitfieldOps} `{Logger} `{CerealOps} `{CharbufOps} `{HvecOps} `{RawMemory}.

(** A type without replication whose [GetGroup] leaves the group as it is. *)
Definition plain_class {P} (get : TaskBody → option P) (put : P → TaskBody)
    (get_put : ∀ p, get (put p) = Some p)
    (put_get : ∀ b p, get b = Some p → put p = b) (empty : P) (serial : task_serial (Task * P))
    (group : list Z → Z * list Z) : task_class := {|
  tc_payload := P; tc_get := get; tc_put := put; tc_get_put := get_put;
  tc_put_get := put_get; tc_empty := empty; tc_serial := serial;
  tc_replica := false; tc_ReplicateStart _ p := p; tc_ReplicateEnd p := p;
  tc_GetGroup _ _ g := Ok (group g);
  tc_DelTask := Client.DelTask;
|}.

Definition c_RegisterTaskLib : task_class :=
  plain_class (λ b, match b with BRegisterTaskLib p => Some p | _ => None end) BRegisterTaskLib
    (λ _, eq_refl) ltac:(intros []; simpl; congruence) (RegisterTaskLib.mk "" raw_id) RegisterTaskLib.serial RegisterTaskLib.GetGroup.

Definition c_GetOrCreateTaskStateId : task_class :=
  plain_class (λ b, match b with BGetOrCreateTaskStateId p => Some p | _ => None end)
    BGetOrCreateTaskStateId (λ _, eq_refl) ltac:(intros []; simpl; congruence) (GetOrCreateTaskStateId.mk "" raw_id)
    GetOrCreateTaskStateId.serial GetOrCreateTaskStateId.GetGroup.

Definition c_CreateTaskState : task_class := {|
  tc_payload := CreateTaskState.CreateTaskStateTask;
  tc_get b := match b with BCreateTaskState p => Some p | _ => None end;
  tc_put := BCreateTaskState;
  tc_get_put _ := eq_refl;
  tc_put_get := ltac:(intros []; simpl; congruence);
  tc_empty := CreateTaskState.mk "" "" [] raw_id;
  tc_serial := CreateTaskState.serial;
  tc_replica := TaskFlags.REPLICA CreateTaskState.FLAGS;
  tc_ReplicateStart := CreateTaskState.ReplicateStart;
  tc_ReplicateEnd := CreateTaskState.ReplicateEnd;
  tc_GetGroup _ _ := CreateTaskState.GetGroup;
  tc_DelTask := Client.DelTask;
|}.

Definition c_GetTaskStateId : task_class :=
  plain_class (λ b, match b with BGetTaskStateId p => Some p | _ => None end) BGetTaskStateId
    (λ _, eq_refl) ltac:(intros []; simpl; congruence) (GetTaskStateId.mk "" raw_id) GetTaskStateId.serial GetTaskStateId.GetGroup.

Definition c_DestroyTaskState : task_class :=
  plain_class (λ b, match b with BDestroyTaskState p => Some p | _ => None end)
    BDestroyTaskState (λ _, eq_refl) ltac:(intros []; simpl; congruence) (DestroyTaskState.mk raw_id) DestroyTaskState.serial
    DestroyTaskState.GetGroup.

Definition c_StopRuntime : task_class :=
  plain_class (λ b, match b with BStopRuntime => Some tt | _ => None end) (λ _, BStopRuntime)
    (λ p, match p with tt => eq_refl end)
    ltac:(intros []; simpl; congruence) tt StopRuntime.serial StopRuntime.GetGroup.

Definition c_SetWorkOrchestratorPolicy : task_class :=
  plain_class (λ b, match b with BSetWorkOrchestratorPolicy p => Some p | _ => None end)
    BSetWorkOrchestratorPolicy (λ _, eq_refl) ltac:(intros []; simpl; congruence) (SetWorkOrchestratorPolicy.mk raw_id)
    SetWorkOrchestratorPolicy.serial SetWorkOrchestratorPolicy.GetGroup.

Definition c_Schedule : task_class :=
  plain_class (λ b, match b with BSchedule p => Some p | _ => None end) BSchedule
    (λ _, eq_refl) ltac:(intros []; simpl; congruence) (Schedule.mk raw_ints) Schedule.serial Schedule.GetGroup.

Definition c_TypedPush : task_class := {|
  tc_payload := TypedPush.TypedPushTask;
  tc_get b := match b with BTypedPush p => Some p | _ => None end;
  tc_put := BTypedPush;
  tc_get_put _ := eq_refl;
  tc_put_get := ltac:(intros []; simpl; congruence);
  tc_empty := TypedPush.mk (mkLPointer raw_int raw_int) (mkLPointer raw_int raw_int) raw_int;
  tc_serial := TypedPush.serial;
  tc_replica := false;
  tc_ReplicateStart _ p := p;
  tc_ReplicateEnd p := p;
  tc_GetGroup t _ g := Ok (TypedPush.GetGroup t g);
  tc_DelTask := Client.DelTask_TypedPush;
|}.

Definition c_RemotePush : task_class :=
  plain_class (λ b, match b with BRemotePush p => Some p | _ => None end) BRemotePush
    (λ _, eq_refl) ltac:(intros []; simpl; congruence) (RemotePush.mk [] raw_int raw_int raw_int [] []) RemotePush.serial
    RemotePush.GetGroup.

(** [MdTask(alloc)] does not construct [ret_]: nor does [MdPushTask(alloc)]. *)
Definition c_Md : task_class := {|
  tc_payload := Md.MdTask;
  tc_get b := match b with BMd p => Some p | _ => None end;
  tc_put := BMd;
  tc_get_put _ := eq_refl;
  tc_put_get := ltac:(intros []; simpl; congruence);
  tc_empty := Md.mk raw_ints;
  tc_serial := Md.serial;
  tc_replica := TaskFlags.REPLICA Md.FLAGS;
  tc_ReplicateStart := Md.ReplicateStart raw_int;
  tc_ReplicateEnd := Md.ReplicateEnd;
  tc_GetGroup _ _ g := Ok (Md.GetGroup g);
  tc_DelTask := Client.DelTask;
|}.

Definition c_MdPush : task_class := {|
  tc_payload := MdPush.MdPushTask;
  tc_get b := match b with BMdPush p => Some p | _ => None end;
  tc_put := BMdPush;
  tc_get_put _ := eq_refl;
  tc_put_get := ltac:(intros []; simpl; congruence);
  tc_empty := MdPush.mk raw_ints;
  tc_serial := MdPush.serial;
  tc_replica := TaskFlags.REPLICA MdPush.FLAGS;
  tc_ReplicateStart := MdPush.ReplicateStart raw_int;
  tc_ReplicateEnd := MdPush.ReplicateEnd;
  tc_GetGroup _ _ g := Ok (MdPush.GetGroup g);
  tc_DelTask := Client.DelTask;
|}.

Definition c_Io : task_class :=
  plain_class (λ b, match b with BIo p => Some p | _ => None end) BIo (λ _, eq_refl) ltac:(intros []; simpl; congruence)
    (Io.mk (replicate (Z.to_nat Io.DATA_SIZE) raw_int) raw_int) Io.serial Io.GetGroup.

Definition c_Custom : task_class :=
  plain_class (λ b, match b with BCustom => Some tt | _ => None end) (λ _, BCustom)
    (λ p, match p with tt => eq_refl end)
    ltac:(intros []; simpl; congruence) tt Custom.serial Custom.GetGroup.

(** The type of each method of each library. [ConstructTask] and [DestructTask] derive
    from [CreateTaskStateTask] and [DestroyTaskStateTask]. *)
Definition admin_methods : method_table := λ method,
  if method =? AdminMethod.kCreateTaskState then Some c_CreateTaskState
  else if method =? AdminMethod.kDestroyTaskState then Some c_DestroyTaskState
  else if method =? AdminMethod.kRegisterTaskLib then Some c_RegisterTaskLib
  else if method =? AdminMethod.kDestroyTaskLib then Some c_RegisterTaskLib
  else if method =? AdminMethod.kGetOrCreateTaskStateId then Some c_GetOrCreateTaskStateId
  else if method =? AdminMethod.kGetTaskStateId then Some c_GetTaskStateId
  else if method =? AdminMethod.kStopRuntime then Some c_StopRuntime
  else if method =? AdminMethod.kSetWorkOrchQueuePolicy then Some c_SetWorkOrchestratorPolicy
  else if method =? AdminMethod.kSetWorkOrchProcPolicy then Some c_SetWorkOrchestratorPolicy
  else None.

Definition with_construct (table : method_table) : method_table := λ method,
  if method =? TaskMethod.kConstruct then Some c_CreateTaskState
  else if method =? TaskMethod.kDestruct then Some c_DestroyTaskState
  else table method.

Definition proc_queue_methods : method_table := with_construct (λ method,
  if method =? ProcQueueMethod.kPush then Some c_TypedPush else None).

Definition remote_queue_methods : method_table := with_construct (λ method,
  if method =? RemoteQueueMethod.kPush then Some c_RemotePush else None).

Definition round_robin_methods : method_table := with_construct (λ method,
  if method =? SchedulerMethod.kSchedule then Some c_Schedule else None).

Definition small_message_methods : method_table := with_construct (λ method,
  if method =? SmallMessageMethod.kMd then Some c_Md
  else if method =? SmallMessageMethod.kIo then Some c_Io
  else if method =? SmallMessageMethod.kMdPush then Some c_MdPush
  else None).

Definition task_name_methods : method_table := with_construct (λ method,
  if method =? TaskNameMethod.kCustom then Some c_Custom else None).

(** The table of the library a state is an instance of *)
Definition methods_of (d : ServerData) : method_table :=
  match d with
  | AdminServer _ _ => admin_methods
  | ProcQueueServer => proc_queue_methods
  | RemoteQueueServer _ _ => remote_queue_methods
  | QueueRoundRobinServer _ | ProcRoundRobinServer => round_robin_methods
  | SmallMessageServer _ => small_message_methods
  | TaskNameServer => task_name_methods
  | OtherServer => λ _, None
  end.

End classes.

(** [reinterpret_cast<T*>(task)] *)
Definition as_type (c : task_class) (o : TaskObj) : outcome (Task * tc_payload c) :=
  p ← deref (tc_get c (body o)); Ok (base o, p).

Definition of_type (c : task_class) (s : Task * tc_payload c) : TaskObj :=
  mkTaskObj s.1 (tc_put c s.2).

(** ** The functions of the generated files, for a table *)

Section dispatch.
Context `{BitfieldOps} `{AllocOps} `{RawMemory}.
Variable (table : method_table).

Definition Del (method task : Z) (w : Node) : outcome Node :=
  match table method with
  | Some c => tc_DelTask c task w
  | None => Ok w
  end.

(** A case that updates the members of the type *)
Definition upd_payload (c : task_class) (f : tc_payload c → tc_payload c) (task : Z) (w : Node)
    : outcome Node :=
  o ← get_task task w;
  s ← as_type c o;
  Ok (put_task task (of_type c (s.1, f s.2)) w).

Definition ReplicateStart (method count task : Z) (w : Node) : outcome Node :=
  match table method with
  | Some c => if tc_replica c then upd_payload c (tc_ReplicateStart c count) task w else Ok w
  | None => Ok w
  end.

Definition ReplicateEnd (method task : Z) (w : Node) : outcome Node :=
  match table method with
  | Some c => if tc_replica c then upd_payload c (tc_ReplicateEnd c) task w else Ok w
  | None => Ok w
  end.

(** [ar << *reinterpret_cast<T*>(task)]; [return ar.Get()] *)
Definition Save (is_start : bool) (method : Z) (ar : BinaryOutputArchive) (task : Z) (w : Node)
    : outcome (list DataTransfer) :=
  ar ← match table method with
       | Some c =>
           o ← get_task task w;
           s ← as_type c o;
           v_save (ser_task is_start 0 (tc_serial c)) s ar
       | None => Ok ar
       end;
  Ok (Get ar).

Definition SaveStart := Save true.
Definition SaveEnd := Save false.

(** [LoadStart]: for an unknown method the pointer returned is not initialised. *)
Definition LoadStart (method : Z) (ar : BinaryInputArchive) (w : Node)
    : outcome (option LPointer * Node) :=
  match table method with
  | Some c =>
      '(ptr, w) ← Client.NewTask (of_type c (Task.new raw_task, tc_empty c)) w;
      '(s, _) ← v_load (ser_task true 0 (tc_serial c)) (Task.new raw_task, tc_empty c) ar;
      Ok (Some ptr, put_task (ptr_ ptr) (of_type c s) w)
  | None => Ok (None, w)
  end.

Definition LoadEnd (replica method : Z) (ar : BinaryInputArchive) (task : Z) (w : Node)
    : outcome Node :=
  match table method with
  | Some c =>
      o ← get_task task w;
      s ← as_type c o;
      '(s, _) ← v_load (ser_task false replica (tc_serial c)) s ar;
      Ok (put_task task (of_type c s) w)
  | None => Ok w
  end.

(** [return -1] for an unknown method *)
Definition GetGroup (method task : Z) (group : list Z) (w : Node) : outcome (Z * list Z) :=
  match table method with
  | Some c => o ← get_task task w; s ← as_type c o; tc_GetGroup c s.1 s.2 group
  | None => Ok (wrap32 (-1), group)
  end.

End dispatch.

(** ** The libraries of the repository *)

(** [hermes_run_admin_lib_exec.h] *)
Module AdminExec.
Section exec.
Context `{BitfieldOps} `{Logger} `{CerealOps} `{CharbufOps} `{HvecOps} `{RawMemory} `{AllocOps}.
Definition Del := Del admin_methods.
Definition ReplicateStart := ReplicateStart admin_methods.
Definition ReplicateEnd := ReplicateEnd admin_methods.
Definition SaveStart := SaveStart admin_methods.
Definition LoadStart := LoadStart admin_methods.
Definition SaveEnd := SaveEnd admin_methods.
Definition LoadEnd := LoadEnd admin_methods.
Definition GetGroup := GetGroup admin_methods.
End exec.
End AdminExec.

(** [proc_queue_lib_exec.h] *)
Module ProcQueueExec.
Section exec.
Context `{BitfieldOps} `{Logger} `{CerealOps} `{CharbufOps} `{HvecOps} `{RawMemory} `{AllocOps}.
Definition Del := Del proc_queue_methods.
Definition ReplicateStart := ReplicateStart proc_queue_methods.
Definition ReplicateEnd := ReplicateEnd proc_queue_methods.
Definition SaveStart := SaveStart proc_queue_methods.
Definition LoadStart := LoadStart proc_queue_methods.
Definition SaveEnd := SaveEnd proc_queue_methods.
Definition LoadEnd := LoadEnd proc_queue_methods.
Definition GetGroup := GetGroup proc_queue_methods.
End exec.
End ProcQueueExec.

(** [remote_queue_lib_exec.h] *)
Module RemoteQueueExec.
Section exec.
Context `{BitfieldOps} `{Logger} `{CerealOps} `{CharbufOps} `{HvecOps} `{RawMemory} `{AllocOps}.
Definition Del := Del remote_queue_methods.
Definition ReplicateStart := ReplicateStart remote_queue_methods.
Definition ReplicateEnd := ReplicateEnd remote_queue_methods.
Definition SaveStart := SaveStart remote_queue_methods.
Definition LoadStart := LoadStart remote_queue_methods.
Definition SaveEnd := SaveEnd remote_queue_methods.
Definition LoadEnd := LoadEnd remote_queue_methods.
Definition GetGroup := GetGroup remote_queue_methods.
End exec.
End RemoteQueueExec.

(** [worch_queue_round_robin_lib_exec.h] *)
Module QueueRoundRobinExec.
Section exec.
Context `{BitfieldOps} `{Logger} `{CerealOps} `{CharbufOps} `{HvecOps} `{RawMemory} `{AllocOps}.
Definition Del := Del round_robin_methods.
Definition ReplicateStart := ReplicateStart round_robin_methods.
Definition ReplicateEnd := ReplicateEnd round_robin_methods.
Definition SaveStart := SaveStart round_robin_methods.
Definition LoadStart := LoadStart round_robin_methods.
Definition SaveEnd := SaveEnd round_robin_methods.
Definition LoadEnd := LoadEnd round_robin_methods.
Definition GetGroup := GetGroup round_robin_methods.
End exec.
End QueueRoundRobinExec.

(** [worch_proc_round_robin_lib_exec.h] *)
Module ProcRoundRobinExec.
Section exec.
Context `{BitfieldOps} `{Logger} `{CerealOps} `{CharbufOps} `{HvecOps} `{RawMemory} `{AllocOps}.
Definition Del := Del round_robin_methods.
Definition ReplicateStart := ReplicateStart round_robin_methods.
Definition ReplicateEnd := ReplicateEnd round_robin_methods.
Definition SaveStart := SaveStart round_robin_methods.
Definition LoadStart := LoadStart round_robin_methods.
Definition SaveEnd := SaveEnd round_robin_methods.
Definition LoadEnd := LoadEnd round_robin_methods.
Definition GetGroup := GetGroup round_robin_methods.
End exec.
End ProcRoundRobinExec.

(** [small_message_lib_exec.h] *)
Module SmallMessageExec.
Section exec.
Context `{BitfieldOps} `{Logger} `{CerealOps} `{CharbufOps} `{HvecOps} `{RawMemory} `{AllocOps}.
Definition Del := Del small_message_methods.
Definition ReplicateStart := ReplicateStart small_message_methods.
Definition ReplicateEnd := ReplicateEnd small_message_methods.
Definition SaveStart := SaveStart small_message_methods.
Definition LoadStart := LoadStart small_message_methods.
Definition SaveEnd := SaveEnd small_message_methods.
Definition LoadEnd := LoadEnd small_message_methods.
Definition GetGroup := GetGroup small_message_methods.
End exec.
End SmallMessageExec.

(** [TASK_NAME_lib_exec.h] *)
Module TaskNameExec.
Section exec.
Context `{BitfieldOps} `{Logger} `{CerealOps} `{CharbufOps} `{HvecOps} `{RawMemory} `{AllocOps}.
Definition Del := Del task_name_methods.
Definition ReplicateStart := ReplicateStart task_name_methods.
Definition ReplicateEnd := ReplicateEnd task_name_methods.
Definition SaveStart := SaveStart task_name_methods.
Definition LoadStart := LoadStart task_name_methods.
Definition SaveEnd := SaveEnd task_name_methods.
Definition LoadEnd := LoadEnd task_name_methods.
Definition GetGroup := GetGroup task_name_methods.
End exec.
End TaskNameExec.

(** ** Round trips of the tasks sent to other nodes *)

(** The body received for [b] in an empty task [b0]: its input members. *)
Definition sent (b b0 : TaskBody) : TaskBody :=
  match b, b0 with
  | BRegisterTaskLib p, BRegisterTaskLib p0 =>
      BRegisterTaskLib (RegisterTaskLib.mk (RegisterTaskLib.lib_name_ p) (RegisterTaskLib.id_ p0))
  | BGetOrCreateTaskStateId p, BGetOrCreateTaskStateId p0 =>
      BGetOrCreateTaskStateId (GetOrCreateTaskStateId.mk
        (GetOrCreateTaskStateId.state_name_ p) (GetOrCreateTaskStateId.id_ p0))
  | BGetTaskStateId p, BGetTaskStateId p0 =>
      BGetTaskStateId (GetTaskStateId.mk (GetTaskStateId.state_name_ p) (GetTaskStateId.id_ p0))
  | BMd p, BMd p0 => BMd p0
  | BMdPush p, BMdPush p0 => BMdPush p0
  | BIo p, BIo p0 => BIo (Io.mk (Io.data_ p) (Io.ret_ p0))
  | _, _ => b
  end.

(** Strings and vectors shorter than [2 ^ 64], numbers of their width, buffers of their
    size *)
Definition string_ok (s : string) : Prop := is_u64 (Z.of_nat (String.length s)).

Definition body_ok (b : TaskBody) : Prop :=
  match b with
  | BRegisterTaskLib p => string_ok (RegisterTaskLib.lib_name_ p)
  | BGetOrCreateTaskStateId p => string_ok (GetOrCreateTaskStateId.state_name_ p)
  | BCreateTaskState p =>
      string_ok (CreateTaskState.lib_name_ p) ∧ string_ok (CreateTaskState.state_name_ p) ∧
      UniqueId.wf (CreateTaskState.id_ p) ∧
      is_u64 (Z.of_nat (length (CreateTaskState.queue_info_ p))) ∧
      Forall PriorityInfo.wf (CreateTaskState.queue_info_ p)
  | BGetTaskStateId p => string_ok (GetTaskStateId.state_name_ p)
  | BDestroyTaskState p => UniqueId.wf (DestroyTaskState.id_ p)
  | BSetWorkOrchestratorPolicy p => UniqueId.wf (SetWorkOrchestratorPolicy.policy_id_ p)
  | BIo p => Z.of_nat (length (Io.data_ p)) = Io.DATA_SIZE
  | _ => True
  end.

(** Evaluates the conversions of constant flag words. *)
Ltac eval_flags :=
  unfold TaskFlags.SUPPORTS_SRL, TaskFlags.SRL_SYM_START, TaskFlags.SRL_SYM_END,
    TaskFlags.REPLICA, TaskFlags.has,
    TF_SRL_SYM, TF_SRL_ASYM, TF_SRL_SYM_START, TF_SRL_SYM_END, TF_SRL_ASYM_START,
    TF_SRL_ASYM_END, TF_REPLICA, TF_LOCAL;
  rewrite ?BIT_OPT_spec by lia; reflexivity.

Ltac case_decide_eqb :=
  match goal with
  | |- context [if ?a =? ?b then _ else _] => destruct (Z.eqb_spec a b)
  end.

Section roundtrip.
Context `{BitfieldLaws} `{CerealLaws} `{CharbufOps} `{HvecOps} `{RawMemory} `{Logger}.

Lemma base_serialize_ok {P} :
  visitor_ok (base_serialize (P:=P)) (λ s, Task.wf s.1)
    (λ _ s o, (Task.received s.1 o.1, o.2)).
Proof. unfold base_serialize. apply (at_member_ok fst (λ t s, (t, s.2)) _ _ _ Task.task_serialize_ok). Qed.

Lemma member_ok {P T} (get : P → T) set (c : codec T) Q :
  codec_ok c Q →
  visitor_ok (member get set c) (λ s, Q (get s.2)) (λ _ s o, (o.1, set (get s.2) o.2)).
Proof. intros Hc. unfold member. apply (at_member_ok _ (λ x s, (s.1, set x s.2)) _ _ _ (ser_pod_ok c Q Hc)). Qed.

Lemma io_start_ok :
  visitor_ok (Visitor Io.SaveStart Io.LoadStart)
    (λ s, Task.wf s.1 ∧ Z.of_nat (length (Io.data_ s.2)) = Io.DATA_SIZE)
    (λ _ s o, (Task.received s.1 o.1, Io.mk (memcpy_at 0 (Io.data_ s.2) (Io.data_ o.2)) (Io.ret_ o.2))).
Proof.
  intros s nid [Hwf Hlen].
  set (x := DataTransfer.make DT_RECEIVER_READ (Io.data_ s.2) Io.DATA_SIZE (Task.domain_id_ s.1)).
  destruct (base_serialize_ok s nid Hwf) as (bs & xs & Hs & Hl).
  destruct (ser_xfer_ok x nid I) as (bs2 & xs2 & Hs2 & Hl2).
  exists (bs ++ bs2), (xs ++ xs2). split.
  - intros. simpl. unfold Io.SaveStart. fold x. rewrite Hs. cbn [mbind outcome_bind].
    by rewrite Hs2, <- !(assoc_L app).
  - intros. simpl. unfold Io.LoadStart. rewrite <- !(assoc_L app), Hl. cbn [mbind outcome_bind].
    pose proof (Hl2 (DataTransfer.make 0 [] 0 DomainId.new) (pre ++ xs) post rest) as E.
    rewrite <- !(assoc_L app) in E. rewrite E. cbn [mbind outcome_bind].
    change (DataTransfer.data_ (DataTransfer.set_node_id nid x)) with (Io.data_ s.2).
    change (DataTransfer.data_size_ (DataTransfer.set_node_id nid x)) with Io.DATA_SIZE.
    rewrite <- Hlen at 1. rewrite read_memory_all. cbn [mbind outcome_bind].
    by rewrite Z.ltb_irrefl.
Qed.

(** The start of a task type: what the sender saves, the receiver loads into an empty
    task. *)
Definition class_start_ok (c : task_class) : Prop :=
  SUPPORTS_SRL (tc_serial c) = true → ∃ M,
    visitor_ok (ser_task true 0 (tc_serial c)) (λ s, Task.wf s.1 ∧ body_ok (tc_put c s.2)) M ∧
    ∀ nid s t, body_ok (tc_put c s.2) →
      (M nid s (t, tc_empty c)).1 = Task.received s.1 t ∧
      tc_put c (M nid s (t, tc_empty c)).2 = sent (tc_put c s.2) (tc_put c (tc_empty c)).

Lemma sym_start_flag : TaskFlags.SRL_SYM_START TF_SRL_SYM = true.
Proof. eval_flags. Qed.

Lemma sym_replica_start_flag : TaskFlags.SRL_SYM_START (Z.lor TF_SRL_SYM TF_REPLICA) = true.
Proof. eval_flags. Qed.

(** Symmetric types: their [SerializeStart] is the visitor. *)
Lemma class_start_sym (c : task_class) v P M :
  SRL_SYM_START (tc_serial c) = true →
  SerializeStart (tc_serial c) = v →
  visitor_ok v P M →
  (∀ s, Task.wf s.1 → body_ok (tc_put c s.2) → P s) →
  (∀ nid s t, (M nid s (t, tc_empty c)).1 = Task.received s.1 t ∧
      tc_put c (M nid s (t, tc_empty c)).2 = sent (tc_put c s.2) (tc_put c (tc_empty c))) →
  class_start_ok c.
Proof.
  intros Hs <- Hv HP HM Hsup. exists M. split; [|auto].
  unfold ser_task. rewrite Hsup, Hs. eapply visitor_ok_weaken; [apply Hv| |done].
  intros s [? ?]. auto.
Qed.

(** Classes of a library: a task type that is local is never sent. *)
Definition table_start_ok (table : method_table) : Prop :=
  ∀ method c, table method = Some c → class_start_ok c.

Ltac solve_visitor :=
  lazymatch goal with
  | |- visitor_ok base_serialize _ _ => apply base_serialize_ok
  | |- visitor_ok (member _ _ _) _ _ =>
      eapply member_ok; first [apply cereal_string_ok | apply UniqueId.uid_serialize_ok
                             | apply cereal_vector_ok, PriorityInfo.priority_serialize_ok]
  | |- visitor_ok (_ ;;v _) _ _ => eapply ser_seq_ok; solve_visitor
  end.

Ltac start_sym start :=
  lazymatch goal with |- class_start_ok ?c => eapply (class_start_sym c start) end;
  [first [exact sym_start_flag | exact sym_replica_start_flag]
  | reflexivity
  | let v := eval red in start in change start with v; solve_visitor
  | simpl; unfold string_ok in *; naive_solver
  | by intros ? [? []] ?].

Lemma c_RegisterTaskLib_start : class_start_ok c_RegisterTaskLib.
Proof. start_sym RegisterTaskLib.SerializeStart. Qed.
Lemma c_GetOrCreateTaskStateId_start : class_start_ok c_GetOrCreateTaskStateId.
Proof. start_sym GetOrCreateTaskStateId.SerializeStart. Qed.
Lemma c_CreateTaskState_start : class_start_ok c_CreateTaskState.
Proof. start_sym CreateTaskState.SerializeStart. Qed.
Lemma c_GetTaskStateId_start : class_start_ok c_GetTaskStateId.
Proof. start_sym GetTaskStateId.SerializeStart. Qed.
Lemma c_DestroyTaskState_start : class_start_ok c_DestroyTaskState.
Proof. start_sym DestroyTaskState.SerializeStart. Qed.
Lemma c_StopRuntime_start : class_start_ok c_StopRuntime.
Proof. start_sym StopRuntime.SerializeStart. Qed.
Lemma c_SetWorkOrchestratorPolicy_start : class_start_ok c_SetWorkOrchestratorPolicy.
Proof. start_sym SetWorkOrchestratorPolicy.SerializeStart. Qed.
Lemma c_Md_start : class_start_ok c_Md.
Proof. start_sym Md.SerializeStart. Qed.
Lemma c_MdPush_start : class_start_ok c_MdPush.
Proof. start_sym MdPush.SerializeStart. Qed.

Lemma c_Custom_start : class_start_ok c_Custom.
Proof. start_sym Custom.SerializeStart. Qed.

Lemma c_Io_start : class_start_ok c_Io.
Proof.
  intros _.
  exists (λ _ s o, (Task.received s.1 o.1, Io.mk (memcpy_at 0 (Io.data_ s.2) (Io.data_ o.2)) (Io.ret_ o.2))).
  split.
  - assert (ser_task true 0 (tc_serial c_Io) = Visitor Io.SaveStart Io.LoadStart) as ->; [|exact io_start_ok].
    unfold ser_task, c_Io, Io.serial, make_serial. simpl.
    replace (TaskFlags.SUPPORTS_SRL Io.FLAGS) with true by (unfold Io.FLAGS; symmetry; eval_flags).
    replace (TaskFlags.SRL_SYM_START Io.FLAGS) with false by (unfold Io.FLAGS; symmetry; eval_flags).
    done.
  - intros nid [ts p] t Hp. split; [done|]. 
    change (Z.of_nat (length (Io.data_ p)) = Io.DATA_SIZE) in Hp.
    assert (memcpy_at 0 (Io.data_ p) (replicate (Z.to_nat Io.DATA_SIZE) raw_int) = Io.data_ p) as Em.
    { unfold memcpy_at. rewrite drop_ge by (rewrite length_replicate; lia). apply app_nil_r. }
    unfold c_Io. cbn -[Io.DATA_SIZE memcpy_at replicate Z.to_nat]. by rewrite Em.
Qed.

(** Types that are not serialized *)
Lemma class_start_local (c : task_class) : SUPPORTS_SRL (tc_serial c) = false → class_start_ok c.
Proof. intros E. unfold class_start_ok. by rewrite E. Qed.

Lemma local_flag : TaskFlags.SUPPORTS_SRL TF_LOCAL = false.
Proof. eval_flags. Qed.

Lemma c_Schedule_start : class_start_ok c_Schedule.
Proof. apply class_start_local, local_flag. Qed.
Lemma c_TypedPush_start : class_start_ok c_TypedPush.
Proof. apply class_start_local, local_flag. Qed.
Lemma c_RemotePush_start : class_start_ok c_RemotePush.
Proof. apply class_start_local, local_flag. Qed.

Hint Resolve c_RegisterTaskLib_start c_GetOrCreateTaskStateId_start c_CreateTaskState_start
  c_GetTaskStateId_start c_DestroyTaskState_start c_StopRuntime_start
  c_SetWorkOrchestratorPolicy_start c_Md_start c_MdPush_start c_Io_start c_Schedule_start c_TypedPush_start
  c_RemotePush_start c_Custom_start : hrun.

Lemma with_construct_start table : table_start_ok table → table_start_ok (with_construct table).
Proof.
  intros Ht method c. unfold with_construct.
  repeat case_decide_eqb; intros E; simplify_eq; eauto with hrun.
Qed.

(** The types of every method of every library *)
Lemma methods_start_ok d : table_start_ok (methods_of d).
Proof.
  destruct d; try apply with_construct_start; intros method c; simpl;
    unfold admin_methods; repeat case_decide_eqb; intros E; simplify_eq; eauto with hrun.
Qed.

Lemma get_NewTask `{AllocLaws} o w p w' : Client.NewTask o w = Ok (p, w') →
  w' = put_task (ptr_ p) o w ∧ Node.heap w !! ptr_ p = None.
Proof.
  unfold Client.NewTask. destruct (allocate (Node.heap w)) as [[q a]|] eqn:E; intros; [|done].
  invert_ok. split; [done|]. by eapply allocate_fresh.
Qed.

(** *** Results

    What the original task receives from replica number [replica] *)
Definition returned (replica : Z) (b b0 : TaskBody) : TaskBody :=
  match b, b0 with
  | BRegisterTaskLib p, BRegisterTaskLib p0 =>
      BRegisterTaskLib (RegisterTaskLib.mk (RegisterTaskLib.lib_name_ p0) (RegisterTaskLib.id_ p))
  | BGetOrCreateTaskStateId p, BGetOrCreateTaskStateId p0 =>
      BGetOrCreateTaskStateId (GetOrCreateTaskStateId.mk
        (GetOrCreateTaskStateId.state_name_ p0) (GetOrCreateTaskStateId.id_ p))
  | BCreateTaskState p, BCreateTaskState p0 =>
      BCreateTaskState (CreateTaskState.mk (CreateTaskState.lib_name_ p0)
        (CreateTaskState.state_name_ p0) (CreateTaskState.queue_info_ p0) (CreateTaskState.id_ p))
  | BGetTaskStateId p, BGetTaskStateId p0 =>
      BGetTaskStateId (GetTaskStateId.mk (GetTaskStateId.state_name_ p0) (GetTaskStateId.id_ p))
  | BMd p, BMd p0 =>
      BMd (Md.mk (set_index replica (default 0 (at_index (Md.ret_ p) 0)) (Md.ret_ p0)))
  | BMdPush p, BMdPush p0 => BMdPush (MdPush.mk
      (set_index replica (default 0 (at_index (MdPush.ret_ p) 0)) (MdPush.ret_ p0)))
  | BIo p, BIo p0 => BIo (Io.mk (Io.data_ p0) (Io.ret_ p))
  | _, _ => b0
  end.

(** Results of their width, and a place for those of the replica *)
Definition result_ok (b : TaskBody) : Prop :=
  match b with
  | BRegisterTaskLib p => UniqueId.wf (RegisterTaskLib.id_ p)
  | BGetOrCreateTaskStateId p => UniqueId.wf (GetOrCreateTaskStateId.id_ p)
  | BCreateTaskState p => UniqueId.wf (CreateTaskState.id_ p)
  | BGetTaskStateId p => UniqueId.wf (GetTaskStateId.id_ p)
  | BMd p => ∃ x, at_index (Md.ret_ p) 0 = Some x ∧ is_i32 x
  | BMdPush p => ∃ x, at_index (MdPush.ret_ p) 0 = Some x ∧ is_i32 x
  | BIo p => is_i32 (Io.ret_ p)
  | _ => True
  end.

Definition slot_ok (replica : Z) (b : TaskBody) : Prop :=
  match b with
  | BMd p => is_Some (at_index (Md.ret_ p) replica)
  | BMdPush p => is_Some (at_index (MdPush.ret_ p) replica)
  | _ => True
  end.

Definition class_end_ok (c : task_class) : Prop :=
  SUPPORTS_SRL (tc_serial c) = true → ∀ replica s o,
    result_ok (tc_put c s.2) → slot_ok replica (tc_put c o.2) → ∃ bs p,
      (∀ xfer ss nid, v_save (ser_task false 0 (tc_serial c)) s (mkOutput xfer ss nid) =
         Ok (mkOutput xfer (ss ++ bs) nid)) ∧
      (∀ xfer rest off, v_load (ser_task false replica (tc_serial c)) o
         (mkInput xfer (bs ++ rest) off) = Ok ((o.1, p), mkInput xfer rest off)) ∧
      tc_put c p = returned replica (tc_put c s.2) (tc_put c o.2).

Lemma sym_end_flag : TaskFlags.SRL_SYM_END TF_SRL_SYM = true.
Proof. eval_flags. Qed.

Lemma sym_replica_end_flag : TaskFlags.SRL_SYM_END (Z.lor TF_SRL_SYM TF_REPLICA) = true.
Proof. eval_flags. Qed.

Lemma io_end_flag : TaskFlags.SRL_SYM_END (Z.lor TF_SRL_ASYM_START TF_SRL_SYM_END) = true.
Proof. eval_flags. Qed.

(** A type whose end is one member *)
Lemma class_end_member {T} (c : task_class) (get : tc_payload c → T) set (co : codec T) Q :
  SRL_SYM_END (tc_serial c) = true →
  (∀ replica, SerializeEnd (tc_serial c) replica = member get set co) → codec_ok co Q →
  (∀ p, result_ok (tc_put c p) → Q (get p)) →
  (∀ replica p p0, tc_put c (set (get p) p0) = returned replica (tc_put c p) (tc_put c p0)) →
  class_end_ok c.
Proof.
  intros Hs Hv Hc HQ HM Hsup replica s o Hr _. exists (enc co (get s.2)), (set (get s.2) o.2).
  unfold ser_task. rewrite Hsup, Hs, !Hv. split; [done|]. split; [|apply HM].
  intros. simpl. by rewrite Hc by auto.
Qed.

(** A type without results *)
Lemma class_end_none (c : task_class) :
  SRL_SYM_END (tc_serial c) = true →
  (∀ replica, SerializeEnd (tc_serial c) replica = ser_end) →
  (∀ replica p p0, tc_put c p0 = returned replica (tc_put c p) (tc_put c p0)) →
  class_end_ok c.
Proof.
  intros Hs Hv HM Hsup replica s o _ _. exists [], o.2.
  unfold ser_task. rewrite Hsup, Hs, !Hv. split; [intros; simpl; by rewrite app_nil_r|].
  split; [intros; by destruct o|apply HM].
Qed.

Lemma c_RegisterTaskLib_end : class_end_ok c_RegisterTaskLib.
Proof.
  apply (class_end_member c_RegisterTaskLib RegisterTaskLib.id_
    (λ x p, RegisterTaskLib.mk (RegisterTaskLib.lib_name_ p) x) UniqueId.serialize UniqueId.wf);
    [exact sym_end_flag|done|apply UniqueId.uid_serialize_ok|done|done].
Qed.

Lemma c_GetOrCreateTaskStateId_end : class_end_ok c_GetOrCreateTaskStateId.
Proof.
  apply (class_end_member c_GetOrCreateTaskStateId GetOrCreateTaskStateId.id_
    (λ x p, GetOrCreateTaskStateId.mk (GetOrCreateTaskStateId.state_name_ p) x)
    UniqueId.serialize UniqueId.wf);
    [exact sym_end_flag|done|apply UniqueId.uid_serialize_ok|done|done].
Qed.

Lemma c_CreateTaskState_end : class_end_ok c_CreateTaskState.
Proof.
  apply (class_end_member c_CreateTaskState CreateTaskState.id_
    (λ x p, CreateTaskState.mk (CreateTaskState.lib_name_ p) (CreateTaskState.state_name_ p)
              (CreateTaskState.queue_info_ p) x) UniqueId.serialize UniqueId.wf);
    [exact sym_replica_end_flag|done|apply UniqueId.uid_serialize_ok|done|done].
Qed.

Lemma c_GetTaskStateId_end : class_end_ok c_GetTaskStateId.
Proof.
  apply (class_end_member c_GetTaskStateId GetTaskStateId.id_
    (λ x p, GetTaskStateId.mk (GetTaskStateId.state_name_ p) x) UniqueId.serialize UniqueId.wf);
    [exact sym_end_flag|done|apply UniqueId.uid_serialize_ok|done|done].
Qed.

Lemma c_DestroyTaskState_end : class_end_ok c_DestroyTaskState.
Proof. apply class_end_none; [exact sym_end_flag|done|done]. Qed.
Lemma c_StopRuntime_end : class_end_ok c_StopRuntime.
Proof. apply class_end_none; [exact sym_end_flag|done|done]. Qed.
Lemma c_SetWorkOrchestratorPolicy_end : class_end_ok c_SetWorkOrchestratorPolicy.
Proof. apply class_end_none; [exact sym_end_flag|done|done]. Qed.

Lemma c_Custom_end : class_end_ok c_Custom.
Proof. apply class_end_none; [exact sym_end_flag|done|done]. Qed.

Lemma c_Io_end : class_end_ok c_Io.
Proof.
  apply (class_end_member c_Io Io.ret_ (λ x p, Io.mk (Io.data_ p) x) cereal_int is_i32);
    [exact io_end_flag|done|apply cereal_int_ok|done|done].
Qed.

Lemma c_Md_end : class_end_ok c_Md.
Proof.
  intros Hsup replica [ts p] [t0 p0] (x & Hx & Hi) [y Hy]. simpl in Hx, Hy.
  exists (enc cereal_int x), (Md.mk (set_index replica x (Md.ret_ p0))).
  unfold ser_task. rewrite Hsup. change (SRL_SYM_END (tc_serial c_Md)) with (TaskFlags.SRL_SYM_END Md.FLAGS).
  unfold Md.FLAGS. rewrite sym_replica_end_flag.
  split; [intros; simpl; by rewrite Hx|]. split.
  - intros. simpl. rewrite Hy. simpl. by rewrite cereal_int_ok by done.
  - simpl. by rewrite Hx.
Qed.

Lemma c_MdPush_end : class_end_ok c_MdPush.
Proof.
  intros Hsup replica [ts p] [t0 p0] (x & Hx & Hi) [y Hy]. simpl in Hx, Hy.
  exists (enc cereal_int x), (MdPush.mk (set_index replica x (MdPush.ret_ p0))).
  unfold ser_task. rewrite Hsup. change (SRL_SYM_END (tc_serial c_MdPush)) with (TaskFlags.SRL_SYM_END MdPush.FLAGS).
  unfold MdPush.FLAGS. rewrite sym_replica_end_flag.
  split; [intros; simpl; by rewrite Hx|]. split.
  - intros. simpl. rewrite Hy. simpl. by rewrite cereal_int_ok by done.
  - simpl. by rewrite Hx.
Qed.

Lemma class_end_local (c : task_class) : SUPPORTS_SRL (tc_serial c) = false → class_end_ok c.
Proof. intros E. unfold class_end_ok. by rewrite E. Qed.

Lemma c_Schedule_end : class_end_ok c_Schedule.
Proof. apply class_end_local, local_flag. Qed.
Lemma c_TypedPush_end : class_end_ok c_TypedPush.
Proof. apply class_end_local, local_flag. Qed.
Lemma c_RemotePush_end : class_end_ok c_RemotePush.
Proof. apply class_end_local, local_flag. Qed.

Hint Resolve c_RegisterTaskLib_end c_GetOrCreateTaskStateId_end c_CreateTaskState_end
  c_GetTaskStateId_end c_DestroyTaskState_end c_StopRuntime_end c_SetWorkOrchestratorPolicy_end
  c_Md_end c_MdPush_end c_Io_end c_Schedule_end c_TypedPush_end c_RemotePush_end c_Custom_end : hrun.

Lemma with_construct_end table :
  (∀ method c, table method = Some c → class_end_ok c) →
  ∀ method c, with_construct table method = Some c → class_end_ok c.
Proof.
  intros Ht method c. unfold with_construct.
  repeat case_decide_eqb; intros E; simplify_eq; eauto with hrun.
Qed.

Lemma methods_end_ok d method c : methods_of d method = Some c → class_end_ok c.
Proof.
  revert method c. destruct d; try apply with_construct_end; intros method c; simpl;
    unfold admin_methods; repeat case_decide_eqb; intros E; simplify_eq; eauto with hrun.
Qed.

End roundtrip.

(** *** The classes of the libraries *)
Section classes_facts.
Context `{BitfieldLaws} `{Logger} `{CerealOps} `{CharbufOps} `{HvecLaws} `{RawMemory}.

Ltac each_class :=
  let E := fresh in
  intros E; revert E; unfold methods_of, proc_queue_methods, remote_queue_methods,
    round_robin_methods, small_message_methods, task_name_methods, with_construct, admin_methods;
  repeat case_decide_eqb; intros E; simplify_eq.

(** A task that is sent between nodes owns no other task. *)
Lemma methods_DelTask d method c :
  methods_of d method = Some c → SUPPORTS_SRL (tc_serial c) = true →
  tc_DelTask c = Client.DelTask.
Proof.
  destruct d; each_class; try done.
  intros E. change (TaskFlags.SUPPORTS_SRL TF_LOCAL = true) in E. by rewrite local_flag in E.
Qed.

Lemma replica_flag : TaskFlags.REPLICA (Z.lor TF_SRL_SYM TF_REPLICA) = true.
Proof. eval_flags. Qed.

(** After [ReplicateStart] for [n] replicas there is a place for the result of each. *)
Lemma methods_slots d method c n p r :
  methods_of d method = Some c → 0 ≤ r < n →
  slot_ok r (tc_put c (if tc_replica c then tc_ReplicateStart c n p else p)).
Proof.
  intros Hm Hr. revert Hm. destruct d; each_class; try exact I;
    try (by destruct (tc_replica c_CreateTaskState)).
  all: cbn [tc_replica c_Md c_MdPush]; unfold Md.FLAGS, MdPush.FLAGS; rewrite replica_flag;
    cbn [slot_ok tc_put tc_ReplicateStart c_Md c_MdPush Md.ReplicateStart MdPush.ReplicateStart
      Md.ret_ MdPush.ret_];
    apply at_index_is_Some; rewrite hvec_resize_spec, length_app, length_take, length_replicate; lia.
Qed.

Lemma ReplicateStart_Ok d method c a o s n w :
  methods_of d method = Some c → get_task a w = Ok o → as_type c o = Ok s →
  ∃ og, ReplicateStart (methods_of d) method n a w = Ok (put_task a og w) ∧
    base og = base o ∧ ∀ r, 0 ≤ r < n → slot_ok r (body og).
Proof.
  intros Hm Ho Hs. assert (s.1 = base o ∧ tc_get c (body o) = Some s.2) as [Hs1 Hs2]
    by (unfold as_type in Hs; invert_ok; done).
  apply tc_put_get in Hs2. unfold ReplicateStart, upd_payload. rewrite Hm.
  pose proof (λ r, methods_slots _ _ _ n s.2 r Hm) as Hslots. destruct (tc_replica c).
  - rewrite Ho. cbn [mbind outcome_bind]. rewrite Hs. by eexists.
  - exists o. rewrite Hs2 in Hslots. split_and!; try done.
    destruct w. unfold put_task, Node.set_heap. simpl. by rewrite insert_id by (by apply get_task_Ok in Ho).
Qed.

End classes_facts.

(** *** The two transfers of a task *)

Lemma start_transfer `{BitfieldLaws} `{CerealLaws} `{CharbufOps} `{HvecOps}
    `{RawMemory} `{Logger} `{AllocLaws} d method c a o s nid w w2 pl :
  methods_of d method = Some c → SUPPORTS_SRL (tc_serial c) = true →
  get_task a w = Ok o → as_type c o = Ok s → Task.wf (base o) → body_ok (tc_put c s.2) →
  allocate (Node.heap w2) = Some pl →
  ∃ xfer ar o',
    SaveStart (methods_of d) method (BinaryOutputArchive_new nid) a w = Ok xfer ∧
    BinaryInputArchive_new xfer = Ok ar ∧
    LoadStart (methods_of d) method ar w2 =
      Ok (Some (mkLPointer pl.2 pl.1), put_task pl.2 o' w2) ∧
    base o' = Task.received (base o) (Task.new raw_task) ∧
    body o' = sent (tc_put c s.2) (tc_put c (tc_empty c)).
Proof.
  intros Hm Hsup Ho Hs Hwf Hb Hp.
  destruct (methods_start_ok d method c Hm Hsup) as (M & Hv & HM).
  assert (s.1 = base o) as Hbase by (unfold as_type in Hs; invert_ok; done).
  destruct (archive_roundtrip _ _ _ s (Task.new raw_task, tc_empty c) nid Hv)
    as (ar0 & ar1 & ar2 & Hsave & Hin & Hload & _); [by rewrite Hbase|].
  destruct (HM nid s (Task.new raw_task) Hb) as [H1' H2'].
  unfold SaveStart, Save. rewrite Hm, Ho. cbn [mbind outcome_bind]. rewrite Hs.
  cbn [mbind outcome_bind]. rewrite Hsave. destruct pl as [p q].
  unfold LoadStart, Client.NewTask. rewrite Hm, Hp. cbn [mbind outcome_bind].
  eexists _, _, _. split; [done|]. split; [exact Hin|].
  rewrite Hload. cbn [mbind outcome_bind]. rewrite put_put_task. split; [done|].
  split; [simpl; by rewrite H1', Hbase|done].
Qed.

Lemma end_transfer `{BitfieldLaws} `{CerealLaws} `{CharbufOps} `{HvecOps}
    `{RawMemory} `{Logger} `{AllocOps} d method c a o s nid w replica a0 o0 s0 w0 :
  methods_of d method = Some c → SUPPORTS_SRL (tc_serial c) = true →
  get_task a w = Ok o → as_type c o = Ok s → result_ok (tc_put c s.2) →
  get_task a0 w0 = Ok o0 → as_type c o0 = Ok s0 → slot_ok replica (tc_put c s0.2) →
  ∃ x, SaveEnd (methods_of d) method (BinaryOutputArchive_new nid) a w = Ok [x] ∧
    DataTransfer.data_size_ x = Z.of_nat (length (DataTransfer.data_ x)) ∧
    ∀ y, DataTransfer.data_ y = DataTransfer.data_ x →
      DataTransfer.data_size_ y = DataTransfer.data_size_ x →
      ∃ ar o0', BinaryInputArchive_new [y] = Ok ar ∧
        LoadEnd (methods_of d) replica method ar a0 w0 = Ok (put_task a0 o0' w0) ∧
        base o0' = base o0 ∧ body o0' = returned replica (tc_put c s.2) (tc_put c s0.2).
Proof.
  intros Hm Hsup Ho Hs Hr Ho0 Hs0 Hslot.
  destruct (methods_end_ok d method c Hm Hsup replica s s0 Hr Hslot) as (bs & p & Hsave & Hload & Hp).
  assert (s0.1 = base o0) as Hbase by (unfold as_type in Hs0; invert_ok; done).
  unfold SaveEnd, Save. rewrite Hm, Ho. cbn [mbind outcome_bind]. rewrite Hs.
  cbn [mbind outcome_bind]. unfold BinaryOutputArchive_new. rewrite Hsave.
  eexists. split; [reflexivity|]. split; [done|]. intros y Hd Hz. simpl in Hd, Hz.
  unfold BinaryInputArchive_new, LoadEnd. simpl. rewrite Hd, Hz, read_memory_all. simpl.
  eexists _, (of_type c (s0.1, p)). split; [done|].
  rewrite Hm, Ho0. cbn [mbind outcome_bind]. rewrite Hs0. cbn [mbind outcome_bind].
  rewrite <- (app_nil_r bs), Hload. by split_and!.
Qed.

(** ** Properties *)

(** C10: a task of any method of any library that is sent to another node arrives: what
    [SaveStart] writes for the object, [LoadStart] of the same library rebuilds in a new
    object of the receiver, with the serialized members of the base task and the input
    members of its type; its other members hold what the receiver's memory holds, apart
    from the flags, which are the sender's, and [delcnt_], which is 0. *)
Theorem SaveStart_LoadStart `{BitfieldLaws} `{CerealLaws} `{CharbufOps} `{HvecOps}
    `{RawMemory} `{Logger} `{AllocLaws} d method c a o s nid w w2 pl :
  methods_of d method = Some c → SUPPORTS_SRL (tc_serial c) = true →
  get_task a w = Ok o → as_type c o = Ok s → Task.wf (base o) → body_ok (tc_put c s.2) →
  allocate (Node.heap w2) = Some pl →
  ∃ xfer ar p w2' o',
    SaveStart (methods_of d) method (BinaryOutputArchive_new nid) a w = Ok xfer ∧
    BinaryInputArchive_new xfer = Ok ar ∧
    LoadStart (methods_of d) method ar w2 = Ok (Some p, w2') ∧
    get_task (ptr_ p) w2' = Ok o' ∧
    base o' = Task.received (base o) (Task.new raw_task) ∧
    body o' = sent (tc_put c s.2) (tc_put c (tc_empty c)) ∧
    ∀ b, b ≠ ptr_ p → get_task b w2' = get_task b w2.
Proof.
  intros Hm Hsup Ho Hs Hwf Hb Hp.
  destruct (start_transfer d method c a o s nid w w2 pl Hm Hsup Ho Hs Hwf Hb Hp)
    as (xfer & ar & o' & Hsave & Hin & Hload & Hbase & Hbody).
  exists xfer, ar, (mkLPointer pl.2 pl.1), (put_task pl.2 o' w2), o'. simpl.
  rewrite get_put_task_eq. split_and!; try done. intros. by apply get_put_task_ne.
Qed.

(** C11: the results of a task come back: what [SaveEnd] of the executing node writes is one
    transfer, and from its bytes [LoadEnd] of the original node sets the output members of
    the original task, those of replica [replica] where the type keeps one per replica,
    and nothing else of the task or of other tasks. *)
Theorem SaveEnd_LoadEnd `{BitfieldLaws} `{CerealLaws} `{CharbufOps} `{HvecOps}
    `{RawMemory} `{Logger} `{AllocOps} d method c a o s nid w replica a0 o0 s0 w0 :
  methods_of d method = Some c → SUPPORTS_SRL (tc_serial c) = true →
  get_task a w = Ok o → as_type c o = Ok s → result_ok (tc_put c s.2) →
  get_task a0 w0 = Ok o0 → as_type c o0 = Ok s0 → slot_ok replica (tc_put c s0.2) →
  ∃ x, SaveEnd (methods_of d) method (BinaryOutputArchive_new nid) a w = Ok [x] ∧
    DataTransfer.data_size_ x = Z.of_nat (length (DataTransfer.data_ x)) ∧
    ∀ y, DataTransfer.data_ y = DataTransfer.data_ x →
      DataTransfer.data_size_ y = DataTransfer.data_size_ x →
      ∃ ar o0', BinaryInputArchive_new [y] = Ok ar ∧
        LoadEnd (methods_of d) replica method ar a0 w0 = Ok (put_task a0 o0' w0) ∧
        base o0' = base o0 ∧ body o0' = returned replica (tc_put c s.2) (tc_put c s0.2).
Proof. apply end_transfer. Qed.

(** ** Witnesses: a task for the id of a name, sent, answered and returned *)
Section witness.
Import RefInstances.
#[local] Existing Instance ref_raw.

Definition wit_get_id (id : TaskStateId) : TaskObj :=
  mkTaskObj ref_task (BGetOrCreateTaskStateId (GetOrCreateTaskStateId.mk "state" id)).
Definition wit_get_node (id : TaskStateId) : Node := put_task 42 (wit_get_id id) ref_node.

Lemma SaveStart_LoadStart_witness :
  ∃ xfer ar p w2' o',
    SaveStart (methods_of (AdminServer 0 0)) AdminMethod.kGetOrCreateTaskStateId
      (BinaryOutputArchive_new (DomainId.GetNode 1)) 42 (wit_get_node UniqueId.GetNull) = Ok xfer ∧
    BinaryInputArchive_new xfer = Ok ar ∧
    LoadStart (methods_of (AdminServer 0 0)) AdminMethod.kGetOrCreateTaskStateId ar ref_node
      = Ok (Some p, w2') ∧
    get_task (ptr_ p) w2' = Ok o' ∧ body o' = body (wit_get_id UniqueId.GetNull).
Proof.
  destruct (SaveStart_LoadStart (AdminServer 0 0) AdminMethod.kGetOrCreateTaskStateId
    c_GetOrCreateTaskStateId 42 (wit_get_id UniqueId.GetNull)
    (ref_task, GetOrCreateTaskStateId.mk "state" UniqueId.GetNull) (DomainId.GetNode 1)
    (wit_get_node UniqueId.GetNull) ref_node (1, 1))
    as (xfer & ar & p & w2' & o' & Hs & Ha & Hl & Ho & _ & Hb & _);
    [reflexivity|vm_compute; reflexivity|reflexivity|reflexivity|by vm_compute|by vm_compute
    |reflexivity|].
  exists xfer, ar, p, w2', o'. split; [exact Hs|]. split; [exact Ha|]. split; [exact Hl|].
  split; [exact Ho|exact Hb].
Defined.

Lemma SaveEnd_LoadEnd_witness :
  ∃ x ar, SaveEnd (methods_of (AdminServer 0 0)) AdminMethod.kGetOrCreateTaskStateId
      (BinaryOutputArchive_new (DomainId.GetNode 1)) 42 (wit_get_node (UniqueId.make 1 7)) = Ok [x] ∧
    BinaryInputArchive_new [x] = Ok ar ∧
    ∃ o', LoadEnd (methods_of (AdminServer 0 0)) 0 AdminMethod.kGetOrCreateTaskStateId ar 42
        (wit_get_node UniqueId.GetNull) = Ok (put_task 42 o' (wit_get_node UniqueId.GetNull)) ∧
      body o' = body (wit_get_id (UniqueId.make 1 7)).
Proof.
  destruct (SaveEnd_LoadEnd (AdminServer 0 0) AdminMethod.kGetOrCreateTaskStateId
    c_GetOrCreateTaskStateId 42 (wit_get_id (UniqueId.make 1 7))
    (ref_task, GetOrCreateTaskStateId.mk "state" (UniqueId.make 1 7)) (DomainId.GetNode 1)
    (wit_get_node (UniqueId.make 1 7)) 0 42 (wit_get_id UniqueId.GetNull)
    (ref_task, GetOrCreateTaskStateId.mk "state" UniqueId.GetNull) (wit_get_node UniqueId.GetNull))
    as (x & Hs & _ & Hy);
    [reflexivity|vm_compute; reflexivity|reflexivity|reflexivity|by vm_compute|reflexivity
    |reflexivity|by vm_compute|].
  destruct (Hy x eq_refl eq_refl) as (ar & o' & Ha & Hl & _ & Hb).
  exists x, ar. split; [exact Hs|]. split; [exact Ha|]. exists o'. split; [exact Hl|exact Hb].
Defined.

End witness.
