(* ===== verification/Registry.v ===== *)
(** * The task registry ([include/hermes_run/task_registry])

    The registry finds and loads task libraries, creates task states from them, and
    indexes the states by name and by id. The dynamic loader, the file system and the
    environment are parameters. *)

From Stdlib Require Import Ascii.
From S2P Require Import Prelude Hshm RefLib Types Queue Config QueueManager Archive Task.
From S2P Require Import TaskTypes World.
From Stdlib Require String.

(** [dlopen] and [dlsym] yield an address, 0 for null; [call_get_task_lib_name] and
    [call_trait_new] are the code of a loaded library: the name its
    [get_task_lib_name] returns, and the object its trait class' constructor makes. *)
Class Dlfcn := {
  stdfs_exists : string → bool;
  dlopen : string → Z;
  dlsym : Z → string → Z;
  call_get_task_lib_name : Z → string;
  call_trait_new : Z → ServerData;
}.

(** The virtual [Run(TaskMethod::kConstruct, task, ctx)] of the state at an address. *)
Class ConstructOps := { run_construct : Z → Z → RunContext → Node → outcome Node }.

(** What [Construct] of a task library does not do: touch the registry, the queues,
    the workers or other states. *)
Class ConstructLaws `{ConstructOps} : Prop := {
  construct_registry exec task ctx w w' :
    run_construct exec task ctx w = Ok w' → Node.task_registry_ w' = Node.task_registry_ w;
  construct_states exec task ctx w w' a :
    run_construct exec task ctx w = Ok w' → a ≠ exec → Node.states w' !! a = Node.states w !! a;
  construct_queues exec task ctx w w' :
    run_construct exec task ctx w = Ok w' → Node.queue_map_ w' = Node.queue_map_ w;
  construct_workers exec task ctx w w' :
    run_construct exec task ctx w = Ok w' → Node.workers_ w' = Node.workers_ w;
  construct_header exec task ctx w w' :
    run_construct exec task ctx w = Ok w' →
    Node.node_id_ w' = Node.node_id_ w ∧ Node.unique_ w' = Node.unique_ w;
  construct_total exec task ctx w :
    is_Some (Node.heap w !! task) → is_Some (Node.states w !! exec) →
    ∃ w', run_construct exec task ctx w = Ok w';
  construct_self exec task ctx w w' :
    run_construct exec task ctx w = Ok w' → is_Some (Node.states w !! exec) →
    is_Some (Node.states w' !! exec);
}.

(** [HERMES_RUN_TASK_CC]: [create_state]. The state is allocated, initialised from the
    task, and constructed in a context of its own. *)
Definition create_state `{RawMemory} `{ConstructOps} (server_new : ServerData) (task : Z)
    (state_name : string) (w : Node) : outcome (Z * Node) :=
  o ← get_task task w;
  match body o with
  | BCreateTaskState p =>
      let exec := fresh_addr (Node.states w) in
      let memory := TaskLib.mkTaskLib UniqueId.GetNull raw_id "" server_new in
      let state := TaskLib.Init (CreateTaskState.id_ p) state_name memory in
      let ctx := RunContext.make 0 (Task.ctx_ raw_task) in
      w ← run_construct exec task ctx (put_state exec state w);
      Ok (exec, w)
  | _ => Undefined
  end.

(** [while (std::getline(ss, lib_dir, ':'))]: what follows the last delimiter is a line
    only when it is not empty. *)
Fixpoint getlines (acc s : string) : list string :=
  match s with
  | String.EmptyString => if String.eqb acc "" then [] else [acc]
  | String.String c s =>
      if Ascii.eqb c ":"%char then acc :: getlines "" s
      else getlines (acc +:+ String.String c "") s
  end.

Section registry.
Context `{BitfieldOps} `{RawMemory} `{Dlfcn} `{ConstructOps}.

(** The path [RegisterTaskLib] loads the library from in a directory, if any *)
Definition lib_path (lib_dir lib_name : string) : option string :=
  let lib_path1 := lib_dir +:+ "/" +:+ lib_name +:+ ".so" in
  let lib_path2 := lib_dir +:+ "/lib" +:+ lib_name +:+ ".so" in
  if stdfs_exists lib_path1 then Some lib_path1
  else if stdfs_exists lib_path2 then Some lib_path2
  else None.

(** [TaskLibInfo::~TaskLibInfo]: [dlclose] when the handle is not null *)
Definition close_lib (lib : Z) (w : Node) : Node :=
  if lib =? 0 then w else Node.set_dl_open (remove_one lib (Node.dl_open w)) w.

(** Updates of the registry of a node *)
Definition on_registry (f : TaskRegistry → TaskRegistry) (w : Node) : Node :=
  Node.set_task_registry (f (Node.task_registry_ w)) w.

(** [libs_.emplace(task_lib_name, std::move(info))]: when the name is present the new
    entry is destroyed. *)
Definition libs_emplace (name : string) (info : TaskLibInfo) (w : Node) : Node :=
  let libs := TaskRegistry.libs_ (Node.task_registry_ w) in
  match libs !! name with
  | Some _ => close_lib (lib_ info) w
  | None => on_registry (TaskRegistry.set_libs (<[name := info]> libs)) w
  end.

(** The body of the loop of [RegisterTaskLib] once the library was found: the destructor of
    the local [info] runs at each return. *)
Definition load_lib (lib_path : string) (w : Node) : bool * Node :=
  let lib := dlopen lib_path in
  if lib =? 0 then (false, w)
  else
    let w := Node.set_dl_open (lib :: Node.dl_open w) w in
    let create_state := dlsym lib "create_state" in
    if create_state =? 0 then (false, close_lib lib w)
    else
      let get_task_lib_name := dlsym lib "get_task_lib_name" in
      if get_task_lib_name =? 0 then (false, close_lib lib w)
      else
        let task_lib_name := call_get_task_lib_name get_task_lib_name in
        let '(node, info) := TaskLibInfo_move (mkTaskLibInfo lib create_state get_task_lib_name) in
        (true, close_lib (lib_ info) (libs_emplace task_lib_name node w)).

(** The loop of [RegisterTaskLib] *)
Fixpoint search_lib (lib_dirs : list string) (lib_name : string) (w : Node) : bool * Node :=
  match lib_dirs with
  | [] => (false, w)
  | lib_dir :: lib_dirs =>
      match lib_path lib_dir lib_name with
      | Some path => load_lib path w
      | None => search_lib lib_dirs lib_name w
      end
  end.

Definition RegisterTaskLib (lib_name : string) (w : Node) : bool * Node :=
  search_lib (TaskRegistry.lib_dirs_ (Node.task_registry_ w)) lib_name w.

Definition DestroyTaskLib (lib_name : string) (w : Node) : Node :=
  let libs := TaskRegistry.libs_ (Node.task_registry_ w) in
  match libs !! lib_name with
  | None => w
  | Some info =>
      close_lib (lib_ info) (on_registry (TaskRegistry.set_libs (delete lib_name libs)) w)
  end.

(** The directories of [ServerInit]; an unset variable is the empty string. *)
Definition search_paths (hermes_lib_path_env ld_lib_path_env : option string) : list string :=
  getlines "" (default "" hermes_lib_path_env +:+ ":" +:+ default "" ld_lib_path_env).

(** [ServerInit]: a library that does not load is only warned about. *)
Definition ServerInit (config : ServerConfig) (node_id : Z)
    (hermes_lib_path_env ld_lib_path_env : option string) (w : Node) : Node :=
  let r := Node.task_registry_ w in
  let lib_dirs := TaskRegistry.lib_dirs_ r ++ search_paths hermes_lib_path_env ld_lib_path_env in
  let r := TaskRegistry.mkTaskRegistry node_id lib_dirs (TaskRegistry.libs_ r)
             (TaskRegistry.task_state_ids_ r) (TaskRegistry.task_states_ r) in
  foldl (λ w lib_name, snd (RegisterTaskLib lib_name w)) (Node.set_task_registry r w)
    (ServerConfig.task_libs_ config).

Definition CreateTaskStateId (w : Node) : TaskStateId * Node :=
  let '(u, w') := Client.fetch_add_unique w in
  (UniqueId.make (TaskRegistry.node_id_ (Node.task_registry_ w)) u, w').

Definition TaskStateExists (state_id : TaskStateId) (w : Node) : bool :=
  bool_decide (is_Some (TaskRegistry.task_states_ (Node.task_registry_ w) !! UniqueId.key state_id)).

(** [GetTaskState(task_state_id)]: 0 is null. *)
Definition GetTaskState (task_state_id : TaskStateId) (w : Node) : Z :=
  default 0 (TaskRegistry.task_states_ (Node.task_registry_ w) !! UniqueId.key task_state_id).

Definition GetTaskStateId (state_name : string) (w : Node) : TaskStateId :=
  default UniqueId.GetNull
    (TaskRegistry.task_state_ids_ (Node.task_registry_ w) !! state_name).

(** [GetTaskState(task_name, task_state_id)] *)
Definition GetTaskStateByName (task_name : string) (task_state_id : TaskStateId) (w : Node) : Z :=
  let id := GetTaskStateId task_name w in
  let id := if UniqueId.IsNull id then task_state_id else id in
  GetTaskState id w.

Definition GetOrCreateTaskStateId (state_name : string) (w : Node) : TaskStateId * Node :=
  match TaskRegistry.task_state_ids_ (Node.task_registry_ w) !! state_name with
  | Some id => (id, w)
  | None =>
      let '(state_id, w) := CreateTaskStateId w in
      (state_id, on_registry (λ r, TaskRegistry.set_task_state_ids
                   (emplace state_name state_id (TaskRegistry.task_state_ids_ r)) r) w)
  end.

(** [task->id_ = state_id] for a [CreateTaskStateTask] *)
Definition set_create_id (id : TaskStateId) (task : Z) (w : Node) : outcome Node :=
  o ← get_task task w;
  match body o with
  | BCreateTaskState p =>
      mret (put_task task (set_body (BCreateTaskState
        (CreateTaskState.mk (CreateTaskState.lib_name_ p) (CreateTaskState.state_name_ p)
           (CreateTaskState.queue_info_ p) id)) o) w)
  | _ => Undefined
  end.

(** The end of [CreateTaskState]: the state takes its id and name, and is indexed. *)
Definition add_state (state_name : string) (state_id : TaskStateId) (task_state : Z) (w : Node)
    : outcome Node :=
  s ← get_state task_state w;
  let w := put_state task_state (TaskLib.set_name state_name (TaskLib.set_id state_id s)) w in
  mret (on_registry (λ r,
    TaskRegistry.set_task_states
      (emplace (UniqueId.key state_id) task_state (TaskRegistry.task_states_ r))
      (TaskRegistry.set_task_state_ids
        (emplace state_name state_id (TaskRegistry.task_state_ids_ r)) r)) w).

Definition CreateTaskState (lib_name state_name : string) (state_id : TaskStateId) (task : Z)
    (w : Node) : outcome (bool * Node) :=
  if UniqueId.IsNull state_id then
    w ← upd_task task Task.SetModuleComplete w; mret (false, w)
  else
    match TaskRegistry.libs_ (Node.task_registry_ w) !! lib_name with
    | None => w ← upd_task task Task.SetModuleComplete w; mret (false, w)
    | Some info =>
        if TaskStateExists state_id w then
          w ← upd_task task Task.SetModuleComplete w; mret (true, w)
        else
          w ← set_create_id state_id task w;
          '(task_state, w) ← create_state (call_trait_new (create_state_ info)) task state_name w;
          if task_state =? 0 then
            w ← upd_task task Task.SetModuleComplete w; mret (false, w)
          else
            w ← add_state state_name state_id task_state w; mret (true, w)
    end.

(** [DestroyTaskState]: the name of the state is forgotten, then the state deleted. *)
Definition DestroyTaskState (task_state_id : TaskStateId) (w : Node) : outcome Node :=
  match TaskRegistry.task_states_ (Node.task_registry_ w) !! UniqueId.key task_state_id with
  | None => Ok w
  | Some task_state =>
      s ← get_state task_state w;
      let w := on_registry (λ r,
        TaskRegistry.set_task_states
          (delete (UniqueId.key task_state_id) (TaskRegistry.task_states_ r))
          (TaskRegistry.set_task_state_ids
            (delete (TaskLib.name_ s) (TaskRegistry.task_state_ids_ r)) r)) w in
      mret (Node.set_states (delete task_state (Node.states w)) w)
  end.

End registry.

(** ** Invariants *)

(** The index by id: each entry designates a live state that carries the id, and no two
    entries the same state. *)
Definition registry_ok (w : Node) : Prop :=
  let idx := TaskRegistry.task_states_ (Node.task_registry_ w) in
  (∀ k a, idx !! k = Some a → a ≠ 0 ∧
    ∃ s, Node.states w !! a = Some s ∧ UniqueId.key (TaskLib.id_ s) = k) ∧
  (∀ k k' a, idx !! k = Some a → idx !! k' = Some a → k = k').

(** The handles open are those the loaded libraries hold. *)
Definition libs_ok (w : Node) : Prop :=
  Node.dl_open w ≡ₚ (λ kv, lib_ kv.2) <$> map_to_list (TaskRegistry.libs_ (Node.task_registry_ w)).

(** Ids drawn from the counter of this node are below the counter. *)
Definition ids_below (w : Node) : Prop :=
  ∀ name id, TaskRegistry.task_state_ids_ (Node.task_registry_ w) !! name = Some id →
    UniqueId.node_id_ id = TaskRegistry.node_id_ (Node.task_registry_ w) →
    UniqueId.unique_ id < Node.unique_ w.

(** ** Lemmas *)

Section lib_lemmas.
Context `{BitfieldOps} `{RawMemory} `{Dlfcn}.

Lemma close_lib_same lib w :
  Node.task_registry_ (close_lib lib w) = Node.task_registry_ w ∧
  Node.states (close_lib lib w) = Node.states w ∧ Node.heap (close_lib lib w) = Node.heap w.
Proof. unfold close_lib. by case_bool. Qed.

(** Closing the handle that was opened last restores the balance. *)
Lemma close_opened lib w :
  lib ≠ 0 → libs_ok w →
  libs_ok (close_lib lib (Node.set_dl_open (lib :: Node.dl_open w) w)).
Proof.
  intros Hl Hw. unfold close_lib. rewrite (proj2 (Z.eqb_neq _ _) Hl).
  unfold libs_ok in *. simpl. by rewrite Z.eqb_refl.
Qed.

Lemma libs_emplace_ok name info w :
  lib_ info ≠ 0 → libs_ok w →
  libs_ok (libs_emplace name info (Node.set_dl_open (lib_ info :: Node.dl_open w) w)).
Proof.
  intros Hl Hw. unfold libs_emplace. simpl.
  destruct (TaskRegistry.libs_ (Node.task_registry_ w) !! name) as [i|] eqn:E.
  - by apply close_opened.
  - unfold libs_ok in *. simpl. rewrite map_to_list_insert by done. simpl. by rewrite Hw.
Qed.

Lemma load_lib_ok path w : libs_ok w → libs_ok (load_lib path w).2.
Proof.
  intros Hw. unfold load_lib. destruct (Z.eqb_spec (dlopen path) 0); [done|].
  destruct (Z.eqb_spec (dlsym (dlopen path) "create_state") 0); [by apply close_opened|].
  destruct (Z.eqb_spec (dlsym (dlopen path) "get_task_lib_name") 0); [by apply close_opened|].
  simpl. change (dlopen path) with (lib_ (mkTaskLibInfo (dlopen path)
    (dlsym (dlopen path) "create_state") (dlsym (dlopen path) "get_task_lib_name"))) at 3.
  by apply libs_emplace_ok.
Qed.

Lemma search_lib_first dirs1 d dirs2 lib_name path w :
  Forall (λ d, lib_path d lib_name = None) dirs1 → lib_path d lib_name = Some path →
  search_lib (dirs1 ++ d :: dirs2) lib_name w = load_lib path w.
Proof.
  intros Hno Hyes. induction Hno as [|d0 dirs1 Hd Hrest IH]; simpl; [by rewrite Hyes|].
  by rewrite Hd.
Qed.

Lemma search_lib_none dirs lib_name w :
  Forall (λ d, lib_path d lib_name = None) dirs → search_lib dirs lib_name w = (false, w).
Proof. induction 1 as [|d dirs Hd Hrest IH]; simpl; [done|]. by rewrite Hd. Qed.

Lemma search_lib_ok dirs lib_name w : libs_ok w → libs_ok (search_lib dirs lib_name w).2.
Proof.
  intros Hw. induction dirs as [|d dirs IH]; simpl; [done|].
  destruct (lib_path d lib_name); [by apply load_lib_ok|done].
Qed.

End lib_lemmas.

(** Splitting *)
Section getlines.

Definition no_colon (s : string) : Prop := Forall (λ c, c ≠ ":"%char) (String.list_ascii_of_string s).

Lemma no_colon_cons c s : no_colon (String.String c s) ↔ c ≠ ":"%char ∧ no_colon s.
Proof. unfold no_colon. cbn [String.list_ascii_of_string]. apply List.Forall_cons_iff. Qed.

Lemma string_app_assoc (a b c : string) : a +:+ (b +:+ c) = (a +:+ b) +:+ c.
Proof. induction a as [|x a IH]; [done|]. exact (f_equal (String.String x) IH). Qed.

Lemma string_app_nil (a : string) : a +:+ "" = a.
Proof. induction a as [|x a IH]; [done|]. exact (f_equal (String.String x) IH). Qed.

Lemma getlines_segment acc s rest :
  no_colon s → getlines acc (s +:+ String.String ":"%char rest) = (acc +:+ s) :: getlines "" rest.
Proof.
  revert acc. induction s as [|c s IH]; intros acc Hs; simpl.
  { by rewrite string_app_nil. }
  apply no_colon_cons in Hs as [Hc Hs]. destruct (Ascii.eqb_spec c ":"%char); [done|].
  rewrite IH by done. by rewrite <- string_app_assoc.
Qed.

Lemma getlines_last acc s :
  no_colon s → acc +:+ s ≠ "" → getlines acc s = [acc +:+ s].
Proof.
  revert acc. induction s as [|c s IH]; intros acc Hs Hne; simpl.
  { rewrite string_app_nil in *. destruct (String.eqb_spec acc ""); [done|]. done. }
  apply no_colon_cons in Hs as [Hc Hs]. destruct (Ascii.eqb_spec c ":"%char); [done|].
  rewrite IH; [by rewrite <- string_app_assoc|done|by rewrite <- string_app_assoc].
Qed.

(** The search path variable that lists directories *)
Fixpoint join_dirs (dirs : list string) : string :=
  match dirs with
  | [] => ""
  | [d] => d
  | d :: dirs => d +:+ ":" +:+ join_dirs dirs
  end.

Lemma getlines_join dirs rest :
  dirs ≠ [] → Forall no_colon dirs →
  getlines "" (join_dirs dirs +:+ String.String ":"%char rest) = dirs ++ getlines "" rest.
Proof.
  induction dirs as [|d [|d' dirs] IH]; intros Hne Hd; [done| |].
  - inversion Hd. simpl. by rewrite getlines_segment.
  - inversion Hd; subst.
    change (join_dirs (d :: d' :: dirs)) with (d +:+ String.String ":"%char (join_dirs (d' :: dirs))).
    set (J := join_dirs (d' :: dirs)) in *. rewrite <- string_app_assoc.
    change (String.String ":"%char J +:+ String.String ":"%char rest) with
      (String.String ":"%char (J +:+ String.String ":"%char rest)).
    rewrite getlines_segment by done. simpl app. f_equal. by apply IH.
Qed.

Lemma getlines_join_end dirs :
  Forall no_colon dirs → (∀ d, list.last dirs = Some d → d ≠ "") →
  getlines "" (join_dirs dirs) = dirs.
Proof.
  induction dirs as [|d [|d' dirs] IH]; intros Hd Hl; [done| |].
  - inversion Hd. apply getlines_last; [done|]. by apply Hl.
  - inversion Hd; subst.
    change (join_dirs (d :: d' :: dirs)) with (d +:+ String.String ":"%char (join_dirs (d' :: dirs))).
    rewrite getlines_segment by done. simpl. f_equal. apply IH; [done|].
    intros e He. by apply Hl.
Qed.

End getlines.

(** The index *)
Section state_lemmas.
Context `{BitfieldOps} `{RawMemory} `{Dlfcn} `{ConstructOps}.

Lemma TaskStateExists_spec id w :
  registry_ok w → TaskStateExists id w = negb (GetTaskState id w =? 0).
Proof.
  intros [Hr _]. unfold TaskStateExists, GetTaskState.
  destruct (TaskRegistry.task_states_ _ !! _) as [a|] eqn:E; simpl.
  - apply Hr in E as [Hne _]. by rewrite (proj2 (Z.eqb_neq _ _) Hne).
  - done.
Qed.

Lemma GetTaskState_Some id w a :
  registry_ok w → GetTaskState id w = a → a ≠ 0 →
  ∃ s, Node.states w !! a = Some s ∧ UniqueId.key (TaskLib.id_ s) = UniqueId.key id.
Proof.
  intros [Hr _]. unfold GetTaskState.
  destruct (TaskRegistry.task_states_ _ !! _) as [b|] eqn:E; simpl; intros <-; [|done].
  intros _. by apply Hr in E as [_ ?].
Qed.

(** Adding the state at [a] under an id that has none. *)
Lemma registry_ok_add w w' a s id :
  registry_ok w → a ≠ 0 →
  TaskRegistry.task_states_ (Node.task_registry_ w) !! UniqueId.key id = None →
  Node.states w !! a = None →
  TaskRegistry.task_states_ (Node.task_registry_ w') =
    <[UniqueId.key id := a]> (TaskRegistry.task_states_ (Node.task_registry_ w)) →
  Node.states w' !! a = Some s → UniqueId.key (TaskLib.id_ s) = UniqueId.key id →
  (∀ b, b ≠ a → Node.states w' !! b = Node.states w !! b) →
  registry_ok w'.
Proof.
  intros [Hr Hinj] Ha Hid Hfree Hidx Hs Hk Hsame.
  assert (∀ k b, TaskRegistry.task_states_ (Node.task_registry_ w) !! k = Some b → b ≠ a) as Hne.
  { intros k b Hb ->. apply Hr in Hb as (_ & s' & Hs' & _). congruence. }
  unfold registry_ok. rewrite Hidx. split.
  - intros k b Hb. apply lookup_insert_Some in Hb as [[<- <-]|[? Hb]]; [eauto|].
    pose proof (Hne _ _ Hb). apply Hr in Hb as [? (s' & ? & ?)]. split; [done|].
    exists s'. by rewrite Hsame.
  - intros k k' b Hb Hb'.
    apply lookup_insert_Some in Hb as [[<- <-]|[? Hb]];
      apply lookup_insert_Some in Hb' as [[<- Hab]|[? Hb']]; try done.
    + by apply Hne in Hb'.
    + subst. by apply Hne in Hb.
    + by eapply Hinj.
Qed.

Lemma registry_ok_delete w w' a id :
  registry_ok w →
  TaskRegistry.task_states_ (Node.task_registry_ w) !! UniqueId.key id = Some a →
  TaskRegistry.task_states_ (Node.task_registry_ w') =
    delete (UniqueId.key id) (TaskRegistry.task_states_ (Node.task_registry_ w)) →
  Node.states w' = delete a (Node.states w) →
  registry_ok w'.
Proof.
  intros [Hr Hinj] Ha Hidx Hst. unfold registry_ok. rewrite Hidx, Hst. split.
  - intros k b [Hk Hb]%lookup_delete_Some. pose proof Hb as (? & s & Hs & ?)%Hr.
    split; [done|]. exists s. split; [|done]. rewrite lookup_delete_ne; [done|].
    intros <-. apply Hk. by eapply Hinj.
  - intros k k' b [_ Hb]%lookup_delete_Some [_ Hb']%lookup_delete_Some. by eapply Hinj.
Qed.

End state_lemmas.

(** The creation of a state, for the handler that uses it *)
Lemma create_task_state_ok `{BitfieldOps} `{RawMemory} `{Dlfcn} `{ConstructLaws}
    (lib_name name : string) (id : TaskStateId) (task : Z) (w : Node) info o p :
  registry_ok w → UniqueId.IsNull id = false →
  TaskRegistry.libs_ (Node.task_registry_ w) !! lib_name = Some info →
  GetTaskState id w = 0 →
  get_task task w = Ok o → body o = BCreateTaskState p →
  ∃ w' a s, CreateTaskState lib_name name id task w = Ok (true, w') ∧
    GetTaskState id w' = a ∧ a ≠ 0 ∧ Node.states w !! a = None ∧
    Node.states w' !! a = Some s ∧ TaskLib.id_ s = id ∧ TaskLib.name_ s = name ∧
    registry_ok w' ∧
    (∀ b, b ≠ a → Node.states w' !! b = Node.states w !! b) ∧
    (∀ id', UniqueId.equal id' id = false → GetTaskState id' w' = GetTaskState id' w) ∧
    let r := Node.task_registry_ w in
    Node.task_registry_ w' = TaskRegistry.set_task_states
      (<[UniqueId.key id := a]> (TaskRegistry.task_states_ r))
      (TaskRegistry.set_task_state_ids (emplace name id (TaskRegistry.task_state_ids_ r)) r).
Proof.
  intros Hr Hn Hlib Hid Ho Hp. pose proof (TaskStateExists_spec id w Hr) as Hex.
  assert (TaskRegistry.task_states_ (Node.task_registry_ w) !! UniqueId.key id = None) as Hnone.
  { unfold GetTaskState in Hid. destruct (_ !! UniqueId.key id) eqn:E; [|done].
    destruct Hr as [Hr _]. apply Hr in E as [? _]. by simpl in Hid. }
  rewrite Hid in Hex. simpl in Hex. unfold CreateTaskState. rewrite Hn, Hlib, Hex.
  unfold set_create_id. rewrite Ho. simpl. rewrite Hp. simpl. unfold create_state.
  rewrite get_put_task_eq. simpl.
  set (o' := set_body _ o). set (a := fresh_addr (Node.states w)).
  set (st := TaskLib.Init _ _ _). set (ctx := RunContext.make _ _).
  set (w1 := put_state a st (put_task task o' w)).
  assert (Node.states w1 !! a = Some st) as Hst by apply lookup_insert_eq.
  destruct (construct_total a task ctx w1) as [w2 Hc]; [|by eauto|].
  { simpl. rewrite lookup_insert_eq. eauto. }
  rewrite Hc. simpl. assert (a ≠ 0) as Ha by (pose proof (fresh_addr_pos (Node.states w)); lia).
  rewrite (proj2 (Z.eqb_neq _ _) Ha). unfold add_state, get_state.
  destruct (construct_self _ _ _ _ _ Hc) as [s2 Hs2]; [by eauto|]. rewrite Hs2. simpl.
  pose proof (construct_registry _ _ _ _ _ Hc) as Hreg. simpl in Hreg.
  set (s3 := TaskLib.set_name name (TaskLib.set_id id s2)). set (w3 := on_registry _ _).
  assert (TaskRegistry.task_states_ (Node.task_registry_ w3) =
    <[UniqueId.key id := a]> (TaskRegistry.task_states_ (Node.task_registry_ w))) as Hidx.
  { simpl. rewrite Hreg. unfold emplace. by rewrite Hnone. }
  assert (∀ b, b ≠ a → Node.states w3 !! b = Node.states w !! b) as Hsame.
  { intros b Hb. simpl. rewrite lookup_insert_ne by done.
    rewrite (construct_states _ _ _ _ _ _ Hc Hb). simpl. by rewrite lookup_insert_ne. }
  assert (Node.states w3 !! a = Some s3) as Hs3 by apply lookup_insert_eq.
  exists w3, a, s3. split; [done|]. split.
  { unfold GetTaskState. by rewrite Hidx, lookup_insert_eq. }
  split; [done|]. split; [apply fresh_addr_None|]. do 3 (split; [done|]).
  split. { eapply (registry_ok_add w w3 a s3 id); try done. apply fresh_addr_None. }
  split; [done|]. split.
  - intros id' Hne. unfold GetTaskState. rewrite Hidx, lookup_insert_ne; [done|].
    intros E. by apply eq_sym, UniqueId.equal_key in E as E'; rewrite E' in Hne.
  - simpl. rewrite Hreg. unfold emplace at 1. by rewrite Hnone.
Qed.

(** What a creation leaves alone, on every path *)
Definition node_kept (w w' : Node) : Prop :=
  Node.queue_map_ w' = Node.queue_map_ w ∧ Node.workers_ w' = Node.workers_ w ∧
  Node.node_id_ w' = Node.node_id_ w ∧ Node.unique_ w' = Node.unique_ w.

#[export] Instance node_kept_preorder : PreOrder node_kept.
Proof. split; unfold node_kept; [done|]. intros w1 w2 w3. naive_solver congruence. Qed.

Lemma upd_task_kept `{BitfieldOps} task f w w' : upd_task task f w = Ok w' → node_kept w w'.
Proof. unfold upd_task. intros. by invert_ok. Qed.

Lemma CreateTaskState_keeps `{BitfieldOps} `{RawMemory} `{Dlfcn} `{ConstructLaws}
    lib_name name id task w r w' :
  CreateTaskState lib_name name id task w = Ok (r, w') → node_kept w w'.
Proof.
  unfold CreateTaskState. destruct (UniqueId.IsNull id); [intros; invert_ok; by eapply upd_task_kept|].
  destruct (TaskRegistry.libs_ _ !! lib_name); [|intros; invert_ok; by eapply upd_task_kept].
  destruct (TaskStateExists id w); intros; invert_ok; [by eapply upd_task_kept|].
  rename select (set_create_id _ _ _ = _) into Hset. rename select (create_state _ _ _ _ = _) into Hcs.
  destruct x0 as [st w1].
  assert (node_kept w w1) as Hq.
  { unfold set_create_id in Hset. unfold create_state in Hcs. invert_ok.
    repeat match goal with Hb : context [match body ?y with _ => _ end] |- _ => destruct (body y) end;
      invert_ok.
    match goal with Hc : run_construct _ _ _ _ = Ok _ |- _ =>
      pose proof (construct_header _ _ _ _ _ Hc); pose proof (construct_workers _ _ _ _ _ Hc);
      apply construct_queues in Hc; simpl in Hc end.
    done. }
  destruct (st =? 0); invert_ok; [etransitivity; [done|by eapply upd_task_kept]|].
  rename select (add_state _ _ _ _ = _) into Ha. unfold add_state in Ha. invert_ok. done.
Qed.

(** ** Properties *)

(** C29: loading a task library. The directories are searched in order and the first that
    holds the library decides: when it loads and has both symbols the library is indexed
    by the name it reports (a name already indexed keeps its library), otherwise the
    search fails without trying the other directories. On every path each open handle is
    the one of an indexed library: none leaks and none is closed twice. *)
Theorem RegisterTaskLib_first `{Dlfcn} (lib_name : string) (w : Node) dirs1 d dirs2 path :
  libs_ok w →
  TaskRegistry.lib_dirs_ (Node.task_registry_ w) = dirs1 ++ d :: dirs2 →
  Forall (λ d, lib_path d lib_name = None) dirs1 → lib_path d lib_name = Some path →
  let lib := dlopen path in
  let loads := negb (lib =? 0) && negb (dlsym lib "create_state" =? 0)
               && negb (dlsym lib "get_task_lib_name" =? 0) in
  let info := mkTaskLibInfo lib (dlsym lib "create_state") (dlsym lib "get_task_lib_name") in
  let libs := TaskRegistry.libs_ (Node.task_registry_ w) in
  let '(ret, w') := RegisterTaskLib lib_name w in
  ret = loads ∧ libs_ok w' ∧
  TaskRegistry.libs_ (Node.task_registry_ w') =
    if loads then emplace (call_get_task_lib_name (get_task_lib_name info)) info libs else libs.
Proof.
  intros Hok Hdirs Hno Hyes. simpl. pose proof (search_lib_ok (TaskRegistry.lib_dirs_ (Node.task_registry_ w)) lib_name w Hok) as Hok'.
  unfold RegisterTaskLib. rewrite Hdirs in *. rewrite (search_lib_first _ _ _ _ _ _ Hno Hyes) in *.
  revert Hok'. unfold load_lib. destruct (Z.eqb_spec (dlopen path) 0); [done|].
  destruct (Z.eqb_spec (dlsym (dlopen path) "create_state") 0);
    [intros ?; split; [done|]; split; [done|]; by rewrite (proj1 (close_lib_same _ _))|].
  destruct (Z.eqb_spec (dlsym (dlopen path) "get_task_lib_name") 0);
    [intros ?; split; [done|]; split; [done|]; by rewrite (proj1 (close_lib_same _ _))|].
  intros Hok'. split; [done|]. split; [exact Hok'|]. unfold libs_emplace, emplace. simpl.
  destruct (TaskRegistry.libs_ _ !! _); [|done]. by rewrite !(proj1 (close_lib_same _ _)).
Qed.

(** The directories searched are those of [HERMES_RUN_TASK_PATH], in order, then those
    of [LD_LIBRARY_PATH]: splitting the two variables gives back the directories they
    list. *)
Theorem search_paths_roundtrip (dirs ld_dirs : list string) :
  dirs ≠ [] → Forall no_colon dirs → Forall no_colon ld_dirs →
  (∀ d, list.last ld_dirs = Some d → d ≠ "") →
  search_paths (Some (join_dirs dirs)) (Some (join_dirs ld_dirs)) = dirs ++ ld_dirs.
Proof.
  intros Hne Hd Hld Hlast. unfold search_paths.
  change (default "" (Some (join_dirs dirs)) +:+ ":" +:+ default "" (Some (join_dirs ld_dirs)))
    with (join_dirs dirs +:+ String.String ":"%char (join_dirs ld_dirs)).
  rewrite getlines_join by done. f_equal. by apply getlines_join_end.
Qed.

(** Naming a task state. The id of a name is assigned once: the call returns the id the
    name has, or a new one which it then keeps; other names are unaffected, and an id newly
    drawn is the id of no other name as long as the counter does not wrap around. *)
Theorem GetOrCreateTaskStateId_spec (name : string) (w : Node) :
  ids_below w → is_u64 (Node.unique_ w + 1) →
  let '(id, w') := GetOrCreateTaskStateId name w in
  GetTaskStateId name w' = id ∧ GetOrCreateTaskStateId name w' = (id, w') ∧ ids_below w' ∧
  (∀ name', name' ≠ name → GetTaskStateId name' w' = GetTaskStateId name' w) ∧
  (TaskRegistry.task_state_ids_ (Node.task_registry_ w) !! name = None →
   ∀ name' id', TaskRegistry.task_state_ids_ (Node.task_registry_ w) !! name' = Some id' →
     UniqueId.equal id id' = false).
Proof.
  intros Hb Hu. unfold GetOrCreateTaskStateId.
  destruct (TaskRegistry.task_state_ids_ (Node.task_registry_ w) !! name) as [id|] eqn:E.
  - rewrite E. unfold GetTaskStateId. by rewrite E.
  - simpl. unfold GetTaskStateId. simpl. unfold emplace. rewrite E, lookup_insert_eq.
    split; [done|]. split; [done|]. split; [|split].
    + intros name' id'. simpl. unfold emplace. rewrite E, wrap64_small by done. intros Hid Hn.
      apply lookup_insert_Some in Hid as [[<- <-]|[_ Hid]].
      { simpl. lia. }
      specialize (Hb _ _ Hid Hn). lia.
    + intros name' Hne. by rewrite lookup_insert_ne.
    + intros _ name' id' Hid. unfold UniqueId.equal. simpl.
      destruct (Z.eqb_spec (Node.unique_ w) (UniqueId.unique_ id')) as [Hun|]; [|done].
      destruct (Z.eqb_spec (TaskRegistry.node_id_ (Node.task_registry_ w)) (UniqueId.node_id_ id')) as [Hn|];
        [|done].
      specialize (Hb _ _ Hid (eq_sym Hn)). lia.
Qed.

(** C31: the rejections of [CreateTaskState], in the order they are tested: a null id, a
    library that is not loaded, an id that already has a state. The task is completed,
    nothing else changes, and only the last is reported as a success. *)
Theorem CreateTaskState_rejects `{BitfieldOps} `{RawMemory} `{Dlfcn} `{ConstructOps}
    (lib_name name : string) (id : TaskStateId) (task : Z) (w : Node) o :
  registry_ok w → get_task task w = Ok o →
  UniqueId.IsNull id = true ∨
  TaskRegistry.libs_ (Node.task_registry_ w) !! lib_name = None ∨ GetTaskState id w ≠ 0 →
  CreateTaskState lib_name name id task w =
    Ok (negb (UniqueId.IsNull id)
          && bool_decide (is_Some (TaskRegistry.libs_ (Node.task_registry_ w) !! lib_name)),
        put_task task (on_base Task.SetModuleComplete o) w).
Proof.
  intros Hr Ho Hcase. unfold CreateTaskState, upd_task. rewrite Ho. simpl.
  destruct (UniqueId.IsNull id) eqn:Hn; [done|].
  destruct (TaskRegistry.libs_ _ !! lib_name) as [info|] eqn:Hlib; [|done].
  rewrite TaskStateExists_spec by done.
  destruct Hcase as [|[|Hne]]; try done. by rewrite (proj2 (Z.eqb_neq _ _) Hne).
Qed.

(** C30: destroying a task state: the id has no state afterwards and the state is gone; all
    other ids keep theirs, and no index entry dangles. A second destruction does nothing. *)
Theorem DestroyTaskState_spec (id : TaskStateId) (w : Node) :
  registry_ok w →
  ∃ w', DestroyTaskState id w = Ok w' ∧ registry_ok w' ∧ GetTaskState id w' = 0 ∧
    (GetTaskState id w ≠ 0 → Node.states w' !! GetTaskState id w = None) ∧
    (∀ id', UniqueId.equal id' id = false → GetTaskState id' w' = GetTaskState id' w) ∧
    DestroyTaskState id w' = Ok w'.
Proof.
  intros Hr. unfold DestroyTaskState, GetTaskState.
  destruct (TaskRegistry.task_states_ (Node.task_registry_ w) !! UniqueId.key id) as [a|] eqn:E.
  - pose proof (proj1 Hr _ _ E) as (Ha & s & Hs & Hk). unfold get_state. rewrite Hs. simpl.
    eexists. split; [done|]. simpl. split; [by eapply registry_ok_delete|].
    rewrite lookup_delete_eq. split; [done|]. split; [intros _; apply lookup_delete_eq|]. split; [|done].
    intros id' Hne. rewrite lookup_delete_ne; [done|].
    intros E'. by apply eq_sym, UniqueId.equal_key in E'; rewrite E' in Hne.
  - exists w. rewrite E. by split_and!.
Qed.

(** ** A reference loader and constructor, and the witnesses *)
Definition ref_dlfcn : Dlfcn := {|
  stdfs_exists path := String.eqb path "b/libx.so";
  dlopen _ := 5;
  dlsym _ s := if String.eqb s "create_state" then 6 else 7;
  call_get_task_lib_name _ := "x";
  call_trait_new _ := SmallMessageServer 0;
|}.

Definition ref_construct `{BitfieldOps} : ConstructOps := {|
  run_construct _ task _ w := upd_task task Task.SetModuleComplete w;
|}.

Lemma ref_construct_laws `{BitfieldOps} : @ConstructLaws ref_construct.
Proof.
  split; simpl; unfold upd_task; intros; invert_ok; try done.
  unfold get_task. destruct (Node.heap w !! task); [|by destruct H0]. by eexists.
Qed.

Section witness.
Import RefInstances.
#[local] Existing Instance ref_raw.
#[local] Existing Instance ref_dlfcn.
#[local] Existing Instance ref_construct.
#[local] Existing Instance ref_construct_laws.

(** A node with the directories a and b, one library, one state and a task *)
Definition wit_dirs : Node :=
  Node.set_task_registry (TaskRegistry.mkTaskRegistry 1 ["a"; "b"] ∅ ∅ ∅) ref_node.
Definition wit_id : TaskStateId := UniqueId.make 1 8.
Definition wit_create : TaskObj :=
  mkTaskObj ref_task (BCreateTaskState (CreateTaskState.mk "x" "state" [] wit_id)).
Definition wit_state : TaskState :=
  TaskLib.mkTaskLib (UniqueId.make 1 7) (UniqueId.make 1 7) "old" (SmallMessageServer 0).
Definition wit_loaded : Node :=
  put_task 3 wit_create (put_state 9 wit_state
    (Node.set_task_registry (TaskRegistry.mkTaskRegistry 1 []
      {["x" := mkTaskLibInfo 5 6 7]} {["old" := UniqueId.make 1 7]}
      {[UniqueId.key (UniqueId.make 1 7) := 9]}) ref_node)).

Lemma wit_registry_ok : registry_ok wit_loaded.
Proof.
  split; unfold wit_loaded; simpl.
  - intros k a [<- <-]%lookup_singleton_Some. split; [done|]. exists wit_state. by vm_compute.
  - by intros k k' a [<- <-]%lookup_singleton_Some [<- _]%lookup_singleton_Some.
Qed.

Lemma RegisterTaskLib_first_witness :
  let '(ret, w') := RegisterTaskLib "x" wit_dirs in
  ret = true ∧ libs_ok w' ∧
  TaskRegistry.libs_ (Node.task_registry_ w') = emplace "x" (mkTaskLibInfo 5 6 7) ∅.
Proof.
  pose proof (RegisterTaskLib_first "x" wit_dirs ["a"] "b" [] "b/libx.so") as Hw.
  destruct (RegisterTaskLib "x" wit_dirs) as [ret w'].
  apply Hw; [by vm_compute|done|by repeat constructor|by vm_compute].
Defined.

Lemma search_paths_roundtrip_witness :
  search_paths (Some (join_dirs ["/opt/tasks"; ""])) (Some (join_dirs ["/lib"; "/usr/lib"])) =
    ["/opt/tasks"; ""; "/lib"; "/usr/lib"].
Proof.
  apply (search_paths_roundtrip ["/opt/tasks"; ""] ["/lib"; "/usr/lib"]);
    [done|repeat constructor; done|repeat constructor; done|].
  by intros d [= <-].
Defined.

Lemma GetOrCreateTaskStateId_spec_witness :
  let '(id, w') := GetOrCreateTaskStateId "new" (Node.set_unique 100 wit_loaded) in
  GetTaskStateId "new" w' = id ∧ ids_below w'.
Proof.
  pose proof (GetOrCreateTaskStateId_spec "new" (Node.set_unique 100 wit_loaded)) as Hw.
  destruct Hw as (Hg & _ & Hb & _); [|by vm_compute|by split].
  intros name id Hl _. change (({["old" := UniqueId.make 1 7]} : gmap string TaskStateId) !! name = Some id) in Hl.
  apply lookup_singleton_Some in Hl as [<- <-]. by vm_compute.
Defined.

Lemma CreateTaskState_rejects_witness :
  CreateTaskState "missing" "state" wit_id 3 wit_loaded =
    Ok (false, put_task 3 (on_base Task.SetModuleComplete wit_create) wit_loaded).
Proof.
  rewrite (CreateTaskState_rejects "missing" "state" wit_id 3 wit_loaded wit_create wit_registry_ok);
    [done|by vm_compute|by right; left].
Defined.

Lemma DestroyTaskState_spec_witness :
  ∃ w', DestroyTaskState (UniqueId.make 1 7) wit_loaded = Ok w' ∧ registry_ok w' ∧
    Node.states w' !! 9 = None.
Proof.
  destruct (DestroyTaskState_spec (UniqueId.make 1 7) wit_loaded wit_registry_ok)
    as (w' & Hd & Hok & _ & Hgone & _).
  exists w'. split; [exact Hd|]. split; [exact Hok|]. apply Hgone. by vm_compute.
Defined.

End witness.
