(* ===== verification/Rpc.v ===== *)
(** * Hosts ([include/hermes_run/network/rpc.h], [Runtime::ResolveDomainId])

    The hosts of the configuration are numbered from 1 in order; a domain resolves to
    the node domains of the hosts it covers. Name resolution and the interfaces of the
    machine are parameters. *)

From stdpp Require Import pretty.
From S2P Require Import Prelude Hshm RefLib Types Config Queue QueueManager Archive Task.
From S2P Require Import TaskTypes World.

(** [gethostbyname] yields the IPv4 addresses of a name, printed; [None] is an error.
    [getifaddrs] yields the interfaces, each with its printed address when it has one of
    the family [AF_INET]; [None] is an error. *)
Class NetOps := {
  gethostbyname : string → option (list string);
  getifaddrs : option (list (option string));
}.

Module RpcContext.

Record RpcContext := mk {
  rpc_config_ : RpcInfo;
  port_ : Z;
  protocol_ : string;
  domain_ : string;
  node_id_ : Z;
  num_threads_ : Z;
  hosts_ : list HostInfo;
}.

Section rpc.
Context `{BitfieldOps} `{NetOps} `{Logger}.

Definition GetNumHosts (r : RpcContext) : Z := Z.of_nat (length (hosts_ r)).

(** [_IsAddressLocal(addr)] *)
Definition IsAddressLocal (addr : string) : bool :=
  match getifaddrs with
  | None => false
  | Some ifs => existsb (λ i, match i with Some a => String.eqb addr a | None => false end) ifs
  end.

(** [_GetIpAddress(host_name)]: after an error that does not end the process, a null
    pointer is read. *)
Definition GetIpAddress (host_name : string) : outcome string :=
  match gethostbyname host_name with
  | Some (a :: _) => Ok a
  | _ => HELOG_kFatal Undefined
  end.

(** The loop of [_FindThisHost] *)
Fixpoint find_host (hosts : list HostInfo) (node_id : Z) : outcome Z :=
  match hosts with
  | [] => HELOG_kFatal (Ok (-1))
  | host :: hosts =>
      if IsAddressLocal (ip_addr_ host) then Ok node_id else find_host hosts (node_id + 1)
  end.

Definition FindThisHost (hosts : list HostInfo) : outcome Z := find_host hosts 1.

(** The loop of [ServerInit] that numbers the hosts *)
Fixpoint make_hosts (names : list string) (node_id : Z) : outcome (list HostInfo) :=
  match names with
  | [] => Ok []
  | name :: names =>
      ip ← GetIpAddress name;
      rest ← make_hosts names (wrap32 (node_id + 1));
      Ok (mkHostInfo name ip node_id :: rest)
  end.

(** [ServerInit]: a context that already has hosts keeps them, and its node id. *)
Definition ServerInit (config : ServerConfig) (this : RpcContext) : outcome RpcContext :=
  let rpc := ServerConfig.rpc_ config in
  let this := mk rpc (RpcInfo.port_ rpc) (RpcInfo.protocol_ rpc) (RpcInfo.domain_ rpc)
                (node_id_ this) (RpcInfo.num_threads_ rpc) (hosts_ this) in
  match hosts_ this with
  | _ :: _ => Ok this
  | [] =>
      hosts ← make_hosts (RpcInfo.host_names_ rpc) 1;
      id ← FindThisHost hosts;
      let node_id := wrap32 id in
      let this := mk rpc (port_ this) (protocol_ this) (domain_ this) node_id
                    (num_threads_ this) hosts in
      if (node_id =? 0) || (Z.of_nat (length hosts) <? node_id) then HELOG_kFatal (Ok this)
      else Ok this
  end.

(** The host of a node id: out of range is a fatal error, then an index out of range. *)
Definition host_at (node_id : Z) (hosts : list HostInfo) : outcome HostInfo :=
  let get := deref (at_index hosts (wrap32 (node_id - 1))) in
  if (node_id <=? 0) || (Z.of_nat (length hosts) <? node_id) then HELOG_kFatal get else get.

Definition GetHostNameFromNodeId (domain_id : DomainId) (r : RpcContext) : outcome string :=
  hostname_ <$> host_at (DomainId.id_ domain_id) (hosts_ r).

Definition GetIpAddressFromNodeId (domain_id : DomainId) (r : RpcContext) : outcome string :=
  ip_addr_ <$> host_at (DomainId.id_ domain_id) (hosts_ r).

Definition GetRpcAddress (domain_id : DomainId) (port : Z) (r : RpcContext) : outcome string :=
  let result := RpcInfo.protocol_ (rpc_config_ r) +:+ "://" in
  let result := if String.eqb (RpcInfo.domain_ (rpc_config_ r)) "" then result
                else result +:+ RpcInfo.domain_ (rpc_config_ r) +:+ "/" in
  host_name ← GetHostNameFromNodeId domain_id r;
  Ok (result +:+ host_name +:+ ":" +:+ pretty port).

Definition GetMyRpcAddress (r : RpcContext) : outcome string :=
  GetRpcAddress (DomainId.GetNode (node_id_ r)) (port_ r) r.

Definition GetProtocol (r : RpcContext) : string := RpcInfo.protocol_ (rpc_config_ r).

End rpc.
End RpcContext.
Abbreviation RpcContext := RpcContext.RpcContext.

(** ** [class ThalliumRpc] ([network/rpc_thallium.h])

    What the [thallium] library does with a remote procedure call is a parameter: given the
    server's name, the procedure and its arguments, the response, and the node when the call
    returns, for other threads run meanwhile. A failed call throws. The second call exposes a
    buffer, which the server may write. *)
Class ThalliumOps := {
  remote_proc : string → string → TaskStateId → Z → list Z → Node → outcome (list Z * Node);
  remote_io_proc : string → string → IoType → list Z → TaskStateId → Z → list Z → Node →
    outcome (list Z * list Z * Node);
}.

Module ThalliumRpc.
Section thallium.
Context `{BitfieldOps} `{NetOps} `{Logger} `{ThalliumOps}.

Definition GetServerName (rpc : RpcContext) (node_id : Z) : outcome string :=
  ip_address ← RpcContext.GetIpAddressFromNodeId (DomainId.GetNode node_id) rpc;
  Ok (RpcContext.protocol_ rpc +:+ "://" +:+ ip_address +:+ ":" +:+ pretty (RpcContext.port_ rpc)).

(** [catch (tl::margo_exception &err) { HELOG(kFatal, ...); exit(1); }] *)
Definition catch_margo {A} (r : outcome A) : outcome A :=
  match r with Throw _ => Exit | r => r end.

(** [SyncCall<std::string>]: [Call] with the arguments of the small push *)
Definition SyncCall (rpc : RpcContext) (node_id : Z) (func_name : string)
    (state_id : TaskStateId) (method : Z) (params : list Z) (w : Node) : outcome (list Z * Node) :=
  server_name ← GetServerName rpc node_id;
  catch_margo (remote_proc server_name func_name state_id method params w).

(** [SyncIoCall<std::string>]: [IoCall]; the mode [kNone] ends the process. *)
Definition SyncIoCall (rpc : RpcContext) (node_id : Z) (func_name : string) (io_type : IoType)
    (data : list Z) (state_id : TaskStateId) (method : Z) (params : list Z) (w : Node)
    : outcome (list Z * list Z * Node) :=
  server_name ← GetServerName rpc node_id;
  match io_type with
  | kNone => Exit
  | _ => catch_margo (remote_io_proc server_name func_name io_type data state_id method params w)
  end.

End thallium.
End ThalliumRpc.

(** [Runtime::ResolveDomainId] *)
Definition ResolveDomainId `{BitfieldOps} (domain_id : DomainId) (hosts : list HostInfo)
    : list DomainId :=
  if DomainId.IsGlobal domain_id then (λ h, DomainId.GetNode (host_node_id_ h)) <$> hosts
  else if DomainId.IsNode domain_id then [domain_id]
  else [].

(** ** Invariant: the [i]-th host has id [i + 1]. *)
Definition hosts_ok (hosts : list HostInfo) : Prop :=
  Z.of_nat (length hosts) < 2 ^ 32 ∧
  ∀ i h, hosts !! i = Some h → host_node_id_ h = Z.of_nat i + 1.

(** ** Lemmas *)

Section lemmas.
Context `{NetOps} `{Logger}.
Import RpcContext.

Lemma make_hosts_spec names k hosts :
  0 ≤ k → k + Z.of_nat (length names) < 2 ^ 32 → make_hosts names k = Ok hosts →
  length hosts = length names ∧
  ∀ i h, hosts !! i = Some h →
    host_node_id_ h = k + Z.of_nat i ∧ names !! i = Some (hostname_ h) ∧
    GetIpAddress (hostname_ h) = Ok (ip_addr_ h).
Proof.
  revert k hosts. induction names as [|n names IH]; intros k hosts Hk Hlen; simpl.
  { intros [= <-]. split; [done|]. by intros []. }
  intros. invert_ok. simpl length in Hlen.
  rewrite wrap32_small in Hx0 by (unfold is_u32; lia).
  apply IH in Hx0 as [Hl Hi]; [|lia|lia]. split; [simpl; lia|].
  intros [|i] h; simpl.
  - intros [= <-]. simpl. split; [lia|]. auto.
  - intros (?&?&?)%Hi. split; [lia|]. auto.
Qed.

Lemma make_hosts_total names k :
  Forall (λ n, is_Some (gethostbyname n ≫= head)) names → ∃ hosts, make_hosts names k = Ok hosts.
Proof.
  intros Hn. revert k. induction Hn as [|n names [a Ha] _ IH]; intros k; simpl; [by eauto|].
  unfold GetIpAddress. destruct (gethostbyname n) as [[|a' l]|]; [done| |done]. simpl.
  destruct (IH (wrap32 (k + 1))) as [hosts ->]. simpl. eauto.
Qed.

Lemma find_host_spec hosts k :
  Exists (λ h, IsAddressLocal (ip_addr_ h) = true) hosts →
  ∃ id, find_host hosts k = Ok id ∧
  ∃ i h, id = k + Z.of_nat i ∧ hosts !! i = Some h ∧ IsAddressLocal (ip_addr_ h) = true ∧
    ∀ j h', (j < i)%nat → hosts !! j = Some h' → IsAddressLocal (ip_addr_ h') = false.
Proof.
  revert k. induction hosts as [|h hosts IH]; intros k Hex; simpl; [by inversion Hex|].
  destruct (IsAddressLocal (ip_addr_ h)) eqn:E.
  - exists k. split; [done|]. exists 0%nat, h. split; [lia|]. split; [done|].
    split; [done|]. intros; lia.
  - inversion Hex as [? ? Hl|? ? Hex']; subst; [congruence|].
    destruct (IH (k + 1) Hex') as (id & -> & i & h' & -> & Hi & Hloc & Hbefore).
    eexists. split; [done|]. exists (S i), h'. split; [lia|]. split; [done|]. split; [done|].
    intros [|j] h'' Hj; simpl; [by intros [= <-]|]. apply Hbefore. lia.
Qed.

Lemma host_at_ok hosts i h :
  hosts_ok hosts → hosts !! i = Some h → host_at (Z.of_nat i + 1) hosts = Ok h.
Proof.
  intros [Hlen Hok] Hi. pose proof (lookup_lt_Some _ _ _ Hi). unfold host_at.
  rewrite wrap32_small by (unfold is_u32; lia).
  replace (Z.of_nat i + 1 - 1) with (Z.of_nat i) by lia.
  rewrite at_index_lookup, Nat2Z.id, Hi by lia.
  destruct (Z.leb_spec (Z.of_nat i + 1) 0); [lia|].
  by destruct (Z.ltb_spec (Z.of_nat (length hosts)) (Z.of_nat i + 1)); [lia|].
Qed.

End lemmas.

Lemma hosts_ok_NoDup hosts : hosts_ok hosts → NoDup (host_node_id_ <$> hosts).
Proof.
  intros [_ Hok]. apply NoDup_alt. intros i j x Hi Hj.
  apply list_lookup_fmap_Some in Hi as (h & -> & Hi).
  apply list_lookup_fmap_Some in Hj as (h' & E & Hj).
  apply Hok in Hi. apply Hok in Hj. lia.
Qed.

(** ** Properties *)

(** C34: initialising the hosts. When every configured name resolves and one of the
    addresses is local, it completes: the hosts are those of the configuration in order,
    numbered from 1; this node is the first host with a local address; and the name of
    node [i] is looked up as the [i]-th name. *)
Theorem hosts_ServerInit `{BitfieldOps} `{NetOps} `{Logger}
    (config : ServerConfig) (this : RpcContext) :
  let names := RpcInfo.host_names_ (ServerConfig.rpc_ config) in
  RpcContext.hosts_ this = [] → Z.of_nat (length names) + 1 < 2 ^ 32 →
  Forall (λ n, is_Some (gethostbyname n ≫= head)) names →
  Exists (λ n, ∃ a, gethostbyname n ≫= head = Some a ∧ RpcContext.IsAddressLocal a = true) names →
  ∃ r, RpcContext.ServerInit config this = Ok r ∧
  hosts_ok (RpcContext.hosts_ r) ∧ length (RpcContext.hosts_ r) = length names ∧
  (∀ i name, names !! i = Some name →
    RpcContext.GetHostNameFromNodeId (DomainId.GetNode (Z.of_nat i + 1)) r = Ok name) ∧
  (∃ i h, RpcContext.node_id_ r = Z.of_nat i + 1 ∧ RpcContext.hosts_ r !! i = Some h ∧
    RpcContext.IsAddressLocal (ip_addr_ h) = true ∧
    ∀ j h', (j < i)%nat → RpcContext.hosts_ r !! j = Some h' →
      RpcContext.IsAddressLocal (ip_addr_ h') = false).
Proof.
  intros names Hnone Hlen Hres Hloc. unfold RpcContext.ServerInit. simpl. rewrite Hnone. fold names.
  destruct (make_hosts_total names 1 Hres) as [hosts Hmake]. rewrite Hmake. simpl.
  apply make_hosts_spec in Hmake as [Hl Hi]; [|lia|lia].
  assert (hosts_ok hosts) as Hok.
  { split; [lia|]. intros i h (? & _)%Hi. lia. }
  destruct (find_host_spec hosts 1) as (id & Hf & i & h & -> & Hh & Hlc & Hbefore).
  { apply list.Exists_exists in Hloc as (n & (j & Hin)%list_elem_of_lookup & a & Ha & Hal).
    destruct (lookup_lt_is_Some_2 hosts j) as [h Hh]; [rewrite Hl; by eapply lookup_lt_Some|].
    apply list.Exists_exists. exists h. split; [by eapply list_elem_of_lookup_2|].
    apply Hi in Hh as (_ & Hn & Hip). assert (hostname_ h = n) as E by congruence. rewrite E in Hip.
    unfold RpcContext.GetIpAddress in Hip. destruct (gethostbyname n) as [[|b l]|]; simplify_eq/=. done. }
  unfold RpcContext.FindThisHost. rewrite Hf. simpl.
  pose proof (lookup_lt_Some _ _ _ Hh). rewrite wrap32_small by (unfold is_u32; lia).
  destruct (Z.eqb_spec (1 + Z.of_nat i) 0); [lia|].
  destruct (Z.ltb_spec (Z.of_nat (length hosts)) (1 + Z.of_nat i)); [lia|]. simpl.
  eexists. split; [done|]. simpl. split; [done|]. split; [done|]. split.
  - intros j name Hj. destruct (lookup_lt_is_Some_2 hosts j) as [h' Hh'].
    { rewrite Hl. by eapply lookup_lt_Some. }
    unfold RpcContext.GetHostNameFromNodeId. simpl. erewrite host_at_ok by done. simpl.
    apply Hi in Hh' as (_ & Hn & _). congruence.
  - exists i, h. split; [lia|]. eauto.
Qed.

(** Where a task of a domain runs. The global domain resolves to one node domain per
    host, all different, of which exactly the one of this node is not remote; a node
    domain resolves to itself; the local domain to no node. *)
Theorem ResolveDomainId_spec `{BitfieldLaws} (hosts : list HostInfo) this_node n :
  hosts_ok hosts → length hosts ≠ 1%nat →
  let ids := ResolveDomainId DomainId.GetGlobal hosts in
  length ids = length hosts ∧ NoDup ids ∧
  (∀ id, id ∈ ids →
    DomainId.IsRemote id (Z.of_nat (length hosts)) this_node = negb (DomainId.GetId id =? this_node)) ∧
  (∀ k, 1 ≤ k ≤ Z.of_nat (length hosts) → DomainId.GetNode k ∈ ids) ∧
  ResolveDomainId (DomainId.GetNode n) hosts = [DomainId.GetNode n] ∧
  ResolveDomainId DomainId.GetLocal hosts = [].
Proof.
  intros Hok Hlen. unfold ResolveDomainId.
  assert (DomainId.IsGlobal DomainId.GetGlobal = true) as ->.
  { unfold_domain. rewrite bitfield_new_spec. by flags. }
  split; [apply length_fmap|]. split_and!.
  - pose proof (hosts_ok_NoDup _ Hok) as Hnd.
    replace ((λ h, DomainId.GetNode (host_node_id_ h)) <$> hosts)
      with (DomainId.GetNode <$> (host_node_id_ <$> hosts)) by (by rewrite <- list_fmap_compose).
    apply NoDup_fmap_2; [|done]. intros a b [=]. done.
  - intros id (h & -> & Hh)%list_elem_of_fmap. unfold_domain.
    rewrite (proj2 (Z.eqb_neq _ _)), bitfield_new_spec by lia. unfold DomainId.GetId. simpl. flags.
    done.
  - intros k Hk. destruct (lookup_lt_is_Some_2 hosts (Z.to_nat (k - 1))) as [h Hh]; [lia|].
    apply list_elem_of_fmap. exists h. split; [|by eapply list_elem_of_lookup_2].
    rewrite (proj2 Hok _ _ Hh). f_equal. lia.
  - assert (DomainId.IsGlobal (DomainId.GetNode n) = false) as ->;
      [|assert (DomainId.IsNode (DomainId.GetNode n) = true) as ->; [|done]];
      unfold_domain; rewrite bitfield_new_spec; by flags.
  - assert (DomainId.IsGlobal DomainId.GetLocal = false) as ->;
      [|assert (DomainId.IsNode DomainId.GetLocal = false) as ->; [|done]];
      unfold_domain; rewrite bitfield_new_spec; by flags.
Qed.

(** ** Witnesses: three hosts, of which the second is this one *)
Definition ref_net : NetOps := {|
  gethostbyname name := Some ["10.0.0." +:+ name];
  getifaddrs := Some [None; Some "10.0.0.2"];
|}.

Section witness.
Import RefInstances.
#[local] Existing Instance ref_net.

Definition wit_rpc_config : ServerConfig :=
  ServerConfig.mk 4 (QueueManagerInfo.mk 16 2 4 "" "" 0)
    (RpcInfo.mk "" ["1"; "2"; "3"] "tcp" "" 8080 4) [].
Definition wit_rpc : RpcContext :=
  RpcContext.mk (ServerConfig.rpc_ wit_rpc_config) 0 "" "" 0 0 [].
Definition wit_hosts : list HostInfo :=
  [mkHostInfo "1" "10.0.0.1" 1; mkHostInfo "2" "10.0.0.2" 2; mkHostInfo "3" "10.0.0.3" 3].

Lemma hosts_ServerInit_witness :
  ∃ r, RpcContext.ServerInit wit_rpc_config wit_rpc = Ok r ∧
    hosts_ok (RpcContext.hosts_ r) ∧ length (RpcContext.hosts_ r) = 3%nat.
Proof.
  destruct (hosts_ServerInit wit_rpc_config wit_rpc) as (r & He & Hok & Hl & _);
    [done|by vm_compute|by repeat constructor; eexists| |].
  - apply Exists_cons_tl, Exists_cons_hd. exists "10.0.0.2". by vm_compute.
  - exists r. split; [exact He|]. split; [exact Hok|exact Hl].
Defined.

Lemma ResolveDomainId_spec_witness :
  length (ResolveDomainId DomainId.GetGlobal wit_hosts) = 3%nat ∧
  NoDup (ResolveDomainId DomainId.GetGlobal wit_hosts).
Proof.
  assert (hosts_ok wit_hosts) as Hok
    by (split; [done|]; intros [|[|[|i]]] h [= <-]; done).
  destruct (ResolveDomainId_spec wit_hosts 2 1 Hok ltac:(done)) as (Hl & Hn & _).
  split; [exact Hl|exact Hn].
Defined.

End witness.
