(* ===== verification/Thallium.v ===== *)
(** * The RPC server and the daemon ([include/hermes_run/network/rpc_thallium.h])

    Starting the engines of the [thallium] library, registering procedures, running and
    stopping the daemons of the hosts, the calls that do not wait for their response, and the transfer of a bulk buffer
    on the server's side. The synchronous calls of the client's side are in [Rpc]. What the
    library does is a parameter: a call that throws yields [None]. *)

From stdpp Require Import pretty.
From S2P Require Import Prelude Hshm RefLib Types Config Queue QueueManager Archive Task.
From S2P Require Import TaskTypes World Rpc.

Class TlEngineOps := {
  (** [tl::engine(addr, THALLIUM_SERVER_MODE, true, threads)] and
      [tl::engine(protocol, THALLIUM_CLIENT_MODE, true, 1)]: the engine's handle *)
  tl_server : string → Z → option Z;
  tl_client : string → option Z;
  (** [lookup] of a server and [shutdown_remote_engine] of it, by the client engine *)
  tl_shutdown : Z → string → bool;
  (** [bulk.on(endpoint) << local_bulk] and [>>]: the bytes transferred, and for [>>] what
      the local buffer then holds *)
  tl_push : Z → list Z → option Z;
  tl_pull : Z → list Z → option (Z * list Z);
  (** [wait_for_finalize()] of the server engine: the node when it returns, for the other
      threads run meanwhile *)
  tl_wait_for_finalize : Z → Node → outcome Node;
}.

(** Calls that do not wait: [async(args...)] yields the handle of a response, the buffer of
    the second being given by its address. [received()] and [wait()] of a response are asked
    for its handle. *)
Class TlAsyncOps := {
  tl_async : string → string → TaskStateId → Z → list Z → Node → outcome (Z * Node);
  tl_async_io : string → string → IoType → Z → Z → TaskStateId → Z → list Z → Node →
    outcome (Z * Node);
  tl_received : Z → Node → bool;
  tl_wait : Z → Node → outcome (list Z * Node);
}.

(** [class ThalliumRpc]: the two engines and the context *)
Record ThalliumState := mkThallium {
  server_engine_ : Z;
  client_engine_ : Z;
  tl_rpc_ : RpcContext;
}.

Section thallium.
Context `{BitfieldOps} `{NetOps} `{Logger} `{TlEngineOps}.

(** [ClientInit]: an exception of the engine leaves the function. The host name is looked
    up for the log. *)
Definition ClientInit (server_engine : Z) (rpc : RpcContext) : outcome ThalliumState :=
  match tl_client (RpcContext.GetProtocol rpc) with
  | None => Throw "tl::engine"
  | Some e =>
      _ ← RpcContext.GetHostNameFromNodeId (DomainId.GetNode (RpcContext.node_id_ rpc)) rpc;
      Ok (mkThallium server_engine e rpc)
  end.

(** [ServerInit]: when the engine could not be made and the fatal entry does not end the
    process, the null engine is asked for its address. *)
Definition ThalliumServerInit (rpc : RpcContext) : outcome ThalliumState :=
  addr ← RpcContext.GetMyRpcAddress rpc;
  match tl_server addr (RpcContext.num_threads_ rpc) with
  | None => HELOG_kFatal Undefined
  | Some e => ClientInit e rpc
  end.

(** [StopDaemon(node_id)]: the server is looked up and sent the signal, which is the only effect; a
    call that throws is a fatal log entry. *)
Definition StopDaemon (this : ThalliumState) (node_id : Z) (w : Node) : outcome Node :=
  server_name ← ThalliumRpc.GetServerName (tl_rpc_ this) node_id;
  if tl_shutdown (client_engine_ this) server_name then
    Ok (Node.set_signals (Node.signals_ w ++ [server_name]) w)
  else HELOG_kFatal (Ok w).

Definition StopThisDaemon (this : ThalliumState) (w : Node) : outcome Node :=
  StopDaemon this (RpcContext.node_id_ (tl_rpc_ this)) w.

(** The loop of [StopAllDaemons] over the node ids from [node_id] on *)
Fixpoint stop_daemons (this : ThalliumState) (node_id : Z) (n : nat) (w : Node) : outcome Node :=
  match n with
  | O => Ok w
  | S n => w ← StopDaemon this node_id w; stop_daemons this (wrap32 (node_id + 1)) n w
  end.

Definition StopAllDaemons (this : ThalliumState) (w : Node) : outcome Node :=
  stop_daemons this 1 (length (RpcContext.hosts_ (tl_rpc_ this))) w.

(** [RunDaemon]: the shutdown of the engine by other nodes is enabled, and its end waited for;
    the callback only writes to the log. *)
Definition RunDaemon (this : ThalliumState) (w : Node) : outcome Node :=
  tl_wait_for_finalize (server_engine_ this) w.

(** The last lines of [IoCallServer]: the bytes transferred must be those asked for. *)
Definition check_bytes (io_bytes size : Z) (data : list Z) : outcome (Z * list Z) :=
  if negb (io_bytes =? size) then HELOG_kFatal (Ok (io_bytes, data)) else Ok (io_bytes, data).

(** [IoCallServer(req, bulk, type, data, size)]: the buffer [data] is read by a read and
    written by a write; a transfer that throws moves no byte. *)
Definition IoCallServer (bulk : Z) (type : IoType) (data : list Z) (size : Z)
    : outcome (Z * list Z) :=
  match type with
  | kRead =>
      match tl_push bulk data with
      | Some n => check_bytes n size data
      | None => HELOG_kFatal (check_bytes 0 size data)
      end
  | kWrite =>
      match tl_pull bulk data with
      | Some (n, data) => check_bytes n size data
      | None => HELOG_kFatal (check_bytes 0 size data)
      end
  | kNone => HELOG_kFatal (HELOG_kFatal (check_bytes 0 size data))
  end.

End thallium.

Section async.
Context `{BitfieldOps} `{NetOps} `{Logger} `{TlAsyncOps}.

(** [AsyncCall]: [Call] without the wait *)
Definition AsyncCall (rpc : RpcContext) (node_id : Z) (func_name : string)
    (state_id : TaskStateId) (method : Z) (params : list Z) (w : Node) : outcome (Z * Node) :=
  server_name ← ThalliumRpc.GetServerName rpc node_id;
  ThalliumRpc.catch_margo (tl_async server_name func_name state_id method params w).

(** [AsyncIoCall]: [IoCall] without the wait *)
Definition AsyncIoCall (rpc : RpcContext) (node_id : Z) (func_name : string) (io_type : IoType)
    (data size : Z) (state_id : TaskStateId) (method : Z) (params : list Z) (w : Node)
    : outcome (Z * Node) :=
  server_name ← ThalliumRpc.GetServerName rpc node_id;
  match io_type with
  | kNone => Exit
  | _ => ThalliumRpc.catch_margo
           (tl_async_io server_name func_name io_type data size state_id method params w)
  end.

Definition IsDone (req : Z) (w : Node) : bool := tl_received req w.

(** [Wait<RetT>(req)]; the exception of a failed call is not caught here. *)
Definition Wait (req : Z) (w : Node) : outcome (list Z * Node) := tl_wait req w.

End async.

(** [SERIALIZE_ENUM(IoType)]: an [IoType] travels as an [int]. *)
Definition IoType_save (mode : IoType) : Z :=
  match mode with kRead => 0 | kWrite => 1 | kNone => 2 end.

(** [static_cast<IoType>(cast)]: [None] for a value without a name *)
Definition IoType_load (cast : Z) : option IoType :=
  if cast =? 0 then Some kRead
  else if cast =? 1 then Some kWrite
  else if cast =? 2 then Some kNone
  else None.

Lemma IoType_save_load mode : IoType_load (IoType_save mode) = Some mode.
Proof. by destruct mode. Qed.

(** ** Procedures

    [RegisterRpc(name, lambda)]: [define] of the server engine. *)
Definition RegisterRpc (name : string) (lambda : RpcLambda) (w : Node) : Node :=
  Node.set_rpcs (Node.rpcs_ w ++ [(name, lambda)]) w.

(** What a call by name reaches. The definitions of one name differ only in the object they
    were made on, which no procedure reads. *)
Definition rpc_of (name : string) (w : Node) : option RpcLambda :=
  snd <$> find (λ d, String.eqb name d.1) (Node.rpcs_ w).

Lemma rpc_of_new name lambda w :
  rpc_of name w = None → rpc_of name (RegisterRpc name lambda w) = Some lambda.
Proof.
  unfold rpc_of. simpl. induction (Node.rpcs_ w) as [|d l IH]; simpl; [by rewrite String.eqb_refl|].
  by destruct (String.eqb name d.1).
Qed.

Lemma rpc_of_kept name name' lambda w r :
  rpc_of name w = Some r → rpc_of name (RegisterRpc name' lambda w) = Some r.
Proof.
  unfold rpc_of. simpl. induction (Node.rpcs_ w) as [|d l IH]; simpl; [done|].
  by destruct (String.eqb name d.1).
Qed.

Lemma rpc_of_other name name' lambda w :
  name ≠ name' → rpc_of name (RegisterRpc name' lambda w) = rpc_of name w.
Proof.
  unfold rpc_of. simpl. intros Hne%String.eqb_neq.
  induction (Node.rpcs_ w) as [|d l IH]; simpl; [by rewrite Hne|]. by destruct (String.eqb name d.1).
Qed.

(** ** The interface of the daemon to the libraries

    What the admin library asks of the RPC server: [HERMES_RUN_THALLIUM->StopThisDaemon()], which
    sends signals and changes nothing else. *)
Class DaemonOps := {
  stop_this_daemon : Node → outcome Node;
  stop_this_daemon_frame w w' :
    stop_this_daemon w = Ok w' → ∃ l, w' = Node.set_signals l w;
}.

Section daemon.
Context `{BitfieldOps} `{NetOps} `{Logger} `{TlEngineOps}.

Lemma StopDaemon_frame this node_id w w' :
  StopDaemon this node_id w = Ok w' → ∃ l, w' = Node.set_signals l w.
Proof.
  unfold StopDaemon, HELOG_kFatal. intros. invert_ok. repeat case_bool; invert_ok; [by eexists|].
  exists (Node.signals_ w'). by destruct w'.
Qed.

Definition runtime_daemon (this : ThalliumState) : DaemonOps := {|
  stop_this_daemon := StopThisDaemon this;
  stop_this_daemon_frame := StopDaemon_frame this _;
|}.

(** On a node that knows its address and whose server can be reached, the signal goes to that
    server. *)
Lemma StopThisDaemon_sends this name w :
  ThalliumRpc.GetServerName (tl_rpc_ this) (RpcContext.node_id_ (tl_rpc_ this)) = Ok name →
  tl_shutdown (client_engine_ this) name = true →
  StopThisDaemon this w = Ok (Node.set_signals (Node.signals_ w ++ [name]) w).
Proof.
  intros Hn Hs. unfold StopThisDaemon, StopDaemon. rewrite Hn. cbn [mbind outcome_bind].
  by rewrite Hs.
Qed.

End daemon.
