(* ===== verification/Exec.v ===== *)
(** * The interface between the worker and the task libraries

    A worker runs tasks through the virtual functions of [TaskLib] and hands those of
    other nodes to the remote queue. This class is what the worker's code uses; its laws
    are what the worker relies on, proved in [Libs] for the libraries of the repository
    (for the one method that waits for other nodes, where only such steps happen meanwhile). *)

From S2P Require Import Prelude Hshm RefLib Types Queue Config QueueManager Archive Task.
From S2P Require Import TaskTypes World.

(** The operations take the address of the task state, the method and the address of the
    task. A method that runs on a coroutine is resumed: [exec_resume] runs it from its start
    ([None]) or from the yield where it left its local variables ([Some]), to the next
    yield or to its return ([None]). *)
Class TaskExecOps := {
  exec_Run : Z → Z → Z → Node → outcome Node;
  exec_resume : Z → Z → Z → option (list Z) → Node → outcome (option (list Z) * Node);
  exec_Del : Z → Z → Z → Node → outcome Node;
  exec_GetGroup : Z → Z → Z → list Z → Node → outcome (Z * list Z);
  Disperse : Z → Z → list DomainId → Node → outcome Node;
}.

(** A lane of [w] is a lane of [w'] to which tasks may have been appended. *)
Definition lanes_grow (w w' : Node) : Prop :=
  ∀ q p l lane, get_lane q p l w = Ok lane →
    ∃ add, get_lane q p l w' = Ok (Lane.set_data (Lane.data lane ++ add) lane).

(** Slots of the queue map that hold no queue have no lane. *)
Definition slots_ok (w : Node) : Prop :=
  ∀ i q, Node.queue_map_ w !! i = Some q →
    UniqueId.IsNull (MultiQueue.id_ q) = true → MultiQueue.groups_ q = [].

(** The worker's own records of task groups *)
Definition groups_of (w : Node) : list (gmap (list Z) TaskNode) :=
  Worker.group_map_ <$> Node.workers_ w.

(** What running a method may do to the lanes and to the groups of the workers. *)
Definition exec_frame (w w' : Node) : Prop :=
  slots_ok w → slots_ok w' ∧ lanes_grow w w' ∧ groups_of w' = groups_of w.

Class TaskExecLaws `{TaskExecOps} : Prop := {
  exec_Run_frame exec method task w w' :
    exec_Run exec method task w = Ok w' → exec_frame w w';
  exec_resume_frame exec method task k w k' w' :
    exec_resume exec method task k w = Ok (k', w') → exec_frame w w';
  exec_Del_frame exec method task w w' :
    exec_Del exec method task w = Ok w' → exec_frame w w';
  Disperse_frame task exec ids w w' :
    Disperse task exec ids w = Ok w' → exec_frame w w';
}.

(** ** Lemmas *)

Lemma set_data_same (lane : Lane) : Lane.set_data (Lane.data lane) lane = lane.
Proof. by destruct lane. Qed.

Lemma lanes_grow_refl w : lanes_grow w w.
Proof. intros q p l lane Hl. exists []. by rewrite app_nil_r, set_data_same. Qed.

Lemma lanes_grow_trans w1 w2 w3 : lanes_grow w1 w2 → lanes_grow w2 w3 → lanes_grow w1 w3.
Proof.
  intros H12 H23 q p l lane (a1 & H1)%H12. apply H23 in H1 as (a2 & H2). exists (a1 ++ a2).
  rewrite H2. simpl. by rewrite (assoc_L app).
Qed.

Lemma lanes_grow_same w w' : Node.queue_map_ w' = Node.queue_map_ w → lanes_grow w w'.
Proof.
  intros E q p l lane Hl. exists []. rewrite app_nil_r, set_data_same.
  unfold get_lane, get_queue in *. by rewrite E.
Qed.

#[export] Instance lanes_grow_preorder : PreOrder lanes_grow.
Proof. split; [exact lanes_grow_refl | exact lanes_grow_trans]. Qed.

#[export] Instance exec_frame_preorder : PreOrder exec_frame.
Proof.
  split.
  - intros w Hs. split; [done|]. split; reflexivity.
  - intros w1 w2 w3 H12 H23 Hs. destruct (H12 Hs) as (Hs2 & Hl & Hg).
    destruct (H23 Hs2) as (Hs3 & Hl' & Hg'). split; [done|].
    split; [by etransitivity|congruence].
Qed.

(** A step that changes neither the queues nor the workers *)
Lemma exec_frame_same w w' :
  Node.queue_map_ w' = Node.queue_map_ w → Node.workers_ w' = Node.workers_ w → exec_frame w w'.
Proof.
  intros Hq Hw Hs. split; [|split].
  - unfold slots_ok. by rewrite Hq.
  - by apply lanes_grow_same.
  - unfold groups_of. by rewrite Hw.
Qed.

Lemma exec_frame_put_task a o w : exec_frame w (put_task a o w).
Proof. by apply exec_frame_same. Qed.

Lemma upd_task_frame a f w w' : upd_task a f w = Ok w' → exec_frame w w'.
Proof. unfold upd_task. intros. invert_ok. apply exec_frame_put_task. Qed.

#[export] Hint Resolve exec_frame_same exec_frame_put_task upd_task_frame lanes_grow_refl : hrun.

(** ** A reference task library, for the witnesses: its methods complete their task. *)
Definition ref_exec `{BitfieldOps} : TaskExecOps := {|
  exec_Run _ _ task w := upd_task task Task.SetModuleComplete w;
  exec_resume _ _ task _ w := w ← upd_task task Task.SetModuleComplete w; Ok (None, w);
  exec_Del _ _ task w := Ok (Node.set_heap (delete task (Node.heap w)) w);
  exec_GetGroup _ _ _ group _ := Ok (0, group);
  Disperse _ _ _ w := Ok w;
|}.

Lemma ref_exec_laws `{BitfieldOps} : @TaskExecLaws ref_exec.
Proof.
  split; simpl; intros; invert_ok; eauto with hrun.
Qed.
