(* ===== verification/WorkerLoop.v ===== *)
(** * Workers ([include/hermes_run/work_orchestrator/worker.h], [src/worker.cc])

    A worker polls the lanes assigned to it: it runs the tasks of a lane in place,
    removes completed ones from the head, and lets tasks of one group run only under one
    root task at a time. A worker is designated by its index in the orchestrator. *)

From S2P Require Import Prelude Hshm RefLib Types Queue Config QueueManager LocalSerialize.
From S2P Require Import Archive Task TaskTypes World Registry Rpc Exec.

Section flags.
Context `{BitfieldOps}.
Definition WORKER_CONTINUOUS_POLLING : Z := BIT_OPT 0.
End flags.

(** ** Operations on a worker *)

Section worker.
Context `{BitfieldOps} `{SpscOps} `{CharbufOps} `{RawMemory}.

(** [Worker(u32 id)], which starts no thread: [flags_] is a bitfield, [group_] is resized twice. *)
Definition new_worker (id : Z) : Worker := {|
  Worker.id_ := id;
  Worker.pid_ := 0;
  Worker.work_queue_ := [];
  Worker.poll_queues_ := [];
  Worker.relinquish_queues_ := [];
  Worker.sleep_us_ := 0;
  Worker.retries_ := 1;
  Worker.flags_ := SetBits bitfield_new WORKER_CONTINUOUS_POLLING;
  Worker.group_map_ := ∅;
  Worker.group_ := buf_resize (buf_resize [] 512) 0;
|}.

(** [Worker(u32 id, ABT_xstream &xstream)]: a thread on [Loop] is started before [group_] is
    resized, so the thread may see the empty buffer; the worker when the constructor
    returned. *)
Definition new_worker_thread (id : Z) : Worker := {|
  Worker.id_ := id;
  Worker.pid_ := 0;
  Worker.work_queue_ := [];
  Worker.poll_queues_ := [];
  Worker.relinquish_queues_ := [];
  Worker.sleep_us_ := 0;
  Worker.retries_ := 1;
  Worker.flags_ := SetBits bitfield_new WORKER_CONTINUOUS_POLLING;
  Worker.group_map_ := ∅;
  Worker.group_ := buf_resize (buf_resize [] 512) 0;
|}.

(** [Worker::Yield]: the microseconds the worker sleeps, [Some 0] when its thread yields,
    [None] when it goes on at once. *)
Definition Yield (w : Worker) : option Z :=
  if Any (Worker.flags_ w) WORKER_CONTINUOUS_POLLING then None
  else if 0 <? Worker.sleep_us_ w then Some (Worker.sleep_us_ w) else Some 0.

(** [PollQueues] and [RelinquishingQueues]: the queues hold 1024 messages. *)
Definition PollQueues (queues : list WorkEntry) (w : Worker) : Worker :=
  Worker.set_poll_queues (spsc_emplace 1024 (Worker.poll_queues_ w) queues) w.

Definition RelinquishingQueues (queues : list WorkEntry) (w : Worker) : Worker :=
  Worker.set_relinquish_queues (spsc_emplace 1024 (Worker.relinquish_queues_ w) queues) w.

Definition IsRelinquishingQueues (w : Worker) : bool :=
  0 <? spsc_size (Worker.relinquish_queues_ w).

Definition SetPollingFrequency (sleep_us num_retries : Z) (w : Worker) : Worker :=
  Worker.set_polling sleep_us num_retries
    (UnsetBits (Worker.flags_ w) WORKER_CONTINUOUS_POLLING) w.

Definition EnableContinuousPolling (w : Worker) : Worker :=
  Worker.set_polling (Worker.sleep_us_ w) (Worker.retries_ w)
    (SetBits (Worker.flags_ w) WORKER_CONTINUOUS_POLLING) w.

Definition DisableContinuousPolling (w : Worker) : Worker :=
  Worker.set_polling (Worker.sleep_us_ w) (Worker.retries_ w)
    (UnsetBits (Worker.flags_ w) WORKER_CONTINUOUS_POLLING) w.

(** [work_queue_.emplace_back(entry)]: neither the copy of the entry nor the move of the
    others to new memory keeps [count_]. *)
Definition add_entry (l : list WorkEntry) (entry : WorkEntry) : list WorkEntry :=
  (if vector_moves (length l) then WorkEntry.copy raw_int <$> l else l)
    ++ [WorkEntry.copy raw_int entry].

(** [_PollQueues]: the loop ends when the queue is empty; [fuel] bounds its passes. *)
Fixpoint PollQueues_loop (fuel : nat) (w : Worker) : Worker :=
  match fuel with
  | O => w
  | S fuel =>
      match spsc_pop (Worker.poll_queues_ w) with
      | None => w
      | Some (work_queue, rest) =>
          let w := Worker.set_poll_queues rest w in
          PollQueues_loop fuel
            (Worker.set_work_queue (foldl add_entry (Worker.work_queue_ w) work_queue) w)
      end
  end.

Definition PollQueues_ (w : Worker) : Worker :=
  PollQueues_loop (S (Z.to_nat (spsc_size (Worker.poll_queues_ w)))) w.

(** [work_queue_.erase(std::find(..., entry))]: erasing the end iterator is undefined. The
    elements behind are moved one place down, without their [count_]: each keeps the one
    of the place it moves to. *)
Fixpoint shift_entries (c : Z) (l : list WorkEntry) : list WorkEntry :=
  match l with
  | [] => []
  | e :: l => WorkEntry.copy c e :: shift_entries (WorkEntry.count_ e) l
  end.

Fixpoint erase_entry (entry : WorkEntry) (l : list WorkEntry) : option (list WorkEntry) :=
  match l with
  | [] => None
  | e :: l =>
      if WorkEntry.equal e entry then Some (shift_entries (WorkEntry.count_ e) l)
      else l' ← erase_entry entry l; Some (e :: l')
  end.

Fixpoint erase_entries (entries : list WorkEntry) (l : list WorkEntry)
    : outcome (list WorkEntry) :=
  match entries with
  | [] => Ok l
  | entry :: entries => l' ← deref (erase_entry entry l); erase_entries entries l'
  end.

(** [_RelinquishQueues]: the queue popped is [poll_queues_]. *)
Fixpoint RelinquishQueues_loop (fuel : nat) (w : Worker) : outcome Worker :=
  match fuel with
  | O => Ok w
  | S fuel =>
      match spsc_pop (Worker.poll_queues_ w) with
      | None => Ok w
      | Some (work_queue, rest) =>
          let w := Worker.set_poll_queues rest w in
          l ← erase_entries work_queue (Worker.work_queue_ w);
          RelinquishQueues_loop fuel (Worker.set_work_queue l w)
      end
  end.

Definition RelinquishQueues_ (w : Worker) : outcome Worker :=
  RelinquishQueues_loop (S (Z.to_nat (spsc_size (Worker.poll_queues_ w)))) w.

(** The first half of [Run], before the loop over [work_queue_] *)
Definition Run_queues (w : Worker) : outcome Worker :=
  let w := if 0 <? spsc_size (Worker.poll_queues_ w) then PollQueues_ w else w in
  if 0 <? spsc_size (Worker.relinquish_queues_ w) then RelinquishQueues_ w else Ok w.

End worker.

(** ** Task groups *)

Section groups.
Context `{BitfieldOps} `{CharbufOps} `{Logger} `{TaskExecOps}.

(** [LocalSerialize srl(group_); srl << lane_id;] *)
Definition add_lane_id (lane_id : Z) (group : list Z) : outcome (list Z) :=
  LocalSerialize_shl (LocalSerialize_new group) (LArith 4 lane_id).

(** The group of an ordered task, [None] for an unordered one *)
Definition task_group (wi : nat) (task exec lane_id : Z) (w : Node)
    : outcome (option (list Z) * Node) :=
  o ← get_task task w;
  wk ← get_worker wi w;
  '(ret, group) ← exec_GetGroup exec (Task.method_ (base o)) task (Worker.group_ wk) w;
  let w := put_worker wi (Worker.set_group group wk) w in
  if (ret =? TASK_UNORDERED) || Task.IsUnordered (base o) then Ok (None, w)
  else
    group ← add_lane_id lane_id group;
    Ok (Some group, put_worker wi (Worker.set_group group wk) w).

(** The test of the group map in [CheckTaskGroup] *)
Definition enter_group (group : list Z) (node : TaskNode) (m : gmap (list Z) TaskNode)
    : bool * gmap (list Z) TaskNode :=
  match m !! group with
  | None => (true, <[group := TaskNode.set_depth 1 node]> m)
  | Some node_cmp =>
      if UniqueId.equal (TaskNode.root_ node_cmp) (TaskNode.root_ node) then
        (true, <[group := TaskNode.set_depth (wrap32 (TaskNode.node_depth_ node_cmp + 1)) node_cmp]> m)
      else (false, m)
  end.

(** The update of the group map in [RemoveTaskGroup]; [operator\[\]] inserts a zero node
    for an absent group. *)
Definition leave_group (group : list Z) (m : gmap (list Z) TaskNode)
    : outcome (gmap (list Z) TaskNode) :=
  let node_cmp := default TaskNode.GetNull (m !! group) in
  let k :=
    let d := wrap32 (TaskNode.node_depth_ node_cmp - 1) in
    if d =? 0 then Ok (delete group m)
    else Ok (<[group := TaskNode.set_depth d node_cmp]> m) in
  if TaskNode.node_depth_ node_cmp =? 0 then HELOG_kFatal k else k.

Definition CheckTaskGroup (wi : nat) (task exec lane_id : Z) (node : TaskNode)
    (is_remote : bool) (w : Node) : outcome (bool * Node) :=
  o ← get_task task w;
  if is_remote || Task.IsStarted (base o) then Ok (true, w)
  else
    '(group, w) ← task_group wi task exec lane_id w;
    match group with
    | None => Ok (true, w)
    | Some group =>
        wk ← get_worker wi w;
        let '(ret, m) := enter_group group node (Worker.group_map_ wk) in
        Ok (ret, put_worker wi (Worker.set_group_map m wk) w)
    end.

Definition RemoveTaskGroup (wi : nat) (task exec lane_id : Z) (is_remote : bool) (w : Node)
    : outcome Node :=
  if is_remote then Ok w
  else
    '(group, w) ← task_group wi task exec lane_id w;
    match group with
    | None => Ok w
    | Some group =>
        wk ← get_worker wi w;
        m ← leave_group group (Worker.group_map_ wk);
        Ok (put_worker wi (Worker.set_group_map m wk) w)
    end.

End groups.

(** ** Polling *)

Section polling.
Context `{BitfieldOps} `{MpscOps} `{SpscOps} `{CharbufOps} `{AllocOps} `{Logger}
        `{TaskExecOps} `{RawMemory}.

(** An update of the lane of a work entry *)
Definition upd_lane (e : WorkEntry) (f : list LaneData → list LaneData) (w : Node)
    : outcome Node :=
  lane ← get_lane (WorkEntry.queue_ e) (WorkEntry.prio_ e) (WorkEntry.lane_id_ e) w;
  put_lane (WorkEntry.queue_ e) (WorkEntry.prio_ e) (WorkEntry.lane_id_ e)
    (Lane.set_data (f (Lane.data lane)) lane) w.

(** Writing through the pointer [entry] to the element [off] of the lane *)
Definition upd_entry (e : WorkEntry) (off : Z) (f : LaneData → LaneData) : Node → outcome Node :=
  upd_lane e (alter f (Z.to_nat off)).

(** [PopTask(lane, off)]: the offset and the state after it *)
Definition PopTask (e : WorkEntry) (off : Z) (w : Node) : outcome (Z * Node) :=
  if off =? 0 then w ← upd_lane e mpsc_pop w; Ok (off, w)
  else Ok (off + 1, w).

(** [EndTask(lane, exec, task, off)] *)
Definition EndTask (e : WorkEntry) (exec task off : Z) (w : Node) : outcome (Z * Node) :=
  '(off, w) ← PopTask e off w;
  o ← get_task task w;
  if negb (exec =? 0) && Task.IsFireAndForget (base o) then
    w ← exec_Del exec (Task.method_ (base o)) task w; Ok (off, w)
  else
    w ← upd_task task Task.SetComplete w; Ok (off, w).

(** [malloc] and [free]: the block is at a fresh address. *)
Definition malloc (w : Node) : Z * Node :=
  let a := 1 + foldr Z.max 0 (Node.stacks w) in (a, Node.set_stacks (a :: Node.stacks w) w).

Definition free (a : Z) (w : Node) : outcome Node :=
  if a =? 0 then Ok w
  else if bool_decide (a ∈ Node.stacks w)
  then Ok (Node.set_stacks (remove_one a (Node.stacks w)) w) else Undefined.

(** Updates of [task->ctx_] *)
Definition upd_ctx (task : Z) (f : RunContext → RunContext) : Node → outcome Node :=
  upd_task task (λ t, Task.set_ctx (f (Task.ctx_ t)) t).

(** [jump_fcontext(ctx.jmp_.fctx, task)], by the context jumped to: at its entry,
    [RunBlocking] calls the method and yields when it returned; past that yield, the
    function of the context returns, which ends the process. *)
Definition jump_fcontext (task : Z) (w : Node) : outcome Node :=
  o ← get_task task w;
  let resume exec method k :=
    '(k, w) ← exec_resume exec method task k w;
    upd_ctx task (RunContext.set_jmp
      (match k with Some frame => Suspended exec method frame | None => Returned end)) w in
  match RunContext.jmp_ (Task.ctx_ (base o)) with
  | NoContext => Undefined
  | Entry => resume (RunContext.exec_ (Task.ctx_ (base o))) (Task.method_ (base o)) None
  | Suspended exec method frame => resume exec method (Some frame)
  | Returned => Exit
  end.

(** The branch of [PollGrouped] for a task that runs on a coroutine *)
Definition run_coroutine (task : Z) (w : Node) : outcome Node :=
  o ← get_task task w;
  w ← (if Task.IsStarted (base o) then Ok w
       else
         let '(stack, w) := malloc w in
         w ← upd_ctx task (RunContext.set_stack_ptr stack) w;
         w ← upd_ctx task (RunContext.set_jmp Entry) w;
         upd_task task Task.SetStarted w);
  jump_fcontext task w.

(** [SpawnAsyncThread(&Worker::RunPreemptive, task)]: a new thread, not run yet *)
Definition SpawnAsyncThread (task : Z) (w : Node) : Z * Node :=
  let tid := fresh_addr (Node.threads w) in
  (tid, Node.set_threads (<[tid := task]> (Node.threads w)) w).

(** [Worker::RunPreemptive], run by its thread *)
Definition RunPreemptive (tid : Z) (w : Node) : outcome Node :=
  task ← deref (Node.threads w !! tid);
  o ← get_task task w;
  let exec := GetTaskState (Task.task_state_ (base o)) w in
  if exec =? 0 then Undefined
  else
    w ← exec_Run exec (Task.method_ (base o)) task w;
    Ok (Node.set_threads (delete tid (Node.threads w)) w).

(** [ABT_thread_join(entry->thread_)] *)
Definition ABT_thread_join (thread : option Z) (w : Node) : outcome unit :=
  match thread with
  | None => Undefined
  | Some tid => match Node.threads w !! tid with Some _ => Blocked | None => Ok tt end
  end.

(** "Execute or schedule task" *)
Definition execute (e : WorkEntry) (off task exec : Z) (is_remote : bool) (w : Node)
    : outcome Node :=
  o ← get_task task w;
  if is_remote then
    let ids := ResolveDomainId (Task.domain_id_ (base o)) (Node.hosts_ w) in
    w ← Disperse task exec ids w;
    w ← upd_task task Task.DisableRun w;
    w ← upd_task task (λ t, snd (Task.SetUnordered t)) w;
    upd_task task Task.UnsetCoroutine w
  else if Task.IsCoroutine (base o) then run_coroutine task w
  else if Task.IsPreemptive (base o) then
    w ← upd_task task Task.DisableRun w;
    let '(tid, w) := SpawnAsyncThread task w in
    upd_entry e off (LaneData.set_thread tid) w
  else
    w ← upd_task task Task.SetStarted w;
    exec_Run exec (Task.method_ (base o)) task w.

(** "Cleanup on task completion": the offset of the next task *)
Definition cleanup (wi : nat) (e : WorkEntry) (off task exec : Z) (is_remote : bool) (w : Node)
    : outcome (Z * Node) :=
  o ← get_task task w;
  if Task.IsModuleComplete (base o) then
    w ← upd_entry e off LaneData.set_complete w;
    w ← (if Task.IsCoroutine (base o) then free (RunContext.stack_ptr_ (Task.ctx_ (base o))) w
         else if Task.IsPreemptive (base o) then
           lane ← get_lane (WorkEntry.queue_ e) (WorkEntry.prio_ e) (WorkEntry.lane_id_ e) w;
           entry ← deref (Lane.data lane !! Z.to_nat off);
           _ ← ABT_thread_join (LaneData.thread_ entry) w; Ok w
         else Ok w);
    w ← RemoveTaskGroup wi task exec (WorkEntry.lane_id_ e) is_remote w;
    EndTask e exec task off w
  else Ok (off + 1, w).

(** The part of an iteration that handles the task at [task] *)
Definition poll_task (wi : nat) (e : WorkEntry) (off task : Z) (w : Node)
    : outcome (Z * Node) :=
  w ← upd_ctx task (RunContext.set_lane_id (WorkEntry.lane_id_ e)) w;
  o ← get_task task w;
  let exec := GetTaskState (Task.task_state_ (base o)) w in
  w ← upd_ctx task (RunContext.set_exec exec) w;
  if exec =? 0 then
    HELOG_kFatal (w ← upd_entry e off LaneData.set_complete w; EndTask e exec task off w)
  else
    let is_remote := DomainId.IsRemote (Task.domain_id_ (base o))
                       (Z.of_nat (length (Node.hosts_ w))) (Node.node_id_ w) in
    '(runnable, w) ←
      (if Task.IsRunDisabled (base o) then Ok (false, w)
       else CheckTaskGroup wi task exec (WorkEntry.lane_id_ e) (Task.task_node_ (base o))
              is_remote w);
    w ← (if (runnable : bool) then execute e off task exec is_remote w else Ok w);
    cleanup wi e off task exec is_remote w.

(** One iteration of [PollGrouped]: [None] when it returns *)
Definition poll_iteration (wi : nat) (e : WorkEntry) (off : Z) (w : Node)
    : outcome (option Z * Node) :=
  lane ← get_lane (WorkEntry.queue_ e) (WorkEntry.prio_ e) (WorkEntry.lane_id_ e) w;
  match mpsc_peek (Lane.data lane) off with
  | None => Ok (None, w)
  | Some entry =>
      if LaneData.complete_ entry then '(off, w) ← PopTask e off w; Ok (Some off, w)
      else '(off, w) ← poll_task wi e off (Convert (LaneData.p_ entry)) w; Ok (Some off, w)
  end.

Fixpoint poll_loop (wi : nat) (e : WorkEntry) (i : nat) (off : Z) (w : Node) : outcome Node :=
  match i with
  | O => Ok w
  | S i =>
      '(next, w) ← poll_iteration wi e off w;
      match next with
      | None => Ok w
      | Some off => poll_loop wi e i off w
      end
  end.

Definition PollGrouped (wi : nat) (e : WorkEntry) (w : Node) : outcome Node :=
  poll_loop wi e 1024 0 w.

(** The loop of [Run] over [work_queue_], by index: the element [j] is read from the
    worker each time, its [count_] updated in place. *)
Definition Run_entry (wi j : nat) (w : Node) : outcome Node :=
  wk ← get_worker wi w;
  e ← deref (Worker.work_queue_ wk !! j);
  lane ← get_lane (WorkEntry.queue_ e) (WorkEntry.prio_ e) (WorkEntry.lane_id_ e) w;
  if negb (Any (Lane.flags_ lane) QUEUE_LOW_LATENCY) then
    let e := WorkEntry.set_count (wrap32 (WorkEntry.count_ e + 1)) e in
    let w := put_worker wi (Worker.set_work_queue (<[j := e]> (Worker.work_queue_ wk)) wk) w in
    if negb (WorkEntry.count_ e `mod` 4096 =? 0) then Ok w else PollGrouped wi e w
  else PollGrouped wi e w.

Fixpoint Run_entries (wi j n : nat) (w : Node) : outcome Node :=
  match n with
  | O => Ok w
  | S n => w ← Run_entry wi j w; Run_entries wi (S j) n w
  end.

(** [Worker::Run] *)
Definition Run (wi : nat) (w : Node) : outcome Node :=
  wk ← get_worker wi w;
  wk ← Run_queues wk;
  Run_entries wi 0 (length (Worker.work_queue_ wk)) (put_worker wi wk w).

(** The loop of [Worker::Loop] and the pass after it, as long as [fuel] lasts. Other threads may change the state before
    each pass, which is the argument [env]. An [hshm::Error] a pass throws is a fatal error
    (what an interrupted pass changed is left to [env] too); any other exception leaves the
    thread, which ends the process. [hshm_error] tells them apart. *)
Fixpoint Loop (hshm_error : string → bool) (env : nat → Node → Node) (wi : nat) (fuel : nat)
    (w : Node) : outcome Node :=
  let w := env fuel w in
  if negb (Node.kill_requested_ w) then
    match fuel with
    | O => Blocked
    | S fuel =>
        match Run wi w with
        | Throw e =>
            if hshm_error e then HELOG_kFatal (Loop hshm_error env wi fuel w) else Exit
        | r => w ← r; Loop hshm_error env wi fuel w
        end
    end
  else Run wi w.

(** [Worker::Loop], run by the thread [tid] *)
Definition Loop_thread (hshm_error : string → bool) (env : nat → Node → Node) (tid : Z)
    (wi : nat) (fuel : nat) (w : Node) : outcome Node :=
  wk ← get_worker wi w;
  let w := put_worker wi (Worker.set_pid tid wk) w in
  Loop hshm_error env wi fuel w.

End polling.

(** ** Lemmas: the work queue *)

Section queue_lemmas.
Context `{SpscLaws} `{RawMemory}.
Implicit Types w : Worker.

(** What the work queue is up to the counters *)
Definition same_lanes (l l' : list WorkEntry) : Prop :=
  Forall2 (λ a b, WorkEntry.equal a b = true) l l'.

Lemma entry_equal_refl e : WorkEntry.equal e e = true.
Proof. unfold WorkEntry.equal. by rewrite Nat.eqb_refl, !Z.eqb_refl. Qed.

Lemma copy_equal c e : WorkEntry.equal (WorkEntry.copy c e) e = true.
Proof. unfold WorkEntry.equal. simpl. by rewrite Nat.eqb_refl, !Z.eqb_refl. Qed.

Lemma entry_equal_trans a b c :
  WorkEntry.equal a b = true → WorkEntry.equal b c = true → WorkEntry.equal a c = true.
Proof.
  unfold WorkEntry.equal. rewrite !andb_true_iff, !Nat.eqb_eq, !Z.eqb_eq. intuition congruence.
Qed.

Lemma same_lanes_refl l : same_lanes l l.
Proof. induction l; constructor; [apply entry_equal_refl|done]. Qed.

Lemma add_entry_same l e : same_lanes (add_entry l e) (l ++ [e]).
Proof.
  unfold add_entry. apply Forall2_app; [|by repeat constructor; apply copy_equal].
  destruct (vector_moves _); [|apply same_lanes_refl].
  induction l; constructor; [apply copy_equal|done].
Qed.

Lemma same_lanes_trans l1 l2 l3 : same_lanes l1 l2 → same_lanes l2 l3 → same_lanes l1 l3.
Proof.
  intros H12. revert l3. induction H12 as [|a b l1 l2 Hab _ IH]; intros l3 H23; inversion H23; subst.
  - constructor.
  - constructor; [by eapply entry_equal_trans|by apply IH].
Qed.

Lemma add_entries_same k l : same_lanes (foldl add_entry l k) (l ++ k).
Proof.
  revert l. induction k as [|e k IH]; intros l; simpl.
  { rewrite app_nil_r. apply same_lanes_refl. }
  eapply same_lanes_trans; [apply IH|]. rewrite (cons_middle e l k), (assoc_L app).
  apply Forall2_app; [apply add_entry_same|apply same_lanes_refl].
Qed.

Lemma PollQueues_loop_spec fuel w :
  (length (Worker.poll_queues_ w) < fuel)%nat →
  let w' := PollQueues_loop fuel w in
  Worker.poll_queues_ w' = [] ∧
  Worker.relinquish_queues_ w' = Worker.relinquish_queues_ w ∧
  Worker.group_map_ w' = Worker.group_map_ w ∧
  same_lanes (Worker.work_queue_ w') (Worker.work_queue_ w ++ concat (Worker.poll_queues_ w)).
Proof.
  revert w. induction fuel as [|fuel IH]; intros w Hlen; [lia|]. simpl.
  destruct (Worker.poll_queues_ w) as [|msg rest] eqn:E.
  - rewrite spsc_pop_nil. simpl. rewrite E, app_nil_r. auto using same_lanes_refl.
  - rewrite spsc_pop_cons. simpl in Hlen.
    destruct (IH (Worker.set_work_queue (foldl add_entry (Worker.work_queue_ w) msg)
      (Worker.set_poll_queues rest w))) as (Hp & Hr & Hg & Hw); [simpl; lia|].
    simpl in *. split_and!; [done..|]. eapply same_lanes_trans; [exact Hw|].
    rewrite (assoc_L app). apply Forall2_app; [apply add_entries_same|apply same_lanes_refl].
Qed.

End queue_lemmas.

(** ** Task groups as a reentrant lock

    The tasks admitted to a group and not removed from it yet, each with its group and
    task node, next to the map of the worker that admits and removes them. *)

Abbreviation running := (list (list Z * TaskNode)).

Inductive group_step `{Logger} :
    gmap (list Z) TaskNode * running → gmap (list Z) TaskNode * running → Prop :=
  | step_enter g node m m' R :
      enter_group g node m = (true, m') → Z.of_nat (length R) + 1 < 2 ^ 32 →
      group_step (m, R) (m', (g, node) :: R)
  | step_refused g node m m' R :
      enter_group g node m = (false, m') → group_step (m, R) (m', R)
  | step_leave g node m m' R1 R2 :
      leave_group g m = Ok m' → group_step (m, R1 ++ (g, node) :: R2) (m', R1 ++ R2).

Inductive group_reachable `{Logger} : gmap (list Z) TaskNode * running → Prop :=
  | reach_init : group_reachable (∅, [])
  | reach_step s s' : group_reachable s → group_step s s' → group_reachable s'.

(** The tasks of [R] in group [g] *)
Definition holders (g : list Z) (R : running) : running := filter (λ x, x.1 = g) R.

(** The lock: free exactly when no task of the group runs; else its depth is the number of
    running tasks of the group, which all have its root. *)
Definition lock_inv (s : gmap (list Z) TaskNode * running) : Prop :=
  Z.of_nat (length s.2) < 2 ^ 32 ∧
  ∀ g, match s.1 !! g with
       | None => holders g s.2 = []
       | Some n => TaskNode.node_depth_ n = Z.of_nat (length (holders g s.2)) ∧
                   holders g s.2 ≠ [] ∧
                   Forall (λ x, UniqueId.equal (TaskNode.root_ n) (TaskNode.root_ x.2) = true)
                     (holders g s.2)
       end.

Lemma uid_equal_sym a b : UniqueId.equal a b = true → UniqueId.equal b a = true.
Proof. rewrite !UniqueId.equal_key. done. Qed.

Lemma uid_equal_trans a b c :
  UniqueId.equal a b = true → UniqueId.equal b c = true → UniqueId.equal a c = true.
Proof. rewrite !UniqueId.equal_key. congruence. Qed.

Lemma uid_equal_refl a : UniqueId.equal a a = true.
Proof. by rewrite UniqueId.equal_key. Qed.

Section lock.
Context `{Logger}.

Lemma holders_cons_eq g node R : holders g ((g, node) :: R) = (g, node) :: holders g R.
Proof. unfold holders. by rewrite filter_cons_True. Qed.

Lemma holders_cons_ne g g' node R : g ≠ g' → holders g ((g', node) :: R) = holders g R.
Proof. intros. unfold holders. by rewrite filter_cons_False. Qed.

Lemma holders_app g R1 R2 : holders g (R1 ++ R2) = holders g R1 ++ holders g R2.
Proof. unfold holders. by rewrite list.filter_app. Qed.

Lemma lock_inv_enter g node m m' R :
  enter_group g node m = (true, m') → Z.of_nat (length R) + 1 < 2 ^ 32 →
  lock_inv (m, R) → lock_inv (m', (g, node) :: R).
Proof.
  intros He Hlen [_ Hi]. split; [simpl; lia|]. intros g'. specialize (Hi g') as Hg'.
  specialize (Hi g). revert He. unfold enter_group. simpl in *.
  assert (length (holders g R) ≤ length R)%nat by apply list.length_filter.
  destruct (m !! g) as [n|] eqn:E; [destruct (UniqueId.equal _ _) eqn:Eq|]; intros [= <-];
    (destruct (decide (g' = g)) as [->|Hne];
      [rewrite lookup_insert_eq, holders_cons_eq|
       by rewrite lookup_insert_ne, holders_cons_ne by done]).
  - destruct Hi as (Hd & _ & Hall). simpl. rewrite Hd, wrap32_small by (unfold is_u32; lia).
    split; [lia|]. split; [done|]. by constructor.
  - rewrite Hi. simpl. split; [done|]. split; [done|]. repeat constructor. apply uid_equal_refl.
Qed.

(** A task that was admitted can always be removed. *)
Lemma leave_admitted g node m R1 R2 :
  lock_inv (m, R1 ++ (g, node) :: R2) →
  ∃ m', leave_group g m = Ok m' ∧ lock_inv (m', R1 ++ R2).
Proof.
  intros [Hlen Hi]. pose proof (Hi g) as Hg. simpl in Hg, Hlen. unfold leave_group.
  rewrite length_app in Hlen. simpl in Hlen.
  assert (holders g (R1 ++ (g, node) :: R2) = holders g R1 ++ (g, node) :: holders g R2) as Hh.
  { by rewrite holders_app, holders_cons_eq. }
  rewrite Hh in Hg. destruct (m !! g) as [n|] eqn:E; [|by destruct (holders g R1)].
  destruct Hg as (Hd & _ & Hall). simpl. rewrite length_app in Hd. simpl in Hd.
  assert (length (holders g R1) ≤ length R1 ∧ length (holders g R2) ≤ length R2)%nat as [? ?]
    by (split; apply list.length_filter).
  destruct (Z.eqb_spec (TaskNode.node_depth_ n) 0); [lia|].
  rewrite wrap32_small by (unfold is_u32; lia).
  assert (∀ g' (m' : gmap (list Z) TaskNode), g' ≠ g → m' !! g' = m !! g' →
    match m' !! g' with
    | None => holders g' (R1 ++ R2) = []
    | Some n => TaskNode.node_depth_ n = Z.of_nat (length (holders g' (R1 ++ R2))) ∧
         holders g' (R1 ++ R2) ≠ [] ∧
         Forall (λ x, UniqueId.equal (TaskNode.root_ n) (TaskNode.root_ x.2) = true)
           (holders g' (R1 ++ R2))
    end) as Hother.
  { intros g' m' Hne ->. specialize (Hi g'). simpl in Hi.
    rewrite holders_app, holders_cons_ne, <- holders_app in Hi by done. done. }
  destruct (Z.eqb_spec (TaskNode.node_depth_ n - 1) 0); eexists; (split; [done|]);
    (split; [simpl; rewrite length_app; lia|]); intros g'; simpl;
    (destruct (decide (g' = g)) as [->|Hne]; [|apply Hother; [done|]]).
  - rewrite lookup_delete_eq, holders_app. apply nil_length_inv. rewrite length_app. lia.
  - by apply lookup_delete_ne.
  - rewrite lookup_insert_eq, holders_app. simpl. rewrite length_app. split; [lia|]. split.
    + intros E0%(f_equal length). rewrite length_app in E0. simpl in E0. lia.
    + apply Forall_app in Hall as [? Hall2]. inversion Hall2. by apply Forall_app.
  - by apply lookup_insert_ne.
Qed.

Lemma lock_inv_step s s' : lock_inv s → group_step s s' → lock_inv s'.
Proof.
  intros Hi Hs. destruct Hs as [g node m m' R He Hlen|g node m m' R He|g node m m' R1 R2 Hl].
  - by eapply lock_inv_enter.
  - assert (m' = m) as ->; [|done]. revert He. unfold enter_group.
    destruct (m !! g); [case_bool|]; congruence.
  - destruct (leave_admitted _ _ _ _ _ Hi) as (m'' & Hl' & Hi'). congruence.
Qed.

Lemma lock_inv_reachable s : group_reachable s → lock_inv s.
Proof.
  induction 1; [|by eapply lock_inv_step]. split; [done|]. intros g. cbn [fst snd]. by rewrite lookup_empty.
Qed.

End lock.

(** ** What polling a lane may do to it

    The specification [PollGrouped] implements: an entry of the lane is completed only when
    the module of its task completed it (or its task state is gone), a thread may be
    recorded in it, the head is removed only when it is complete, and everything else
    that happens at most appends to lanes. *)

Section refinement.
Context `{BitfieldOps} `{MpscLaws} `{SpscOps} `{CharbufOps} `{AllocOps} `{Logger}
        `{TaskExecLaws} `{RawMemory}.
Implicit Types e : WorkEntry.

Definition lane_at e (w : Node) : outcome Lane :=
  get_lane (WorkEntry.queue_ e) (WorkEntry.prio_ e) (WorkEntry.lane_id_ e) w.

(** [head] tells whether the head may be removed. *)
Inductive lane_step (head : bool) e : Node → Node → Prop :=
  | lane_grows w w' : lanes_grow w w' → lane_step head e w w'
  | lane_completes w w' lane off d o :
      lane_at e w = Ok lane → Lane.data lane !! Z.to_nat off = Some d →
      get_task (Convert (LaneData.p_ d)) w = Ok o →
      Task.IsModuleComplete (base o) = true ∨ GetTaskState (Task.task_state_ (base o)) w = 0 →
      upd_entry e off LaneData.set_complete w = Ok w' → lane_step head e w w'
  | lane_threads w w' off t :
      upd_entry e off (LaneData.set_thread t) w = Ok w' → lane_step head e w w'
  | lane_pops w w' lane d rest :
      head = true → lane_at e w = Ok lane → Lane.data lane = d :: rest → LaneData.complete_ d = true →
      put_lane (WorkEntry.queue_ e) (WorkEntry.prio_ e) (WorkEntry.lane_id_ e)
        (Lane.set_data rest lane) w = Ok w' → lane_step head e w w'.

Definition quiet (w w' : Node) : Prop := slots_ok w → slots_ok w' ∧ lanes_grow w w'.

Definition lane_steps (head : bool) e (w w' : Node) : Prop :=
  slots_ok w → slots_ok w' ∧ rtc (lane_step head e) w w'.

(** The entry [off] of the lane is the one of the task at pointer [p]. *)
Definition entry_at e (off p : Z) (w : Node) : Prop :=
  ∃ lane d, lane_at e w = Ok lane ∧ Lane.data lane !! Z.to_nat off = Some d ∧ LaneData.p_ d = p.

#[local] Instance quiet_preorder : PreOrder quiet.
Proof.
  split.
  - intros w Hs. split; [done|reflexivity].
  - intros w1 w2 w3 H12 H23 Hs. destruct (H12 Hs) as [Hs2 ?]. destruct (H23 Hs2) as [? ?].
    split; [done|by etransitivity].
Qed.

#[local] Instance lane_steps_preorder head e : PreOrder (lane_steps head e).
Proof.
  split.
  - intros w Hs. split; [done|reflexivity].
  - intros w1 w2 w3 H12 H23 Hs. destruct (H12 Hs) as [Hs2 ?]. destruct (H23 Hs2) as [? ?].
    split; [done|by etransitivity].
Qed.

Lemma exec_frame_quiet w w' : exec_frame w w' → quiet w w'.
Proof. intros Hf Hs. destruct (Hf Hs) as (?&?&?). done. Qed.

Lemma quiet_same w w' : Node.queue_map_ w' = Node.queue_map_ w → quiet w w'.
Proof.
  intros Hq Hs. split; [|by apply lanes_grow_same]. unfold slots_ok. by rewrite Hq.
Qed.

Lemma lane_steps_mono (head head' : bool) e w w' :
  (head = true → head' = true) → lane_steps head e w w' → lane_steps head' e w w'.
Proof.
  intros Hh Hst Hs. destruct (Hst Hs) as [Hs' Hr]. split; [done|].
  eapply rtc_subrel; [|exact Hr]. intros x y [].
  - by apply lane_grows.
  - by eapply lane_completes.
  - by eapply lane_threads.
  - eapply lane_pops; eauto.
Qed.

Lemma quiet_steps head e w w' : quiet w w' → lane_steps head e w w'.
Proof. intros Hq Hs. destruct (Hq Hs). split; [done|]. by apply rtc_once, lane_grows. Qed.

Lemma entry_at_grow e off p w w' : entry_at e off p w → lanes_grow w w' → entry_at e off p w'.
Proof.
  intros (lane & d & Hl & Hd & Hp) Hg. apply Hg in Hl as (add & Hl).
  exists (Lane.set_data (Lane.data lane ++ add) lane), d. split; [done|]. split; [|done].
  simpl. by apply lookup_app_l_Some.
Qed.

Lemma entry_at_quiet e off p w w' : slots_ok w → entry_at e off p w → quiet w w' → entry_at e off p w'.
Proof. intros Hs He Hq. destruct (Hq Hs). by eapply entry_at_grow. Qed.

(** *** The quiet parts *)

Lemma upd_task_quiet a f w w' : upd_task a f w = Ok w' → quiet w w'.
Proof. intros. eapply exec_frame_quiet, upd_task_frame. done. Qed.

Lemma upd_ctx_quiet a f w w' : upd_ctx a f w = Ok w' → quiet w w'.
Proof. apply upd_task_quiet. Qed.

Lemma put_worker_quiet i x w : quiet w (put_worker i x w).
Proof. by apply quiet_same. Qed.

Lemma task_group_quiet wi task exec lid w g w' :
  task_group wi task exec lid w = Ok (g, w') → quiet w w'.
Proof.
  unfold task_group. intros. invert_ok. destruct x1 as [ret group]. case_bool; invert_ok.
  - apply put_worker_quiet.
  - etransitivity; apply put_worker_quiet.
Qed.

Lemma CheckTaskGroup_quiet wi task exec lid node r w b w' :
  CheckTaskGroup wi task exec lid node r w = Ok (b, w') → quiet w w'.
Proof.
  unfold CheckTaskGroup. intros. invert_ok. case_bool; invert_ok; [reflexivity|].
  destruct x0 as [g w1]. apply task_group_quiet in Hx0. destruct g as [g|]; invert_ok; [|done].
  destruct (enter_group _ _ _) as [ret m]. invert_ok. etransitivity; [done|apply put_worker_quiet].
Qed.

Lemma RemoveTaskGroup_quiet wi task exec lid r w w' :
  RemoveTaskGroup wi task exec lid r w = Ok w' → quiet w w'.
Proof.
  unfold RemoveTaskGroup. intros. case_bool; invert_ok; [reflexivity|].
  destruct x as [g w1]. apply task_group_quiet in Hx. destruct g as [g|]; invert_ok; [|done].
  etransitivity; [done|apply put_worker_quiet].
Qed.

Lemma malloc_quiet w a w' : malloc w = (a, w') → quiet w w'.
Proof. intros [= <- <-]. by apply quiet_same. Qed.

Lemma free_quiet a w w' : free a w = Ok w' → quiet w w'.
Proof.
  unfold free. intros. repeat case_bool; invert_ok; [reflexivity|]. by apply quiet_same.
Qed.

Lemma jump_fcontext_quiet task w w' : jump_fcontext task w = Ok w' → quiet w w'.
Proof.
  unfold jump_fcontext. intros. invert_ok.
  destruct (RunContext.jmp_ _); invert_ok; destruct x0 as [ret w1];
    (etransitivity; [eapply exec_frame_quiet, exec_resume_frame; done|by eapply upd_ctx_quiet]).
Qed.

Lemma run_coroutine_quiet task w w' : run_coroutine task w = Ok w' → quiet w w'.
Proof.
  unfold run_coroutine. intros. invert_ok. apply jump_fcontext_quiet in Hk0.
  etransitivity; [|exact Hk0]. clear Hk0. case_bool; invert_ok; [reflexivity|].
  destruct (malloc w) as [a w1] eqn:Em. invert_ok. apply malloc_quiet in Em.
  etransitivity; [exact Em|]. etransitivity; [by eapply upd_ctx_quiet|].
  etransitivity; [by eapply upd_ctx_quiet|]. by eapply upd_task_quiet.
Qed.

(** *** Writing to the lane *)

Lemma slots_ok_put_lane q p l lane w w' : put_lane q p l lane w = Ok w' → slots_ok w → slots_ok w'.
Proof.
  unfold put_lane, get_queue. intros E Hs. invert_ok. intros i x' Hi Hn. simpl in Hi.
  destruct (decide (i = q)) as [->|Hne].
  - rewrite list_lookup_insert_eq in Hi by (by eapply lookup_lt_Some). injection Hi as <-.
    unfold MultiQueue.put_lane in *. destruct (at_index (MultiQueue.groups_ x) p) eqn:Eg; [|eauto].
    simpl in Hn. rewrite (Hs _ _ Hx Hn) in Eg. unfold at_index in Eg. by case_bool.
  - rewrite list_lookup_insert_ne in Hi by done. eauto.
Qed.

Lemma upd_lane_slots e f w w' : upd_lane e f w = Ok w' → slots_ok w → slots_ok w'.
Proof. unfold upd_lane. intros. invert_ok. by eapply slots_ok_put_lane. Qed.

Lemma entry_at_upd_thread e off off' p t w w' :
  upd_entry e off' (LaneData.set_thread t) w = Ok w' → entry_at e off p w → entry_at e off p w'.
Proof.
  unfold upd_entry, upd_lane. intros Hu (lane & d & Hl & Hd & Hp).
  unfold lane_at in Hl. rewrite Hl in Hu. simpl in Hu.
  destruct (get_put_lane_eq _ _ _ _ (Lane.set_data (alter (LaneData.set_thread t) (Z.to_nat off')
    (Lane.data lane)) lane) _ Hl) as (w2 & Hp2 & Hg2).
  rewrite Hp2 in Hu. injection Hu as <-.
  eexists _, (if decide (Z.to_nat off' = Z.to_nat off) then LaneData.set_thread t d else d).
  split; [exact Hg2|]. simpl. case_decide as E.
  - rewrite E, list_lookup_alter_eq, Hd. done.
  - by rewrite list_lookup_alter_ne.
Qed.

(** The entry [off] of the lane is complete. *)
Definition entry_done e (off : Z) (w : Node) : Prop :=
  ∃ lane d, lane_at e w = Ok lane ∧ Lane.data lane !! Z.to_nat off = Some d ∧
    LaneData.complete_ d = true.

Lemma entry_done_quiet e off w w' : slots_ok w → entry_done e off w → quiet w w' → entry_done e off w'.
Proof.
  intros Hs (lane & d & Hl & Hd & Hc) Hq. destruct (Hq Hs) as [_ Hg].
  apply Hg in Hl as (add & Hl). exists (Lane.set_data (Lane.data lane ++ add) lane), d.
  split; [done|]. split; [|done]. simpl. by apply lookup_app_l_Some.
Qed.

Lemma entry_done_complete e off p w w' :
  entry_at e off p w → upd_entry e off LaneData.set_complete w = Ok w' → entry_done e off w'.
Proof.
  unfold upd_entry, upd_lane. intros (lane & d & Hl & Hd & Hp) Hu.
  unfold lane_at in Hl. rewrite Hl in Hu. simpl in Hu.
  destruct (get_put_lane_eq _ _ _ _ (Lane.set_data (alter LaneData.set_complete (Z.to_nat off)
    (Lane.data lane)) lane) _ Hl) as (w2 & Hp2 & Hg2).
  rewrite Hp2 in Hu. injection Hu as <-.
  eexists _, (LaneData.set_complete d). split; [exact Hg2|]. simpl.
  by rewrite list_lookup_alter_eq, Hd.
Qed.

Lemma upd_entry_complete_steps e off p o w w' :
  entry_at e off p w → get_task (Convert p) w = Ok o →
  Task.IsModuleComplete (base o) = true ∨ GetTaskState (Task.task_state_ (base o)) w = 0 →
  upd_entry e off LaneData.set_complete w = Ok w' →
  (∀ head, lane_steps head e w w') ∧ entry_done e off w'.
Proof.
  intros He Ho Hc Hu. split; [intros head|by eapply entry_done_complete].
  intros Hs. split; [by eapply upd_lane_slots|]. destruct He as (lane & d & Hl & Hd & <-).
  by eapply rtc_once, lane_completes.
Qed.

Lemma PopTask_steps e off off' w w' :
  (off = 0 → entry_done e off w) → PopTask e off w = Ok (off', w') →
  lane_steps (off' =? 0) e w w' ∧ off ≤ off'.
Proof.
  unfold PopTask. intros Hd. destruct (Z.eqb_spec off 0) as [->|]; intros; invert_ok.
  - split; [|lia]. intros Hs. split; [by eapply upd_lane_slots|].
    destruct (Hd eq_refl) as (lane & d & Hl & Hd0 & Hc).
    unfold upd_lane, lane_at in *. rewrite Hl in Hx. simpl in Hx. rewrite mpsc_pop_spec in Hx.
    destruct (Lane.data lane) as [|d' rest] eqn:E; [done|]. simpl in Hd0, Hx. injection Hd0 as ->.
    apply rtc_once. eapply lane_pops; [done|exact Hl|exact E|exact Hc|exact Hx].
  - split; [reflexivity|lia].
Qed.

Lemma EndTask_steps e exec task off off' w w' :
  (off = 0 → entry_done e off w) → EndTask e exec task off w = Ok (off', w') →
  lane_steps (off' =? 0) e w w' ∧ off ≤ off'.
Proof.
  unfold EndTask. intros Hd He. invert_ok. destruct x as [off1 w1].
  apply PopTask_steps in Hx as [Hst Ho]; [|done]. invert_ok. case_bool; invert_ok.
  - split; [|done]. etransitivity; [exact Hst|].
    apply quiet_steps, exec_frame_quiet. by eapply exec_Del_frame.
  - split; [|done]. etransitivity; [exact Hst|]. apply quiet_steps. by eapply upd_task_quiet.
Qed.

Lemma execute_steps e off off' p task exec r w w' :
  slots_ok w → entry_at e off' p w → execute e off task exec r w = Ok w' →
  (∀ head, lane_steps head e w w') ∧ entry_at e off' p w'.
Proof.
  intros Hs He. unfold execute. intros. invert_ok.
  assert (∀ w', quiet w w' → (∀ head, lane_steps head e w w') ∧ entry_at e off' p w') as Hquiet.
  { intros w'' Hq. split; [intros head; by apply quiet_steps|by eapply entry_at_quiet]. }
  case_bool; [|case_bool; [|case_bool]]; invert_ok.
  - apply Hquiet. etransitivity; [by eapply exec_frame_quiet, Disperse_frame|].
    etransitivity; [by eapply upd_task_quiet|]. etransitivity; by eapply upd_task_quiet.
  - by eapply Hquiet, run_coroutine_quiet.
  - assert (quiet w (SpawnAsyncThread task x0).2) as Hq.
    { etransitivity; [by eapply upd_task_quiet|]. by apply quiet_same. }
    destruct (SpawnAsyncThread task x0) as [tid w1]. simpl in Hq. split.
    + intros head. etransitivity; [by apply quiet_steps|]. intros Hs1. split; [by eapply upd_lane_slots|].
      by eapply rtc_once, lane_threads.
    + eapply entry_at_upd_thread; [done|]. by eapply entry_at_quiet.
  - apply Hquiet. etransitivity; [by eapply upd_task_quiet|].
    by eapply exec_frame_quiet, exec_Run_frame.
Qed.

Lemma cleanup_steps wi e off off' p exec r w w' :
  slots_ok w → entry_at e off p w → cleanup wi e off (Convert p) exec r w = Ok (off', w') →
  lane_steps (off' =? 0) e w w' ∧ off ≤ off'.
Proof.
  intros Hs He. unfold cleanup. intros. invert_ok. case_bool; invert_ok; [|split; [intros ?; by split|lia]].
  edestruct upd_entry_complete_steps as [Hst Hd]; [done|done|by left|done|].
  assert (quiet x0 x1) as Hq1.
  { case_bool; [by eapply free_quiet|]. case_bool; invert_ok; reflexivity. }
  rename select (RemoveTaskGroup _ _ _ _ _ _ = _) into Hrem. apply RemoveTaskGroup_quiet in Hrem.
  assert (quiet x0 x2) as Hq by (by etransitivity).
  rename select (EndTask _ _ _ _ _ = _) into Hend. apply EndTask_steps in Hend as [Hst2 Ho].
  - split; [|done]. etransitivity; [by apply Hst|]. etransitivity; [by apply quiet_steps|done].
  - intros _. destruct (Hst true Hs) as [Hs0 _]. by eapply entry_done_quiet.
Qed.

Lemma poll_task_steps wi e off off' p w w' :
  slots_ok w → entry_at e off p w → poll_task wi e off (Convert p) w = Ok (off', w') →
  lane_steps (off' =? 0) e w w' ∧ off ≤ off'.
Proof.
  intros Hs He. unfold poll_task. intros. invert_ok.
  assert (quiet w x1) as Hq by (transitivity x; eapply upd_ctx_quiet; eassumption).
  assert (slots_ok x1) as Hs1 by apply (Hq Hs).
  pose proof (entry_at_quiet _ _ _ _ _ Hs He Hq) as He1.
  case_bool.
  - unfold HELOG_kFatal in *. case_bool; [done|]. invert_ok.
    unfold upd_ctx, upd_task in Hx1. rewrite Hx0 in Hx1. invert_ok.
    edestruct upd_entry_complete_steps as [Hst Hd]; [done|by rewrite get_put_task_eq| |done|].
    { right. simpl. apply Z.eqb_eq. eassumption. }
    rename select (EndTask _ _ _ _ _ = _) into Hend.
    apply EndTask_steps in Hend as [Hst2 ?]; [|done]. split; [|done].
    etransitivity; [by apply quiet_steps|]. etransitivity; [apply Hst|done].
  - invert_ok. destruct x2 as [runnable w2]. invert_ok.
    assert (quiet x1 w2) as Hq2.
    { destruct (Task.IsRunDisabled (base x0)); [invert_ok; reflexivity|by eapply CheckTaskGroup_quiet]. }
    assert (slots_ok w2) as Hs2 by apply (Hq2 Hs1).
    pose proof (entry_at_quiet _ _ _ _ _ Hs1 He1 Hq2) as He2.
    assert ((∀ head, lane_steps head e w2 x2) ∧ entry_at e off p x2) as [Hst2 He3].
    { destruct runnable; [exact (execute_steps _ _ _ _ _ _ _ _ _ Hs2 He2 Hx3)|]. invert_ok. split; [reflexivity|done]. }
    rename select (cleanup _ _ _ _ _ _ _ = _) into Hcl. apply cleanup_steps in Hcl as [Hst3 ?]; [|by apply (Hst2 true)|done]. split; [|done].
    etransitivity; [by apply quiet_steps|]. etransitivity; [by apply quiet_steps|].
    etransitivity; [apply Hst2|done].
Qed.

Lemma poll_iteration_steps wi e off next w w' :
  0 ≤ off → slots_ok w → poll_iteration wi e off w = Ok (next, w') →
  lane_steps (from_option (λ off', off' =? 0) false next) e w w' ∧
  (∀ off', next = Some off' → off ≤ off').
Proof.
  intros Hoff Hs. unfold poll_iteration. intros. invert_ok.
  rewrite mpsc_peek_spec in Hk by done.
  destruct (Lane.data x !! Z.to_nat off) as [d|] eqn:Ed; [|invert_ok; split; [reflexivity|done]].
  case_bool; invert_ok; destruct x0 as [off1 w1]; invert_ok.
  - apply PopTask_steps in Hx0 as [? ?]; [|intros _; by exists x, d].
    split; [done|]. by intros ? [= <-].
  - apply poll_task_steps in Hx0 as [? ?]; [|done|by exists x, d].
    split; [done|]. by intros ? [= <-].
Qed.

Lemma poll_loop_steps wi e i off w w' :
  0 ≤ off → poll_loop wi e i off w = Ok w' → lane_steps (off =? 0) e w w'.
Proof.
  revert off w. induction i as [|i IH]; intros off w Hoff; simpl; intros Hp Hs; invert_ok.
  { split; [done|reflexivity]. }
  destruct x as [next w1]. apply poll_iteration_steps in Hx as [Hst Hnext]; [|done|done].
  destruct next as [off'|]; invert_ok; [|eapply lane_steps_mono; [|exact Hst|]; done].
  specialize (Hnext off' eq_refl). revert Hs. change (lane_steps (off =? 0) e w w').
  assert (∀ b : bool, (b = true → off' = 0) → b = true → (off =? 0) = true) as Hoff'
    by (intros b Hb E; apply Z.eqb_eq; specialize (Hb E); lia).
  etransitivity; [eapply lane_steps_mono; [|exact Hst]|eapply lane_steps_mono; [|apply (IH off'); [lia|eassumption]]].
  all: apply Hoff', Z.eqb_eq.
Qed.

(** The lane after such steps: what was not removed, in its order, then what was added. *)
Lemma lane_step_order head e w w' lane :
  lane_step head e w w' → lane_at e w = Ok lane →
  ∃ lane' k add, lane_at e w' = Ok lane' ∧
    LaneData.p_ <$> Lane.data lane' = drop k (LaneData.p_ <$> Lane.data lane) ++ add ∧
    (head = false → k = 0%nat).
Proof.
  intros Hst Hl.
  assert (∀ f off w', upd_entry e off f w = Ok w' → (∀ d, LaneData.p_ (f d) = LaneData.p_ d) →
    ∃ lane', lane_at e w' = Ok lane' ∧
      LaneData.p_ <$> Lane.data lane' = LaneData.p_ <$> Lane.data lane) as Hupd.
  { intros f off w2 Hu Hf. unfold upd_entry, upd_lane, lane_at in *. rewrite Hl in Hu. simpl in Hu.
    destruct (get_put_lane_eq _ _ _ _ (Lane.set_data (alter f (Z.to_nat off)
      (Lane.data lane)) lane) _ Hl) as (w3 & Hp3 & Hg3).
    rewrite Hp3 in Hu. injection Hu as <-. eexists. split; [exact Hg3|]. simpl.
    apply list_eq. intros i. rewrite !list_lookup_fmap.
    destruct (decide (Z.to_nat off = i)) as [->|];
      [rewrite list_lookup_alter_eq|by rewrite list_lookup_alter_ne].
    destruct (Lane.data lane !! i); simpl; [by rewrite Hf|done]. }
  destruct Hst as [w w' Hg|w w' l off d o _ _ _ _ Hu|w w' off t Hu|w w' l d rest Hhd Hl' Hd Hc Hput].
  - apply Hg in Hl as (add & Hl). eexists _, 0%nat, (LaneData.p_ <$> add).
    split; [exact Hl|]. simpl. by rewrite fmap_app.
  - destruct (Hupd _ _ _ Hu) as (l' & ? & E); [done|]. exists l', 0%nat, [].
    by rewrite app_nil_r.
  - destruct (Hupd _ _ _ Hu) as (l' & ? & E); [done|]. exists l', 0%nat, [].
    by rewrite app_nil_r.
  - rewrite Hl in Hl'. injection Hl' as <-.
    destruct (get_put_lane_eq _ _ _ _ (Lane.set_data rest lane) _ Hl) as (w3 & Hp3 & Hg3).
    rewrite Hp3 in Hput. injection Hput as <-. eexists _, 1%nat, []. split; [exact Hg3|].
    rewrite Hd, app_nil_r. split; [done|by subst].
Qed.

Lemma lane_steps_order head e w w' lane :
  rtc (lane_step head e) w w' → lane_at e w = Ok lane →
  ∃ lane' k add, lane_at e w' = Ok lane' ∧
    LaneData.p_ <$> Lane.data lane' = drop k (LaneData.p_ <$> Lane.data lane) ++ add ∧
    (head = false → k = 0%nat).
Proof.
  intros Hst. revert lane. induction Hst as [w|w w1 w' Hstep _ IH]; intros lane Hl.
  { exists lane, 0%nat, []. by rewrite app_nil_r. }
  destruct (lane_step_order _ _ _ _ _ Hstep Hl) as (lane1 & k1 & add1 & Hl1 & E1 & Hk1).
  destruct (IH lane1 Hl1) as (lane' & k & add & Hl' & E & Hk). exists lane'. rewrite E, E1, drop_app.
  eexists (k1 + k)%nat, _. split; [done|]. split; [by rewrite drop_drop, <- (assoc_L app)|].
  intros Hh. by rewrite Hk1, Hk.
Qed.

(** The pointers of the lane after [k] were taken from its head and some were appended *)
Definition lane_moves (k : nat) e (w w' : Node) : Prop :=
  ∀ lane, lane_at e w = Ok lane → ∃ lane' add, lane_at e w' = Ok lane' ∧
    LaneData.p_ <$> Lane.data lane' = drop k (LaneData.p_ <$> Lane.data lane) ++ add.

Lemma lane_moves_trans j k e w1 w2 w3 :
  lane_moves j e w1 w2 → lane_moves k e w2 w3 → lane_moves (j + k) e w1 w3.
Proof.
  intros H12 H23 lane Hl. destruct (H12 lane Hl) as (l2 & a2 & Hl2 & E2).
  destruct (H23 l2 Hl2) as (l3 & a3 & Hl3 & E3). exists l3. rewrite E3, E2, drop_app, drop_drop.
  eexists. split; [done|]. by rewrite <- (assoc_L app).
Qed.

Lemma lane_steps_moves e w w' : slots_ok w → lane_steps false e w w' → lane_moves 0 e w w'.
Proof.
  intros Hs Hst lane Hl. destruct (Hst Hs) as [_ Hr].
  destruct (lane_steps_order _ _ _ _ _ Hr Hl) as (l' & k & add & Hl' & E & Hk).
  exists l', add. by rewrite E, Hk.
Qed.

(** An iteration removes the head when the offset after it is 0, and nothing otherwise. *)
Definition removed (next : option Z) : nat :=
  match next with Some off => if off =? 0 then 1 else 0 | None => 0 end.

Lemma PopTask_moves e off off' w w' :
  0 ≤ off → PopTask e off w = Ok (off', w') →
  lane_moves (removed (Some off')) e w w' ∧ (slots_ok w → slots_ok w').
Proof.
  unfold PopTask. intros Hoff. destruct (Z.eqb_spec off 0) as [->|]; intros; invert_ok.
  - split; [|by eapply upd_lane_slots]. simpl. intros lane Hl. unfold upd_lane, lane_at in *.
    rewrite Hl in Hx. simpl in Hx.
    destruct (get_put_lane_eq _ _ _ _ (Lane.set_data (mpsc_pop (Lane.data lane)) lane) _ Hl)
      as (w2 & Hw2 & Hg). rewrite Hw2 in Hx. injection Hx as <-.
    eexists _, []. split; [exact Hg|]. rewrite app_nil_r. simpl. rewrite mpsc_pop_spec.
    by destruct (Lane.data lane).
  - unfold removed. rewrite (proj2 (Z.eqb_neq _ _)) by lia. split; [|done].
    intros lane Hl. exists lane, []. by rewrite app_nil_r.
Qed.

(** What ends an iteration: [PopTask], and before and after it steps that remove nothing *)
Lemma EndTask_moves e exec task off off' w w' :
  0 ≤ off → slots_ok w → EndTask e exec task off w = Ok (off', w') →
  lane_moves (removed (Some off')) e w w'.
Proof.
  unfold EndTask. intros Hoff Hs He. invert_ok. destruct x as [off1 w1].
  apply PopTask_moves in Hx as [Hm Hs1]; [|done]. specialize (Hs1 Hs). invert_ok.
  assert (∀ w2, quiet w1 w2 → lane_moves (removed (Some off1)) e w w2) as Hq.
  { intros w2 Hq. rewrite <- (Nat.add_0_r (removed (Some off1))).
    eapply lane_moves_trans; [exact Hm|]. by apply lane_steps_moves, quiet_steps. }
  case_bool; invert_ok; apply Hq.
  - by eapply exec_frame_quiet, exec_Del_frame.
  - by eapply upd_task_quiet.
Qed.

Lemma cleanup_moves wi e off off' p exec r w w' :
  0 ≤ off → slots_ok w → entry_at e off p w → cleanup wi e off (Convert p) exec r w = Ok (off', w') →
  lane_moves (removed (Some off')) e w w'.
Proof.
  intros Hoff Hs He. unfold cleanup. intros. invert_ok. case_bool; invert_ok.
  2: { unfold removed. rewrite (proj2 (Z.eqb_neq _ _)) by lia. by apply lane_steps_moves. }
  edestruct upd_entry_complete_steps as [Hst Hd]; [done|done|by left|done|].
  assert (quiet x0 x1) as Hq1.
  { case_bool; [by eapply free_quiet|]. case_bool; invert_ok; reflexivity. }
  rename select (RemoveTaskGroup _ _ _ _ _ _ = _) into Hrem. apply RemoveTaskGroup_quiet in Hrem.
  assert (quiet x0 x2) as Hq by (by etransitivity).
  destruct (Hst false Hs) as [Hs0 _]. destruct (Hq Hs0) as [Hs2 _].
  rename select (EndTask _ _ _ _ _ = _) into Hend.
  apply EndTask_moves in Hend; [|done|done]. rewrite <- (Nat.add_0_l (removed _)).
  eapply lane_moves_trans; [|exact Hend]. apply lane_steps_moves; [done|].
  etransitivity; [apply Hst|by apply quiet_steps].
Qed.

Lemma poll_task_moves wi e off off' p w w' :
  0 ≤ off → slots_ok w → entry_at e off p w → poll_task wi e off (Convert p) w = Ok (off', w') →
  lane_moves (removed (Some off')) e w w'.
Proof.
  intros Hoff Hs He. unfold poll_task. intros. invert_ok.
  assert (quiet w x1) as Hq by (transitivity x; eapply upd_ctx_quiet; eassumption).
  assert (slots_ok x1) as Hs1 by apply (Hq Hs).
  pose proof (entry_at_quiet _ _ _ _ _ Hs He Hq) as He1.
  case_bool.
  - unfold HELOG_kFatal in *. case_bool; [done|]. invert_ok.
    unfold upd_ctx, upd_task in Hx1. rewrite Hx0 in Hx1. invert_ok.
    edestruct upd_entry_complete_steps as [Hst Hd]; [done|by rewrite get_put_task_eq| |done|].
    { right. simpl. apply Z.eqb_eq. eassumption. }
    rename select (EndTask _ _ _ _ _ = _) into Hend.
    apply EndTask_moves in Hend; [|done|by apply (Hst false)]. rewrite <- (Nat.add_0_l (removed _)).
    eapply lane_moves_trans; [|exact Hend]. apply lane_steps_moves; [done|].
    etransitivity; [by apply quiet_steps|apply Hst].
  - invert_ok. destruct x2 as [runnable w2]. invert_ok.
    assert (quiet x1 w2) as Hq2.
    { destruct (Task.IsRunDisabled (base x0)); [invert_ok; reflexivity|by eapply CheckTaskGroup_quiet]. }
    assert (slots_ok w2) as Hs2 by apply (Hq2 Hs1).
    pose proof (entry_at_quiet _ _ _ _ _ Hs1 He1 Hq2) as He2.
    assert ((∀ head, lane_steps head e w2 x2) ∧ entry_at e off p x2) as [Hst2 He3].
    { destruct runnable; [exact (execute_steps _ _ _ _ _ _ _ _ _ Hs2 He2 Hx3)|]. invert_ok. split; [reflexivity|done]. }
    rename select (cleanup _ _ _ _ _ _ _ = _) into Hcl.
    apply cleanup_moves in Hcl; [|done|by apply (Hst2 false)|done]. rewrite <- (Nat.add_0_l (removed _)).
    eapply lane_moves_trans; [|exact Hcl]. apply lane_steps_moves; [done|].
    etransitivity; [by apply quiet_steps|]. etransitivity; [by apply quiet_steps|apply Hst2].
Qed.

Lemma poll_iteration_moves wi e off next w w' :
  0 ≤ off → slots_ok w → poll_iteration wi e off w = Ok (next, w') →
  lane_moves (removed next) e w w'.
Proof.
  intros Hoff Hs. unfold poll_iteration. intros. invert_ok.
  rewrite mpsc_peek_spec in Hk by done.
  destruct (Lane.data x !! Z.to_nat off) as [d|] eqn:Ed.
  2: { invert_ok. intros lane Hl. exists lane, []. by rewrite app_nil_r. }
  case_bool; invert_ok; destruct x0 as [off1 w1]; invert_ok; simpl.
  - by apply PopTask_moves in Hx0 as [? _].
  - by eapply poll_task_moves; [..|by exists x, d|].
Qed.

(** How many of the iterations [poll_loop] makes remove the head *)
Fixpoint removals (wi : nat) e (i : nat) (off : Z) (w : Node) : nat :=
  match i with
  | O => 0
  | S i =>
      match poll_iteration wi e off w with
      | Ok (Some off', w') => removed (Some off') + removals wi e i off' w'
      | _ => 0
      end
  end.

Lemma poll_loop_moves wi e i off w w' :
  0 ≤ off → slots_ok w → poll_loop wi e i off w = Ok w' →
  lane_moves (removals wi e i off w) e w w'.
Proof.
  revert off w. induction i as [|i IH]; intros off w Hoff Hs; simpl; intros Hp; invert_ok.
  { intros lane Hl. exists lane, []. by rewrite app_nil_r. }
  destruct x as [next w1]. rewrite Hx.
  pose proof (poll_iteration_moves _ _ _ _ _ _ Hoff Hs Hx) as Hm.
  apply poll_iteration_steps in Hx as [Hst Hnext]; [|done|done]. destruct (Hst Hs) as [Hs1 _].
  destruct next as [off'|]; invert_ok; [|done].
  eapply lane_moves_trans; [exact Hm|]. apply IH; [|done|done].
  specialize (Hnext off' eq_refl). lia.
Qed.

End refinement.

(** ** Tasks that run to completion

    A task of a lane that is ready, local and unordered (by its flags or by its library), on
    the worker's own stack, whose method changes the task only, and completes it: from a
    body that satisfies [K] to one that satisfies [Q]. *)

Section draining.
Context `{BitfieldLaws} `{MpscLaws} `{SpscOps} `{CharbufOps} `{AllocOps} `{Logger}
        `{TaskExecOps} `{RawMemory}.
Implicit Types e : WorkEntry.

Record short_task (K Q : TaskBody → Prop) (w0 : Node) (p : Z) (o : TaskObj) : Prop := {
  short_body : K (body o);
  short_heap : Node.heap w0 !! Convert p = Some o;
  short_exec : GetTaskState (Task.task_state_ (base o)) w0 ≠ 0;
  short_local : DomainId.IsRemote (Task.domain_id_ (base o)) (Z.of_nat (length (Node.hosts_ w0)))
                  (Node.node_id_ w0) = false;
  short_enabled : Task.IsRunDisabled (base o) = false;
  short_fresh : Task.IsStarted (base o) = false;
  short_stack : Task.IsCoroutine (base o) = false;
  short_thread : Task.IsPreemptive (base o) = false;
  short_kept : Task.IsFireAndForget (base o) = false;
  short_run w o1 :
    K (body o1) → Task.method_ (base o1) = Task.method_ (base o) →
    Node.heap w !! Convert p = Some o1 → Node.states w = Node.states w0 →
    ∃ o2, exec_Run (GetTaskState (Task.task_state_ (base o)) w0) (Task.method_ (base o))
            (Convert p) w = Ok (put_task (Convert p) o2 w) ∧
          base o2 = Task.SetModuleComplete (base o1) ∧ Q (body o2);
  short_group w o1 group :
    K (body o1) ∨ Q (body o1) → Task.method_ (base o1) = Task.method_ (base o) →
    Node.heap w !! Convert p = Some o1 → Node.states w = Node.states w0 →
    ∃ ret group', exec_GetGroup (GetTaskState (Task.task_state_ (base o)) w0)
      (Task.method_ (base o)) (Convert p) group w = Ok (ret, group') ∧
      (ret = TASK_UNORDERED ∨ Task.IsUnordered (base o) = true);
}.

(** What polling a lane of the queue [q] leaves as it was: the states and their registry, the
    identities of the node and of its remote queue, and the other queues; with such tasks, the
    groups of the workers too. *)
Definition env_kept (q : nat) (w w' : Node) : Prop :=
  Node.states w' = Node.states w ∧ Node.task_registry_ w' = Node.task_registry_ w ∧
  Node.node_id_ w' = Node.node_id_ w ∧ Node.hosts_ w' = Node.hosts_ w ∧
  Node.remote_queue_ w' = Node.remote_queue_ w ∧ Node.rpcs_ w' = Node.rpcs_ w ∧
  ∀ q', q' ≠ q → Node.queue_map_ w' !! q' = Node.queue_map_ w !! q'.

#[export] Instance env_kept_preorder q : PreOrder (env_kept q).
Proof.
  split; [by intros w|]. intros w1 w2 w3 (?&?&?&?&?&?&Hq) (?&?&?&?&?&?&Hq').
  split_and!; try congruence. intros q' Hne. by rewrite Hq', Hq.
Qed.

Definition same_node (q : nat) (w w' : Node) : Prop :=
  env_kept q w w' ∧ groups_of w' = groups_of w.

#[export] Instance same_node_preorder q : PreOrder (same_node q).
Proof.
  split; [by intros w|].
  intros w1 w2 w3 [H12 G12] [H23 G23]. split; [by transitivity w2|congruence].
Qed.

Lemma same_node_workers q w w' :
  same_node q w w' → length (Node.workers_ w') = length (Node.workers_ w).
Proof.
  intros [_ E]. apply (f_equal length) in E. unfold groups_of in E.
  by rewrite !length_fmap in E.
Qed.

Lemma upd_lane_Ok e f w lane :
  lane_at e w = Ok lane →
  ∃ w', upd_lane e f w = Ok w' ∧ lane_at e w' = Ok (Lane.set_data (f (Lane.data lane)) lane) ∧
    Node.heap w' = Node.heap w ∧ same_node (WorkEntry.queue_ e) w w'.
Proof.
  intros Hl. unfold upd_lane. unfold lane_at in *. rewrite Hl. simpl.
  destruct (get_put_lane_eq _ _ _ _ (Lane.set_data (f (Lane.data lane)) lane) _ Hl)
    as (w' & Hp & Hg).
  rewrite Hp. exists w'. split; [done|]. split; [done|].
  unfold put_lane in Hp. invert_ok. split; [done|]. split; [|done]. split_and!; try done.
  intros q' Hne. simpl. by rewrite list_lookup_insert_ne.
Qed.

(** The queues with another lane in the place of [e]'s *)
Definition queues_with (e : WorkEntry) (lane : Lane) : list MultiQueue → list MultiQueue :=
  alter (λ x, MultiQueue.put_lane x (WorkEntry.prio_ e) (WorkEntry.lane_id_ e) lane)
    (WorkEntry.queue_ e).

Lemma queues_with_with e l1 l2 qs : queues_with e l2 (queues_with e l1 qs) = queues_with e l2 qs.
Proof.
  unfold queues_with. apply list_eq. intros i. destruct (decide (WorkEntry.queue_ e = i)) as [<-|Hne].
  - rewrite !list_lookup_alter_eq. destruct (qs !! _) as [q|]; [|done]. simpl. by rewrite put_put_lane.
  - by rewrite !list_lookup_alter_ne.
Qed.

Lemma queues_with_id e lane w :
  lane_at e w = Ok lane → queues_with e lane (Node.queue_map_ w) = Node.queue_map_ w.
Proof.
  unfold lane_at, get_lane, get_queue. intros. invert_ok.
  unfold queues_with. apply list_eq. intros i. destruct (decide (WorkEntry.queue_ e = i)) as [<-|Hne].
  - rewrite list_lookup_alter_eq, Hx. simpl. by rewrite put_lane_id.
  - by rewrite list_lookup_alter_ne.
Qed.

Lemma put_queue_with e lane w x :
  get_queue (WorkEntry.queue_ e) w = Ok x →
  Node.queue_map_ (put_queue (WorkEntry.queue_ e)
    (MultiQueue.put_lane x (WorkEntry.prio_ e) (WorkEntry.lane_id_ e) lane) w) =
  queues_with e lane (Node.queue_map_ w).
Proof.
  intros Hx%deref_Ok. unfold queues_with. simpl. apply list_eq. intros i.
  destruct (decide (WorkEntry.queue_ e = i)) as [<-|Hne].
  - by rewrite list_lookup_alter_eq, list_lookup_insert_eq, Hx by (by eapply lookup_lt_Some).
  - by rewrite list_lookup_insert_ne, list_lookup_alter_ne.
Qed.

Lemma upd_lane_queues e f w lane w' :
  lane_at e w = Ok lane → upd_lane e f w = Ok w' →
  Node.queue_map_ w' = queues_with e (Lane.set_data (f (Lane.data lane)) lane) (Node.queue_map_ w).
Proof.
  unfold upd_lane. unfold lane_at. intros Hl. rewrite Hl. simpl. unfold put_lane. intros. invert_ok.
  by apply put_queue_with.
Qed.

Lemma task_group_unordered K Q wi e w0 p o w o1 lid :
  short_task K Q w0 p o → K (body o1) ∨ Q (body o1) → Node.heap w !! Convert p = Some o1 →
  Task.method_ (base o1) = Task.method_ (base o) →
  Task.IsUnordered (base o1) = Task.IsUnordered (base o) →
  Node.states w = Node.states w0 → (wi < length (Node.workers_ w))%nat →
  ∃ w', task_group wi (Convert p) (GetTaskState (Task.task_state_ (base o)) w0) lid w = Ok (None, w') ∧
    Node.heap w' = Node.heap w ∧ Node.queue_map_ w' = Node.queue_map_ w ∧ same_node (WorkEntry.queue_ e) w w'.
Proof.
  intros Hs HK Hh Hm Hu Hst Hwi. unfold task_group, get_task. rewrite Hh. simpl.
  destruct (lookup_lt_is_Some_2 _ _ Hwi) as [wk Hwk]. unfold get_worker. rewrite Hwk. simpl.
  rewrite Hm. destruct (short_group _ _ _ _ _ Hs w o1 (Worker.group_ wk)) as (ret & g & Hg & Hret); [done..|].
  rewrite Hg. simpl.
  replace ((ret =? TASK_UNORDERED) || Task.IsUnordered (base o1)) with true
    by (rewrite Hu; destruct Hret as [-> | ->]; by rewrite ?Z.eqb_refl, ?orb_true_r). eexists. split; [done|]. simpl.
  split; [done|]. split; [done|]. split; [by split_and!|]. unfold groups_of. simpl.
  rewrite list_fmap_insert. apply list_insert_id. by rewrite list_lookup_fmap, Hwk.
Qed.

Lemma flag_SetModuleComplete n (t : Task) :
  0 ≤ n < 32 → n ≠ 10 → Task.AnyTaskFlags (BIT_OPT n) (Task.SetModuleComplete t) =
    Task.AnyTaskFlags (BIT_OPT n) t.
Proof.
  intros Hn Hne. unfold_task_flags. rewrite !Any_testbit, testbit_SetBits, testbit_BIT_OPT by lia.
  rewrite (proj2 (Z.eqb_neq _ _)) by lia. by rewrite orb_false_r.
Qed.

Lemma flag_SetStarted n (t : Task) :
  0 ≤ n < 32 → n ≠ 8 → Task.AnyTaskFlags (BIT_OPT n) (Task.SetStarted t) =
    Task.AnyTaskFlags (BIT_OPT n) t.
Proof.
  intros Hn Hne. unfold_task_flags. rewrite !Any_testbit, testbit_SetBits, testbit_BIT_OPT by lia.
  rewrite (proj2 (Z.eqb_neq _ _)) by lia. by rewrite orb_false_r.
Qed.

(** The body of [poll_task] on such a task, up to its cleanup *)
Lemma short_execute K Q wi e w0 p o w o1 :
  short_task K Q w0 p o → Node.heap w !! Convert p = Some o1 → K (body o1) →
  Task.method_ (base o1) = Task.method_ (base o) → Task.task_flags_ (base o1) = Task.task_flags_ (base o) →
  Node.states w = Node.states w0 → (wi < length (Node.workers_ w))%nat →
  let exec := GetTaskState (Task.task_state_ (base o)) w0 in
  ∃ w1 w2 o2, CheckTaskGroup wi (Convert p) exec (WorkEntry.lane_id_ e) (Task.task_node_ (base o)) false w
      = Ok (true, w1) ∧
    execute e 0 (Convert p) exec false w1 = Ok w2 ∧
    Node.heap w2 = <[Convert p := o2]> (Node.heap w) ∧ Node.queue_map_ w2 = Node.queue_map_ w ∧
    same_node (WorkEntry.queue_ e) w w2 ∧ Q (body o2) ∧ Task.method_ (base o2) = Task.method_ (base o) ∧
    Task.task_flags_ (base o2) =
      Task.task_flags_ (Task.SetModuleComplete (Task.SetStarted (base o))) ∧
    Task.delcnt_ (base o2) = Task.delcnt_ (base o1).
Proof.
  intros Hs Hh Hb Hm Hf Hst Hwi exec.
  assert (∀ m, Task.AnyTaskFlags m (base o1) = Task.AnyTaskFlags m (base o)) as Hflags.
  { intros m. unfold Task.AnyTaskFlags. by rewrite Hf. }
  destruct (task_group_unordered K Q wi e w0 p o w o1 (WorkEntry.lane_id_ e)) as (w1 & Hg & Hh1 & Hq1 & Hn1);
    try done. { by left. } { unfold Task.IsUnordered. by rewrite Hflags. }
  unfold CheckTaskGroup. unfold get_task at 1. rewrite Hh. simpl.
  assert (Task.IsStarted (base o1) = false ∧ Task.IsCoroutine (base o1) = false ∧
    Task.IsPreemptive (base o1) = false) as (Hf1 & Hf2 & Hf3).
  { unfold Task.IsStarted, Task.IsCoroutine, Task.IsPreemptive. rewrite !Hflags.
    split_and!; [apply (short_fresh _ _ _ _ _ Hs)|apply (short_stack _ _ _ _ _ Hs)|apply (short_thread _ _ _ _ _ Hs)]. }
  rewrite Hf1. fold exec in Hg. rewrite Hg. simpl.
  destruct (short_run _ _ _ _ _ Hs (put_task (Convert p) (on_base Task.SetStarted o1) w1)
    (on_base Task.SetStarted o1)) as (o2 & Hrun & Hb2 & HK2).
  - done.
  - exact Hm.
  - simpl. by rewrite lookup_insert_eq.
  - simpl. destruct Hn1 as [(-> & _) _]. exact Hst.
  - exists w1. eexists _, o2. split; [done|].
    split. { unfold execute, upd_task, get_task. rewrite Hh1, Hh. simpl. rewrite Hf2, Hf3. simpl.
             rewrite Hm. exact Hrun. }
    simpl. rewrite insert_insert_eq, Hh1. split; [done|]. split; [done|]. split; [exact Hn1|].
    split; [done|]. rewrite Hb2. simpl. by rewrite Hm, Hf, <- Hf.
Qed.

Lemma lane_at_same e w w' : Node.queue_map_ w' = Node.queue_map_ w → lane_at e w' = lane_at e w.
Proof. intros E. unfold lane_at, get_lane, get_queue. by rewrite E. Qed.

Lemma GetTaskState_same id w w' :
  Node.task_registry_ w' = Node.task_registry_ w → GetTaskState id w' = GetTaskState id w.
Proof. intros E. unfold GetTaskState. by rewrite E. Qed.

Lemma upd_task_Ok a f w o :
  Node.heap w !! a = Some o → upd_task a f w = Ok (put_task a (on_base f o) w).
Proof. intros Hh. unfold upd_task, get_task. by rewrite Hh. Qed.

(** The flags of the task once its method returned *)
Lemma short_flags K Q w0 p o (t : Task) :
  short_task K Q w0 p o →
  Task.task_flags_ t = Task.task_flags_ (Task.SetModuleComplete (Task.SetStarted (base o))) →
  Task.IsModuleComplete t = true ∧ Task.IsCoroutine t = false ∧ Task.IsPreemptive t = false ∧
  Task.IsFireAndForget t = false ∧ Task.IsUnordered t = Task.IsUnordered (base o).
Proof.
  intros Hs Hf.
  assert (∀ m, Task.AnyTaskFlags m t =
    Task.AnyTaskFlags m (Task.SetModuleComplete (Task.SetStarted (base o)))) as E.
  { intros m. unfold Task.AnyTaskFlags. by rewrite Hf. }
  split_and!; unfold Task.IsModuleComplete, Task.IsCoroutine, Task.IsPreemptive,
    Task.IsFireAndForget, Task.IsUnordered; rewrite E.
  - apply IsModuleComplete_set.
  - unfold TASK_COROUTINE. rewrite flag_SetModuleComplete, flag_SetStarted by lia. apply Hs.
  - unfold TASK_PREEMPTIVE. rewrite flag_SetModuleComplete, flag_SetStarted by lia. apply Hs.
  - unfold TASK_FIRE_AND_FORGET. rewrite flag_SetModuleComplete, flag_SetStarted by lia. apply Hs.
  - unfold TASK_UNORDERED. by rewrite flag_SetModuleComplete, flag_SetStarted by lia.
Qed.

(** The cleanup of such a task *)
Lemma short_cleanup K Q wi e w0 p o w o2 lane d rest :
  short_task K Q w0 p o → Node.heap w !! Convert p = Some o2 → Q (body o2) →
  Task.method_ (base o2) = Task.method_ (base o) →
  Task.task_flags_ (base o2) = Task.task_flags_ (Task.SetModuleComplete (Task.SetStarted (base o))) →
  Node.states w = Node.states w0 → (wi < length (Node.workers_ w))%nat →
  lane_at e w = Ok lane → Lane.data lane = d :: rest →
  ∃ w', cleanup wi e 0 (Convert p) (GetTaskState (Task.task_state_ (base o)) w0) false w = Ok (0, w') ∧
    lane_at e w' = Ok (Lane.set_data rest lane) ∧
    Node.heap w' = <[Convert p := on_base Task.SetComplete o2]> (Node.heap w) ∧ same_node (WorkEntry.queue_ e) w w' ∧
    Node.queue_map_ w' = queues_with e (Lane.set_data rest lane) (Node.queue_map_ w).
Proof.
  intros Hs Hh HK Hm Hf Hst Hwi Hl Hd.
  destruct (short_flags _ _ _ _ _ _ Hs Hf) as (F1 & F2 & F3 & F4 & F5).
  unfold cleanup. unfold get_task at 1. rewrite Hh. simpl. rewrite F1.
  destruct (upd_lane_Ok e (alter LaneData.set_complete (Z.to_nat 0)) w lane Hl)
    as (w1 & Hu & Hl1 & Hh1 & Hn1).
  unfold upd_entry. rewrite Hu. simpl. rewrite F2, F3. simpl.
  destruct (task_group_unordered K Q wi e w0 p o w1 o2 (WorkEntry.lane_id_ e)) as (w2 & Hg & Hh2 & Hq2 & Hn2);
    try done.
  { by right. }
  { by rewrite Hh1. }
  { destruct Hn1 as [(-> & _) _]. exact Hst. }
  { by rewrite (same_node_workers _ _ _ Hn1). }
  rewrite Hg. simpl.
  destruct (upd_lane_Ok e mpsc_pop w2 _ (eq_trans (lane_at_same e _ _ Hq2) Hl1))
    as (w3 & Hu3 & Hl3 & Hh3 & Hn3).
  unfold EndTask, PopTask. simpl. rewrite Hu3. simpl.
  unfold get_task at 1. rewrite Hh3, Hh2, Hh1, Hh. simpl. rewrite F4, andb_false_r.
  erewrite upd_task_Ok by (by rewrite Hh3, Hh2, Hh1). simpl.
  eexists. split; [done|]. split.
  - transitivity (lane_at e w3); [done|]. rewrite Hl3.
    rewrite mpsc_pop_spec. simpl. rewrite Hd. simpl. done.
  - split; [simpl; by rewrite Hh3, Hh2, Hh1|].
    split; [transitivity w1; [done|]; transitivity w2; [done|exact Hn3]|]. simpl.
    rewrite (upd_lane_queues _ _ _ _ _ (eq_trans (lane_at_same e _ _ Hq2) Hl1) Hu3), Hq2.
    rewrite (upd_lane_queues _ _ _ _ _ Hl Hu), queues_with_with, mpsc_pop_spec. simpl. by rewrite Hd.
Qed.

Lemma short_iteration K Q wi e w0 p o w lane rest :
  short_task K Q w0 p o → Node.heap w !! Convert p = Some o → same_node (WorkEntry.queue_ e) w0 w →
  (wi < length (Node.workers_ w0))%nat →
  lane_at e w = Ok lane → Lane.data lane = LaneData.make p false :: rest →
  ∃ w' o', poll_iteration wi e 0 w = Ok (Some 0, w') ∧
    lane_at e w' = Ok (Lane.set_data rest lane) ∧
    Node.heap w' = <[Convert p := o']> (Node.heap w) ∧
    Task.IsComplete (base o') = true ∧ Task.delcnt_ (base o') = Task.delcnt_ (base o) ∧
    Task.method_ (base o') = Task.method_ (base o) ∧
    Node.queue_map_ w' = queues_with e (Lane.set_data rest lane) (Node.queue_map_ w) ∧
    Q (body o') ∧ same_node (WorkEntry.queue_ e) w0 w'.
Proof.
  intros Hs Hh Hn Hwi Hl Hd. pose proof (same_node_workers _ _ _ Hn) as Hwk'.
  destruct Hn as [(Hst & Hreg & Hid & Hhosts & Hrq & Hrp & Hqs) Hwk].
  unfold poll_iteration. unfold lane_at in Hl. rewrite Hl. simpl.
  rewrite mpsc_peek_spec, Hd by lia. simpl.
  unfold poll_task, upd_ctx. erewrite upd_task_Ok by done. cbn [mbind outcome_bind].
  rewrite get_put_task_eq. cbn [mbind outcome_bind].
  erewrite upd_task_Ok by apply lookup_insert_eq. cbn [mbind outcome_bind].
  set (o0 := on_base _ o).
  assert (GetTaskState (Task.task_state_ (base o0)) (put_task (Convert p) o0 w) =
          GetTaskState (Task.task_state_ (base o)) w0) as Hex by (by apply GetTaskState_same).
  rewrite Hex, put_put_task. set (o1 := on_base _ o0). set (w1 := put_task _ o1 w).
  rewrite (proj2 (Z.eqb_neq _ _) (short_exec _ _ _ _ _ Hs)).
  change (Node.hosts_ w1) with (Node.hosts_ w). change (Node.node_id_ w1) with (Node.node_id_ w).
  change (Task.domain_id_ (base o0)) with (Task.domain_id_ (base o)).
  change (Task.task_node_ (base o0)) with (Task.task_node_ (base o)).
  rewrite Hhosts, Hid, (short_local _ _ _ _ _ Hs).
  change (Task.IsRunDisabled (base o0)) with (Task.IsRunDisabled (base o)).
  rewrite (short_enabled _ _ _ _ _ Hs).
  destruct (short_execute K Q wi e w0 p o w1 o1) as (w2 & w3 & o2 & Hc & He & Hh3 & Hq3 & Hn3 & HK & Hm & Hf & Hdel);
    try done.
  { apply lookup_insert_eq. } { apply Hs. } { simpl. by rewrite Hwk'. }
  rewrite Hc. cbn [mbind outcome_bind]. rewrite He. cbn [mbind outcome_bind].
  destruct (short_cleanup K Q wi e w0 p o w3 o2 lane (LaneData.make p false) rest) as (w4 & Hcl & Hl4 & Hh4 & Hn4 & Hq4);
    try done.
  { by rewrite Hh3, lookup_insert_eq. }
  { destruct Hn3 as [(-> & _) _]. exact Hst. }
  { rewrite (same_node_workers _ _ _ Hn3). simpl. by rewrite Hwk'. }
  { by rewrite (lane_at_same e _ _ Hq3). }
  rewrite Hcl. cbn [mbind outcome_bind]. exists w4, (on_base Task.SetComplete o2). split; [done|].
  split; [done|]. split; [|split; [|split; [exact Hdel|split; [exact Hm|split; [|split; [done|]]]]]].
  - rewrite Hh4, Hh3, insert_insert_eq. simpl. by rewrite insert_insert_eq.
  - apply IsComplete_set.
  - by rewrite Hq4, Hq3.
  - transitivity w; [by split; [split_and!|]|]. transitivity w1; [by split; [split_and!|]|]. by transitivity w3.
Qed.

(** One poll of the lane as the sequence [ws] of the nodes between its iterations: each serves
    the task at the head, which until then was as in [w0], and leaves the tasks behind it; the
    last finds the lane empty. *)
Record served (Q : Z → TaskBody → Prop) (wi : nat) e (lane : Lane) (w0 : Node) (ps : list Z)
    (ws : list Node) : Prop := {
  served_length : length ws = S (length ps);
  served_step i p a b : ps !! i = Some p → ws !! i = Some a → ws !! S i = Some b →
    lane_at e a = Ok (Lane.set_data ((λ p, LaneData.make p false) <$> drop i ps) lane) ∧
    Node.heap a !! Convert p = Node.heap w0 !! Convert p ∧
    poll_iteration wi e 0 a = Ok (Some 0, b) ∧
    ∃ o, Node.heap b = <[Convert p := o]> (Node.heap a) ∧ Task.IsComplete (base o) = true ∧
      Q p (body o);
  served_last b : ws !! length ps = Some b → poll_iteration wi e 0 b = Ok (None, b);
}.

Lemma served_nil Q wi e lane w0 w :
  lane_at e w = Ok (Lane.set_data [] lane) → served Q wi e lane w0 [] [w].
Proof.
  intros Hl. split; [done|done|]. intros b [= <-]. unfold poll_iteration.
  unfold lane_at in Hl. rewrite Hl. simpl. by rewrite mpsc_peek_spec by lia.
Qed.

Lemma served_cons Q wi e lane w0 p ps w w1 ws o :
  lane_at e w = Ok (Lane.set_data ((λ p, LaneData.make p false) <$> p :: ps) lane) →
  Node.heap w !! Convert p = Node.heap w0 !! Convert p →
  poll_iteration wi e 0 w = Ok (Some 0, w1) → Node.heap w1 = <[Convert p := o]> (Node.heap w) →
  Task.IsComplete (base o) = true → Q p (body o) →
  ws !! 0%nat = Some w1 → served Q wi e lane w0 ps ws → served Q wi e lane w0 (p :: ps) (w :: ws).
Proof.
  intros Hl Hp Hit Hh Hc HQ Hfst [Hlen Hstep Hlast]. split.
  - simpl. by rewrite Hlen.
  - intros [|i] q a b Hq Ha Hb; [|by apply (Hstep i)]. simpl in Hq, Ha, Hb.
    rewrite Hfst in Hb. simplify_eq. split; [done|]. split; [done|]. split; [done|]. by exists o.
  - intros b Hb. by apply Hlast.
Qed.

Lemma short_loop (K Q : Z → TaskBody → Prop) wi e w0 lane ps : ∀ i w,
  Forall (λ p, ∃ o, short_task (K p) (Q p) w0 p o) ps → NoDup (Convert <$> ps) →
  (∀ p, p ∈ ps → Node.heap w !! Convert p = Node.heap w0 !! Convert p) →
  same_node (WorkEntry.queue_ e) w0 w → (wi < length (Node.workers_ w0))%nat →
  lane_at e w = Ok (Lane.set_data ((λ p, LaneData.make p false) <$> ps) lane) →
  (length ps ≤ i)%nat →
  ∃ w' ws, poll_loop wi e i 0 w = Ok w' ∧ lane_at e w' = Ok (Lane.set_data [] lane) ∧
    (∀ p, p ∈ ps → ∃ o, Node.heap w' !! Convert p = Some o ∧ Task.IsComplete (base o) = true ∧
      Q p (body o)) ∧
    (∀ a, a ∉ Convert <$> ps → Node.heap w' !! a = Node.heap w !! a) ∧
    ws !! 0%nat = Some w ∧ ws !! length ps = Some w' ∧ served Q wi e lane w0 ps ws.
Proof.
  induction ps as [|p ps IH]; intros i w Hs Hnd Hh Hn Hwi Hl Hi.
  - exists w, [w]. split; [|split_and!; try done; [by intros ? ?%not_elem_of_nil|by apply served_nil]].
    destruct i; [done|]. simpl.
    by rewrite (served_last _ _ _ _ _ _ _ (served_nil Q wi e lane w0 w Hl) w eq_refl).
  - destruct i as [|i]; [simpl in Hi; lia|]. apply Forall_cons in Hs as [[o Ho] Hs].
    rewrite fmap_cons in Hnd. apply NoDup_cons in Hnd as [Hp Hnd].
    assert (Node.heap w !! Convert p = Some o) as Hho.
    { rewrite Hh by (by left). apply Ho. }
    destruct (short_iteration (K p) (Q p) wi e w0 p o w _ (fmap (M:=list) (λ p, LaneData.make p false) ps) Ho Hho Hn Hwi Hl eq_refl)
      as (w1 & o' & Hit & Hl1 & Hh1 & Hc & _ & _ & _ & HQ & Hn1).
    simpl. rewrite Hit. simpl.
    destruct (IH i w1 Hs Hnd) as (w' & ws & Hloop & Hl' & Hdone & Hsame & Hfst & Hw' & Hws); try done.
    { intros q Hq. rewrite Hh1, lookup_insert_ne; [apply Hh; by right|].
      intros E. apply Hp. rewrite E. by apply list_elem_of_fmap_2. }
    { simpl in Hi. lia. }
    exists w', (w :: ws). split; [done|]. split; [done|]. split; [|split; [|split; [done|]; split; [done|]]].
    + intros q [->|Hq]%elem_of_cons; [|by apply Hdone]. exists o'. split; [|done].
      by rewrite Hsame, Hh1, lookup_insert_eq.
    + intros a [Ha1 Ha2]%not_elem_of_cons. by rewrite Hsame, Hh1, lookup_insert_ne.
    + eapply served_cons; try done. apply Hh. by left.
Qed.

End draining.

(** The group is cleared before the lane id is written to it. *)
Lemma add_lane_id_spec `{CharbufLaws} lane_id group :
  add_lane_id lane_id group = Ok (le_bytes 4 lane_id).
Proof. unfold add_lane_id, LocalSerialize_new. by rewrite buf_resize_0, shl_appends. Qed.

(** The worker with the group map [m] and the group of a lane in its buffer *)
Definition with_groups (wk : Worker) (lane_id : Z) (m : gmap (list Z) TaskNode) : Worker :=
  Worker.set_group_map m (Worker.set_group (le_bytes 4 lane_id) wk).

Section group_lemmas.
Context `{BitfieldOps} `{CharbufLaws} `{Logger} `{TaskExecOps}.

(** The group of an ordered task is the lane's. *)
Lemma task_group_lane wi task exec lane_id (w : Node) o wk ret group :
  get_task task w = Ok o → get_worker wi w = Ok wk →
  exec_GetGroup exec (Task.method_ (base o)) task (Worker.group_ wk) w = Ok (ret, group) →
  ret ≠ TASK_UNORDERED → Task.IsUnordered (base o) = false →
  task_group wi task exec lane_id w = Ok (Some (le_bytes 4 lane_id),
    put_worker wi (Worker.set_group (le_bytes 4 lane_id) wk) w).
Proof.
  intros Ho Hw Hg Hret Hu. unfold task_group. rewrite Ho. cbn [mbind outcome_bind]. rewrite Hw.
  cbn [mbind outcome_bind]. rewrite Hg. cbn [mbind outcome_bind].
  rewrite Hu, orb_false_r, (proj2 (Z.eqb_neq _ _) Hret), add_lane_id_spec.
  cbn [mbind outcome_bind]. unfold put_worker, Node.set_workers. simpl.
  by rewrite list_insert_insert_eq.
Qed.

Lemma CheckTaskGroup_lane wi task exec lane_id node (w : Node) o wk ret group :
  get_task task w = Ok o → get_worker wi w = Ok wk →
  exec_GetGroup exec (Task.method_ (base o)) task (Worker.group_ wk) w = Ok (ret, group) →
  ret ≠ TASK_UNORDERED → Task.IsUnordered (base o) = false → Task.IsStarted (base o) = false →
  CheckTaskGroup wi task exec lane_id node false w =
    let '(admitted, m) := enter_group (le_bytes 4 lane_id) node (Worker.group_map_ wk) in
    Ok (admitted, put_worker wi (with_groups wk lane_id m) w).
Proof.
  intros Ho Hw Hg Hret Hu Hs. unfold CheckTaskGroup. rewrite Ho. cbn [mbind outcome_bind orb].
  rewrite Hs. erewrite task_group_lane by done. cbn [mbind outcome_bind].
  erewrite get_put_worker_eq by done. cbn [mbind outcome_bind Worker.set_group Worker.group_map_].
  destruct (enter_group _ _ _) as [b m]. unfold put_worker, Node.set_workers. simpl.
  by rewrite list_insert_insert_eq.
Qed.

Lemma RemoveTaskGroup_lane wi task exec lane_id (w : Node) o wk ret group m :
  get_task task w = Ok o → get_worker wi w = Ok wk →
  exec_GetGroup exec (Task.method_ (base o)) task (Worker.group_ wk) w = Ok (ret, group) →
  ret ≠ TASK_UNORDERED → Task.IsUnordered (base o) = false →
  leave_group (le_bytes 4 lane_id) (Worker.group_map_ wk) = Ok m →
  RemoveTaskGroup wi task exec lane_id false w = Ok (put_worker wi (with_groups wk lane_id m) w).
Proof.
  intros Ho Hw Hg Hret Hu Hm. unfold RemoveTaskGroup. erewrite task_group_lane by done.
  cbn [mbind outcome_bind]. erewrite get_put_worker_eq by done.
  cbn [mbind outcome_bind Worker.set_group Worker.group_map_]. rewrite Hm. cbn [mbind outcome_bind].
  unfold put_worker, Node.set_workers. simpl. by rewrite list_insert_insert_eq.
Qed.

End group_lemmas.

(** ** How often a lane is polled *)

Section frequency.
Context `{BitfieldOps} `{MpscOps} `{SpscOps} `{CharbufOps} `{AllocOps} `{Logger}
        `{TaskExecOps} `{RawMemory}.

(** The count of the [j]-th entry of the work queue of a worker set to [c] *)
Definition with_count (wi j : nat) (wk : Worker) (e : WorkEntry) (c : Z) (w : Node) : Node :=
  put_worker wi (Worker.set_work_queue (<[j := WorkEntry.set_count c e]> (Worker.work_queue_ wk)) wk) w.

Lemma with_count_twice wi j wk e c c' w :
  get_worker wi w = Ok wk → Worker.work_queue_ wk !! j = Some e →
  let wk' := Worker.set_work_queue (<[j := WorkEntry.set_count c e]> (Worker.work_queue_ wk)) wk in
  get_worker wi (with_count wi j wk e c w) = Ok wk' ∧
  Worker.work_queue_ wk' !! j = Some (WorkEntry.set_count c e) ∧
  with_count wi j wk' (WorkEntry.set_count c e) c' (with_count wi j wk e c w) =
    with_count wi j wk e c' w.
Proof.
  intros Hw Hj wk'. split; [by eapply get_put_worker_eq|]. split.
  { simpl. apply list_lookup_insert_eq. by eapply lookup_lt_Some. }
  unfold with_count, put_worker, Node.set_workers. simpl. rewrite list_insert_insert_eq.
  unfold wk', Worker.set_work_queue. simpl. by rewrite list_insert_insert_eq.
Qed.

Lemma Run_entry_ordinary wi j wk e lane w :
  get_worker wi w = Ok wk → Worker.work_queue_ wk !! j = Some e →
  get_lane (WorkEntry.queue_ e) (WorkEntry.prio_ e) (WorkEntry.lane_id_ e) w = Ok lane →
  Any (Lane.flags_ lane) QUEUE_LOW_LATENCY = false →
  let c := wrap32 (WorkEntry.count_ e + 1) in
  Run_entry wi j w =
    if c `mod` 4096 =? 0 then PollGrouped wi (WorkEntry.set_count c e) (with_count wi j wk e c w)
    else Ok (with_count wi j wk e c w).
Proof.
  intros Hw Hj Hl Ha c. unfold Run_entry. rewrite Hw. simpl. rewrite Hj. simpl. rewrite Hl. simpl.
  rewrite Ha. simpl. fold c. by destruct (c `mod` 4096 =? 0).
Qed.

Lemma wrap32_mod_4096 z : wrap32 z `mod` 4096 = z `mod` 4096.
Proof.
  unfold wrap32. symmetry. apply Znumtheory.Zmod_div_mod; [lia|lia|].
  exists (2 ^ 20). reflexivity.
Qed.

Lemma Run_entry_times wi j wk e lane w k :
  get_worker wi w = Ok wk → Worker.work_queue_ wk !! j = Some e →
  get_lane (WorkEntry.queue_ e) (WorkEntry.prio_ e) (WorkEntry.lane_id_ e) w = Ok lane →
  Any (Lane.flags_ lane) QUEUE_LOW_LATENCY = false →
  (0 < k)%nat → WorkEntry.count_ e `mod` 4096 + Z.of_nat k < 4096 →
  times k (Run_entry wi j) w = Ok (with_count wi j wk e (wrap32 (WorkEntry.count_ e + Z.of_nat k)) w).
Proof.
  intros Hw Hj Hl Ha. induction k as [|k IH]; intros Hk Hc; [lia|].
  rewrite times_S_last. destruct k as [|k].
  - simpl. rewrite (Run_entry_ordinary _ _ _ _ _ _ Hw Hj Hl Ha).
    rewrite wrap32_mod_4096, <- Zplus_mod_idemp_l, Z.mod_small, (proj2 (Z.eqb_neq _ _)); [done|..];
      pose proof (Z.mod_pos_bound (WorkEntry.count_ e) 4096); lia.
  - rewrite IH by lia. cbn [mbind outcome_bind]. set (c := wrap32 _).
    destruct (with_count_twice wi j wk e c (wrap32 (c + 1)) w Hw Hj) as (Hw' & Hj' & Heq).
    rewrite (Run_entry_ordinary _ _ _ _ lane _ Hw' Hj' Hl Ha).
    cbn [WorkEntry.count_ WorkEntry.set_count]. rewrite Heq.
    assert (wrap32 (c + 1) = wrap32 (WorkEntry.count_ e + Z.of_nat (S (S k)))) as ->.
    { unfold c, wrap32. rewrite Zplus_mod_idemp_l. f_equal. lia. }
    rewrite wrap32_mod_4096, <- Zplus_mod_idemp_l, Z.mod_small, (proj2 (Z.eqb_neq _ _)); [done|..];
      pose proof (Z.mod_pos_bound (WorkEntry.count_ e) 4096); lia.
Qed.

End frequency.

(** ** Properties *)

(** C40: what a worker does with its requests before polling. The lanes of every message to
    poll are added to its work queue, in order; a request to relinquish lanes is never
    served: it stays in its queue, no lane leaves the work queue, and the worker reports
    that it is relinquishing for ever after. *)
Theorem Run_queues_never_relinquishes `{SpscLaws} `{RawMemory} (w : Worker) :
  ∃ w', Run_queues w = Ok w' ∧
    same_lanes (Worker.work_queue_ w') (Worker.work_queue_ w ++ concat (Worker.poll_queues_ w)) ∧
    Worker.poll_queues_ w' = [] ∧
    Worker.relinquish_queues_ w' = Worker.relinquish_queues_ w ∧
    IsRelinquishingQueues w' = IsRelinquishingQueues w ∧
    Worker.group_map_ w' = Worker.group_map_ w.
Proof.
  unfold Run_queues, IsRelinquishingQueues.
  set (w1 := if 0 <? spsc_size (Worker.poll_queues_ w) then _ else w).
  assert (Worker.poll_queues_ w1 = [] ∧ Worker.relinquish_queues_ w1 = Worker.relinquish_queues_ w ∧
    Worker.group_map_ w1 = Worker.group_map_ w ∧
    same_lanes (Worker.work_queue_ w1) (Worker.work_queue_ w ++ concat (Worker.poll_queues_ w)))
    as (Hp & Hr & Hg & Hw).
  { unfold w1. rewrite spsc_size_spec. destruct (Worker.poll_queues_ w) as [|m l] eqn:E.
    - simpl. rewrite app_nil_r. auto using same_lanes_refl.
    - rewrite (proj2 (Z.ltb_lt _ _)) by (simpl; lia). rewrite <- E. apply PollQueues_loop_spec.
      rewrite spsc_size_spec. lia. }
  exists w1. split; [|rewrite Hr; by split_and!].
  destruct (0 <? spsc_size (Worker.relinquish_queues_ w1)); [|done].
  unfold RelinquishQueues_. simpl. by rewrite Hp, spsc_pop_nil.
Qed.

(** C8: the lock of task groups. In every state the worker's map can reach by admitting and
    removing tasks, the tasks running in one group have one root task; a task is admitted
    exactly when no task of another root runs in its group, so a task whose root already
    holds the group never waits; and every admitted task can be removed without error. *)
Theorem task_groups_exclusive `{Logger} (m : gmap (list Z) TaskNode) (R : running) :
  group_reachable (m, R) →
  (∀ g n n', (g, n) ∈ R → (g, n') ∈ R →
     UniqueId.equal (TaskNode.root_ n) (TaskNode.root_ n') = true) ∧
  (∀ g n, (enter_group g n m).1 = true ↔
     ∀ n', (g, n') ∈ R → UniqueId.equal (TaskNode.root_ n') (TaskNode.root_ n) = true) ∧
  (∀ g n, (g, n) ∈ R → ∃ m', leave_group g m = Ok m').
Proof.
  intros Hr%lock_inv_reachable. destruct Hr as [Hlen Hi]. simpl in *.
  assert (∀ g n, (g, n) ∈ R → (g, n) ∈ holders g R) as Hin.
  { intros g n Hn. by apply list_elem_of_filter. }
  split_and!.
  - intros g n n' Hn%Hin Hn'%Hin. specialize (Hi g).
    destruct (m !! g) as [k|]; [|rewrite Hi in Hn; by apply elem_of_nil in Hn].
    destruct Hi as (_ & _ & Hall). rewrite Forall_forall in Hall.
    eapply uid_equal_trans; [apply uid_equal_sym, (Hall _ Hn)|apply (Hall _ Hn')].
  - intros g n. specialize (Hi g). unfold enter_group. destruct (m !! g) as [k|].
    + destruct Hi as (_ & Hne & Hall). rewrite Forall_forall in Hall.
      destruct (UniqueId.equal _ _) eqn:E; simpl; split; try done.
      * intros _ n' Hn'%Hin. eapply uid_equal_trans; [apply uid_equal_sym, (Hall _ Hn')|done].
      * intros Hn. destruct (holders g R) as [|[g' n'] l] eqn:El; [done|].
        assert ((g', n') ∈ holders g R) as [Hg Hx]%list_elem_of_filter by (rewrite El; by left).
        simpl in Hg. subst. rewrite <- E. eapply uid_equal_trans; [apply (Hall (g, n')); by left|by apply Hn].
    + simpl. split; [|done]. intros _ n' Hn'%Hin. rewrite Hi in Hn'. by apply elem_of_nil in Hn'.
  - intros g n (R1 & R2 & ->)%list_elem_of_split.
    destruct (leave_admitted g n m R1 R2) as (m' & Hm & _); [by split|]. eauto.
Qed.

(** C38: the group a worker serializes ordered tasks under is the lane alone: whatever
    [group] the task library computed, the key looked up is the four bytes of the lane
    id, so all ordered tasks of a lane, and of equal lanes of other queues, share a group. *)
Theorem task_group_is_lane `{BitfieldOps} `{CharbufLaws} `{TaskExecOps}
    wi task exec lane_id node (w : Node) o wk ret group :
  get_task task w = Ok o → get_worker wi w = Ok wk →
  exec_GetGroup exec (Task.method_ (base o)) task (Worker.group_ wk) w = Ok (ret, group) →
  ret ≠ TASK_UNORDERED → Task.IsUnordered (base o) = false → Task.IsStarted (base o) = false →
  let '(admitted, m) := enter_group (le_bytes 4 lane_id) node (Worker.group_map_ wk) in
  ∃ w' wk', CheckTaskGroup wi task exec lane_id node false w = Ok (admitted, w') ∧
    get_worker wi w' = Ok wk' ∧ Worker.group_map_ wk' = m ∧ Worker.group_ wk' = le_bytes 4 lane_id.
Proof.
  intros Ho Hw Hg Hret Hu Hs. destruct (enter_group _ _ _) as [admitted m] eqn:E.
  erewrite CheckTaskGroup_lane by done. rewrite E. eexists _, _. split; [done|].
  split; [by eapply get_put_worker_eq|done].
Qed.

(** C6: polling a lane implements the specification [lane_step]: whatever the tasks do
    within their interface, each change of the lane completes an entry whose task's module
    is complete, records a thread, removes a complete head or appends. *)
Theorem PollGrouped_refines `{BitfieldOps} `{MpscLaws} `{CharbufOps} `{AllocOps} `{Logger}
    `{TaskExecLaws} wi (e : WorkEntry) (w w' : Node) :
  slots_ok w → PollGrouped wi e w = Ok w' → slots_ok w' ∧ rtc (lane_step true e) w w'.
Proof. intros Hs Hp. by eapply (poll_loop_steps wi e 1024 0). Qed.

(** C28: polling keeps the order of a lane. Afterwards it holds, in the same order, the tasks
    it held less exactly as many from its head as iterations removed the head, followed by the
    tasks pushed meanwhile; and so does each iteration, which removes one task, the head, when it
    leaves the offset at 0, and none when it goes on behind it or ends the poll. *)
Theorem PollGrouped_order `{BitfieldOps} `{MpscLaws} `{CharbufOps} `{AllocOps} `{Logger}
    `{TaskExecLaws} wi (e : WorkEntry) (w w' : Node) lane :
  slots_ok w → PollGrouped wi e w = Ok w' → lane_at e w = Ok lane →
  (∃ lane' add, lane_at e w' = Ok lane' ∧
    LaneData.p_ <$> Lane.data lane' =
      drop (removals wi e 1024 0 w) (LaneData.p_ <$> Lane.data lane) ++ add) ∧
  ∀ off next v v', 0 ≤ off → slots_ok v → poll_iteration wi e off v = Ok (next, v') →
    lane_moves (match next with Some 0 => 1 | _ => 0 end) e v v'.
Proof.
  intros Hs Hp Hl. split; [exact (poll_loop_moves wi e 1024 0 w w' ltac:(done) Hs Hp lane Hl)|].
  intros off next v v' Hoff Hv Hit. pose proof (poll_iteration_moves _ _ _ _ _ _ Hoff Hv Hit) as Hm.
  by destruct next as [[]|].
Qed.

(** C13: head-of-line blocking. A lane gives up tasks at its head only: when the first
    iteration of a poll goes past the head (its task is not complete, waits for its group or
    may not run), the poll removes nothing, whatever completes behind it. The lane then holds
    every task it held, in order, and those pushed meanwhile, so a lane whose head never
    completes only fills. *)
Theorem PollGrouped_head_blocks `{BitfieldOps} `{MpscLaws} `{CharbufOps} `{AllocOps} `{Logger}
    `{TaskExecLaws} wi (e : WorkEntry) (w w1 w' : Node) lane off :
  slots_ok w → lane_at e w = Ok lane → poll_iteration wi e 0 w = Ok (Some off, w1) → off ≠ 0 →
  PollGrouped wi e w = Ok w' →
  ∃ lane' add, lane_at e w' = Ok lane' ∧
    LaneData.p_ <$> Lane.data lane' = (LaneData.p_ <$> Lane.data lane) ++ add.
Proof.
  intros Hs Hl Hit Hoff. unfold PollGrouped. change 1024%nat with (S 1023). simpl poll_loop.
  rewrite Hit. cbn [mbind outcome_bind]. intros Hp.
  destruct (poll_iteration_steps wi e 0 _ w w1 ltac:(done) Hs Hit) as [Hst1 Hle].
  specialize (Hle off eq_refl). simpl in Hst1. apply Z.eqb_neq in Hoff. rewrite Hoff in Hst1.
  destruct (Hst1 Hs) as [Hs1 Hr1].
  destruct (poll_loop_steps wi e 1023 off w1 w' Hle Hp Hs1) as [_ Hr]. rewrite Hoff in Hr.
  destruct (lane_steps_order false e w w' lane) as (lane' & k & add & Hl' & E & Hk);
    [by etransitivity|done|].
  exists lane', add. by rewrite E, Hk.
Qed.

(** C5: tasks that run to completion are served first in, first out, and all of them: when
    the (at most 1024) tasks of a lane are ready, local, unordered and their methods change
    and complete only their own task, the poll goes through the nodes [ws], one iteration for
    each task in the lane's order ([served]): the i-th finds the i-th task at the head, as it was
    before the poll, runs it, removes it and changes the object of that task alone, which is then
    complete with the result [Q] its method gives; the last finds the lane empty. So each runs
    once, all are complete when the poll returns, and no other task is touched. *)
Theorem PollGrouped_drains `{BitfieldLaws} `{MpscLaws} `{CharbufOps} `{AllocOps} `{Logger}
    `{TaskExecOps} (K Q : Z → TaskBody → Prop) wi (e : WorkEntry) (w : Node) lane ps :
  lane_at e w = Ok lane → Lane.data lane = (λ p, LaneData.make p false) <$> ps →
  (length ps ≤ 1024)%nat → NoDup (Convert <$> ps) → (wi < length (Node.workers_ w))%nat →
  Forall (λ p, ∃ o, short_task (K p) (Q p) w p o) ps →
  ∃ w' ws, PollGrouped wi e w = Ok w' ∧ lane_at e w' = Ok (Lane.set_data [] lane) ∧
    (∀ p, p ∈ ps → ∃ o, Node.heap w' !! Convert p = Some o ∧ Task.IsComplete (base o) = true ∧
       Q p (body o)) ∧
    (∀ a, a ∉ Convert <$> ps → Node.heap w' !! a = Node.heap w !! a) ∧
    ws !! 0%nat = Some w ∧ ws !! length ps = Some w' ∧ served Q wi e lane w ps ws.
Proof.
  intros Hl Hd Hlen Hnd Hwi Hs. unfold PollGrouped.
  assert (Lane.set_data ((λ p, LaneData.make p false) <$> ps) lane = lane) as El
    by (rewrite <- Hd; by destruct lane).
  rewrite <- El in Hl. revert Hlen. generalize 1024%nat. intros i Hlen.
  apply (short_loop K Q); [exact Hs|exact Hnd|done|reflexivity|exact Hwi|exact Hl|exact Hlen].
Qed.

(** C35: a lane of a low-latency queue is polled at every run of the worker; any other lane
    at every 4096th, when the counter of its entry reaches a multiple of 4096 (the wrap of
    the 32-bit counter does not disturb the rhythm). In between a run only counts. *)
Theorem Run_entry_frequency `{BitfieldOps} `{MpscOps} `{CharbufOps} `{AllocOps} `{Logger}
    `{TaskExecOps} wi j (wk : Worker) (e : WorkEntry) lane (w : Node) k :
  get_worker wi w = Ok wk → Worker.work_queue_ wk !! j = Some e →
  get_lane (WorkEntry.queue_ e) (WorkEntry.prio_ e) (WorkEntry.lane_id_ e) w = Ok lane →
  WorkEntry.count_ e `mod` 4096 + Z.of_nat k = 4095 →
  if Any (Lane.flags_ lane) QUEUE_LOW_LATENCY then Run_entry wi j w = PollGrouped wi e w
  else
    let c := wrap32 (WorkEntry.count_ e + Z.of_nat k + 1) in
    (∀ i, (0 < i ≤ k)%nat → times i (Run_entry wi j) w =
       Ok (with_count wi j wk e (wrap32 (WorkEntry.count_ e + Z.of_nat i)) w)) ∧
    times (S k) (Run_entry wi j) w =
      PollGrouped wi (WorkEntry.set_count c e) (with_count wi j wk e c w) ∧
    c `mod` 4096 = 0.
Proof.
  intros Hw Hj Hl Hk. destruct (Any (Lane.flags_ lane) QUEUE_LOW_LATENCY) eqn:Ha.
  { unfold Run_entry. rewrite Hw. simpl. rewrite Hj. simpl. rewrite Hl. simpl. by rewrite Ha. }
  intros c.
  assert (c `mod` 4096 = 0) as Hc.
  { unfold c. rewrite wrap32_mod_4096, <- Z.add_assoc, <- Zplus_mod_idemp_l.
    replace (WorkEntry.count_ e `mod` 4096 + (Z.of_nat k + 1)) with 4096 by lia. done. }
  split; [intros i Hi; eapply Run_entry_times; eauto; lia|]. split; [|done].
  rewrite times_S_last. destruct k as [|k].
  - simpl. rewrite (Run_entry_ordinary _ _ _ _ _ _ Hw Hj Hl Ha).
    assert (wrap32 (WorkEntry.count_ e + 1) = c) as -> by (unfold c; f_equal; lia). by rewrite Hc.
  - erewrite Run_entry_times by (eauto; lia). cbn [mbind outcome_bind]. set (c0 := wrap32 _).
    destruct (with_count_twice wi j wk e c0 (wrap32 (c0 + 1)) w Hw Hj) as (Hw' & Hj' & Heq).
    rewrite (Run_entry_ordinary _ _ _ _ lane _ Hw' Hj' Hl Ha).
    cbn [WorkEntry.count_ WorkEntry.set_count]. rewrite Heq.
    assert (wrap32 (c0 + 1) = c) as ->.
    { unfold c0, c, wrap32. by rewrite Zplus_mod_idemp_l. }
    by rewrite Hc.
Qed.

(** C19: a worker ends once it is told to. If the flag [Join] sets is first seen up after [k]
    passes, each of which returned, or threw an error of the library with a log that does not
    end the process, then [Loop] returns what one more pass [Run] returns, whatever the other
    threads did in between: it makes [k + 1] passes, the last of them after the flag was
    raised, so that what was pushed before is still polled. *)
Theorem Loop_ends `{BitfieldOps} `{MpscOps} `{SpscOps} `{CharbufOps} `{AllocOps} `{Logger}
    `{TaskExecOps} `{RawMemory} hshm_error env wi (fuel k : nat) (s : nat → Node) :
  (k ≤ fuel)%nat →
  (∀ i, (i < k)%nat → let x := env (fuel - i)%nat (s i) in
     Node.kill_requested_ x = false ∧
     (Run wi x = Ok (s (S i)) ∨
      ∃ e, Run wi x = Throw e ∧ hshm_error e = true ∧ fatal_exits = false ∧ s (S i) = x)) →
  let x := env (fuel - k)%nat (s k) in
  Node.kill_requested_ x = true →
  Loop hshm_error env wi fuel (s 0%nat) = Run wi x.
Proof.
  revert fuel s. induction k as [|k IH]; intros fuel s Hk Hs x Hx.
  - unfold x in *. rewrite Nat.sub_0_r in *. destruct fuel; simpl; by rewrite Hx.
  - destruct fuel as [|fuel]; [lia|].
    destruct (Hs 0%nat ltac:(lia)) as [Hlive Hrun]. rewrite Nat.sub_0_r in *.
    specialize (IH fuel (λ i, s (S i)) ltac:(lia)). simpl Loop. rewrite Hlive. cbn [negb].
    assert (Loop hshm_error env wi fuel (s 1%nat) = Run wi x) as HL.
    { apply IH; [|exact Hx]. intros i Hi. apply (Hs (S i)). lia. }
    destruct Hrun as [E|(e & E & He & Hf & Es)]; rewrite E.
    + exact HL.
    + rewrite He. unfold HELOG_kFatal. rewrite Hf, <- Es. exact HL.
Qed.

(** ** Witnesses: a node with one worker, a queue in slot 2 and a task in its first lane *)
Section witness.
Import RefInstances.
#[local] Existing Instance ref_raw.
#[local] Existing Instance ref_exec.
#[local] Existing Instance ref_exec_laws.

Definition wit_entry : WorkEntry := WorkEntry.mkWorkEntry 0 0 4094 2.
Definition wit_worker : Worker :=
  Worker.set_relinquish_queues [[wit_entry]] (Worker.set_poll_queues [[wit_entry]]
    (Worker.set_work_queue [wit_entry] (new_worker_thread 0))).
Definition wit_lane_task : TaskObj :=
  mkTaskObj (Task.set_task_flags TASK_UNORDERED ref_task) (BMd (Md.mk [])).
Definition wit_ordered : TaskObj := mkTaskObj ref_task (BMd (Md.mk [])).
Definition wit_lane : Lane := Lane.mkLane [LaneData.make 42 false] 4 0.
Definition wit_polled_queue : MultiQueue :=
  MultiQueue.mkMultiQueue (UniqueId.make 1 2) [LaneGroup.mkLaneGroup 1 1 4 0 0 0 [wit_lane]] 0.
Definition wit_node : Node :=
  Node.set_workers [wit_worker]
    (Node.set_queue_map [free_queue; free_queue; wit_polled_queue]
      (Node.set_task_registry (TaskRegistry.set_task_states {[UniqueId.key UniqueId.GetNull := 9]} ref_registry)
        (put_task 42 wit_lane_task (put_task 7 wit_ordered ref_node)))).

Lemma wit_slots_ok : slots_ok wit_node.
Proof.
  intros i q Hi Hn. destruct i as [|[|[|i]]]; simpl in Hi; simplify_eq; done.
Qed.

Lemma wit_PollGrouped : ∃ w', PollGrouped 0 wit_entry wit_node = Ok w'.
Proof. eexists. vm_compute. reflexivity. Qed.

Lemma Run_queues_never_relinquishes_witness :
  ∃ w', Run_queues wit_worker = Ok w' ∧ same_lanes (Worker.work_queue_ w') [wit_entry; wit_entry] ∧
    Worker.relinquish_queues_ w' = [[wit_entry]].
Proof.
  destruct (Run_queues_never_relinquishes wit_worker) as (w' & Hr & Hl & _ & Hq & _).
  exists w'. split; [exact Hr|]. split; [exact Hl|exact Hq].
Defined.

Lemma task_groups_exclusive_witness :
  (enter_group [1; 0; 0; 0] (TaskNode.make (UniqueId.make 1 6))
    {[[1; 0; 0; 0] := TaskNode.set_depth 1 (TaskNode.make (UniqueId.make 1 5))]}).1 = true ↔
  ∀ n', ([1; 0; 0; 0], n') ∈ [([1; 0; 0; 0], TaskNode.make (UniqueId.make 1 5))] →
    UniqueId.equal (TaskNode.root_ n') (UniqueId.make 1 6) = true.
Proof.
  apply (task_groups_exclusive
    {[[1; 0; 0; 0] := TaskNode.set_depth 1 (TaskNode.make (UniqueId.make 1 5))]}
    [([1; 0; 0; 0], TaskNode.make (UniqueId.make 1 5))]).
  eapply reach_step; [apply reach_init|]. by apply step_enter.
Defined.

Lemma task_group_is_lane_witness :
  ∃ w' wk', CheckTaskGroup 0 7 9 3 TaskNode.GetNull false wit_node = Ok (true, w') ∧
    get_worker 0 w' = Ok wk' ∧ Worker.group_ wk' = [3; 0; 0; 0].
Proof.
  pose proof (task_group_is_lane 0 7 9 3 TaskNode.GetNull wit_node wit_ordered wit_worker 0
    (Worker.group_ wit_worker) ltac:(by vm_compute) eq_refl eq_refl ltac:(by vm_compute)
    ltac:(by vm_compute) ltac:(by vm_compute)) as Hw.
  destruct (enter_group _ _ _) as [b m] eqn:E. vm_compute in E. injection E as <- _.
  destruct Hw as (w' & wk' & Hc & Hg & _ & Hgr). exists w', wk'.
  split; [exact Hc|]. split; [exact Hg|]. exact Hgr.
Defined.

Lemma PollGrouped_refines_witness :
  ∃ w', PollGrouped 0 wit_entry wit_node = Ok w' ∧ slots_ok w' ∧ rtc (lane_step true wit_entry) wit_node w'.
Proof.
  destruct wit_PollGrouped as [w' Hp]. exists w'. split; [exact Hp|].
  exact (PollGrouped_refines 0 wit_entry wit_node w' wit_slots_ok Hp).
Defined.

Lemma PollGrouped_order_witness :
  removals 0 wit_entry 1024 0 wit_node = 1%nat ∧
  ∃ w' lane' add, PollGrouped 0 wit_entry wit_node = Ok w' ∧ lane_at wit_entry w' = Ok lane' ∧
    LaneData.p_ <$> Lane.data lane' = [] ++ add.
Proof.
  destruct wit_PollGrouped as [w' Hp].
  destruct (PollGrouped_order 0 wit_entry wit_node w' wit_lane wit_slots_ok Hp eq_refl)
    as [(lane' & add & Hl & Hd) _].
  assert (removals 0 wit_entry 1024 0 wit_node = 1%nat) as Hk by (by vm_compute).
  split; [exact Hk|]. rewrite Hk in Hd. exists w', lane', add. split; [exact Hp|].
  split; [exact Hl|exact Hd].
Defined.

(** The task at the head may not run; the one behind it completes. *)
Definition wit_blocked_lane : Lane := Lane.mkLane [LaneData.make 42 false; LaneData.make 43 false] 4 0.
Definition wit_blocked : Node :=
  put_task 43 wit_lane_task (put_task 42 (mkTaskObj (Task.DisableRun ref_task) (BMd (Md.mk [])))
    (Node.set_queue_map [free_queue; free_queue;
       MultiQueue.mkMultiQueue (UniqueId.make 1 2)
         [LaneGroup.mkLaneGroup 1 1 4 0 0 0 [wit_blocked_lane]] 0] wit_node)).

Lemma PollGrouped_head_blocks_witness :
  ∃ w' lane' add, PollGrouped 0 wit_entry wit_blocked = Ok w' ∧ lane_at wit_entry w' = Ok lane' ∧
    LaneData.p_ <$> Lane.data lane' = [42; 43] ++ add.
Proof.
  assert (∃ w1, poll_iteration 0 wit_entry 0 wit_blocked = Ok (Some 1, w1)) as [w1 Hit]
    by (eexists; by vm_compute).
  assert (∃ w', PollGrouped 0 wit_entry wit_blocked = Ok w') as [w' Hp] by (eexists; by vm_compute).
  destruct (PollGrouped_head_blocks 0 wit_entry wit_blocked w1 w' wit_blocked_lane 1)
    as (lane' & add & Hl & Hd); [|done|exact Hit|done|exact Hp|].
  - intros i q Hi Hn. destruct i as [|[|[|i]]]; simpl in Hi; simplify_eq; done.
  - exists w', lane', add. split; [exact Hp|]. split; [exact Hl|exact Hd].
Defined.

Lemma PollGrouped_drains_witness :
  ∃ w', PollGrouped 0 wit_entry wit_node = Ok w' ∧
    lane_at wit_entry w' = Ok (Lane.set_data [] wit_lane) ∧
    poll_iteration 0 wit_entry 0 wit_node = Ok (Some 0, w') ∧
    ∃ o, Node.heap w' !! 42 = Some o ∧ Task.IsComplete (base o) = true.
Proof.
  destruct (PollGrouped_drains (λ _ b, b = BMd (Md.mk [])) (λ _ b, b = BMd (Md.mk [])) 0 wit_entry wit_node wit_lane [42])
    as (w' & ws & Hp & Hl & Hc & _ & H0 & H1 & Hserved);
    [done|done|simpl; lia|repeat constructor; set_solver|simpl; lia| |].
  - constructor; [|constructor]. exists wit_lane_task.
    split; try (by vm_compute).
    + intros w o1 Hb _ Ho _. exists (on_base Task.SetModuleComplete o1).
      split; [|by destruct o1]. by apply upd_get_Ok, get_task_Ok.
    + intros w o1 group _ _ _ _. exists 0, group. split; [done|]. right. by vm_compute.
  - exists w'. split; [exact Hp|]. split; [exact Hl|].
    destruct (served_step _ _ _ _ _ _ _ Hserved 0 42 _ _ eq_refl H0 H1) as (_ & _ & Hit & _).
    split; [exact Hit|]. destruct (Hc 42) as (o & Ho & Hcomp & _); [set_solver|by exists o].
Defined.

(** Another thread raises the flag before the second pass. *)
Lemma Loop_ends_witness :
  ∃ w', Loop (λ _, true) (λ n, Node.set_kill_requested (n =? 1)%nat) 0 2 wit_blocked = Ok w' ∧
    Node.kill_requested_ w' = true.
Proof.
  set (env n := Node.set_kill_requested (n =? 1)%nat).
  set (s i := match i with
              | O => wit_blocked
              | _ => match Run 0 (env 2%nat wit_blocked) with Ok w' => w' | _ => wit_blocked end
              end).
  assert (∃ w', Run 0 (env 1%nat (s 1%nat)) = Ok w' ∧ Node.kill_requested_ w' = true)
    as (w' & Hr & Hkill) by (eexists; split; by vm_compute).
  exists w'. split; [|exact Hkill]. rewrite <- Hr.
  apply (Loop_ends (λ _, true) env 0 2 1 s); [lia| |done].
  intros i Hi. assert (i = 0%nat) as -> by lia. split; [done|]. left. by vm_compute.
Defined.

Lemma Run_entry_frequency_witness :
  times 1 (Run_entry 0 0) wit_node = Ok (with_count 0 0 wit_worker wit_entry 4095 wit_node) ∧
  times 2 (Run_entry 0 0) wit_node =
    PollGrouped 0 (WorkEntry.set_count 4096 wit_entry)
      (with_count 0 0 wit_worker wit_entry 4096 wit_node).
Proof.
  destruct (Run_entry_frequency 0 0 wit_worker wit_entry wit_lane wit_node 1
    eq_refl eq_refl eq_refl eq_refl) as (Hs & Hp & _).
  split; [exact (Hs 1%nat ltac:(lia))|exact Hp].
Defined.

End witness.
