(* ===== verification/Schedulers.v ===== *)
(** * Work orchestration

    [work_orchestrator.h]: the workers of the node; [worch_queue_round_robin.cc]: the
    periodic task that hands the lanes of new queues to workers;
    [worch_proc_round_robin.cc]: the one that binds workers to processors. *)

From S2P Require Import Prelude Hshm RefLib Types Queue Config QueueManager LocalSerialize.
From S2P Require Import Archive Task TaskTypes World Registry Rpc Exec WorkerLoop.

(** [argobots]: the handle of a new execution stream; waiting for the end of a stream, with the node
    when the call returns, for the threads of the stream run meanwhile; and what freeing a stream
    leaves in the handle. What the calls return is not looked at. *)
Class AbtOps := {
  abt_xstream_create : Z;
  abt_xstream_join : Z → Node → outcome Node;
  abt_xstream_free : Z → Z;
}.

(** Waiting ends at once for the null handle and for a stream without threads; freeing nulls the
    handle. *)
Class AbtLaws `{AbtOps} : Prop := {
  abt_xstream_join_idle x w : x = 0 ∨ Node.threads w = ∅ → abt_xstream_join x w = Ok w;
  abt_xstream_free_null x : abt_xstream_free x = 0;
}.

Section orchestrator.
Context `{BitfieldOps} `{SpscOps} `{CharbufOps} `{RawMemory} `{AbtOps}.

(** [WorkEntry(prio, lane_id, queue)]: the lane must exist. *)
Definition new_entry (prio lane_id : Z) (queue : nat) (w : Node) : outcome WorkEntry :=
  _ ← get_lane queue prio lane_id w;
  Ok (WorkEntry.mkWorkEntry prio lane_id 0 queue).

(** [worker.PollQueues({WorkEntry(prio, lane_id, queue)})] *)
Definition poll_lane (worker : nat) (prio lane_id : Z) (queue : nat) (w : Node) : outcome Node :=
  wk ← get_worker worker w;
  e ← new_entry prio lane_id queue w;
  mret (put_worker worker (PollQueues [e] wk) w).

(** [group->num_scheduled_ = n] *)
Definition set_scheduled (queue gi : nat) (n : Z) (w : Node) : outcome Node :=
  q ← get_queue queue w;
  g ← deref (MultiQueue.groups_ q !! gi);
  mret (put_queue queue (MultiQueue.set_groups
          (<[gi := LaneGroup.set_num_scheduled n g]> (MultiQueue.groups_ q)) q) w).

(** The loop of [WorkOrchestrator::ServerInit] over the lanes of the admin queue *)
Fixpoint schedule_admin (queue : nat) (lane_id : Z) (n : nat) (w : Node) : outcome Node :=
  match n with
  | O => Ok w
  | S n =>
      w ← poll_lane 0 0 lane_id queue w;
      schedule_admin queue (lane_id + 1) n w
  end.

(** [WorkOrchestrator::ServerInit]: the workers' threads are started by their constructors. As for
    the threads of tasks, the library has room for the stream. *)
Definition WorkOrchestrator_ServerInit (config : ServerConfig) (qm : QueueManager)
    (w : Node) : outcome Node :=
  let w := Node.set_xstream abt_xstream_create w in
  let num_workers := ServerConfig.max_workers_ config in
  let workers := (λ i, new_worker_thread (Z.of_nat i)) <$> seq 0 (Z.to_nat num_workers) in
  let w := Node.set_workers (Node.workers_ w ++ workers) w in
  let w := Node.set_kill_requested false (Node.set_stop_runtime false w) in
  admin_queue ← QueueManager.GetQueue (QueueManager.admin_queue_ qm) (Node.queue_map_ w);
  q ← get_queue admin_queue w;
  admin_group ← deref (at_index (MultiQueue.groups_ q) 0);
  w ← schedule_admin admin_queue 0 (Z.to_nat (LaneGroup.num_lanes_ admin_group)) w;
  set_scheduled admin_queue 0 (LaneGroup.num_lanes_ admin_group) w.

Definition GetNumWorkers (w : Node) : Z := Z.of_nat (length (Node.workers_ w)).
Definition FinalizeRuntime (w : Node) : Node := Node.set_stop_runtime true w.
Definition IsAlive (w : Node) : bool := negb (Node.kill_requested_ w).
Definition IsRuntimeAlive (w : Node) : bool := negb (Node.stop_runtime_ w).

(** ** [worch_queue_round_robin] *)

(** The worker the next lane goes to: 0 for the groups of low priority, else in turn;
    [workers_.size() - 1] is a 64-bit difference. *)
Definition next_worker (low : bool) (count : Z) (w : Node) : outcome nat :=
  if low then Ok 0%nat
  else r ← urem count (wrap64 (GetNumWorkers w - 1)); Ok (Z.to_nat (wrap32 (r + 1))).

(** The loop over the lanes of a group that are not scheduled yet: [count] is [count_]. *)
Fixpoint schedule_lanes (low : bool) (queue : nat) (prio lane_id : Z) (n : nat) (count : Z)
    (w : Node) : outcome (Z * Node) :=
  match n with
  | O => Ok (count, w)
  | S n =>
      worker ← next_worker low count w;
      w ← poll_lane worker prio lane_id queue w;
      schedule_lanes low queue prio (lane_id + 1) n (if low then count else wrap32 (count + 1)) w
  end.

(** One lane group *)
Definition schedule_group (queue gi : nat) (count : Z) (w : Node) : outcome (Z * Node) :=
  q ← get_queue queue w;
  g ← deref (MultiQueue.groups_ q !! gi);
  let first := LaneGroup.num_scheduled_ g in
  '(count, w) ← schedule_lanes (LaneGroup.IsLowPriority g) queue (LaneGroup.prio_ g) first
                  (Z.to_nat (LaneGroup.num_lanes_ g - first)) count w;
  w ← set_scheduled queue gi (LaneGroup.num_lanes_ g) w;
  Ok (count, w).

Fixpoint schedule_groups (queue gi n : nat) (count : Z) (w : Node) : outcome (Z * Node) :=
  match n with
  | O => Ok (count, w)
  | S n =>
      '(count, w) ← schedule_group queue gi count w;
      schedule_groups queue (S gi) n count w
  end.

(** One queue of the map: one that is null is skipped. *)
Definition schedule_queue (queue : nat) (count : Z) (w : Node) : outcome (Z * Node) :=
  q ← get_queue queue w;
  if UniqueId.IsNull (MultiQueue.id_ q) then Ok (count, w)
  else schedule_groups queue 0 (length (MultiQueue.groups_ q)) count w.

Fixpoint schedule_queues (queue n : nat) (count : Z) (w : Node) : outcome (Z * Node) :=
  match n with
  | O => Ok (count, w)
  | S n =>
      '(count, w) ← schedule_queue queue count w;
      schedule_queues (S queue) n count w
  end.

(** [Schedule(task, ctx)] of the state at [exec] *)
Definition queue_Schedule (exec : Z) (w : Node) : outcome Node :=
  s ← get_state exec w;
  match TaskLib.server s with
  | QueueRoundRobinServer count =>
      '(count, w) ← schedule_queues 0 (length (Node.queue_map_ w)) count w;
      s ← get_state exec w;
      Ok (put_state exec (TaskLib.set_server (QueueRoundRobinServer count) s) w)
  | _ => Undefined
  end.

(** ** [worch_proc_round_robin] *)

(** [ProcessAffiner::SetCpuAffinity(pid, cpu_id)] ([affinity.h]): the process and the processor
    of the set that [sched_setaffinity] is called with; its result is not looked at. *)
Definition ProcessAffiner_SetCpuAffinity (pid cpu_id : Z) : Z * Z := (pid, cpu_id).

(** [Worker::SetCpuAffinity] *)
Definition SetCpuAffinity (cpu_id : Z) (worker : Worker) : Z * Z :=
  ProcessAffiner_SetCpuAffinity (Worker.pid_ worker) cpu_id.

(** The processor of each worker: worker [rr] runs on [rr % ncpu_]. The affinities are
    the calls of [SetCpuAffinity] the task makes, in order; both operands are converted to [int]. *)
Fixpoint affinities (ncpu rr : Z) (workers : list Worker) : outcome (list (Z * Z)) :=
  match workers with
  | [] => Ok []
  | worker :: workers =>
      cpu ← urem rr ncpu;
      rest ← affinities ncpu (rr + 1) workers;
      Ok (SetCpuAffinity cpu worker :: rest)
  end.

Definition proc_Schedule (ncpu : Z) (w : Node) : outcome (list (Z * Z)) :=
  affinities ncpu 0 (Node.workers_ w).

End orchestrator.

(** ** Specification of the round robin

    The lanes that are not scheduled yet, in the order the queues, groups and lanes are
    visited, each with whether its group is of low priority; the workers they are
    assigned to; and what the assignment does to the workers and to the queues. *)

Section spec.
Context `{BitfieldOps} `{SpscOps} `{CharbufOps} `{RawMemory}.

Definition pending_group (queue : nat) (g : LaneGroup) : list (bool * WorkEntry) :=
  (λ i, (LaneGroup.IsLowPriority g,
         WorkEntry.mkWorkEntry (LaneGroup.prio_ g) (LaneGroup.num_scheduled_ g + Z.of_nat i) 0 queue))
    <$> seq 0 (Z.to_nat (LaneGroup.num_lanes_ g - LaneGroup.num_scheduled_ g)).

Definition pending_queue (queue : nat) (q : MultiQueue) : list (bool * WorkEntry) :=
  if UniqueId.IsNull (MultiQueue.id_ q) then []
  else concat (pending_group queue <$> MultiQueue.groups_ q).

Definition pending (m : list MultiQueue) : list (bool * WorkEntry) :=
  concat (imap pending_queue m).

(** [n] workers; the counter is [count] before and after. *)
Fixpoint assign (n count : Z) (l : list (bool * WorkEntry)) : list (nat * WorkEntry) * Z :=
  match l with
  | [] => ([], count)
  | (low, e) :: l =>
      let worker := if (low : bool) then 0%nat else Z.to_nat (count `mod` (n - 1) + 1) in
      let '(a, c) := assign n (if low then count else wrap32 (count + 1)) l in
      ((worker, e) :: a, c)
  end.

Definition deliver1 (ws : list Worker) (a : nat * WorkEntry) : list Worker :=
  match ws !! a.1 with
  | Some wk => <[a.1 := PollQueues [a.2] wk]> ws
  | None => ws
  end.

Definition deliver : list Worker → list (nat * WorkEntry) → list Worker := foldl deliver1.

Definition mark_group (g : LaneGroup) : LaneGroup :=
  LaneGroup.set_num_scheduled (LaneGroup.num_lanes_ g) g.

Definition mark_queue (q : MultiQueue) : MultiQueue :=
  if UniqueId.IsNull (MultiQueue.id_ q) then q
  else MultiQueue.set_groups (mark_group <$> MultiQueue.groups_ q) q.

End spec.

Section spec_lemmas.
Context `{BitfieldOps} `{SpscOps} `{CharbufOps} `{RawMemory}.
Variable (w0 : Node).

(** The states of the loops: only the queue map and the workers change. *)
Let W (m : list MultiQueue) (ws : list Worker) : Node :=
  Node.set_queue_map m (Node.set_workers ws w0).

Lemma assign_app n c l1 l2 :
  assign n c (l1 ++ l2) =
    let '(a1, c1) := assign n c l1 in let '(a2, c2) := assign n c1 l2 in (a1 ++ a2, c2).
Proof.
  revert c. induction l1 as [|[low e] l1 IH]; intros c; simpl.
  { by destruct (assign n c l2). }
  rewrite IH. destruct (assign n (if low then c else wrap32 (c + 1)) l1) as [a1 c1].
  by destruct (assign n c1 l2).
Qed.

Lemma length_deliver1 ws a : length (deliver1 ws a) = length ws.
Proof. unfold deliver1. destruct (ws !! a.1); [apply length_insert|done]. Qed.

Lemma length_deliver ws l : length (deliver ws l) = length ws.
Proof.
  revert ws. induction l as [|a l IH]; intros ws; [done|]. simpl. by rewrite IH, length_deliver1.
Qed.

Lemma deliver_app ws l1 l2 : deliver ws (l1 ++ l2) = deliver (deliver ws l1) l2.
Proof. apply foldl_app. Qed.

Lemma poll_lane_W worker prio lid queue m ws q lane :
  (worker < length ws)%nat → m !! queue = Some q → MultiQueue.GetLane q prio lid = Ok lane →
  poll_lane worker prio lid queue (W m ws) =
    Ok (W m (deliver1 ws (worker, WorkEntry.mkWorkEntry prio lid 0 queue))).
Proof.
  intros Hw Hq Hl. destruct (lookup_lt_is_Some_2 _ _ Hw) as [wk Hwk].
  unfold poll_lane, get_worker, new_entry, get_lane, get_queue, deliver1. simpl.
  rewrite Hwk. simpl. rewrite Hq. simpl. rewrite Hl. simpl. done.
Qed.

Lemma next_worker_W low count m ws :
  2 ≤ Z.of_nat (length ws) < 2 ^ 32 → is_u32 count →
  next_worker low count (W m ws) =
    Ok (if low then 0%nat else Z.to_nat (count `mod` (Z.of_nat (length ws) - 1) + 1)) ∧
  ((if low then 0%nat else Z.to_nat (count `mod` (Z.of_nat (length ws) - 1) + 1)) < length ws)%nat.
Proof.
  intros Hn Hc. destruct low; [split; [done|lia]|]. unfold next_worker, GetNumWorkers, urem. simpl.
  rewrite wrap64_small by (unfold is_u64; lia).
  pose proof (Z.mod_pos_bound count (Z.of_nat (length ws) - 1)).
  rewrite (proj2 (Z.eqb_neq _ _)) by lia. simpl.
  rewrite wrap32_small by (unfold is_u32; lia). split; [done|lia].
Qed.

(** The lanes of a group from [first] on *)
Lemma schedule_lanes_W low queue prio n : ∀ first count m ws q,
  2 ≤ Z.of_nat (length ws) < 2 ^ 32 → is_u32 count → m !! queue = Some q →
  (∀ i, (i < n)%nat → ∃ lane, MultiQueue.GetLane q prio (first + Z.of_nat i) = Ok lane) →
  let l := (λ i, (low, WorkEntry.mkWorkEntry prio (first + Z.of_nat i) 0 queue)) <$> seq 0 n in
  let '(a, c) := assign (Z.of_nat (length ws)) count l in
  is_u32 c ∧ schedule_lanes low queue prio first n count (W m ws) = Ok (c, W m (deliver ws a)).
Proof.
  induction n as [|n IH]; intros first count m ws q Hn Hc Hq Hl; [done|].
  rewrite <- cons_seq, fmap_cons. cbn [assign].
  destruct (Hl 0%nat ltac:(lia)) as [lane Hlane].
  destruct (next_worker_W low count m ws Hn Hc) as [Hnext Hlt].
  assert (((λ i, (low, WorkEntry.mkWorkEntry prio (first + Z.of_nat i) 0 queue)) <$> seq 1 n) =
    ((λ i, (low, WorkEntry.mkWorkEntry prio (first + 1 + Z.of_nat i) 0 queue)) <$> seq 0 n)) as ->.
  { rewrite <- fmap_S_seq, <- list_fmap_compose. apply list_fmap_ext. intros i x _. simpl.
    do 2 f_equal. lia. }
  set (c' := if low then count else wrap32 (count + 1)).
  assert (is_u32 c') as Hc' by (unfold c'; destruct low; [done|apply wrap32_range]).
  set (worker := if low then 0%nat else _) in *.
  specialize (IH (first + 1) c' m
    (deliver1 ws (worker, WorkEntry.mkWorkEntry prio (first + Z.of_nat 0) 0 queue)) q).
  rewrite length_deliver1 in IH. specialize (IH Hn Hc' Hq).
  assert (∀ i, (i < n)%nat → ∃ lane, MultiQueue.GetLane q prio (first + 1 + Z.of_nat i) = Ok lane)
    as Hrest.
  { intros i Hi. destruct (Hl (S i) ltac:(lia)) as [lane' Hlane']. exists lane'.
    rewrite <- Hlane'. f_equal. lia. }
  specialize (IH Hrest). cbv zeta in IH.
  destruct (assign _ c' _) as [a c] eqn:E. destruct IH as [Hcc IH].
  split; [done|]. simpl. rewrite Hnext. simpl. fold worker.
  rewrite Z.add_0_r in *. rewrite (poll_lane_W _ _ _ _ _ _ _ _ Hlt Hq Hlane). simpl. exact IH.
Qed.

(** The groups of a queue hold the lanes they declare, in the slot of their priority. *)
Definition group_ready (gi : nat) (g : LaneGroup) : Prop :=
  LaneGroup.wf g ∧ LaneGroup.prio_ g = Z.of_nat gi ∧ 0 ≤ LaneGroup.num_scheduled_ g.

Lemma set_scheduled_W queue gi n m ws q g :
  m !! queue = Some q → MultiQueue.groups_ q !! gi = Some g →
  set_scheduled queue gi n (W m ws) =
    Ok (W (<[queue := MultiQueue.set_groups
          (<[gi := LaneGroup.set_num_scheduled n g]> (MultiQueue.groups_ q)) q]> m) ws).
Proof.
  intros Hq Hg. unfold set_scheduled, get_queue. simpl. rewrite Hq. simpl. by rewrite Hg.
Qed.

Lemma schedule_group_W queue gi count m ws q g :
  2 ≤ Z.of_nat (length ws) < 2 ^ 32 → is_u32 count → m !! queue = Some q →
  MultiQueue.groups_ q !! gi = Some g → group_ready gi g →
  let '(a, c) := assign (Z.of_nat (length ws)) count (pending_group queue g) in
  is_u32 c ∧ schedule_group queue gi count (W m ws) =
    Ok (c, W (<[queue := MultiQueue.set_groups
          (<[gi := mark_group g]> (MultiQueue.groups_ q)) q]> m) (deliver ws a)).
Proof.
  intros Hn Hc Hq Hg ([_ Hlanes] & Hprio & Hsch).
  pose proof (schedule_lanes_W (LaneGroup.IsLowPriority g) queue (LaneGroup.prio_ g)
    (Z.to_nat (LaneGroup.num_lanes_ g - LaneGroup.num_scheduled_ g))
    (LaneGroup.num_scheduled_ g) count m ws q Hn Hc Hq) as Hs.
  cbv zeta in Hs. fold (pending_group queue g) in Hs.
  destruct (assign _ count (pending_group queue g)) as [a c]. destruct Hs as [Hcc Hs].
  { intros i Hi. destruct (at_index_is_Some (LaneGroup.lanes_ g) (LaneGroup.num_scheduled_ g + Z.of_nat i))
      as [lane Hlane]; [lia|].
    exists lane. apply GetLane_Ok. exists g. split; [|done].
    rewrite Hprio, at_index_lookup, Nat2Z.id by lia. done. }
  split; [done|]. unfold schedule_group. unfold get_queue. simpl Node.queue_map_. rewrite Hq.
  cbn [deref mbind outcome_bind]. rewrite Hg. cbn [deref mbind outcome_bind]. rewrite Hs.
  cbn [mbind outcome_bind]. by rewrite (set_scheduled_W _ _ _ _ _ _ _ Hq Hg).
Qed.

Lemma schedule_groups_W queue n : ∀ gi count m ws q,
  2 ≤ Z.of_nat (length ws) < 2 ^ 32 → is_u32 count → m !! queue = Some q →
  (gi + n)%nat = length (MultiQueue.groups_ q) →
  (∀ j g, (gi ≤ j)%nat → MultiQueue.groups_ q !! j = Some g → group_ready j g) →
  let gs := MultiQueue.groups_ q in
  let '(a, c) := assign (Z.of_nat (length ws)) count (concat (pending_group queue <$> drop gi gs)) in
  is_u32 c ∧ schedule_groups queue gi n count (W m ws) =
    Ok (c, W (<[queue := MultiQueue.set_groups (take gi gs ++ (mark_group <$> drop gi gs)) q]> m)
             (deliver ws a)).
Proof.
  induction n as [|n IH]; intros gi count m ws q Hn Hc Hq Hlen Hready gs.
  - unfold gs. rewrite drop_ge, take_ge by lia. simpl. rewrite app_nil_r. split; [done|].
    do 3 f_equal. symmetry. apply list_insert_id. rewrite Hq. by destruct q.
  - destruct (lookup_lt_is_Some_2 gs gi) as [g Hg]; [unfold gs; lia|].
    rewrite (drop_S gs g gi Hg), fmap_cons. cbn [concat]. rewrite assign_app.
    pose proof (schedule_group_W queue gi count m ws q g Hn Hc Hq Hg (Hready gi g ltac:(lia) Hg)) as Hs.
    destruct (assign _ count (pending_group queue g)) as [a1 c1]. destruct Hs as [Hc1 Hs].
    set (q1 := MultiQueue.set_groups (<[gi:=mark_group g]> (MultiQueue.groups_ q)) q) in *.
    specialize (IH (S gi) c1 (<[queue := q1]> m) (deliver ws a1) q1).
    rewrite length_deliver in IH. specialize (IH Hn Hc1).
    assert (<[queue := q1]> m !! queue = Some q1) as Hq1.
    { apply list_lookup_insert_eq. by eapply lookup_lt_Some. }
    assert ((S gi + n)%nat = length (MultiQueue.groups_ q1)) as Hlen1.
    { simpl. rewrite length_insert. fold gs in Hlen |- *. lia. }
    specialize (IH Hq1 Hlen1). cbv zeta in IH.
    assert (drop (S gi) (MultiQueue.groups_ q1) = drop (S gi) gs) as Hdrop
      by (simpl; by rewrite drop_insert_lt by lia).
    rewrite Hdrop in IH.
    assert (take (S gi) (MultiQueue.groups_ q1) = take gi gs ++ [mark_group g]) as Htake.
    { simpl. erewrite take_S_r by (apply list_lookup_insert_eq; by eapply lookup_lt_Some).
      by rewrite take_insert_ge by lia. }
    rewrite Htake, <- (assoc_L app), list_insert_insert_eq in IH.
    assert (∀ j g0, (S gi ≤ j)%nat → MultiQueue.groups_ q1 !! j = Some g0 → group_ready j g0) as Hr1.
    { intros j g0 Hj Hg0. simpl in Hg0. rewrite list_lookup_insert_ne in Hg0 by lia.
      apply Hready; [lia|done]. }
    specialize (IH Hr1). fold gs in IH.
    destruct (assign _ c1 _) as [a2 c2]. destruct IH as [Hc2 IH]. split; [done|].
    simpl schedule_groups. rewrite Hs. cbn [mbind outcome_bind]. rewrite IH.
    by rewrite deliver_app.
Qed.

Definition queue_ready (q : MultiQueue) : Prop :=
  UniqueId.IsNull (MultiQueue.id_ q) = false →
  ∀ j g, MultiQueue.groups_ q !! j = Some g → group_ready j g.

Lemma schedule_queue_W queue count m ws q :
  2 ≤ Z.of_nat (length ws) < 2 ^ 32 → is_u32 count → m !! queue = Some q → queue_ready q →
  let '(a, c) := assign (Z.of_nat (length ws)) count (pending_queue queue q) in
  is_u32 c ∧ schedule_queue queue count (W m ws) =
    Ok (c, W (<[queue := mark_queue q]> m) (deliver ws a)).
Proof.
  intros Hn Hc Hq Hready. unfold schedule_queue, pending_queue, mark_queue, get_queue.
  simpl Node.queue_map_. rewrite Hq. cbn [deref mbind outcome_bind].
  destruct (UniqueId.IsNull (MultiQueue.id_ q)) eqn:Hnull.
  - simpl. split; [done|]. by rewrite list_insert_id.
  - pose proof (schedule_groups_W queue (length (MultiQueue.groups_ q)) 0 count m ws q Hn Hc Hq
      eq_refl (λ j g _ Hg, Hready Hnull j g Hg)) as Hs.
    cbv zeta in Hs. rewrite drop_0 in Hs. exact Hs.
Qed.

Lemma schedule_queues_W n : ∀ queue count m ws,
  2 ≤ Z.of_nat (length ws) < 2 ^ 32 → is_u32 count → (queue + n)%nat = length m →
  (∀ i q, (queue ≤ i)%nat → m !! i = Some q → queue_ready q) →
  let '(a, c) := assign (Z.of_nat (length ws)) count
                   (concat (imap (λ i, pending_queue (queue + i)) (drop queue m))) in
  is_u32 c ∧ schedule_queues queue n count (W m ws) =
    Ok (c, W (take queue m ++ (mark_queue <$> drop queue m)) (deliver ws a)).
Proof.
  induction n as [|n IH]; intros queue count m ws Hn Hc Hlen Hready.
  - rewrite drop_ge, take_ge by lia. simpl. by rewrite app_nil_r.
  - destruct (lookup_lt_is_Some_2 m queue) as [q Hq]; [lia|].
    rewrite (drop_S m q queue Hq), imap_cons, fmap_cons. cbn [concat].
    replace (queue + 0)%nat with queue by lia. rewrite assign_app.
    assert (imap ((λ i, pending_queue (queue + i)) ∘ S) (drop (S queue) m) =
            imap (λ i, pending_queue (S queue + i)) (drop (S queue) m)) as ->.
    { apply imap_ext. intros i x _. simpl. f_equal. lia. }
    pose proof (schedule_queue_W queue count m ws q Hn Hc Hq (Hready queue q ltac:(lia) Hq)) as Hs.
    destruct (assign _ count (pending_queue queue q)) as [a1 c1]. destruct Hs as [Hc1 Hs].
    set (m1 := <[queue := mark_queue q]> m) in *.
    specialize (IH (S queue) c1 m1 (deliver ws a1)). rewrite length_deliver in IH.
    assert ((S queue + n)%nat = length m1) as Hlen1 by (unfold m1; rewrite length_insert; lia).
    specialize (IH Hn Hc1 Hlen1).
    assert (∀ i q0, (S queue ≤ i)%nat → m1 !! i = Some q0 → queue_ready q0) as Hr1.
    { intros i q0 Hi Hq0. unfold m1 in Hq0. rewrite list_lookup_insert_ne in Hq0 by lia.
      apply (Hready i); [lia|done]. }
    specialize (IH Hr1). unfold m1 in *. rewrite drop_insert_lt in IH by lia.
    erewrite take_S_r in IH by (apply list_lookup_insert_eq; by eapply lookup_lt_Some).
    rewrite take_insert_ge, <- (assoc_L app) in IH by lia.
    destruct (assign _ c1 _) as [a2 c2]. destruct IH as [Hc2 IH]. split; [done|].
    simpl schedule_queues. rewrite Hs. cbn [mbind outcome_bind]. rewrite IH.
    by rewrite deliver_app.
Qed.

End spec_lemmas.

Section marked.
Context `{BitfieldOps}.

Lemma pending_marked_group queue g : pending_group queue (mark_group g) = [].
Proof.
  unfold pending_group, mark_group. simpl.
  by replace (LaneGroup.num_lanes_ g - LaneGroup.num_lanes_ g) with 0 by lia.
Qed.

Lemma pending_marked m : pending (mark_queue <$> m) = [].
Proof.
  unfold pending. assert (∀ (f : nat → nat),
    concat (imap (λ i, pending_queue (f i)) (mark_queue <$> m)) = []) as Hm.
  { induction m as [|q m IH]; intros f; [done|]. rewrite fmap_cons, imap_cons. cbn [concat].
    change (imap _ (mark_queue <$> m)) with (imap (λ i, pending_queue (f (S i))) (mark_queue <$> m)).
    rewrite (IH (λ i, f (S i))), app_nil_r. unfold pending_queue, mark_queue.
    destruct (UniqueId.IsNull (MultiQueue.id_ q)) eqn:Hn; [by rewrite Hn|]. simpl. rewrite Hn.
    induction (MultiQueue.groups_ q) as [|g gs IHg]; [done|]. simpl.
    by rewrite pending_marked_group. }
  apply (Hm id).
Qed.

(** Numbers less than [n] apart differ modulo [n]. *)
Lemma mod_window_inj x y n : 0 < n → x < y → y - x < n → x `mod` n = y `mod` n → False.
Proof.
  intros Hn Hxy Hd Em. rewrite (Z.mod_eq x), (Z.mod_eq y) in Em by lia.
  assert (n * (y `div` n - x `div` n) = y - x) as Ed by lia.
  destruct (Z.le_gt_cases (y `div` n - x `div` n) 0); nia.
Qed.

(** In the round robin, the [k]-th of the lanes that are not of low priority goes to worker
    [(count + k) mod (n - 1) + 1]. *)
Lemma assign_workers n count l k e :
  2 ≤ n → is_u32 count → count + Z.of_nat (length l) < 2 ^ 32 →
  filter (λ x, x.1 = false) l !! k = Some (false, e) →
  ∃ j, (assign n count l).1 !! j =
    Some (Z.to_nat ((count + Z.of_nat k) `mod` (n - 1) + 1), e).
Proof.
  intros Hn. revert count k. induction l as [|[low e'] l IH]; intros count k Hc Hlen; [done|].
  simpl in Hlen. destruct low; simpl.
  - rewrite filter_cons_False by done. intros Hk.
    destruct (IH count k Hc ltac:(lia) Hk) as [j Hj].
    destruct (assign n count l) as [a c]. by exists (S j).
  - rewrite filter_cons_True by done. destruct k as [|k]; simpl.
    + intros [= ->]. exists 0%nat. rewrite Z.add_0_r. by destruct (assign n _ l).
    + intros Hk. rewrite wrap32_small by (unfold is_u32 in *; lia).
      destruct (IH (count + 1) k) as [j Hj]; [unfold is_u32 in *; lia|lia|done|].
      destruct (assign n (count + 1) l) as [a c]. exists (S j).
      replace (count + Z.of_nat (S k)) with (count + 1 + Z.of_nat k) by lia. exact Hj.
Qed.

Lemma assign_range n count l i e :
  2 ≤ n → (i, e) ∈ (assign n count l).1 →
  ∃ low, (low, e) ∈ l ∧ if (low : bool) then i = 0%nat else 1 ≤ Z.of_nat i < n.
Proof.
  intros Hn. revert count. induction l as [|[low e'] l IH]; intros count; simpl.
  { by intros ?%elem_of_nil. }
  destruct (assign n (if low then count else wrap32 (count + 1)) l) as [a c] eqn:E. simpl.
  intros [[= -> ->]|Hin]%elem_of_cons.
  - exists low. split; [by left|]. destruct low; [done|].
    pose proof (Z.mod_pos_bound count (n - 1)). lia.
  - specialize (IH (if low then count else wrap32 (count + 1))). rewrite E in IH.
    destruct (IH Hin) as (low' & ? & ?). exists low'. split; [by right|done].
Qed.

Lemma assign_entries n count l : (assign n count l).1.*2 = l.*2.
Proof.
  revert count. induction l as [|[low e] l IH]; intros count; [done|]. simpl.
  specialize (IH (if low then count else wrap32 (count + 1))).
  destruct (assign n _ l) as [a c]. exact (f_equal (cons e) IH).
Qed.

End marked.

(** One pass, in terms of the specification *)
Lemma queue_Schedule_Ok `{BitfieldOps} `{SpscOps} `{CharbufOps} `{RawMemory} exec (w : Node) s count :
  2 ≤ GetNumWorkers w < 2 ^ 32 → is_u32 count →
  Node.states w !! exec = Some s → TaskLib.server s = QueueRoundRobinServer count →
  (∀ i q, Node.queue_map_ w !! i = Some q → queue_ready q) →
  let '(a, count') := assign (GetNumWorkers w) count (pending (Node.queue_map_ w)) in
  ∃ w', queue_Schedule exec w = Ok w' ∧
    Node.workers_ w' = deliver (Node.workers_ w) a ∧
    Node.queue_map_ w' = mark_queue <$> Node.queue_map_ w ∧
    Node.states w' = <[exec := TaskLib.set_server (QueueRoundRobinServer count') s]> (Node.states w).
Proof.
  intros Hn Hc Hs Hserver Hready. unfold GetNumWorkers in *.
  pose proof (schedule_queues_W w (length (Node.queue_map_ w)) 0 count (Node.queue_map_ w)
    (Node.workers_ w) Hn Hc eq_refl (λ i q _ Hq, Hready i q Hq)) as Hq.
  rewrite drop_0 in Hq. change (concat (imap _ _)) with (pending (Node.queue_map_ w)) in Hq.
  destruct (assign _ count (pending (Node.queue_map_ w))) as [a c]. destruct Hq as [_ Hq].
  replace (Node.set_queue_map (Node.queue_map_ w) (Node.set_workers (Node.workers_ w) w)) with w in Hq
    by (by destruct w).
  unfold queue_Schedule, get_state. rewrite Hs. cbn [deref mbind outcome_bind]. rewrite Hserver, Hq.
  cbn [mbind outcome_bind]. simpl Node.states. rewrite Hs. cbn [deref mbind outcome_bind].
  eexists. by split.
Qed.

(** Each worker gets the lanes assigned to it, one by message, in order. *)
Lemma deliver_spec `{SpscLaws} ws a i wk :
  ws !! i = Some wk → Z.of_nat (length (Worker.poll_queues_ wk)) + Z.of_nat (length a) ≤ 1024 →
  ∃ wk', deliver ws a !! i = Some wk' ∧
    Worker.poll_queues_ wk' = Worker.poll_queues_ wk ++
      ((λ x, [x.2]) <$> filter (λ x : nat * WorkEntry, x.1 = i) a).
Proof.
  revert ws wk. induction a as [|[j e] a IH]; intros ws wk Hi Hlen.
  { exists wk. by rewrite app_nil_r. }
  simpl in Hlen. simpl deliver. unfold deliver1 at 1. simpl.
  destruct (ws !! j) as [x|] eqn:Ej.
  - destruct (decide (j = i)) as [->|Hne].
    + rewrite Ej in Hi. injection Hi as ->. rewrite filter_cons_True by done.
      destruct (IH (<[i := PollQueues [e] wk]> ws) (PollQueues [e] wk)) as (wk' & Hd & Hp).
      * apply list_lookup_insert_eq. by eapply lookup_lt_Some.
      * simpl. rewrite spsc_emplace_room by lia. rewrite length_app. simpl. lia.
      * exists wk'. split; [exact Hd|]. rewrite Hp. simpl. rewrite spsc_emplace_room by lia.
        by rewrite <- (assoc_L app).
    + rewrite filter_cons_False by done. apply IH; [|lia]. by rewrite list_lookup_insert_ne.
  - destruct (decide (j = i)) as [->|Hne]; [congruence|].
    rewrite filter_cons_False by done. apply IH; [done|lia].
Qed.

(** ** Properties *)

(** C21: one pass of the round-robin scheduler. On well-formed queues and at least two
    workers it completes: each lane that was not scheduled is sent to one worker, in the
    order of the queues, groups and lanes, and every group is marked as scheduled, so
    that a second pass sends nothing and changes nothing. *)
Theorem queue_Schedule_spec `{BitfieldOps} `{SpscOps} `{CharbufOps} `{RawMemory}
    (exec : Z) (w : Node) s count :
  2 ≤ GetNumWorkers w < 2 ^ 32 → is_u32 count →
  Node.states w !! exec = Some s → TaskLib.server s = QueueRoundRobinServer count →
  (∀ i q, Node.queue_map_ w !! i = Some q → queue_ready q) →
  let '(a, count') := assign (GetNumWorkers w) count (pending (Node.queue_map_ w)) in
  ∃ w', queue_Schedule exec w = Ok w' ∧
    Node.workers_ w' = deliver (Node.workers_ w) a ∧
    Node.queue_map_ w' = mark_queue <$> Node.queue_map_ w ∧
    Node.states w' = <[exec := TaskLib.set_server (QueueRoundRobinServer count') s]> (Node.states w) ∧
    pending (Node.queue_map_ w') = [] ∧
    a.*2 = (pending (Node.queue_map_ w)).*2 ∧
    Forall (λ x, (x.1 < length (Node.workers_ w))%nat) a.
Proof.
  intros Hn Hc Hs Hserver Hready.
  pose proof (queue_Schedule_Ok exec w s count Hn Hc Hs Hserver Hready) as Hq.
  pose proof (assign_entries (GetNumWorkers w) count (pending (Node.queue_map_ w))) as He.
  pose proof (λ i e, assign_range (GetNumWorkers w) count (pending (Node.queue_map_ w)) i e (proj1 Hn)) as Hr.
  destruct (assign _ count (pending (Node.queue_map_ w))) as [a c].
  destruct Hq as (w' & Hq & Hw & Hm & Hst). exists w'. do 4 (split; [done|]). rewrite Hm.
  split; [apply pending_marked|]. split; [exact He|]. unfold GetNumWorkers in *.
  apply Forall_forall. intros [i e] (low & _ & Hi)%Hr. simpl. destruct low; lia.
Qed.

(** C22: the round robin is fair. As long as its counter does not wrap and the workers have
    room for the messages, one pass of the scheduler sends any [n - 1] consecutive lanes that
    are waiting and not of low priority to [n - 1] different workers, none of which is worker
    0: the [k]-th of them is in a message to worker [(count + k) mod (n - 1) + 1]. *)
Theorem round_robin_fair `{BitfieldOps} `{SpscLaws} `{CharbufOps} `{RawMemory}
    exec (w : Node) s count k k' e e' :
  let n := GetNumWorkers w in
  let waiting := filter (λ x, x.1 = false) (pending (Node.queue_map_ w)) in
  2 ≤ n < 2 ^ 32 → is_u32 count → count + Z.of_nat (length (pending (Node.queue_map_ w))) < 2 ^ 32 →
  Node.states w !! exec = Some s → TaskLib.server s = QueueRoundRobinServer count →
  (∀ i q, Node.queue_map_ w !! i = Some q → queue_ready q) →
  (∀ i wk, Node.workers_ w !! i = Some wk → Z.of_nat (length (Worker.poll_queues_ wk)) +
     Z.of_nat (length (pending (Node.queue_map_ w))) ≤ 1024) →
  waiting !! k = Some (false, e) → waiting !! k' = Some (false, e') →
  (k < k')%nat → Z.of_nat k' - Z.of_nat k < n - 1 →
  let i := Z.to_nat ((count + Z.of_nat k) `mod` (n - 1) + 1) in
  let i' := Z.to_nat ((count + Z.of_nat k') `mod` (n - 1) + 1) in
  i ≠ i' ∧ (0 < i)%nat ∧ (0 < i')%nat ∧
  ∃ w' wk wk', queue_Schedule exec w = Ok w' ∧
    Node.workers_ w' !! i = Some wk ∧ [e] ∈ Worker.poll_queues_ wk ∧
    Node.workers_ w' !! i' = Some wk' ∧ [e'] ∈ Worker.poll_queues_ wk'.
Proof.
  intros n waiting Hn Hc Hlen Hs Hserver Hready Hroom Hk Hk' Hlt Hdist i i'.
  pose proof (Z.mod_pos_bound (count + Z.of_nat k) (n - 1) ltac:(lia)) as Hb.
  pose proof (Z.mod_pos_bound (count + Z.of_nat k') (n - 1) ltac:(lia)) as Hb'.
  split; [|split; [lia|split; [lia|]]].
  { intros E. apply (mod_window_inj (count + Z.of_nat k) (count + Z.of_nat k') (n - 1)); lia. }
  pose proof (queue_Schedule_Ok exec w s count Hn Hc Hs Hserver Hready) as Hq. fold n in Hq.
  destruct (assign_workers n count _ k e (proj1 Hn) Hc Hlen Hk) as [j Hj].
  destruct (assign_workers n count _ k' e' (proj1 Hn) Hc Hlen Hk') as [j' Hj'].
  assert (length (assign n count (pending (Node.queue_map_ w))).1 = length (pending (Node.queue_map_ w)))
    as Ha by (rewrite <- (length_fmap snd), assign_entries; apply length_fmap).
  destruct (assign n count _) as [a c]. simpl in *.
  destruct Hq as (w' & Hq & Hw & _). exists w'.
  assert (∀ p j e, a !! j = Some (p, e) → (p < length (Node.workers_ w))%nat →
    ∃ wk, Node.workers_ w' !! p = Some wk ∧ [e] ∈ Worker.poll_queues_ wk) as Hgot.
  { intros p x y Hx Hp. destruct (lookup_lt_is_Some_2 _ _ Hp) as [wk Hwk].
    destruct (deliver_spec (Node.workers_ w) a p wk Hwk) as (wk' & Hd & Hpq).
    { rewrite Ha. by eapply Hroom. }
    exists wk'. rewrite Hw. split; [done|]. rewrite Hpq. apply elem_of_app. right.
    apply (list_elem_of_fmap_2 (λ x : nat * WorkEntry, [x.2]) _ (p, y)), list_elem_of_filter.
    split; [done|]. by eapply list_elem_of_lookup_2. }
  assert (n = Z.of_nat (length (Node.workers_ w))) as En by done.
  destruct (Hgot _ _ _ Hj) as (wk & Hwk & Hin); [lia|].
  destruct (Hgot _ _ _ Hj') as (wk' & Hwk' & Hin'); [lia|]. exists wk, wk'. by split_and!.
Qed.

(** With a single worker, scheduling a lane that is not of low priority divides by
    zero. *)
Lemma round_robin_one_worker `{BitfieldOps} `{SpscOps} `{CharbufOps} `{RawMemory}
    queue prio first n count (w : Node) :
  GetNumWorkers w = 1 → schedule_lanes false queue prio first (S n) count w = Undefined.
Proof. intros E. simpl. unfold next_worker. by rewrite E. Qed.

(** ** Witnesses: three workers and a queue of two groups in slot 2 *)
Section witness.
Import RefInstances.
#[local] Existing Instance ref_raw.

Definition wit_workers : list Worker := [new_worker_thread 0; new_worker_thread 1; new_worker_thread 2].
Definition wit_scheduler : TaskState :=
  TaskLib.mkTaskLib UniqueId.GetNull UniqueId.GetNull "worch_queue_round_robin" (QueueRoundRobinServer 5).
Definition wit_unscheduled : Node :=
  Node.set_workers wit_workers (Node.set_queue_map [free_queue; wit_queue]
    (put_state 9 wit_scheduler ref_node)).

Lemma queue_Schedule_spec_witness :
  ∃ w', queue_Schedule 9 wit_unscheduled = Ok w' ∧
    Node.workers_ w' = deliver wit_workers
      (assign 3 5 (pending [free_queue; wit_queue])).1 ∧
    pending (Node.queue_map_ w') = [].
Proof.
  pose proof (queue_Schedule_spec 9 wit_unscheduled wit_scheduler 5) as Hw.
  change (GetNumWorkers wit_unscheduled) with 3 in Hw.
  change (Node.queue_map_ wit_unscheduled) with [free_queue; wit_queue] in Hw.
  change (Node.workers_ wit_unscheduled) with wit_workers in Hw.
  destruct (assign 3 5 _) as [a count'].
  destruct Hw as (w' & Hs & Hwk & _ & _ & Hp & _).
  - lia.
  - done.
  - done.
  - done.
  - intros [|[|i]] q [= <-] Hn; [done|].
    intros [|[|j]] g [= <-]; split_and!; vm_compute; done.
  - exists w'. split; [exact Hs|]. split; [exact Hwk|exact Hp].
Defined.

(** The two lanes of the second group, at count 5: to workers 2 and 1 *)
Lemma round_robin_fair_witness :
  ∃ w' wk wk', queue_Schedule 9 wit_unscheduled = Ok w' ∧
    Node.workers_ w' !! 2%nat = Some wk ∧
    [WorkEntry.mkWorkEntry 1 0 0 1] ∈ Worker.poll_queues_ wk ∧
    Node.workers_ w' !! 1%nat = Some wk' ∧
    [WorkEntry.mkWorkEntry 1 1 0 1] ∈ Worker.poll_queues_ wk'.
Proof.
  apply (round_robin_fair 9 wit_unscheduled wit_scheduler 5 0 1); [by vm_compute|done|by vm_compute|done|done|..].
  - intros [|[|i]] q [= <-] Hn; [done|]. intros [|[|j]] g [= <-]; split_and!; vm_compute; done.
  - intros [|[|[|i]]] wk [= <-]; by vm_compute.
  - by vm_compute.
  - by vm_compute.
  - lia.
  - by vm_compute.
Defined.

End witness.
