(* ===== verification/ProcQueue.v ===== *)
(** * The process queue ([tasks_required/proc_queue])

    A client pushes a task of its own process through this library: the push task holds the
    subtask, submits it to the queue of its state, and completes when it does. *)

From S2P Require Import Prelude Hshm RefLib Types Queue Config QueueManager LocalSerialize.
From S2P Require Import Archive Task TaskTypes World LibExec.

(** [proc_queue::Client] ([proc_queue.h]) *)
Module ProcQueueClient.

Record Client := mk { id_ : TaskStateId; queue_id_ : QueueId }.

(** [Client()] *)
Definition new (qm : QueueManager) : Client := {|
  id_ := UniqueId.convert (QueueManager.process_queue_ qm);
  queue_id_ := QueueManager.process_queue_ qm;
|}.

Section client.
Context `{BitfieldOps} `{Logger} `{MpscOps} `{AllocOps} `{RawMemory}.

(** The queue [AsyncCreate] asks for *)
Definition queue_info (qm : QueueManagerInfo) : list PriorityInfo :=
  [PriorityInfo.make 1 1 (QueueManagerInfo.queue_depth_ qm) 0;
   PriorityInfo.make 1 1 (QueueManagerInfo.queue_depth_ qm) QUEUE_LONG_RUNNING;
   PriorityInfo.make (QueueManagerInfo.max_lanes_ qm) (QueueManagerInfo.max_lanes_ qm)
     (QueueManagerInfo.queue_depth_ qm) QUEUE_LOW_LATENCY].

(** [AsyncPush] with [AsyncPushConstruct]: [tid] and [pid] are those of the thread. *)
Definition AsyncPush (this : Client) (tid pid : Z) (task_node : TaskNode)
    (domain_id : DomainId) (subtask : LPointer) (w : Node) : outcome (LPointer * Node) :=
  let '(t, p) := TypedPush.make (raw_task, TypedPush.mk (mkLPointer raw_int raw_int)
                   (mkLPointer raw_int raw_int) raw_int)
                   tid pid task_node domain_id (id_ this) subtask in
  Client.Async (queue_id_ this) (mkTaskObj t (BTypedPush p)) w.

(** [AsyncPushRoot] *)
Definition AsyncPushRoot (this : Client) (tid pid : Z) (domain_id : DomainId)
    (subtask : LPointer) (w : Node) : outcome (LPointer * Node) :=
  let '(task_node, w) := Client.MakeTaskNodeId w in
  AsyncPush this tid pid task_node domain_id subtask w.

(** [AsyncXRoot] of the clients whose tasks are pushed through the process queue
    ([HERMES_RUN_TASK_NODE_PUSH_ROOT]): the task, made by [make], is one level below the
    push task. *)
Definition AsyncTaskRoot (this : Client) (tid pid : Z) (make : TaskNode → TaskObj) (w : Node)
    : outcome (LPointer * Node) :=
  let '(task_node, w) := Client.MakeTaskNodeId w in
  '(task, w) ← Client.NewTask (make (TaskNode.add task_node 1)) w;
  AsyncPush this tid pid task_node DomainId.GetLocal task w.

End client.
End ProcQueueClient.

(** [proc_queue::Server] ([proc_queue.cc]) *)
Module ProcQueue.
Section server.
Context `{BitfieldOps} `{Logger} `{MpscOps} `{AllocOps} `{RawMemory} `{CerealOps} `{CharbufOps}.

Definition Construct (task : Z) (w : Node) : outcome Node := upd_task task Task.SetModuleComplete w.
Definition Destruct (task : Z) (w : Node) : outcome Node := upd_task task Task.SetModuleComplete w.

Definition get_push (task : Z) (w : Node) : outcome (Task * TypedPush.TypedPushTask) :=
  o ← get_task task w; as_type c_TypedPush o.

(** An assignment to the members of the push task *)
Definition upd_push (task : Z) (f : TypedPush.TypedPushTask → TypedPush.TypedPushTask) (w : Node)
    : outcome Node := upd_payload c_TypedPush f task w.

(** The case [kSchedule] *)
Definition Push_schedule (task : Z) (w : Node) : outcome Node :=
  s ← get_push task w;
  let shm := shm_ (TypedPush.sub_cli_ s.2) in
  let ptr := Convert shm in
  w ← upd_push task (TypedPush.set_sub_run (mkLPointer ptr shm)) w;
  o ← get_task ptr w;
  w ← (if Task.IsFireAndForget (base o) then upd_task ptr Task.UnsetFireAndForget w else Ok w);
  o ← get_task ptr w;
  real_queue ← Client.GetQueue (UniqueId.convert (Task.task_state_ (base o))) w;
  '(_, w) ← Client.Emplace real_queue (Task.prio_ (base o)) (Task.lane_hash_ (base o)) shm w;
  upd_push task (TypedPush.set_phase PushTaskPhase.kWaitSchedule) w.

(** The case [kWaitSchedule] *)
Definition Push_wait (task : Z) (w : Node) : outcome Node :=
  s ← get_push task w;
  o ← get_task (ptr_ (TypedPush.sub_run_ s.2)) w;
  if negb (Task.IsComplete (base o)) then Ok w else upd_task task Task.SetModuleComplete w.

(** The first case falls through to the second. *)
Definition Push (task : Z) (w : Node) : outcome Node :=
  s ← get_push task w;
  if TypedPush.phase_ s.2 =? PushTaskPhase.kSchedule then
    w ← Push_schedule task w; Push_wait task w
  else if TypedPush.phase_ s.2 =? PushTaskPhase.kWaitSchedule then Push_wait task w
  else Ok w.

(** [Run] ([proc_queue_lib_exec.h]) *)
Definition Run (method task : Z) (w : Node) : outcome Node :=
  if method =? TaskMethod.kConstruct then Construct task w
  else if method =? TaskMethod.kDestruct then Destruct task w
  else if method =? ProcQueueMethod.kPush then Push task w
  else Ok w.

End server.
End ProcQueue.

(** ** Lemmas *)

Section lemmas.
Context `{BitfieldLaws} `{Logger} `{MpscOps} `{AllocOps} `{RawMemory} `{CerealOps} `{CharbufOps}.

Lemma get_push_Ok a w o p :
  get_task a w = Ok o → body o = BTypedPush p → ProcQueue.get_push a w = Ok (base o, p).
Proof. intros Ho Hp. unfold ProcQueue.get_push, as_type. rewrite Ho. simpl. by rewrite Hp. Qed.

Lemma upd_push_Ok a f w o p :
  get_task a w = Ok o → body o = BTypedPush p →
  ProcQueue.upd_push a f w = Ok (put_task a (mkTaskObj (base o) (BTypedPush (f p))) w).
Proof.
  intros Ho Hp. unfold ProcQueue.upd_push, upd_payload, as_type. rewrite Ho. simpl. by rewrite Hp.
Qed.

Lemma Push_wait_Ok a w o p os :
  get_task a w = Ok o → body o = BTypedPush p →
  get_task (ptr_ (TypedPush.sub_run_ p)) w = Ok os →
  ProcQueue.Push_wait a w =
    Ok (if Task.IsComplete (base os) then put_task a (on_base Task.SetModuleComplete o) w else w).
Proof.
  intros Ho Hp Hs. unfold ProcQueue.Push_wait. rewrite (get_push_Ok _ _ _ _ Ho Hp). simpl.
  rewrite Hs. simpl. destruct (Task.IsComplete (base os)); simpl; [|done].
  unfold upd_task. by rewrite Ho.
Qed.

End lemmas.

Section push.
Context `{BitfieldLaws} `{Logger} `{MpscOps} `{AllocOps} `{RawMemory} `{CerealOps} `{CharbufOps}.

Lemma UnsetFireAndForget_spec (t : Task) :
  Task.IsFireAndForget (Task.UnsetFireAndForget t) = false ∧
  Task.IsComplete (Task.UnsetFireAndForget t) = Task.IsComplete t.
Proof. split; flags_task; by rewrite ?andb_false_r, ?andb_true_r. Qed.

Lemma SetModuleComplete_IsModuleComplete (t : Task) (b : bool) :
  Task.IsModuleComplete (if b then Task.SetModuleComplete t else t) =
  Task.IsModuleComplete t || b.
Proof. destruct b; [autorewrite with hrun; by rewrite orb_true_r|by rewrite orb_false_r]. Qed.

(** The subtask as it is submitted *)
Definition submitted (o : TaskObj) : TaskObj :=
  if Task.IsFireAndForget (base o) then on_base Task.UnsetFireAndForget o else o.

Lemma submitted_spec o :
  body (submitted o) = body o ∧ Task.IsFireAndForget (base (submitted o)) = false ∧
  Task.IsComplete (base (submitted o)) = Task.IsComplete (base o) ∧
  Task.task_state_ (base (submitted o)) = Task.task_state_ (base o) ∧
  Task.prio_ (base (submitted o)) = Task.prio_ (base o) ∧
  Task.lane_hash_ (base (submitted o)) = Task.lane_hash_ (base o).
Proof.
  unfold submitted. destruct (Task.IsFireAndForget (base o)) eqn:E; [|by split_and!].
  destruct (UnsetFireAndForget_spec (base o)). by split_and!.
Qed.

(** The submission: the heap and the queues after it *)
Lemma Push_schedule_Ok a w o p os q ret wq :
  let shm := shm_ (TypedPush.sub_cli_ p) in let ptr := Convert shm in
  get_task a w = Ok o → body o = BTypedPush p → ptr ≠ a → get_task ptr w = Ok os →
  Client.GetQueue (Task.task_state_ (base os)) w = Ok q →
  Client.Emplace q (Task.prio_ (base os)) (Task.lane_hash_ (base os)) shm w = Ok (ret, wq) →
  ∃ w', ProcQueue.Push_schedule a w = Ok w' ∧ Node.queue_map_ w' = Node.queue_map_ wq ∧
    get_task ptr w' = Ok (submitted os) ∧
    get_task a w' = Ok (mkTaskObj (base o) (BTypedPush
      (TypedPush.mk (TypedPush.sub_cli_ p) (mkLPointer ptr shm) PushTaskPhase.kWaitSchedule))) ∧
    (∀ b, b ≠ a → b ≠ ptr → get_task b w' = get_task b w) ∧
    w' = Node.set_heap (Node.heap w') (Node.set_queue_map (Node.queue_map_ w') w).
Proof.
  intros shm ptr Ho Hp Hne Hos Hq He. unfold ProcQueue.Push_schedule.
  rewrite (get_push_Ok _ _ _ _ Ho Hp). cbn [mbind outcome_bind snd]. fold shm ptr.
  rewrite (upd_push_Ok _ _ _ _ _ Ho Hp). cbn [mbind outcome_bind].
  set (o1 := mkTaskObj _ _). set (w1 := put_task a o1 w).
  assert (get_task ptr w1 = Ok os) as Hos1 by (unfold w1; by rewrite get_put_task_ne).
  rewrite Hos1. cbn [mbind outcome_bind].
  set (w2 := if Task.IsFireAndForget (base os) then put_task ptr (submitted os) w1 else w1).
  assert ((if Task.IsFireAndForget (base os) then upd_task ptr Task.UnsetFireAndForget w1 else Ok w1)
    = Ok w2) as ->.
  { unfold w2, submitted, upd_task. destruct (Task.IsFireAndForget _); [|done]. by rewrite Hos1. }
  cbn [mbind outcome_bind].
  assert (get_task ptr w2 = Ok (submitted os)) as Hos2.
  { unfold w2, submitted. destruct (Task.IsFireAndForget _); [apply get_put_task_eq|done]. }
  assert (∀ b, b ≠ ptr → get_task b w2 = get_task b w1) as Hb2.
  { intros b Hb. unfold w2. destruct (Task.IsFireAndForget _); [by apply get_put_task_ne|done]. }
  assert (w2 = Node.set_heap (Node.heap w2) w) as Hw2.
  { unfold w2, w1. destruct (Task.IsFireAndForget _); by destruct w. }
  rewrite Hos2. cbn [mbind outcome_bind].
  destruct (submitted_spec os) as (_ & _ & _ & E1 & E2 & E3). rewrite E1, E2, E3.
  assert (Client.GetQueue (UniqueId.convert (Task.task_state_ (base os))) w2 = Ok q) as ->
    by (rewrite Hw2; exact Hq).
  cbn [mbind outcome_bind].
  assert (Client.Emplace q (Task.prio_ (base os)) (Task.lane_hash_ (base os)) shm w2
    = Ok (ret, Node.set_heap (Node.heap w2) wq)) as -> by (rewrite Hw2 at 1; by apply Emplace_heap).
  cbn [mbind outcome_bind].
  assert (get_task a (Node.set_heap (Node.heap w2) wq) = Ok o1) as Ha.
  { change (get_task a w2 = Ok o1). rewrite Hb2 by done. apply get_put_task_eq. }
  rewrite (upd_push_Ok _ _ _ o1 _ Ha eq_refl). eexists. split; [done|]. split; [done|].
  rewrite get_put_task_eq, get_put_task_ne by done. split; [exact Hos2|]. split; [done|].
  split.
  - intros b Hb Hb'. rewrite get_put_task_ne by done. change (get_task b w2 = get_task b w).
    rewrite Hb2 by done. by apply get_put_task_ne.
  - pose proof (Emplace_result _ _ _ _ _ _ _ He) as E. rewrite E. by destruct w.
Qed.

(** Once submitted, running the task again only tests the subtask. *)
Lemma Push_again a w o p os :
  get_task a w = Ok o → body o = BTypedPush p →
  TypedPush.phase_ p = PushTaskPhase.kWaitSchedule →
  get_task (ptr_ (TypedPush.sub_run_ p)) w = Ok os →
  ProcQueue.Push a w =
    Ok (if Task.IsComplete (base os) then put_task a (on_base Task.SetModuleComplete o) w else w).
Proof.
  intros Ho Hp Hph Hs. unfold ProcQueue.Push. rewrite (get_push_Ok _ _ _ _ Ho Hp).
  cbn [mbind outcome_bind snd]. rewrite Hph. simpl. by eapply Push_wait_Ok.
Qed.

(** A later run completes the task when it finds the subtask complete, and else does nothing. *)
Lemma Push_later a w o p os :
  get_task a w = Ok o → body o = BTypedPush p →
  TypedPush.phase_ p = PushTaskPhase.kWaitSchedule →
  get_task (ptr_ (TypedPush.sub_run_ p)) w = Ok os →
  ∃ w' o', ProcQueue.Push a w = Ok w' ∧ Node.queue_map_ w' = Node.queue_map_ w ∧
    get_task a w' = Ok o' ∧ body o' = body o ∧
    Task.IsModuleComplete (base o') = Task.IsModuleComplete (base o) || Task.IsComplete (base os) ∧
    (∀ b, b ≠ a → get_task b w' = get_task b w) ∧
    (Task.IsComplete (base os) = false → w' = w).
Proof.
  intros Ho Hp Hph Hs. rewrite (Push_again _ _ _ _ _ Ho Hp Hph Hs).
  destruct (Task.IsComplete (base os)).
  - eexists _, (on_base Task.SetModuleComplete o). rewrite get_put_task_eq. split_and!; try done.
    + simpl. autorewrite with hrun. by rewrite orb_true_r.
    + intros. by apply get_put_task_ne.
  - exists w, o. rewrite orb_false_r. by split_and!.
Qed.

Lemma Push_times n a w o p os :
  get_task a w = Ok o → body o = BTypedPush p →
  TypedPush.phase_ p = PushTaskPhase.kWaitSchedule → ptr_ (TypedPush.sub_run_ p) ≠ a →
  get_task (ptr_ (TypedPush.sub_run_ p)) w = Ok os →
  ∃ w', times n (ProcQueue.Push a) w = Ok w' ∧ Node.queue_map_ w' = Node.queue_map_ w.
Proof.
  revert w o. induction n as [|n IH]; intros w o Ho Hp Hph Hne Hs; [eexists; by split|].
  simpl. rewrite (Push_again _ _ _ _ _ Ho Hp Hph Hs). cbn [mbind outcome_bind].
  destruct (Task.IsComplete (base os)); [|by eapply IH].
  destruct (IH (put_task a (on_base Task.SetModuleComplete o) w) (on_base Task.SetModuleComplete o))
    as (w' & Hw' & Hq); [apply get_put_task_eq|done|done|done|by rewrite get_put_task_ne|].
  exists w'. by split.
Qed.

End push.

(** ** Properties *)

(** C26: a push task submits its subtask exactly once. Its first run puts the subtask, which
    then is not fire-and-forget, in the queue of the subtask's state, at the subtask's
    priority and hash; the run after it, in whatever state [v] the node has reached meanwhile
    (the task as the first run left it but for its flags, the subtask still allocated), only
    tests the subtask. Every run, first or later, completes the task exactly when it finds the
    subtask complete, and touches no other task (the first also the subtask); and however often
    the worker runs the task again, no queue changes. *)
Theorem Push_submits_once `{BitfieldLaws} `{Logger} `{MpscOps} `{AllocOps} `{RawMemory}
    `{CerealOps} `{CharbufOps} (a : Z) (w : Node) o p os q ret wq :
  let shm := shm_ (TypedPush.sub_cli_ p) in let ptr := Convert shm in
  get_task a w = Ok o → body o = BTypedPush p →
  TypedPush.phase_ p = PushTaskPhase.kSchedule → ptr ≠ a → get_task ptr w = Ok os →
  Client.GetQueue (Task.task_state_ (base os)) w = Ok q →
  Client.Emplace q (Task.prio_ (base os)) (Task.lane_hash_ (base os)) shm w = Ok (ret, wq) →
  ∃ w' o' os', ProcQueue.Push a w = Ok w' ∧ Node.queue_map_ w' = Node.queue_map_ wq ∧
    get_task ptr w' = Ok os' ∧ body os' = body os ∧
    Task.IsFireAndForget (base os') = false ∧
    get_task a w' = Ok o' ∧
    Task.IsModuleComplete (base o') = Task.IsModuleComplete (base o) || Task.IsComplete (base os) ∧
    (∀ b, b ≠ a → b ≠ ptr → get_task b w' = get_task b w) ∧
    (∀ n, ∃ wn, times n (ProcQueue.Push a) w' = Ok wn ∧ Node.queue_map_ wn = Node.queue_map_ w') ∧
    (∀ v ov sv, get_task a v = Ok ov → body ov = body o' → get_task ptr v = Ok sv →
       ∃ v' ov', ProcQueue.Push a v = Ok v' ∧ Node.queue_map_ v' = Node.queue_map_ v ∧
         get_task a v' = Ok ov' ∧ body ov' = body ov ∧
         Task.IsModuleComplete (base ov') =
           Task.IsModuleComplete (base ov) || Task.IsComplete (base sv) ∧
         (∀ b, b ≠ a → get_task b v' = get_task b v) ∧
         (Task.IsComplete (base sv) = false → v' = v)).
Proof.
  intros shm ptr Ho Hp Hph Hne Hos Hq He.
  destruct (Push_schedule_Ok _ _ _ _ _ _ _ _ Ho Hp Hne Hos Hq He) as (w1 & Hw1 & Hqm & Hs1 & Ha1 & Hb1 & _).
  destruct (submitted_spec os) as (Hbody & Hff & Hc & _).
  unfold ProcQueue.Push. rewrite (get_push_Ok _ _ _ _ Ho Hp). cbn [mbind outcome_bind snd].
  rewrite Hph. simpl. rewrite Hw1. cbn [mbind outcome_bind].
  rewrite (Push_wait_Ok _ _ _ _ _ Ha1 eq_refl Hs1), Hc.
  set (o1 := mkTaskObj _ _) in *.
  set (o2 := if Task.IsComplete (base os) then on_base Task.SetModuleComplete o1 else o1).
  set (w2 := if Task.IsComplete (base os) then _ else w1).
  assert (get_task a w2 = Ok o2) as Ha2
    by (unfold w2, o2; destruct (Task.IsComplete (base os)); [apply get_put_task_eq|done]).
  assert (∀ b, b ≠ a → get_task b w2 = get_task b w1) as Hb2
    by (intros; unfold w2; destruct (Task.IsComplete (base os)); [by apply get_put_task_ne|done]).
  assert (body o2 = body o1) as Hbo by (unfold o2; by destruct (Task.IsComplete (base os))).
  assert (get_task ptr w2 = Ok (submitted os)) as Hs2 by (rewrite Hb2 by done; exact Hs1).
  exists w2, o2, (submitted os). split; [done|].
  split; [rewrite <- Hqm; unfold w2; by destruct (Task.IsComplete (base os))|].
  split; [done|]. split; [done|]. split; [done|]. split; [done|]. split.
  { rewrite <- SetModuleComplete_IsModuleComplete. unfold o2. by destruct (Task.IsComplete (base os)). }
  split; [intros b ? ?; rewrite Hb2 by done; by apply Hb1|].
  split; [intros n; by apply (Push_times n a w2 o2 _ (submitted os) Ha2 Hbo)|].
  intros v ov sv Hov Hbv Hsv. rewrite Hbo in Hbv. by apply (Push_later a v ov _ sv Hov Hbv).
Qed.

(** ** Witness: a push task at 5 and its subtask at 42, of the state whose queue is in slot 2 *)
Section witness.
Import RefInstances.
#[local] Existing Instance ref_raw.

Definition wit_subtask : TaskObj :=
  mkTaskObj (init_task ref_task TaskNode.GetNull DomainId.GetLocal 0 1 (UniqueId.make 1 2) 10
               TASK_FIRE_AND_FORGET) (BMd (Md.mk [])).
Definition wit_push : TypedPush.TypedPushTask :=
  TypedPush.mk (mkLPointer 42 42) (mkLPointer 0 0) PushTaskPhase.kSchedule.
Definition wit_pushing : Node :=
  put_task 5 (mkTaskObj ref_task (BTypedPush wit_push)) (put_task 42 wit_subtask
    (Node.set_queue_map [free_queue; free_queue; wit_queue]
      ref_node)).

(** The node once the subtask is complete *)
Definition wit_completed (w : Node) : Node := put_task 42 (on_base Task.SetComplete wit_subtask) w.

Lemma Push_submits_once_witness :
  ∃ w' os' v', ProcQueue.Push 5 wit_pushing = Ok w' ∧ get_task 42 w' = Ok os' ∧
    Task.IsFireAndForget (base os') = false ∧
    (∀ n, ∃ wn, times n (ProcQueue.Push 5) w' = Ok wn ∧ Node.queue_map_ wn = Node.queue_map_ w') ∧
    ProcQueue.Push 5 (wit_completed w') = Ok v' ∧
    ∃ ov, get_task 5 v' = Ok ov ∧ Task.IsModuleComplete (base ov) = true.
Proof.
  assert (∃ ret wq, Client.Emplace 2 1 0 42 wit_pushing = Ok (ret, wq)) as (ret & wq & He)
    by (eexists _, _; vm_compute; reflexivity).
  destruct (Push_submits_once 5 wit_pushing (mkTaskObj ref_task (BTypedPush wit_push)) wit_push
    wit_subtask 2 ret wq) as (w' & o' & os' & Hp & _ & Hs & _ & Hf & Ha & _ & _ & Hn & Hl);
    [reflexivity|reflexivity|reflexivity|discriminate|reflexivity|reflexivity|exact He|].
  destruct (Hl (wit_completed w') o' (on_base Task.SetComplete wit_subtask))
    as (v' & ov & Hv & _ & Hov & _ & Hc & _).
  - unfold wit_completed. rewrite get_put_task_ne by discriminate. exact Ha.
  - reflexivity.
  - apply get_put_task_eq.
  - exists w', os', v'. split; [exact Hp|]. split; [exact Hs|]. split; [exact Hf|].
    split; [exact Hn|]. split; [exact Hv|]. exists ov. split; [exact Hov|]. rewrite Hc.
    apply orb_true_iff. right. apply IsComplete_set.
Defined.

End witness.
