(* ===== verification/SmallMessage.v ===== *)
(** * The small-message library ([tasks_required/small_message])

    A metadata message that answers 1, and a message with a buffer of data whose handler
    checks that the data arrived. *)

From S2P Require Import Prelude Hshm RefLib Types Queue LocalSerialize Config QueueManager.
From S2P Require Import Archive Task TaskTypes World LibExec ProcQueue.

(** [small_message::Client] ([small_message.h]) *)
Module SmallMessageClient.

Record Client := mk { id_ : TaskStateId; queue_id_ : QueueId }.

Section client.
Context `{BitfieldOps} `{Logger} `{MpscOps} `{AllocOps} `{RawMemory}.

(** The queue [CreateRoot] asks for *)
Definition queue_info (qm : QueueManagerInfo) : list PriorityInfo :=
  [PriorityInfo.make 1 1 (QueueManagerInfo.queue_depth_ qm) 0;
   PriorityInfo.make 1 1 (QueueManagerInfo.queue_depth_ qm) QUEUE_LONG_RUNNING;
   PriorityInfo.make (QueueManagerInfo.max_lanes_ qm) (QueueManagerInfo.max_lanes_ qm)
     (QueueManagerInfo.queue_depth_ qm) QUEUE_LOW_LATENCY].

(** [AsyncMd]: the hash is 3, whatever the task's. *)
Definition AsyncMd (this : Client) (task_node : TaskNode) (domain_id : DomainId) (w : Node)
    : outcome (LPointer * Node) :=
  queue ← Client.GetQueue (queue_id_ this) w;
  let '(t, p) := Md.make raw_task raw_int task_node domain_id (id_ this) in
  '(task, w) ← Client.NewTask (mkTaskObj t (BMd p)) w;
  '(_, w) ← Client.Emplace queue TaskPrio.kLowLatency 3 (shm_ task) w;
  mret (task, w).

(** [MdRoot] after [AsyncMdRoot]: what it does with the task when [Wait] returns *)
Definition MdRoot_finish (task : LPointer) (w : Node) : outcome (Z * Node) :=
  o ← get_task (ptr_ task) w;
  _ ← Task.Wait (base o);
  match body o with
  | BMd p =>
      ret ← deref (at_index (Md.ret_ p) 0);
      w ← Client.DelTask (ptr_ task) w;
      mret (ret, w)
  | _ => Undefined
  end.

(** [AsyncMdPushRoot] and [AsyncIoRoot] *)
Definition AsyncMdPushRoot (this : Client) (pq : ProcQueueClient.Client) (tid pid : Z)
    (domain_id : DomainId) (w : Node) : outcome (LPointer * Node) :=
  ProcQueueClient.AsyncTaskRoot pq tid pid (λ task_node,
    let '(t, p) := MdPush.make raw_task raw_int task_node domain_id (id_ this) in
    mkTaskObj t (BMdPush p)) w.

Definition AsyncIoRoot (this : Client) (pq : ProcQueueClient.Client) (tid pid : Z)
    (domain_id : DomainId) (w : Node) : outcome (LPointer * Node) :=
  ProcQueueClient.AsyncTaskRoot pq tid pid (λ task_node,
    let '(t, p) := Io.make (raw_task, Io.mk [] raw_int) task_node domain_id (id_ this) in
    mkTaskObj t (BIo p)) w.

(** [IoRoot] after [AsyncIoRoot]: the result of the subtask, and both tasks deleted *)
Definition IoRoot_finish (push_task : LPointer) (w : Node) : outcome (Z * Node) :=
  o ← get_task (ptr_ push_task) w;
  _ ← Task.Wait (base o);
  match body o with
  | BTypedPush p =>
      o' ← get_task (TypedPush.get p) w;
      match body o' with
      | BIo q => w ← Client.DelTask_TypedPush (ptr_ push_task) w; mret (Io.ret_ q, w)
      | _ => Undefined
      end
  | _ => Undefined
  end.

(** [MdPushRoot] after [AsyncMdPushRoot] *)
Definition MdPushRoot_finish (push_task : LPointer) (w : Node) : outcome (Z * Node) :=
  o ← get_task (ptr_ push_task) w;
  _ ← Task.Wait (base o);
  match body o with
  | BTypedPush p =>
      o' ← get_task (TypedPush.get p) w;
      match body o' with
      | BMdPush q =>
          ret ← deref (at_index (MdPush.ret_ q) 0);
          w ← Client.DelTask_TypedPush (ptr_ push_task) w; mret (ret, w)
      | _ => Undefined
      end
  | _ => Undefined
  end.

End client.
End SmallMessageClient.

(** [small_message::Server] ([small_message.cc]) *)
Module SmallMessage.
Section server.
Context `{BitfieldOps} `{Logger} `{RawMemory} `{CerealOps} `{CharbufOps} `{HvecOps}.

Definition Construct (task : Z) (w : Node) : outcome Node := upd_task task Task.SetModuleComplete w.
Definition Destruct (task : Z) (w : Node) : outcome Node := upd_task task Task.SetModuleComplete w.

(** [task->ret_\[0\] = 1] *)
Definition set_ret (task : Z) (w : Node) : outcome Node :=
  o ← get_task task w;
  s ← as_type c_Md o;
  _ ← deref (at_index (Md.ret_ s.2) 0);
  Ok (put_task task (of_type c_Md (s.1, Md.mk (set_index 0 1 (Md.ret_ s.2)))) w).

Definition Md (task : Z) (w : Node) : outcome Node :=
  w ← set_ret task w; upd_task task Task.SetModuleComplete w.

Definition set_push_ret (task : Z) (w : Node) : outcome Node :=
  o ← get_task task w;
  s ← as_type c_MdPush o;
  _ ← deref (at_index (MdPush.ret_ s.2) 0);
  Ok (put_task task (of_type c_MdPush (s.1, MdPush.mk (set_index 0 1 (MdPush.ret_ s.2)))) w).

Definition MdPush (task : Z) (w : Node) : outcome Node :=
  w ← set_push_ret task w; upd_task task Task.SetModuleComplete w.

(** The loop of [Io] over the first bytes of the data, [ret_] being its result *)
Fixpoint Io_loop (n : nat) (i : Z) (data : list Z) : outcome Z :=
  match n with
  | O => Ok 1
  | S n =>
      x ← deref (at_index data i);
      if negb (x =? 10) then Ok 0 else Io_loop n (i + 1) data
  end.

Definition Io (task : Z) (w : Node) : outcome Node :=
  o ← get_task task w;
  s ← as_type c_Io o;
  ret ← Io_loop 256 0 (Io.data_ s.2);
  let w := put_task task (of_type c_Io (s.1, Io.mk (Io.data_ s.2) ret)) w in
  upd_task task Task.SetModuleComplete w.

(** [Run] ([small_message_lib_exec.h]) *)
Definition Run (method task : Z) (w : Node) : outcome Node :=
  if method =? TaskMethod.kConstruct then Construct task w
  else if method =? TaskMethod.kDestruct then Destruct task w
  else if method =? SmallMessageMethod.kMd then Md task w
  else if method =? SmallMessageMethod.kIo then Io task w
  else if method =? SmallMessageMethod.kMdPush then MdPush task w
  else Ok w.

End server.
End SmallMessage.

(** ** Lemmas *)

(** What the loop of [Io] computes *)
Lemma Io_loop_spec n i (data : list Z) :
  0 ≤ i → i + Z.of_nat n ≤ Z.of_nat (length data) →
  SmallMessage.Io_loop n i data =
    Ok (if forallb (λ x, x =? 10) (take n (drop (Z.to_nat i) data)) then 1 else 0).
Proof.
  revert i. induction n as [|n IH]; intros i Hi Hlen; [done|]. simpl.
  destruct (at_index_is_Some data i) as [x Hx]; [lia|]. rewrite Hx. simpl.
  apply at_index_Some in Hx as [_ Hx]. rewrite (drop_S _ _ _ Hx). simpl.
  destruct (Z.eqb_spec x 10); simpl; [|done].
  rewrite IH by lia. by replace (Z.to_nat (i + 1)) with (S (Z.to_nat i)) by lia.
Qed.

Lemma forallb_replicate {A} (f : A → bool) n x : f x = true → forallb f (replicate n x) = true.
Proof. intros E. induction n; simpl; [done|]. by rewrite E. Qed.

Section io.
Context `{BitfieldLaws} `{Logger} `{RawMemory} `{CerealOps} `{CharbufOps} `{HvecOps}.

Lemma Io_Ok a w o p :
  get_task a w = Ok o → body o = BIo p → Z.of_nat (length (Io.data_ p)) = Io.DATA_SIZE →
  SmallMessage.Io a w = Ok (put_task a (mkTaskObj (Task.SetModuleComplete (base o))
    (BIo (Io.mk (Io.data_ p)
      (if forallb (λ x, x =? 10) (take 256 (Io.data_ p)) then 1 else 0)))) w).
Proof.
  intros Ho Hp Hlen. unfold SmallMessage.Io, as_type. rewrite Ho.
  cbn [mbind outcome_bind]. rewrite Hp. cbn [tc_get c_Io plain_class deref mbind outcome_bind snd fst].
  rewrite Io_loop_spec; [|done|by rewrite Hlen].
  cbn [mbind outcome_bind]. unfold upd_task. rewrite get_put_task_eq. cbn [mbind outcome_bind].
  by rewrite put_put_task.
Qed.

End io.

(** ** Properties *)

(** The verdict of the data message: its handler answers 1 exactly when the first 256 of
    the 4096 bytes hold the value the client wrote, 0 otherwise, completes the task in both
    cases and changes neither the data nor any other task. *)
Theorem Io_verdict `{BitfieldLaws} `{Logger} `{RawMemory} `{CerealOps} `{CharbufOps} `{HvecOps}
    (a : Z) (w : Node) o p :
  get_task a w = Ok o → body o = BIo p → Z.of_nat (length (Io.data_ p)) = Io.DATA_SIZE →
  ∃ w' o' ret, SmallMessage.Io a w = Ok w' ∧ get_task a w' = Ok o' ∧
    body o' = BIo (Io.mk (Io.data_ p) ret) ∧
    (ret = 1 ↔ Forall (λ x, x = 10) (take 256 (Io.data_ p))) ∧ (ret = 1 ∨ ret = 0) ∧
    Task.IsModuleComplete (base o') = true ∧ ∀ b, b ≠ a → get_task b w' = get_task b w.
Proof.
  intros Ho Hp Hlen. rewrite (Io_Ok _ _ _ _ Ho Hp Hlen). eexists _, _, _. split; [done|].
  rewrite get_put_task_eq. split; [done|]. split; [done|]. simpl base.
  rewrite IsModuleComplete_set. split; [|split; [case_bool; auto|split; [done|]]].
  - rewrite List.Forall_forall. destruct (forallb _ _) eqn:E.
    + rewrite forallb_forall in E. split; [|done]. intros _ x Hx. by apply Z.eqb_eq, E.
    + split; [done|]. intros Hall. assert (forallb (λ x, x =? 10) (take 256 (Io.data_ p)) = true).
      { apply forallb_forall. intros x Hx. by apply Z.eqb_eq, Hall. } congruence.
  - intros. by apply get_put_task_ne.
Qed.

(** The data message end to end, across two nodes. The task a client constructs, saved for
    another node, loaded there, run by the library's handler and its result saved, loaded
    into the task it came from: the client's task then holds the answer 1, and its data is
    as it was. *)
Theorem Io_remote_answer `{BitfieldLaws} `{Logger} `{RawMemory} `{CerealLaws} `{CharbufOps}
    `{HvecOps} `{AllocLaws} (count : Z) memory task_node domain_id state_id a w w2 nid nid2 pl t p :
  Io.make memory task_node domain_id state_id = (t, p) → Task.wf t →
  get_task a w = Ok (mkTaskObj t (BIo p)) → allocate (Node.heap w2) = Some pl →
  let table := methods_of (SmallMessageServer count) in
  let kIo := SmallMessageMethod.kIo in
  ∃ xfer ar a2 w2' w2'' x,
    SaveStart table kIo (BinaryOutputArchive_new nid) a w = Ok xfer ∧
    BinaryInputArchive_new xfer = Ok ar ∧
    LoadStart table kIo ar w2 = Ok (Some a2, w2') ∧
    SmallMessage.Run kIo (ptr_ a2) w2' = Ok w2'' ∧
    SaveEnd table kIo (BinaryOutputArchive_new nid2) (ptr_ a2) w2'' = Ok [x] ∧
    ∀ y, DataTransfer.data_ y = DataTransfer.data_ x →
      DataTransfer.data_size_ y = DataTransfer.data_size_ x →
      ∃ ar' w', BinaryInputArchive_new [y] = Ok ar' ∧ LoadEnd table 0 kIo ar' a w = Ok w' ∧
        get_task a w' = Ok (mkTaskObj t (BIo (Io.mk (Io.data_ p) 1))).
Proof.
  intros Hmk Hwf Ho Hal table kIo.
  assert (table kIo = Some c_Io) as Hm by done.
  assert (Io.data_ p = replicate (Z.to_nat Io.DATA_SIZE) 10) as Hdata by (by injection Hmk as <- <-).
  assert (Z.of_nat (length (Io.data_ p)) = Io.DATA_SIZE) as Hlen by (by rewrite Hdata, length_replicate).
  assert (SUPPORTS_SRL (tc_serial c_Io) = true) as Hsup
    by (change (TaskFlags.SUPPORTS_SRL Io.FLAGS = true); unfold Io.FLAGS; eval_flags).
  destruct (start_transfer (SmallMessageServer count) kIo c_Io a _ (t, p) nid w w2 pl Hm Hsup Ho
    eq_refl Hwf Hlen Hal) as (xfer & ar & o2 & Hs & Hi & Hl & Hbase & Hbody).
  set (a2 := mkLPointer _ _) in Hl. set (w2' := put_task _ _ _) in Hl.
  assert (get_task (ptr_ a2) w2' = Ok o2) as Ho2 by apply get_put_task_eq.
  change (body o2 = BIo (Io.mk (Io.data_ p) raw_int)) in Hbody.
  assert (SmallMessage.Run kIo (ptr_ a2) w2' = SmallMessage.Io (ptr_ a2) w2') as Hrun by done.
  pose proof (Io_Ok _ _ _ _ Ho2 Hbody Hlen) as Hio. simpl Io.data_ in Hio.
  assert (forallb (λ x, x =? 10) (take 256 (Io.data_ p)) = true) as Hall.
  { rewrite Hdata, take_replicate. by apply forallb_replicate. }
  rewrite Hall in Hio. set (o3 := mkTaskObj _ _) in Hio. set (w2'' := put_task _ _ _) in Hio.
  destruct (end_transfer (SmallMessageServer count) kIo c_Io (ptr_ a2) o3
    (base o3, Io.mk (Io.data_ p) 1) nid2 w2'' 0 a (mkTaskObj t (BIo p)) (t, p) w Hm Hsup
    (get_put_task_eq _ _ _) eq_refl ltac:(done) Ho eq_refl I) as (x & Hx & _ & Hend).
  exists xfer, ar, a2, w2', w2'', x. split; [done|]. split; [done|]. split; [done|].
  split; [by rewrite Hrun|]. split; [done|]. intros y Hd Hz.
  destruct (Hend y Hd Hz) as (ar' & o' & Hin & Hload & Hb & Hbo). exists ar', (put_task a o' w).
  split; [done|]. split; [exact Hload|]. rewrite get_put_task_eq. f_equal.
  destruct o' as [b' bo']. simpl in Hb, Hbo. by subst.
Qed.

(** ** Witnesses: the data message at 42 *)
Section witness.
Import RefInstances.
#[local] Existing Instance ref_raw.

Definition wit_memory : Task * Io.IoTask := (ref_task, Io.mk [] 0).
Definition wit_io : Task * Io.IoTask :=
  Io.make wit_memory TaskNode.GetNull (DomainId.GetNode 2) (UniqueId.make 1 2).
Definition wit_io_node : Node := put_task 42 (mkTaskObj wit_io.1 (BIo wit_io.2)) ref_node.

Lemma Io_verdict_witness :
  ∃ w' o', SmallMessage.Io 42 wit_io_node = Ok w' ∧ get_task 42 w' = Ok o' ∧
    Task.IsModuleComplete (base o') = true.
Proof.
  destruct (Io_verdict 42 wit_io_node (mkTaskObj wit_io.1 (BIo wit_io.2)) wit_io.2 eq_refl eq_refl
    ltac:(by vm_compute)) as (w' & o' & ret & Hr & Ho & _ & _ & _ & Hc & _).
  exists w', o'. split; [exact Hr|]. split; [exact Ho|exact Hc].
Defined.

Lemma Io_remote_answer_witness :
  ∃ xfer, SaveStart (methods_of (SmallMessageServer 0)) SmallMessageMethod.kIo
    (BinaryOutputArchive_new (DomainId.GetNode 1)) 42 wit_io_node = Ok xfer.
Proof.
  destruct (Io_remote_answer 0 wit_memory TaskNode.GetNull (DomainId.GetNode 2) (UniqueId.make 1 2)
    42 wit_io_node ref_node (DomainId.GetNode 1) (DomainId.GetNode 2) (1, 1) wit_io.1 wit_io.2) as (xfer & _ & _ & _ & _ & _ & Hs & _).
  - reflexivity.
  - split_and!; by vm_compute.
  - done.
  - by vm_compute.
  - exists xfer. exact Hs.
Defined.

End witness.
