(* ===== verification/Admin.v ===== *)
(** * The administrative library ([tasks_required/hermes_run_admin])

    The tasks that load libraries and create and destroy task states. Creating a state may
    need the id of its name from node 1: the handler is a coroutine that submits a task for
    the id and yields until it is complete. *)

From S2P Require Import Prelude Hshm RefLib Types Queue LocalSerialize Config QueueManager.
From S2P Require Import Archive Task TaskTypes World LibExec Registry Rpc Thallium Exec.
From S2P Require Import WorkerLoop Schedulers.

(** [Admin::Client] ([hermes_run_admin.h]) *)
Module AdminClient.

Record Client := mk { id_ : TaskStateId; queue_id_ : QueueId; admin_task_state_ : TaskStateId }.

(** [Client()]; the constructors of the tasks read [admin_task_state_] from the manager. *)
Definition new (qm : QueueManager) : Client := {|
  id_ := UniqueId.convert (QueueManager.admin_queue_ qm);
  queue_id_ := QueueManager.admin_queue_ qm;
  admin_task_state_ := QueueManager.admin_task_state_ qm;
|}.

Section client.
Context `{BitfieldOps} `{Logger} `{MpscOps} `{AllocOps} `{RawMemory} `{CerealOps} `{CharbufOps}.
Variable (this : Client).

(** [AsyncX(task_node, domain_id, ...)]: allocated, constructed and pushed
    ([HERMES_RUN_TASK_NODE_ADMIN_ROOT]) *)
Definition Async (c : task_class) (s : Task * tc_payload c) (w : Node) : outcome (LPointer * Node) :=
  Client.Async (queue_id_ this) (of_type c s) w.

(** The memory a task of the class is constructed on *)
Definition memory (c : task_class) : Task * tc_payload c := (raw_task, tc_empty c).

Definition AsyncRegisterTaskLib (task_node : TaskNode) (domain_id : DomainId) (lib_name : string) :=
  Async c_RegisterTaskLib (RegisterTaskLib.make 0 (memory c_RegisterTaskLib) task_node domain_id
    (admin_task_state_ this) lib_name).

Definition AsyncDestroyTaskLib (task_node : TaskNode) (domain_id : DomainId) (lib_name : string) :=
  Async c_RegisterTaskLib (RegisterTaskLib.make 1 (memory c_RegisterTaskLib) task_node domain_id
    (admin_task_state_ this) lib_name).

Definition AsyncCreateTaskState (task_node : TaskNode) (domain_id : DomainId)
    (state_name lib_name : string) (id : TaskStateId) (queue_info : list PriorityInfo) :=
  Async c_CreateTaskState (CreateTaskState.make (memory c_CreateTaskState) task_node domain_id
    (admin_task_state_ this) state_name lib_name id queue_info).

Definition AsyncGetOrCreateTaskStateId (task_node : TaskNode) (domain_id : DomainId)
    (state_name : string) :=
  Async c_GetOrCreateTaskStateId (GetOrCreateTaskStateId.make (memory c_GetOrCreateTaskStateId)
    task_node domain_id (admin_task_state_ this) state_name).

Definition AsyncGetTaskStateId (task_node : TaskNode) (domain_id : DomainId)
    (state_name : string) :=
  Async c_GetTaskStateId (GetTaskStateId.make (memory c_GetTaskStateId)
    task_node domain_id (admin_task_state_ this) state_name).

Definition AsyncDestroyTaskState (task_node : TaskNode) (domain_id : DomainId)
    (id : TaskStateId) :=
  Async c_DestroyTaskState (DestroyTaskState.make (memory c_DestroyTaskState)
    task_node domain_id (admin_task_state_ this) id).

Definition AsyncStopRuntime (task_node : TaskNode) (domain_id : DomainId) :=
  Async c_StopRuntime (StopRuntime.make (memory c_StopRuntime) task_node domain_id
    (admin_task_state_ this)).

Definition AsyncSetWorkOrchQueuePolicy (task_node : TaskNode) (domain_id : DomainId)
    (policy : TaskStateId) :=
  Async c_SetWorkOrchestratorPolicy (SetWorkOrchestratorPolicy.make 0
    (memory c_SetWorkOrchestratorPolicy) task_node domain_id (admin_task_state_ this) policy).

Definition AsyncSetWorkOrchProcPolicy (task_node : TaskNode) (domain_id : DomainId)
    (policy : TaskStateId) :=
  Async c_SetWorkOrchestratorPolicy (SetWorkOrchestratorPolicy.make 1
    (memory c_SetWorkOrchestratorPolicy) task_node domain_id (admin_task_state_ this) policy).

(** [AsyncXRoot]: the task node is one level below a new root. *)
Definition AsyncRoot (async : TaskNode → Node → outcome (LPointer * Node)) (w : Node)
    : outcome (LPointer * Node) :=
  let '(task_node, w) := Client.MakeTaskNodeId w in async (TaskNode.add task_node 1) w.

(** [AsyncCreateTaskStateRoot]: at the new root itself *)
Definition AsyncCreateTaskStateRoot (domain_id : DomainId) (state_name lib_name : string)
    (id : TaskStateId) (queue_info : list PriorityInfo) (w : Node) : outcome (LPointer * Node) :=
  let '(task_node, w) := Client.MakeTaskNodeId w in
  AsyncCreateTaskState task_node domain_id state_name lib_name id queue_info w.

(** The rest of a blocking [XRoot] when [Wait] returns: the result is read and the task
    deleted. *)
Definition finish {A} (result : TaskObj → outcome A) (task : LPointer) (w : Node)
    : outcome (A * Node) :=
  o ← get_task (ptr_ task) w;
  _ ← Task.Wait (base o);
  a ← result o;
  w ← Client.DelTask (ptr_ task) w;
  mret (a, w).

(** The results [CreateTaskStateRoot], [GetOrCreateTaskStateIdRoot] and [GetTaskStateIdRoot]
    return; the other functions return none. *)
Definition created_id (o : TaskObj) : outcome TaskStateId :=
  s ← as_type c_CreateTaskState o; Ok (CreateTaskState.id_ s.2).
Definition get_or_created_id (o : TaskObj) : outcome TaskStateId :=
  s ← as_type c_GetOrCreateTaskStateId o; Ok (GetOrCreateTaskStateId.id_ s.2).
Definition got_id (o : TaskObj) : outcome TaskStateId :=
  s ← as_type c_GetTaskStateId o; Ok (GetTaskStateId.id_ s.2).

End client.
End AdminClient.

(** [Admin::Server] ([hermes_run_admin.cc]); the members [queue_sched_] and [proc_sched_] are
    in the state at [exec], as [AdminServer]. *)
Module Admin.
Section server.
Context `{BitfieldOps} `{Logger} `{MpscOps} `{AllocOps} `{RawMemory} `{CerealOps} `{CharbufOps}
        `{HvecOps} `{Dlfcn} `{ConstructOps} `{DaemonOps}.

(** The singleton [HERMES_RUN_ADMIN] *)
Definition client (w : Node) : AdminClient.Client :=
  AdminClient.new (QueueManager.Init (Node.node_id_ w)).

(** The task at an address, cast to a type *)
Definition get_as (c : task_class) (task : Z) (w : Node) : outcome (Task * tc_payload c) :=
  o ← get_task task w; as_type c o.

Definition RegisterTaskLib (task : Z) (w : Node) : outcome Node :=
  s ← get_as c_RegisterTaskLib task w;
  let '(_, w) := RegisterTaskLib (RegisterTaskLib.lib_name_ s.2) w in
  upd_task task Task.SetModuleComplete w.

Definition DestroyTaskLib (task : Z) (w : Node) : outcome Node :=
  s ← get_as c_RegisterTaskLib task w;
  upd_task task Task.SetModuleComplete (DestroyTaskLib (RegisterTaskLib.lib_name_ s.2) w).

Definition GetOrCreateTaskStateId (task : Z) (w : Node) : outcome Node :=
  s ← get_as c_GetOrCreateTaskStateId task w;
  let '(id, w) := GetOrCreateTaskStateId (GetOrCreateTaskStateId.state_name_ s.2) w in
  w ← upd_payload c_GetOrCreateTaskStateId
        (λ p, GetOrCreateTaskStateId.mk (GetOrCreateTaskStateId.state_name_ p) id) task w;
  upd_task task Task.SetModuleComplete w.

(** [CreateTaskState] from the comment "Create the task state" on *)
Definition CreateTaskState_create (task : Z) (w : Node) : outcome Node :=
  s ← get_as c_CreateTaskState task w;
  let id := CreateTaskState.id_ s.2 in
  if UniqueId.IsNull id then upd_task task Task.SetModuleComplete w
  else if TaskStateExists id w then upd_task task Task.SetModuleComplete w
  else
    let qid := UniqueId.convert id in
    queue_map ← QueueManagerRuntime.CreateQueue qid (CreateTaskState.queue_info_ s.2)
                  (Node.queue_map_ w);
    let w := Node.set_queue_map queue_map w in
    w ← upd_task task (Task.set_method TaskMethod.kConstruct) w;
    '(ret, w) ← CreateTaskState (CreateTaskState.lib_name_ s.2) (CreateTaskState.state_name_ s.2)
                  id task w;
    if negb ret then upd_task task Task.SetModuleComplete w else Ok w.

(** [get_id->Wait<TASK_YIELD_CO>(task)] and what follows: the frame of the coroutine is the
    pointer [get_id]; its two strings are those of the task, which nothing assigns. *)
Definition CreateTaskState_wait (get_id : LPointer) (task : Z) (w : Node)
    : outcome (option (list Z) * Node) :=
  o ← get_task (ptr_ get_id) w;
  if negb (Task.IsComplete (base o)) then Ok (Some [ptr_ get_id; shm_ get_id], w)
  else
    s ← as_type c_GetOrCreateTaskStateId o;
    w ← set_create_id (GetOrCreateTaskStateId.id_ s.2) task w;
    w ← Client.DelTask (ptr_ get_id) w;
    w ← CreateTaskState_create task w;
    Ok (None, w).

(** The handler, from its start ([None]) or from its yield *)
Definition CreateTaskState (k : option (list Z)) (task : Z) (w : Node)
    : outcome (option (list Z) * Node) :=
  match k with
  | None =>
      s ← get_as c_CreateTaskState task w;
      let task_state := GetTaskStateByName (CreateTaskState.state_name_ s.2)
                          (CreateTaskState.id_ s.2) w in
      if negb (task_state =? 0) then
        st ← get_state task_state w;
        w ← set_create_id (TaskLib.id_ st) task w;
        w ← upd_task task Task.SetModuleComplete w;
        Ok (None, w)
      else if UniqueId.IsNull (CreateTaskState.id_ s.2) then
        '(get_id, w) ← AdminClient.AsyncGetOrCreateTaskStateId (client w)
                         (TaskNode.add (Task.task_node_ s.1) 1) (DomainId.GetNode 1)
                         (CreateTaskState.state_name_ s.2) w;
        CreateTaskState_wait get_id task w
      else
        w ← CreateTaskState_create task w;
        Ok (None, w)
  | Some [ptr; shm] => CreateTaskState_wait (mkLPointer ptr shm) task w
  | Some _ => Undefined
  end.

Definition GetTaskStateId (task : Z) (w : Node) : outcome Node :=
  s ← get_as c_GetTaskStateId task w;
  w ← upd_payload c_GetTaskStateId
        (λ p, GetTaskStateId.mk (GetTaskStateId.state_name_ p)
                (GetTaskStateId (GetTaskStateId.state_name_ s.2) w)) task w;
  upd_task task Task.SetModuleComplete w.

Definition DestroyTaskState (task : Z) (w : Node) : outcome Node :=
  s ← get_as c_DestroyTaskState task w;
  w ← DestroyTaskState (DestroyTaskState.id_ s.2) w;
  upd_task task Task.SetModuleComplete w.

(** The flag of the runtime, then the signal to the RPC server *)
Definition StopRuntime (task : Z) (w : Node) : outcome Node :=
  let w := FinalizeRuntime w in
  w ← stop_this_daemon w;
  upd_task task Task.SetModuleComplete w.

(** The two policies: a new scheduling task, once the former one, told to stop, is complete.
    [sched] and [set] read and write the member that designates it. *)
Definition new_sched (set : Z → ServerData) (exec task : Z) (st : TaskState) (w : Node)
    : outcome Node :=
  s ← get_as c_SetWorkOrchestratorPolicy task w;
  let '(t, p) := Schedule.make raw_task raw_int (Task.task_node_ s.1) DomainId.GetLocal
                   (SetWorkOrchestratorPolicy.policy_id_ s.2) in
  '(sched, w) ← Client.NewTask (mkTaskObj t (BSchedule p)) w;
  let w := put_state exec (TaskLib.set_server (set (ptr_ sched)) st) w in
  queue ← Client.GetQueue (TaskLib.queue_id_ st) w;
  '(_, w) ← Client.Emplace queue 0 0 (shm_ sched) w;
  upd_task task Task.SetModuleComplete w.

Definition set_policy (sched : Z → Z → Z) (set : Z → Z → Z → ServerData) (exec task : Z) (w : Node)
    : outcome Node :=
  st ← get_state exec w;
  match TaskLib.server st with
  | AdminServer queue_sched proc_sched =>
      let cur := sched queue_sched proc_sched in
      w ← (if cur =? 0 then Ok w else upd_task cur Task.SetModuleComplete w);
      wait ← (if cur =? 0 then Ok false
              else o ← get_task cur w; Ok (negb (Task.IsComplete (base o))));
      if (wait : bool) then Ok w else new_sched (set queue_sched proc_sched) exec task st w
  | _ => Undefined
  end.

Definition SetWorkOrchQueuePolicy : Z → Z → Node → outcome Node :=
  set_policy (λ queue_sched _, queue_sched) (λ _ proc_sched x, AdminServer x proc_sched).

Definition SetWorkOrchProcPolicy : Z → Z → Node → outcome Node :=
  set_policy (λ _ proc_sched, proc_sched) (λ queue_sched _ x, AdminServer queue_sched x).

(** [Run] ([hermes_run_admin_lib_exec.h]). Outside a coroutine, a yield of [CreateTaskState]
    would jump through a context that was never made. *)
Definition Run (exec method task : Z) (w : Node) : outcome Node :=
  if method =? AdminMethod.kCreateTaskState then
    '(k, w) ← CreateTaskState None task w;
    match k with None => Ok w | Some _ => Undefined end
  else if method =? AdminMethod.kDestroyTaskState then DestroyTaskState task w
  else if method =? AdminMethod.kRegisterTaskLib then RegisterTaskLib task w
  else if method =? AdminMethod.kDestroyTaskLib then DestroyTaskLib task w
  else if method =? AdminMethod.kGetOrCreateTaskStateId then GetOrCreateTaskStateId task w
  else if method =? AdminMethod.kGetTaskStateId then GetTaskStateId task w
  else if method =? AdminMethod.kStopRuntime then StopRuntime task w
  else if method =? AdminMethod.kSetWorkOrchQueuePolicy then SetWorkOrchQueuePolicy exec task w
  else if method =? AdminMethod.kSetWorkOrchProcPolicy then SetWorkOrchProcPolicy exec task w
  else Ok w.

End server.
End Admin.

(** ** Lemmas *)

Section lemmas.
Context `{BitfieldLaws} `{Logger} `{MpscOps} `{AllocOps} `{RawMemory} `{CerealOps} `{CharbufOps}
        `{HvecLaws} `{Dlfcn} `{ConstructLaws}.

Lemma get_create a w o p :
  get_task a w = Ok o → body o = BCreateTaskState p →
  Admin.get_as c_CreateTaskState a w = Ok (base o, p).
Proof. intros Ho Hp. unfold Admin.get_as, as_type. rewrite Ho. simpl. by rewrite Hp. Qed.

Lemma set_create_id_Ok id a w o p :
  get_task a w = Ok o → body o = BCreateTaskState p →
  set_create_id id a w = Ok (put_task a (set_body (BCreateTaskState
    (CreateTaskState.mk (CreateTaskState.lib_name_ p) (CreateTaskState.state_name_ p)
       (CreateTaskState.queue_info_ p) id)) o) w).
Proof. intros Ho Hp. unfold set_create_id. rewrite Ho. simpl. by rewrite Hp. Qed.

Lemma convert_id (id : UniqueId) : UniqueId.convert id = id.
Proof. by destruct id. Qed.

(** The creating half of the handler, in a node where everything it needs is there *)
Lemma CreateTaskState_create_Ok task w o p info i q :
  let id := CreateTaskState.id_ p in
  registry_ok w → get_task task w = Ok o → body o = BCreateTaskState p →
  UniqueId.IsNull id = false →
  TaskRegistry.libs_ (Node.task_registry_ w) !! CreateTaskState.lib_name_ p = Some info →
  GetTaskState id w = 0 →
  QueueManager.GetQueue id (Node.queue_map_ w) = Ok i → Node.queue_map_ w !! i = Some q →
  UniqueId.IsNull (MultiQueue.id_ q) = true →
  ∃ w' a st, Admin.CreateTaskState_create task w = Ok w' ∧
    GetTaskState id w' = a ∧ a ≠ 0 ∧ Node.states w' !! a = Some st ∧
    TaskLib.id_ st = id ∧ TaskLib.name_ st = CreateTaskState.state_name_ p ∧ registry_ok w' ∧
    Node.queue_map_ w' = <[i := MultiQueue.make id (CreateTaskState.queue_info_ p)]> (Node.queue_map_ w) ∧
    (∀ b, b ≠ a → Node.states w' !! b = Node.states w !! b).
Proof.
  intros id Hr Ho Hp Hn Hlib Hid Hi Hq Hf. unfold Admin.CreateTaskState_create.
  rewrite (get_create _ _ _ _ Ho Hp). cbn [mbind outcome_bind snd]. fold id.
  rewrite Hn, (TaskStateExists_spec id w Hr), Hid, convert_id. simpl negb. cbv iota.
  rewrite (CreateQueue_free _ _ _ _ _ Hi Hq Hn Hf). cbn [mbind outcome_bind].
  set (m := <[i := _]> (Node.queue_map_ w)). set (w1 := Node.set_queue_map m w).
  assert (upd_task task (Task.set_method TaskMethod.kConstruct) w1 =
    Ok (put_task task (on_base (Task.set_method TaskMethod.kConstruct) o) w1)) as ->.
  { unfold upd_task. change (get_task task w1) with (get_task task w). by rewrite Ho. }
  cbn [mbind outcome_bind]. set (w2 := put_task _ _ w1).
  destruct (create_task_state_ok (CreateTaskState.lib_name_ p) (CreateTaskState.state_name_ p) id
    task w2 info (on_base (Task.set_method TaskMethod.kConstruct) o) p)
    as (w' & a & st & Hc & Ha & Hne & Hfree & Hst & Hsid & Hsn & Hr' & Hsame & _ & _);
    [exact Hr|done|exact Hlib|exact Hid|apply get_put_task_eq|done|].
  rewrite Hc. cbn [mbind outcome_bind negb].
  exists w', a, st. split; [done|]. do 5 (split; [done|]). split; [exact Hr'|].
  split; [|exact Hsame]. by rewrite (proj1 (CreateTaskState_keeps _ _ _ _ _ _ _ Hc)).
Qed.

(** What the handler does with the current scheduling task *)
Lemma queue_policy_cases exec task w st cur proc oc :
  get_state exec w = Ok st → TaskLib.server st = AdminServer cur proc →
  (cur ≠ 0 → get_task cur w = Ok oc) →
  let w0 := if cur =? 0 then w else put_task cur (on_base Task.SetModuleComplete oc) w in
  Admin.SetWorkOrchQueuePolicy exec task w =
    if (cur =? 0) || Task.IsComplete (base oc)
    then Admin.new_sched (λ x, AdminServer x proc) exec task st w0 else Ok w0.
Proof.
  intros Hst Hs Hcur w0. unfold w0, Admin.SetWorkOrchQueuePolicy, Admin.set_policy.
  rewrite Hst. cbn [mbind outcome_bind]. rewrite Hs.
  destruct (Z.eqb_spec cur 0) as [Hz|Hz]; [done|]. specialize (Hcur Hz).
  rewrite (upd_get_Ok _ _ _ _ Hcur). cbn [mbind outcome_bind].
  rewrite get_put_task_eq. cbn [mbind outcome_bind on_base set_base base orb].
  assert (Task.IsComplete (Task.SetModuleComplete (base oc)) = Task.IsComplete (base oc)) as ->
    by (flags_task; by rewrite orb_false_r).
  by destruct (Task.IsComplete (base oc)).
Qed.

(** The new scheduling task of a policy *)
Lemma new_sched_Ok `{!AllocLaws} set exec task st w w1 o p i ret wq shm ptr :
  get_task task w1 = Ok o → body o = BSetWorkOrchestratorPolicy p →
  Node.queue_map_ w1 = Node.queue_map_ w → allocate (Node.heap w1) = Some (shm, ptr) →
  Client.GetQueue (TaskLib.queue_id_ st) w = Ok i → Client.Emplace i 0 0 shm w = Ok (ret, wq) →
  ∃ w' o' os, Admin.new_sched set exec task st w1 = Ok w' ∧
    get_state exec w' = Ok (TaskLib.set_server (set ptr) st) ∧
    get_task ptr w' = Ok os ∧ body os = BSchedule (Schedule.mk [raw_int]) ∧
    Task.task_state_ (base os) = SetWorkOrchestratorPolicy.policy_id_ p ∧
    get_task task w' = Ok o' ∧ Task.IsModuleComplete (base o') = true ∧
    Node.queue_map_ w' = Node.queue_map_ wq.
Proof.
  intros Ho1 Hp Hqm Ha1 Hq He. unfold Admin.new_sched, Admin.get_as, as_type. rewrite Ho1.
  cbn [mbind outcome_bind]. rewrite Hp.
  cbn [tc_get c_SetWorkOrchestratorPolicy plain_class deref mbind outcome_bind fst snd].
  unfold Schedule.make, Client.NewTask. rewrite Ha1. cbn [mbind outcome_bind ptr_ shm_].
  set (os := mkTaskObj _ _). set (st' := TaskLib.set_server _ _).
  pose proof (allocate_fresh _ _ _ Ha1) as (Hfree & _ & _).
  set (w2 := put_state exec st' (put_task ptr os w1)).
  assert (Client.GetQueue (TaskLib.queue_id_ st) w2 = Ok i) as ->
    by (unfold Client.GetQueue, w2; simpl; by rewrite Hqm).
  cbn [mbind outcome_bind].
  assert (Client.Emplace i 0 0 shm w2 = Ok (ret, Node.set_queue_map (Node.queue_map_ wq) w2)) as ->.
  { revert He. unfold Client.Emplace, get_queue, w2. simpl. rewrite Hqm. intros. invert_ok.
    destruct x0 as [r x']. invert_ok. rewrite Hx. simpl. rewrite Hx0. simpl.
    unfold put_queue. simpl. by rewrite ?Hqm. }
  cbn [mbind outcome_bind]. unfold upd_task.
  assert (task ≠ ptr) as Hnp by (intros ->; apply get_task_Ok in Ho1; congruence).
  assert (get_task task (Node.set_queue_map (Node.queue_map_ wq) w2) = Ok o) as ->.
  { change (get_task task (put_task ptr os w1) = Ok o). by rewrite get_put_task_ne. }
  cbn [mbind outcome_bind]. eexists _, _, os. split; [done|].
  split; [unfold get_state, w2; simpl; by rewrite lookup_insert_eq|].
  split; [rewrite get_put_task_ne by done; exact (get_put_task_eq ptr os w1)|].
  do 2 (split; [done|]). rewrite get_put_task_eq. split; [done|].
  split; [simpl; by autorewrite with hrun|done].
Qed.

End lemmas.

(** ** Properties *)

(** C15: the handler that creates a task state, given an id that has no state, on a node where
    the library is loaded and the queue of the id is free: it returns without yielding,
    the state exists under the id and name of the task and is found by the id, and its
    queue, with the lanes asked for, is in the slot the id names; no other state or queue
    changes, and the registry and the queue map stay well formed. *)
Theorem Admin_CreateTaskState `{BitfieldLaws} `{Logger} `{MpscOps} `{AllocOps} `{RawMemory}
    `{CerealOps} `{CharbufOps} `{HvecLaws} `{Dlfcn} `{ConstructLaws}
    (task : Z) (w : Node) o p info i q :
  let id := CreateTaskState.id_ p in let m := Node.queue_map_ w in
  registry_ok w → map_ok m → Forall PriorityInfo.wf (CreateTaskState.queue_info_ p) →
  get_task task w = Ok o → body o = BCreateTaskState p → UniqueId.IsNull id = false →
  TaskRegistry.libs_ (Node.task_registry_ w) !! CreateTaskState.lib_name_ p = Some info →
  GetTaskState id w = 0 → GetTaskStateByName (CreateTaskState.state_name_ p) id w = 0 →
  QueueManager.GetQueue id m = Ok i → m !! i = Some q → UniqueId.IsNull (MultiQueue.id_ q) = true →
  ∃ w' a st, Admin.CreateTaskState None task w = Ok (None, w') ∧
    GetTaskState id w' = a ∧ a ≠ 0 ∧ Node.states w' !! a = Some st ∧
    TaskLib.id_ st = id ∧ TaskLib.name_ st = CreateTaskState.state_name_ p ∧
    (∀ b, b ≠ a → Node.states w' !! b = Node.states w !! b) ∧ registry_ok w' ∧
    map_ok (Node.queue_map_ w') ∧
    Node.queue_map_ w' !! i = Some (MultiQueue.make id (CreateTaskState.queue_info_ p)) ∧
    (∀ j, j ≠ i → Node.queue_map_ w' !! j = m !! j).
Proof.
  intros id m Hr Hm Hinfo Ho Hp Hn Hlib Hid Hname Hi Hq Hf. unfold Admin.CreateTaskState.
  rewrite (get_create _ _ _ _ Ho Hp). cbn [mbind outcome_bind snd]. fold id. rewrite Hname, Hn.
  simpl negb. cbv iota.
  destruct (CreateTaskState_create_Ok task w o p info i q Hr Ho Hp Hn Hlib Hid Hi Hq Hf)
    as (w' & a & st & Hc & Ha & Hne & Hst & Hsid & Hsn & Hr' & Hqm & Hsame).
  rewrite Hc. cbn [mbind outcome_bind]. exists w', a, st. do 8 (split; [done|]).
  rewrite Hqm. pose proof Hi as [Hu Hlt]%GetQueue_Ok.
  split; [by apply map_ok_insert|]. split; [by apply list_lookup_insert_eq|].
  intros. by apply list_lookup_insert_ne.
Qed.

(** C25: creating a state that exists is idempotent: when the name, or else the id, of the task
    has a state, the task gets the id of that state and is complete; nothing else of the
    node changes. *)
Theorem Admin_CreateTaskState_existing `{BitfieldLaws} `{Logger} `{MpscOps} `{AllocOps}
    `{RawMemory} `{CerealOps} `{CharbufOps} `{HvecOps} `{Dlfcn} `{ConstructOps}
    (task : Z) (w : Node) o p a st :
  get_task task w = Ok o → body o = BCreateTaskState p →
  GetTaskStateByName (CreateTaskState.state_name_ p) (CreateTaskState.id_ p) w = a → a ≠ 0 →
  get_state a w = Ok st →
  ∃ o', Admin.CreateTaskState None task w = Ok (None, put_task task o' w) ∧
    Task.IsModuleComplete (base o') = true ∧
    AdminClient.created_id o' = Ok (TaskLib.id_ st).
Proof.
  intros Ho Hp Hname Ha Hst. unfold Admin.CreateTaskState.
  rewrite (get_create _ _ _ _ Ho Hp). cbn [mbind outcome_bind snd].
  rewrite Hname, (proj2 (Z.eqb_neq _ _) Ha). simpl negb. cbv iota. rewrite Hst.
  cbn [mbind outcome_bind]. rewrite (set_create_id_Ok _ _ _ _ _ Ho Hp). cbn [mbind outcome_bind].
  unfold upd_task. rewrite get_put_task_eq. cbn [mbind outcome_bind]. rewrite put_put_task.
  eexists. split; [done|]. split; [simpl; by autorewrite with hrun|done].
Qed.

(** C24: without an id the handler asks node 1 for the one of the name: it submits to the admin
    queue a new task for the name, one level below in the task graph, addressed to node 1,
    and yields; it has created nothing yet. *)
Theorem Admin_CreateTaskState_asks `{BitfieldLaws} `{Logger} `{MpscOps} `{AllocOps}
    `{RawMemory} `{CerealOps} `{CharbufOps} `{HvecOps} `{Dlfcn} `{ConstructOps}
    (task : Z) (w : Node) o p shm ptr i ret wq :
  get_task task w = Ok o → body o = BCreateTaskState p →
  UniqueId.IsNull (CreateTaskState.id_ p) = true →
  GetTaskStateByName (CreateTaskState.state_name_ p) (CreateTaskState.id_ p) w = 0 →
  allocate (Node.heap w) = Some (shm, ptr) →
  Client.GetQueue (UniqueId.make 1 0) w = Ok i →
  Client.Emplace i TaskPrio.kAdmin 0 shm w = Ok (ret, wq) →
  ∃ og g, Admin.CreateTaskState None task w = Ok (Some [ptr; shm], put_task ptr og wq) ∧
    body og = BGetOrCreateTaskStateId g ∧
    GetOrCreateTaskStateId.state_name_ g = CreateTaskState.state_name_ p ∧
    Task.domain_id_ (base og) = DomainId.GetNode 1 ∧
    Task.method_ (base og) = AdminMethod.kGetOrCreateTaskStateId ∧
    Task.task_node_ (base og) = TaskNode.add (Task.task_node_ (base o)) 1 ∧
    Node.states wq = Node.states w ∧ Node.task_registry_ wq = Node.task_registry_ w ∧
    Node.heap wq = Node.heap w.
Proof.
  intros Ho Hp Hn Hname Ha Hq He. unfold Admin.CreateTaskState.
  rewrite (get_create _ _ _ _ Ho Hp). cbn [mbind outcome_bind snd fst]. rewrite Hname, Hn.
  simpl negb. cbv iota. unfold AdminClient.AsyncGetOrCreateTaskStateId, AdminClient.Async.
  erewrite Async_Ok; [|exact Ha|exact Hq|exact He]. cbn [mbind outcome_bind].
  unfold Admin.CreateTaskState_wait. cbn [ptr_]. rewrite get_put_task_eq. cbn [mbind outcome_bind].
  set (og := of_type _ _). assert (Task.IsComplete (base og) = false) as ->
    by (apply init_task_IsComplete; apply Z.bits_0).
  pose proof (Emplace_result _ _ _ _ _ _ _ He) as Hwq.
  eexists og, _. split; [done|]. split; [done|]. do 4 (split; [done|]).
  by rewrite Hwq.
Qed.

(** C23: the yield of the handler. While the task for the id is not complete, resuming the
    handler changes nothing and it yields again; once it is, the task for the state gets
    the id, the task for the id is freed, and the handler goes on to create the state in
    exactly the node that results, and returns. *)
Theorem Admin_CreateTaskState_resumes `{BitfieldLaws} `{Logger} `{MpscOps} `{AllocOps}
    `{RawMemory} `{CerealOps} `{CharbufOps} `{HvecOps} `{Dlfcn} `{ConstructOps}
    (task : Z) (w : Node) o p ptr shm og g :
  get_task task w = Ok o → body o = BCreateTaskState p → ptr ≠ task →
  get_task ptr w = Ok og → body og = BGetOrCreateTaskStateId g →
  Task.delcnt_ (base og) = 0 →
  let id := GetOrCreateTaskStateId.id_ g in
  let o' := set_body (BCreateTaskState (CreateTaskState.mk (CreateTaskState.lib_name_ p)
              (CreateTaskState.state_name_ p) (CreateTaskState.queue_info_ p) id)) o in
  Admin.CreateTaskState (Some [ptr; shm]) task w =
    if Task.IsComplete (base og) then
      w' ← Admin.CreateTaskState_create task
             (Node.set_heap (delete ptr (<[task := o']> (Node.heap w))) w);
      Ok (None, w')
    else Ok (Some [ptr; shm], w).
Proof.
  intros Ho Hp Hne Hog Hg Hd id o'. unfold Admin.CreateTaskState, Admin.CreateTaskState_wait.
  cbn [ptr_ shm_]. rewrite Hog. cbn [mbind outcome_bind].
  destruct (Task.IsComplete (base og)); [|done]. simpl negb. cbv iota.
  unfold as_type. rewrite Hg. cbn [tc_get c_GetOrCreateTaskStateId plain_class deref mbind outcome_bind snd].
  rewrite (set_create_id_Ok _ _ _ _ _ Ho Hp). cbn [mbind outcome_bind]. fold id o'.
  unfold Client.DelTask. rewrite get_put_task_ne by done. rewrite Hog. cbn [mbind outcome_bind].
  simpl Task.delcnt_. rewrite Hd. cbn [mbind outcome_bind]. simpl.
  unfold put_task. simpl. by rewrite delete_insert_eq.
Qed.

(** C18: the ids of task states run out of queues. The ids of tasks and of task states are
    drawn from one counter, and the slot of the queue of a state is its id's: after [n]
    requests of clients, the id a new name is given is the counter's, [n] further, and once
    that is not below the number of slots, creating the state indexes the queue map out of
    bounds, although nothing was ever created in most slots. *)
Theorem ids_outgrow_queues `{BitfieldLaws} `{Logger} `{RawMemory} `{CerealOps} `{CharbufOps}
    `{HvecOps} `{Dlfcn} `{ConstructOps}
    n name (w : Node) id w' task o p :
  let w1 := Nat.iter n (λ w, (Client.MakeTaskNodeId w).2) w in
  0 ≤ Node.unique_ w → Node.unique_ w + Z.of_nat n < 2 ^ 64 →
  TaskRegistry.task_state_ids_ (Node.task_registry_ w) !! name = None →
  TaskRegistry.node_id_ (Node.task_registry_ w) ≠ 0 →
  GetOrCreateTaskStateId name w1 = (id, w') →
  get_task task w' = Ok o → body o = BCreateTaskState p → CreateTaskState.id_ p = id →
  TaskStateExists id w' = false →
  Z.of_nat (length (Node.queue_map_ w)) ≤ Node.unique_ w + Z.of_nat n →
  UniqueId.unique_ id = Node.unique_ w + Z.of_nat n ∧
  Admin.CreateTaskState_create task w' = Undefined.
Proof.
  intros w1 H0u Hu Hname Hnode Hid Ho Hp Hpid Hex Hlen.
  assert (w1 = Node.set_unique (Node.unique_ w + Z.of_nat n) w) as E.
  { unfold w1. clear -H0u Hu. induction n as [|n IH]; [destruct w; simpl; by rewrite Z.add_0_r|].
    rewrite Nat.iter_succ, IH by lia. unfold Client.MakeTaskNodeId, Client.fetch_add_unique. simpl.
    rewrite wrap64_small by (unfold is_u64; simpl; lia). unfold Node.set_unique. simpl. f_equal. lia. }
  rewrite E in Hid. unfold GetOrCreateTaskStateId in Hid. simpl in Hid. rewrite Hname in Hid.
  injection Hid as <- <-. split; [done|].
  unfold Admin.CreateTaskState_create. rewrite (get_create _ _ _ _ Ho Hp).
  cbn [mbind outcome_bind snd]. rewrite Hpid, Hex.
  assert (UniqueId.IsNull (UniqueId.make (TaskRegistry.node_id_ (Node.task_registry_ w))
    (Node.unique_ w + Z.of_nat n)) = false) as ->.
  { unfold UniqueId.IsNull. simpl. by apply Z.eqb_neq. }
  unfold QueueManagerRuntime.CreateQueue, QueueManager.GetQueue. simpl.
  rewrite (proj2 (Z.ltb_ge _ _)) by lia. by rewrite andb_false_r.
Qed.

(** C32: there is one scheduling task at a time. While the current one is not complete, setting
    the policy only tells it to stop, leaves the request unfinished and records nothing;
    when there is none, or it is complete, a new task of the policy is submitted to the
    library's queue, recorded in place of the former, and the request is complete. *)
Theorem Admin_SetWorkOrchQueuePolicy `{BitfieldLaws} `{Logger} `{MpscOps} `{AllocLaws}
    `{RawMemory} `{CerealOps} `{CharbufOps} `{HvecOps} `{Dlfcn} `{ConstructOps}
    (exec task : Z) (w : Node) st cur proc o p oc i ret wq shm ptr :
  get_state exec w = Ok st → TaskLib.server st = AdminServer cur proc →
  get_task task w = Ok o → body o = BSetWorkOrchestratorPolicy p → task ≠ cur →
  (cur ≠ 0 → get_task cur w = Ok oc) →
  let w0 := if cur =? 0 then w else put_task cur (on_base Task.SetModuleComplete oc) w in
  allocate (Node.heap w0) = Some (shm, ptr) →
  Client.GetQueue (TaskLib.queue_id_ st) w = Ok i → Client.Emplace i 0 0 shm w = Ok (ret, wq) →
  if (cur =? 0) || Task.IsComplete (base oc) then
    ∃ w' o' os, Admin.SetWorkOrchQueuePolicy exec task w = Ok w' ∧
      get_state exec w' = Ok (TaskLib.set_server (AdminServer ptr proc) st) ∧
      get_task ptr w' = Ok os ∧ body os = BSchedule (Schedule.mk [raw_int]) ∧
      Task.task_state_ (base os) = SetWorkOrchestratorPolicy.policy_id_ p ∧
      get_task task w' = Ok o' ∧ Task.IsModuleComplete (base o') = true ∧
      Node.queue_map_ w' = Node.queue_map_ wq
  else
    Admin.SetWorkOrchQueuePolicy exec task w = Ok w0 ∧ get_task task w0 = Ok o ∧
    get_state exec w0 = Ok st ∧
    get_task cur w0 = Ok (on_base Task.SetModuleComplete oc).
Proof.
  intros Hst Hs Ho Hp Hne Hcur w0 Ha Hq He.
  pose proof (queue_policy_cases exec task w st cur proc oc Hst Hs Hcur) as E. simpl in E. fold w0 in E.
  assert (get_task task w0 = Ok o) as Ho0.
  { unfold w0. destruct (Z.eqb_spec cur 0); [done|by rewrite get_put_task_ne]. }
  destruct ((cur =? 0) || Task.IsComplete (base oc)) eqn:Hc; rewrite E.
  - apply (new_sched_Ok (λ x, AdminServer x proc) exec task st w w0 o p i ret wq shm ptr
      Ho0 Hp); [|exact Ha|exact Hq|exact He].
    unfold w0. clear. by destruct (cur =? 0).
  - apply orb_false_iff in Hc as [Hz _]. split; [done|]. split; [exact Ho0|]. unfold w0. rewrite Hz.
    split; [exact Hst|]. apply get_put_task_eq.
Qed.

(** ** Witnesses, on the node of [Registry] with sixteen free queues *)
Section witness.
Import RefInstances.
#[local] Existing Instance ref_raw.
#[local] Existing Instance ref_dlfcn.
#[local] Existing Instance ref_construct.
#[local] Existing Instance ref_construct_laws.

Definition wit_admin_map : list MultiQueue := replicate 16 free_queue.
Definition wit_admin : Node := Node.set_queue_map wit_admin_map wit_loaded.

Lemma wit_admin_map_ok : map_ok wit_admin_map.
Proof. intros i q [-> _]%lookup_replicate Hn. by vm_compute in Hn. Qed.

Lemma Admin_CreateTaskState_witness :
  ∃ w' st, Admin.CreateTaskState None 3 wit_admin = Ok (None, w') ∧
    Node.states w' !! GetTaskState wit_id w' = Some st ∧ TaskLib.id_ st = wit_id ∧
    registry_ok w' ∧ map_ok (Node.queue_map_ w').
Proof.
  destruct (Admin_CreateTaskState 3 wit_admin wit_create (CreateTaskState.mk "x" "state" [] wit_id)
    (mkTaskLibInfo 5 6 7) 8 free_queue wit_registry_ok wit_admin_map_ok)
    as (w' & a & st & Hc & Ha & _ & Hs & Hid & _ & _ & Hr & Hm & _);
    [constructor|reflexivity|reflexivity|reflexivity|reflexivity|reflexivity|reflexivity
    |reflexivity|reflexivity|reflexivity|].
  cbn [CreateTaskState.id_] in Ha. exists w', st. split; [exact Hc|]. rewrite Ha. split; [exact Hs|].
  split; [exact Hid|]. split; [exact Hr|exact Hm].
Defined.

(** The task asks for the state there is, by its name. *)
Definition wit_create_old (id : TaskStateId) : TaskObj :=
  mkTaskObj ref_task (BCreateTaskState (CreateTaskState.mk "x" "old" [] id)).

Lemma Admin_CreateTaskState_existing_witness :
  ∃ o', Admin.CreateTaskState None 3 (put_task 3 (wit_create_old wit_id) wit_admin) =
      Ok (None, put_task 3 o' (put_task 3 (wit_create_old wit_id) wit_admin)) ∧
    AdminClient.created_id o' = Ok (UniqueId.make 1 7).
Proof.
  destruct (Admin_CreateTaskState_existing 3 (put_task 3 (wit_create_old wit_id) wit_admin)
    (wit_create_old wit_id) (CreateTaskState.mk "x" "old" [] wit_id) 9 wit_state)
    as (o' & Hc & _ & Hid); [reflexivity|reflexivity|reflexivity|discriminate|reflexivity|].
  exists o'. split; [exact Hc|exact Hid].
Defined.

(** The admin queue in slot 0, and a task for a name without an id *)
Definition wit_ask : TaskObj :=
  mkTaskObj ref_task (BCreateTaskState (CreateTaskState.mk "x" "new" [] UniqueId.GetNull)).
Definition wit_asking : Node :=
  put_task 3 wit_ask (Node.set_queue_map
    (MultiQueue.make (UniqueId.make 1 0) [PriorityInfo.make 1 1 4 0] :: wit_admin_map) wit_loaded).

Lemma Admin_CreateTaskState_asks_witness :
  ∃ og g wq, Admin.CreateTaskState None 3 wit_asking = Ok (Some [4; 4], put_task 4 og wq) ∧
    body og = BGetOrCreateTaskStateId g ∧ GetOrCreateTaskStateId.state_name_ g = "new".
Proof.
  assert (∃ ret wq, Client.Emplace 0 TaskPrio.kAdmin 0 4 wit_asking = Ok (ret, wq)) as (ret & wq & He)
    by (eexists _, _; vm_compute; reflexivity).
  destruct (Admin_CreateTaskState_asks 3 wit_asking wit_ask
    (CreateTaskState.mk "x" "new" [] UniqueId.GetNull) 4 4 0 ret wq) as (og & g & Hc & Hb & Hn & _);
    [reflexivity|reflexivity|reflexivity|reflexivity|reflexivity|reflexivity|exact He|].
  exists og, g, wq. split; [exact Hc|]. split; [exact Hb|exact Hn].
Defined.

(** The task for the id, complete, at 4 *)
Definition wit_answer : TaskObj :=
  mkTaskObj (Task.set_task_flags TASK_COMPLETE ref_task)
    (BGetOrCreateTaskStateId (GetOrCreateTaskStateId.mk "new" (UniqueId.make 1 9))).
Definition wit_answered : Node := put_task 4 wit_answer wit_asking.

Lemma Admin_CreateTaskState_resumes_witness :
  ∃ w0, Admin.CreateTaskState (Some [4; 4]) 3 wit_answered =
      (w' ← Admin.CreateTaskState_create 3 w0; Ok (None, w')) ∧ Node.heap w0 !! 4 = None.
Proof.
  pose proof (Admin_CreateTaskState_resumes 3 wit_answered wit_ask
    (CreateTaskState.mk "x" "new" [] UniqueId.GetNull) 4 4 wit_answer
    (GetOrCreateTaskStateId.mk "new" (UniqueId.make 1 9))
    eq_refl eq_refl ltac:(discriminate) eq_refl eq_refl eq_refl) as Hw.
  eexists. split; [exact Hw|]. apply lookup_delete_eq.
Defined.

(** The admin state at 1, without a scheduling task, and a request for a policy at 3 *)
Definition wit_policy : SetWorkOrchestratorPolicy.SetWorkOrchestratorPolicyTask :=
  SetWorkOrchestratorPolicy.mk (UniqueId.make 1 2).
Definition wit_admin_state : TaskState :=
  TaskLib.mkTaskLib (UniqueId.make 1 0) (UniqueId.make 1 0) "hermes_run_admin" (AdminServer 0 0).
Definition wit_policies : Node :=
  put_state 1 wit_admin_state
    (put_task 3 (mkTaskObj ref_task (BSetWorkOrchestratorPolicy wit_policy)) wit_asking).

(** After 16 requests the counter is past the 16 slots. *)
Definition wit_outgrown : TaskStateId * Node :=
  GetOrCreateTaskStateId "new" (Nat.iter 16 (λ w, (Client.MakeTaskNodeId w).2) wit_admin).

Lemma ids_outgrow_queues_witness :
  Admin.CreateTaskState_create 3 (put_task 3 (wit_create_old wit_outgrown.1) wit_outgrown.2) = Undefined.
Proof.
  set (w0 := put_task 3 (wit_create_old wit_outgrown.1) wit_admin).
  apply (ids_outgrow_queues 16 "new" w0 wit_outgrown.1
    (put_task 3 (wit_create_old wit_outgrown.1) wit_outgrown.2) 3
    (wit_create_old wit_outgrown.1) (CreateTaskState.mk "x" "old" [] wit_outgrown.1)); by vm_compute.
Defined.

Lemma Admin_SetWorkOrchQueuePolicy_witness :
  ∃ w' os, Admin.SetWorkOrchQueuePolicy 1 3 wit_policies = Ok w' ∧
    get_state 1 w' = Ok (TaskLib.set_server (AdminServer 4 0) wit_admin_state) ∧
    get_task 4 w' = Ok os ∧ Task.task_state_ (base os) = UniqueId.make 1 2.
Proof.
  assert (∃ ret wq, Client.Emplace 0 0 0 4 wit_policies = Ok (ret, wq)) as (ret & wq & He)
    by (eexists _, _; vm_compute; reflexivity).
  pose proof (Admin_SetWorkOrchQueuePolicy 1 3 wit_policies wit_admin_state 0 0
    (mkTaskObj ref_task (BSetWorkOrchestratorPolicy wit_policy)) wit_policy wit_ask 0 ret wq 4 4
    eq_refl eq_refl eq_refl eq_refl ltac:(discriminate) ltac:(done) eq_refl eq_refl He) as Hw.
  destruct Hw as (w' & o' & os & Hs & Hst & Ho & _ & Hp & _).
  exists w', os. split; [exact Hs|]. split; [exact Hst|]. split; [exact Ho|exact Hp].
Defined.

End witness.
