(* ===== verification/RemoteQueue.v ===== *)
(** * The remote queue ([tasks_required/remote_queue])

    A task for other nodes is serialized and handed to a push task, which sends it to each
    node in turn and loads each answer into the original task. On the receiving node the
    task is rebuilt, run by the workers of its state's queue, and its outputs returned. *)

From S2P Require Import Prelude Hshm RefLib Types Queue LocalSerialize Config QueueManager.
From S2P Require Import Archive Task TaskTypes World LibExec Registry Rpc Thallium.

(** The virtual functions of the state at an address *)
Definition exec_table `{BitfieldOps} `{Logger} `{CerealOps} `{CharbufOps} `{HvecOps} `{RawMemory}
    (exec : Z) (w : Node) : outcome method_table :=
  s ← get_state exec w; Ok (methods_of (TaskLib.server s)).

(** [remote_queue::Client] ([remote_queue.h]) *)
Module RemoteQueueClient.
Section client.
Context `{BitfieldOps} `{Logger} `{CerealOps} `{CharbufOps} `{HvecOps} `{RawMemory} `{MpscOps}
        `{AllocOps}.

(** The queue [AsyncCreate] asks for *)
Definition queue_info (qm : QueueManagerInfo) : list PriorityInfo :=
  [PriorityInfo.make 1 1 (QueueManagerInfo.queue_depth_ qm) 0;
   PriorityInfo.make 1 1 (QueueManagerInfo.queue_depth_ qm) QUEUE_LONG_RUNNING;
   PriorityInfo.make 1 1 (QueueManagerInfo.queue_depth_ qm) QUEUE_LOW_LATENCY].

(** [Disperse(orig_task, exec, domain_ids)]; the members [id_] and [queue_id_] of the client
    are [Node.remote_queue_]. *)
Definition Disperse (orig_task exec : Z) (domain_ids : list DomainId) (w : Node) : outcome Node :=
  let '(id, queue_id) := Node.remote_queue_ w in
  o ← get_task orig_task w;
  table ← exec_table exec w;
  let method := Task.method_ (base o) in
  let ar := BinaryOutputArchive_new (DomainId.GetNode (Node.node_id_ w)) in
  xfer ← SaveStart table method ar orig_task w;
  w ← ReplicateStart table method (wrap32 (Z.of_nat (length domain_ids))) orig_task w;
  o ← get_task orig_task w;
  let '(t, p) := RemotePush.make raw_task (TaskNode.add (Task.task_node_ (base o)) 1)
                   DomainId.GetLocal id domain_ids orig_task exec (Task.method_ (base o)) xfer in
  '(push_task, w) ← Client.NewTask (mkTaskObj t (BRemotePush p)) w;
  queue ← Client.GetQueue queue_id w;
  '(_, w) ← Client.Emplace queue (Task.prio_ (base o)) (Task.lane_hash_ (base o))
              (shm_ push_task) w;
  Ok w.

End client.
End RemoteQueueClient.

(** [remote_queue::Server] ([remote_queue.cc]) *)
Module RemoteQueue.
Section server.
Context `{BitfieldOps} `{Logger} `{CerealOps} `{CharbufOps} `{HvecOps} `{RawMemory} `{MpscOps}
        `{AllocOps} `{NetOps} `{ThalliumOps} `{TlEngineOps}.

Definition Construct (this task : Z) (w : Node) : outcome Node :=
  let w := RegisterRpc "RpcPushSmall" (RpcPushSmall_of this) w in
  let w := RegisterRpc "RpcPushBulk" (RpcPushBulk_of this) w in
  upd_task task Task.SetModuleComplete w.
Definition Destruct (task : Z) (w : Node) : outcome Node := upd_task task Task.SetModuleComplete w.

(** [std::vector<DataTransfer> xfer(1)] with the bytes of a string *)
Definition xfer_of (bs : list Z) : DataTransfer :=
  let x := DataTransfer.make 0 [] 0 DomainId.new in
  DataTransfer.mkDataTransfer (DataTransfer.flags_ x) bs (Z.of_nat (length bs))
    (DataTransfer.node_id_ x).

Definition get_push (task : Z) (w : Node) : outcome (Task * RemotePush.PushTask) :=
  o ← get_task task w; as_type c_RemotePush o.

(** *** The client side *)

Definition ClientHandlePushReplicaOutput (replica : Z) (ret : list Z) (task : Z) (w : Node)
    : outcome Node :=
  s ← get_push task w;
  ar ← BinaryInputArchive_new [xfer_of ret];
  table ← exec_table (RemotePush.exec_ s.2) w;
  LoadEnd table replica (RemotePush.exec_method_ s.2) ar (RemotePush.orig_task_ s.2) w.

Definition ClientHandlePushReplicaEnd (task : Z) (w : Node) : outcome Node :=
  s ← get_push task w;
  let orig_task := RemotePush.orig_task_ s.2 in
  o ← get_task orig_task w;
  table ← exec_table (RemotePush.exec_ s.2) w;
  w ← ReplicateEnd table (Task.method_ (base o)) orig_task w;
  w ← upd_task orig_task Task.SetModuleComplete w;
  upd_task task Task.SetModuleComplete w.

Variable (rpc : RpcContext).

(** The loop of [ClientSmallPush] from replica number [replica] on *)
Fixpoint small_replicas (task replica : Z) (domain_ids : list DomainId) (w : Node)
    : outcome Node :=
  match domain_ids with
  | [] => Ok w
  | domain_id :: domain_ids =>
      s ← get_push task w;
      exec ← get_state (RemotePush.exec_ s.2) w;
      '(ret, w) ← ThalliumRpc.SyncCall rpc (DomainId.id_ domain_id) "RpcPushSmall"
                    (TaskLib.id_ exec) (RemotePush.exec_method_ s.2) (RemotePush.params_ s.2) w;
      w ← ClientHandlePushReplicaOutput replica ret task w;
      small_replicas task (replica + 1) domain_ids w
  end.

Definition ClientSmallPush (xfer : list DataTransfer) (task : Z) (w : Node) : outcome Node :=
  x ← deref (xfer !! 0%nat);
  params ← read_memory (DataTransfer.data_ x) (DataTransfer.data_size_ x);
  w ← upd_payload c_RemotePush (RemotePush.set_params params) task w;
  s ← get_push task w;
  small_replicas task 0 (RemotePush.domain_ids_ s.2) w.

(** The loop of [ClientIoPush]: [data] is the memory of the transfer, which the call may
    write. *)
Fixpoint io_replicas (task replica : Z) (io_type : IoType) (data : list Z)
    (domain_ids : list DomainId) (w : Node) : outcome Node :=
  match domain_ids with
  | [] => Ok w
  | domain_id :: domain_ids =>
      s ← get_push task w;
      exec ← get_state (RemotePush.exec_ s.2) w;
      '(ret, data, w) ← ThalliumRpc.SyncIoCall rpc (DomainId.id_ domain_id) "RpcPushBulk" io_type
                    data (TaskLib.id_ exec) (RemotePush.exec_method_ s.2)
                    (RemotePush.params_ s.2) w;
      w ← ClientHandlePushReplicaOutput replica ret task w;
      io_replicas task (replica + 1) io_type data domain_ids w
  end.

Definition ClientIoPush (xfer : list DataTransfer) (task : Z) (w : Node) : outcome Node :=
  x0 ← deref (xfer !! 0%nat);
  x1 ← deref (xfer !! 1%nat);
  params ← read_memory (DataTransfer.data_ x1) (DataTransfer.data_size_ x1);
  w ← upd_payload c_RemotePush (RemotePush.set_params params) task w;
  let io_type := if Any (DataTransfer.flags_ x0) DT_RECEIVER_READ then kWrite else kRead in
  s ← get_push task w;
  data ← read_memory (DataTransfer.data_ x0) (DataTransfer.data_size_ x0);
  io_replicas task 0 io_type data (RemotePush.domain_ids_ s.2) w.

Definition Push (task : Z) (w : Node) : outcome Node :=
  s ← get_push task w;
  let xfer := RemotePush.xfer_ s.2 in
  w ← match length xfer with
      | 1%nat => ClientSmallPush xfer task w
      | 2%nat => ClientIoPush xfer task w
      | _ => HELOG_kFatal (Ok w)
      end;
  ClientHandlePushReplicaEnd task w.

(** *** The server side *)

(** The flags [RpcExec] clears *)
Definition clear_flags (t : Task) : Task :=
  Task.UnsetLongRunning (Task.UnsetDataOwner (Task.UnsetMarked (Task.UnsetStarted
    (Task.UnsetFireAndForget t)))).

(** [RpcExec] up to its [Wait]: the task and its state; [None] when the state is not found
    and the call responds with the empty string. For an unknown method the task pointer
    is not initialised. *)
Definition RpcExec (state_id : TaskStateId) (method : Z) (xfer : list DataTransfer) (w : Node)
    : outcome (option (Z * Z) * Node) :=
  ar ← BinaryInputArchive_new xfer;
  let exec := GetTaskState state_id w in
  if exec =? 0 then HELOG_kFatal (Ok (None, w))
  else
    table ← exec_table exec w;
    '(task_ptr, w) ← LoadStart table method ar w;
    p ← deref task_ptr;
    let orig_task := ptr_ p in
    w ← upd_task orig_task (Task.set_domain_id (DomainId.GetNode (Node.node_id_ w))) w;
    queue ← Client.GetQueue (UniqueId.convert state_id) w;
    w ← upd_task orig_task clear_flags w;
    o ← get_task orig_task w;
    '(_, w) ← Client.Emplace queue (Task.prio_ (base o)) (Task.lane_hash_ (base o)) (shm_ p) w;
    Ok (Some (orig_task, exec), w).

(** [RpcComplete]: the response, and the node without the task *)
Definition RpcComplete (method orig_task exec : Z) (w : Node) : outcome (list Z * Node) :=
  let ar := BinaryOutputArchive_new (DomainId.GetNode (Node.node_id_ w)) in
  table ← exec_table exec w;
  out_xfer ← SaveEnd table method ar orig_task w;
  o ← get_task orig_task w;
  w ← Del table (Task.method_ (base o)) orig_task w;
  match out_xfer with
  | x :: _ =>
      if 0 <? DataTransfer.data_size_ x then
        bs ← read_memory (DataTransfer.data_ x) (DataTransfer.data_size_ x); Ok (bs, w)
      else Ok ([], w)
  | [] => Ok ([], w)
  end.

(** The RPCs up to the [Wait] of [RpcExec] and past it. Without a state the second half calls
    through pointers [RpcExec] left null and uninitialised. *)
Definition RpcPushSmall (state_id : TaskStateId) (method : Z) (params : list Z) (w : Node)
    : outcome ((Z * Z) * Node) :=
  '(r, w) ← RpcExec state_id method [xfer_of params] w;
  p ← deref r; Ok (p, w).

(** [RpcPushBulk] also yields the buffer. For a write the client's buffer, exposed as [bulk],
    is read first; its size is taken before. *)
Definition RpcPushBulk (state_id : TaskStateId) (method : Z) (params : list Z) (bulk data_size : Z)
    (io_type : IoType) (w : Node) : outcome ((Z * Z) * list Z * Node) :=
  let data := buf_resize [] (Z.to_nat data_size) in
  let size := Z.of_nat (length data) in
  data ← match io_type with
         | kWrite => '(_, data) ← IoCallServer bulk io_type data data_size; Ok data
         | _ => Ok data
         end;
  let x0 := DataTransfer.mkDataTransfer bitfield_new data size DomainId.new in
  '(r, w) ← RpcExec state_id method [x0; xfer_of params] w;
  p ← deref r; Ok (p, data, w).

(** The rest of both, when the task is complete *)
Definition RpcPush_finish (method : Z) (p : Z * Z) (w : Node) : outcome (list Z * Node) :=
  o ← get_task p.1 w;
  _ ← Task.Wait (base o);
  RpcComplete method p.1 p.2 w.

(** The rest of [RpcPushBulk]: for a read the buffer [data], which no task type of the
    repository points to, is written to the client's; the result tells what was written. *)
Definition RpcPushBulk_finish (method bulk data_size : Z) (io_type : IoType) (p : Z * Z)
    (data : list Z) (w : Node) : outcome (list Z * option (list Z) * Node) :=
  o ← get_task p.1 w;
  _ ← Task.Wait (base o);
  written ← match io_type with
            | kRead => '(_, data) ← IoCallServer bulk io_type data data_size; Ok (Some data)
            | _ => Ok None
            end;
  '(bs, w) ← RpcComplete method p.1 p.2 w;
  Ok (bs, written, w).

(** [Run] ([remote_queue_lib_exec.h]) *)
Definition Run (this method task : Z) (w : Node) : outcome Node :=
  if method =? TaskMethod.kConstruct then Construct this task w
  else if method =? TaskMethod.kDestruct then Destruct task w
  else if method =? RemoteQueueMethod.kPush then Push task w
  else Ok w.

End server.
End RemoteQueue.

(** ** Lemmas *)

Section lemmas.
Context `{BitfieldLaws} `{Logger} `{CerealLaws} `{CharbufOps} `{HvecLaws} `{RawMemory} `{MpscOps}
        `{AllocLaws} `{NetOps} `{ThalliumOps}.

(** A node on which the remote queue was constructed: both procedures can be called. *)
Definition remote_queue_registered (w : Node) : Prop :=
  (∃ this, rpc_of "RpcPushSmall" w = Some (RpcPushSmall_of this)) ∧
  (∃ this, rpc_of "RpcPushBulk" w = Some (RpcPushBulk_of this)).

(** The first construction registers them; one more, of another state, leaves them be. *)
Lemma Construct_registers this task w w' :
  rpc_of "RpcPushSmall" w = None ∧ rpc_of "RpcPushBulk" w = None ∨ remote_queue_registered w →
  RemoteQueue.Construct this task w = Ok w' → remote_queue_registered w'.
Proof.
  unfold RemoteQueue.Construct, upd_task. set (w1 := RegisterRpc "RpcPushSmall" _ w).
  set (w2 := RegisterRpc "RpcPushBulk" _ w1). intros Hw E. invert_ok.
  change (remote_queue_registered w2). destruct Hw as [[N1 N2]|[[t1 E1] [t2 E2]]].
  - split; exists this.
    + apply rpc_of_kept, rpc_of_new, N1.
    + apply rpc_of_new. unfold w1. by rewrite rpc_of_other.
  - split; [exists t1|exists t2]; by do 2 apply rpc_of_kept.
Qed.

(** The flags of a task as the receiving node runs it *)
Lemma clear_flags_spec (t : Task) :
  Task.IsFireAndForget (RemoteQueue.clear_flags t) = false ∧
  Task.IsStarted (RemoteQueue.clear_flags t) = false ∧
  Task.IsMarked (RemoteQueue.clear_flags t) = false ∧
  Task.IsDataOwner (RemoteQueue.clear_flags t) = false ∧
  Task.IsLongRunning (RemoteQueue.clear_flags t) = false ∧
  Task.IsCoroutine (RemoteQueue.clear_flags t) = Task.IsCoroutine t ∧
  Task.IsPreemptive (RemoteQueue.clear_flags t) = Task.IsPreemptive t ∧
  Task.IsComplete (RemoteQueue.clear_flags t) = Task.IsComplete t.
Proof. unfold RemoteQueue.clear_flags. split_and!; flags_task; rewrite ?andb_true_r, ?andb_false_r, ?andb_true_r; done. Qed.

Lemma exec_table_Ok exec w st :
  get_state exec w = Ok st → exec_table exec w = Ok (methods_of (TaskLib.server st)).
Proof. intros Hst. unfold exec_table. by rewrite Hst. Qed.

Lemma convert_state_id (id : TaskStateId) : UniqueId.convert id = id.
Proof. by destruct id. Qed.

Lemma get_remote_push a w o p :
  get_task a w = Ok o → body o = BRemotePush p → RemoteQueue.get_push a w = Ok (base o, p).
Proof. intros Ho Hp. unfold RemoteQueue.get_push, as_type. rewrite Ho. simpl. by rewrite Hp. Qed.

Lemma upd_remote_push a f w o p :
  get_task a w = Ok o → body o = BRemotePush p →
  upd_payload c_RemotePush f a w = Ok (put_task a (mkTaskObj (base o) (BRemotePush (f p))) w).
Proof. intros Ho Hp. unfold upd_payload, as_type. rewrite Ho. simpl. by rewrite Hp. Qed.

(** [Emplace] in a node with the same queues *)
Lemma Emplace_same_queues q prio hash p w w1 ret wq :
  Client.Emplace q prio hash p w = Ok (ret, wq) → Node.queue_map_ w1 = Node.queue_map_ w →
  Client.Emplace q prio hash p w1 = Ok (ret, Node.set_queue_map (Node.queue_map_ wq) w1).
Proof.
  unfold Client.Emplace, get_queue. intros He Hq. rewrite Hq. invert_ok. destruct x0 as [r x'].
  invert_ok. rewrite Hx. cbn [deref mbind outcome_bind]. rewrite Hx0. cbn [mbind outcome_bind].
  unfold put_queue. simpl. by rewrite Hq.
Qed.

Lemma LoadStart_put d method ar w p w' :
  LoadStart (methods_of d) method ar w = Ok (Some p, w') →
  ∃ o, w' = put_task (ptr_ p) o w.
Proof.
  unfold LoadStart. destruct (methods_of d method) as [c|]; [|done]. intros. invert_ok.
  destruct x as [q w1]. invert_ok. destruct x as [s ar']. invert_ok.
  match goal with Hn : Client.NewTask _ _ = Ok _ |- _ => apply get_NewTask in Hn as [-> _] end.
  eexists. by rewrite put_put_task.
Qed.

(** [Disperse], with the node it leaves *)
Lemma Disperse_Ok orig exec ids w o st c s id qid i xfer :
  get_task orig w = Ok o → get_state exec w = Ok st →
  methods_of (TaskLib.server st) (Task.method_ (base o)) = Some c → as_type c o = Ok s →
  SaveStart (methods_of (TaskLib.server st)) (Task.method_ (base o))
    (BinaryOutputArchive_new (DomainId.GetNode (Node.node_id_ w))) orig w = Ok xfer →
  Z.of_nat (length ids) < 2 ^ 32 → Node.remote_queue_ w = (id, qid) →
  (∀ h : gmap Z TaskObj, is_Some (allocate h)) → Client.GetQueue qid w = Ok i →
  (∀ p, ∃ ret wq, Client.Emplace i (Task.prio_ (base o)) (Task.lane_hash_ (base o)) p w = Ok (ret, wq)) →
  ∃ og shm ptr op ret wq,
    RemoteQueueClient.Disperse orig exec ids w =
      Ok (Node.set_queue_map (Node.queue_map_ wq) (put_task ptr op (put_task orig og w))) ∧
    ReplicateStart (methods_of (TaskLib.server st)) (Task.method_ (base o))
      (Z.of_nat (length ids)) orig w = Ok (put_task orig og w) ∧
    base og = base o ∧ (∀ r, 0 ≤ r < Z.of_nat (length ids) → slot_ok r (body og)) ∧
    orig ≠ ptr ∧ Node.heap w !! ptr = None ∧ Convert shm = ptr ∧
    body op = BRemotePush (RemotePush.mk ids orig exec (Task.method_ (base o)) xfer []) ∧
    base op = (RemotePush.make raw_task (TaskNode.add (Task.task_node_ (base o)) 1)
      DomainId.GetLocal id ids orig exec (Task.method_ (base o)) xfer).1 ∧
    Client.Emplace i (Task.prio_ (base o)) (Task.lane_hash_ (base o)) shm w = Ok (ret, wq).
Proof.
  intros Ho Hst Hm Hs Hsave Hlen Hrq Hal Hq He. unfold RemoteQueueClient.Disperse. rewrite Hrq, Ho.
  cbn [mbind outcome_bind]. rewrite (exec_table_Ok _ _ _ Hst). cbn [mbind outcome_bind].
  rewrite Hsave. cbn [mbind outcome_bind]. rewrite wrap32_small by (unfold is_u32; lia).
  set (n := Z.of_nat (length ids)) in *.
  destruct (ReplicateStart_Ok _ _ _ _ _ _ n w Hm Ho Hs) as (og & Hr & Hb & Hslots). rewrite Hr.
  cbn [mbind outcome_bind]. rewrite get_put_task_eq. cbn [mbind outcome_bind].
  unfold RemotePush.make, Client.NewTask. set (w1 := put_task orig og w).
  destruct (Hal (Node.heap w1)) as [[shm ptr] Ha]. rewrite Ha. cbn [mbind outcome_bind shm_ ptr_].
  pose proof (allocate_fresh _ _ _ Ha) as (Hfree & _ & Hconv).
  destruct (He shm) as (ret & wq & Hem). set (op := mkTaskObj _ _). rewrite Hb.
  change (Client.GetQueue qid (put_task ptr op w1)) with (Client.GetQueue qid w). rewrite Hq.
  cbn [mbind outcome_bind].
  rewrite (Emplace_same_queues _ _ _ _ w (put_task ptr op w1) ret wq Hem eq_refl).
  cbn [mbind outcome_bind]. assert (orig ≠ ptr) as Hne.
  { intros ->. unfold w1 in Hfree. simpl in Hfree. by rewrite lookup_insert_eq in Hfree. }
  exists og, shm, ptr, op, ret, wq. split_and!; try done.
  - unfold w1 in Hfree. simpl in Hfree. by rewrite lookup_insert_ne in Hfree.
  - unfold op, init_task. simpl. by rewrite Hb.
  - unfold op, init_task. simpl. by rewrite Hb.
Qed.

(** [RpcExec], once the task is loaded *)
Lemma RpcExec_Ok state_id method xfer ar w st exec shm ptr o i ret wq :
  BinaryInputArchive_new xfer = Ok ar →
  GetTaskState state_id w = exec → exec ≠ 0 → get_state exec w = Ok st →
  LoadStart (methods_of (TaskLib.server st)) method ar w =
    Ok (Some (mkLPointer ptr shm), put_task ptr o w) →
  Client.GetQueue state_id w = Ok i →
  Client.Emplace i (Task.prio_ (base o)) (Task.lane_hash_ (base o)) shm w = Ok (ret, wq) →
  RemoteQueue.RpcExec state_id method xfer w =
    Ok (Some (ptr, exec), Node.set_queue_map (Node.queue_map_ wq)
      (put_task ptr (on_base RemoteQueue.clear_flags
        (on_base (Task.set_domain_id (DomainId.GetNode (Node.node_id_ w))) o)) w)).
Proof.
  intros Hin Hex Hne Hst Hload Hq He. unfold RemoteQueue.RpcExec. rewrite Hin.
  cbn [mbind outcome_bind]. rewrite Hex, (proj2 (Z.eqb_neq _ _) Hne), (exec_table_Ok _ _ _ Hst).
  cbn [mbind outcome_bind]. rewrite Hload. cbn [mbind outcome_bind deref ptr_ shm_].
  rewrite (upd_get_Ok _ _ _ _ (get_put_task_eq ptr o w)), put_put_task. cbn [mbind outcome_bind].
  change (Node.node_id_ (put_task ptr o w)) with (Node.node_id_ w).
  set (t2 := Task.set_domain_id _). rewrite convert_state_id.
  change (Client.GetQueue state_id (put_task ptr (on_base t2 o) w)) with (Client.GetQueue state_id w).
  rewrite Hq. cbn [mbind outcome_bind].
  rewrite (upd_get_Ok _ _ _ _ (get_put_task_eq ptr (on_base t2 o) w)), put_put_task.
  cbn [mbind outcome_bind]. rewrite get_put_task_eq. cbn [mbind outcome_bind].
  set (o2 := on_base RemoteQueue.clear_flags (on_base t2 o)).
  change (Task.prio_ (base o2)) with (Task.prio_ (base o)).
  change (Task.lane_hash_ (base o2)) with (Task.lane_hash_ (base o)).
  by rewrite (Emplace_same_queues _ _ _ _ w (put_task ptr o2 w) ret wq He eq_refl).
Qed.

(** The second half of the RPC for a task that is complete *)
Lemma RpcPush_finish_Ok method c a o st exec w x :
  get_state exec w = Ok st → methods_of (TaskLib.server st) method = Some c →
  SUPPORTS_SRL (tc_serial c) = true → get_task a w = Ok o → Task.method_ (base o) = method →
  Task.delcnt_ (base o) = 0 → Task.IsComplete (base o) = true →
  SaveEnd (methods_of (TaskLib.server st)) method
    (BinaryOutputArchive_new (DomainId.GetNode (Node.node_id_ w))) a w = Ok [x] →
  DataTransfer.data_size_ x = Z.of_nat (length (DataTransfer.data_ x)) →
  RemoteQueue.RpcPush_finish method (a, exec) w =
    Ok (DataTransfer.data_ x, Node.set_heap (delete a (Node.heap w)) w).
Proof.
  intros Hst Hm Hsup Ho Hme Hd Hc Hx Hsz. unfold RemoteQueue.RpcPush_finish, Task.Wait.
  cbn [fst snd]. rewrite Ho. cbn [mbind outcome_bind]. rewrite Hc. cbn [mbind outcome_bind].
  unfold RemoteQueue.RpcComplete.
  rewrite (exec_table_Ok _ _ _ Hst). cbn [mbind outcome_bind]. rewrite Hx.
  cbn [mbind outcome_bind]. rewrite Ho. cbn [mbind outcome_bind]. unfold Del. rewrite Hme, Hm.
  rewrite (methods_DelTask _ _ _ Hm Hsup). unfold Client.DelTask. rewrite Ho.
  cbn [mbind outcome_bind]. simpl Task.delcnt_. rewrite Hd. simpl.
  rewrite delete_insert_eq, Hsz. destruct (DataTransfer.data_ x) as [|b bs]; [by destruct w|].
  rewrite (proj2 (Z.ltb_lt _ _)) by (simpl; lia). rewrite read_memory_all. by destruct w.
Qed.

End lemmas.

(** The bytes of a result, in place of the string [SaveEnd] returns *)
Lemma result_slot b : result_ok b → slot_ok 0 b.
Proof. destruct b; simpl; try done; intros (x & -> & _); by eexists. Qed.

Section collect.
Context `{BitfieldLaws} `{Logger} `{CerealLaws} `{CharbufOps} `{HvecOps} `{RawMemory} `{MpscOps}
        `{AllocOps} `{NetOps} `{ThalliumOps}.

(** What the other threads of the node leave alone while a call of the push task at [task]
    waits: the task itself, the original, which is disabled, and the state. *)
Definition call_keeps (task orig exec : Z) (w w' : Node) : Prop :=
  get_task task w' = get_task task w ∧ get_task orig w' = get_task orig w ∧
  get_state exec w' = get_state exec w.

(** The answers of metadata messages, as the bytes the nodes respond with. A call may change
    the node, [I] stays. *)
Definition answers (I : Node → Prop) (rpc : RpcContext) (task orig exec : Z) (st : TaskState) (params : list Z)
    (ans : nat → Z) (k : nat) (ids : list DomainId) : Prop :=
  ∀ j id, ids !! j = Some id → is_i32 (ans (k + j)%nat) ∧ ∀ w, I w → ∃ w',
    ThalliumRpc.SyncCall rpc (DomainId.id_ id) "RpcPushSmall" (TaskLib.id_ st)
      SmallMessageMethod.kMd params w = Ok (enc cereal_int (ans (k + j)%nat), w') ∧
    call_keeps task orig exec w w' ∧ I w'.

(** What is said of the node does not depend on the two tasks. *)
Definition apart (I : Node → Prop) (task orig : Z) : Prop :=
  ∀ a o w, a = task ∨ a = orig → I w → I (put_task a o w).

Lemma Md_LoadEnd count replica a w o p x :
  get_task a w = Ok o → body o = BMd p → is_Some (at_index (Md.ret_ p) replica) → is_i32 x →
  ∃ ar, BinaryInputArchive_new [RemoteQueue.xfer_of (enc cereal_int x)] = Ok ar ∧
    LoadEnd (methods_of (SmallMessageServer count)) replica SmallMessageMethod.kMd ar a w =
    Ok (put_task a (mkTaskObj (base o) (BMd (Md.mk (set_index replica x (Md.ret_ p))))) w).
Proof.
  intros Ho Hp [y Hy] Hx. unfold BinaryInputArchive_new. cbn [list.last deref mbind outcome_bind].
  unfold RemoteQueue.xfer_of. cbn [DataTransfer.data_ DataTransfer.data_size_].
  rewrite read_memory_all. cbn [mbind outcome_bind]. eexists. split; [done|].
  unfold LoadEnd. change (methods_of _ SmallMessageMethod.kMd) with (Some c_Md). cbv iota beta.
  rewrite Ho. cbn [mbind outcome_bind]. unfold as_type. rewrite Hp.
  cbn [tc_get c_Md deref mbind outcome_bind]. unfold ser_task.
  replace (SUPPORTS_SRL (tc_serial c_Md)) with true
    by (change (true = TaskFlags.SUPPORTS_SRL Md.FLAGS); unfold Md.FLAGS; symmetry; eval_flags).
  replace (SRL_SYM_END (tc_serial c_Md)) with true by (symmetry; exact sym_replica_end_flag).
  simpl. rewrite Hy. simpl. rewrite <- (app_nil_r (enc cereal_int x)).
  by rewrite cereal_int_ok by done.
Qed.

(** The loop over the replicas *)
Lemma small_replicas_Md (I : Node → Prop) rpc task orig exec st count params ans ids : ∀ k w o p t q,
  TaskLib.server st = SmallMessageServer count → task ≠ orig →
  get_state exec w = Ok st → get_task orig w = Ok o → body o = BMd p →
  get_task task w = Ok t → body t = BRemotePush q →
  RemotePush.orig_task_ q = orig → RemotePush.exec_ q = exec →
  RemotePush.exec_method_ q = SmallMessageMethod.kMd → RemotePush.params_ q = params →
  length (Md.ret_ p) = (k + length ids)%nat →
  apart I task orig → I w → answers I rpc task orig exec st params ans k ids →
  ∃ w', RemoteQueue.small_replicas rpc task (Z.of_nat k) ids w = Ok w' ∧
    get_state exec w' = Ok st ∧ get_task task w' = Ok t ∧
    get_task orig w' = Ok (mkTaskObj (base o)
      (BMd (Md.mk (take k (Md.ret_ p) ++ (ans <$> seq k (length ids)))))) ∧ I w'.
Proof.
  induction ids as [|id ids IH]; intros k w o p t q Hsv Hne Hst Ho Hp Ht Hq Ho' He Hm Hps Hlen Hap HI Ha.
  - exists w. split; [done|]. split; [done|]. split; [done|]. split; [|done]. simpl in *.
    rewrite take_ge, app_nil_r by lia. rewrite Ho. destruct o as [b bo]. simpl in *. subst. by destruct p.
  - simpl. rewrite (get_remote_push _ _ _ _ Ht Hq). cbn [mbind outcome_bind snd].
    rewrite He, Hst. cbn [mbind outcome_bind]. rewrite Hm, Hps.
    destruct (Ha 0%nat id eq_refl) as [Hi Hcall]. rewrite Nat.add_0_r in Hi, Hcall.
    destruct (Hcall w HI) as (w1 & -> & (Kt & Ko & Ks) & HI1). cbn [mbind outcome_bind].
    rewrite <- Kt in Ht. rewrite <- Ko in Ho. rewrite <- Ks in Hst. simpl in Hlen.
    destruct (Md_LoadEnd count (Z.of_nat k) orig w1 o p (ans k) Ho Hp) as (ar & Hin & Hload);
      [apply at_index_is_Some; lia|done|].
    unfold RemoteQueue.ClientHandlePushReplicaOutput. rewrite (get_remote_push _ _ _ _ Ht Hq).
    cbn [mbind outcome_bind snd]. rewrite Hin. cbn [mbind outcome_bind].
    rewrite He, (exec_table_Ok _ _ _ Hst), Hsv. cbn [mbind outcome_bind]. rewrite Hm, Ho', Hload.
    cbn [mbind outcome_bind]. replace (Z.of_nat k + 1) with (Z.of_nat (S k)) by lia.
    set (o1 := mkTaskObj _ _). destruct (IH (S k) (put_task orig o1 w1) o1
      (Md.mk (set_index (Z.of_nat k) (ans k) (Md.ret_ p))) t q)
      as (w' & Hw' & Hs' & Ht' & Hor & HI'); try done.
    + apply get_put_task_eq.
    + by rewrite get_put_task_ne.
    + simpl. rewrite length_set_index. lia.
    + apply Hap; auto.
    + intros j id' Hj. specialize (Ha (S j) id' Hj). by rewrite Nat.add_succ_r in Ha.
    + exists w'. split; [done|]. split; [done|]. split; [done|]. split; [|done]. rewrite Hor. simpl. do 4 f_equal.
      unfold set_index. rewrite Nat2Z.id.
      assert (k < length (Md.ret_ p))%nat as Hk by lia.
      erewrite take_S_r by (by apply list_lookup_insert_eq).
      rewrite take_insert_ge by lia. by rewrite <- (assoc_L app).
Qed.

End collect.

(** The sending side of a broadcast: a metadata task pushed to several nodes. With an answer
    of each node, the push sends them the same parameters, and afterwards the original's
    vector of results holds the answers in the order of the nodes; the original, which was
    disabled, and the push task are complete for the worker. *)
Lemma Push_collects_replicas `{BitfieldLaws} `{Logger} `{CerealLaws} `{CharbufOps} `{HvecOps}
    `{RawMemory} `{MpscOps} `{AllocOps} `{NetOps} `{ThalliumOps} (I : Node → Prop) (rpc : RpcContext)
    (task orig exec : Z) (ids : list DomainId) (x : DataTransfer) ps (w : Node) st count o p t ans :
  get_state exec w = Ok st → TaskLib.server st = SmallMessageServer count → task ≠ orig →
  get_task orig w = Ok o → body o = BMd p → Task.method_ (base o) = SmallMessageMethod.kMd →
  length (Md.ret_ p) = length ids →
  get_task task w = Ok t →
  body t = BRemotePush (RemotePush.mk ids orig exec SmallMessageMethod.kMd [x] ps) →
  DataTransfer.data_size_ x = Z.of_nat (length (DataTransfer.data_ x)) →
  apart I task orig → I w → answers I rpc task orig exec st (DataTransfer.data_ x) ans 0 ids →
  ∃ w' o' t', RemoteQueue.Push rpc task w = Ok w' ∧
    get_task orig w' = Ok o' ∧ body o' = BMd (Md.mk (ans <$> seq 0 (length ids))) ∧
    base o' = Task.SetModuleComplete (base o) ∧
    get_task task w' = Ok t' ∧ Task.IsModuleComplete (base t') = true ∧ I w'.
Proof.
  intros Hst Hsv Hne Ho Hp Hm Hlen Ht Hq Hx Hap HI Ha. unfold RemoteQueue.Push.
  rewrite (get_remote_push _ _ _ _ Ht Hq). cbn [mbind outcome_bind snd RemotePush.xfer_ length].
  unfold RemoteQueue.ClientSmallPush. cbn [lookup list_lookup deref mbind outcome_bind].
  rewrite Hx, read_memory_all. cbn [mbind outcome_bind].
  rewrite (upd_remote_push _ _ _ _ _ Ht Hq). cbn [mbind outcome_bind].
  set (t1 := mkTaskObj _ _). set (w1 := put_task task t1 w).
  assert (get_task task w1 = Ok t1) as Ht1 by apply get_put_task_eq.
  assert (get_task orig w1 = Ok o) as Ho1 by (unfold w1; by rewrite get_put_task_ne).
  rewrite (get_remote_push _ _ _ _ Ht1 eq_refl). cbn [mbind outcome_bind snd].
  destruct (small_replicas_Md I rpc task orig exec st count (DataTransfer.data_ x) ans ids 0 w1 o p t1 _
    Hsv Hne Hst Ho1 Hp Ht1 eq_refl eq_refl eq_refl eq_refl eq_refl Hlen Hap ltac:(apply Hap; auto) Ha)
    as (w2 & Hw2 & Hs2 & Ht2 & Ho2 & HI2).
  change (Z.of_nat 0) with 0 in Hw2. cbn [RemotePush.domain_ids_ RemotePush.set_params]. rewrite Hw2.
  cbn [mbind outcome_bind].
  unfold RemoteQueue.ClientHandlePushReplicaEnd. rewrite (get_remote_push _ _ _ _ Ht2 eq_refl).
  cbn [mbind outcome_bind snd]. simpl RemotePush.orig_task_. simpl RemotePush.exec_. rewrite Ho2.
  cbn [mbind outcome_bind]. rewrite (exec_table_Ok _ _ _ Hs2), Hsv. cbn [mbind outcome_bind].
  simpl base. rewrite Hm. set (o2 := mkTaskObj _ _) in Ho2.
  assert (ReplicateEnd (methods_of (SmallMessageServer count)) SmallMessageMethod.kMd orig w2 =
    Ok (put_task orig o2 w2)) as ->.
  { unfold ReplicateEnd. change (methods_of _ SmallMessageMethod.kMd) with (Some c_Md). cbv iota beta.
    replace (tc_replica c_Md) with true by (symmetry; exact replica_flag). unfold upd_payload.
    by rewrite Ho2. }
  cbn [mbind outcome_bind]. rewrite (upd_get_Ok _ _ _ _ (get_put_task_eq orig o2 w2)), put_put_task.
  cbn [mbind outcome_bind]. set (o3 := on_base _ o2).
  assert (get_task task (put_task orig o3 w2) = Ok t1) as Ht3 by (by rewrite get_put_task_ne).
  rewrite (upd_get_Ok _ _ _ _ Ht3). eexists _, o3, _. split; [done|].
  rewrite get_put_task_ne, !get_put_task_eq by done. split; [done|]. split; [done|].
  split; [done|]. split; [done|]. split; [simpl; by autorewrite with hrun|]. apply Hap, Hap; auto.
Qed.

(** ** Properties *)

(** C16: a task is ready for its remote executions when it has been dispersed: the push task in
    the remote queue, at the original's priority and hash and one level below it in the task
    graph, carries the nodes, the original, its state and method, and the bytes [SaveStart]
    wrote; and the original, otherwise unchanged, has a place for the result of each node. *)
Theorem Disperse_prepares `{BitfieldLaws} `{Logger} `{CerealLaws} `{CharbufOps} `{HvecLaws}
    `{RawMemory} `{MpscOps} `{AllocLaws} (orig exec : Z) (ids : list DomainId) (w : Node)
    o st c s id qid i xfer :
  get_task orig w = Ok o → get_state exec w = Ok st →
  methods_of (TaskLib.server st) (Task.method_ (base o)) = Some c → as_type c o = Ok s →
  SaveStart (methods_of (TaskLib.server st)) (Task.method_ (base o))
    (BinaryOutputArchive_new (DomainId.GetNode (Node.node_id_ w))) orig w = Ok xfer →
  Z.of_nat (length ids) < 2 ^ 32 → Node.remote_queue_ w = (id, qid) →
  (∀ h : gmap Z TaskObj, is_Some (allocate h)) → Client.GetQueue qid w = Ok i →
  (∀ p, ∃ ret wq, Client.Emplace i (Task.prio_ (base o)) (Task.lane_hash_ (base o)) p w = Ok (ret, wq)) →
  ∃ w' og shm ptr op p ret wq, RemoteQueueClient.Disperse orig exec ids w = Ok w' ∧
    get_task orig w' = Ok og ∧ base og = base o ∧
    (∀ r, 0 ≤ r < Z.of_nat (length ids) → slot_ok r (body og)) ∧
    get_task ptr w' = Ok op ∧ body op = BRemotePush p ∧
    Task.task_node_ (base op) = TaskNode.add (Task.task_node_ (base o)) 1 ∧
    p = RemotePush.mk ids orig exec (Task.method_ (base o)) xfer [] ∧
    Convert shm = ptr ∧
    Client.Emplace i (Task.prio_ (base o)) (Task.lane_hash_ (base o)) shm w = Ok (ret, wq) ∧
    Node.queue_map_ w' = Node.queue_map_ wq.
Proof.
  intros Ho Hst Hm Hs Hsave Hlen Hrq Hal Hq He.
  destruct (Disperse_Ok _ _ _ _ _ _ _ _ _ _ _ _ Ho Hst Hm Hs Hsave Hlen Hrq Hal Hq He)
    as (og & shm & ptr & op & ret & wq & Hd & _ & Hb & Hslots & Hne & _ & Hconv & Hop & Hn & Hem).
  eexists _, og, shm, ptr, op, _, ret, wq. split; [exact Hd|].
  split; [change (get_task orig (put_task ptr op (put_task orig og w)) = Ok og);
          rewrite get_put_task_ne by done; apply get_put_task_eq|].
  split; [done|]. split; [exact Hslots|].
  split; [exact (get_put_task_eq ptr op (put_task orig og w))|]. split_and!; try done.
  by rewrite Hn.
Qed.

(** C14: the receiving side of a push. From the transfers [SaveStart] wrote on the sending
    node, the RPC rebuilds the task at a new address: its base members and inputs are the
    sender's, its domain is the receiving node, and its flags of ownership, order and start
    are cleared, so that it runs as a new task whose completion is waited for; it is in
    the queue of its state, at its own priority and hash. No other task changes. *)
Theorem RpcExec_receives `{BitfieldLaws} `{Logger} `{CerealLaws} `{CharbufOps} `{HvecLaws}
    `{RawMemory} `{MpscOps} `{AllocLaws} (state_id : TaskStateId) method c a o s nid w w2 st exec
    shm ptr i ret wq :
  methods_of (TaskLib.server st) method = Some c → SUPPORTS_SRL (tc_serial c) = true →
  get_task a w = Ok o → as_type c o = Ok s → Task.wf (base o) → body_ok (tc_put c s.2) →
  GetTaskState state_id w2 = exec → exec ≠ 0 → get_state exec w2 = Ok st →
  allocate (Node.heap w2) = Some (shm, ptr) →
  Client.GetQueue state_id w2 = Ok i →
  Client.Emplace i (Task.prio_ (base o)) (Task.lane_hash_ (base o)) shm w2 = Ok (ret, wq) →
  ∃ xfer w2' o', SaveStart (methods_of (TaskLib.server st)) method (BinaryOutputArchive_new nid) a w
      = Ok xfer ∧
    RemoteQueue.RpcExec state_id method xfer w2 = Ok (Some (ptr, exec), w2') ∧
    get_task ptr w2' = Ok o' ∧ body o' = sent (tc_put c s.2) (tc_put c (tc_empty c)) ∧
    base o' = RemoteQueue.clear_flags (Task.set_domain_id (DomainId.GetNode (Node.node_id_ w2))
      (Task.received (base o) (Task.new raw_task))) ∧
    Task.IsFireAndForget (base o') = false ∧ Task.IsStarted (base o') = false ∧
    Task.IsLongRunning (base o') = false ∧ Task.IsDataOwner (base o') = false ∧
    Node.queue_map_ w2' = Node.queue_map_ wq ∧
    ∀ b, b ≠ ptr → get_task b w2' = get_task b w2.
Proof.
  intros Hm Hsup Ho Hs Hwf Hb Hex Hne Hst Hal Hq He.
  destruct (start_transfer _ _ _ _ _ _ nid w w2 _ Hm Hsup Ho Hs Hwf Hb Hal)
    as (xfer & ar & o1 & Hsave & Hin & Hload & Hbase & Hbody). cbn [fst snd] in Hload.
  assert (Task.prio_ (base o) = Task.prio_ (base o1) ∧
    Task.lane_hash_ (base o) = Task.lane_hash_ (base o1)) as [Ep Eh] by (by rewrite Hbase).
  rewrite Ep, Eh in He.
  set (o2 := on_base RemoteQueue.clear_flags
    (on_base (Task.set_domain_id (DomainId.GetNode (Node.node_id_ w2))) o1)).
  exists xfer, (Node.set_queue_map (Node.queue_map_ wq) (put_task ptr o2 w2)), o2.
  split; [exact Hsave|]. split; [by eapply RpcExec_Ok|].
  split; [exact (get_put_task_eq ptr o2 w2)|]. split; [exact Hbody|].
  assert (base o2 = RemoteQueue.clear_flags (Task.set_domain_id (DomainId.GetNode (Node.node_id_ w2))
    (base o1))) as Hb2 by done. rewrite Hb2, Hbase. split; [done|].
  match goal with |- context [RemoteQueue.clear_flags ?t] =>
    destruct (clear_flags_spec t) as (-> & -> & _ & -> & -> & _) end. do 5 (split; [done|]).
  intros b Hne'. exact (get_put_task_ne ptr b o2 w2 (not_eq_sym Hne')).
Qed.

(** C20: the receiving side completes. When the task is complete, the second half of the RPC
    frees it and responds with bytes from which the sender's [LoadEnd], for any replica
    number, puts the outputs of the task in the original and changes nothing else. *)
Theorem RpcPush_answers `{BitfieldLaws} `{Logger} `{CerealLaws} `{CharbufOps} `{HvecLaws}
    `{RawMemory} `{MpscOps} `{AllocOps} method c a o s st exec (w : Node) :
  get_state exec w = Ok st →
  methods_of (TaskLib.server st) method = Some c → SUPPORTS_SRL (tc_serial c) = true →
  get_task a w = Ok o → as_type c o = Ok s → result_ok (tc_put c s.2) →
  Task.method_ (base o) = method → Task.delcnt_ (base o) = 0 → Task.IsComplete (base o) = true →
  ∃ bs, RemoteQueue.RpcPush_finish method (a, exec) w =
      Ok (bs, Node.set_heap (delete a (Node.heap w)) w) ∧
    ∀ replica a0 o0 s0 w0, get_task a0 w0 = Ok o0 → as_type c o0 = Ok s0 →
      slot_ok replica (tc_put c s0.2) →
      ∃ ar o0', BinaryInputArchive_new [RemoteQueue.xfer_of bs] = Ok ar ∧
        LoadEnd (methods_of (TaskLib.server st)) replica method ar a0 w0 = Ok (put_task a0 o0' w0) ∧
        base o0' = base o0 ∧ body o0' = returned replica (tc_put c s.2) (tc_put c s0.2).
Proof.
  intros Hst Hm Hsup Ho Hs Hr Hme Hd Hc.
  pose proof (λ replica a0 o0 s0 w0, end_transfer _ _ _ _ _ _
    (DomainId.GetNode (Node.node_id_ w)) w replica a0 o0 s0 w0 Hm Hsup Ho Hs Hr) as Hend.
  destruct (Hend 0 a o s w Ho Hs (result_slot _ Hr)) as (x & Hx & Hsz & _).
  exists (DataTransfer.data_ x). split; [by eapply RpcPush_finish_Ok|].
  intros replica a0 o0 s0 w0 Ho0 Hs0 Hsl.
  destruct (Hend replica a0 o0 s0 w0 Ho0 Hs0 Hsl) as (x' & Hx' & _ & Hl).
  assert (x' = x) as -> by congruence. by apply Hl.
Qed.

(** ** Witnesses: a metadata message at 42, of the state at 9; the remote queue in slot 2 *)
Definition ref_thallium `{CerealOps} : ThalliumOps := {|
  remote_proc _ _ _ _ _ w := Ok (enc cereal_int 1, w);
  remote_io_proc _ _ _ data _ _ _ w := Ok ([], data, w);
|}.

Section witness.
Import RefInstances.
#[local] Existing Instance ref_raw.
#[local] Existing Instance ref_net.
#[local] Existing Instance ref_thallium.

Definition wit_message_id : TaskStateId := UniqueId.make 1 2.
Definition wit_message_state : TaskState :=
  TaskLib.mkTaskLib wit_message_id wit_message_id "small_message" (SmallMessageServer 0).
Definition wit_message (ret : list Z) : TaskObj :=
  mkTaskObj (init_task ref_task TaskNode.GetNull DomainId.GetGlobal 3 TaskPrio.kLowLatency
    wit_message_id SmallMessageMethod.kMd 0) (BMd (Md.mk ret)).
Definition wit_message_queue : MultiQueue :=
  MultiQueue.make wit_message_id [PriorityInfo.make 1 1 4 0; PriorityInfo.make 1 1 4 0; PriorityInfo.make 1 1 4 0].
Definition wit_remote (ret : list Z) : Node :=
  Node.set_remote_queue (UniqueId.make 1 2, UniqueId.make 1 2)
    (put_task 42 (wit_message ret) (put_state 9 wit_message_state
      (Node.set_task_registry (TaskRegistry.set_task_states {[UniqueId.key wit_message_id := 9]} ref_registry)
        (Node.set_queue_map
          [free_queue; free_queue; wit_message_queue] ref_node)))).
Definition wit_ids : list DomainId := [DomainId.GetNode 1; DomainId.GetNode 2].

Lemma wit_Emplace_remote : ∀ p, ∃ ret wq,
  Client.Emplace 2 TaskPrio.kLowLatency 3 p (wit_remote [0]) = Ok (ret, wq).
Proof. intros p. eexists _, _. vm_compute. reflexivity. Qed.

Lemma Disperse_prepares_witness :
  ∃ w' og, RemoteQueueClient.Disperse 42 9 wit_ids (wit_remote [0]) = Ok w' ∧
    get_task 42 w' = Ok og ∧ ∀ r, 0 ≤ r < 2 → slot_ok r (body og).
Proof.
  assert (∃ xfer, SaveStart (methods_of (SmallMessageServer 0)) SmallMessageMethod.kMd
    (BinaryOutputArchive_new (DomainId.GetNode 1)) 42 (wit_remote [0]) = Ok xfer) as [xfer Hx]
    by (eexists; vm_compute; reflexivity).
  destruct (Disperse_prepares 42 9 wit_ids (wit_remote [0]) (wit_message [0]) wit_message_state
    c_Md (base (wit_message [0]), Md.mk [0]) (UniqueId.make 1 2) (UniqueId.make 1 2) 2 xfer)
    as (w' & og & _ & _ & _ & _ & _ & _ & Hd & Ho & _ & Hs & _);
    [reflexivity|reflexivity|reflexivity|reflexivity|exact Hx|reflexivity|reflexivity
    |by intros; eexists|reflexivity|exact wit_Emplace_remote|].
  exists w', og. split; [exact Hd|]. split; [exact Ho|exact Hs].
Defined.

Lemma RpcExec_receives_witness :
  ∃ xfer w2' o', SaveStart (methods_of (SmallMessageServer 0)) SmallMessageMethod.kMd
      (BinaryOutputArchive_new (DomainId.GetNode 2)) 42 (wit_remote [0]) = Ok xfer ∧
    RemoteQueue.RpcExec wit_message_id SmallMessageMethod.kMd xfer (wit_remote [0]) =
      Ok (Some (43, 9), w2') ∧
    get_task 43 w2' = Ok o' ∧ Task.IsStarted (base o') = false.
Proof.
  destruct (wit_Emplace_remote 43) as (ret & wq & He).
  destruct (RpcExec_receives wit_message_id SmallMessageMethod.kMd c_Md 42 (wit_message [0])
    (base (wit_message [0]), Md.mk [0]) (DomainId.GetNode 2) (wit_remote [0]) (wit_remote [0])
    wit_message_state 9 43 43 2 ret wq)
    as (xfer & w2' & o' & Hs & Hr & Ho & _ & _ & _ & Hst & _);
    [reflexivity|vm_compute; reflexivity|reflexivity|reflexivity|by vm_compute|by vm_compute
    |reflexivity|discriminate|reflexivity|reflexivity|reflexivity|exact He|].
  exists xfer, w2', o'. split; [exact Hs|]. split; [exact Hr|]. split; [exact Ho|exact Hst].
Defined.

(** The hosts of the node *)
Definition wit_rpc_context : RpcContext :=
  RpcContext.mk (ServerConfig.rpc_ wit_rpc_config) 8080 "tcp" "" 1 4 wit_hosts.

(** The message as the receiving node has run it *)
Definition wit_done : TaskObj := on_base Task.SetComplete (wit_message [1]).

Lemma RpcPush_answers_witness :
  ∃ bs, RemoteQueue.RpcPush_finish SmallMessageMethod.kMd (42, 9) (put_task 42 wit_done (wit_remote [0])) =
    Ok (bs, Node.set_heap (delete 42 (<[42 := wit_done]> (Node.heap (wit_remote [0]))))
              (put_task 42 wit_done (wit_remote [0]))).
Proof.
  destruct (RpcPush_answers SmallMessageMethod.kMd c_Md 42 wit_done (base wit_done, Md.mk [1])
    wit_message_state 9 (put_task 42 wit_done (wit_remote [0]))) as (bs & Hf & _);
    [reflexivity|reflexivity|vm_compute; reflexivity|reflexivity|reflexivity|by exists 1
    |reflexivity|reflexivity|vm_compute; reflexivity|].
  exists bs. exact Hf.
Defined.

End witness.
