(* ===== verification/TaskName.v ===== *)
(** * The template library ([tasks_required/TASK_NAME])

    The library new libraries are copied from. It is built and can be loaded like the
    others: its only method of its own completes the task. *)

From S2P Require Import Prelude Hshm RefLib Types Queue Config QueueManager LocalSerialize.
From S2P Require Import Archive Task TaskTypes World LibExec ProcQueue.

(** [TASK_NAME::Client] ([TASK_NAME.h]) *)
Module TaskNameClient.
Section client.
Context `{BitfieldOps} `{Logger} `{MpscOps} `{AllocOps} `{RawMemory}.

(** [AsyncCustomRoot], with [AsyncCustomConstruct]: the task is pushed through the process
    queue. *)
Definition AsyncCustomRoot (id : TaskStateId) (pq : ProcQueueClient.Client) (tid pid : Z)
    (domain_id : DomainId) (w : Node) : outcome (LPointer * Node) :=
  ProcQueueClient.AsyncTaskRoot pq tid pid (λ task_node,
    mkTaskObj (Custom.make (raw_task, tt) task_node domain_id id).1 BCustom) w.

(** [CustomRoot] after [AsyncCustomRoot]: it waits, and deletes nothing. *)
Definition CustomRoot_finish (task : LPointer) (w : Node) : outcome Node :=
  o ← get_task (ptr_ task) w;
  _ ← Task.Wait (base o);
  mret w.

End client.
End TaskNameClient.

(** [TASK_NAME::Server] ([TASK_NAME.cc]) *)
Module TaskName.
Section server.
Context `{BitfieldOps}.

Definition Construct (task : Z) (w : Node) : outcome Node := upd_task task Task.SetModuleComplete w.
Definition Destruct (task : Z) (w : Node) : outcome Node := upd_task task Task.SetModuleComplete w.
Definition Custom (task : Z) (w : Node) : outcome Node := upd_task task Task.SetModuleComplete w.

(** [Run] ([TASK_NAME_lib_exec.h]) *)
Definition Run (method task : Z) (w : Node) : outcome Node :=
  if method =? TaskMethod.kConstruct then Construct task w
  else if method =? TaskMethod.kDestruct then Destruct task w
  else if method =? TaskNameMethod.kCustom then Custom task w
  else Ok w.

End server.
End TaskName.
