(* ===== verification/TaskTyping.v ===== *)
(** * The types of tasks

    A pointer to [Task] is cast to the type its method stands for in the library it is sent
    to. The casts are sound for the tasks the constructors of the libraries make, with the
    exception of [MdPushTask]: the method a constructor sets stands, in the generated dispatch of
    its library, for the constructor's own type. The functions of the dispatch then do what the
    object's own type asks for. *)

From S2P Require Import Prelude Hshm RefLib Types Queue LocalSerialize Config QueueManager.
From S2P Require Import Archive Task TaskTypes World LibExec TaskName.

Section typing.
Context `{BitfieldOps} `{Logger} `{CerealOps} `{CharbufOps} `{HvecOps} `{RawMemory}.

(** The type the library gives to the task's method is the task's. *)
Definition typed (table : method_table) (o : TaskObj) : Prop :=
  ∃ c, table (Task.method_ (base o)) = Some c ∧ is_Some (tc_get c (body o)).

(** Such a task with members in their ranges can be sent to another node. *)
Definition well_typed (table : method_table) (o : TaskObj) : Prop :=
  typed table o ∧ Task.wf (base o).

(** The tasks the constructors make: for the node [n] of the task graph, the domain [d] and
    the task state [s]; [memory] is what the memory held. *)
Inductive made (n : TaskNode) (d : DomainId) (s : TaskStateId) : ServerData → TaskObj → Prop :=
  | made_RegisterTaskLib q p method memory name :
      made n d s (AdminServer q p)
        (of_type c_RegisterTaskLib (RegisterTaskLib.make method memory n d s name))
  | made_GetOrCreateTaskStateId q p memory name :
      made n d s (AdminServer q p)
        (of_type c_GetOrCreateTaskStateId (GetOrCreateTaskStateId.make memory n d s name))
  | made_CreateTaskState q p memory name lib_name id info :
      made n d s (AdminServer q p)
        (of_type c_CreateTaskState (CreateTaskState.make memory n d s name lib_name id info))
  | made_GetTaskStateId q p memory name :
      made n d s (AdminServer q p)
        (of_type c_GetTaskStateId (GetTaskStateId.make memory n d s name))
  | made_DestroyTaskState q p memory id :
      made n d s (AdminServer q p)
        (of_type c_DestroyTaskState (DestroyTaskState.make memory n d s id))
  | made_StopRuntime q p memory :
      made n d s (AdminServer q p) (of_type c_StopRuntime (StopRuntime.make memory n d s))
  | made_SetWorkOrchestratorPolicy q p method memory id :
      made n d s (AdminServer q p)
        (of_type c_SetWorkOrchestratorPolicy
           (SetWorkOrchestratorPolicy.make method memory n d s id))
  | made_queue_Schedule count memory junk :
      made n d s (QueueRoundRobinServer count) (of_type c_Schedule (Schedule.make memory junk n d s))
  | made_proc_Schedule memory junk :
      made n d s ProcRoundRobinServer (of_type c_Schedule (Schedule.make memory junk n d s))
  | made_TypedPush memory tid pid sub :
      made n d s ProcQueueServer (of_type c_TypedPush (TypedPush.make memory tid pid n d s sub))
  | made_RemotePush q p memory ids orig exec method xfer :
      made n d s (RemoteQueueServer q p)
        (of_type c_RemotePush (RemotePush.make memory n d s ids orig exec method xfer))
  | made_Md count memory junk :
      made n d s (SmallMessageServer count) (of_type c_Md (Md.make memory junk n d s))
  | made_MdPush count memory junk :
      made n d s (SmallMessageServer count) (of_type c_MdPush (MdPush.make memory junk n d s))
  | made_Io count memory :
      made n d s (SmallMessageServer count) (of_type c_Io (Io.make memory n d s))
  | made_Custom memory :
      made n d s TaskNameServer (of_type c_Custom (Custom.make memory n d s)).

Lemma typed_of_type table c s :
  table (Task.method_ s.1) = Some c → typed table (of_type c s).
Proof. intros Ht. exists c. split; [done|]. simpl. rewrite tc_get_put. eauto. Qed.

End typing.

(** ** Lemmas *)

Section lemmas.
Context `{BitfieldLaws} `{Logger} `{CerealOps} `{CharbufLaws} `{HvecOps} `{RawMemory}.

Lemma init_task_wf memory node domain hash prio state method flags :
  TaskNode.wf node → DomainId.wf domain → UniqueId.wf state → is_u32 hash → is_u32 prio →
  is_u32 method → is_u32 flags →
  Task.wf (init_task memory node domain hash prio state method flags).
Proof.
  intros Hn Hd Hs Hh Hp Hm Hf. split_and!; try done. simpl. apply SetBits_u32; [|done].
  rewrite bitfield_new_spec. done.
Qed.

End lemmas.

(** ** Dispatch by the type of the object

    What the functions of the generated files should do with an object: case by case on its own
    type, where they go by the method number and a cast. *)

Section own.
Context `{BitfieldOps} `{Logger} `{CerealOps} `{CharbufOps} `{HvecOps} `{RawMemory}.

(** Only the messages and [CreateTaskStateTask] are replicated, and only the messages make room. *)
Definition own_ReplicateStart (count : Z) (b : TaskBody) : TaskBody :=
  match b with
  | BMd p => BMd (Md.mk (hvec_resize raw_int (Md.ret_ p) (Z.to_nat count)))
  | BMdPush p => BMdPush (MdPush.mk (hvec_resize raw_int (MdPush.ret_ p) (Z.to_nat count)))
  | _ => b
  end.

(** Tasks that create a state form the group 16, push tasks that of their hash; the others may run
    at any time. *)
Definition own_GetGroup (o : TaskObj) (group : list Z) : Z * list Z :=
  match body o with
  | BCreateTaskState _ => (0, le_bytes 4 16)
  | BTypedPush _ => (0, memcpy_at 0 (le_bytes 4 (Task.lane_hash_ (base o))) (buf_resize group 4))
  | _ => (TASK_UNORDERED, group)
  end.

(** A push task owns its subtask. *)
Definition own_DelTask `{AllocOps} (o : TaskObj) (a : Z) (w : Node) : outcome Node :=
  match body o with
  | BTypedPush _ => Client.DelTask_TypedPush a w
  | _ => Client.DelTask a w
  end.

Definition read {T} (c : codec T) (ar : BinaryInputArchive) : outcome T :=
  match dec c (in_ss_ ar) with Some (x, _) => Ok x | None => Throw "cereal::Exception" end.

(** The one output of a type, read into its member: an id, or the result of a message, which has a
    place for each replica when the type is replicated. The other types have none. *)
Definition own_LoadEnd (replica : Z) (ar : BinaryInputArchive) (b : TaskBody) : outcome TaskBody :=
  match b with
  | BRegisterTaskLib p =>
      x ← read UniqueId.serialize ar;
      Ok (BRegisterTaskLib (RegisterTaskLib.mk (RegisterTaskLib.lib_name_ p) x))
  | BGetOrCreateTaskStateId p =>
      x ← read UniqueId.serialize ar;
      Ok (BGetOrCreateTaskStateId (GetOrCreateTaskStateId.mk (GetOrCreateTaskStateId.state_name_ p) x))
  | BCreateTaskState p =>
      x ← read UniqueId.serialize ar;
      Ok (BCreateTaskState (CreateTaskState.mk (CreateTaskState.lib_name_ p)
        (CreateTaskState.state_name_ p) (CreateTaskState.queue_info_ p) x))
  | BGetTaskStateId p =>
      x ← read UniqueId.serialize ar;
      Ok (BGetTaskStateId (GetTaskStateId.mk (GetTaskStateId.state_name_ p) x))
  | BMd p =>
      _ ← deref (at_index (Md.ret_ p) replica);
      x ← read cereal_int ar;
      Ok (BMd (Md.mk (set_index replica x (Md.ret_ p))))
  | BMdPush p =>
      _ ← deref (at_index (MdPush.ret_ p) replica);
      x ← read cereal_int ar;
      Ok (BMdPush (MdPush.mk (set_index replica x (MdPush.ret_ p))))
  | BIo p => x ← read cereal_int ar; Ok (BIo (Io.mk (Io.data_ p) x))
  | _ => Ok b
  end.

(** Objects of one type *)
Definition same_type (b b' : TaskBody) : bool :=
  match b, b' with
  | BRegisterTaskLib _, BRegisterTaskLib _ | BGetOrCreateTaskStateId _, BGetOrCreateTaskStateId _
  | BCreateTaskState _, BCreateTaskState _ | BGetTaskStateId _, BGetTaskStateId _
  | BDestroyTaskState _, BDestroyTaskState _ | BStopRuntime, BStopRuntime
  | BSetWorkOrchestratorPolicy _, BSetWorkOrchestratorPolicy _ | BSchedule _, BSchedule _
  | BTypedPush _, BTypedPush _ | BRemotePush _, BRemotePush _ | BMd _, BMd _
  | BMdPush _, BMdPush _ | BIo _, BIo _ | BCustom, BCustom | BTask, BTask => true
  | _, _ => false
  end.

End own.

Section own_lemmas.
Context `{BitfieldLaws} `{Logger} `{CerealOps} `{CharbufLaws} `{HvecOps} `{RawMemory} `{AllocOps}.

(** A class does what its type asks for. *)
Record class_own (c : task_class) : Prop := {
  own_start count p :
    own_ReplicateStart count (tc_put c p) = tc_put c (if tc_replica c then tc_ReplicateStart c count p else p);
  own_end p : tc_put c (if tc_replica c then tc_ReplicateEnd c p else p) = tc_put c p;
  own_group t p group :
    tc_GetGroup c t p group = Ok (own_GetGroup (mkTaskObj t (tc_put c p)) group);
  own_delete t p a w : tc_DelTask c a w = own_DelTask (mkTaskObj t (tc_put c p)) a w;
  own_load t p replica ar :
    ('(s, _) ← v_load (ser_task false replica (tc_serial c)) (t, p) ar; Ok (of_type c s)) =
    b ← own_LoadEnd replica ar (tc_put c p); Ok (mkTaskObj t b);
}.

Lemma sym_end_flags :
  TaskFlags.SUPPORTS_SRL TF_SRL_SYM = true ∧ TaskFlags.SRL_SYM_END TF_SRL_SYM = true ∧
  TaskFlags.REPLICA (Z.lor TF_SRL_SYM TF_REPLICA) = true ∧
  TaskFlags.SUPPORTS_SRL (Z.lor TF_SRL_SYM TF_REPLICA) = true ∧
  TaskFlags.SRL_SYM_END (Z.lor TF_SRL_SYM TF_REPLICA) = true ∧
  TaskFlags.SUPPORTS_SRL TF_LOCAL = false ∧
  TaskFlags.SUPPORTS_SRL (Z.lor TF_SRL_ASYM_START TF_SRL_SYM_END) = true ∧
  TaskFlags.SRL_SYM_END (Z.lor TF_SRL_ASYM_START TF_SRL_SYM_END) = true.
Proof. split_and!; eval_flags. Qed.

(** Reading the end of a type that is serialized symmetrically, or not at all *)
Lemma own_load_class (c : task_class) FLAGS start sl_start end_ t p replica ar :
  tc_serial c = make_serial FLAGS start sl_start end_ no_end →
  (TaskFlags.SUPPORTS_SRL FLAGS = true → TaskFlags.SRL_SYM_END FLAGS = true) →
  (if TaskFlags.SUPPORTS_SRL FLAGS then
     ('(s, _) ← v_load (end_ replica) (t, p) ar; Ok (of_type c s)) =
       b ← own_LoadEnd replica ar (tc_put c p); Ok (mkTaskObj t b)
   else own_LoadEnd replica ar (tc_put c p) = Ok (tc_put c p)) →
  ('(s, _) ← v_load (ser_task false replica (tc_serial c)) (t, p) ar; Ok (of_type c s)) =
    b ← own_LoadEnd replica ar (tc_put c p); Ok (mkTaskObj t b).
Proof.
  intros -> Hsym. unfold ser_task. simpl. destruct (TaskFlags.SUPPORTS_SRL FLAGS).
  - by rewrite Hsym.
  - by intros ->.
Qed.

#[local] Arguments dec : simpl never.

Ltac class_own :=
  destruct sym_end_flags as (E1 & E2 & E3 & E4 & E5 & E6 & E7 & E8);
  split;
  [ intros count p; simpl; unfold Md.FLAGS, MdPush.FLAGS; rewrite ?E3;
      first [done | by destruct p | by destruct (TaskFlags.REPLICA _)]
  | intros p; simpl; first [done | by destruct (TaskFlags.REPLICA _)]
  | intros t p group; simpl; unfold CreateTaskState.GetGroup, LocalSerialize_new;
      first [done | by rewrite buf_resize_0, shl_appends]
  | done
  | intros t p replica ar; eapply own_load_class;
      [reflexivity|intros Hs; first [exact E2|exact E5|exact E8|discriminate (eq_trans (eq_sym Hs) E6)]|];
      unfold RegisterTaskLib.FLAGS, GetOrCreateTaskStateId.FLAGS, CreateTaskState.FLAGS,
        GetTaskStateId.FLAGS, DestroyTaskState.FLAGS, StopRuntime.FLAGS,
        SetWorkOrchestratorPolicy.FLAGS, Schedule.FLAGS, TypedPush.FLAGS, RemotePush.FLAGS,
        Md.FLAGS, MdPush.FLAGS, Io.FLAGS, Custom.FLAGS;
      rewrite ?E1, ?E4, ?E6, ?E7; simpl; unfold read;
      try (destruct (at_index _ _); [simpl|done]);
      first [done | by destruct p
            | lazymatch goal with |- context [dec ?c ?s] => by destruct (dec c s) as [[]|] end] ].

Lemma methods_own srv m c : methods_of srv m = Some c → class_own c.
Proof.
  destruct srv; simpl; try done; unfold admin_methods, proc_queue_methods, remote_queue_methods,
    round_robin_methods, small_message_methods, task_name_methods, with_construct;
    repeat case_decide_eqb; intros E; simplify_eq; class_own.
Qed.

(** The dispatch casts what the constructors make to its own type. *)
Lemma made_class n d s srv o :
  made n d s srv o → (∀ p, body o ≠ BMdPush p) →
  ∃ c, methods_of srv (Task.method_ (base o)) = Some c ∧
    ∀ b, same_type b (body o) = true → is_Some (tc_get c b).
Proof.
  intros [] Hno; simpl; try by destruct (Hno _ eq_refl).
  all: try destruct (_ =? 0).
  all: eexists; split; [reflexivity|]; intros []; simpl; intros; try done; by eexists.
Qed.

End own_lemmas.

(** The constants of the constructors are in their ranges. *)
Ltac constant_u32 :=
  try done;
  repeat first [apply lor_u32 | apply BIT_OPT_u32; lia | apply wrap32_range |
    progress unfold TASK_LONG_RUNNING, TASK_REMOTE_DEBUG_MARK, TASK_DATA_OWNER, TASK_LOW_LATENCY,
      TASK_COROUTINE, TASK_FIRE_AND_FORGET, TASK_PREEMPTIVE, TASK_UNORDERED].

(** ** Properties *)

(** C12: the types of the tasks the constructors of the libraries make. For a node of the task
    graph, a domain and a state with members in their ranges, whatever the memory held and whatever
    the other arguments, every member of the base class is in the range it is sent with; and the
    method the constructor sets is one for which the generated dispatch of the library casts the
    task to the type it was built as, with exactly one exception: [MdPushTask], which is cast to
    [MdTask], the type of the method [kMd] its constructor sets. *)
Theorem constructors_well_typed `{BitfieldLaws} `{Logger} `{CerealOps} `{CharbufLaws} `{HvecOps}
    `{RawMemory} n d s srv o :
  TaskNode.wf n → DomainId.wf d → UniqueId.wf s → made n d s srv o →
  Task.wf (base o) ∧
  (typed (methods_of srv) o ↔ ∀ p, body o ≠ BMdPush p) ∧
  (∀ p, body o = BMdPush p → methods_of srv (Task.method_ (base o)) = Some c_Md).
Proof.
  intros Hn Hd Hs Hmade. split; [|split].
  - destruct Hmade; simpl; apply init_task_wf; constant_u32; by destruct (_ =? 0).
  - split.
    + intros (c & Hc & Hget) p Hp. destruct Hmade; try discriminate. injection Hc as <-.
      by destruct Hget.
    + intros (c & Hc & Hget)%(made_class _ _ _ _ _ Hmade). exists c. split; [done|].
      apply Hget. by destruct (body o).
  - intros p Hp. by destruct Hmade.
Qed.

(** C17: the dispatch is right. The functions of the generated files go by the method number, and
    cast. On every object of a type and with a method that a constructor of the library gives
    (other than [MdPushTask]), whatever its members have become, each of them does what the
    object's own type asks for: room for the results of the replicas in a message, nothing at
    their end, the group of the type, the deletion of the type (a push task with its subtask),
    and the end of a transfer read into the output of the type, at the replica's place; nothing
    but that object is changed, and none of its other members. *)
Theorem dispatch_sound `{BitfieldLaws} `{Logger} `{CerealOps} `{CharbufLaws} `{HvecOps}
    `{RawMemory} `{AllocOps} n d s srv o0 a (w : Node) o :
  let table := methods_of srv in
  let m := Task.method_ (base o) in
  made n d s srv o0 → (∀ p, body o0 ≠ BMdPush p) →
  m = Task.method_ (base o0) → same_type (body o) (body o0) = true →
  get_task a w = Ok o →
  (∀ count, ReplicateStart table m count a w =
     Ok (put_task a (set_body (own_ReplicateStart count (body o)) o) w)) ∧
  ReplicateEnd table m a w = Ok w ∧
  (∀ group, GetGroup table m a group w = Ok (own_GetGroup o group)) ∧
  Del table m a w = own_DelTask o a w ∧
  (∀ replica ar, LoadEnd table replica m ar a w =
     b ← own_LoadEnd replica ar (body o); Ok (put_task a (set_body b o) w)).
Proof.
  intros table m Hmade Hno Hm Hty Ho.
  destruct (made_class _ _ _ _ _ Hmade Hno) as (c & Hc & Hget). rewrite <- Hm in Hc.
  destruct (Hget _ Hty) as [p Hp]. pose proof (tc_put_get _ _ _ Hp) as Hb.
  destruct (methods_own _ _ _ Hc) as [Hstart Hend Hgroup Hdel Hload].
  assert (as_type c o = Ok (base o, p)) as Has by (unfold as_type; by rewrite Hp).
  assert (o = mkTaskObj (base o) (tc_put c p)) as Eo by (rewrite Hb; by destruct o).
  assert (∀ f, (if tc_replica c then upd_payload c f a w else Ok w) =
    Ok (put_task a (set_body (tc_put c (if tc_replica c then f p else p)) o) w)) as Hrep.
  { intros f. destruct (tc_replica c).
    - unfold upd_payload. rewrite Ho. cbn [mbind outcome_bind]. by rewrite Has.
    - rewrite Hb. unfold set_body. replace (mkTaskObj (base o) (body o)) with o by (by destruct o).
      by rewrite put_task_id. }
  unfold ReplicateStart, ReplicateEnd, GetGroup, Del, LoadEnd, table. rewrite Hc.
  split; [intros count; rewrite Hrep, <- Hb, Hstart; done|].
  split; [rewrite Hrep, Hend, Hb; unfold set_body;
    replace (mkTaskObj (base o) (body o)) with o by (by destruct o); by rewrite put_task_id|].
  rewrite Ho. cbn [mbind outcome_bind]. rewrite Has. cbn [mbind outcome_bind fst snd].
  split; [intros group; rewrite Hgroup; by rewrite <- Eo|].
  split; [rewrite (Hdel (base o) p); by rewrite <- Eo|].
  intros replica ar. specialize (Hload (base o) p replica ar). rewrite Hb in Hload.
  unfold set_body.
  destruct (v_load _ _ _) as [[s' ar']| | | |]; destruct (own_LoadEnd _ _ _); simpl in *;
    try done; congruence.
Qed.

(** ** Witnesses: a message in the heap, from whatever the memory held *)
Section witness.
Import RefInstances.
#[local] Existing Instance ref_raw.

Definition wit_message : TaskObj :=
  of_type c_Md (Md.make ref_task 7 (TaskNode.make (UniqueId.make 1 5)) DomainId.GetLocal
    (UniqueId.make 1 2)).

(** The push message of the same client *)
Definition wit_push_message : TaskObj :=
  of_type c_MdPush (MdPush.make ref_task 7 (TaskNode.make (UniqueId.make 1 5)) DomainId.GetLocal
    (UniqueId.make 1 2)).

Lemma constructors_well_typed_witness :
  typed (methods_of (SmallMessageServer 0)) wit_message ∧
  ¬ typed (methods_of (SmallMessageServer 0)) wit_push_message.
Proof.
  assert (TaskNode.wf (TaskNode.make (UniqueId.make 1 5)) ∧ DomainId.wf DomainId.GetLocal ∧
    UniqueId.wf (UniqueId.make 1 2)) as (Hn & Hd & Hs) by (split_and!; by vm_compute).
  split.
  - apply (constructors_well_typed (TaskNode.make (UniqueId.make 1 5)) DomainId.GetLocal
      (UniqueId.make 1 2) (SmallMessageServer 0) wit_message Hn Hd Hs (made_Md _ _ _ _ _ _)).
    intros p. discriminate.
  - intros Ht.
    destruct (constructors_well_typed (TaskNode.make (UniqueId.make 1 5)) DomainId.GetLocal
      (UniqueId.make 1 2) (SmallMessageServer 0) wit_push_message Hn Hd Hs (made_MdPush _ _ _ _ _ _))
      as (_ & [Hno _] & _).
    exact (Hno Ht _ eq_refl).
Defined.

Lemma dispatch_sound_witness :
  ∃ p, ReplicateStart small_message_methods SmallMessageMethod.kMd 3 42 (put_task 42 wit_message ref_node) =
      Ok (put_task 42 (set_body (BMd p) wit_message) (put_task 42 wit_message ref_node)) ∧
    length (Md.ret_ p) = 3%nat.
Proof.
  destruct (dispatch_sound (TaskNode.make (UniqueId.make 1 5)) DomainId.GetLocal (UniqueId.make 1 2)
    (SmallMessageServer 0) wit_message 42 (put_task 42 wit_message ref_node) wit_message
    (made_Md _ _ _ _ _ _) ltac:(intros p; discriminate) eq_refl eq_refl (get_put_task_eq _ _ _))
    as (Hr & _).
  eexists. split; [exact (Hr 3)|]. reflexivity.
Defined.

End witness.
