(* ===== verification/LibClients.v ===== *)
(** * Creating and destroying the states of the libraries

    Every library has a client class whose [Create] functions submit a task that creates
    a state of the library, with the queue the library asks for, and whose [DestroyRoot]
    submits one that destroys it: [tasks_required/*/include/*/*.h], with the constructors
    of [ConstructTask] and [DestructTask] in [*_tasks.h]. A blocking function is split at
    its [Wait]: the second half is the function with suffix [_finish]. *)

From S2P Require Import Prelude Hshm RefLib Types Queue LocalSerialize Config QueueManager.
From S2P Require Import Archive Task TaskTypes World LibExec Registry Exec WorkerLoop Schedulers.
From S2P Require Import ProcQueue SmallMessage Admin RemoteQueue TaskName.

(** [class TaskLibClient] ([task_lib.h]) *)
Module TaskLibClient.

Record TaskLibClient := mk { id_ : TaskStateId; queue_id_ : QueueId }.

Definition Init (id : TaskStateId) (this : TaskLibClient) : TaskLibClient :=
  mk id (UniqueId.convert id).

Definition set_id (id : TaskStateId) (this : TaskLibClient) : TaskLibClient :=
  mk id (queue_id_ this).

End TaskLibClient.
Abbreviation TaskLibClient := TaskLibClient.TaskLibClient.

(** ** What the clients have in common *)

Section common.
Context `{BitfieldOps} `{Logger} `{MpscOps} `{AllocOps} `{RawMemory} `{CerealOps} `{CharbufOps}
        `{HvecOps}.
Variable (admin : AdminClient.Client).

(** [ConstructTask(alloc, task_node, domain_id, state_name, id, queue_info)], which passes
    the name of its library to [CreateTaskStateTask] *)
Definition construct_task (lib_name : string) (memory : Task * CreateTaskState.CreateTaskStateTask)
    (task_node : TaskNode) (domain_id : DomainId) (state_name : string) (id : TaskStateId)
    (queue_info : list PriorityInfo) : Task * CreateTaskState.CreateTaskStateTask :=
  CreateTaskState.make memory task_node domain_id (AdminClient.admin_task_state_ admin)
    state_name lib_name id queue_info.

(** [DestructTask(alloc, task_node, domain_id, state_id)] *)
Definition destruct_task (memory : Task * DestroyTaskState.DestroyTaskStateTask)
    (task_node : TaskNode) (domain_id : DomainId) (state_id : TaskStateId)
    : Task * DestroyTaskState.DestroyTaskStateTask :=
  DestroyTaskState.make memory task_node domain_id (AdminClient.admin_task_state_ admin) state_id.

(** [HERMES_RUN_ADMIN->AsyncCreateTaskState<ConstructTask>(task_node, domain_id, state_name,
    id_, queue_info)] *)
Definition async_create (lib_name : string) (task_node : TaskNode) (domain_id : DomainId)
    (state_name : string) (id : TaskStateId) (queue_info : list PriorityInfo) (w : Node)
    : outcome (LPointer * Node) :=
  AdminClient.Async admin c_CreateTaskState
    (construct_task lib_name (AdminClient.memory c_CreateTaskState) task_node domain_id
       state_name id queue_info) w.

(** [AsyncCreateRoot] ([HERMES_RUN_TASK_NODE_ROOT]) and [AsyncCreateTaskStateRoot]: at a new
    root *)
Definition async_create_root (lib_name : string) (domain_id : DomainId) (state_name : string)
    (id : TaskStateId) (queue_info : list PriorityInfo) (w : Node) : outcome (LPointer * Node) :=
  let '(task_node, w) := Client.MakeTaskNodeId w in
  async_create lib_name task_node domain_id state_name id queue_info w.

(** [task->Wait(); id_ = task->id_; HERMES_RUN_CLIENT->DelTask(task)] *)
Definition create_finish (task : LPointer) (w : Node) : outcome (TaskStateId * Node) :=
  AdminClient.finish AdminClient.created_id task w.

(** [HERMES_RUN_ADMIN->DestroyTaskStateRoot(domain_id, id_)], up to and past its [Wait] *)
Definition destroy_root (domain_id : DomainId) (id : TaskStateId) (w : Node)
    : outcome (LPointer * Node) :=
  AdminClient.AsyncRoot (λ task_node,
    AdminClient.AsyncDestroyTaskState admin task_node domain_id id) w.

Definition destroy_finish (task : LPointer) (w : Node) : outcome Node :=
  snd <$> AdminClient.finish (λ _, Ok tt) task w.

End common.

(** ** The clients

    [AsyncCreate] sets [id_] before it submits the task. *)

(** [proc_queue::Client] *)
Module ProcQueueCreate.
Section client.
Context `{BitfieldOps} `{Logger} `{MpscOps} `{AllocOps} `{RawMemory} `{CerealOps} `{CharbufOps}
        `{HvecOps}.
Variable (admin : AdminClient.Client) (qm : QueueManagerInfo).
Import ProcQueueClient.

Definition ConstructTask := construct_task admin "proc_queue".
Definition DestructTask := destruct_task admin.

Definition AsyncCreate (this : Client) (task_node : TaskNode) (domain_id : DomainId)
    (state_name : string) (w : Node) : outcome (Client * LPointer * Node) :=
  let this := mk UniqueId.GetNull (queue_id_ this) in
  '(task, w) ← async_create admin "proc_queue" task_node domain_id state_name (id_ this)
                 (queue_info qm) w;
  mret (this, task, w).

Definition AsyncCreateRoot (this : Client) (domain_id : DomainId) (state_name : string) (w : Node)
    : outcome (Client * LPointer * Node) :=
  let '(task_node, w) := Client.MakeTaskNodeId w in
  AsyncCreate this task_node domain_id state_name w.

(** [CreateRoot] after [AsyncCreateRoot] *)
Definition CreateRoot_finish (task : LPointer) (w : Node) : outcome (Client * Node) :=
  '(id, w) ← create_finish task w; mret (mk id (UniqueId.convert id), w).

Definition DestroyRoot (this : Client) (domain_id : DomainId) : Node → outcome (LPointer * Node) :=
  destroy_root admin domain_id (id_ this).

End client.
End ProcQueueCreate.

(** [remote_queue::Client]: the id is given; the last group has one lane. *)
Module RemoteQueueCreate.
Section client.
Context `{BitfieldOps} `{Logger} `{MpscOps} `{AllocOps} `{RawMemory} `{CerealOps} `{CharbufOps}
        `{HvecOps}.
Variable (admin : AdminClient.Client) (qm : QueueManagerInfo).
Import TaskLibClient.

Definition ConstructTask := construct_task admin "remote_queue".
Definition DestructTask := destruct_task admin.

Definition AsyncCreate (this : TaskLibClient) (task_node : TaskNode) (domain_id : DomainId)
    (state_name : string) (state_id : TaskStateId) (w : Node)
    : outcome (TaskLibClient * LPointer * Node) :=
  let this := set_id state_id this in
  '(task, w) ← async_create admin "remote_queue" task_node domain_id state_name (id_ this)
                 (RemoteQueueClient.queue_info qm) w;
  mret (this, task, w).

Definition AsyncCreateRoot (this : TaskLibClient) (domain_id : DomainId) (state_name : string)
    (state_id : TaskStateId) (w : Node) : outcome (TaskLibClient * LPointer * Node) :=
  let '(task_node, w) := Client.MakeTaskNodeId w in
  AsyncCreate this task_node domain_id state_name state_id w.

Definition CreateRoot_finish (task : LPointer) (w : Node) : outcome (TaskLibClient * Node) :=
  '(id, w) ← create_finish task w; mret (mk id (UniqueId.convert id), w).

Definition DestroyRoot (this : TaskLibClient) (domain_id : DomainId)
    : Node → outcome (LPointer * Node) := destroy_root admin domain_id (id_ this).

End client.
End RemoteQueueCreate.

(** [TASK_NAME::Client] *)
Module TaskNameCreate.
Section client.
Context `{BitfieldOps} `{Logger} `{MpscOps} `{AllocOps} `{RawMemory} `{CerealOps} `{CharbufOps}
        `{HvecOps}.
Variable (admin : AdminClient.Client) (qm : QueueManagerInfo).
Import TaskLibClient.

(** The queue [AsyncCreate] asks for *)
Definition queue_info : list PriorityInfo :=
  [PriorityInfo.make 1 1 (QueueManagerInfo.queue_depth_ qm) 0;
   PriorityInfo.make 1 1 (QueueManagerInfo.queue_depth_ qm) QUEUE_LONG_RUNNING;
   PriorityInfo.make (QueueManagerInfo.max_lanes_ qm) (QueueManagerInfo.max_lanes_ qm)
     (QueueManagerInfo.queue_depth_ qm) QUEUE_LOW_LATENCY].

Definition ConstructTask := construct_task admin "TASK_NAME".
Definition DestructTask := destruct_task admin.

Definition AsyncCreate (this : TaskLibClient) (task_node : TaskNode) (domain_id : DomainId)
    (state_name : string) (w : Node) : outcome (TaskLibClient * LPointer * Node) :=
  let this := set_id UniqueId.GetNull this in
  '(task, w) ← async_create admin "TASK_NAME" task_node domain_id state_name (id_ this)
                 queue_info w;
  mret (this, task, w).

Definition AsyncCreateRoot (this : TaskLibClient) (domain_id : DomainId) (state_name : string)
    (w : Node) : outcome (TaskLibClient * LPointer * Node) :=
  let '(task_node, w) := Client.MakeTaskNodeId w in
  AsyncCreate this task_node domain_id state_name w.

Definition CreateRoot_finish (task : LPointer) (w : Node) : outcome (TaskLibClient * Node) :=
  '(id, w) ← create_finish task w; mret (mk id (UniqueId.convert id), w).

Definition DestroyRoot (this : TaskLibClient) (domain_id : DomainId)
    : Node → outcome (LPointer * Node) := destroy_root admin domain_id (id_ this).

End client.
End TaskNameCreate.

(** [small_message::Client]: [CreateRoot] blocks in [CreateTaskStateRoot]. *)
Module SmallMessageCreate.
Section client.
Context `{BitfieldOps} `{Logger} `{MpscOps} `{AllocOps} `{RawMemory} `{CerealOps} `{CharbufOps}
        `{HvecOps}.
Variable (admin : AdminClient.Client) (qm : QueueManagerInfo).
Import SmallMessageClient.

Definition ConstructTask := construct_task admin "small_message".
Definition DestructTask := destruct_task admin.

Definition CreateRoot (domain_id : DomainId) (state_name : string) (w : Node)
    : outcome (LPointer * Node) :=
  async_create_root admin "small_message" domain_id state_name UniqueId.GetNull (queue_info qm) w.

Definition CreateRoot_finish (task : LPointer) (w : Node) : outcome (Client * Node) :=
  '(id, w) ← create_finish task w; mret (mk id (UniqueId.convert id), w).

Definition DestroyRoot (this : Client) (domain_id : DomainId) : Node → outcome (LPointer * Node) :=
  destroy_root admin domain_id (id_ this).

End client.
End SmallMessageCreate.

(** [worch_queue_round_robin::Client] and [worch_proc_round_robin::Client]: [queue_id_] is not
    set. *)
Definition sched_queue_info `{BitfieldOps} : list PriorityInfo := [PriorityInfo.make 1 1 4 0].

Module QueueRoundRobinCreate.
Section client.
Context `{BitfieldOps} `{Logger} `{MpscOps} `{AllocOps} `{RawMemory} `{CerealOps} `{CharbufOps}
        `{HvecOps}.
Variable (admin : AdminClient.Client).
Import TaskLibClient.

Definition ConstructTask := construct_task admin "worch_queue_round_robin".
(** Here the id of the state comes before the domain. *)
Definition DestructTask (memory : Task * DestroyTaskState.DestroyTaskStateTask)
    (task_node : TaskNode) (state_id : TaskStateId) (domain_id : DomainId)
    : Task * DestroyTaskState.DestroyTaskStateTask :=
  destruct_task admin memory task_node domain_id state_id.

Definition CreateRoot (domain_id : DomainId) (state_name : string) (w : Node)
    : outcome (LPointer * Node) :=
  async_create_root admin "worch_queue_round_robin" domain_id state_name UniqueId.GetNull
    sched_queue_info w.

Definition CreateRoot_finish (this : TaskLibClient) (task : LPointer) (w : Node)
    : outcome (TaskLibClient * Node) :=
  '(id, w) ← create_finish task w; mret (set_id id this, w).

Definition DestroyRoot (this : TaskLibClient) (domain_id : DomainId)
    : Node → outcome (LPointer * Node) := destroy_root admin domain_id (id_ this).

End client.
End QueueRoundRobinCreate.

Module ProcRoundRobinCreate.
Section client.
Context `{BitfieldOps} `{Logger} `{MpscOps} `{AllocOps} `{RawMemory} `{CerealOps} `{CharbufOps}
        `{HvecOps}.
Variable (admin : AdminClient.Client).
Import TaskLibClient.

Definition ConstructTask := construct_task admin "worch_proc_round_robin".
Definition DestructTask := destruct_task admin.

Definition CreateRoot (domain_id : DomainId) (state_name : string) (w : Node)
    : outcome (LPointer * Node) :=
  async_create_root admin "worch_proc_round_robin" domain_id state_name UniqueId.GetNull
    sched_queue_info w.

Definition CreateRoot_finish (this : TaskLibClient) (task : LPointer) (w : Node)
    : outcome (TaskLibClient * Node) :=
  '(id, w) ← create_finish task w; mret (set_id id this, w).

Definition DestroyRoot (this : TaskLibClient) (domain_id : DomainId)
    : Node → outcome (LPointer * Node) := destroy_root admin domain_id (id_ this).

End client.
End ProcRoundRobinCreate.
