(* ===== verification/Libs.v ===== *)
(** * The task libraries behind the interfaces

    The virtual functions of [TaskLib], dispatched on the library a state is an instance
    of: the implementation of what the worker ([TaskExecOps]) and the registry
    ([ConstructOps]) call. Libraries outside the repository stay a parameter. The last part
    discharges the laws of the interfaces for the repository's libraries. *)

From S2P Require Import Prelude Hshm RefLib Types Queue LocalSerialize Config QueueManager.
From S2P Require Import Archive Task TaskTypes World LibExec Registry Rpc Exec WorkerLoop.
From S2P Require Import Thallium Schedulers ProcQueue SmallMessage Admin RemoteQueue TaskName.

(** [worch_queue_round_robin::Server] *)
Module QueueRoundRobin.
Section server.
Context `{BitfieldOps} `{SpscOps} `{CharbufOps} `{RawMemory}.

(** [count_ = 0; task->SetModuleComplete();] *)
Definition Construct (exec task : Z) (w : Node) : outcome Node :=
  s ← get_state exec w;
  upd_task task Task.SetModuleComplete (put_state exec (TaskLib.set_server (QueueRoundRobinServer 0) s) w).
Definition Destruct (task : Z) (w : Node) : outcome Node := upd_task task Task.SetModuleComplete w.

Definition Run (exec method task : Z) (w : Node) : outcome Node :=
  if method =? TaskMethod.kConstruct then Construct exec task w
  else if method =? TaskMethod.kDestruct then Destruct task w
  else if method =? SchedulerMethod.kSchedule then queue_Schedule exec w
  else Ok w.

End server.
End QueueRoundRobin.

(** [worch_proc_round_robin::Server]: the affinities are set outside the state. *)
Module ProcRoundRobin.
Section server.
Context `{BitfieldOps}.

Definition Construct (task : Z) (w : Node) : outcome Node := upd_task task Task.SetModuleComplete w.
Definition Destruct (task : Z) (w : Node) : outcome Node := upd_task task Task.SetModuleComplete w.

Definition Run (ncpu method task : Z) (w : Node) : outcome Node :=
  if method =? TaskMethod.kConstruct then Construct task w
  else if method =? TaskMethod.kDestruct then Destruct task w
  else if method =? SchedulerMethod.kSchedule then _ ← proc_Schedule ncpu w; Ok w
  else Ok w.

End server.
End ProcRoundRobin.

(** The virtual functions of the libraries outside the repository *)
Class OtherLibs := {
  other_exec : TaskExecOps;
  other_construct : ConstructOps;
}.

Section libs.
Context `{BitfieldOps} `{Logger} `{MpscOps} `{SpscOps} `{AllocOps} `{RawMemory} `{CerealOps}
        `{CharbufOps} `{HvecOps} `{Dlfcn} `{NetOps} `{ThalliumOps} `{OtherLibs}
        `{DaemonOps}.
Variable (rpc : RpcContext) (ncpu : Z).

(** [exec->Run(TaskMethod::kConstruct, task, ctx)]; the admin library has no such case. *)
Definition lib_construct (exec task : Z) (ctx : RunContext) (w : Node) : outcome Node :=
  st ← get_state exec w;
  let method := TaskMethod.kConstruct in
  match TaskLib.server st with
  | AdminServer _ _ => Ok w
  | ProcQueueServer => ProcQueue.Run method task w
  | RemoteQueueServer _ _ => RemoteQueue.Run rpc exec method task w
  | QueueRoundRobinServer _ => QueueRoundRobin.Run exec method task w
  | ProcRoundRobinServer => ProcRoundRobin.Run ncpu method task w
  | SmallMessageServer _ => SmallMessage.Run method task w
  | TaskNameServer => TaskName.Run method task w
  | OtherServer => @run_construct other_construct exec task ctx w
  end.

#[local] Instance lib_construct_ops : ConstructOps := {| run_construct := lib_construct |}.

(** [exec->Run(method, task, ctx)] *)
Definition lib_Run (exec method task : Z) (w : Node) : outcome Node :=
  st ← get_state exec w;
  match TaskLib.server st with
  | AdminServer _ _ => Admin.Run exec method task w
  | ProcQueueServer => ProcQueue.Run method task w
  | RemoteQueueServer _ _ => RemoteQueue.Run rpc exec method task w
  | QueueRoundRobinServer _ => QueueRoundRobin.Run exec method task w
  | ProcRoundRobinServer => ProcRoundRobin.Run ncpu method task w
  | SmallMessageServer _ => SmallMessage.Run method task w
  | TaskNameServer => TaskName.Run method task w
  | OtherServer => @exec_Run other_exec exec method task w
  end.

(** The same on a coroutine: of the repository's methods only [CreateTaskState] yields. *)
Definition lib_resume (exec method task : Z) (k : option (list Z)) (w : Node)
    : outcome (option (list Z) * Node) :=
  st ← get_state exec w;
  let run := match k with None => w ← lib_Run exec method task w; Ok (None, w) | Some _ => Undefined end in
  match TaskLib.server st with
  | AdminServer _ _ =>
      if method =? AdminMethod.kCreateTaskState then Admin.CreateTaskState k task w else run
  | OtherServer => @exec_resume other_exec exec method task k w
  | _ => run
  end.

Definition lib_Del (exec method task : Z) (w : Node) : outcome Node :=
  st ← get_state exec w;
  match TaskLib.server st with
  | OtherServer => @exec_Del other_exec exec method task w
  | d => Del (methods_of d) method task w
  end.

Definition lib_GetGroup (exec method task : Z) (group : list Z) (w : Node)
    : outcome (Z * list Z) :=
  st ← get_state exec w;
  match TaskLib.server st with
  | OtherServer => @exec_GetGroup other_exec exec method task group w
  | d => GetGroup (methods_of d) method task group w
  end.

(** [HERMES_RUN_REMOTE_QUEUE->Disperse(task, exec, ids)] *)
Definition lib_Disperse (task exec : Z) (ids : list DomainId) (w : Node) : outcome Node :=
  st ← get_state exec w;
  match TaskLib.server st with
  | OtherServer => @Disperse other_exec task exec ids w
  | _ => RemoteQueueClient.Disperse task exec ids w
  end.

Definition lib_exec : TaskExecOps := {|
  exec_Run := lib_Run;
  exec_resume := lib_resume;
  exec_Del := lib_Del;
  exec_GetGroup := lib_GetGroup;
  Disperse := lib_Disperse;
|}.

End libs.

(** ** The laws of the interfaces *)

(** The other libraries obey the laws. *)
Class OtherLibsLaws `{OtherLibs} : Prop := {
  other_exec_laws : @TaskExecLaws other_exec;
  other_construct_laws : @ConstructLaws other_construct;
}.

(** What becomes of the node while a remote procedure call waits for its answer. The thread that
    called does nothing, but every other thread of the node runs on: the workers poll their lanes,
    take tasks from them and enter groups. Nothing is assumed of it. *)
Inductive waits `{ThalliumOps} (w w' : Node) : Prop :=
  | waits_proc server func id method params ret :
      remote_proc server func id method params w = Ok (ret, w') → waits w w'
  | waits_io_proc server func io data id method params ret data' :
      remote_io_proc server func io data id method params w = Ok (ret, data', w') → waits w w'.

(** Of the repository's methods only [Push] of the remote queue makes such calls. *)
Definition calls_remote (exec method : Z) (w : Node) : bool :=
  match TaskLib.server <$> Node.states w !! exec with
  | Some (RemoteQueueServer _ _) => method =? RemoteQueueMethod.kPush
  | _ => false
  end.

(** Steps of its own and waits in turn *)
Definition exec_or_waits `{ThalliumOps} : relation Node := rtc (λ w w', exec_frame w w' ∨ waits w w').

(** [frames nd w m]: the node [nd] projects from the result of [m], run in [w], is framed. *)
Definition frames {A} (nd : A → Node) (w : Node) (m : outcome A) : Prop :=
  ∀ a, m = Ok a → exec_frame w (nd a).

(** The projection of a computation that returns the node itself *)
Definition nid : Node → Node := λ w, w.

Section rules.

Lemma frames_ok {A} (nd : A → Node) w a : exec_frame w (nd a) → frames nd w (Ok a).
Proof. intros Hf b [= <-]. done. Qed.

Lemma frames_bind {A B} (nd : A → Node) (nd' : B → Node) w m f :
  frames nd w m → (∀ a, frames nd' (nd a) (f a)) → frames nd' w (m ≫= f).
Proof.
  intros Hm Hf b Hb. apply bind_Ok in Hb as (a & Ha & Hb).
  etransitivity; [by apply Hm|by eapply Hf].
Qed.

(** A computation that does not change the node *)
Lemma frames_bind_pure {A B} (nd' : B → Node) w (m : outcome A) f :
  (∀ a, frames nd' w (f a)) → frames nd' w (m ≫= f).
Proof. intros Hf b Hb. apply bind_Ok in Hb as (a & _ & Hb). by eapply Hf. Qed.

Lemma frames_from {A} (nd : A → Node) w w1 m : exec_frame w w1 → frames nd w1 m → frames nd w m.
Proof. intros H1 Hm a Ha. etransitivity; [done|by apply Hm]. Qed.

Lemma frames_fail {A} (nd : A → Node) w (m : outcome A) : (∀ a, m ≠ Ok a) → frames nd w m.
Proof. intros Hm a Ha. by apply Hm in Ha. Qed.

Lemma frames_fatal {A} `{Logger} (nd : A → Node) w m : frames nd w m → frames nd w (HELOG_kFatal m).
Proof. unfold HELOG_kFatal. destruct fatal_exits; [by intros|done]. Qed.

End rules.

(** [frame] proves a statement about [frames] by the structure of the computation; the lemmas
    on the operations called are in the hint database. *)
Ltac frame1 :=
  lazymatch goal with
  | |- frames _ _ (let '(_, _) := ?p in _) => destruct p as [? ?] eqn:?
  | |- frames _ _ (@mbind outcome _ Node _ _ _) =>
      eapply (frames_bind nid); [|intros ?; cbn [nid]]
  | |- frames _ _ (@mbind outcome _ (_ * Node)%type _ _ _) =>
      eapply (frames_bind snd); [|intros [? ?]; cbn [snd]]
  | |- frames _ _ (@mbind outcome _ _ _ _ _) => apply frames_bind_pure; intros ?
  | |- frames _ _ (if ?b then _ else _) => destruct b
  | |- frames _ _ (match ?x with _ => _ end) => destruct x
  | |- frames _ _ (HELOG_kFatal _) => apply frames_fatal
  | |- frames _ _ (Ok _) => apply frames_ok
  | |- frames _ _ (mret _) => apply frames_ok
  | |- frames _ _ _ => first [ solve [apply frames_fail; done] | solve [eauto with frame]
                          | eapply frames_from; cycle 1; [solve [eauto with frame]|] ]
  | |- exec_frame ?w ?w => reflexivity
  | |- exec_frame _ _ => solve [eauto with frame | by apply exec_frame_same]
  end.

Ltac frame := repeat frame1.

Create HintDb frame.

Section frames.
Context `{BitfieldLaws} `{Logger} `{MpscLaws} `{SpscOps} `{AllocOps} `{RawMemory} `{CerealOps}
        `{CharbufOps} `{HvecLaws} `{Dlfcn} `{NetOps} `{ThalliumOps} `{DaemonOps}.

Lemma upd_task_frames a f w : frames nid w (upd_task a f w).
Proof. intros w' E. by eapply upd_task_frame. Qed.

Lemma upd_payload_frames c f a w : frames nid w (upd_payload c f a w).
Proof. unfold upd_payload. frame. Qed.

Hint Resolve upd_task_frames upd_payload_frames : frame.

(** Appending to a lane *)
Lemma put_lane_frame q p l lane add w w' :
  get_lane q p l w = Ok lane →
  put_lane q p l (Lane.set_data (Lane.data lane ++ add) lane) w = Ok w' → exec_frame w w'.
Proof.
  intros Hl Hp Hs. split; [by eapply slots_ok_put_lane|]. split.
  - intros q' p' l' lane' Hl'.
    destruct (decide ((q, p, l) = (q', p', l'))) as [[= <- <- <-]|Hne].
    + assert (lane' = lane) as -> by congruence. exists add.
      destruct (get_put_lane_eq _ _ _ _ (Lane.set_data (Lane.data lane ++ add) lane) _ Hl)
        as (w2 & Hw2 & Hg). by assert (w2 = w') as <- by congruence.
    + exists []. rewrite app_nil_r, set_data_same, <- Hl'.
      eapply get_put_lane_ne; [|exact Hp|done].
      unfold get_lane in Hl. invert_ok. by eapply GetLane_nonneg.
  - unfold put_lane in Hp. by invert_ok.
Qed.

Lemma Emplace_frames q prio hash p w : frames snd w (Client.Emplace q prio hash p w).
Proof.
  intros [ret w'] E. unfold Client.Emplace in E. invert_ok. destruct x0 as [r x']. invert_ok.
  rename select (get_queue _ _ = _) into Hg. rename select (MultiQueue.Emplace _ _ _ _ = _) into He.
  unfold MultiQueue.Emplace in He. apply EmplaceData_Ok in He as (g & lane & _ & _ & Hl & ->).
  apply (put_lane_frame q prio (hash `mod` LaneGroup.num_lanes_ g) lane
    (if ret then [LaneData.make p false] else [])).
  - unfold get_lane. by rewrite Hg.
  - unfold put_lane. rewrite Hg. simpl. by destruct ret; rewrite ?app_nil_r, ?set_data_same.
Qed.

Lemma NewTask_frames o w : frames snd w (Client.NewTask o w).
Proof. unfold Client.NewTask. frame. Qed.

Lemma DelTask_frames a w : frames nid w (Client.DelTask a w).
Proof. unfold Client.DelTask. frame. Qed.
Hint Resolve DelTask_frames : frame.

Lemma DelTask_TypedPush_frames a w : frames nid w (Client.DelTask_TypedPush a w).
Proof. unfold Client.DelTask_TypedPush. frame. Qed.

Hint Resolve Emplace_frames NewTask_frames DelTask_TypedPush_frames : frame.

Lemma Async_frames qid o w : frames snd w (Client.Async qid o w).
Proof. unfold Client.Async. frame. Qed.

Hint Resolve Async_frames : frame.

(** A new queue takes a slot without lanes. *)
Lemma CreateQueue_frames id info m w :
  QueueManagerRuntime.CreateQueue id info (Node.queue_map_ w) = Ok m →
  exec_frame w (Node.set_queue_map m w).
Proof.
  intros (i & q & Hi & Hq & ->)%CreateQueue_cases Hs.
  destruct (UniqueId.IsNull id) eqn:Hn; [by apply (exec_frame_same w)|].
  destruct (UniqueId.IsNull (MultiQueue.id_ q)) eqn:Hf; [|by apply (exec_frame_same w)].
  pose proof Hi as [_ Hlt]%GetQueue_Ok. split; [|split; [|done]].
  - intros j x Hj Hx. simpl in Hj. destruct (decide (j = i)) as [->|].
    + rewrite list_lookup_insert_eq in Hj by done. injection Hj as <-. simpl in Hx. congruence.
    + rewrite list_lookup_insert_ne in Hj by done. by eapply Hs.
  - intros q' p' l' lane Hl. exists []. rewrite app_nil_r, set_data_same.
    unfold get_lane, get_queue in *. simpl. destruct (decide (q' = i)) as [->|].
    + rewrite Hq in Hl. simpl in Hl. apply GetLane_Ok in Hl as (g & Hg & _).
      rewrite (Hs i q Hq Hf) in Hg. unfold at_index in Hg. by case_bool.
    + by rewrite list_lookup_insert_ne.
Qed.

Lemma set_create_id_frames id a w : frames nid w (set_create_id id a w).
Proof. unfold set_create_id. frame. Qed.

Lemma add_state_frames name id a w : frames nid w (add_state name id a w).
Proof. unfold add_state. frame. Qed.

Hint Resolve set_create_id_frames add_state_frames : frame.

Lemma RegisterTaskLib_frame name w b w' : Registry.RegisterTaskLib name w = (b, w') → exec_frame w w'.
Proof.
  unfold Registry.RegisterTaskLib. generalize (TaskRegistry.lib_dirs_ (Node.task_registry_ w)).
  induction l as [|d l IH]; simpl; [by intros [= _ <-]|]. destruct (lib_path d name); [|exact IH].
  unfold load_lib, libs_emplace, close_lib, on_registry. intros E. apply exec_frame_same;
    revert E; repeat (case_match; simpl in *); intros; by simplify_eq.
Qed.

Lemma DestroyTaskLib_frame name w : exec_frame w (Registry.DestroyTaskLib name w).
Proof.
  unfold Registry.DestroyTaskLib, close_lib, on_registry.
  apply exec_frame_same; by repeat (case_match; simpl).
Qed.

Lemma GetOrCreateTaskStateId_frame name w id w' :
  Registry.GetOrCreateTaskStateId name w = (id, w') → exec_frame w w'.
Proof.
  unfold Registry.GetOrCreateTaskStateId, CreateTaskStateId, Client.fetch_add_unique, on_registry.
  intros E. apply exec_frame_same; revert E; repeat (case_match; simpl in *); intros; by simplify_eq.
Qed.

Lemma DestroyTaskState_frames id w : frames nid w (Registry.DestroyTaskState id w).
Proof. unfold Registry.DestroyTaskState. frame. Qed.

Hint Resolve RegisterTaskLib_frame DestroyTaskLib_frame GetOrCreateTaskStateId_frame
  DestroyTaskState_frames : frame.

Context `{ConstructLaws}.

Lemma run_construct_frames exec task ctx w : frames nid w (run_construct exec task ctx w).
Proof. intros w' E. eapply exec_frame_same; [by eapply construct_queues|by eapply construct_workers]. Qed.

Hint Resolve run_construct_frames : frame.

Lemma create_state_frames d task name w : frames snd w (create_state d task name w).
Proof. unfold create_state. frame. Qed.

Hint Resolve create_state_frames : frame.

Lemma CreateTaskState_frames lib name id task w :
  frames snd w (Registry.CreateTaskState lib name id task w).
Proof. unfold Registry.CreateTaskState. frame. Qed.

Hint Resolve CreateTaskState_frames : frame.

(** *** The handlers *)

Lemma CreateTaskState_create_frames task w : frames nid w (Admin.CreateTaskState_create task w).
Proof.
  unfold Admin.CreateTaskState_create. apply frames_bind_pure. intros [t p].
  destruct (UniqueId.IsNull _); [frame|]. destruct (TaskStateExists _ w); [frame|].
  intros w' E. apply bind_Ok in E as (m & Hm%CreateQueue_frames & E).
  etransitivity; [exact Hm|]. revert E. enough (frames nid (Node.set_queue_map m w) (
    w0 ← upd_task task (Task.set_method TaskMethod.kConstruct) (Node.set_queue_map m w);
    '(ret, w1) ← Registry.CreateTaskState (CreateTaskState.lib_name_ p)
      (CreateTaskState.state_name_ p) (CreateTaskState.id_ p) task w0;
    if negb ret then upd_task task Task.SetModuleComplete w1 else Ok w1)) as Hf by apply Hf.
  frame.
Qed.

Hint Resolve CreateTaskState_create_frames : frame.

Lemma CreateTaskState_wait_frames get_id task w :
  frames snd w (Admin.CreateTaskState_wait get_id task w).
Proof. unfold Admin.CreateTaskState_wait. frame. Qed.

Hint Resolve CreateTaskState_wait_frames : frame.

Lemma Admin_CreateTaskState_frames k task w : frames snd w (Admin.CreateTaskState k task w).
Proof.
  unfold Admin.CreateTaskState, AdminClient.AsyncGetOrCreateTaskStateId, AdminClient.Async. frame.
Qed.

Hint Resolve Admin_CreateTaskState_frames : frame.

Lemma Admin_new_sched_frames set exec task st w : frames nid w (Admin.new_sched set exec task st w).
Proof. unfold Admin.new_sched. frame. Qed.

Hint Resolve Admin_new_sched_frames : frame.

Lemma stop_this_daemon_frames w : frames nid w (stop_this_daemon w).
Proof. intros w' [l ->]%stop_this_daemon_frame. by apply exec_frame_same. Qed.

Hint Resolve stop_this_daemon_frames : frame.

Lemma Admin_Run_frames exec method task w : frames nid w (Admin.Run exec method task w).
Proof.
  unfold Admin.Run, Admin.DestroyTaskState, Admin.RegisterTaskLib, Admin.DestroyTaskLib,
    Admin.GetOrCreateTaskStateId, Admin.GetTaskStateId, Admin.StopRuntime,
    Admin.SetWorkOrchQueuePolicy, Admin.SetWorkOrchProcPolicy, Admin.set_policy.
  frame.
Qed.

Lemma ProcQueue_Run_frames method task w : frames nid w (ProcQueue.Run method task w).
Proof.
  unfold ProcQueue.Run, ProcQueue.Construct, ProcQueue.Destruct, ProcQueue.Push,
    ProcQueue.Push_schedule, ProcQueue.Push_wait, ProcQueue.upd_push. frame.
Qed.

Lemma SmallMessage_Run_frames method task w : frames nid w (SmallMessage.Run method task w).
Proof.
  unfold SmallMessage.Run, SmallMessage.Construct, SmallMessage.Destruct, SmallMessage.Md,
    SmallMessage.MdPush, SmallMessage.Io, SmallMessage.set_ret, SmallMessage.set_push_ret. frame.
Qed.

(** *** The schedulers *)

Lemma put_worker_frame i x y w :
  get_worker i w = Ok x → Worker.group_map_ y = Worker.group_map_ x → exec_frame w (put_worker i y w).
Proof.
  unfold get_worker. intros Hx%deref_Ok Hg Hs. split; [exact Hs|]. split; [by apply lanes_grow_same|].
  unfold groups_of. simpl. rewrite list_fmap_insert, Hg. apply list_insert_id.
  by rewrite list_lookup_fmap, Hx.
Qed.

Lemma poll_lane_frames worker prio lid queue w : frames nid w (poll_lane worker prio lid queue w).
Proof.
  intros w' E. unfold poll_lane in E. invert_ok. by eapply put_worker_frame.
Qed.

Lemma set_scheduled_frames queue gi n w : frames nid w (set_scheduled queue gi n w).
Proof.
  intros w' E. unfold set_scheduled in E. invert_ok.
  rename select (get_queue _ _ = _) into Hq. unfold get_queue in Hq. apply deref_Ok in Hq.
  rename select (_ !! gi = _) into Hg. intros Hs. split; [|split; [|done]].
  - intros j y Hj Hn. simpl in Hj. destruct (decide (j = queue)) as [->|].
    + rewrite list_lookup_insert_eq in Hj by (by eapply lookup_lt_Some). injection Hj as <-.
      simpl in *. rewrite (Hs _ _ Hq Hn) in *. done.
    + rewrite list_lookup_insert_ne in Hj by done. by eapply Hs.
  - intros q' p' l' lane Hl. exists []. rewrite app_nil_r, set_data_same.
    unfold get_lane, get_queue in *. simpl. destruct (decide (q' = queue)) as [->|].
    + rewrite list_lookup_insert_eq by (by eapply lookup_lt_Some). rewrite Hq in Hl. simpl in *.
      apply GetLane_Ok in Hl as (g & Hgp & Hgl). apply GetLane_Ok. simpl.
      apply at_index_Some in Hgp as [Hp Hgp]. destruct (decide (Z.to_nat p' = gi)) as [<-|Hne].
      * rewrite Hgp in Hg. injection Hg as ->. exists (LaneGroup.set_num_scheduled n x0).
        split; [|exact Hgl]. rewrite at_index_lookup by lia. apply list_lookup_insert_eq.
        by eapply lookup_lt_Some.
      * exists g. split; [|done]. rewrite at_index_lookup by lia. by rewrite list_lookup_insert_ne.
    + by rewrite list_lookup_insert_ne.
Qed.

Hint Resolve poll_lane_frames set_scheduled_frames : frame.

Lemma schedule_lanes_frames low queue prio n : ∀ lid count w,
  frames snd w (schedule_lanes low queue prio lid n count w).
Proof. induction n as [|n IH]; intros; simpl; frame. Qed.

Hint Resolve schedule_lanes_frames : frame.

Lemma schedule_group_frames queue gi count w : frames snd w (schedule_group queue gi count w).
Proof. unfold schedule_group. frame. Qed.

Hint Resolve schedule_group_frames : frame.

Lemma schedule_groups_frames queue n : ∀ gi count w,
  frames snd w (schedule_groups queue gi n count w).
Proof. induction n as [|n IH]; intros; simpl; frame. Qed.

Hint Resolve schedule_groups_frames : frame.

Lemma schedule_queues_frames n : ∀ queue count w, frames snd w (schedule_queues queue n count w).
Proof. induction n as [|n IH]; intros; simpl; [frame|]. unfold schedule_queue. frame. Qed.

Hint Resolve schedule_queues_frames : frame.

Lemma QueueRoundRobin_Run_frames exec method task w :
  frames nid w (QueueRoundRobin.Run exec method task w).
Proof.
  unfold QueueRoundRobin.Run, QueueRoundRobin.Construct, QueueRoundRobin.Destruct, queue_Schedule.
  frame.
Qed.

Lemma TaskName_Run_frames method task w : frames nid w (TaskName.Run method task w).
Proof. unfold TaskName.Run, TaskName.Construct, TaskName.Destruct, TaskName.Custom. frame. Qed.

Lemma ProcRoundRobin_Run_frames ncpu method task w : frames nid w (ProcRoundRobin.Run ncpu method task w).
Proof. unfold ProcRoundRobin.Run, ProcRoundRobin.Construct, ProcRoundRobin.Destruct. frame. Qed.

(** *** The generated functions *)

Lemma LoadEnd_frames table r method ar a w : frames nid w (LoadEnd table r method ar a w).
Proof. unfold LoadEnd. frame. Qed.

Lemma ReplicateStart_frames table method n a w : frames nid w (ReplicateStart table method n a w).
Proof. unfold ReplicateStart. frame. Qed.

Lemma ReplicateEnd_frames table method a w : frames nid w (ReplicateEnd table method a w).
Proof. unfold ReplicateEnd. frame. Qed.

Hint Resolve LoadEnd_frames ReplicateStart_frames ReplicateEnd_frames : frame.

Lemma methods_Del_frames d method a w : frames nid w (Del (methods_of d) method a w).
Proof.
  unfold Del. destruct (methods_of d method) as [c|] eqn:E; [|frame].
  assert (tc_DelTask c = Client.DelTask ∨ tc_DelTask c = Client.DelTask_TypedPush) as [-> | ->];
    [|frame..].
  revert E. destruct d; unfold methods_of, proc_queue_methods, remote_queue_methods,
    round_robin_methods, small_message_methods, task_name_methods, with_construct, admin_methods;
    repeat case_decide_eqb; intros; simplify_eq; auto.
Qed.

Lemma Disperse_frames task exec ids w : frames nid w (RemoteQueueClient.Disperse task exec ids w).
Proof. unfold RemoteQueueClient.Disperse. frame. Qed.

(** *** The remote queue *)

Lemma ReplicaOutput_frames r ret task w :
  frames nid w (RemoteQueue.ClientHandlePushReplicaOutput r ret task w).
Proof. unfold RemoteQueue.ClientHandlePushReplicaOutput. frame. Qed.

Lemma ReplicaEnd_frames task w : frames nid w (RemoteQueue.ClientHandlePushReplicaEnd task w).
Proof. unfold RemoteQueue.ClientHandlePushReplicaEnd. frame. Qed.

Lemma RemoteQueue_Run_frames rpc exec method task w :
  (method =? RemoteQueueMethod.kPush) = false → frames nid w (RemoteQueue.Run rpc exec method task w).
Proof.
  intros Hm. unfold RemoteQueue.Run. rewrite Hm.
  unfold RemoteQueue.Construct, RemoteQueue.Destruct. frame.
Qed.

(** [stepping nd w m]: the node [nd] projects from the result of [m], run in [w], is reached by
    framed steps and waits. *)
Definition stepping {A} (nd : A → Node) (w : Node) (m : outcome A) : Prop :=
  ∀ a, m = Ok a → exec_or_waits w (nd a).

Lemma stepping_frames {A} (nd : A → Node) w m : frames nd w m → stepping nd w m.
Proof. intros Hm a Ha. apply rtc_once. left. by apply Hm. Qed.

Lemma stepping_waits {A} (nd : A → Node) w m :
  (∀ a, m = Ok a → waits w (nd a)) → stepping nd w m.
Proof. intros Hm a Ha. apply rtc_once. right. by apply Hm. Qed.

Lemma stepping_bind {A B} (nd : A → Node) (nd' : B → Node) w m f :
  stepping nd w m → (∀ a, stepping nd' (nd a) (f a)) → stepping nd' w (m ≫= f).
Proof.
  intros Hm Hf b (a & Ha & Hb)%bind_Ok. unfold exec_or_waits. etransitivity; [by apply Hm|by eapply Hf].
Qed.

Lemma stepping_bind_pure {A B} (nd' : B → Node) w (m : outcome A) f :
  (∀ a, stepping nd' w (f a)) → stepping nd' w (m ≫= f).
Proof. intros Hf b (a & _ & Hb)%bind_Ok. by eapply Hf. Qed.

Lemma SyncCall_waits rpc node func id method params w :
  stepping snd w (ThalliumRpc.SyncCall rpc node func id method params w).
Proof.
  unfold ThalliumRpc.SyncCall. apply stepping_bind_pure. intros name.
  apply stepping_waits. intros [ret w'] E.
  destruct (remote_proc _ _ _ _ _ _) as [[r w1]| | | |] eqn:Er; try done. injection E as -> ->.
  by eapply waits_proc.
Qed.

Lemma SyncIoCall_waits rpc node func io data id method params w :
  stepping snd w (ThalliumRpc.SyncIoCall rpc node func io data id method params w).
Proof.
  unfold ThalliumRpc.SyncIoCall. apply stepping_bind_pure. intros name.
  apply stepping_waits. intros [[ret data'] w'] E.
  destruct io; [| |done];
    (destruct (remote_io_proc _ _ _ _ _ _ _ _) as [[[r d] w1]| | | |] eqn:Er; try done;
     injection E as -> -> ->; by eapply waits_io_proc).
Qed.

Lemma small_replicas_steps rpc task ids : ∀ r w,
  stepping nid w (RemoteQueue.small_replicas rpc task r ids w).
Proof.
  induction ids as [|id ids IH]; intros; simpl; [by apply stepping_frames, frames_ok|].
  do 2 (apply stepping_bind_pure; intros ?).
  eapply stepping_bind; [apply SyncCall_waits|]. intros [ret w1]. cbn [snd].
  eapply stepping_bind; [apply stepping_frames, ReplicaOutput_frames|]. intros w2. apply IH.
Qed.

Lemma io_replicas_steps rpc task io ids : ∀ r data w,
  stepping nid w (RemoteQueue.io_replicas rpc task r io data ids w).
Proof.
  induction ids as [|id ids IH]; intros; simpl; [by apply stepping_frames, frames_ok|].
  do 2 (apply stepping_bind_pure; intros ?).
  eapply stepping_bind; [apply SyncIoCall_waits|]. intros [[ret data'] w1]. cbn [snd].
  eapply stepping_bind; [apply stepping_frames, ReplicaOutput_frames|]. intros w2. apply IH.
Qed.

Lemma RemoteQueue_Push_steps rpc task w : stepping nid w (RemoteQueue.Push rpc task w).
Proof.
  unfold RemoteQueue.Push. apply stepping_bind_pure. intros s.
  apply (stepping_bind nid); [|intros w1; apply stepping_frames, ReplicaEnd_frames].
  assert (∀ xfer, stepping nid w (RemoteQueue.ClientSmallPush rpc xfer task w)) as Hsmall.
  { intros xfer. unfold RemoteQueue.ClientSmallPush. do 2 (apply stepping_bind_pure; intros ?).
    eapply (stepping_bind nid); [apply stepping_frames, upd_payload_frames|]. intros w1.
    apply stepping_bind_pure. intros ?. apply small_replicas_steps. }
  assert (∀ xfer, stepping nid w (RemoteQueue.ClientIoPush rpc xfer task w)) as Hio.
  { intros xfer. unfold RemoteQueue.ClientIoPush. do 3 (apply stepping_bind_pure; intros ?).
    eapply (stepping_bind nid); [apply stepping_frames, upd_payload_frames|]. intros w1.
    do 2 (apply stepping_bind_pure; intros ?). apply io_replicas_steps. }
  destruct (length _) as [|[|[|n]]]; [|apply Hsmall|apply Hio|];
    by apply stepping_frames, frames_fatal, frames_ok.
Qed.

End frames.

Section laws.
Context `{BitfieldLaws} `{Logger} `{MpscLaws} `{SpscOps} `{AllocOps} `{RawMemory} `{CerealOps}
        `{CharbufOps} `{HvecLaws} `{Dlfcn} `{NetOps} `{ThalliumOps} `{OtherLibsLaws} `{DaemonOps}.
Variable (rpc : RpcContext) (ncpu : Z).

Hint Resolve upd_task_frames Admin_CreateTaskState_frames Admin_Run_frames ProcQueue_Run_frames
  SmallMessage_Run_frames QueueRoundRobin_Run_frames ProcRoundRobin_Run_frames
  TaskName_Run_frames RemoteQueue_Run_frames methods_Del_frames Disperse_frames : frame.

(** [Construct] of the repository's libraries: it completes the task, and may reset the
    state's own members. *)
Lemma lib_construct_cases exec task ctx w w' :
  lib_construct rpc ncpu exec task ctx w = Ok w' →
  @run_construct other_construct exec task ctx w = Ok w' ∨ w' = w ∨
  ∃ o st l, is_Some (Node.states w !! exec) ∧
    (w' = put_task task o (Node.set_rpcs l w) ∨ w' = put_task task o (put_state exec st w)).
Proof.
  unfold lib_construct. intros E. apply bind_Ok in E as (x & Hst & E).
  assert (is_Some (Node.states w !! exec)) as Hex by (unfold get_state in Hst; invert_ok; eauto).
  assert (∀ w1, upd_task task Task.SetModuleComplete w1 = Ok w' → ∃ o, w' = put_task task o w1) as Hupd.
  { unfold upd_task. intros. invert_ok. eauto. }
  destruct (TaskLib.server x); [right; left; by injection E as <-|..|by left];
    right; right.
  3: change (QueueRoundRobin.Construct exec task w = Ok w') in E;
     unfold QueueRoundRobin.Construct in E; rewrite Hst in E; cbn [mbind outcome_bind] in E;
     apply Hupd in E as [o ->]; eexists o, _, []; split; [done|right; reflexivity].
  2: change (RemoteQueue.Construct exec task w = Ok w') in E; apply Hupd in E as [o ->];
     exists o, x; eexists; split; [done|left; reflexivity].
  all: change (upd_task task Task.SetModuleComplete w = Ok w') in E; apply Hupd in E as [o ->];
    exists o, x, (Node.rpcs_ w); split; [done|left; by destruct w].
Qed.

Lemma lib_construct_total exec task ctx w :
  is_Some (Node.heap w !! task) → is_Some (Node.states w !! exec) →
  ∃ w', lib_construct rpc ncpu exec task ctx w = Ok w'.
Proof.
  intros [o Ho] [st Hst]. unfold lib_construct. unfold get_state at 1. rewrite Hst.
  cbn [deref mbind outcome_bind].
  assert (∀ w1, Node.heap w1 = Node.heap w → ∃ w', upd_task task Task.SetModuleComplete w1 = Ok w') as Hupd.
  { intros w1 E. unfold upd_task, get_task. rewrite E, Ho. by eexists. }
  destruct (TaskLib.server st); [by eexists|try by apply (Hupd w)..|].
  - by apply Hupd.
  - change (∃ w', QueueRoundRobin.Construct exec task w = Ok w').
    unfold QueueRoundRobin.Construct, get_state. rewrite Hst. cbn [deref mbind outcome_bind].
    by apply Hupd.
  - pose proof other_construct_laws. apply construct_total; by eexists.
Qed.

Lemma lib_construct_laws : @ConstructLaws (lib_construct_ops rpc ncpu).
Proof.
  pose proof other_construct_laws as Hl. split; simpl.
  - intros exec task ctx w w' [E|[->|(o & st & l & _ & [->| ->])]]%lib_construct_cases; try done.
    by apply construct_registry in E.
  - intros exec task ctx w w' a [E|[->|(o & st & l & _ & [->| ->])]]%lib_construct_cases Ha; try done.
    + by apply (construct_states _ _ _ _ _ _ E).
    + simpl. by rewrite lookup_insert_ne.
  - intros exec task ctx w w' [E|[->|(o & st & l & _ & [->| ->])]]%lib_construct_cases; try done.
    by apply construct_queues in E.
  - intros exec task ctx w w' [E|[->|(o & st & l & _ & [->| ->])]]%lib_construct_cases; try done.
    by apply construct_workers in E.
  - intros exec task ctx w w' [E|[->|(o & st & l & _ & [->| ->])]]%lib_construct_cases; try done.
    by apply construct_header in E.
  - apply lib_construct_total.
  - intros exec task ctx w w' [E|[->|(o & st & l & _ & [->| ->])]]%lib_construct_cases Hex; try done.
    + by apply (construct_self _ _ _ _ _ E).
    + simpl. rewrite lookup_insert_eq. by eexists.
Qed.

Hint Resolve lib_construct_laws : frame.

Lemma lib_Run_frames exec method task w :
  calls_remote exec method w = false → frames nid w (lib_Run rpc ncpu exec method task w).
Proof.
  intros Hr. unfold lib_Run, get_state. unfold calls_remote in Hr.
  destruct (Node.states w !! exec) as [st|]; [|by apply frames_fail]. simpl in Hr.
  cbn [deref mbind outcome_bind]. destruct (TaskLib.server st); eauto with frame.
  intros w' E. exact (@exec_Run_frame _ other_exec_laws _ _ _ _ _ E).
Qed.

Lemma lib_Run_steps exec method task w :
  calls_remote exec method w = true → stepping nid w (lib_Run rpc ncpu exec method task w).
Proof.
  unfold calls_remote, lib_Run, get_state. destruct (Node.states w !! exec) as [st|]; [|done].
  simpl. destruct (TaskLib.server st); try done. intros ->%Z.eqb_eq. apply RemoteQueue_Push_steps.
Qed.

Lemma lib_resume_frames exec method task k w :
  calls_remote exec method w = false → frames snd w (lib_resume rpc ncpu exec method task k w).
Proof.
  intros Hr. assert (frames snd w (match k with
    | None => w ← lib_Run rpc ncpu exec method task w; Ok (None : option (list Z), w)
    | Some _ => Undefined end)) as Hrun.
  { destruct k; [by apply frames_fail|]. eapply frames_bind; [by apply lib_Run_frames|].
    intros a. by apply frames_ok. }
  unfold lib_resume. apply frames_bind_pure. intros st.
  destruct (TaskLib.server st); [destruct (method =? _); [eauto with frame|exact Hrun]|exact Hrun..|].
  intros [k' w'] E. exact (@exec_resume_frame _ other_exec_laws _ _ _ _ _ _ _ E).
Qed.

Lemma lib_resume_steps exec method task k w :
  calls_remote exec method w = true → stepping snd w (lib_resume rpc ncpu exec method task k w).
Proof.
  intros Hr [k' w'] E. unfold lib_resume, get_state in E. pose proof Hr as Hr'.
  unfold calls_remote in Hr'. destruct (Node.states w !! exec) as [st|]; [|done]. simpl in E, Hr'.
  destruct (TaskLib.server st); try done. destruct k; [done|].
  apply bind_Ok in E as (w1 & Hrun & [= _ <-]). by apply (lib_Run_steps exec method task).
Qed.

Lemma lib_Del_frames exec method task w : frames nid w (lib_Del exec method task w).
Proof.
  unfold lib_Del. apply frames_bind_pure. intros st.
  destruct (TaskLib.server st) eqn:E; eauto with frame.
  intros w' Hd. exact (@exec_Del_frame _ other_exec_laws _ _ _ _ _ Hd).
Qed.

Lemma lib_Disperse_frames task exec ids w : frames nid w (lib_Disperse task exec ids w).
Proof.
  unfold lib_Disperse. apply frames_bind_pure. intros st.
  destruct (TaskLib.server st); eauto with frame.
  intros w' Hd. exact (@Disperse_frame _ other_exec_laws _ _ _ _ _ Hd).
Qed.

(** When the waits are framed too, so is all of it. *)
Lemma exec_or_waits_frame w w' :
  (∀ a b, waits a b → exec_frame a b) → exec_or_waits w w' → exec_frame w w'.
Proof.
  intros Hw. induction 1 as [|a b c [Hab|Hab] _ IH]; [done|by etransitivity|].
  etransitivity; [by apply Hw|done].
Qed.

End laws.

(** ** Properties *)

(** C7: what running the repository's libraries does to the lanes. Whatever method of whatever
    state is run or resumed on its coroutine, deleted or dispersed, its own steps keep the tasks of
    every lane, which only grow, leave slots without a queue without lanes, and do not touch the
    workers' task groups. Running [Push] of the remote queue is a sequence of such steps and of
    waits for remote procedures, of which nothing is assumed, since the other threads of the node
    run meanwhile; every other operation makes none. So where nothing but such steps happens during
    the waits, the libraries implement the interface the worker is verified against
    ([TaskExecLaws]). The libraries outside the repository are assumed to obey it. *)
Theorem libraries_implement_exec `{BitfieldLaws} `{Logger} `{MpscLaws} `{SpscOps} `{AllocOps}
    `{RawMemory} `{CerealOps} `{CharbufOps} `{HvecLaws} `{Dlfcn} `{NetOps} `{ThalliumOps}
    `{OtherLibsLaws} `{DaemonOps} (rpc : RpcContext) (ncpu : Z) :
  (∀ exec method task w w', lib_Run rpc ncpu exec method task w = Ok w' →
     if calls_remote exec method w then exec_or_waits w w' else exec_frame w w') ∧
  (∀ exec method task k w k' w', lib_resume rpc ncpu exec method task k w = Ok (k', w') →
     if calls_remote exec method w then exec_or_waits w w' else exec_frame w w') ∧
  (∀ exec method task w w', lib_Del exec method task w = Ok w' → exec_frame w w') ∧
  (∀ task exec ids w w', lib_Disperse task exec ids w = Ok w' → exec_frame w w') ∧
  ((∀ w w', waits w w' → exec_frame w w') → @TaskExecLaws (lib_exec rpc ncpu)).
Proof.
  assert (∀ exec method task w w', lib_Run rpc ncpu exec method task w = Ok w' →
     if calls_remote exec method w then exec_or_waits w w' else exec_frame w w') as Hrun.
  { intros exec method task w w'. destruct (calls_remote exec method w) eqn:Hr;
      [by apply lib_Run_steps|by apply lib_Run_frames]. }
  assert (∀ exec method task k w k' w', lib_resume rpc ncpu exec method task k w = Ok (k', w') →
     if calls_remote exec method w then exec_or_waits w w' else exec_frame w w') as Hres.
  { intros exec method task k w k' w' E. destruct (calls_remote exec method w) eqn:Hr;
      [by apply (lib_resume_steps rpc ncpu _ _ _ _ _ Hr _ E)|by apply (lib_resume_frames rpc ncpu _ _ _ _ _ Hr _ E)]. }
  split; [exact Hrun|]. split; [exact Hres|].
  split; [intros exec method task w w'; apply lib_Del_frames|].
  split; [intros task exec ids w w'; apply lib_Disperse_frames|]. intros Hw. split; simpl.
  - intros exec method task w w' E%Hrun. destruct (calls_remote _ _ _); [by apply exec_or_waits_frame|done].
  - intros exec method task k w k' w' E%Hres.
    destruct (calls_remote _ _ _); [by apply exec_or_waits_frame|done].
  - intros exec method task w w'. apply lib_Del_frames.
  - intros task exec ids w w'. apply lib_Disperse_frames.
Qed.

(** C36: the libraries of the repository implement what the registry assumes of the
    construction of a state ([ConstructLaws]): it succeeds, and touches neither the registry
    nor the queues nor the workers nor any other state. *)
Theorem libraries_implement_construct `{BitfieldLaws} `{Logger} `{MpscLaws} `{SpscOps} `{AllocOps}
    `{RawMemory} `{CerealOps} `{CharbufOps} `{HvecLaws} `{Dlfcn} `{NetOps} `{ThalliumOps}
    `{OtherLibsLaws} `{DaemonOps} (rpc : RpcContext) (ncpu : Z) :
  @ConstructLaws (lib_construct_ops rpc ncpu).
Proof. apply lib_construct_laws. Qed.

(** ** Witnesses *)
Section witness.
Import RefInstances.
#[local] Existing Instance ref_raw.
#[local] Existing Instance ref_net.
#[local] Existing Instance ref_dlfcn.

#[local] Instance ref_others : OtherLibs := {| other_exec := ref_exec; other_construct := ref_construct |}.

#[local] Instance ref_daemon : DaemonOps := {|
  stop_this_daemon := Ok;
  stop_this_daemon_frame w w' E := ltac:(injection E as <-; exists (Node.signals_ w); by destruct w);
|}.

#[local] Instance ref_others_laws : OtherLibsLaws.
Proof. split; [exact ref_exec_laws|exact ref_construct_laws]. Qed.

(** Calls during which a worker empties every lane *)
Definition drained (w : Node) : Node := Node.set_queue_map [] w.

#[local] Instance wit_draining : ThalliumOps := {|
  remote_proc _ _ _ _ _ w := Ok ([], drained w);
  remote_io_proc _ _ _ data _ _ _ w := Ok ([], data, drained w);
|}.

(** A node whose state 9 is an admin, running the request for the id of a state *)
Definition wit_lanes : Node :=
  Node.set_queue_map [free_queue; free_queue; wit_polled_queue] ref_node.

Lemma libraries_implement_exec_witness :
  (∀ exec method task w w', lib_Run wit_rpc_context 4 exec method task w = Ok w' →
     if calls_remote exec method w then exec_or_waits w w' else exec_frame w w') ∧
  waits wit_lanes (drained wit_lanes) ∧ ¬ exec_frame wit_lanes (drained wit_lanes).
Proof.
  destruct (libraries_implement_exec wit_rpc_context 4) as [Hrun _]. split; [exact Hrun|].
  split; [by eapply (waits_proc _ _ "" "" UniqueId.GetNull 0 [])|].
  intros Hf. destruct Hf as (_ & Hl & _).
  - intros i q Hi Hn. destruct i as [|[|[|i]]]; simpl in Hi; simplify_eq; done.
  - destruct (Hl 2%nat 0 0 wit_lane eq_refl) as (add & Hbad). discriminate Hbad.
Defined.

Lemma libraries_implement_construct_witness : @ConstructLaws (lib_construct_ops wit_rpc_context 4).
Proof. exact (libraries_implement_construct wit_rpc_context 4). Defined.

End witness.
