(* ===== verification/Runtime.v ===== *)
(** * Starting and stopping a runtime ([hermes_run_runtime.h], [hermes_run_client.h], [manager.h])

    The runtime of a node is initialised component by component, creates the states every
    node has, and asks its own workers, by tasks, to install the schedulers and the remote
    queue. A wait for such a task ends a function: [ServerInit] is four functions. *)

From S2P Require Import Prelude Hshm RefLib Types Queue LocalSerialize Yaml Config QueueManager.
From S2P Require Import Archive Task TaskTypes World LibExec Registry Rpc Exec WorkerLoop.
From S2P Require Import Schedulers ProcQueue SmallMessage Admin RemoteQueue TaskName LibClients.
From S2P Require Import Thallium.

(** The process: its environment, the size of a shared-memory segment by default, and what
    uninitialised memory holds in the members of the runtime and of the shared header. *)
Class ProcessOps := {
  getenv : string → option string;
  GetDefaultBackendSize : Z;
  raw_manager : QueueManagerRuntime;
  raw_queue : nat → MultiQueue;
  raw_rpc : RpcContext;
}.

(** [Constants::GetEnvSafe] *)
Definition GetEnvSafe `{ProcessOps} (env_name : string) : string := default ""%string (getenv env_name).

Definition kServerConfEnv : string := "HERMES_RUN_SERVER_CONF".
Definition kClientConfEnv : string := "HERMES_RUN_CLIENT_CONF".

(** [class ConfigurationManager]: the flags and the two configurations *)
Record ConfigurationManager := mkConfigurationManager {
  mode_ : option HermesRunMode;
  client_config_ : ClientConfig;
  server_config_ : ServerConfig;
  is_being_initialized_ : bool;
  is_initialized_ : bool;
  is_terminated_ : bool;
  is_transparent_ : bool;
}.

Definition set_server_config (c : ServerConfig) (m : ConfigurationManager) : ConfigurationManager :=
  mkConfigurationManager (mode_ m) (client_config_ m) c (is_being_initialized_ m)
    (is_initialized_ m) (is_terminated_ m) (is_transparent_ m).
Definition set_client_config (c : ClientConfig) (m : ConfigurationManager) : ConfigurationManager :=
  mkConfigurationManager (mode_ m) c (server_config_ m) (is_being_initialized_ m)
    (is_initialized_ m) (is_terminated_ m) (is_transparent_ m).

(** [mode_ = mode; is_being_initialized_ = true] and
    [is_initialized_ = true; is_being_initialized_ = false] *)
Definition begin_init (mode : HermesRunMode) (m : ConfigurationManager) : ConfigurationManager :=
  mkConfigurationManager (Some mode) (client_config_ m) (server_config_ m) true
    (is_initialized_ m) (is_terminated_ m) (is_transparent_ m).
Definition end_init (m : ConfigurationManager) : ConfigurationManager :=
  mkConfigurationManager (mode_ m) (client_config_ m) (server_config_ m) false
    true (is_terminated_ m) (is_transparent_ m).

(** [ConfigurationManager()] *)
Definition new_manager (client : ClientConfig) (server : ServerConfig) : ConfigurationManager :=
  mkConfigurationManager None client server false false false false.

Definition IsBeingInitialized (m : ConfigurationManager) : bool := is_being_initialized_ m.
Definition IsInitialized (m : ConfigurationManager) : bool := is_initialized_ m.
Definition IsTerminated (m : ConfigurationManager) : bool := is_terminated_ m.

(** [GetNumNodes], an [int] *)
Definition GetNumNodes (m : ConfigurationManager) : Z :=
  to_i32 (Z.of_nat (length (RpcInfo.host_names_ (ServerConfig.rpc_ (server_config_ m))))).

Section config.
Context `{ProcessOps} `{YamlOps} `{ConfigParse} `{Logger}.
(** The texts of the two default configurations; [Config] has those of the repository. *)
Variable (server_default client_default : string).

Definition LoadServerConfig (config_path : string) (m : ConfigurationManager)
    : outcome ConfigurationManager :=
  let config_path := if String.eqb config_path "" then GetEnvSafe kServerConfEnv else config_path in
  c ← BaseConfig.LoadFromFile ServerConfig.ParseYAML server_default config_path
        true (server_config_ m);
  Ok (set_server_config c m).

Definition LoadClientConfig (config_path : string) (m : ConfigurationManager)
    : outcome ConfigurationManager :=
  let config_path := if String.eqb config_path "" then GetEnvSafe kClientConfEnv else config_path in
  c ← BaseConfig.LoadFromFile ClientConfig.ParseYAML client_default config_path
        true (client_config_ m);
  Ok (set_client_config c m).

(** [InitSharedMemory]: the size of the segment is chosen when it is not configured. Creating
    the segment is outside the state. *)
Definition InitSharedMemory (m : ConfigurationManager) : ConfigurationManager :=
  let c := server_config_ m in
  if QueueManagerInfo.shm_size_ (ServerConfig.queue_manager_ c) =? 0 then
    set_server_config (ServerConfig.on_queue_manager (λ q,
      QueueManagerInfo.mk (QueueManagerInfo.queue_depth_ q) (QueueManagerInfo.max_lanes_ q)
        (QueueManagerInfo.max_queues_ q) (QueueManagerInfo.shm_allocator_ q)
        (QueueManagerInfo.shm_name_ q) GetDefaultBackendSize) c) m
  else m.

End config.

(** ** [class Client]: the part of a process that is not in shared memory *)
Record ClientProcess := mkClientProcess {
  cl_manager : ConfigurationManager;
  cl_node_id_ : Z;
  cl_queue_manager_ : QueueManager;
}.

(** ** [class Runtime]

    [node] is the state of the node; [num_nodes_] is in the shared header with it, and
    [client] is the process' singleton [HERMES_RUN_CLIENT]. *)
Record Runtime := mkRuntime {
  manager : ConfigurationManager;
  queue_manager_ : QueueManagerRuntime;
  rpc_ : RpcContext;
  thallium_ : option ThalliumState;
  num_nodes_ : Z;
  remote_created_ : bool;
  client : ClientProcess;
  node : Node;
}.

Definition on_manager (f : ConfigurationManager → ConfigurationManager) (r : Runtime) : Runtime :=
  mkRuntime (f (manager r)) (queue_manager_ r) (rpc_ r) (thallium_ r) (num_nodes_ r)
    (remote_created_ r) (client r) (node r).
Definition set_node (w : Node) (r : Runtime) : Runtime :=
  mkRuntime (manager r) (queue_manager_ r) (rpc_ r) (thallium_ r) (num_nodes_ r)
    (remote_created_ r) (client r) w.
Definition set_remote_created (b : bool) (r : Runtime) : Runtime :=
  mkRuntime (manager r) (queue_manager_ r) (rpc_ r) (thallium_ r) (num_nodes_ r) b
    (client r) (node r).

(** The singletons as their constructors leave them, and the state of a node with nothing in
    it: no host, queue, state, worker or loaded library. *)
Definition empty_node `{RawMemory} : Node :=
  Node.mkNode ∅ [] ∅ (TaskRegistry.mkTaskRegistry raw_int [] ∅ ∅ ∅) raw_int raw_int [] [] false
    false ∅ [] [] (raw_id, raw_id) [] [] raw_int.

Definition new_rpc `{ProcessOps} : RpcContext :=
  let m := raw_rpc in
  RpcContext.mk (RpcContext.rpc_config_ m) (RpcContext.port_ m) "" "" (RpcContext.node_id_ m)
    (RpcContext.num_threads_ m) [].

Definition new_client (client_config : ClientConfig) (server_config : ServerConfig)
    (qm : QueueManager) (node_id : Z) : ClientProcess :=
  mkClientProcess (new_manager client_config server_config) node_id qm.

Definition new_runtime `{RawMemory} `{ProcessOps} (client_config : ClientConfig)
    (server_config : ServerConfig) (qm : QueueManager) : Runtime :=
  mkRuntime (new_manager client_config server_config) raw_manager new_rpc None raw_int false
    (new_client client_config server_config qm raw_int) empty_node.

Section runtime.
Context `{BitfieldOps} `{Logger} `{MpscOps} `{SpscOps} `{AllocOps} `{RawMemory} `{CerealOps}
        `{CharbufOps} `{HvecOps} `{TicketOps} `{Dlfcn} `{ConstructOps} `{NetOps} `{TlEngineOps}
        `{ProcessOps} `{YamlOps} `{ConfigParse} `{AbtOps}.
Variable (server_default client_default : string).

(** *** The client *)

(** [LoadSharedMemory]: the client finds the id of the node in the header. *)
Definition LoadSharedMemory (header_node_id : Z) (c : ClientProcess) : ClientProcess :=
  mkClientProcess (cl_manager c) header_node_id (cl_queue_manager_ c).

Definition Client_ClientInit (server_config_path client_config_path : string) (header_node_id : Z)
    (c : ClientProcess) : outcome ClientProcess :=
  m ← LoadServerConfig server_default server_config_path (cl_manager c);
  m ← LoadClientConfig client_default client_config_path m;
  let c := LoadSharedMemory header_node_id
             (mkClientProcess m (cl_node_id_ c) (cl_queue_manager_ c)) in
  Ok (mkClientProcess (cl_manager c) (cl_node_id_ c) (fst (QueueManager.ClientInit [] header_node_id))).

(** [Client::Create]: only the first call does something. *)
Definition Client_Create (server_config_path client_config_path : string) (header_node_id : Z)
    (c : ClientProcess) : outcome ClientProcess :=
  if is_initialized_ (cl_manager c) then Ok c
  else
    let c := mkClientProcess (begin_init kClient (cl_manager c)) (cl_node_id_ c) (cl_queue_manager_ c) in
    c ← Client_ClientInit server_config_path client_config_path header_node_id c;
    Ok (mkClientProcess (end_init (cl_manager c)) (cl_node_id_ c) (cl_queue_manager_ c)).

(** [TRANSPARENT_HERMES_RUN] *)
Definition TRANSPARENT_HERMES_RUN (header_node_id : Z) (c : ClientProcess)
    : outcome (bool * ClientProcess) :=
  let m := cl_manager c in
  if negb (IsInitialized m) && negb (IsBeingInitialized m) && negb (IsTerminated m) then
    c ← Client_Create "" "" header_node_id c;
    let m := cl_manager c in
    Ok (true, mkClientProcess (mkConfigurationManager (mode_ m) (client_config_ m)
                (server_config_ m) (is_being_initialized_ m) (is_initialized_ m)
                (is_terminated_ m) true) (cl_node_id_ c) (cl_queue_manager_ c))
  else Ok (false, c).

(** *** [Runtime::ServerInit] *)

(** The first lines, up to the comment "Create the admin library". The pointer the ids of
    the queues live in is fresh memory; the workers start on lanes that are empty. *)
Definition ServerInit_components (server_config_path : string) (r : Runtime) : outcome Runtime :=
  m ← LoadServerConfig server_default server_config_path (manager r);
  let m := InitSharedMemory m in
  let config := server_config_ m in
  rpc ← RpcContext.ServerInit config (rpc_ r);
  thallium ← ThalliumServerInit rpc;
  let node_id := RpcContext.node_id_ rpc in
  let num_nodes := Z.of_nat (length (RpcInfo.host_names_ (ServerConfig.rpc_ config))) in
  let w := node r in
  let w := Node.mkNode (Node.heap w) (Node.queue_map_ w) (Node.states w) (Node.task_registry_ w)
             node_id 0 (RpcContext.hosts_ rpc) (Node.workers_ w) (Node.stop_runtime_ w)
             (Node.kill_requested_ w) (Node.threads w) (Node.dl_open w) (Node.stacks w)
             (Node.remote_queue_ w) (Node.rpcs_ w) (Node.signals_ w) (Node.xstream_ w) in
  let w := Registry.ServerInit config node_id (getenv "HERMES_RUN_TASK_PATH")
             (getenv "LD_LIBRARY_PATH") w in
  '(qm, shm) ← QueueManagerRuntime.ServerInit (queue_manager_ r) raw_queue node_id config;
  let w := Node.set_queue_map (shm_queue_map_ shm) w in
  c ← Client_Create server_config_path "" node_id (client r);
  w ← WorkOrchestrator_ServerInit config (QueueManagerRuntime.base_ qm) w;
  Ok (mkRuntime m qm rpc (Some thallium) num_nodes (remote_created_ r) c w).

(** [make_mptr<CreateTaskStateTask>()]; [RegisterTaskLib]; [CreateTaskState]: their results
    are not looked at. *)
Definition boot_state (lib_name : string) (id : TaskStateId) (w : Node) : outcome Node :=
  '(admin_task, w) ← Client.NewTask
     (mkTaskObj (Task.new raw_task) (BCreateTaskState (CreateTaskState.mk "" "" [] raw_id))) w;
  let '(_, w) := RegisterTaskLib lib_name w in
  '(_, w) ← CreateTaskState lib_name lib_name id (ptr_ admin_task) w;
  Ok w.

(** The states every node has, and the ids of the two schedulers *)
Definition ServerInit_states (qm : QueueManager) (w : Node)
    : outcome (TaskStateId * TaskStateId * Node) :=
  let '(_, w) := Client.MakeTaskStateId w in
  w ← boot_state "hermes_run_admin" (QueueManager.admin_task_state_ qm) w;
  let '(_, w) := Client.MakeTaskStateId w in
  w ← boot_state "proc_queue" (UniqueId.convert (QueueManager.process_queue_ qm)) w;
  let '(queue_sched_id, w) := Client.MakeTaskStateId w in
  w ← boot_state "worch_queue_round_robin" queue_sched_id w;
  let '(proc_sched_id, w) := Client.MakeTaskStateId w in
  w ← boot_state "worch_proc_round_robin" proc_sched_id w;
  Ok (queue_sched_id, proc_sched_id, w).

(** [HERMES_RUN_ADMIN->SetWorkOrchQueuePolicyRoot(DomainId::GetLocal(), id)], to its wait *)
Definition set_queue_policy (policy : TaskStateId) (w : Node) : outcome (LPointer * Node) :=
  AdminClient.AsyncRoot (λ task_node, AdminClient.AsyncSetWorkOrchQueuePolicy (Admin.client w)
    task_node DomainId.GetLocal policy) w.
Definition set_proc_policy (policy : TaskStateId) (w : Node) : outcome (LPointer * Node) :=
  AdminClient.AsyncRoot (λ task_node, AdminClient.AsyncSetWorkOrchProcPolicy (Admin.client w)
    task_node DomainId.GetLocal policy) w.

(** [ServerInit] from its start to the first wait: the task waited for, and the id of the
    second scheduler, which is used after it *)
Definition ServerInit (server_config_path : string) (r : Runtime)
    : outcome (LPointer * TaskStateId * Runtime) :=
  r ← ServerInit_components server_config_path r;
  '(queue_sched_id, proc_sched_id, w) ←
    ServerInit_states (cl_queue_manager_ (client r)) (node r);
  '(task, w) ← set_queue_policy queue_sched_id w;
  Ok (task, proc_sched_id, set_node w r).

(** The first wait returned. *)
Definition ServerInit_queue_sched (task : LPointer) (proc_sched_id : TaskStateId) (r : Runtime)
    : outcome (LPointer * Runtime) :=
  '(_, w) ← AdminClient.finish (λ _, Ok tt) task (node r);
  '(task, w) ← set_proc_policy proc_sched_id w;
  Ok (task, set_node w r).

(** The second wait returned: [remote_queue_.CreateRoot] to its wait. The ids of the client
    [remote_queue_] are in the node. *)
Definition ServerInit_proc_sched (task : LPointer) (r : Runtime) : outcome (LPointer * Runtime) :=
  '(_, w) ← AdminClient.finish (λ _, Ok tt) task (node r);
  let '(_, w) := RegisterTaskLib "remote_queue" w in
  let '(id, w) := Client.MakeTaskStateId w in
  let '(this_id, this_queue) := Node.remote_queue_ w in
  '(this, task, w) ← RemoteQueueCreate.AsyncCreateRoot (Admin.client w)
     (ServerConfig.queue_manager_ (server_config_ (cl_manager (client r))))
     (TaskLibClient.mk this_id this_queue) DomainId.GetLocal "remote_queue" id w;
  Ok (task, set_node (Node.set_remote_queue (TaskLibClient.id_ this, TaskLibClient.queue_id_ this) w) r).

(** The third wait returned: the last lines of [CreateRoot] and of [ServerInit] *)
Definition ServerInit_remote_queue (task : LPointer) (r : Runtime) : outcome Runtime :=
  '(this, w) ← RemoteQueueCreate.CreateRoot_finish task (node r);
  Ok (set_remote_created true
        (set_node (Node.set_remote_queue (TaskLibClient.id_ this, TaskLibClient.queue_id_ this) w) r)).

(** [Runtime::Create] around [ServerInit]: nothing when the runtime is initialised already *)
Definition Create (server_config_path : string) (r : Runtime)
    : outcome (option (LPointer * TaskStateId) * Runtime) :=
  if is_initialized_ (manager r) then Ok (None, r)
  else
    '(task, id, r) ← ServerInit server_config_path (on_manager (begin_init kServer) r);
    Ok (Some (task, id), r).

Definition Create_finish (task : LPointer) (r : Runtime) : outcome Runtime :=
  r ← ServerInit_remote_queue task r; Ok (on_manager end_init r).

End runtime.

(** *** Running and stopping *)

Section stopping.
Context `{BitfieldOps} `{MpscOps} `{SpscOps} `{CharbufOps} `{AllocOps} `{Logger}
        `{TaskExecOps} `{RawMemory} `{AbtOps} `{TlEngineOps}.
(** The thread of a worker makes passes all the time, and other threads change the state before
    each of them: [env wi] is what they do while the thread of the worker [wi] is waited for,
    which ends within [fuel] passes ([WorkerLoop.Loop]). *)
Variable (hshm_error : string → bool) (env : nat → nat → Node → Node) (fuel : nat).

(** [worker.thread_->join()]: the thread goes on with its [Worker::Loop] until that returns. *)
Definition thread_join (wi : nat) (w : Node) : outcome Node := Loop hshm_error (env wi) wi fuel w.

(** The loop of [Join] over the workers from [wi] on: the one execution stream is joined and
    freed after each thread, its handle being null from the second time on. *)
Fixpoint join_workers (wi n : nat) (w : Node) : outcome Node :=
  match n with
  | O => Ok w
  | S n =>
      w ← thread_join wi w;
      w ← abt_xstream_join (Node.xstream_ w) w;
      join_workers (S wi) n (Node.set_xstream (abt_xstream_free (Node.xstream_ w)) w)
  end.

(** [WorkOrchestrator::Join]: the workers are told to end, then waited for. *)
Definition Join (w : Node) : outcome Node :=
  let w := Node.set_kill_requested true w in
  join_workers 0 (length (Node.workers_ w)) w.

(** [RunDaemon]: the RPC server runs until it is stopped, then the workers are ended. *)
Definition RunDaemon (r : Runtime) : outcome Runtime :=
  match thallium_ r with
  | None => Undefined
  | Some thallium =>
      w ← RunDaemon thallium (node r);
      w ← Join w;
      Ok (set_node w r)
  end.

(** The last passes: each worker makes one more pass, which leaves the flag up; the threads of
    tasks have ended with the first, after which the stream is gone. *)
Fixpoint last_passes (wi n : nat) (w w' : Node) : Prop :=
  match n with
  | O => w' = w
  | S n => ∃ x, Run wi (env wi fuel w) = Ok x ∧ Node.kill_requested_ x = true ∧
      (Node.xstream_ x = 0 ∨ Node.threads x = ∅) ∧
      last_passes (S wi) n (Node.set_xstream 0 x) w'
  end.

(** Joining makes those passes and no other, when the other threads do not lower the flag. *)
Lemma join_workers_Ok `{!AbtLaws} wi n w w' :
  (∀ i k v, Node.kill_requested_ v = true → Node.kill_requested_ (env i k v) = true) →
  Node.kill_requested_ w = true → last_passes wi n w w' →
  join_workers wi n w = Ok w' ∧ Node.kill_requested_ w' = true.
Proof.
  intros Henv. revert wi w. induction n as [|n IH]; intros wi w Hk; simpl.
  { intros ->. by split. }
  intros (x & Hrun & Hkx & Hidle & Hrest). unfold thread_join.
  assert (Loop hshm_error (env wi) wi fuel w = Ok x) as ->.
  { specialize (Henv wi fuel w Hk). destruct fuel; simpl; by rewrite Henv. }
  cbn [mbind outcome_bind]. rewrite abt_xstream_join_idle by done.
  cbn [mbind outcome_bind]. rewrite abt_xstream_free_null. by apply IH.
Qed.

End stopping.

Definition StopDaemon (r : Runtime) : Runtime := set_node (FinalizeRuntime (node r)) r.
