(* ===== verification/Startup.v ===== *)
(** * What a started runtime looks like

    The state [ServerInit] leaves before its first wait: the invariants of the components
    hold, the four states every node has are registered, the first worker has been given the
    lane of the admin queue, and the task that installs the scheduler is in that lane. *)

From S2P Require Import Prelude Hshm RefLib Types Queue LocalSerialize Yaml Config QueueManager.
From S2P Require Import Archive Task TaskTypes World LibExec Registry Rpc Exec WorkerLoop.
From S2P Require Import Schedulers ProcQueue SmallMessage Admin RemoteQueue TaskName LibClients.
From S2P Require Import Thallium Runtime.

(** ** Loading libraries *)

Section libs.
Context `{BitfieldOps} `{RawMemory} `{Dlfcn}.

(** A library that is in one of the directories, loads, and reports the name it is found by *)
Definition lib_found (dirs : list string) (name : string) : Prop :=
  ∃ dirs1 d dirs2 path, dirs = dirs1 ++ d :: dirs2 ∧
    Forall (λ d, lib_path d name = None) dirs1 ∧ lib_path d name = Some path ∧
    dlopen path ≠ 0 ∧ dlsym (dlopen path) "create_state" ≠ 0 ∧
    dlsym (dlopen path) "get_task_lib_name" ≠ 0 ∧
    call_get_task_lib_name (dlsym (dlopen path) "get_task_lib_name") = name.

(** What loading changes: the handles and the index of libraries, which only grows *)
Definition loaded (w w' : Node) : Prop :=
  ∃ libs dl, w' = Node.set_dl_open dl (on_registry (TaskRegistry.set_libs libs) w) ∧
    ∀ n, is_Some (TaskRegistry.libs_ (Node.task_registry_ w) !! n) → is_Some (libs !! n).

#[export] Instance loaded_preorder : PreOrder loaded.
Proof.
  split.
  - intros w. exists (TaskRegistry.libs_ (Node.task_registry_ w)), (Node.dl_open w).
    split; [by destruct w as [??? [] ? ? ? ? ? ? ? ? ? ?]|done].
  - intros w1 w2 w3 (l1 & d1 & -> & Hl1) (l2 & d2 & -> & Hl2). exists l2, d2.
    split; [done|]. auto.
Qed.

Lemma close_lib_loaded lib w : loaded w (close_lib lib w).
Proof.
  unfold close_lib. destruct (lib =? 0); [reflexivity|].
  eexists (TaskRegistry.libs_ (Node.task_registry_ w)), _.
  split; [|done]. by destruct w as [??? [] ? ? ? ? ? ? ? ? ? ?].
Qed.

Lemma set_dl_open_loaded dl w : loaded w (Node.set_dl_open dl w).
Proof.
  eexists (TaskRegistry.libs_ (Node.task_registry_ w)), dl.
  split; [|done]. by destruct w as [??? [] ? ? ? ? ? ? ? ? ? ?].
Qed.

Lemma libs_emplace_loaded name info w :
  loaded w (libs_emplace name info w) ∧
  is_Some (TaskRegistry.libs_ (Node.task_registry_ (libs_emplace name info w)) !! name).
Proof.
  unfold libs_emplace. destruct (TaskRegistry.libs_ (Node.task_registry_ w) !! name) eqn:E.
  - split; [apply close_lib_loaded|]. rewrite (proj1 (close_lib_same _ _)), E. eauto.
  - split; [|simpl; rewrite lookup_insert_eq; eauto].
    eexists _, (Node.dl_open w). split; [by destruct w|].
    intros n [i Hi]. rewrite lookup_insert_ne by congruence. eauto.
Qed.

Lemma load_lib_loaded path w : loaded w (load_lib path w).2.
Proof.
  unfold load_lib. destruct (dlopen path =? 0); [reflexivity|].
  destruct (dlsym _ "create_state" =? 0); [etransitivity; [apply set_dl_open_loaded|apply close_lib_loaded]|].
  destruct (dlsym _ "get_task_lib_name" =? 0);
    [etransitivity; [apply set_dl_open_loaded|apply close_lib_loaded]|].
  etransitivity; [apply set_dl_open_loaded|apply libs_emplace_loaded].
Qed.

Lemma RegisterTaskLib_loaded name w : loaded w (RegisterTaskLib name w).2.
Proof.
  unfold RegisterTaskLib. induction (TaskRegistry.lib_dirs_ (Node.task_registry_ w)) as [|d dirs IH];
    simpl; [reflexivity|]. destruct (lib_path d name); [apply load_lib_loaded|exact IH].
Qed.

Lemma RegisterTaskLib_found name w :
  lib_found (TaskRegistry.lib_dirs_ (Node.task_registry_ w)) name →
  is_Some (TaskRegistry.libs_ (Node.task_registry_ (RegisterTaskLib name w).2) !! name).
Proof.
  intros (dirs1 & d & dirs2 & path & Hd & Hno & Hyes & Hlib & Hc & Hg & Hname).
  unfold RegisterTaskLib. rewrite Hd, (search_lib_first _ _ _ _ _ _ Hno Hyes). unfold load_lib.
  do 3 (rewrite (proj2 (Z.eqb_neq _ _)) by done). rewrite Hname. apply libs_emplace_loaded.
Qed.

Lemma register_all_loaded names w :
  loaded w (foldl (λ w lib_name, snd (RegisterTaskLib lib_name w)) w names).
Proof.
  revert w. induction names as [|n names IH]; intros w; simpl; [reflexivity|].
  etransitivity; [apply RegisterTaskLib_loaded|apply IH].
Qed.

End libs.

(** ** Registered states *)

Section states.
Context `{BitfieldLaws} `{Logger} `{MpscOps} `{AllocLaws} `{RawMemory} `{CerealOps} `{CharbufOps}
        `{Dlfcn} `{ConstructLaws}.
Hypothesis allocates : ∀ h : gmap Z TaskObj, is_Some (allocate h).

(** The states registered in a node are exactly those listed, by id and by name. *)
Record registered (dirs : list string) (L : list (TaskStateId * string)) (w : Node) : Prop := {
  registered_ok : registry_ok w;
  registered_dirs : TaskRegistry.lib_dirs_ (Node.task_registry_ w) = dirs;
  registered_found id name : (id, name) ∈ L →
    ∃ st, Node.states w !! GetTaskState id w = Some st ∧ TaskLib.id_ st = id ∧
      TaskLib.name_ st = name ∧ GetTaskStateId name w = id;
  registered_ids id : UniqueId.key id ∉ UniqueId.key ∘ fst <$> L → GetTaskState id w = 0;
  registered_names name : name ∉ snd <$> L →
    TaskRegistry.task_state_ids_ (Node.task_registry_ w) !! name = None;
}.

Lemma registered_same dirs L w w' :
  registered dirs L w → Node.states w' = Node.states w →
  TaskRegistry.task_states_ (Node.task_registry_ w') = TaskRegistry.task_states_ (Node.task_registry_ w) →
  TaskRegistry.task_state_ids_ (Node.task_registry_ w') = TaskRegistry.task_state_ids_ (Node.task_registry_ w) →
  TaskRegistry.lib_dirs_ (Node.task_registry_ w') = TaskRegistry.lib_dirs_ (Node.task_registry_ w) →
  registered dirs L w'.
Proof.
  intros [Hr Hd Hf Hi Hn] Hs Ht Hids Hdirs.
  split; unfold registry_ok, GetTaskState, GetTaskStateId in *; rewrite ?Hs, ?Ht, ?Hids, ?Hdirs; done.
Qed.

Lemma registered_loaded dirs L w w' : registered dirs L w → loaded w w' → registered dirs L w'.
Proof. intros Hr (libs & dl & -> & _). by eapply registered_same. Qed.

Lemma loaded_kept w w' : loaded w w' → node_kept w w'.
Proof. by intros (libs & dl & -> & _). Qed.

(** The state of a new id and name joins those registered. *)
Lemma registered_add dirs L w w' id name st a :
  registered dirs L w → registry_ok w' → GetTaskState id w' = a →
  UniqueId.key id ∉ UniqueId.key ∘ fst <$> L → name ∉ snd <$> L →
  Node.states w !! a = None →
  Node.states w' !! a = Some st → TaskLib.id_ st = id → TaskLib.name_ st = name →
  (∀ b, b ≠ a → Node.states w' !! b = Node.states w !! b) →
  let r := Node.task_registry_ w in
  Node.task_registry_ w' = TaskRegistry.set_task_states
    (<[UniqueId.key id := a]> (TaskRegistry.task_states_ r))
    (TaskRegistry.set_task_state_ids (emplace name id (TaskRegistry.task_state_ids_ r)) r) →
  registered dirs ((id, name) :: L) w'.
Proof.
  intros [Hr Hd Hf Hi Hn] Hr' Ha Hid Hname Hfree Hst Hsid Hsn Hsame r Hreg.
  assert (∀ n, TaskRegistry.task_state_ids_ (Node.task_registry_ w') !! n =
    if decide (name = n) then Some id else TaskRegistry.task_state_ids_ (Node.task_registry_ w) !! n)
    as Hids.
  { intros n. rewrite Hreg. simpl. rewrite lookup_emplace. case_decide; [|done].
    subst. unfold r. by rewrite Hn. }
  assert (∀ id', UniqueId.key id' ≠ UniqueId.key id → GetTaskState id' w' = GetTaskState id' w) as Hget.
  { intros id' Hne. unfold GetTaskState. rewrite Hreg. simpl. by rewrite lookup_insert_ne. }
  split; [done|by rewrite Hreg|..].
  - intros id' name' [[= -> ->]|Hin]%elem_of_cons.
    + exists st. rewrite Ha. do 3 (split; [done|]). unfold GetTaskStateId. rewrite Hids.
      by rewrite decide_True.
    + destruct (Hf _ _ Hin) as (st' & Hs' & Hs'').
      assert (UniqueId.key id' ≠ UniqueId.key id) as Hne.
      { intros E. apply Hid. rewrite <- E. apply (list_elem_of_fmap_2 (UniqueId.key ∘ fst) _ _ Hin). }
      exists st'. rewrite (Hget _ Hne), Hsame by congruence. split; [done|].
      unfold GetTaskStateId in *. rewrite Hids, decide_False; [done|].
      intros ->. apply Hname. apply (list_elem_of_fmap_2 snd _ _ Hin).
  - intros id' Hid'. rewrite fmap_cons, not_elem_of_cons in Hid'. destruct Hid' as [Hne Hin].
    rewrite Hget by done. by apply Hi.
  - intros name' Hn'. rewrite fmap_cons, not_elem_of_cons in Hn'. destruct Hn' as [Hne Hin].
    rewrite Hids, decide_False by done. by apply Hn.
Qed.

Lemma boot_state_ok dirs L name id w :
  registered dirs L w → lib_found dirs name → UniqueId.IsNull id = false →
  UniqueId.key id ∉ UniqueId.key ∘ fst <$> L → name ∉ snd <$> L →
  ∃ w', boot_state name id w = Ok w' ∧ registered dirs ((id, name) :: L) w' ∧ node_kept w w'.
Proof.
  intros Hreg Hlib Hnull Hid Hname. unfold boot_state, Client.NewTask.
  destruct (allocates (Node.heap w)) as [[p a] Ha]. rewrite Ha. cbn [mbind outcome_bind].
  set (o := mkTaskObj _ _). set (w1 := put_task a o w).
  assert (registered dirs L w1) as Hreg1 by (by eapply registered_same).
  rewrite <- (registered_dirs _ _ _ Hreg1) in Hlib. apply RegisterTaskLib_found in Hlib as [info Hinfo].
  pose proof (RegisterTaskLib_loaded name w1) as Hld.
  destruct (RegisterTaskLib name w1) as [b w2]. simpl in Hinfo, Hld.
  pose proof (registered_loaded _ _ _ _ Hreg1 Hld) as Hreg2.
  assert (get_task a w2 = Ok o) as Hget.
  { destruct Hld as (libs & dl & -> & _). apply get_put_task_eq. }
  destruct (create_task_state_ok name name id a w2 info o (CreateTaskState.mk "" "" [] raw_id))
    as (w' & s & st & Hc & Hgs & Hs0 & Hfree & Hst & Hsid & Hsn & Hr' & Hsame & _ & Hr''); try done.
  { by apply registered_ok in Hreg2. }
  { by apply (registered_ids _ _ _ Hreg2). }
  cbn [ptr_]. rewrite Hc. cbn [mbind outcome_bind]. exists w'. split; [done|]. split.
  - by eapply (registered_add dirs L w2 w' id name st s).
  - etransitivity; [|by eapply CreateTaskState_keeps].
    apply loaded_kept in Hld. by unfold node_kept in *.
Qed.

End states.

(** ** The states every node has *)

Section start.
Context `{BitfieldLaws} `{Logger} `{MpscLaws} `{SpscLaws} `{AllocLaws} `{RawMemory} `{CerealOps}
        `{CharbufOps} `{HvecLaws} `{TicketLaws} `{Dlfcn} `{ConstructLaws} `{NetOps} `{TlEngineOps}
        `{ProcessOps} `{YamlOps} `{ConfigParse} `{AbtOps}.
Hypothesis allocates : ∀ h : gmap Z TaskObj, is_Some (allocate h).

(** The libraries the runtime needs before it can run a task *)
Definition boot_libs : list string :=
  ["hermes_run_admin"; "proc_queue"; "worch_queue_round_robin"; "worch_proc_round_robin"].

(** The states of a started node [n], the last first *)
Definition boot_states (n : Z) : list (TaskStateId * string) :=
  [(UniqueId.make n 3, "worch_proc_round_robin"); (UniqueId.make n 2, "worch_queue_round_robin");
   (UniqueId.make 1 1, "proc_queue"); (UniqueId.make 1 0, "hermes_run_admin")].

Lemma registered_unique dirs L u w : registered dirs L w → registered dirs L (Node.set_unique u w).
Proof. intros. by eapply registered_same. Qed.

(** An element is not in a list of constructors it differs from. *)
#[local] Ltac not_listed :=
  repeat match goal with L := _ : list _ |- _ => unfold L end;
  cbn; rewrite ?not_elem_of_cons; repeat split;
  first [apply not_elem_of_nil | unfold UniqueId.key; cbn; congruence].

Lemma ServerInit_states_ok dirs nid w :
  registered dirs [] w → Forall (lib_found dirs) boot_libs →
  Node.unique_ w = 0 → Node.node_id_ w ≠ 0 →
  let n := Node.node_id_ w in
  ∃ w', ServerInit_states (QueueManager.Init nid) w = Ok (UniqueId.make n 2, UniqueId.make n 3, w') ∧
    registered dirs (boot_states n) w' ∧ Node.queue_map_ w' = Node.queue_map_ w ∧
    Node.workers_ w' = Node.workers_ w ∧ Node.node_id_ w' = n ∧ Node.unique_ w' = 4.
Proof.
  intros Hreg Hlibs Hu Hn0 n. fold n in Hn0.
  unfold boot_libs in Hlibs. rewrite !Forall_cons in Hlibs. destruct Hlibs as (Hl1 & Hl2 & Hl3 & Hl4 & _).
  unfold ServerInit_states, Client.MakeTaskStateId, Client.fetch_add_unique. cbn [fst snd].
  set (L1 := [(UniqueId.make 1 0, "hermes_run_admin")]).
  set (L2 := (UniqueId.make 1 1, "proc_queue") :: L1).
  set (L3 := (UniqueId.make n 2, "worch_queue_round_robin") :: L2).
  edestruct (boot_state_ok allocates dirs [] "hermes_run_admin" (UniqueId.make 1 0))
    as (w1 & -> & R1 & Q1 & W1 & N1 & U1);
    [apply registered_unique, Hreg|done|done|apply not_elem_of_nil..|].
  cbn [mbind outcome_bind Node.set_unique Node.unique_] in *.
  edestruct (boot_state_ok allocates dirs L1 "proc_queue" (UniqueId.make 1 1))
    as (w2 & -> & R2 & Q2 & W2 & N2 & U2); [apply registered_unique, R1|done|done|not_listed..|].
  cbn [mbind outcome_bind]. simpl in *. rewrite N2, U2, N1, U1, Hu. fold n.
  edestruct (boot_state_ok allocates dirs L2 "worch_queue_round_robin" (UniqueId.make n 2))
    as (w3 & -> & R3 & Q3 & W3 & N3 & U3); [apply registered_unique, R2|done
    |by apply Z.eqb_neq|not_listed..|].
  cbn [mbind outcome_bind]. simpl in *. rewrite N3, U3, N2, N1. fold n.
  edestruct (boot_state_ok allocates dirs L3 "worch_proc_round_robin" (UniqueId.make n 3))
    as (w4 & -> & R4 & Q4 & W4 & N4 & U4); [apply registered_unique, R3|done
    |by apply Z.eqb_neq|not_listed..|].
  cbn [mbind outcome_bind]. simpl in *. exists w4. split; [done|]. split; [exact R4|].
  rewrite Q4, W4, N4, U4, Q3, W3, N3, Q2, W2, N2, Q1, W1, N1. done.
Qed.

(** ** The workers *)

Definition admin_entry : WorkEntry := WorkEntry.mkWorkEntry 0 0 0 0.

(** The workers of a started node: the first has been given the lane of the admin queue. *)
Definition boot_workers (n : nat) : list Worker :=
  (λ i, let w := new_worker_thread (Z.of_nat i) in
        if (i =? 0)%nat then Worker.set_poll_queues [[admin_entry]] w else w) <$> seq 0 n.

(** The queue manager's slot of the admin queue, once its lane is scheduled and the tasks
    [data] were pushed *)
Definition admin_queue (qm : QueueManagerInfo) (data : list LaneData) : MultiQueue :=
  let info := PriorityInfo.make 1 1 (QueueManagerInfo.queue_depth_ qm) QUEUE_UNORDERED in
  let lane := Lane.mkLane data (PriorityInfo.depth_ info) (PriorityInfo.flags_ info) in
  MultiQueue.mkMultiQueue (UniqueId.make 1 0)
    [LaneGroup.set_num_scheduled 1 (LaneGroup.make info 0 [lane])] bitfield_new.

Lemma WorkOrchestrator_ServerInit_ok config qm nid m w :
  Node.workers_ w = [] → Node.queue_map_ w = m → (0 < length m)%nat →
  m !! 0%nat = Some (MultiQueue.make (UniqueId.make 1 0) (QueueManagerRuntime.admin_queue_info qm)) →
  1 ≤ ServerConfig.max_workers_ config →
  ∃ w', WorkOrchestrator_ServerInit config (QueueManager.Init nid) w = Ok w' ∧
    Node.workers_ w' = boot_workers (Z.to_nat (ServerConfig.max_workers_ config)) ∧
    Node.queue_map_ w' = <[0%nat := admin_queue qm []]> m ∧
    w' = Node.set_workers (Node.workers_ w') (Node.set_queue_map (Node.queue_map_ w')
           (Node.set_kill_requested false (Node.set_stop_runtime false
             (Node.set_xstream abt_xstream_create w)))).
Proof.
  intros Hw <- Hlen Hadm Hn. unfold WorkOrchestrator_ServerInit.
  cbn [Node.workers_ Node.set_xstream]. rewrite Hw. cbn [app].
  set (ws := _ <$> seq _ _). set (w1 := Node.set_kill_requested _ _).
  assert (QueueManager.GetQueue (QueueManager.admin_queue_ (QueueManager.Init nid))
    (Node.queue_map_ w1) = Ok 0%nat) as -> by (apply GetQueue_Ok; split; [done|exact Hlen]).
  cbn [mbind outcome_bind]. unfold get_queue at 1. change (Node.queue_map_ w1) with (Node.queue_map_ w).
  rewrite Hadm. cbn [deref mbind outcome_bind].
  destruct (Z.to_nat (ServerConfig.max_workers_ config)) as [|k] eqn:Ek; [lia|].
  simpl. unfold poll_lane, get_worker, new_entry, get_lane, get_queue. simpl.
  rewrite Hadm. simpl. unfold set_scheduled, get_queue. simpl. rewrite Hadm. simpl.
  eexists. split; [done|]. split; [|split; [|done]].
  - unfold boot_workers. simpl. f_equal.
    + unfold PollQueues, new_worker_thread, Worker.set_poll_queues. simpl.
      by rewrite spsc_emplace_room by (simpl; lia).
    + apply (list_fmap_ext _ _ (seq 1 k)). intros i x Hx. apply lookup_seq in Hx as [-> _]. done.
  - done.
Qed.

(** The registry starts with no state. *)
Lemma Registry_ServerInit_ok config nid path ld_path w x :
  Node.task_registry_ w = TaskRegistry.mkTaskRegistry x [] ∅ ∅ ∅ →
  let w' := Registry.ServerInit config nid path ld_path w in
  registered (search_paths path ld_path) [] w' ∧ node_kept w w'.
Proof.
  intros Hw w'. unfold w', Registry.ServerInit. rewrite Hw. cbn [app TaskRegistry.lib_dirs_].
  set (w1 := Node.set_task_registry _ w).
  pose proof (register_all_loaded (ServerConfig.task_libs_ config) w1) as Hl. split.
  - eapply registered_loaded; [|exact Hl]. split; simpl; try done.
    intros id name Hin. by apply not_elem_of_nil in Hin.
  - apply loaded_kept in Hl. by unfold node_kept in *.
Qed.

(** ** The queues *)

Lemma admin_emplace qm data p :
  Z.of_nat (length data) < QueueManagerInfo.queue_depth_ qm →
  MultiQueue.Emplace (admin_queue qm data) 0 0 p =
    Ok (true, admin_queue qm (data ++ [LaneData.make p false])).
Proof.
  intros Hroom. unfold MultiQueue.Emplace, MultiQueue.EmplaceData, MultiQueue.IsEmplacePlugged.
  replace (Any (MultiQueue.flags_ (admin_queue qm data)) QUEUE_RESIZE) with false
    by (simpl; unfold QUEUE_RESIZE; by rewrite Any_testbit, bitfield_new_spec, Z.bits_0 by lia).
  simpl. unfold Lane.emplace. simpl. by rewrite mpsc_emplace_room.
Qed.

(** The slots of the map of a started node *)
Definition boot_map (qm : QueueManagerInfo) (data : list LaneData) (m : list MultiQueue) : Prop :=
  Z.of_nat (length m) = QueueManagerInfo.max_queues_ qm ∧
  m !! 0%nat = Some (admin_queue qm data) ∧
  m !! 1%nat = Some (MultiQueue.make (UniqueId.make 1 1) (QueueManagerRuntime.process_queue_info qm)) ∧
  ∀ i, (2 ≤ i < length m)%nat → m !! i = Some (MultiQueue.new (raw_queue i)).

(** What the configuration and the environment must provide for a node [n] to start: room
    for the two queues and for a task, a worker, an engine, memory, fresh memory that holds
    null ids, and the libraries. *)
Record can_start (server_default client_default path : string) (r : Runtime)
    (m : ConfigurationManager) (rpc : RpcContext) (th : ThalliumState) (c : ClientProcess)
    : Prop := {
  start_server_config : LoadServerConfig server_default path (manager r) = Ok m;
  start_rpc : RpcContext.ServerInit (server_config_ (InitSharedMemory m)) (rpc_ r) = Ok rpc;
  start_thallium : ThalliumServerInit rpc = Ok th;
  start_client : Client_Create server_default client_default path "" (RpcContext.node_id_ rpc)
                   (client r) = Ok c;
  start_max_queues :
    2 ≤ QueueManagerInfo.max_queues_ (ServerConfig.queue_manager_ (server_config_ m));
  start_depth :
    0 < QueueManagerInfo.queue_depth_ (ServerConfig.queue_manager_ (server_config_ m)) < 2 ^ 32;
  start_lanes :
    is_u32 (QueueManagerInfo.max_lanes_ (ServerConfig.queue_manager_ (server_config_ m)));
  start_workers : 1 ≤ ServerConfig.max_workers_ (server_config_ m);
  start_null : ∀ i, UniqueId.IsNull (MultiQueue.id_ (raw_queue i)) = true;
  start_node_id : RpcContext.node_id_ rpc ≠ 0;
  start_libs : Forall (lib_found (search_paths (getenv "HERMES_RUN_TASK_PATH")
                 (getenv "LD_LIBRARY_PATH"))) boot_libs;
}.

(** The size of the segment is all [InitSharedMemory] changes. *)
Lemma InitSharedMemory_same m :
  let q := ServerConfig.queue_manager_ (server_config_ m) in
  let c := server_config_ (InitSharedMemory m) in
  let q' := ServerConfig.queue_manager_ c in
  QueueManagerInfo.queue_depth_ q' = QueueManagerInfo.queue_depth_ q ∧
  QueueManagerInfo.max_lanes_ q' = QueueManagerInfo.max_lanes_ q ∧
  QueueManagerInfo.max_queues_ q' = QueueManagerInfo.max_queues_ q ∧
  ServerConfig.max_workers_ c = ServerConfig.max_workers_ (server_config_ m).
Proof. unfold InitSharedMemory. simpl. by destruct (_ =? 0). Qed.

Lemma map_ok_admin qm q data m :
  map_ok m → m !! 0%nat = Some q → map_ok (<[0%nat := admin_queue qm data]> m).
Proof.
  intros Hm Hq i x Hx Hn. destruct (decide (i = 0%nat)) as [->|Hne].
  - rewrite list_lookup_insert_eq in Hx by (by eapply lookup_lt_Some). injection Hx as <-.
    split; [done|]. intros prio g Hg. destruct prio as [|[|]]; simpl in Hg; simplify_eq.
    by vm_compute.
  - rewrite list_lookup_insert_ne in Hx by done. by apply Hm.
Qed.

(** The map depends on three of the members. *)
Lemma boot_map_same qm qm' data m :
  QueueManagerInfo.queue_depth_ qm = QueueManagerInfo.queue_depth_ qm' →
  QueueManagerInfo.max_lanes_ qm = QueueManagerInfo.max_lanes_ qm' →
  QueueManagerInfo.max_queues_ qm = QueueManagerInfo.max_queues_ qm' →
  boot_map qm data m → boot_map qm' data m.
Proof.
  unfold boot_map, admin_queue, QueueManagerRuntime.process_queue_info. by intros -> -> ->.
Qed.

Lemma boot_map_insert qm data data' m :
  boot_map qm data m → boot_map qm data' (<[0%nat := admin_queue qm data']> m).
Proof.
  intros (Hlen & Hq0 & Hq1 & Hrest). unfold boot_map. rewrite length_insert. split; [done|].
  split; [apply list_lookup_insert_eq; by eapply lookup_lt_Some|].
  split; [by rewrite list_lookup_insert_ne|].
  intros i Hi. rewrite list_lookup_insert_ne by lia. by apply Hrest.
Qed.

Lemma ServerInit_components_ok server_default client_default path r m rpc th c :
  can_start server_default client_default path r m rpc th c →
  Node.workers_ (node r) = [] → Node.task_registry_ (node r) = TaskRegistry.mkTaskRegistry raw_int [] ∅ ∅ ∅ →
  let n := RpcContext.node_id_ rpc in
  ∃ r', ServerInit_components server_default client_default path r = Ok r' ∧
    client r' = c ∧
    registered (search_paths (getenv "HERMES_RUN_TASK_PATH") (getenv "LD_LIBRARY_PATH")) []
      (node r') ∧
    Node.node_id_ (node r') = n ∧ Node.unique_ (node r') = 0 ∧
    Node.workers_ (node r') = boot_workers (Z.to_nat (ServerConfig.max_workers_ (server_config_ m))) ∧
    map_ok (Node.queue_map_ (node r')) ∧
    boot_map (ServerConfig.queue_manager_ (server_config_ m)) [] (Node.queue_map_ (node r')).
Proof.
  intros [Hm Hrpc Hth Hc Hmax Hdep Hlan Hwk Hnull _ _] Hws Hreg n.
  set (config := server_config_ (InitSharedMemory m)).
  set (qm := ServerConfig.queue_manager_ config). destruct (InitSharedMemory_same m) as (Ed & El & Eq & Ew).
  fold config in Ed, El, Eq, Ew, Hrpc. fold qm in Ed, El, Eq.
  unfold ServerInit_components. rewrite Hm. cbn [mbind outcome_bind]. fold config. rewrite Hrpc.
  cbn [mbind outcome_bind]. rewrite Hth. cbn [mbind outcome_bind]. fold n. fold n in Hc.
  set (w0 := Node.mkNode _ _ _ _ n 0 _ _ _ _ _ _ _ _ _ _ _).
  pose proof (Registry_ServerInit_ok config n (getenv "HERMES_RUN_TASK_PATH")
    (getenv "LD_LIBRARY_PATH") w0 _ Hreg) as [HR (Q1 & W1 & N1 & U1)].
  set (w1 := Registry.ServerInit _ _ _ _ w0) in *.
  destruct (ServerInit_queues (queue_manager_ r) raw_queue n config) as
    (this & shm & -> & Hlen & Hok & Hq0 & Hq1 & Hrest & _ & _ & Hbase);
    fold qm; rewrite ?Eq, ?Ed, ?El; try done; [unfold is_u32; lia|].
  cbn [mbind outcome_bind]. rewrite Hc. cbn [mbind outcome_bind]. rewrite Hbase.
  set (w2 := Node.set_queue_map (shm_queue_map_ shm) w1).
  assert (0 < length (shm_queue_map_ shm))%nat as Hl0 by (fold qm in Hlen; lia).
  destruct (WorkOrchestrator_ServerInit_ok config qm n (shm_queue_map_ shm) w2)
    as (w3 & -> & W3 & Q3 & E3); [by rewrite <- Hws|done|done|done|by rewrite Ew|].
  cbn [mbind outcome_bind]. eexists. split; [done|]. cbn [client node]. rewrite W3, Q3, Ew.
  split; [done|]. split; [rewrite E3; by eapply registered_same|].
  rewrite E3. split; [done|]. split; [done|]. split; [done|]. split.
  - by eapply map_ok_admin.
  - apply (boot_map_same qm); [done..|]. unfold boot_map. rewrite length_insert. split; [done|].
    split; [by apply list_lookup_insert_eq|]. split; [by rewrite list_lookup_insert_ne|].
    intros i Hi. rewrite list_lookup_insert_ne by lia. by apply Hrest.
Qed.

Lemma Client_Create_manager server_default client_default sp cp n c c' :
  is_initialized_ (cl_manager c) = false →
  Client_Create server_default client_default sp cp n c = Ok c' →
  cl_queue_manager_ c' = QueueManager.Init n ∧ is_initialized_ (cl_manager c') = true.
Proof.
  intros Hi. unfold Client_Create. rewrite Hi. unfold Client_ClientInit. intros. by invert_ok.
Qed.

(** A task of priority 0 for the admin queue of a node whose admin lane holds [data] *)
Lemma admin_Async qm data m o w :
  Node.queue_map_ w = m → boot_map qm data m →
  Z.of_nat (length data) < QueueManagerInfo.queue_depth_ qm →
  Task.prio_ (base o) = 0 → Task.lane_hash_ (base o) = 0 →
  ∃ task m', Client.Async (UniqueId.make 1 0) o w =
      Ok (task, put_task (ptr_ task) o (Node.set_queue_map m' w)) ∧
    m' = <[0%nat := admin_queue qm (data ++ [LaneData.make (shm_ task) false])]> m ∧
    Convert (shm_ task) = ptr_ task ∧ ptr_ task ≠ 0 ∧ Node.heap w !! ptr_ task = None.
Proof.
  intros Hm (Hlen & Hq0 & _) Hroom Hp Hh. destruct (allocates (Node.heap w)) as [[shm ptr] Ha].
  pose proof (allocate_fresh _ _ _ Ha) as (Hfree & Hnz & Hconv).
  assert (Client.GetQueue (UniqueId.make 1 0) w = Ok 0%nat) as Hq.
  { apply GetQueue_Ok. split; [done|]. rewrite Hm. by eapply lookup_lt_Some. }
  eexists (mkLPointer ptr shm), _. split; [|done].
  erewrite (Async_Ok _ _ _ _ _ _ true); [..|exact Hq|]; [|exact Ha|].
  2: { rewrite Hp, Hh. unfold Client.Emplace, get_queue. rewrite Hm, Hq0.
       cbn [deref mbind outcome_bind]. rewrite admin_emplace by done. cbn [mbind outcome_bind].
       unfold put_queue. by rewrite Hm. }
  done.
Qed.

End start.

(** ** Properties *)

(** C9: starting a runtime. When the configuration loads, the network, the engine and the
    client start, memory is available, and the four libraries are found, [ServerInit] reaches
    its first wait. Then the four states every node has are registered, and no other: each is
    found by its id and by its name, the invariant of the registry holds; every queue is in
    the slot of its id, and the slots after the first two are free; each worker is in its
    initial state, the first with the lane of the admin queue to poll; and that lane holds
    exactly the task that installs the queue scheduler, which is the one waited for. *)
Theorem ServerInit_ready `{BitfieldLaws} `{Logger} `{MpscLaws} `{SpscLaws} `{AllocLaws}
    `{RawMemory} `{CerealOps} `{CharbufOps} `{HvecLaws} `{TicketLaws} `{Dlfcn} `{ConstructLaws}
    `{NetOps} `{TlEngineOps} `{ProcessOps} `{YamlOps} `{ConfigParse} `{AbtOps}
    (server_default client_default path : string) client_config server_config qm0 m rpc th c :
  let r := new_runtime client_config server_config qm0 in
  let qm := ServerConfig.queue_manager_ (server_config_ m) in
  let n := RpcContext.node_id_ rpc in
  (∀ h : gmap Z TaskObj, is_Some (allocate h)) →
  can_start server_default client_default path r m rpc th c →
  ∃ task r', ServerInit server_default client_default path r =
      Ok (task, UniqueId.make n 3, r') ∧
    let w := node r' in
    registered (search_paths (getenv "HERMES_RUN_TASK_PATH") (getenv "LD_LIBRARY_PATH"))
      (boot_states n) w ∧
    map_ok (Node.queue_map_ w) ∧
    boot_map qm [LaneData.make (shm_ task) false] (Node.queue_map_ w) ∧
    Node.workers_ w = boot_workers (Z.to_nat (ServerConfig.max_workers_ (server_config_ m))) ∧
    Convert (shm_ task) = ptr_ task ∧
    get_task (ptr_ task) w = Ok (of_type c_SetWorkOrchestratorPolicy
      (SetWorkOrchestratorPolicy.make 0 (AdminClient.memory c_SetWorkOrchestratorPolicy)
         (TaskNode.add (TaskNode.make (UniqueId.make n 4)) 1) DomainId.GetLocal
         (UniqueId.make 1 0) (UniqueId.make n 2))).
Proof.
  intros r qm n Hal Hstart.
  destruct (ServerInit_components_ok _ _ _ _ _ _ _ _ Hstart eq_refl eq_refl)
    as (r1 & E1 & Hc & Hreg & Hn & Hu & Hw & Hok & Hmap).
  unfold ServerInit. rewrite E1. cbn [mbind outcome_bind]. rewrite Hc.
  pose proof (start_client _ _ _ _ _ _ _ _ Hstart) as Hcl.
  apply Client_Create_manager in Hcl as [-> _]; [|done]. fold n.
  pose proof (start_libs _ _ _ _ _ _ _ _ Hstart) as Hlibs.
  pose proof (start_node_id _ _ _ _ _ _ _ _ Hstart) as Hn0. fold n in Hn0, Hn.
  destruct (ServerInit_states_ok Hal _ n (node r1) Hreg Hlibs Hu ltac:(by rewrite Hn))
    as (w2 & -> & Hreg2 & Q2 & W2 & N2 & U2).
  cbn [mbind outcome_bind]. unfold set_queue_policy, AdminClient.AsyncRoot,
    Client.MakeTaskNodeId, Client.fetch_add_unique, AdminClient.AsyncSetWorkOrchQueuePolicy,
    AdminClient.Async.
  set (o := of_type _ _). set (w3 := Node.set_unique _ w2).
  pose proof (start_depth _ _ _ _ _ _ _ _ Hstart) as Hdep. fold qm in Hdep, Hmap.
  destruct (admin_Async Hal qm [] (Node.queue_map_ w2) o w3)
    as (task & m' & Hasync & -> & Hconv & _ & _);
    [done|by rewrite Q2|simpl; lia|done|done|].
  cbn [AdminClient.queue_id_ Admin.client AdminClient.new QueueManager.admin_queue_ QueueManager.Init].
  rewrite Hasync. cbn [mbind outcome_bind]. rewrite Hn. exists task. eexists. split; [done|].
  cbn [node set_node]. split; [rewrite <- Hn; by eapply registered_same|].
  simpl Node.queue_map_. rewrite Q2. pose proof Hmap as (_ & Hq0 & _).
  split; [by eapply map_ok_admin|]. split; [by eapply boot_map_insert|].
  split; [simpl; by rewrite W2|]. split; [done|].
  rewrite get_put_task_eq. unfold o. by rewrite N2, U2, Hn.
Qed.

(** ** A reference machine, for the witnesses

    A host whose configuration file is the document below, and whose libraries are in one
    directory, each with its own handle and functions. *)
Definition ref_libs : list (string * ServerData) :=
  [("hermes_run_admin", AdminServer 0 0); ("proc_queue", ProcQueueServer);
   ("worch_queue_round_robin", QueueRoundRobinServer 7);
   ("worch_proc_round_robin", ProcRoundRobinServer);
   ("remote_queue", RemoteQueueServer UniqueId.GetNull UniqueId.GetNull);
   ("small_message", SmallMessageServer 0); ("TASK_NAME", TaskNameServer)].

Definition ref_so (name : string) : string := "/usr/lib/lib" +:+ name +:+ ".so".

Definition ref_lib (i : Z) : string * ServerData :=
  default ("", OtherServer) (at_index ref_libs i).

Definition ref_boot_dlfcn : Dlfcn := {|
  stdfs_exists path := existsb (λ l, String.eqb (ref_so l.1) path) ref_libs;
  dlopen path :=
    match list_find (λ l, ref_so l.1 = path) ref_libs with
    | Some (i, _) => 10 * (Z.of_nat i + 1)
    | None => 0
    end;
  dlsym lib s := if String.eqb s "create_state" then lib + 1 else lib + 2;
  call_get_task_lib_name f := (ref_lib (f / 10 - 1)).1;
  call_trait_new f := (ref_lib (f / 10 - 1)).2;
|}.

Definition ref_document : ydoc :=
  YMap [("work_orchestrator", YMap [("max_workers", YScalar "2")]);
        ("queue_manager", YMap [("queue_depth", YScalar "64"); ("max_lanes", YScalar "2");
                                ("max_queues", YScalar "16")]);
        ("rpc", YMap [("host_names", YSeq [YScalar "2"]); ("protocol", YScalar "tcp");
                      ("port", YScalar "8080"); ("num_threads", YScalar "1")])]%string.

(** A library that loads this document whatever the text *)
Definition ref_boot_yaml : YamlOps :=
  ref_yaml_with (λ s, if String.eqb s "" then None else Some ref_document).

Definition ref_engine : TlEngineOps := {|
  tl_server _ _ := Some 1; tl_client _ := Some 2; tl_shutdown _ _ := true;
  tl_push _ l := Some (Z.of_nat (length l)); tl_pull _ l := Some (Z.of_nat (length l), l);
  tl_wait_for_finalize _ w := Ok w;
|}.

Definition ref_process : ProcessOps := {|
  getenv s := if String.eqb s "LD_LIBRARY_PATH" then Some "/opt/lib:/usr/lib"%string else None;
  GetDefaultBackendSize := 2 ^ 30;
  raw_manager := QueueManagerRuntime.mk (QueueManager.Init 0) 0 0 None 0;
  raw_queue _ := MultiQueue.mkMultiQueue UniqueId.GetNull [] 0;
  raw_rpc := RpcContext.mk (RpcInfo.mk "" [] "" "" 0 0) 0 "" "" 0 0 [];
|}.

Definition ref_abt : AbtOps := {|
  abt_xstream_create := 1; abt_xstream_join _ w := Ok w; abt_xstream_free _ := 0;
|}.

Lemma ref_abt_laws : @AbtLaws ref_abt.
Proof. by split. Qed.

Definition ref_client_config : ClientConfig := ClientConfig.mk "".
Definition ref_server_config : ServerConfig :=
  ServerConfig.mk 0 (QueueManagerInfo.mk 0 0 0 "" "" 0) (RpcInfo.mk "" [] "" "" 0 0) [].

Module RefMachine.
  #[export] Existing Instance ref_raw.
  #[export] Existing Instance ref_net.
  #[export] Existing Instance ref_boot_dlfcn.
  #[export] Existing Instance ref_boot_yaml.
  #[export] Existing Instance ref_config_parse.
  #[export] Existing Instance ref_engine.
  #[export] Existing Instance ref_abt.
  #[export] Existing Instance ref_abt_laws.
  #[export] Existing Instance ref_process.
End RefMachine.

Section witness.
Import RefInstances.
Import RefMachine.
#[local] Existing Instance ref_construct.
#[local] Existing Instance ref_construct_laws.

Lemma ref_lib_found : Forall (lib_found [""; "/opt/lib"; "/usr/lib"]) boot_libs.
Proof.
  repeat constructor; exists [""; "/opt/lib"], "/usr/lib", []; eexists;
    repeat split; try (vm_compute; done); repeat constructor.
Qed.

Definition wit_runtime : Runtime := new_runtime ref_client_config ref_server_config (QueueManager.Init 0).

(** The result of a computation known to succeed *)
Definition result {A} (d : A) (m : outcome A) : A := match m with Ok a => a | _ => d end.

Definition wit_loaded_manager : ConfigurationManager :=
  result (manager wit_runtime) (LoadServerConfig "server" "" (manager wit_runtime)).
Definition wit_context : RpcContext :=
  result (rpc_ wit_runtime)
    (RpcContext.ServerInit (server_config_ (InitSharedMemory wit_loaded_manager)) (rpc_ wit_runtime)).
Definition wit_engines : ThalliumState :=
  result (mkThallium 0 0 wit_context) (ThalliumServerInit wit_context).
Definition wit_client : ClientProcess :=
  result (client wit_runtime)
    (Client_Create "server" "client" "" "" (RpcContext.node_id_ wit_context) (client wit_runtime)).

Lemma wit_can_start :
  can_start "server" "client" "" wit_runtime wit_loaded_manager wit_context wit_engines wit_client.
Proof.
  split; try exact ref_lib_found; try (by vm_compute).
Qed.

Lemma ServerInit_ready_witness :
  ∃ task r, ServerInit "server" "client" "" wit_runtime = Ok (task, UniqueId.make 1 3, r) ∧
    registry_ok (node r) ∧ length (Node.workers_ (node r)) = 2%nat.
Proof.
  destruct (ServerInit_ready "server" "client" "" ref_client_config ref_server_config
    (QueueManager.Init 0) wit_loaded_manager wit_context wit_engines wit_client)
    as (task & r & He & Hreg & _ & _ & Hw & _);
    [by eexists|exact wit_can_start|].
  exists task, r. split; [exact He|]. split; [exact (registered_ok _ _ _ Hreg)|].
  by rewrite Hw.
Defined.

End witness.
