(* ===== verification/Scenario.v ===== *)
(** * A run of the whole system

    The reference machine of [Startup] boots, its requests are polled until the three
    libraries of [HermesRunRuntime::ServerInit] are there, a user's library is registered and
    its state created, and a client's data message is answered. Everything is evaluated: the
    definitions of the development are executable from the first task to the last answer. *)

From S2P Require Import Prelude Hshm RefLib Types Queue LocalSerialize Config QueueManager.
From S2P Require Import Archive Task TaskTypes World LibExec Registry Rpc Exec WorkerLoop.
From S2P Require Import Schedulers ProcQueue SmallMessage Admin RemoteQueue TaskName LibClients.
From S2P Require Import Libs Thallium Runtime Startup.

Import RefInstances RefMachine.

(** No library but those of the repository *)
Definition no_others : OtherLibs := {| other_exec := ref_exec; other_construct := ref_construct |}.

Module RefRun.
#[export]
Instance run_daemon : DaemonOps := runtime_daemon wit_engines.
#[export] Existing Instance ref_thallium.
#[export] Existing Instance no_others.
#[export]
Instance run_construct : ConstructOps := lib_construct_ops wit_context 2.
#[export]
Instance run_exec : TaskExecOps := lib_exec wit_context 2.
End RefRun.
Import RefRun.

(** Each worker makes one pass of [Worker::Run]. *)
Definition pass (r : Runtime) : outcome Runtime :=
  w ← foldl (λ m wi, w ← m; Run wi w) (Ok (node r)) (seq 0 (length (Node.workers_ (node r))));
  Ok (set_node w r).

Fixpoint passes (n : nat) (r : Runtime) : outcome Runtime :=
  match n with O => Ok r | S n => r ← pass r; passes n r end.

(** [n] passes in which no lane is polled: a lane that is not flagged low-latency is polled
    in one pass of 4096, the others only count ([Run_entry_frequency]). *)
Definition skip (n : Z) (r : Runtime) : Runtime :=
  let count e := WorkEntry.set_count (wrap32 (WorkEntry.count_ e + n)) e in
  set_node (Node.set_workers
    ((λ wk, Worker.set_work_queue (count <$> Worker.work_queue_ wk) wk) <$> Node.workers_ (node r))
    (node r)) r.

(** 4096 passes, the low-latency lanes polled in the first and the last of them. The counts
    of entries start from whatever the memory holds, here 0. *)
Definition round (r : Runtime) : outcome Runtime := r ← pass r; pass (skip 4094 r).

(** ** The start-up

    [HermesRunRuntime::Create], with a round wherever [ServerInit] waits, and one
    more in which the scheduler gives the new queues to the workers *)
Definition boot : outcome Runtime :=
  '(waits, r) ← Create "server" "client" "" wit_runtime;
  '(task, proc_sched_id) ← deref waits;
  r ← round r;
  '(task, r) ← ServerInit_queue_sched task proc_sched_id r;
  r ← round r;
  '(task, r) ← ServerInit_proc_sched task r;
  r ← round r;
  r ← Create_finish task r;
  round r.

Definition booted : Runtime := Eval vm_compute in result wit_runtime boot.

Example boot_Ok : boot = Ok booted.
Proof. vm_compute. reflexivity. Qed.

(** The states, and the lanes of each worker: queue, priority, lane *)
Definition states_of (r : Runtime) : list (Z * string) :=
  prod_map id TaskLib.name_ <$> map_to_list (Node.states (node r)).
Definition lanes_of (r : Runtime) : list (list (nat * Z * Z)) :=
  (λ wk, (λ e, (WorkEntry.queue_ e, WorkEntry.prio_ e, WorkEntry.lane_id_ e))
           <$> Worker.work_queue_ wk ++ concat (Worker.poll_queues_ wk)) <$> Node.workers_ (node r).

(** Every state is registered; the first worker polls the lanes of long-running tasks, the
    second those of low latency; the next id is 8. *)
Example booted_states :
  states_of booted =
    [(5, "remote_queue"); (3, "worch_queue_round_robin"); (4, "worch_proc_round_robin");
     (2, "proc_queue"); (1, "hermes_run_admin")] ∧ Node.unique_ (node booted) = 8.
Proof. split; vm_compute; reflexivity. Qed.

Example booted_lanes :
  lanes_of booted =
    [[(0%nat, 0, 0); (1%nat, 0, 0); (1%nat, 1, 0); (6%nat, 0, 0); (6%nat, 1, 0)];
     [(1%nat, 2, 0); (1%nat, 2, 1); (6%nat, 2, 0)]].
Proof. vm_compute. reflexivity. Qed.

(** ** A library's state and a message *)

Definition create_small (r : Runtime) : outcome (SmallMessageClient.Client * Runtime) :=
  let w := snd (RegisterTaskLib "small_message" (node r)) in
  '(task, w) ← SmallMessageCreate.CreateRoot (Admin.client w)
    (ServerConfig.queue_manager_ (server_config_ (manager r))) DomainId.GetLocal "msg" w;
  r ← round (set_node w r);
  r ← round r;
  '(this, w) ← SmallMessageCreate.CreateRoot_finish task (node r);
  r ← round (set_node w r);
  Ok (this, r).

Definition running : SmallMessageClient.Client * Runtime := Eval vm_compute in
  result (SmallMessageClient.mk UniqueId.GetNull UniqueId.GetNull, booted) (create_small booted).

Example create_small_Ok : create_small booted = Ok running.
Proof. vm_compute. reflexivity. Qed.
(** The id of the state is also the slot of its queue; its lanes were given to the workers. *)
Example small_message_state :
  running.1 = SmallMessageClient.mk (UniqueId.make 1 9) (UniqueId.make 1 9) ∧
  lanes_of running.2 =
    [[(0%nat, 0, 0); (1%nat, 0, 0); (1%nat, 1, 0); (6%nat, 0, 0); (6%nat, 1, 0); (9%nat, 0, 0);
      (9%nat, 1, 0)];
     [(1%nat, 2, 0); (1%nat, 2, 1); (6%nat, 2, 0); (9%nat, 2, 0); (9%nat, 2, 1)]].
Proof. split; vm_compute; reflexivity. Qed.

Definition process_queue : ProcQueueClient.Client := ProcQueueClient.new (QueueManager.Init 1).

(** A client process sends a data message and waits for [n] passes. *)
Definition request (n : nat) (r : Runtime) : outcome (Z * Runtime) :=
  '(task, w) ← SmallMessageClient.AsyncIoRoot running.1 process_queue 5 6 DomainId.GetLocal (node r);
  r ← passes n (set_node w r);
  '(ret, w) ← SmallMessageClient.IoRoot_finish task (node r);
  Ok (ret, set_node w r).

(** Its lane is polled before the library's in a pass: two passes answer it, one does not. The
    answer is that the data arrived, and both tasks are gone. *)
Example request_answered :
  ∃ r, request 2 running.2 = Ok (1, r) ∧ Node.heap (node r) = Node.heap (node running.2).
Proof. eexists. split; vm_compute; reflexivity. Qed.

Example request_waits : request 1 running.2 = Blocked.
Proof. vm_compute. reflexivity. Qed.

(** ** The end

    The admin is asked to stop the runtime; once the daemon's RPC server is stopped, the
    workers are told to end, and each makes one last pass. *)
Definition stop (r : Runtime) : outcome Runtime :=
  '(_, w) ← AdminClient.AsyncRoot (λ task_node,
    AdminClient.AsyncStopRuntime (Admin.client (node r)) task_node DomainId.GetLocal) (node r);
  round (set_node w r).

Example stop_ends_workers :
  (r ← stop running.2;
   r ← RunDaemon (λ _, true) (λ _ _ w, w) 0 r;
   Ok (IsRuntimeAlive (node running.2), Node.signals_ (node r), IsRuntimeAlive (node r),
       IsAlive (node r))) = Ok (true, ["tcp://10.0.0.2:8080"%string], false, false).
Proof. vm_compute. reflexivity. Qed.
