(* ===== verification/IoPath.v ===== *)
(** * The path of a request: client, process queue, library, and back

    A client's message goes through two lanes: the push task is polled in the lane of the
    process, submits the message to the lane of its library and waits; the message is run
    there; the push task is polled again and completes. The composition of the client, the
    worker and the two libraries is what a user of the system sees. *)

From S2P Require Import Prelude Hshm RefLib Types Queue LocalSerialize Config QueueManager.
From S2P Require Import Archive Task TaskTypes World LibExec Registry Rpc Exec WorkerLoop.
From S2P Require Import Thallium Schedulers ProcQueue SmallMessage Admin RemoteQueue TaskName Libs.
From S2P Require Import Runtime Startup Scenario.

(** ** Polling the head of a lane *)

Section head.
Context `{BitfieldLaws} `{MpscLaws} `{SpscOps} `{CharbufLaws} `{AllocOps} `{Logger}
        `{TaskExecOps} `{RawMemory}.

(** A task the worker runs itself, on its own stack *)
Record plain_task (o : TaskObj) (w : Node) : Prop := {
  plain_exec : GetTaskState (Task.task_state_ (base o)) w ≠ 0;
  plain_local : DomainId.IsRemote (Task.domain_id_ (base o)) (Z.of_nat (length (Node.hosts_ w)))
                  (Node.node_id_ w) = false;
  plain_enabled : Task.IsRunDisabled (base o) = false;
  plain_stack : Task.IsCoroutine (base o) = false;
  plain_thread : Task.IsPreemptive (base o) = false;
}.

Lemma plain_kept q o w w' : plain_task o w → env_kept q w w' → plain_task o w'.
Proof.
  intros [He Hl Hd Hs Ht] (_ & Hr & Hn & Hh & _).
  split; [by rewrite (GetTaskState_same _ _ _ Hr)|by rewrite Hh, Hn|done..].
Qed.

Lemma upd_lane_kept e f w w' :
  upd_lane e f w = Ok w' → env_kept (WorkEntry.queue_ e) w w' ∧ Node.workers_ w' = Node.workers_ w.
Proof.
  unfold upd_lane, put_lane. intros. invert_ok. split; [|done]. split_and!; try done.
  intros q' Hne. simpl. by rewrite list_lookup_insert_ne.
Qed.

(** An iteration at an offset of a lane, for a task of this node whose entry is not complete *)
Lemma poll_iteration_at wi e off w lane d o :
  let a := Convert (LaneData.p_ d) in
  0 ≤ off → lane_at e w = Ok lane → Lane.data lane !! Z.to_nat off = Some d →
  LaneData.complete_ d = false →
  Node.heap w !! a = Some o → GetTaskState (Task.task_state_ (base o)) w ≠ 0 →
  DomainId.IsRemote (Task.domain_id_ (base o)) (Z.of_nat (length (Node.hosts_ w)))
    (Node.node_id_ w) = false →
  let exec := GetTaskState (Task.task_state_ (base o)) w in
  let c := RunContext.set_exec exec
             (RunContext.set_lane_id (WorkEntry.lane_id_ e) (Task.ctx_ (base o))) in
  let w1 := put_task a (on_base (Task.set_ctx c) o) w in
  poll_iteration wi e off w =
    '(off, w4) ←
      ('(b, w2) ← (if Task.IsRunDisabled (base o) then Ok (false, w1)
                   else CheckTaskGroup wi a exec (WorkEntry.lane_id_ e) (Task.task_node_ (base o)) false w1);
       w3 ← (if (b : bool) then execute e off a exec false w2 else Ok w2);
       cleanup wi e off a exec false w3);
    Ok (Some off, w4).
Proof.
  intros a Hoff Hl Hd Hdc Hh He Hloc exec c w1.
  unfold poll_iteration. unfold lane_at in Hl. rewrite Hl. simpl.
  rewrite mpsc_peek_spec, Hd by done. simpl. rewrite Hdc. fold a.
  unfold poll_task, upd_ctx. erewrite upd_task_Ok by done. cbn [mbind outcome_bind].
  rewrite get_put_task_eq. cbn [mbind outcome_bind].
  change (GetTaskState (Task.task_state_ (base (on_base _ o))) _) with exec.
  erewrite upd_task_Ok by apply lookup_insert_eq. cbn [mbind outcome_bind].
  rewrite put_put_task. fold exec in He. rewrite (proj2 (Z.eqb_neq _ _) He).
  match goal with |- context [put_task a ?o1 w] =>
    change (put_task a o1 w) with w1; change (Task.domain_id_ (base (on_base _ o))) with (Task.domain_id_ (base o)) end.
  change (Node.hosts_ w1) with (Node.hosts_ w). change (Node.node_id_ w1) with (Node.node_id_ w).
  rewrite Hloc. reflexivity.
Qed.

(** At its head *)
Lemma poll_iteration_local wi e w lane d rest o :
  let a := Convert (LaneData.p_ d) in
  lane_at e w = Ok lane → Lane.data lane = d :: rest → LaneData.complete_ d = false →
  Node.heap w !! a = Some o → GetTaskState (Task.task_state_ (base o)) w ≠ 0 →
  DomainId.IsRemote (Task.domain_id_ (base o)) (Z.of_nat (length (Node.hosts_ w)))
    (Node.node_id_ w) = false →
  let exec := GetTaskState (Task.task_state_ (base o)) w in
  ∃ c, let w1 := put_task a (on_base (Task.set_ctx c) o) w in
  poll_iteration wi e 0 w =
    '(off, w4) ←
      ('(b, w2) ← (if Task.IsRunDisabled (base o) then Ok (false, w1)
                   else CheckTaskGroup wi a exec (WorkEntry.lane_id_ e) (Task.task_node_ (base o)) false w1);
       w3 ← (if (b : bool) then execute e 0 a exec false w2 else Ok w2);
       cleanup wi e 0 a exec false w3);
    Ok (Some off, w4).
Proof.
  intros a Hl Hd Hdc Hh He Hloc exec. eexists.
  apply (poll_iteration_at wi e 0 w lane d o); try done. by rewrite Hd.
Qed.

Lemma poll_iteration_head wi e w lane p rest o :
  lane_at e w = Ok lane → Lane.data lane = LaneData.make p false :: rest →
  Node.heap w !! Convert p = Some o → plain_task o w →
  let a := Convert p in let exec := GetTaskState (Task.task_state_ (base o)) w in
  ∃ c, let w1 := put_task a (on_base (Task.set_ctx c) o) w in
  poll_iteration wi e 0 w =
    '(off, w4) ←
      ('(b, w2) ← CheckTaskGroup wi a exec (WorkEntry.lane_id_ e) (Task.task_node_ (base o)) false w1;
       w3 ← (if (b : bool) then execute e 0 a exec false w2 else Ok w2);
       cleanup wi e 0 a exec false w3);
    Ok (Some off, w4).
Proof.
  intros Hl Hd Hh [He Hloc Hen Hst Hth] a exec.
  destruct (poll_iteration_local wi e w lane (LaneData.make p false) rest o Hl Hd eq_refl Hh He Hloc)
    as (c & Hit). exists c. cbv zeta in Hit. by rewrite Hen in Hit.
Qed.

(** Running such a task *)
Lemma execute_plain e off a exec w o :
  Node.heap w !! a = Some o → Task.IsCoroutine (base o) = false → Task.IsPreemptive (base o) = false →
  execute e off a exec false w =
    exec_Run exec (Task.method_ (base o)) a (put_task a (on_base Task.SetStarted o) w).
Proof.
  intros Hh Hc Hp. unfold execute. unfold get_task. rewrite Hh. cbn [deref mbind outcome_bind].
  rewrite Hc, Hp. by erewrite upd_task_Ok by done.
Qed.

(** A task that is not complete stays where it is. *)
Lemma cleanup_waits wi e off a exec w o :
  Node.heap w !! a = Some o → Task.IsModuleComplete (base o) = false →
  cleanup wi e off a exec false w = Ok (off + 1, w).
Proof.
  intros Hh Hc. unfold cleanup, get_task. rewrite Hh. cbn [deref mbind outcome_bind]. by rewrite Hc.
Qed.

(** An ordered task that is complete leaves the head of its lane and its group. *)
Lemma cleanup_ordered wi e a exec w o lane d rest wk ret m :
  Node.heap w !! a = Some o → Task.IsModuleComplete (base o) = true →
  Task.IsCoroutine (base o) = false → Task.IsPreemptive (base o) = false →
  Task.IsFireAndForget (base o) = false → Task.IsUnordered (base o) = false →
  lane_at e w = Ok lane → Lane.data lane = d :: rest → get_worker wi w = Ok wk →
  (∀ w' group, Node.heap w' = Node.heap w → Node.states w' = Node.states w →
     ∃ group', exec_GetGroup exec (Task.method_ (base o)) a group w' = Ok (ret, group')) →
  ret ≠ TASK_UNORDERED →
  leave_group (le_bytes 4 (WorkEntry.lane_id_ e)) (Worker.group_map_ wk) = Ok m →
  ∃ w', cleanup wi e 0 a exec false w = Ok (0, w') ∧
    lane_at e w' = Ok (Lane.set_data rest lane) ∧
    Node.heap w' = <[a := on_base Task.SetComplete o]> (Node.heap w) ∧
    get_worker wi w' = Ok (with_groups wk (WorkEntry.lane_id_ e) m) ∧
    env_kept (WorkEntry.queue_ e) w w'.
Proof.
  intros Hh Hmc Hco Hpr Hff Hun Hl Hd Hw Hg Hret Hm. unfold cleanup. unfold get_task at 1.
  rewrite Hh. cbn [deref mbind outcome_bind]. rewrite Hmc.
  destruct (upd_lane_Ok e (alter LaneData.set_complete (Z.to_nat 0)) w lane Hl)
    as (w1 & Hu & Hl1 & Hh1 & Hn1).
  destruct (upd_lane_kept _ _ _ _ Hu) as [K1 W1].
  unfold upd_entry. rewrite Hu. cbn [mbind outcome_bind]. rewrite Hco, Hpr. cbn [mbind outcome_bind].
  destruct (Hg w1 (Worker.group_ wk)) as [group' Hgg]; [done|apply K1|].
  assert (get_task a w1 = Ok o) as Ho1 by (unfold get_task; by rewrite Hh1, Hh).
  assert (get_worker wi w1 = Ok wk) as Hw1 by (unfold get_worker; rewrite W1; exact Hw).
  rewrite (RemoveTaskGroup_lane wi a exec _ w1 o wk ret group' m Ho1 Hw1 Hgg Hret Hun Hm).
  cbn [mbind outcome_bind]. set (w2 := put_worker _ _ w1).
  destruct (upd_lane_Ok e mpsc_pop w2 _ (eq_trans (lane_at_same e w1 w2 eq_refl) Hl1))
    as (w3 & Hu3 & Hl3 & Hh3 & _).
  destruct (upd_lane_kept _ _ _ _ Hu3) as [K3 W3].
  unfold EndTask, PopTask. simpl (0 =? 0). cbv iota. rewrite Hu3. cbn [mbind outcome_bind].
  assert (Node.heap w3 !! a = Some o) as Hh3' by (rewrite Hh3; simpl; by rewrite Hh1).
  unfold get_task at 1. rewrite Hh3'. cbn [deref mbind outcome_bind]. rewrite Hff, andb_false_r.
  erewrite upd_task_Ok by done. cbn [mbind outcome_bind]. eexists. split; [done|]. split.
  { transitivity (lane_at e w3); [done|]. rewrite Hl3, mpsc_pop_spec. simpl. by rewrite Hd. }
  split; [simpl; rewrite Hh3; simpl; by rewrite Hh1|]. split.
  { transitivity (get_worker wi w3); [done|]. unfold get_worker at 1. rewrite W3.
    exact (get_put_worker_eq _ _ _ _ Hw1). }
  transitivity w1; [done|]. transitivity w2; [done|]. by transitivity w3.
Qed.

End head.

(** ** Submitting to a lane with room *)

Section lanes.
Context `{BitfieldLaws} `{MpscLaws}.

(** [e] is the entry of the lane tasks of hash [hash] go to, and the lane has room. *)
Definition lane_open (e : WorkEntry) (hash : Z) (lane : Lane) (w : Node) : Prop :=
  ∃ x g, get_queue (WorkEntry.queue_ e) w = Ok x ∧ MultiQueue.IsEmplacePlugged x = false ∧
    MultiQueue.GetGroup x (WorkEntry.prio_ e) = Ok g ∧ LaneGroup.num_lanes_ g ≠ 0 ∧
    WorkEntry.lane_id_ e = hash `mod` LaneGroup.num_lanes_ g ∧
    MultiQueue.GetLane x (WorkEntry.prio_ e) (WorkEntry.lane_id_ e) = Ok lane ∧
    Z.of_nat (length (Lane.data lane)) < Lane.depth_ lane.

Lemma lane_open_at e hash lane w : lane_open e hash lane w → lane_at e w = Ok lane.
Proof.
  intros (x & g & Hx & _ & _ & _ & _ & Hl & _). unfold lane_at, get_lane. by rewrite Hx.
Qed.

Lemma lane_open_same e hash lane w w' :
  lane_open e hash lane w →
  Node.queue_map_ w' !! WorkEntry.queue_ e = Node.queue_map_ w !! WorkEntry.queue_ e →
  lane_open e hash lane w'.
Proof. intros (x & g & Hx & Hr) E. exists x, g. split; [|done]. unfold get_queue in *. by rewrite E. Qed.

Lemma Emplace_open e hash lane p w :
  lane_open e hash lane w →
  ∃ wq, Client.Emplace (WorkEntry.queue_ e) (WorkEntry.prio_ e) hash p w = Ok (true, wq) ∧
    lane_at e wq = Ok (Lane.set_data (Lane.data lane ++ [LaneData.make p false]) lane) ∧
    (∀ q', q' ≠ WorkEntry.queue_ e → Node.queue_map_ wq !! q' = Node.queue_map_ w !! q') ∧
    Node.queue_map_ wq =
      queues_with e (Lane.set_data (Lane.data lane ++ [LaneData.make p false]) lane) (Node.queue_map_ w).
Proof.
  intros (x & g & Hx & Hplug & Hg & Hn & Hlid & Hl & Hroom). unfold Client.Emplace. rewrite Hx.
  cbn [mbind outcome_bind]. unfold MultiQueue.Emplace, MultiQueue.EmplaceData. rewrite Hplug, Hg.
  cbn [mbind outcome_bind mret outcome_ret]. unfold urem. rewrite (proj2 (Z.eqb_neq _ _) Hn).
  cbn [mbind outcome_bind]. rewrite <- Hlid.
  assert (MultiQueue.GetLaneIn g (WorkEntry.lane_id_ e) = Ok lane) as ->.
  { unfold MultiQueue.GetLane in Hl. rewrite Hg in Hl. exact Hl. }
  cbn [mbind outcome_bind]. unfold Lane.emplace. rewrite mpsc_emplace_room by done.
  cbn [mbind outcome_bind mret outcome_ret]. eexists. split; [done|]. split.
  - unfold lane_at, get_lane. erewrite get_put_queue_eq by done. cbn [mbind outcome_bind].
    by eapply GetLane_put_eq.
  - split; [intros q' Hne; simpl; by rewrite list_lookup_insert_ne|]. by apply put_queue_with.
Qed.

End lanes.

(** ** The push task *)

Section push.
Context `{BitfieldLaws} `{Logger} `{MpscLaws} `{SpscOps} `{AllocOps} `{RawMemory} `{CerealOps}
        `{CharbufLaws} `{HvecOps} `{Dlfcn} `{NetOps} `{ThalliumOps} `{OtherLibs}
        `{DaemonOps}.
Variable (rpc : RpcContext) (ncpu : Z).
#[local] Instance path_exec : TaskExecOps := lib_exec rpc ncpu.

(** The state at [exec] is one of the process queue. *)
Definition is_proc_queue (exec : Z) (w : Node) : Prop :=
  ∃ st, get_state exec w = Ok st ∧ TaskLib.server st = ProcQueueServer.

Lemma proc_queue_Run exec a w :
  is_proc_queue exec w → exec_Run exec ProcQueueMethod.kPush a w = ProcQueue.Push a w.
Proof.
  intros (st & Hst & Hs). change (lib_Run rpc ncpu exec ProcQueueMethod.kPush a w = ProcQueue.Push a w).
  unfold lib_Run. rewrite Hst. cbn [mbind outcome_bind]. by rewrite Hs.
Qed.

Lemma proc_queue_GetGroup exec a w o p group :
  is_proc_queue exec w → get_task a w = Ok o → body o = BTypedPush p →
  exec_GetGroup exec ProcQueueMethod.kPush a group w = Ok (TypedPush.GetGroup (base o) group).
Proof.
  intros (st & Hst & Hs) Ho Hp.
  change (lib_GetGroup exec ProcQueueMethod.kPush a group w = Ok (TypedPush.GetGroup (base o) group)).
  unfold lib_GetGroup. rewrite Hst. cbn [mbind outcome_bind]. rewrite Hs. unfold GetGroup.
  change (methods_of ProcQueueServer ProcQueueMethod.kPush) with (Some c_TypedPush). cbv iota.
  rewrite Ho. cbn [mbind outcome_bind]. unfold as_type. rewrite Hp. done.
Qed.

Lemma ordered_ret : 0 ≠ TASK_UNORDERED.
Proof. unfold TASK_UNORDERED. rewrite BIT_OPT_spec; lia. Qed.

(** A push task that can be polled *)
Record push_task (o : TaskObj) (p : TypedPush.TypedPushTask) (w : Node) : Prop := {
  push_plain : plain_task o w;
  push_body : body o = BTypedPush p;
  push_method : Task.method_ (base o) = ProcQueueMethod.kPush;
  push_state : is_proc_queue (GetTaskState (Task.task_state_ (base o)) w) w;
  push_ordered : Task.IsUnordered (base o) = false;
  push_kept : Task.IsFireAndForget (base o) = false;
  push_incomplete : Task.IsModuleComplete (base o) = false;
}.

(** The task after a poll that found its subtask not complete *)
Definition pushed (c : RunContext) (o : TaskObj) (p : TypedPush.TypedPushTask) : TaskObj :=
  mkTaskObj (Task.SetStarted (Task.set_ctx c (base o)))
    (BTypedPush (TypedPush.mk (TypedPush.sub_cli_ p)
       (mkLPointer (Convert (shm_ (TypedPush.sub_cli_ p))) (shm_ (TypedPush.sub_cli_ p)))
       PushTaskPhase.kWaitSchedule)).

(** A lane with one task is left alone once the task was passed over. *)
Lemma poll_loop_one wi e i w w' lane d :
  (2 ≤ i)%nat → poll_iteration wi e 0 w = Ok (Some 1, w') →
  lane_at e w' = Ok lane → Lane.data lane = [d] → poll_loop wi e i 0 w = Ok w'.
Proof.
  intros Hi Hit Hl Hd. destruct i as [|[|i]]; [lia|lia|]. simpl. rewrite Hit.
  cbn [mbind outcome_bind]. unfold poll_iteration. unfold lane_at in Hl. rewrite Hl.
  cbn [mbind outcome_bind]. by rewrite mpsc_peek_spec, Hd by lia.
Qed.

Lemma poll_loop_emptied wi e i w w' lane :
  (2 ≤ i)%nat → poll_iteration wi e 0 w = Ok (Some 0, w') →
  lane_at e w' = Ok lane → Lane.data lane = [] → poll_loop wi e i 0 w = Ok w'.
Proof.
  intros Hi Hit Hl Hd. destruct i as [|[|i]]; [lia|lia|]. simpl. rewrite Hit.
  cbn [mbind outcome_bind]. unfold poll_iteration. unfold lane_at in Hl. rewrite Hl.
  cbn [mbind outcome_bind]. by rewrite mpsc_peek_spec, Hd by lia.
Qed.

(** The first poll submits the subtask. *)
Lemma poll_push_first wi e es w lane p o tp os ls wk :
  let a := Convert p in
  let shm := shm_ (TypedPush.sub_cli_ tp) in
  let ptr := Convert shm in
  let node := Task.task_node_ (base o) in
  lane_at e w = Ok lane → Lane.data lane = [LaneData.make p false] →
  Node.heap w !! a = Some o → push_task o tp w → Task.IsStarted (base o) = false →
  TypedPush.phase_ tp = PushTaskPhase.kSchedule →
  ptr ≠ a → Node.heap w !! ptr = Some os → Task.IsComplete (base os) = false →
  Client.GetQueue (Task.task_state_ (base os)) w = Ok (WorkEntry.queue_ es) →
  WorkEntry.queue_ es ≠ WorkEntry.queue_ e →
  Task.prio_ (base os) = WorkEntry.prio_ es →
  lane_open es (Task.lane_hash_ (base os)) ls w →
  get_worker wi w = Ok wk →
  Worker.group_map_ wk !! le_bytes 4 (WorkEntry.lane_id_ e) = None →
  ∃ c w', PollGrouped wi e w = Ok w' ∧ lane_at e w' = Ok lane ∧
    lane_at es w' = Ok (Lane.set_data (Lane.data ls ++ [LaneData.make shm false]) ls) ∧
    Node.heap w' !! a = Some (pushed c o tp) ∧
    Node.heap w' !! ptr = Some (submitted os) ∧
    (∀ b, b ≠ a → b ≠ ptr → Node.heap w' !! b = Node.heap w !! b) ∧
    get_worker wi w' = Ok (with_groups wk (WorkEntry.lane_id_ e)
      (<[le_bytes 4 (WorkEntry.lane_id_ e) := TaskNode.set_depth 1 node]> (Worker.group_map_ wk))) ∧
    env_kept (WorkEntry.queue_ es) w w' ∧ groups_of w' =
      <[wi := <[le_bytes 4 (WorkEntry.lane_id_ e) := TaskNode.set_depth 1 node]> (Worker.group_map_ wk)]>
        (groups_of w).
Proof.
  intros a shm ptr node Hl Hd Ho Hpush Hns Hph Hne Hos Hnc Hq Hqne Hprio Hopen Hwk Hfree.
  destruct Hpush as [Hplain Hb Hm Hst Hord Hff Hmc].
  destruct (poll_iteration_head wi e w lane p [] o Hl Hd Ho Hplain) as (c & Hit).
  cbv zeta in Hit. fold a in Hit. set (exec := GetTaskState _ _) in *.
  set (o1 := on_base (Task.set_ctx c) o) in *. set (w1 := put_task a o1 w) in *.
  assert (get_task a w1 = Ok o1) as Ho1 by apply get_put_task_eq.
  rewrite (CheckTaskGroup_lane wi a exec _ _ w1 o1 wk 0 (TypedPush.GetGroup (base o1) (Worker.group_ wk)).2)
    in Hit; [|exact Ho1|exact Hwk| |exact ordered_ret|exact Hord|exact Hns].
  2: { change (Task.method_ (base o1)) with (Task.method_ (base o)). rewrite Hm.
       by apply (proc_queue_GetGroup exec a w1 o1 tp). }
  unfold enter_group in Hit. rewrite Hfree in Hit. cbn [mbind outcome_bind] in Hit.
  set (wk' := with_groups _ _ _) in *. set (w2 := put_worker wi wk' w1) in *.
  rewrite (execute_plain e 0 a exec w2 o1) in Hit;
    [|apply lookup_insert_eq|exact (plain_stack _ _ Hplain)|exact (plain_thread _ _ Hplain)].
  set (o3 := on_base Task.SetStarted o1) in *. set (w3 := put_task a o3 w2) in *.
  change (Task.method_ (base o1)) with (Task.method_ (base o)) in Hit. rewrite Hm in Hit.
  rewrite proc_queue_Run in Hit by exact Hst.
  assert (get_task a w3 = Ok o3) as Ho3 by apply get_put_task_eq.
  assert (Node.heap w3 !! ptr = Some os) as Hos3.
  { simpl. rewrite !lookup_insert_ne by done. exact Hos. }
  destruct (Emplace_open es (Task.lane_hash_ (base os)) ls shm w3) as (wq & He & Hlq & Hqo & _).
  { eapply lane_open_same; [exact Hopen|done]. }
  rewrite <- Hprio in He.
  destruct (Push_schedule_Ok a w3 o3 tp os (WorkEntry.queue_ es) true wq Ho3 Hb Hne)
    as (w4 & Hps & Hq4 & Hs4 & Ha4 & Hb4 & Hw4); [by apply get_task_Ok|exact Hq|exact He|].
  assert (ProcQueue.Push a w3 = Ok w4) as Hrun.
  { unfold ProcQueue.Push. rewrite (get_push_Ok _ _ _ _ Ho3 Hb). cbn [mbind outcome_bind snd].
    rewrite Hph. simpl. rewrite Hps. cbn [mbind outcome_bind].
    rewrite (Push_wait_Ok _ _ _ _ _ Ha4 eq_refl Hs4).
    destruct (submitted_spec os) as (_ & _ & -> & _). by rewrite Hnc. }
  rewrite Hrun in Hit. cbn [mbind outcome_bind] in Hit.
  apply get_task_Ok in Ha4, Hs4.
  rewrite (cleanup_waits wi e 0 a exec w4 _ Ha4) in Hit.
  2: { simpl. rewrite IsModuleComplete_SetStarted. exact Hmc. }
  cbn [mbind outcome_bind] in Hit.
  assert (Node.queue_map_ w3 = Node.queue_map_ w) as Eq3 by done.
  assert (lane_at e w4 = Ok lane) as Hl4.
  { unfold lane_at, get_lane, get_queue in *. by rewrite Hq4, Hqo, Eq3 by done. }
  assert (lane_at es w4 = lane_at es wq) as Hs4' by (by apply lane_at_same).
  exists c, w4. split; [by eapply (poll_loop_one wi e 1024); [lia|exact Hit|..]|].
  split; [done|]. split; [by rewrite Hs4'|]. split; [exact Ha4|]. split; [exact Hs4|].
  split.
  { intros b Hba Hbp. specialize (Hb4 b Hba Hbp). unfold get_task in Hb4.
    assert (Node.heap w3 !! b = Node.heap w !! b) as E3 by (simpl; by rewrite !lookup_insert_ne).
    rewrite E3 in Hb4. by destruct (Node.heap w4 !! b), (Node.heap w !! b); simpl in Hb4; simplify_eq. }
  split; [rewrite Hw4; exact (get_put_worker_eq _ _ _ _ Hwk)|]. split.
  - rewrite Hw4. split_and!; try done. intros q' Hq'. simpl. by rewrite Hq4, Hqo.
  - rewrite Hw4. unfold groups_of. simpl. by rewrite list_fmap_insert.
Qed.

(** A later poll finds the subtask complete. *)
Lemma poll_push_last wi e w lane p o tp os wk n :
  let a := Convert p in
  lane_at e w = Ok lane → Lane.data lane = [LaneData.make p false] →
  Node.heap w !! a = Some o → push_task o tp w → Task.IsStarted (base o) = true →
  TypedPush.phase_ tp = PushTaskPhase.kWaitSchedule →
  ptr_ (TypedPush.sub_run_ tp) ≠ a → Node.heap w !! ptr_ (TypedPush.sub_run_ tp) = Some os →
  Task.IsComplete (base os) = true →
  get_worker wi w = Ok wk →
  Worker.group_map_ wk !! le_bytes 4 (WorkEntry.lane_id_ e) = Some n → TaskNode.node_depth_ n = 1 →
  ∃ w' o', PollGrouped wi e w = Ok w' ∧ lane_at e w' = Ok (Lane.set_data [] lane) ∧
    Node.heap w' = <[a := o']> (Node.heap w) ∧ body o' = body o ∧
    Task.IsComplete (base o') = true ∧ Task.delcnt_ (base o') = Task.delcnt_ (base o) ∧
    Task.IsFireAndForget (base o') = false ∧ env_kept (WorkEntry.queue_ e) w w'.
Proof.
  intros a Hl Hd Ho [Hplain Hb Hm Hst Hord Hff Hmc] Hs Hph Hne Hos Hc Hwk Hheld Hdep.
  destruct (poll_iteration_head wi e w lane p [] o Hl Hd Ho Hplain) as (c & Hit).
  cbv zeta in Hit. fold a in Hit. set (exec := GetTaskState _ _) in *.
  set (o1 := on_base (Task.set_ctx c) o) in *. set (w1 := put_task a o1 w) in *.
  assert (CheckTaskGroup wi a exec (WorkEntry.lane_id_ e) (Task.task_node_ (base o)) false w1
    = Ok (true, w1)) as Hck.
  { unfold CheckTaskGroup, w1. rewrite get_put_task_eq. cbn [mbind outcome_bind orb].
    change (Task.IsStarted (base o1)) with (Task.IsStarted (base o)). by rewrite Hs. }
  rewrite Hck in Hit. cbn [mbind outcome_bind] in Hit.
  rewrite (execute_plain e 0 a exec w1 o1) in Hit;
    [|apply lookup_insert_eq|exact (plain_stack _ _ Hplain)|exact (plain_thread _ _ Hplain)].
  set (o3 := on_base Task.SetStarted o1) in *. set (w3 := put_task a o3 w1) in *.
  change (Task.method_ (base o1)) with (Task.method_ (base o)) in Hit. rewrite Hm in Hit.
  rewrite proc_queue_Run in Hit by exact Hst.
  assert (get_task a w3 = Ok o3) as Ho3 by apply get_put_task_eq.
  rewrite (Push_again a w3 o3 tp os Ho3 Hb Hph) in Hit.
  2: { apply get_task_Ok. simpl. by rewrite !lookup_insert_ne. }
  rewrite Hc in Hit. cbn [mbind outcome_bind] in Hit.
  set (o4 := on_base Task.SetModuleComplete o3) in *. set (w4 := put_task a o4 w3) in *.
  assert (∀ n, 0 ≤ n < 32 → n ≠ 8 → n ≠ 10 →
    Task.AnyTaskFlags (BIT_OPT n) (base o4) = Task.AnyTaskFlags (BIT_OPT n) (base o)) as Hflag.
  { intros k Hk Hk8 Hk10. unfold o4, o3. simpl.
    by rewrite flag_SetModuleComplete, flag_SetStarted by done. }
  destruct (cleanup_ordered wi e a exec w4 o4 lane (LaneData.make p false) [] wk 0
    (delete (le_bytes 4 (WorkEntry.lane_id_ e)) (Worker.group_map_ wk)))
    as (w5 & Hcl & Hl5 & Hh5 & _ & Hk5); try done.
  { apply lookup_insert_eq. }
  { apply IsModuleComplete_set. }
  { unfold Task.IsCoroutine, TASK_COROUTINE. rewrite Hflag by lia. apply (plain_stack _ _ Hplain). }
  { unfold Task.IsPreemptive, TASK_PREEMPTIVE. rewrite Hflag by lia. apply (plain_thread _ _ Hplain). }
  { unfold Task.IsFireAndForget, TASK_FIRE_AND_FORGET. by rewrite Hflag by lia. }
  { unfold Task.IsUnordered, TASK_UNORDERED. by rewrite Hflag by lia. }
  { intros w' group Hh Hstates. change (Task.method_ (base o4)) with (Task.method_ (base o)). rewrite Hm.
    eexists. rewrite (proc_queue_GetGroup exec a w' o4 tp); [done|..|done].
    - destruct Hst as (st & Hst & Hsv). exists st. unfold get_state in *. by rewrite Hstates.
    - apply get_task_Ok. rewrite Hh. apply lookup_insert_eq. }
  { apply ordered_ret. }
  { unfold leave_group. rewrite Hheld. simpl. by rewrite Hdep. }
  rewrite Hcl in Hit. cbn [mbind outcome_bind] in Hit.
  exists w5, (on_base Task.SetComplete o4). split; [by eapply (poll_loop_emptied wi e 1024); [lia|exact Hit|..]|].
  split; [done|]. split; [rewrite Hh5; simpl; by rewrite !insert_insert_eq|]. split; [done|].
  split; [apply IsComplete_set|]. split; [done|]. split; [|by etransitivity].
  change (Task.IsFireAndForget (Task.SetComplete (base o4)) = false).
  rewrite IsFireAndForget_SetComplete.
  unfold Task.IsFireAndForget, TASK_FIRE_AND_FORGET. by rewrite Hflag by lia.
Qed.

(** ** The message *)

(** The state at [exec] is one of the small-message library. *)
Definition is_small_message (exec : Z) (w : Node) : Prop :=
  ∃ st count, get_state exec w = Ok st ∧ TaskLib.server st = SmallMessageServer count.

Lemma small_message_same exec w w' :
  is_small_message exec w → Node.states w' = Node.states w → is_small_message exec w'.
Proof. intros (st & c & Hst & Hs) E. exists st, c. unfold get_state in *. by rewrite E. Qed.

Lemma small_message_Run exec a w :
  is_small_message exec w →
  exec_Run exec SmallMessageMethod.kIo a w = SmallMessage.Io a w.
Proof.
  intros (st & c & Hst & Hs).
  change (lib_Run rpc ncpu exec SmallMessageMethod.kIo a w = SmallMessage.Io a w).
  unfold lib_Run. rewrite Hst. cbn [mbind outcome_bind]. by rewrite Hs.
Qed.

Lemma small_message_GetGroup exec a w o p group :
  is_small_message exec w → get_task a w = Ok o → body o = BIo p →
  exec_GetGroup exec SmallMessageMethod.kIo a group w = Ok (TASK_UNORDERED, group).
Proof.
  intros (st & c & Hst & Hs) Ho Hp.
  change (lib_GetGroup exec SmallMessageMethod.kIo a group w = Ok (TASK_UNORDERED, group)).
  unfold lib_GetGroup. rewrite Hst. cbn [mbind outcome_bind]. rewrite Hs. unfold GetGroup.
  change (methods_of (SmallMessageServer c) SmallMessageMethod.kIo) with (Some c_Io). cbv iota.
  rewrite Ho. cbn [mbind outcome_bind]. unfold as_type. rewrite Hp. done.
Qed.

(** A data message holding [data] that can be polled *)
Record io_task (o : TaskObj) (data : list Z) (w : Node) : Prop := {
  io_plain : plain_task o w;
  io_body : ∃ ret, body o = BIo (Io.mk data ret);
  io_method : Task.method_ (base o) = SmallMessageMethod.kIo;
  io_state : is_small_message (GetTaskState (Task.task_state_ (base o)) w) w;
  io_fresh : Task.IsStarted (base o) = false;
  io_kept : Task.IsFireAndForget (base o) = false;
  io_size : Z.of_nat (length data) = Io.DATA_SIZE;
}.

(** Such a message, wherever its domain sends it *)
Record io_message (o : TaskObj) (data : list Z) (w : Node) : Prop := {
  msg_exec : GetTaskState (Task.task_state_ (base o)) w ≠ 0;
  msg_enabled : Task.IsRunDisabled (base o) = false;
  msg_stack : Task.IsCoroutine (base o) = false;
  msg_thread : Task.IsPreemptive (base o) = false;
  msg_incomplete : Task.IsModuleComplete (base o) = false;
  msg_body : ∃ ret, body o = BIo (Io.mk data ret);
  msg_method : Task.method_ (base o) = SmallMessageMethod.kIo;
  msg_state : is_small_message (GetTaskState (Task.task_state_ (base o)) w) w;
  msg_fresh : Task.IsStarted (base o) = false;
  msg_kept : Task.IsFireAndForget (base o) = false;
  msg_size : Z.of_nat (length data) = Io.DATA_SIZE;
}.

Lemma io_message_local o data w :
  io_message o data w →
  DomainId.IsRemote (Task.domain_id_ (base o)) (Z.of_nat (length (Node.hosts_ w)))
    (Node.node_id_ w) = false → io_task o data w.
Proof. intros [] Hl. by split; [split|..]. Qed.

Definition verdict (data : list Z) : Z := if forallb (λ x, x =? 10) (take 256 data) then 1 else 0.

Lemma io_short o data p w :
  io_task o data w → Node.heap w !! Convert p = Some o →
  short_task (λ b, ∃ ret, b = BIo (Io.mk data ret)) (λ b, b = BIo (Io.mk data (verdict data))) w p o.
Proof.
  intros [[He Hl Hd Hs Ht] [ret Hb] Hm Hst Hf Hff Hlen] Ho. split; try done; [by exists ret|..].
  - intros w1 o1 [r Hr] Hm1 Ho1 Hstates. rewrite Hm, small_message_Run
      by (by eapply small_message_same). apply get_task_Ok in Ho1.
    rewrite (Io_Ok _ _ _ _ Ho1 Hr Hlen). eexists. split; [done|]. done.
  - intros w1 o1 group Hr Hm1 Ho1 Hstates. apply get_task_Ok in Ho1.
    assert (∃ q, body o1 = BIo q) as [q Hq] by (destruct Hr as [[r Hr]|Hr]; eauto).
    rewrite Hm, (small_message_GetGroup _ _ _ o1 q group) by (done || by eapply small_message_same).
    eexists _, _. split; [done|]. by left.
Qed.

(** One poll answers it. *)
Lemma poll_io wi e w lane p o data :
  lane_at e w = Ok lane → Lane.data lane = [LaneData.make p false] →
  Node.heap w !! Convert p = Some o → io_task o data w → (wi < length (Node.workers_ w))%nat →
  ∃ w' o', PollGrouped wi e w = Ok w' ∧ lane_at e w' = Ok (Lane.set_data [] lane) ∧
    Node.heap w' = <[Convert p := o']> (Node.heap w) ∧
    Task.IsComplete (base o') = true ∧ Task.delcnt_ (base o') = Task.delcnt_ (base o) ∧
    Task.method_ (base o') = Task.method_ (base o) ∧
    body o' = BIo (Io.mk data (verdict data)) ∧
    same_node (WorkEntry.queue_ e) w w'.
Proof.
  intros Hl Hd Ho Hio Hwi. pose proof (io_short o data p w Hio Ho) as Hs.
  destruct (short_iteration _ _ wi e w p o w lane [] Hs Ho ltac:(reflexivity) Hwi Hl Hd)
    as (w' & o' & Hit & Hl' & Hh' & Hc & Hdel & Hm & _ & HQ & Hn).
  exists w', o'. split; [|done]. by eapply (poll_loop_emptied wi e 1024); [lia|exact Hit|..].
Qed.

End push.

(** ** The whole path *)

Section answer.
Context `{BitfieldLaws} `{Logger} `{MpscLaws} `{SpscOps} `{AllocLaws} `{RawMemory} `{CerealOps}
        `{CharbufLaws} `{HvecOps} `{Dlfcn} `{NetOps} `{ThalliumOps} `{OtherLibs}
        `{DaemonOps}.

(** The flags of a new task, none of which is among those below *)
Lemma init_task_fresh memory node domain hash prio state method flags :
  (∀ n, n ∈ [7; 8; 9; 10; 12; 13; 16; 17] → Z.testbit flags n = false) →
  let t := init_task memory node domain hash prio state method flags in
  Task.IsUnordered t = false ∧ Task.IsStarted t = false ∧ Task.IsComplete t = false ∧
  Task.IsModuleComplete t = false ∧ Task.IsFireAndForget t = false ∧
  Task.IsRunDisabled t = false ∧ Task.IsCoroutine t = false ∧ Task.IsPreemptive t = false.
Proof.
  intros Hf t.
  assert (∀ n, 0 ≤ n < 32 → n ∈ [7; 8; 9; 10; 12; 13; 16; 17] →
    Task.AnyTaskFlags (BIT_OPT n) t = false) as E.
  { intros n Hn Hin. unfold Task.AnyTaskFlags, t. simpl.
    by rewrite Any_testbit, testbit_SetBits, bitfield_new_spec, Z.bits_0, Hf by done. }
  split_and!; apply E; (lia || set_solver).
Qed.

Lemma local_not_remote n id : DomainId.IsRemote DomainId.GetLocal n id = false.
Proof.
  unfold_domain. destruct (n =? 1); [done|]. rewrite bitfield_new_spec. by flags.
Qed.

Lemma push_flags n :
  n ∈ [7; 8; 9; 10; 12; 13; 16; 17] →
  Z.testbit (Z.lor TASK_DATA_OWNER (Z.lor TASK_LOW_LATENCY TASK_REMOTE_DEBUG_MARK)) n = false.
Proof.
  intros Hin. unfold TASK_DATA_OWNER, TASK_LOW_LATENCY, TASK_REMOTE_DEBUG_MARK.
  repeat (apply elem_of_cons in Hin as [->|Hin];
    [by rewrite !Z.lor_spec, !testbit_BIT_OPT by lia|]). by apply not_elem_of_nil in Hin.
Qed.

Variable (rpc : RpcContext) (ncpu : Z).
#[local] Hint Extern 0 TaskExecOps => exact (path_exec rpc ncpu) : typeclass_instances.

(** A node in which a client's data message finds its way to the worker of its lane: the two
    states and their queues are there, the lanes the push task and the message go to are
    empty and have room, a worker polls each, and no ordered task of another root runs in the
    first lane. *)
Record io_client (pq : ProcQueueClient.Client) (sm : SmallMessageClient.Client) (tid pid : Z)
    (wi wj : nat) (ep es : WorkEntry) (lp ls : Lane) (w : Node) : Prop := {
  path_pq_exec : GetTaskState (ProcQueueClient.id_ pq) w ≠ 0;
  path_pq_state : is_proc_queue (GetTaskState (ProcQueueClient.id_ pq) w) w;
  path_sm_exec : GetTaskState (SmallMessageClient.id_ sm) w ≠ 0;
  path_sm_state : is_small_message (GetTaskState (SmallMessageClient.id_ sm) w) w;
  path_pq_queue : Client.GetQueue (ProcQueueClient.queue_id_ pq) w = Ok (WorkEntry.queue_ ep);
  path_sm_queue : Client.GetQueue (SmallMessageClient.id_ sm) w = Ok (WorkEntry.queue_ es);
  path_queues : WorkEntry.queue_ es ≠ WorkEntry.queue_ ep;
  path_pq_prio : WorkEntry.prio_ ep = TaskPrio.kLowLatency;
  path_sm_prio : WorkEntry.prio_ es = TaskPrio.kLowLatency;
  path_pq_lane : lane_open ep (wrap32 (tid + pid)) lp w;
  path_sm_lane : lane_open es 3 ls w;
  path_pq_empty : Lane.data lp = [];
  path_sm_empty : Lane.data ls = [];
  path_worker : ∃ wk, get_worker wi w = Ok wk ∧
    Worker.group_map_ wk !! le_bytes 4 (WorkEntry.lane_id_ ep) = None;
  path_sm_worker : (wj < length (Node.workers_ w))%nat;
}.

(** The message is for this node. *)
Definition io_path (pq : ProcQueueClient.Client) (sm : SmallMessageClient.Client) (tid pid : Z)
    (domain_id : DomainId) (wi wj : nat) (ep es : WorkEntry) (lp ls : Lane) (w : Node) : Prop :=
  io_client pq sm tid pid wi wj ep es lp ls w ∧
  DomainId.IsRemote domain_id (Z.of_nat (length (Node.hosts_ w))) (Node.node_id_ w) = false.

(** The ids and the domain fit their members. *)
Definition ids_fit (sm : SmallMessageClient.Client) (dom : DomainId) (w : Node) : Prop :=
  is_u32 (Node.node_id_ w) ∧ is_u64 (Node.unique_ w) ∧
  UniqueId.wf (SmallMessageClient.id_ sm) ∧ DomainId.wf dom.

Lemma set_data_nil (l : Lane) d : Lane.data l = [] → Lane.set_data [] (Lane.set_data d l) = l.
Proof. destruct l. simpl. by intros ->. Qed.

(** What the client submits: the push task [op], in its lane, and the message [os] it holds *)
Record io_submitted (sm : SmallMessageClient.Client) (dom : DomainId) (ep : WorkEntry) (lp : Lane)
    (push sub : LPointer) (op os : TaskObj) (tp : TypedPush.TypedPushTask) (data : list Z)
    (w w1 : Node) : Prop := {
  sent_push : Convert (shm_ push) = ptr_ push;
  sent_sub : Convert (shm_ sub) = ptr_ sub;
  sent_distinct : ptr_ sub ≠ ptr_ push;
  sent_heap : Node.heap w1 = <[ptr_ push := op]> (<[ptr_ sub := os]> (Node.heap w));
  sent_push_new : Node.heap w !! ptr_ push = None;
  sent_sub_new : Node.heap w !! ptr_ sub = None;
  sent_lane : lane_at ep w1 = Ok (Lane.set_data [LaneData.make (shm_ push) false] lp);
  sent_env : env_kept (WorkEntry.queue_ ep) w w1;
  sent_workers : Node.workers_ w1 = Node.workers_ w;
  sent_push_task : push_task op tp w1;
  sent_push_fresh : Task.IsStarted (base op) = false;
  sent_push_sub : TypedPush.sub_cli_ tp = sub;
  sent_push_phase : TypedPush.phase_ tp = PushTaskPhase.kSchedule;
  sent_push_del : Task.delcnt_ (base op) = 0;
  sent_io_message : io_message os data w1;
  sent_io_domain : Task.domain_id_ (base os) = dom;
  sent_io_wf : ids_fit sm dom w → Task.wf (base os);
  sent_io_incomplete : Task.IsComplete (base os) = false;
  sent_io_data : verdict data = 1;
  sent_io_del : Task.delcnt_ (base os) = 0;
  sent_io_prio : Task.prio_ (base os) = TaskPrio.kLowLatency;
  sent_io_hash : Task.lane_hash_ (base os) = 3;
  sent_io_state : Task.task_state_ (base os) = SmallMessageClient.id_ sm;
}.

Lemma AsyncIoRoot_Ok pq sm tid pid dom wi wj ep es lp ls w :
  (∀ h : gmap Z TaskObj, is_Some (allocate h)) →
  io_client pq sm tid pid wi wj ep es lp ls w →
  ∃ push sub op os tp data w1,
    SmallMessageClient.AsyncIoRoot sm pq tid pid dom w = Ok (push, w1) ∧
    io_submitted sm dom ep lp push sub op os tp data w w1.
Proof.
  intros Hal [He Hst He' Hst' Hq Hq' Hqs Hp Hp' Hl Hl' Hem Hem' Hwk Hwj].
  unfold SmallMessageClient.AsyncIoRoot, ProcQueueClient.AsyncTaskRoot, Client.MakeTaskNodeId,
    Client.fetch_add_unique. set (tn := TaskNode.make _). set (wu := Node.set_unique _ w).
  unfold Client.NewTask at 1. destruct (Hal (Node.heap wu)) as [[ss sa] Hs]. rewrite Hs.
  cbn [mbind outcome_bind]. pose proof (allocate_fresh _ _ _ Hs) as (Hsfree & _ & Hsconv).
  set (os := let '(t, p) := Io.make _ _ _ _ in mkTaskObj t (BIo p)).
  set (wa := put_task sa os wu). unfold ProcQueueClient.AsyncPush.
  destruct (Hal (Node.heap wa)) as [[ps pa] Hpa].
  pose proof (allocate_fresh _ _ _ Hpa) as (Hpfree & _ & Hpconv).
  assert (sa ≠ pa) as Hne by (intros ->; simpl in Hpfree; by rewrite lookup_insert_eq in Hpfree).
  assert (Node.heap w !! pa = None) as Hpfree'
    by (simpl in Hpfree; by rewrite lookup_insert_ne in Hpfree).
  destruct (TypedPush.make _ _ _ _ _ _ _) as [tb tp] eqn:Emk. injection Emk as <- <-.
  set (op := mkTaskObj _ _).
  destruct (Emplace_open ep (wrap32 (tid + pid)) lp ps wa) as (wq & Hem1 & Hlq & Hqo & _).
  { by eapply lane_open_same. }
  rewrite Hp in Hem1.
  rewrite (Async_Ok _ op wa ps pa (WorkEntry.queue_ ep) true wq Hpa Hq Hem1).
  exists (mkLPointer pa ps), (mkLPointer sa ss), op, os,
    (TypedPush.mk (mkLPointer sa ss) (mkLPointer raw_int raw_int) PushTaskPhase.kSchedule),
    (replicate (Z.to_nat Io.DATA_SIZE) 10), (put_task pa op wq).
  split; [done|]. pose proof (Emplace_result _ _ _ _ _ _ _ Hem1) as Hwq.
  assert (env_kept (WorkEntry.queue_ ep) w (put_task pa op wq)) as Henv.
  { rewrite Hwq. by split_and!. }
  destruct (init_task_fresh raw_task tn DomainId.GetLocal (wrap32 (tid + pid))
    TaskPrio.kLowLatency (ProcQueueClient.id_ pq) ProcQueueMethod.kPush _ push_flags)
    as (P1 & P2 & P3 & P4 & P5 & P6 & P7 & P8).
  destruct (init_task_fresh raw_task (TaskNode.add tn 1) dom 3 TaskPrio.kLowLatency
    (SmallMessageClient.id_ sm) SmallMessageMethod.kIo 0) as (I1 & I2 & I3 & I4 & I5 & I6 & I7 & I8).
  { intros n _. apply Z.bits_0. }
  assert (∀ id, GetTaskState id (put_task pa op wq) = GetTaskState id w) as Hget.
  { intros id. apply GetTaskState_same, Henv. }
  assert (∀ x, get_state x (put_task pa op wq) = get_state x w) as Hstate.
  { intros x. unfold get_state. by destruct Henv as (-> & _). }
  assert (Node.heap (put_task pa op wq) = <[pa := op]> (<[sa := os]> (Node.heap w))) as Hheap
    by (simpl; by rewrite Hwq).
  split; try done.
  - transitivity (lane_at ep wq); [done|]. by rewrite Hlq, Hem.
  - by rewrite Hwq.
  - split; try done.
    + split; [by rewrite Hget|apply local_not_remote|done..].
    + rewrite Hget. destruct Hst as (st & Hst & Hsv). exists st. by rewrite Hstate.
  - split; try done.
    + by rewrite Hget.
    + by exists raw_int.
    + rewrite Hget. destruct Hst' as (st & c & Hst' & Hsv). exists st, c. by rewrite Hstate.
  - intros (Hn & Hu & Hid & Hdom). split_and!; try done; try apply Hid; try apply Hdom.
    all: simpl; auto with hrun. rewrite bitfield_new_spec. by apply SetBits_u32.
Qed.

(** What a worker keeps while the groups of the node stay as they are *)
Lemma groups_worker wi w w' wk :
  groups_of w' = groups_of w → get_worker wi w = Ok wk →
  ∃ wk', get_worker wi w' = Ok wk' ∧ Worker.group_map_ wk' = Worker.group_map_ wk.
Proof.
  unfold groups_of, get_worker. intros E Hw. apply (f_equal (.!! wi)) in E.
  rewrite !list_lookup_fmap in E. destruct (Node.workers_ w !! wi) as [x|]; [|done].
  injection Hw as <-. destruct (Node.workers_ w' !! wi) as [x'|]; [|done].
  exists x'. split; [done|]. by injection E as ->.
Qed.

Lemma push_task_pushed c o tp w w' q :
  push_task o tp w → env_kept q w w' →
  push_task (pushed c o tp) (TypedPush.mk (TypedPush.sub_cli_ tp)
       (mkLPointer (Convert (shm_ (TypedPush.sub_cli_ tp))) (shm_ (TypedPush.sub_cli_ tp)))
       PushTaskPhase.kWaitSchedule) w'.
Proof.
  intros [Hplain Hb Hm (st & Hst & Hsv) Hord Hff Hmc] Hk. pose proof Hk as (Es & Er & _).
  assert (∀ n, 0 ≤ n < 32 → n ≠ 8 →
    Task.AnyTaskFlags (BIT_OPT n) (Task.SetStarted (Task.set_ctx c (base o))) =
    Task.AnyTaskFlags (BIT_OPT n) (base o)) as Hflag.
  { intros n Hn Hne. by rewrite flag_SetStarted. }
  split; try done.
  - destruct (plain_kept _ _ _ _ Hplain Hk) as [He Hl Hd Hs Ht]. split; try done.
    + unfold Task.IsRunDisabled, TASK_DISABLE_RUN in *. simpl. by rewrite Hflag by lia.
    + unfold Task.IsCoroutine, TASK_COROUTINE in *. simpl. by rewrite Hflag by lia.
    + unfold Task.IsPreemptive, TASK_PREEMPTIVE in *. simpl. by rewrite Hflag by lia.
  - exists st. split; [|done]. unfold get_state in *. rewrite Es.
    by rewrite (GetTaskState_same _ _ _ Er).
  - simpl. unfold Task.IsUnordered, TASK_UNORDERED in *. by rewrite Hflag by lia.
  - simpl. unfold Task.IsFireAndForget, TASK_FIRE_AND_FORGET in *. by rewrite Hflag by lia.
  - simpl. by rewrite IsModuleComplete_SetStarted.
Qed.

Lemma io_task_kept o data q w w' : io_task o data w → env_kept q w w' → io_task o data w'.
Proof.
  intros [Hp Hb Hm Hst Hf Hff Hs] Hk. pose proof Hk as (Es & Er & _).
  split; try done; [by eapply plain_kept|].
  rewrite (GetTaskState_same _ _ _ Er). by eapply small_message_same.
Qed.

(** Deleting a push task deletes its subtask, each once. *)
Lemma DelTask_TypedPush_both a w o tp os :
  Node.heap w !! a = Some o → body o = BTypedPush tp → Task.IsFireAndForget (base o) = false →
  Task.delcnt_ (base o) = 0 → ptr_ (TypedPush.sub_cli_ tp) ≠ a →
  Node.heap w !! ptr_ (TypedPush.sub_cli_ tp) = Some os → Task.delcnt_ (base os) = 0 →
  ∃ w', Client.DelTask_TypedPush a w = Ok w' ∧
    Node.heap w' = delete a (delete (ptr_ (TypedPush.sub_cli_ tp)) (Node.heap w)) ∧
    Node.queue_map_ w' = Node.queue_map_ w.
Proof.
  intros Ho Hb Hff Hd Hne Hos Hds. unfold Client.DelTask_TypedPush, get_task at 1. rewrite Ho.
  cbn [deref mbind outcome_bind]. rewrite Hb, Hff, Hd. cbn [negb].
  change (Task.delcnt_ (Task.set_delcnt (0 + 1) (base o)) =? 1) with true. cbv iota zeta.
  set (w1 := put_task a _ w).
  assert (get_task (ptr_ (TypedPush.sub_cli_ tp)) w1 = Ok os) as Hos1.
  { apply get_task_Ok. simpl. by rewrite lookup_insert_ne. }
  unfold Client.DelTask. rewrite Hos1.
  cbn [mbind outcome_bind]. rewrite Hds.
  change (Task.delcnt_ (Task.set_delcnt (0 + 1) (base os)) =? 1) with true. cbv iota zeta.
  cbn [mbind outcome_bind]. eexists. split; [done|]. split; [|done]. simpl.
  rewrite delete_insert_eq, delete_insert_ne by done. by rewrite delete_insert_eq.
Qed.

(** The client's end: [IoRoot] takes the verdict and deletes both tasks. *)
Lemma IoRoot_finish_Ok push sub w op os data ret p3 ph :
  Node.heap w !! ptr_ push = Some op → body op = BTypedPush (TypedPush.mk sub p3 ph) →
  Task.IsComplete (base op) = true → Task.IsFireAndForget (base op) = false →
  Task.delcnt_ (base op) = 0 → ptr_ sub ≠ ptr_ push →
  Node.heap w !! ptr_ sub = Some os → body os = BIo (Io.mk data ret) → Task.delcnt_ (base os) = 0 →
  ∃ w', SmallMessageClient.IoRoot_finish push w = Ok (ret, w') ∧
    Node.heap w' = delete (ptr_ push) (delete (ptr_ sub) (Node.heap w)) ∧
    Node.queue_map_ w' = Node.queue_map_ w.
Proof.
  intros Hp Hb Hc Hff Hd Hne Hs Hbs Hds.
  destruct (DelTask_TypedPush_both (ptr_ push) w op _ os Hp Hb Hff Hd Hne Hs Hds)
    as (w' & Hdel & Hh & Hq).
  exists w'. split; [|done]. unfold SmallMessageClient.IoRoot_finish.
  rewrite (proj2 (get_task_Ok _ _ _) Hp). cbn [mbind outcome_bind]. unfold Task.Wait. rewrite Hc, Hb.
  cbn [mbind outcome_bind]. change (TypedPush.get _) with (ptr_ sub).
  rewrite (proj2 (get_task_Ok _ _ _) Hs). cbn [mbind outcome_bind]. by rewrite Hbs, Hdel.
Qed.

Lemma lane_at_kept q e w w' :
  env_kept q w w' → WorkEntry.queue_ e ≠ q → lane_at e w' = lane_at e w.
Proof.
  intros (_ & _ & _ & _ & _ & _ & E) Hne. unfold lane_at, get_lane, get_queue. by rewrite E.
Qed.

Lemma GetQueue_same q id w w' :
  Client.GetQueue id w = Ok q → Node.queue_map_ w' !! q = Node.queue_map_ w !! q →
  Client.GetQueue id w' = Ok q.
Proof.
  intros Hq E. unfold Client.GetQueue, QueueManager.GetQueue in *.
  destruct (_ && _) eqn:Eb in Hq; [|done]. injection Hq as <-.
  apply andb_true_iff in Eb as [E0 E1]. apply Z.leb_le in E0. apply Z.ltb_lt in E1.
  destruct (lookup_lt_is_Some_2 (Node.queue_map_ w) (Z.to_nat (UniqueId.unique_ id))) as [x Hx]; [lia|].
  rewrite Hx in E. apply lookup_lt_Some in E.
  rewrite (proj2 (Z.leb_le _ _) E0), (proj2 (Z.ltb_lt _ _)) by lia. done.
Qed.

Lemma GetQueue_kept q q' id w w' :
  env_kept q w w' → Client.GetQueue id w = Ok q' → q' ≠ q → Client.GetQueue id w' = Ok q'.
Proof. intros (_ & _ & _ & _ & _ & _ & E) Hq Hne. apply (GetQueue_same _ _ _ _ Hq), E, Hne. Qed.

(** The first poll: the push task submitted the message. *)
Lemma push_submitted pq sm tid pid dom wi wj ep es lp ls w push sub op os tp data w1 :
  io_client pq sm tid pid wi wj ep es lp ls w →
  io_submitted sm dom ep lp push sub op os tp data w w1 →
  ∃ c w2 wk n, PollGrouped wi ep w1 = Ok w2 ∧
    lane_at ep w2 = Ok (Lane.set_data [LaneData.make (shm_ push) false] lp) ∧
    lane_at es w2 = Ok (Lane.set_data [LaneData.make (shm_ sub) false] ls) ∧
    Node.heap w2 !! ptr_ push = Some (pushed c op tp) ∧ Node.heap w2 !! ptr_ sub = Some os ∧
    (∀ b, b ≠ ptr_ push → b ≠ ptr_ sub → Node.heap w2 !! b = Node.heap w !! b) ∧
    get_worker wi w2 = Ok wk ∧
    Worker.group_map_ wk !! le_bytes 4 (WorkEntry.lane_id_ ep) = Some n ∧ TaskNode.node_depth_ n = 1 ∧
    env_kept (WorkEntry.queue_ es) w1 w2 ∧ length (Node.workers_ w2) = length (Node.workers_ w).
Proof.
  intros [_ _ _ _ _ Hqs Hne _ Hprio _ Hopen _ Hls (wk & Hwk & Hfree) Hwj].
  intros [Cp Cs Dist Hh1 Np Ns Hl1 K1 W1 Hpt Hst Hsub Hph Hdel Hmsg Hdom _ Hinc Hver Hdels Hpr Hhash Hstate].
  destruct (poll_push_first rpc ncpu wi ep es w1 _ (shm_ push) op tp os ls wk Hl1 eq_refl)
    as (c & w2 & Hp1 & Hlp2 & Hls2 & Ha2 & Hs2 & Ho2 & Hwk2 & K2 & G2); rewrite ?Hsub, ?Cs, ?Cp, ?Hhash; try done.
  { rewrite Hh1. apply lookup_insert_eq. }
  { rewrite Hh1, lookup_insert_ne by done. apply lookup_insert_eq. }
  { rewrite Hstate. by eapply GetQueue_kept. }
  { by rewrite Hprio. }
  { eapply lane_open_same; [exact Hopen|]. by apply K1. }
  { unfold get_worker in *. by rewrite W1. }
  rewrite Cp in Ha2. rewrite Hsub, Cs in Hs2, Ho2. rewrite Cp in Ho2. rewrite Hsub in Hls2.
  assert (submitted os = os) as Esub by (unfold submitted; by rewrite (msg_kept _ _ _ Hmsg)).
  rewrite Esub in Hs2. rewrite Hls in Hls2.
  exists c, w2. eexists _, (TaskNode.set_depth 1 (Task.task_node_ (base op))). split_and!; try done.
  - intros b Hb1 Hb2. by rewrite Ho2, Hh1, !lookup_insert_ne by done.
  - simpl. apply lookup_insert_eq.
  - apply (f_equal length) in G2. unfold groups_of in G2.
    by rewrite length_insert, !length_fmap, W1 in G2.
Qed.

(** What the first two polls do: the push task submitted the message, and the message ran. *)
Lemma message_polled pq sm tid pid dom wi wj ep es lp ls w push sub op os tp data w1 :
  io_path pq sm tid pid dom wi wj ep es lp ls w →
  io_submitted sm dom ep lp push sub op os tp data w w1 →
  ∃ w2 w3 c os' wk3 n, PollGrouped wi ep w1 = Ok w2 ∧ PollGrouped wj es w2 = Ok w3 ∧
    lane_at ep w3 = Ok (Lane.set_data [LaneData.make (shm_ push) false] lp) ∧
    lane_at es w3 = Ok ls ∧ env_kept (WorkEntry.queue_ es) w1 w3 ∧
    Node.heap w3 !! ptr_ push = Some (pushed c op tp) ∧
    Node.heap w3 !! ptr_ sub = Some os' ∧
    (∀ b, b ≠ ptr_ push → b ≠ ptr_ sub → Node.heap w3 !! b = Node.heap w !! b) ∧
    Task.IsComplete (base os') = true ∧ Task.delcnt_ (base os') = 0 ∧ body os' = BIo (Io.mk data 1) ∧
    get_worker wi w3 = Ok wk3 ∧
    Worker.group_map_ wk3 !! le_bytes 4 (WorkEntry.lane_id_ ep) = Some n ∧ TaskNode.node_depth_ n = 1.
Proof.
  intros [Hpath Hloc] Hsent.
  destruct (push_submitted _ _ _ _ _ _ _ _ _ _ _ _ _ _ _ _ _ _ _ Hpath Hsent)
    as (c & w2 & wk2 & n & Hp1 & Hlp2 & Hls2 & Ha2 & Hs2 & Ho2 & Hwk2 & Hg2 & Hn & K2 & L2).
  destruct Hsent as [Cp Cs Dist Hh1 Np Ns Hl1 K1 W1 Hpt Hst Hsub Hph Hdel Hmsg Hdom _ Hinc Hver Hdels _ _ _].
  assert (io_task os data w1) as Hio.
  { apply io_message_local; [done|]. destruct K1 as (_ & _ & -> & -> & _). by rewrite Hdom. }
  destruct (poll_io rpc ncpu wj es w2 _ (shm_ sub) os data Hls2 eq_refl)
    as (w3 & os' & Hp2 & Hls3 & Hh3 & Hc3 & Hd3 & _ & Hb3 & K3 & G3).
  { by rewrite Cs. }
  { by eapply io_task_kept. }
  { rewrite L2. apply Hpath. }
  destruct (groups_worker _ _ _ _ G3 Hwk2) as (wk3 & Hwk3 & Hg3). rewrite Cs in Hh3.
  exists w2, w3, c, os', wk3, n.
  rewrite set_data_nil in Hls3 by apply Hpath. split_and!; try done.
  - rewrite <- Hlp2. eapply lane_at_kept; [done|]. apply not_eq_sym, Hpath.
  - by transitivity w2.
  - by rewrite Hh3, lookup_insert_ne.
  - rewrite Hh3. apply lookup_insert_eq.
  - intros b Hb1 Hb2. by rewrite Hh3, lookup_insert_ne, Ho2.
  - by rewrite Hd3.
  - by rewrite Hb3, Hver.
  - by rewrite Hg3.
Qed.

(** C1: liveness of a client's request. A client that sends a data message gets its answer:
    [AsyncIoRoot] succeeds, polling the lane of the push task once submits the message,
    polling the lane of the message once runs it, polling the first lane again completes the
    push task, and then [IoRoot] does not block: it returns 1, the verdict that every byte
    arrived. Nothing is left behind: the heap is as it was, and both lanes are empty again. *)
Theorem IoRoot_answers pq sm tid pid dom wi wj ep es lp ls w :
  (∀ h : gmap Z TaskObj, is_Some (allocate h)) →
  io_path pq sm tid pid dom wi wj ep es lp ls w →
  ∃ push w1 w2 w3 w4 w5, SmallMessageClient.AsyncIoRoot sm pq tid pid dom w = Ok (push, w1) ∧
    PollGrouped wi ep w1 = Ok w2 ∧ PollGrouped wj es w2 = Ok w3 ∧ PollGrouped wi ep w3 = Ok w4 ∧
    SmallMessageClient.IoRoot_finish push w4 = Ok (1, w5) ∧
    Node.heap w5 = Node.heap w ∧ lane_at ep w5 = Ok lp ∧ lane_at es w5 = Ok ls.
Proof.
  intros Hal Hpath. destruct (AsyncIoRoot_Ok pq sm tid pid dom wi wj ep es lp ls w Hal (proj1 Hpath))
    as (push & sub & op & os & tp & data & w1 & Hasync & Hsent).
  destruct (message_polled _ _ _ _ _ _ _ _ _ _ _ _ _ _ _ _ _ _ _ Hpath Hsent)
    as (w2 & w3 & c & os' & wk3 & n & Hp1 & Hp2 & Hlp3 & Hls3 & K3 & Ha3 & Hs3 & Ho3 & Hc3 & Hd3 & Hb3 & Hwk3 & Hg3 & Hdep).
  destruct Hsent as [Cp Cs Dist _ Np Ns _ _ _ Hpt _ Hsub _ Hdel _ _ _ _ _ _ _ _ _].
  pose proof (push_task_pushed c op tp w1 w3 _ Hpt K3) as Hpt3. rewrite Hsub, Cs in Hpt3.
  destruct (poll_push_last rpc ncpu wi ep w3 _ (shm_ push) (pushed c op tp)
    (TypedPush.mk sub (mkLPointer (ptr_ sub) (shm_ sub)) PushTaskPhase.kWaitSchedule) os' wk3 n Hlp3 eq_refl)
    as (w4 & op' & Hp3 & Hlp4 & Hh4 & Hb4 & Hc4 & Hd4 & Hff4 & K4);
    [by rewrite Cp|exact Hpt3|apply IsStarted_set|done|by rewrite Cp|exact Hs3|done..|].
  rewrite Cp in Hh4.
  destruct (IoRoot_finish_Ok push sub w4 op' os' data 1 (mkLPointer (ptr_ sub) (shm_ sub))
    PushTaskPhase.kWaitSchedule) as (w5 & Hfin & Hh5 & Hq5); try done.
  { rewrite Hh4. apply lookup_insert_eq. }
  { rewrite Hb4. unfold pushed. simpl. by rewrite Hsub, Cs. }
  { by rewrite Hd4. }
  { by rewrite Hh4, lookup_insert_ne. }
  exists push, w1, w2, w3, w4, w5. split_and!; try done.
  - rewrite Hh5, Hh4. apply map_eq. intros k.
    destruct (decide (k = ptr_ push)) as [->|Hk1]; [by rewrite lookup_delete_eq|].
    rewrite lookup_delete_ne by done.
    destruct (decide (k = ptr_ sub)) as [->|Hk2]; [by rewrite lookup_delete_eq|].
    by rewrite lookup_delete_ne, lookup_insert_ne, Ho3.
  - rewrite <- (set_data_nil lp [LaneData.make (shm_ push) false]) by apply Hpath.
    rewrite <- Hlp4. by apply lane_at_same.
  - transitivity (lane_at es w4); [by apply lane_at_same|].
    rewrite (lane_at_kept _ _ _ _ K4); [done|apply Hpath].
Qed.

End answer.

(** ** Witness: the machine of [Scenario], once it runs *)

Ltac exists_by_evaluation :=
  repeat eexists; repeat split; try (vm_compute; reflexivity); by vm_compute.

Section witness.
Import RefInstances RefMachine RefRun.

(** The lanes of the client's process and of the message *)
Definition wit_push_entry : WorkEntry := WorkEntry.mkWorkEntry TaskPrio.kLowLatency 1 0 1.
Definition wit_io_entry : WorkEntry := WorkEntry.mkWorkEntry TaskPrio.kLowLatency 1 0 9.
Definition wit_running : Node := node running.2.
Definition wit_lane_of (e : WorkEntry) : Lane := result (Lane.mkLane [] 0 0) (lane_at e wit_running).

Lemma wit_io_path :
  io_path process_queue running.1 5 6 DomainId.GetLocal 1 1 wit_push_entry wit_io_entry
    (wit_lane_of wit_push_entry) (wit_lane_of wit_io_entry) wit_running.
Proof.
  split; try done; try (by vm_compute).
  all: exists_by_evaluation.
Qed.

Lemma IoRoot_answers_witness :
  ∃ push w1 w2 w3 w4 w5,
    SmallMessageClient.AsyncIoRoot running.1 process_queue 5 6 DomainId.GetLocal wit_running
      = Ok (push, w1) ∧
    PollGrouped 1 wit_push_entry w1 = Ok w2 ∧ PollGrouped 1 wit_io_entry w2 = Ok w3 ∧
    PollGrouped 1 wit_push_entry w3 = Ok w4 ∧
    SmallMessageClient.IoRoot_finish push w4 = Ok (1, w5) ∧ Node.heap w5 = Node.heap wit_running.
Proof.
  destruct (IoRoot_answers wit_context 2 process_queue running.1 5 6 DomainId.GetLocal 1 1
    wit_push_entry wit_io_entry (wit_lane_of wit_push_entry) (wit_lane_of wit_io_entry) wit_running)
    as (push & w1 & w2 & w3 & w4 & w5 & Ha & H1 & H2 & H3 & Hf & Hh & _).
  - intros h. by eexists.
  - exact wit_io_path.
  - by exists push, w1, w2, w3, w4, w5.
Defined.

End witness.
