(* ===== verification/Broadcast.v ===== *)
(** * A task for other nodes: dispersed, run on each of them, and collected

    The nodes of a cluster as one system. A metadata message whose domain covers other nodes
    is polled by a worker of its node, which disperses it; the push task sends it to each
    node; there the procedure puts it in the queue of its state, a worker runs it, and the
    procedure responds; the push task puts the answers in the original, and the worker, polling
    it again, completes it for the client that waits. *)

From S2P Require Import Prelude Hshm RefLib Types Queue LocalSerialize Config QueueManager.
From S2P Require Import Archive Task TaskTypes World LibExec Registry Rpc Exec WorkerLoop.
From S2P Require Import Thallium Schedulers ProcQueue SmallMessage Admin RemoteQueue TaskName Libs.
From S2P Require Import Runtime Startup Scenario IoPath.

(** ** The nodes that are called *)

(** A server: the worker that polls the lane of a library's messages, and the node, [None] for
    the node that calls *)
Record Server := mkServer {
  server_worker : nat;
  server_entry : WorkEntry;
  server_node : option Node;
}.

Section serve.
Context `{BitfieldOps} `{Logger} `{MpscOps} `{SpscOps} `{AllocOps} `{RawMemory} `{CerealOps}
        `{CharbufOps} `{HvecOps} `{Dlfcn} `{NetOps} `{ThalliumOps} `{OtherLibs}
        `{DaemonOps}.
Variable (rpc : RpcContext) (ncpu : Z).
#[local] Hint Extern 0 TaskExecOps => exact (path_exec rpc ncpu) : typeclass_instances.

(** The procedure [RpcPushSmall] and, while it waits, the worker [wi] *)
Definition answer_small (wi : nat) (e : WorkEntry) (state_id : TaskStateId) (method : Z)
    (params : list Z) (w : Node) : outcome (list Z * Node) :=
  '(p, w) ← RemoteQueue.RpcPushSmall state_id method params w;
  w ← PollGrouped wi e w;
  RemoteQueue.RpcPush_finish method p w.

(** Bulk transfers between the server and a client whose buffer holds [data] *)
Definition bulk_engine (data : list Z) : TlEngineOps := {|
  tl_server _ _ := None;
  tl_client _ := None;
  tl_shutdown _ _ := false;
  tl_push _ local := Some (Z.of_nat (length local));
  tl_pull _ _ := Some (Z.of_nat (length data), data);
  tl_wait_for_finalize _ _ := Blocked;
|}.

(** The procedure [RpcPushBulk] and, while it waits, the worker [wi]: the response, and the
    client's buffer afterwards. Its handle is not looked at. *)
Definition answer_bulk (wi : nat) (e : WorkEntry) (state_id : TaskStateId) (method : Z)
    (params : list Z) (io_type : IoType) (data : list Z) (w : Node)
    : outcome (list Z * list Z * Node) :=
  (λ E : TlEngineOps,
    let data_size := Z.of_nat (length data) in
    '(p, buf, w) ← RemoteQueue.RpcPushBulk state_id method params 0 data_size io_type w;
    w ← PollGrouped wi e w;
    '(bs, written, w) ← RemoteQueue.RpcPushBulk_finish method 0 data_size io_type p buf w;
    Ok (bs, default data written, w)) (bulk_engine data).

(** Calls between the nodes of a cluster, by the names of the servers. A procedure is called
    where it was registered, with the arguments it takes. A call to the node itself changes
    it; what another node becomes is not followed. *)
Definition cluster_thallium (servers : string → option Server) : ThalliumOps := {|
  remote_proc name func_name state_id method params w :=
    match servers name with
    | Some s =>
        let answer := answer_small (server_worker s) (server_entry s) state_id method params in
        match rpc_of func_name (default w (server_node s)) with
        | Some (RpcPushSmall_of _) =>
            match server_node s with
            | Some other => '(bs, _) ← answer other; Ok (bs, w)
            | None => answer w
            end
        | _ => Throw "margo_exception"
        end
    | None => Throw "margo_exception"
    end;
  remote_io_proc name func_name io_type data state_id method params w :=
    match servers name with
    | Some s =>
        let answer :=
          answer_bulk (server_worker s) (server_entry s) state_id method params io_type data in
        match rpc_of func_name (default w (server_node s)) with
        | Some (RpcPushBulk_of _) =>
            match server_node s with
            | Some other => '(bs, data, _) ← answer other; Ok (bs, data, w)
            | None => answer w
            end
        | _ => Throw "margo_exception"
        end
    | None => Throw "margo_exception"
    end;
|}.

End serve.

(** ** A metadata message on the node that receives it *)

Section server.
Context `{BitfieldLaws} `{Logger} `{MpscLaws} `{SpscOps} `{AllocLaws} `{RawMemory} `{CerealLaws}
        `{CharbufLaws} `{HvecOps} `{Dlfcn} `{NetOps} `{ThalliumOps} `{OtherLibs}
        `{DaemonOps}.

Lemma c_Md_srl : SUPPORTS_SRL (tc_serial c_Md) = true.
Proof. change (TaskFlags.SUPPORTS_SRL Md.FLAGS = true). unfold Md.FLAGS. eval_flags. Qed.

(** The bytes of the message, and the message they become *)
Lemma Md_start count a o p nid w :
  get_task a w = Ok o → body o = BMd p → Task.wf (base o) →
  ∃ x, SaveStart (methods_of (SmallMessageServer count)) SmallMessageMethod.kMd
      (BinaryOutputArchive_new nid) a w = Ok [x] ∧
    DataTransfer.data_size_ x = Z.of_nat (length (DataTransfer.data_ x)) ∧
    ∃ ar, BinaryInputArchive_new [RemoteQueue.xfer_of (DataTransfer.data_ x)] = Ok ar ∧
      ∀ w2 pl, allocate (Node.heap w2) = Some pl → ∃ o1,
        LoadStart (methods_of (SmallMessageServer count)) SmallMessageMethod.kMd ar w2 =
          Ok (Some (mkLPointer pl.2 pl.1), put_task pl.2 o1 w2) ∧
        base o1 = Task.received (base o) (Task.new raw_task) ∧ body o1 = BMd (Md.mk raw_ints).
Proof.
  intros Ho Hb Hwf. set (s := (base o, p)).
  destruct (base_serialize_ok s nid Hwf) as (bs & xs & Hsave & Hload).
  assert (xs = []) as ->.
  { specialize (Hsave [] []). simpl in Hsave. by injection Hsave. }
  assert (ser_task true 0 (tc_serial c_Md) = base_serialize) as Hser.
  { unfold ser_task. change (tc_serial c_Md) with Md.serial.
    replace (SUPPORTS_SRL Md.serial) with true by (symmetry; exact c_Md_srl).
    by replace (SRL_SYM_START Md.serial) with true by (symmetry; exact sym_replica_start_flag). }
  unfold SaveStart, Save, LoadStart. change (methods_of _ SmallMessageMethod.kMd) with (Some c_Md).
  cbv iota beta. rewrite Ho. cbn [mbind outcome_bind]. unfold as_type. rewrite Hb.
  cbn [tc_get c_Md deref mbind outcome_bind]. rewrite Hser. unfold BinaryOutputArchive_new.
  unfold s in Hsave, Hload. cbn [tc_payload c_Md] in *. rewrite Hsave. cbn [mbind outcome_bind].
  eexists. split; [reflexivity|]. cbn [DataTransfer.data_size_ DataTransfer.data_ DataTransfer.make].
  split; [done|]. eexists. split.
  { unfold BinaryInputArchive_new. cbn. by rewrite read_memory_all. }
  intros w2 [q a2] Hal. unfold Client.NewTask. rewrite Hal. cbn [mbind outcome_bind].
  specialize (Hload (Task.new raw_task, Md.mk raw_ints) []
    [RemoteQueue.xfer_of bs] []). rewrite app_nil_r in Hload. cbn [app length] in Hload.
  eexists. split; [|split].
  - cbn [tc_empty c_Md]. rewrite Hload. cbn [mbind outcome_bind]. by rewrite put_put_task.
  - done.
  - done.
Qed.

(** The bytes of its answer *)
Lemma Md_end count a o r rest w nid :
  get_task a w = Ok o → body o = BMd (Md.mk (r :: rest)) →
  ∃ x, SaveEnd (methods_of (SmallMessageServer count)) SmallMessageMethod.kMd
      (BinaryOutputArchive_new nid) a w = Ok [x] ∧
    DataTransfer.data_ x = enc cereal_int r ∧
    DataTransfer.data_size_ x = Z.of_nat (length (DataTransfer.data_ x)).
Proof.
  intros Ho Hb. unfold SaveEnd, Save. change (methods_of _ SmallMessageMethod.kMd) with (Some c_Md).
  cbv iota beta. rewrite Ho. cbn [mbind outcome_bind]. unfold as_type. rewrite Hb.
  cbn [tc_get c_Md deref mbind outcome_bind]. unfold ser_task. change (tc_serial c_Md) with Md.serial.
  replace (SUPPORTS_SRL Md.serial) with true by (symmetry; exact c_Md_srl).
  replace (SRL_SYM_END Md.serial) with true by (symmetry; exact sym_replica_end_flag).
  eexists. split; [reflexivity|]. split; [done|]. reflexivity.
Qed.

(** The domain of a node is not remote for it. *)
Lemma own_node_local n id : DomainId.IsRemote (DomainId.GetNode id) n id = false.
Proof.
  unfold_domain. destruct (n =? 1); [done|]. rewrite bitfield_new_spec, Z.eqb_refl. by flags.
Qed.

Variable (rpc : RpcContext) (ncpu : Z).
#[local] Hint Extern 0 TaskExecOps => exact (path_exec rpc ncpu) : typeclass_instances.

(** [MdTask(alloc)], which makes the object a message is received in, does not construct [ret_],
    the array [Md] writes its result to: the message can be run where the memory happens to read
    as an array that has an element. *)
Hypothesis Hmem : raw_ints ≠ [].

(** A metadata message that can be sent and run: neither its coroutine nor its thread is
    used, and nobody disabled it. *)
Record md_task (o : TaskObj) (p : Md.MdTask) (id : TaskStateId) : Prop := {
  md_body : body o = BMd p;
  md_method : Task.method_ (base o) = SmallMessageMethod.kMd;
  md_state : Task.task_state_ (base o) = id;
  md_wf : Task.wf (base o);
  md_enabled : Task.IsRunDisabled (base o) = false;
  md_stack : Task.IsCoroutine (base o) = false;
  md_thread : Task.IsPreemptive (base o) = false;
}.

(** A node that serves the messages of the state [id]: the state is there, the lane of the
    messages with [prio] and [hash] is empty and has room, the worker exists, and the remote
    queue's procedures can be called. *)
Record md_server (id : TaskStateId) (prio hash : Z) (ln : Lane) (wi : nat) (e : WorkEntry)
    (w : Node) : Prop := {
  srv_exec : GetTaskState id w ≠ 0;
  srv_state : is_small_message (GetTaskState id w) w;
  srv_queue : Client.GetQueue id w = Ok (WorkEntry.queue_ e);
  srv_prio : prio = WorkEntry.prio_ e;
  srv_lane : lane_open e hash ln w;
  srv_empty : Lane.data ln = [];
  srv_worker : (wi < length (Node.workers_ w))%nat;
  srv_rpcs : remote_queue_registered w;
}.

(** The message as [RpcExec] puts it in its lane *)
Definition received_md (nid : Z) (t : Task) : TaskObj :=
  mkTaskObj (RemoteQueue.clear_flags (Task.set_domain_id (DomainId.GetNode nid)
    (Task.received t (Task.new raw_task)))) (BMd (Md.mk raw_ints)).

Lemma md_Run exec a w : is_small_message exec w →
  exec_Run exec SmallMessageMethod.kMd a w = SmallMessage.Md a w.
Proof.
  intros (st & c & Hst & Hs).
  change (lib_Run rpc ncpu exec SmallMessageMethod.kMd a w = SmallMessage.Md a w).
  unfold lib_Run. rewrite Hst. cbn [mbind outcome_bind]. by rewrite Hs.
Qed.

(** Without an element in the array the message cannot be run. *)
Lemma Md_unconstructed exec a w o :
  is_small_message exec w → get_task a w = Ok o → body o = BMd (Md.mk []) →
  exec_Run exec SmallMessageMethod.kMd a w = Undefined.
Proof.
  intros Hsm Ho Hb. rewrite md_Run by done. unfold SmallMessage.Md, SmallMessage.set_ret, as_type.
  rewrite Ho. cbn [mbind outcome_bind]. by rewrite Hb.
Qed.

Lemma md_GetGroup exec a w o p group :
  is_small_message exec w → get_task a w = Ok o → body o = BMd p →
  exec_GetGroup exec SmallMessageMethod.kMd a group w = Ok (TASK_UNORDERED, group).
Proof.
  intros (st & c & Hst & Hs) Ho Hp.
  change (lib_GetGroup exec SmallMessageMethod.kMd a group w = Ok (TASK_UNORDERED, group)).
  unfold lib_GetGroup. rewrite Hst. cbn [mbind outcome_bind]. rewrite Hs. unfold GetGroup.
  change (methods_of (SmallMessageServer c) SmallMessageMethod.kMd) with (Some c_Md). cbv iota.
  rewrite Ho. cbn [mbind outcome_bind]. unfold as_type. rewrite Hp. done.
Qed.

(** A message that was received is a task of the node that a worker runs itself. *)
Lemma received_plain (t : Task) b w :
  Task.IsRunDisabled t = false → Task.IsCoroutine t = false → Task.IsPreemptive t = false →
  GetTaskState (Task.task_state_ t) w ≠ 0 →
  let o := mkTaskObj (RemoteQueue.clear_flags (Task.set_domain_id (DomainId.GetNode (Node.node_id_ w))
             (Task.received t (Task.new raw_task)))) b in
  plain_task o w ∧ Task.IsStarted (base o) = false ∧ Task.IsFireAndForget (base o) = false.
Proof.
  intros Hdis Hco Hpr He o. unfold o. cbn [base].
  set (t1 := Task.set_domain_id _ _).
  destruct (clear_flags_spec t1) as (F1 & F2 & _ & _ & _ & F6 & F7 & _).
  split; [|by split]. split; cbn [base].
  - exact He.
  - apply own_node_local.
  - unfold RemoteQueue.clear_flags, t1. revert Hdis. flags_task. by rewrite !andb_true_r.
  - by rewrite F6.
  - by rewrite F7.
Qed.

Lemma received_short o p id q w :
  md_task o p id → GetTaskState id w ≠ 0 → is_small_message (GetTaskState id w) w →
  Node.heap w !! Convert q = Some (received_md (Node.node_id_ w) (base o)) →
  short_task (λ b, ∃ r rest, b = BMd (Md.mk (r :: rest))) (λ b, ∃ rest, b = BMd (Md.mk (1 :: rest))) w q
    (received_md (Node.node_id_ w) (base o)).
Proof.
  intros [Hb Hm Hs _ Hdis Hco Hpr] He Hsm Hh. rewrite <- Hs in He.
  destruct (received_plain (base o) (BMd (Md.mk raw_ints)) w Hdis Hco Hpr He)
    as ([He' Hl Hd Hc Ht] & Hst & Hff). fold (received_md (Node.node_id_ w) (base o)) in *.
  set (t := received_md _ _) in *.
  assert (Task.method_ (base t) = SmallMessageMethod.kMd ∧ Task.task_state_ (base t) = id) as [Em Es]
    by done.
  split; try done.
  - unfold t, received_md. simpl. destruct raw_ints as [|r rest]; [done|by exists r, rest].
  - intros w1 o1 (r & rest & Hr) _ Ho1 Hst1. rewrite Em, Es, md_Run by (by eapply small_message_same).
    unfold SmallMessage.Md, SmallMessage.set_ret, as_type. apply get_task_Ok in Ho1. rewrite Ho1.
    cbn [mbind outcome_bind]. rewrite Hr. simpl.
    erewrite upd_task_Ok by apply lookup_insert_eq. rewrite put_put_task.
    eexists. split; [done|]. split; [done|]. by eexists.
  - intros w1 o1 group Hr _ Ho1 Hst1. apply get_task_Ok in Ho1.
    assert (∃ x, body o1 = BMd x) as [x Hx] by (destruct Hr as [(r & rest & Hr)|[rest Hr]]; eauto).
    rewrite Em, Es, (md_GetGroup _ _ _ o1 x group) by (done || by eapply small_message_same).
    eexists _, _. split; [done|]. by left.
Qed.

(** A node answers 1, and is left as it was: no task stays, and the queues are the same. *)
Lemma answer_small_Md id ln wi e w a o p x wc count :
  (∀ h : gmap Z TaskObj, is_Some (allocate h)) →
  md_server id (Task.prio_ (base o)) (Task.lane_hash_ (base o)) ln wi e w →
  get_task a wc = Ok o → md_task o p id →
  SaveStart (methods_of (SmallMessageServer count)) SmallMessageMethod.kMd
    (BinaryOutputArchive_new (DomainId.GetNode (Node.node_id_ wc))) a wc = Ok [x] →
  ∃ w', answer_small rpc ncpu wi e id SmallMessageMethod.kMd (DataTransfer.data_ x) w =
      Ok (enc cereal_int 1, w') ∧
    Node.heap w' = Node.heap w ∧ Node.queue_map_ w' = Node.queue_map_ w ∧
    same_node (WorkEntry.queue_ e) w w'.
Proof.
  intros Hal [He Hsm Hq Hprio Hopen Hem Hwi _] Ho Hmd Hsave. destruct Hsm as (st & c & Hst & Hsv).
  destruct (Md_start count a o p (DomainId.GetNode (Node.node_id_ wc)) wc Ho
    (md_body _ _ _ Hmd) (md_wf _ _ _ Hmd))
    as (x' & Hs' & _ & ar & Hin & Hload).
  assert (x' = x) as -> by congruence. destruct (Hal (Node.heap w)) as [[shm ptr] Hp].
  destruct (Hload w _ Hp) as (o1 & Hl & Hb1 & Hbody). cbn [fst snd] in Hl.
  pose proof (allocate_fresh _ _ _ Hp) as (Hfree & _ & Hconv).
  destruct (Emplace_open e (Task.lane_hash_ (base o)) ln shm w Hopen) as (wq & Hemp & Hlq & Hqo & Hqw).
  set (o2 := received_md (Node.node_id_ w) (base o)).
  set (w1 := Node.set_queue_map (Node.queue_map_ wq) (put_task ptr o2 w)).
  assert (RemoteQueue.RpcPushSmall id SmallMessageMethod.kMd (DataTransfer.data_ x) w =
    Ok ((ptr, GetTaskState id w), w1)) as Hrpc.
  { unfold RemoteQueue.RpcPushSmall.
    rewrite (RpcExec_Ok id SmallMessageMethod.kMd [RemoteQueue.xfer_of (DataTransfer.data_ x)] ar w st
      (GetTaskState id w) shm ptr o1 (WorkEntry.queue_ e) true wq);
      try done; [|by rewrite Hsv|by rewrite Hb1, <- Hprio in *].
    cbn [mbind outcome_bind deref]. destruct o1; simpl in Hb1, Hbody; by subst. }
  assert (Node.heap w1 !! Convert shm = Some o2) as Hh1
    by (rewrite Hconv; apply lookup_insert_eq).
  assert (lane_at e w1 = Ok (Lane.set_data [LaneData.make shm false] ln)) as Hl1.
  { transitivity (lane_at e wq); [by apply lane_at_same|]. by rewrite Hlq, Hem. }
  assert (short_task (λ b, ∃ r rest, b = BMd (Md.mk (r :: rest)))
    (λ b, ∃ rest, b = BMd (Md.mk (1 :: rest))) w1 shm o2) as Hshort.
  { apply (received_short o p id shm w1); [done|done| |done]. exists st, c. by split. }
  destruct (short_iteration _ _ wi e w1 shm o2 w1 _ [] Hshort Hh1
    ltac:(reflexivity) Hwi Hl1 eq_refl)
    as (w2 & o3 & Hit & Hl2 & Hh2 & Hc & Hdel & Hme & Hq2 & [rest HQ] & Hn).
  pose proof Hn as [(Est & _) _].
  assert (PollGrouped wi e w1 = Ok w2) as Hpoll
    by (by eapply (poll_loop_emptied rpc ncpu _ e 1024); [lia|exact Hit|..]).
  rewrite Hconv in Hh2. assert (get_task ptr w2 = Ok o3) as Ho3
    by (apply get_task_Ok; rewrite Hh2; apply lookup_insert_eq).
  destruct (Md_end c ptr o3 1 rest w2 (DomainId.GetNode (Node.node_id_ w2)) Ho3 HQ)
    as (y & Hy & Hyd & Hys).
  exists (Node.set_heap (delete ptr (Node.heap w2)) w2). split; [|split; [|split]].
  - unfold answer_small. rewrite Hrpc. cbn [mbind outcome_bind]. rewrite Hpoll.
    cbn [mbind outcome_bind]. rewrite <- Hyd.
    apply (RpcPush_finish_Ok _ c_Md ptr o3 st); rewrite ?Hsv; try done;
      try exact c_Md_srl; [|rewrite Hme; apply Hmd]. unfold get_state in *. by rewrite Est.
  - simpl. rewrite Hh2. simpl. by rewrite !delete_insert_eq, delete_id.
  - transitivity (Node.queue_map_ w2); [done|]. rewrite Hq2. simpl. rewrite Hqw, queues_with_with.
    rewrite set_data_nil by done. by apply queues_with_id, (lane_open_at _ _ _ _ Hopen).
  - transitivity w1; [|by transitivity w2]. split; [|done]. by split_and!.
Qed.

End server.

(** ** Calls to the nodes of a cluster *)

Section cluster.
Context `{BitfieldLaws} `{Logger} `{MpscLaws} `{SpscOps} `{AllocLaws} `{RawMemory} `{CerealLaws}
        `{CharbufLaws} `{HvecLaws} `{Dlfcn} `{NetOps} {Calls : ThalliumOps} `{OtherLibs}
        `{DaemonOps}.
Variable (rpc : RpcContext) (ncpu : Z) (servers : string → option Server).
Hypothesis Hmem : raw_ints ≠ [].

(** The node with id [nid] serves the messages, [w] being the node that calls. *)
Definition serves (id : TaskStateId) (prio hash : Z) (nid : Z) (w : Node) : Prop :=
  ∃ name s ln, ThalliumRpc.GetServerName rpc nid = Ok name ∧ servers name = Some s ∧
    Node.node_id_ (default w (server_node s)) = nid ∧
    (nid = Node.node_id_ w → server_node s = None) ∧
    md_server id prio hash ln (server_worker s) (server_entry s) (default w (server_node s)).

Lemma md_server_kept id prio hash ln wi e q w w' :
  md_server id prio hash ln wi e w → env_kept q w w' → WorkEntry.queue_ e ≠ q →
  length (Node.workers_ w') = length (Node.workers_ w) →
  md_server id prio hash ln wi e w'.
Proof.
  intros [He Hsm Hq Hp Ho Hem Hwi Hrpc] Hk Hne Hl. pose proof Hk as (Es & Er & _ & _ & _ & Ep & Eq). split; try done.
  - by rewrite (GetTaskState_same _ _ _ Er).
  - rewrite (GetTaskState_same _ _ _ Er). by eapply small_message_same.
  - by eapply GetQueue_kept.
  - eapply lane_open_same; [done|]. by apply Eq.
  - by rewrite Hl.
  - unfold remote_queue_registered, rpc_of in *. by rewrite Ep.
Qed.

(** What a call leaves as it was: everything of the node but the counters of its workers *)
Definition quiet_call (w w' : Node) : Prop :=
  Node.heap w' = Node.heap w ∧ Node.queue_map_ w' = Node.queue_map_ w ∧
  Node.states w' = Node.states w ∧ Node.task_registry_ w' = Node.task_registry_ w ∧
  Node.node_id_ w' = Node.node_id_ w ∧ Node.hosts_ w' = Node.hosts_ w ∧
  Node.remote_queue_ w' = Node.remote_queue_ w ∧ Node.rpcs_ w' = Node.rpcs_ w ∧
  length (Node.workers_ w') = length (Node.workers_ w).

Lemma cluster_answers id nid a o p x wc w0 w q qid count :
  (∀ h : gmap Z TaskObj, is_Some (allocate h)) →
  serves id (Task.prio_ (base o)) (Task.lane_hash_ (base o)) nid w0 →
  env_kept q w0 w → length (Node.workers_ w) = length (Node.workers_ w0) →
  Client.GetQueue id w0 = Ok qid → qid ≠ q →
  get_task a wc = Ok o → md_task o p id →
  SaveStart (methods_of (SmallMessageServer count)) SmallMessageMethod.kMd
    (BinaryOutputArchive_new (DomainId.GetNode (Node.node_id_ wc))) a wc = Ok [x] →
  ∃ w', @ThalliumRpc.SyncCall _ _ (cluster_thallium rpc ncpu servers) rpc nid "RpcPushSmall" id
      SmallMessageMethod.kMd (DataTransfer.data_ x) w = Ok (enc cereal_int 1, w') ∧ quiet_call w w'.
Proof.
  intros Hal (name & s & ln & Hn & Hs & _ & _ & Hsrv) Hk Hwk Hq Hqne Ho Hmd Hsave.
  unfold ThalliumRpc.SyncCall. rewrite Hn. cbn [mbind outcome_bind]. simpl. rewrite Hs.
  destruct (server_node s) as [other|]; simpl in Hsrv; simpl default.
  - destruct (srv_rpcs _ _ _ _ _ _ _ Hsrv) as [[this ->] _].
    destruct (answer_small_Md rpc ncpu Hmem id ln _ _ other a o p x wc count Hal Hsrv Ho Hmd Hsave)
      as (w' & Ha & _). exists w. by rewrite Ha.
  - assert (WorkEntry.queue_ (server_entry s) = qid) as E
      by (pose proof (srv_queue _ _ _ _ _ _ _ Hsrv); congruence).
    pose proof (md_server_kept _ _ _ _ _ _ _ _ _ Hsrv Hk ltac:(by rewrite E) Hwk) as Hsrv'.
    destruct (srv_rpcs _ _ _ _ _ _ _ Hsrv') as [[this ->] _].
    destruct (answer_small_Md rpc ncpu Hmem id ln _ _ w a o p x wc count Hal Hsrv' Ho Hmd Hsave)
      as (w' & Ha & Hh & Hqm & Hsame). exists w'. rewrite Ha. split; [done|].
    pose proof (same_node_workers _ _ _ Hsame). destruct Hsame as [(?&?&?&?&?&?&_) _]. by split_and!.
Qed.

(** From here on, calls are those of the cluster. *)
#[local] Instance client_thallium : ThalliumOps := cluster_thallium rpc ncpu servers.

(** *** Polling a task that is for other nodes *)

#[local] Hint Extern 0 TaskExecOps => exact (path_exec rpc ncpu) : typeclass_instances.

(** What the worker does to the flags of a task it dispersed *)
Definition dispersed (t : Task) : Task := Task.UnsetCoroutine (Task.DisableRun t).

(** The part of an iteration before the task is looked at *)
Lemma poll_iteration_remote wi e w lane p rest o :
  lane_at e w = Ok lane → Lane.data lane = LaneData.make p false :: rest →
  Node.heap w !! Convert p = Some o → GetTaskState (Task.task_state_ (base o)) w ≠ 0 →
  DomainId.IsRemote (Task.domain_id_ (base o)) (Z.of_nat (length (Node.hosts_ w)))
    (Node.node_id_ w) = true →
  let a := Convert p in let exec := GetTaskState (Task.task_state_ (base o)) w in
  ∃ c, let w1 := put_task a (on_base (Task.set_ctx c) o) w in
  poll_iteration wi e 0 w =
    '(off, w3) ← (w2 ← (if Task.IsRunDisabled (base o) then Ok w1 else execute e 0 a exec true w1);
                  cleanup wi e 0 a exec true w2);
    Ok (Some off, w3).
Proof.
  intros Hl Hd Hh He Hr a exec.
  exists (RunContext.set_exec exec (RunContext.set_lane_id (WorkEntry.lane_id_ e) (Task.ctx_ (base o)))). intros w1.
  unfold poll_iteration. unfold lane_at in Hl. rewrite Hl. simpl.
  rewrite mpsc_peek_spec, Hd by lia. simpl. fold a.
  unfold poll_task, upd_ctx. erewrite upd_task_Ok by done. cbn [mbind outcome_bind].
  rewrite get_put_task_eq. cbn [mbind outcome_bind].
  change (GetTaskState (Task.task_state_ (base (on_base _ o))) _) with exec.
  erewrite upd_task_Ok by apply lookup_insert_eq. cbn [mbind outcome_bind].
  rewrite put_put_task. fold exec in He. rewrite (proj2 (Z.eqb_neq _ _) He).
  match goal with |- context [put_task a ?o1 w] =>
    change (put_task a o1 w) with w1; change (Task.domain_id_ (base (on_base _ o))) with (Task.domain_id_ (base o)) end.
  change (Node.hosts_ w1) with (Node.hosts_ w). change (Node.node_id_ w1) with (Node.node_id_ w).
  rewrite Hr. change (Task.IsRunDisabled (base (on_base _ o))) with (Task.IsRunDisabled (base o)).
  destruct (Task.IsRunDisabled (base o)); [done|].
  unfold CheckTaskGroup, w1. rewrite get_put_task_eq. done.
Qed.

(** The first poll disperses the task, which stays in its lane. *)
Lemma poll_remote_first wi e w lane p o :
  lane_at e w = Ok lane → Lane.data lane = [LaneData.make p false] →
  Node.heap w !! Convert p = Some o → GetTaskState (Task.task_state_ (base o)) w ≠ 0 →
  DomainId.IsRemote (Task.domain_id_ (base o)) (Z.of_nat (length (Node.hosts_ w)))
    (Node.node_id_ w) = true →
  Task.IsRunDisabled (base o) = false →
  let a := Convert p in
  ∃ c, ∀ wd og,
    Disperse a (GetTaskState (Task.task_state_ (base o)) w)
      (ResolveDomainId (Task.domain_id_ (base o)) (Node.hosts_ w))
      (put_task a (on_base (Task.set_ctx c) o) w) = Ok wd →
    Node.heap wd !! a = Some og → Task.IsModuleComplete (base og) = false →
    lane_at e wd = Ok lane →
    PollGrouped wi e w = Ok (put_task a (on_base dispersed og) wd).
Proof.
  intros Hl Hd Hh He Hr Hen a.
  destruct (poll_iteration_remote wi e w lane p [] o Hl Hd Hh He Hr) as (c & Hit).
  exists c. intros wd og Hdis Hog Hmc Hld. cbv zeta in Hit. fold a in Hit. rewrite Hen in Hit.
  unfold execute in Hit. rewrite get_put_task_eq in Hit. cbn [mbind outcome_bind] in Hit.
  change (Task.domain_id_ (base (on_base _ o))) with (Task.domain_id_ (base o)) in Hit.
  change (Node.hosts_ (put_task _ _ w)) with (Node.hosts_ w) in Hit.
  rewrite Hdis in Hit. cbn [mbind outcome_bind] in Hit.
  erewrite upd_task_Ok in Hit by done. cbn [mbind outcome_bind] in Hit.
  erewrite upd_task_Ok in Hit by apply lookup_insert_eq. cbn [mbind outcome_bind] in Hit.
  rewrite put_put_task in Hit. erewrite upd_task_Ok in Hit by apply lookup_insert_eq.
  cbn [mbind outcome_bind] in Hit. rewrite put_put_task in Hit.
  change (on_base Task.UnsetCoroutine _) with (on_base dispersed og) in Hit.
  set (w1 := put_task a (on_base dispersed og) wd) in *.
  unfold cleanup, w1 in Hit. rewrite get_put_task_eq in Hit. fold w1 in Hit.
  cbn [mbind outcome_bind] in Hit.
  assert (Task.IsModuleComplete (base (on_base dispersed og)) = false) as Hmc'.
  { revert Hmc. unfold dispersed. simpl base. flags_task. by rewrite orb_false_r, andb_true_r. }
  rewrite Hmc' in Hit. cbn [mbind outcome_bind] in Hit.
  by eapply (poll_loop_one rpc ncpu wi e 1024); [lia|exact Hit|..].
Qed.

(** Once the answers are in, a poll completes it. *)
Lemma poll_remote_last wi e w lane p o :
  lane_at e w = Ok lane → Lane.data lane = [LaneData.make p false] →
  Node.heap w !! Convert p = Some o → GetTaskState (Task.task_state_ (base o)) w ≠ 0 →
  DomainId.IsRemote (Task.domain_id_ (base o)) (Z.of_nat (length (Node.hosts_ w)))
    (Node.node_id_ w) = true →
  Task.IsRunDisabled (base o) = true → Task.IsModuleComplete (base o) = true →
  Task.IsCoroutine (base o) = false → Task.IsPreemptive (base o) = false →
  Task.IsFireAndForget (base o) = false →
  ∃ c w', PollGrouped wi e w = Ok w' ∧ lane_at e w' = Ok (Lane.set_data [] lane) ∧
    Node.heap w' = <[Convert p := on_base (λ t, Task.SetComplete (Task.set_ctx c t)) o]> (Node.heap w) ∧
    same_node (WorkEntry.queue_ e) w w'.
Proof.
  intros Hl Hd Hh He Hr Hdis Hmc Hco Hpr Hff.
  destruct (poll_iteration_remote wi e w lane p [] o Hl Hd Hh He Hr) as (c & Hit).
  exists c. cbv zeta in Hit. rewrite Hdis in Hit. cbn [mbind outcome_bind] in Hit.
  set (a := Convert p) in *. set (o1 := on_base (Task.set_ctx c) o) in *.
  set (w1 := put_task a o1 w) in *. assert (lane_at e w1 = Ok lane) as Hl1 by exact Hl.
  assert (get_task a w1 = Ok o1) as Ho1 by apply get_put_task_eq.
  unfold cleanup in Hit. rewrite Ho1 in Hit.
  cbn [mbind outcome_bind] in Hit.
  change (Task.IsModuleComplete (base o1)) with (Task.IsModuleComplete (base o)) in Hit.
  change (Task.IsCoroutine (base o1)) with (Task.IsCoroutine (base o)) in Hit.
  change (Task.IsPreemptive (base o1)) with (Task.IsPreemptive (base o)) in Hit.
  rewrite Hmc, Hco, Hpr in Hit.
  destruct (upd_lane_Ok e (alter LaneData.set_complete (Z.to_nat 0)) w1 lane Hl1)
    as (w2 & Hu & Hl2 & Hh2 & Hn2).
  unfold upd_entry in Hit. rewrite Hu in Hit. cbn [mbind outcome_bind RemoveTaskGroup] in Hit.
  destruct (upd_lane_Ok e mpsc_pop w2 _ Hl2) as (w3 & Hu3 & Hl3 & Hh3 & Hn3).
  unfold EndTask, PopTask in Hit. simpl (0 =? 0) in Hit. cbv iota in Hit. rewrite Hu3 in Hit.
  cbn [mbind outcome_bind] in Hit.
  assert (Node.heap w3 !! a = Some o1) as Ho3 by (rewrite Hh3, Hh2; apply lookup_insert_eq).
  unfold get_task at 1 in Hit. rewrite Ho3 in Hit. cbn [deref mbind outcome_bind] in Hit.
  change (Task.IsFireAndForget (base o1)) with (Task.IsFireAndForget (base o)) in Hit.
  rewrite Hff, andb_false_r in Hit. erewrite upd_task_Ok in Hit by done.
  cbn [mbind outcome_bind] in Hit. set (w4 := put_task a _ w3) in Hit.
  assert (lane_at e w4 = Ok (Lane.set_data [] lane)) as Hl4.
  { transitivity (lane_at e w3); [done|]. rewrite Hl3, mpsc_pop_spec. simpl. by rewrite Hd. }
  exists w4. split; [by eapply (poll_loop_emptied rpc ncpu wi e 1024); [lia|exact Hit|..]|].
  split; [done|]. split; [simpl; rewrite Hh3, Hh2; simpl; by rewrite insert_insert_eq|].
  transitivity w1; [by split; [split_and!|]|]. by transitivity w2.
Qed.

(** *** The message *)

(** A node in which a metadata message for other nodes waits in its lane: the message is
    new, its state and the lane of the remote queue are there, and each node of its domain
    serves the state. *)
Record md_client (p : Z) (o : TaskObj) (m : Md.MdTask) (st : TaskState) (count : Z)
    (e er : WorkEntry) (lane lr : Lane) (w : Node) : Prop := {
  cl_task : Node.heap w !! Convert p = Some o;
  cl_md : md_task o m (TaskLib.id_ st);
  cl_incomplete : Task.IsModuleComplete (base o) = false;
  cl_kept : Task.IsFireAndForget (base o) = false;
  cl_deleted : Task.delcnt_ (base o) = 0;
  cl_exec : GetTaskState (TaskLib.id_ st) w ≠ 0;
  cl_state : get_state (GetTaskState (TaskLib.id_ st) w) w = Ok st;
  cl_server : TaskLib.server st = SmallMessageServer count;
  cl_remote : DomainId.IsRemote (Task.domain_id_ (base o)) (Z.of_nat (length (Node.hosts_ w)))
                (Node.node_id_ w) = true;
  cl_queue : Client.GetQueue (snd (Node.remote_queue_ w)) w = Ok (WorkEntry.queue_ er);
  cl_prio : Task.prio_ (base o) = WorkEntry.prio_ er;
  cl_open : lane_open er (Task.lane_hash_ (base o)) lr w;
  cl_own_queue : Client.GetQueue (TaskLib.id_ st) w = Ok (WorkEntry.queue_ e);
  cl_lane : lane_at e w = Ok lane;
  cl_head : Lane.data lane = [LaneData.make p false];
  cl_queues : WorkEntry.queue_ e ≠ WorkEntry.queue_ er;
  cl_hosts : Z.of_nat (length (ResolveDomainId (Task.domain_id_ (base o)) (Node.hosts_ w))) < 2 ^ 32;
}.

(** What [Disperse] leaves: the message [a], the push task [ptr], and the bytes it sends *)
Record md_dispersed (q : nat) (a ptr shm exec : Z) (o : TaskObj) (ids : list DomainId) (x : DataTransfer)
    (ret : list Z) (w wd : Node) : Prop := {
  disp_orig : Node.heap wd !! a = Some (mkTaskObj (base o) (BMd (Md.mk ret)));
  disp_slots : length ret = length ids;
  disp_distinct : a ≠ ptr;
  disp_shm : Convert shm = ptr;
  disp_push : ∃ op, Node.heap wd !! ptr = Some op ∧
    body op = BRemotePush (RemotePush.mk ids a exec SmallMessageMethod.kMd [x] []);
  disp_size : DataTransfer.data_size_ x = Z.of_nat (length (DataTransfer.data_ x));
  disp_kept : env_kept q w wd;
  disp_workers : Node.workers_ wd = Node.workers_ w;
}.

Lemma Disperse_Md p o m st count e er lane lr w c :
  (∀ h : gmap Z TaskObj, is_Some (allocate h)) →
  md_client p o m st count e er lane lr w →
  let a := Convert p in let exec := GetTaskState (TaskLib.id_ st) w in
  let ids := ResolveDomainId (Task.domain_id_ (base o)) (Node.hosts_ w) in
  let o1 := on_base (Task.set_ctx c) o in let w1 := put_task a o1 w in
  ∃ x shm ptr ret wd, Disperse a exec ids w1 = Ok wd ∧
    SaveStart (methods_of (SmallMessageServer count)) SmallMessageMethod.kMd
      (BinaryOutputArchive_new (DomainId.GetNode (Node.node_id_ w1))) a w1 = Ok [x] ∧
    md_dispersed (WorkEntry.queue_ er) a ptr shm exec o1 ids x ret w wd ∧ lane_at e wd = Ok lane ∧
    lane_at er wd = Ok (Lane.set_data (Lane.data lr ++ [LaneData.make shm false]) lr).
Proof.
  intros Hal [Hh Hmd _ _ _ _ Hst Hsv _ Hq Hprio Hopen _ Hl _ Hne Hn] a exec ids o1 w1.
  assert (get_task a w1 = Ok o1) as Ho1 by apply get_put_task_eq.
  assert (md_task o1 m (TaskLib.id_ st)) as Hmd1 by (by destruct Hmd).
  destruct (Md_start count a o1 m (DomainId.GetNode (Node.node_id_ w1)) w1 Ho1
    (md_body _ _ _ Hmd1) (md_wf _ _ _ Hmd1)) as (x & Hx & Hsz & _).
  assert (as_type c_Md o1 = Ok (base o1, m)) as Hty
    by (unfold as_type; by rewrite (md_body _ _ _ Hmd1)).
  destruct (Node.remote_queue_ w) as [id qid] eqn:Hrq.
  pose proof (md_method _ _ _ Hmd1) as Hme.
  assert (methods_of (TaskLib.server st) (Task.method_ (base o1)) = Some c_Md) as Hm
    by (by rewrite Hsv, Hme).
  destruct (Disperse_Ok a exec ids w1 o1 st c_Md _ id qid (WorkEntry.queue_ er) [x] Ho1 Hst Hm Hty)
    as (og & shm & ptr & op & ret & wq & Hd & Hr & Hb & _ & Hap & _ & Hconv & Hop & _ & Hem);
    try done.
  { by rewrite Hsv, Hme. }
  { intros q. destruct (Emplace_open er (Task.lane_hash_ (base o)) lr q w1) as (wq & He & _).
    { by eapply lane_open_same. }
    eexists _, wq. by rewrite <- Hprio in He. }
  rewrite Hsv, Hme in Hr. unfold ReplicateStart, upd_payload in Hr.
  change (methods_of _ SmallMessageMethod.kMd) with (Some c_Md) in Hr. cbv iota beta in Hr.
  replace (tc_replica c_Md) with true in Hr by (symmetry; exact replica_flag).
  rewrite Ho1 in Hr. cbn [mbind outcome_bind] in Hr. rewrite Hty in Hr.
  cbn [mbind outcome_bind fst snd] in Hr.
  assert (og = mkTaskObj (base o1) (BMd (Md.ReplicateStart raw_int (Z.of_nat (length ids)) m))) as ->.
  { injection Hr as Hr. apply (f_equal (.!! a)) in Hr. simpl in Hr. rewrite !lookup_insert_eq in Hr.
    by injection Hr as <-. }
  destruct (Emplace_open er (Task.lane_hash_ (base o)) lr shm w1) as (wq' & He & Hlq & Hqo & _).
  { by eapply lane_open_same. }
  change (Task.prio_ (base o1)) with (Task.prio_ (base o)) in Hem.
  change (Task.lane_hash_ (base o1)) with (Task.lane_hash_ (base o)) in Hem.
  rewrite Hprio, He in Hem. injection Hem as _ <-.
  set (og := mkTaskObj _ _) in Hd. set (wd := Node.set_queue_map _ _) in Hd.
  exists x, shm, ptr, (Md.ret_ (Md.ReplicateStart raw_int (Z.of_nat (length ids)) m)), wd.
  split; [|split; [exact Hx|split; [|split]]].
  - change (lib_Disperse a exec ids w1 = Ok wd).
    unfold lib_Disperse. change (get_state exec w1) with (get_state exec w).
    fold exec in Hst. rewrite Hst.
    cbn [mbind outcome_bind]. rewrite Hsv. exact Hd.
  - split; try done.
    + simpl. rewrite lookup_insert_ne by done. by rewrite lookup_insert_eq.
    + simpl. rewrite hvec_resize_spec, length_app, length_take, length_replicate, Nat2Z.id. lia.
    + exists op. split; [apply lookup_insert_eq|]. by rewrite Hop, Hme.
  - unfold lane_at, get_lane, get_queue in *. simpl. by rewrite Hqo.
  - transitivity (lane_at er wq'); [by apply lane_at_same|]. exact Hlq.
Qed.

(** The flags of the message once it was dispersed and answered *)
Lemma dispersed_flags c (t : Task) :
  let t' := Task.SetModuleComplete (dispersed (Task.set_ctx c t)) in
  Task.IsRunDisabled t' = true ∧ Task.IsModuleComplete t' = true ∧ Task.IsCoroutine t' = false ∧
  Task.IsPreemptive t' = Task.IsPreemptive t ∧ Task.IsFireAndForget t' = Task.IsFireAndForget t.
Proof.
  unfold dispersed. split_and!; flags_task;
    rewrite ?orb_true_r, ?orb_false_r, ?andb_true_r, ?andb_false_r, ?orb_true_r; done.
Qed.

(** The client takes the first answer and deletes the message. *)
Lemma MdRoot_finish_Ok p w o ret rest :
  Node.heap w !! Convert p = Some o → body o = BMd (Md.mk (ret :: rest)) →
  Task.IsComplete (base o) = true → Task.delcnt_ (base o) = 0 →
  SmallMessageClient.MdRoot_finish (mkLPointer (Convert p) p) w =
    Ok (ret, Node.set_heap (delete (Convert p) (Node.heap w)) w).
Proof.
  intros Ho Hb Hc Hd. apply get_task_Ok in Ho. unfold SmallMessageClient.MdRoot_finish, Task.Wait.
  cbn [ptr_]. rewrite Ho. cbn [mbind outcome_bind]. rewrite Hc, Hb. simpl.
  unfold Client.DelTask. rewrite Ho. cbn [mbind outcome_bind]. simpl Task.delcnt_. rewrite Hd. simpl.
  rewrite delete_insert_eq. by destruct w.
Qed.

Lemma replies n k : ((λ _ : nat, 1) <$> seq k n) = replicate n 1.
Proof. revert k. induction n as [|n IH]; intros k; [done|]. simpl. by rewrite IH. Qed.

(** The thread of the push task: the answers are in the message, and nothing else that the
    worker looks at changed. *)
Lemma Push_dispersed p o m st count e er lane lr w c x shm ptr ret wd :
  (∀ h : gmap Z TaskObj, is_Some (allocate h)) →
  md_client p o m st count e er lane lr w →
  let a := Convert p in
  let ids := ResolveDomainId (Task.domain_id_ (base o)) (Node.hosts_ w) in
  let o1 := on_base (Task.set_ctx c) o in
  let w1 := put_task a (mkTaskObj (dispersed (base o1)) (BMd (Md.mk ret))) wd in
  Forall (λ d, serves (TaskLib.id_ st) (Task.prio_ (base o)) (Task.lane_hash_ (base o))
                 (DomainId.id_ d) w) ids →
  SaveStart (methods_of (SmallMessageServer count)) SmallMessageMethod.kMd
    (BinaryOutputArchive_new (DomainId.GetNode (Node.node_id_ w))) a (put_task a o1 w) = Ok [x] →
  md_dispersed (WorkEntry.queue_ er) a ptr shm (GetTaskState (TaskLib.id_ st) w) o1 ids x ret w wd →
  ∃ w2 o2 t, RemoteQueue.Push rpc ptr w1 = Ok w2 ∧ get_task ptr w2 = Ok t ∧
    Task.IsModuleComplete (base t) = true ∧ get_task a w2 = Ok o2 ∧
    body o2 = BMd (Md.mk (replicate (length ids) 1)) ∧
    base o2 = Task.SetModuleComplete (dispersed (base o1)) ∧
    env_kept (WorkEntry.queue_ er) w w2 ∧ Node.queue_map_ w2 = Node.queue_map_ wd.
Proof.
  intros Hal [Hh Hmd _ _ _ He Hst Hsv _ _ _ _ Hown _ _ Hne _] a ids o1 w1 Hsrv Hsave
    [Hog Hret Hap Hconv (op & Hop & Hob) Hsz Hk Hwk]. fold a ids in Hob, Hret.
  set (od := mkTaskObj _ _) in w1.
  assert (get_task a w1 = Ok od) as Hod by apply get_put_task_eq.
  assert (get_task ptr w1 = Ok op) as Hop1
    by (apply get_task_Ok; simpl; by rewrite lookup_insert_ne).
  set (I w' := env_kept (WorkEntry.queue_ er) w w' ∧ Node.queue_map_ w' = Node.queue_map_ wd ∧
    length (Node.workers_ w') = length (Node.workers_ w)).
  assert (answers I rpc ptr a (GetTaskState (TaskLib.id_ st) w) st (DataTransfer.data_ x) (λ _, 1) 0 ids) as Hans.
  { intros j d Hj. split; [done|]. intros w' (K & Q & L).
    apply (Forall_lookup_1 _ _ _ _ Hsrv) in Hj.
    destruct (cluster_answers (TaskLib.id_ st) _ a o1 m x (put_task a o1 w) w w' (WorkEntry.queue_ er)
      (WorkEntry.queue_ e) count Hal Hj K L Hown Hne) as (w'' & Hcall & Hh' & Hq' & Hs' & Hr' & Hi' & Ho' & Hrq' & Hrp' & Hl');
      [apply get_put_task_eq|by destruct Hmd|exact Hsave|].
    exists w''. split; [exact Hcall|]. split.
    - unfold call_keeps, get_task, get_state. by rewrite Hh', Hs'.
    - split_and!; [|by rewrite Hq'|by rewrite Hl']. transitivity w'; [done|].
      split_and!; try done. by rewrite Hq'. }
  assert (I w1) as HI by (split_and!; [exact Hk|done|simpl; by rewrite Hwk]).
  assert (get_state (GetTaskState (TaskLib.id_ st) w) w1 = Ok st) as Hst1.
  { unfold get_state in *. destruct Hk as (Es & _). change (Node.states w1) with (Node.states wd).
    by rewrite Es. }
  destruct (Push_collects_replicas I rpc ptr a _ ids x [] w1 st count od (Md.mk ret) op (λ _, 1)
    Hst1 Hsv (not_eq_sym Hap) Hod eq_refl) as (w2 & o2 & t & Hpush & Ho2 & Hb2 & Hbase & Ht & Htc & K & Q & _);
    try done.
  { apply (md_method _ _ _ Hmd). }
  { intros b ob w' _ HI'. exact HI'. }
  rewrite replies in Hb2. by exists w2, o2, t.
Qed.

(** C3: a message for other nodes is answered by all of them: the system of several nodes.
    Polling the lane of a metadata message whose domain is remote disperses it: a push task is
    in the lane of the remote queue. When its thread has run [Push], in which each node of the
    domain receives the message, a worker there runs it, and the node responds, the push task
    is complete, and polling the lane of the message again completes the message and takes it
    from the lane, with the answer 1 of every node in its results; the client that waits for
    it gets 1, and the message is gone. The domain may be all nodes, the sender included. The
    constructor of a received message leaves its result array unconstructed, so all this is for
    memory that happens to read as an array with an element there ([Hmem]); for
    other memory running the message is undefined behaviour ([Md_unconstructed]). *)
Theorem Md_broadcast wi p o m st count e er lane lr w :
  (∀ h : gmap Z TaskObj, is_Some (allocate h)) →
  md_client p o m st count e er lane lr w →
  let ids := ResolveDomainId (Task.domain_id_ (base o)) (Node.hosts_ w) in
  ids ≠ [] →
  Forall (λ d, serves (TaskLib.id_ st) (Task.prio_ (base o)) (Task.lane_hash_ (base o))
                 (DomainId.id_ d) w) ids →
  ∃ shm w1 w2 w3 w4 o3 t, PollGrouped wi e w = Ok w1 ∧
    lane_at er w1 = Ok (Lane.set_data (Lane.data lr ++ [LaneData.make shm false]) lr) ∧
    RemoteQueue.Push rpc (Convert shm) w1 = Ok w2 ∧
    get_task (Convert shm) w2 = Ok t ∧ Task.IsModuleComplete (base t) = true ∧
    PollGrouped wi e w2 = Ok w3 ∧ lane_at e w3 = Ok (Lane.set_data [] lane) ∧
    get_task (Convert p) w3 = Ok o3 ∧ body o3 = BMd (Md.mk (replicate (length ids) 1)) ∧
    SmallMessageClient.MdRoot_finish (mkLPointer (Convert p) p) w3 = Ok (1, w4) ∧
    Node.heap w4 !! Convert p = None.
Proof.
  intros Hal Hcl ids Hids Hsrv.
  pose proof Hcl as [Hh Hmd Hmc Hff Hdel He Hst Hsv Hrem _ _ _ _ Hl Hhd Hne _].
  pose proof (md_state _ _ _ Hmd) as Hid.
  destruct (poll_remote_first wi e w lane p o Hl Hhd Hh) as (c & Hfirst); [by rewrite Hid|done|apply Hmd|].
  destruct (Disperse_Md p o m st count e er lane lr w c Hal Hcl)
    as (x & shm & ptr & ret & wd & Hd & Hsave & Hdisp & Hld & Hlr).
  rewrite Hid in Hfirst. pose proof (Hfirst wd _ Hd (disp_orig _ _ _ _ _ _ _ _ _ _ _ Hdisp) Hmc Hld) as Hp1.
  destruct (Push_dispersed p o m st count e er lane lr w c x shm ptr ret wd Hal Hcl Hsrv Hsave Hdisp)
    as (w2 & o2 & t & Hpush & Ht & Htc & Ho2 & Hb2 & Hbase & (Es & Er & En & Eh & _) & Hq2).
  destruct (dispersed_flags c (base o)) as (F1 & F2 & F3 & F4 & F5). cbv zeta in *.
  change (base (on_base (Task.set_ctx c) o)) with (Task.set_ctx c (base o)) in Hbase.
  apply get_task_Ok in Ho2.
  destruct (poll_remote_last wi e w2 lane p o2) as (c' & w3 & Hp2 & Hl3 & Hh3 & _); rewrite ?Hbase; try done.
  { by rewrite (lane_at_same _ _ _ Hq2). }
  { change (Task.task_state_ _) with (Task.task_state_ (base o)).
    by rewrite Hid, (GetTaskState_same _ _ _ Er). }
  { change (Task.domain_id_ _) with (Task.domain_id_ (base o)). by rewrite Eh, En. }
  { rewrite F4. apply Hmd. } { by rewrite F5. }
  set (o3 := on_base _ o2) in Hh3.
  assert (Node.heap w3 !! Convert p = Some o3) as Ho3 by (rewrite Hh3; apply lookup_insert_eq).
  exists shm. eexists _, w2, w3, _, o3, t. rewrite (disp_shm _ _ _ _ _ _ _ _ _ _ _ Hdisp).
  split_and!; try done.
  - by apply get_task_Ok.
  - fold ids in Hb2. destruct ids as [|d ids']; [done|]. simpl in Hb2.
    apply (MdRoot_finish_Ok p w3 o3 1 _ Ho3 Hb2); [apply IsComplete_set|].
    unfold o3. simpl. by rewrite Hbase.
  - apply lookup_delete_eq.
Qed.

End cluster.

(** ** Witness: three nodes, each a copy of the machine of [Scenario] with three hosts *)

Section witness.
Import RefInstances RefMachine RefRun.

Definition on_host (id : Z) (w : Node) : Node :=
  Node.mkNode (Node.heap w) (Node.queue_map_ w) (Node.states w) (Node.task_registry_ w) id
    (Node.unique_ w) wit_hosts (Node.workers_ w) (Node.stop_runtime_ w) (Node.kill_requested_ w)
    (Node.threads w) (Node.dl_open w) (Node.stacks w) (Node.remote_queue_ w)
    (Node.rpcs_ w) (Node.signals_ w) (Node.xstream_ w).

(** A message to all nodes, sent on the first *)
Definition wit_sent : LPointer * Node := Eval vm_compute in
  result (mkLPointer 0 0, wit_running)
    (SmallMessageClient.AsyncMd running.1 TaskNode.GetNull DomainId.GetGlobal (on_host 1 wit_running)).
Definition wit_md : TaskObj := Eval vm_compute in
  result (mkTaskObj ref_task (BMd (Md.mk []))) (get_task (ptr_ wit_sent.1) wit_sent.2).
Definition wit_md_state : TaskState := Eval vm_compute in
  result wit_message_state (get_state (GetTaskState (UniqueId.make 1 9) wit_running) wit_running).

(** The lanes of the message, of the remote queue, and of messages that were received *)
Definition wit_md_entry : WorkEntry := WorkEntry.mkWorkEntry TaskPrio.kLowLatency 1 0 9.
Definition wit_remote_entry : WorkEntry := WorkEntry.mkWorkEntry TaskPrio.kLowLatency 0 0 6.
Definition wit_served_entry : WorkEntry := WorkEntry.mkWorkEntry TaskPrio.kLowLatency 0 0 9.
Definition lane_of (e : WorkEntry) (w : Node) : Lane := result (Lane.mkLane [] 0 0) (lane_at e w).

Definition wit_name (nid : Z) : string := result "" (ThalliumRpc.GetServerName wit_rpc_context nid).
Definition wit_servers (name : string) : option Server :=
  if String.eqb name (wit_name 1) then Some (mkServer 1 wit_served_entry None)
  else if String.eqb name (wit_name 2) then
    Some (mkServer 1 wit_served_entry (Some (on_host 2 wit_running)))
  else if String.eqb name (wit_name 3) then
    Some (mkServer 1 wit_served_entry (Some (on_host 3 wit_running)))
  else None.

Lemma wit_md_client :
  md_client (shm_ wit_sent.1) wit_md (Md.mk [0]) wit_md_state 0 wit_md_entry wit_remote_entry
    (lane_of wit_md_entry wit_sent.2) (lane_of wit_remote_entry wit_sent.2) wit_sent.2.
Proof.
  split; try (by vm_compute). exists_by_evaluation.
Qed.

Lemma wit_serves nid :
  nid ∈ [1; 2; 3] →
  serves wit_rpc_context wit_servers (TaskLib.id_ wit_md_state) (Task.prio_ (base wit_md))
    (Task.lane_hash_ (base wit_md)) nid wit_sent.2.
Proof.
  intros H. repeat (apply elem_of_cons in H as [->|H]); [| | |by apply not_elem_of_nil in H].
  all: eexists _, _, (lane_of wit_served_entry wit_sent.2);
    split; [by vm_compute|]; split; [by vm_compute|]; split; [by vm_compute|];
    split; [by vm_compute|]; split; try (by vm_compute); exists_by_evaluation.
Qed.

(** The memory of the machine reads as an array with an element. *)
Lemma wit_mem : raw_ints ≠ [].
Proof. by vm_compute. Qed.

Lemma Md_broadcast_witness :
  ∃ w3 w4 o3, get_task 9 w3 = Ok o3 ∧ body o3 = BMd (Md.mk [1; 1; 1]) ∧
    SmallMessageClient.MdRoot_finish (mkLPointer 9 9) w3 = Ok (1, w4).
Proof.
  destruct (Md_broadcast wit_rpc_context 2 wit_servers wit_mem 1 (shm_ wit_sent.1) wit_md (Md.mk [0])
    wit_md_state 0 wit_md_entry wit_remote_entry (lane_of wit_md_entry wit_sent.2)
    (lane_of wit_remote_entry wit_sent.2) wit_sent.2)
    as (_ & _ & _ & w3 & w4 & o3 & _ & _ & _ & _ & _ & _ & _ & _ & Ho & Hb & Hf & _).
  - intros h. by eexists.
  - exact wit_md_client.
  - by vm_compute.
  - repeat constructor; apply wit_serves; vm_compute; set_solver.
  - exists w3, w4, o3. split; [exact Ho|]. split; [exact Hb|exact Hf].
Defined.

End witness.
