(* ===== verification/IoRemote.v ===== *)
(** * A client's data message for other nodes

    The longest path of the system: the client's push task submits the message, the worker of
    its lane disperses it, the push task of the remote queue runs on a thread of its own and
    sends the bytes to each node, whose procedure transfers them, has a worker run the message
    there, and responds; the answer goes back through both lanes to the client. *)

From S2P Require Import Prelude Hshm RefLib Types Queue LocalSerialize Config QueueManager.
From S2P Require Import Archive Task TaskTypes World LibExec Registry Rpc Exec WorkerLoop.
From S2P Require Import Thallium Schedulers ProcQueue SmallMessage Admin RemoteQueue TaskName Libs.
From S2P Require Import Runtime Startup Scenario IoPath Broadcast.

(** ** A push task of the remote queue, which runs on a thread of its own *)

Section thread.
Context `{BitfieldLaws} `{Logger} `{MpscLaws} `{SpscOps} `{AllocOps} `{RawMemory} `{CerealOps}
        `{CharbufLaws} `{HvecOps} `{Dlfcn} `{NetOps} `{ThalliumOps} `{OtherLibs}
        `{DaemonOps}.
Variable (rpc : RpcContext) (ncpu : Z).
#[local] Hint Extern 0 TaskExecOps => exact (path_exec rpc ncpu) : typeclass_instances.

(** The state at [exec] is one of the remote queue. *)
Definition is_remote_queue (exec : Z) (w : Node) : Prop :=
  ∃ st c d, get_state exec w = Ok st ∧ TaskLib.server st = RemoteQueueServer c d.

Lemma remote_queue_same exec w w' :
  is_remote_queue exec w → Node.states w' = Node.states w → is_remote_queue exec w'.
Proof. intros (st & c & d & Hst & Hs) E. exists st, c, d. unfold get_state in *. by rewrite E. Qed.

Lemma remote_queue_Run exec a w :
  is_remote_queue exec w →
  exec_Run exec RemoteQueueMethod.kPush a w = RemoteQueue.Push rpc a w.
Proof.
  intros (st & c & d & Hst & Hs).
  change (lib_Run rpc ncpu exec RemoteQueueMethod.kPush a w = RemoteQueue.Push rpc a w).
  unfold lib_Run. rewrite Hst. cbn [mbind outcome_bind]. by rewrite Hs.
Qed.

Lemma remote_queue_GetGroup exec a w o p group :
  is_remote_queue exec w → get_task a w = Ok o → body o = BRemotePush p →
  exec_GetGroup exec RemoteQueueMethod.kPush a group w = Ok (TASK_UNORDERED, group).
Proof.
  intros (st & c & d & Hst & Hs) Ho Hp.
  change (lib_GetGroup exec RemoteQueueMethod.kPush a group w = Ok (TASK_UNORDERED, group)).
  unfold lib_GetGroup. rewrite Hst. cbn [mbind outcome_bind]. rewrite Hs. unfold GetGroup.
  change (methods_of (RemoteQueueServer c d) RemoteQueueMethod.kPush) with (Some c_RemotePush).
  cbv iota. rewrite Ho. cbn [mbind outcome_bind]. unfold as_type. rewrite Hp. done.
Qed.

Record remote_push (o : TaskObj) (w : Node) : Prop := {
  rp_exec : GetTaskState (Task.task_state_ (base o)) w ≠ 0;
  rp_local : DomainId.IsRemote (Task.domain_id_ (base o)) (Z.of_nat (length (Node.hosts_ w)))
               (Node.node_id_ w) = false;
  rp_stack : Task.IsCoroutine (base o) = false;
  rp_thread : Task.IsPreemptive (base o) = true;
  rp_body : ∃ p, body o = BRemotePush p;
  rp_method : Task.method_ (base o) = RemoteQueueMethod.kPush;
  rp_state : is_remote_queue (GetTaskState (Task.task_state_ (base o)) w) w;
}.

(** Such a task is in no group. *)
Lemma remote_push_group wi a exec lid q w o p :
  is_remote_queue exec w → Node.heap w !! a = Some o → body o = BRemotePush p →
  Task.method_ (base o) = RemoteQueueMethod.kPush → (wi < length (Node.workers_ w))%nat →
  ∃ w', task_group wi a exec lid w = Ok (None, w') ∧ Node.heap w' = Node.heap w ∧
    Node.queue_map_ w' = Node.queue_map_ w ∧ Node.threads w' = Node.threads w ∧ same_node q w w'.
Proof.
  intros Hst Ho Hb Hm Hwi. apply get_task_Ok in Ho. unfold task_group. rewrite Ho.
  cbn [mbind outcome_bind]. destruct (lookup_lt_is_Some_2 _ _ Hwi) as [wk Hwk].
  unfold get_worker. rewrite Hwk. cbn [deref mbind outcome_bind]. rewrite Hm.
  rewrite (remote_queue_GetGroup exec a w o p) by done. cbn [mbind outcome_bind].
  rewrite Z.eqb_refl. cbn [orb]. eexists. split; [done|]. do 3 (split; [done|]).
  split; [by split_and!|]. unfold groups_of. simpl.
  rewrite list_fmap_insert. apply list_insert_id. by rewrite list_lookup_fmap, Hwk.
Qed.

Lemma upd_lane_threads e f w w' : upd_lane e f w = Ok w' → Node.threads w' = Node.threads w.
Proof. unfold upd_lane, put_lane. intros. by invert_ok. Qed.

(** The first poll starts the thread. *)
Lemma poll_thread_first wi e w lane p o :
  let a := Convert p in
  lane_at e w = Ok lane → Lane.data lane = [LaneData.make p false] →
  Node.heap w !! a = Some o → remote_push o w → Task.IsRunDisabled (base o) = false →
  Task.IsStarted (base o) = false → Task.IsModuleComplete (base o) = false →
  (wi < length (Node.workers_ w))%nat →
  ∃ c tid w', PollGrouped wi e w = Ok w' ∧
    lane_at e w' = Ok (Lane.set_data [LaneData.set_thread tid (LaneData.make p false)] lane) ∧
    Node.heap w' = <[a := on_base (λ t, Task.DisableRun (Task.set_ctx c t)) o]> (Node.heap w) ∧
    Node.threads w' = <[tid := a]> (Node.threads w) ∧ Node.threads w !! tid = None ∧
    same_node (WorkEntry.queue_ e) w w'.
Proof.
  intros a Hl Hd Hh [He Hloc Hco Hpr [pb Hb] Hm Hst] Hen Hns Hmc Hwi.
  destruct (poll_iteration_local wi e w lane (LaneData.make p false) [] o Hl Hd eq_refl Hh He Hloc)
    as (c & Hit). cbv zeta in Hit. simpl (LaneData.p_ _) in Hit. fold a in Hit. rewrite Hen in Hit. set (exec := GetTaskState _ _) in *.
  set (o1 := on_base (Task.set_ctx c) o) in *. set (w1 := put_task a o1 w) in *.
  assert (Node.heap w1 !! a = Some o1) as Ho1 by apply lookup_insert_eq.
  destruct (remote_push_group wi a exec (WorkEntry.lane_id_ e) (WorkEntry.queue_ e) w1 o1 pb)
    as (w2 & Hg & Hh2 & Hq2 & Ht2 & Hn2); try done.
  unfold CheckTaskGroup in Hit. rewrite (proj2 (get_task_Ok _ _ _) Ho1) in Hit.
  cbn [mbind outcome_bind orb] in Hit.
  change (Task.IsStarted (base o1)) with (Task.IsStarted (base o)) in Hit.
  rewrite Hns, Hg in Hit. cbn [mbind outcome_bind] in Hit. rewrite <- Hh2 in Ho1.
  unfold execute in Hit. rewrite (proj2 (get_task_Ok _ _ _) Ho1) in Hit. cbn [mbind outcome_bind] in Hit.
  change (Task.IsCoroutine (base o1)) with (Task.IsCoroutine (base o)) in Hit.
  change (Task.IsPreemptive (base o1)) with (Task.IsPreemptive (base o)) in Hit.
  rewrite Hco, Hpr in Hit. erewrite upd_task_Ok in Hit by done. cbn [mbind outcome_bind] in Hit.
  unfold SpawnAsyncThread in Hit. set (o2 := on_base Task.DisableRun o1) in *.
  set (tid := fresh_addr _) in Hit. set (w3 := Node.set_threads _ _) in Hit.
  assert (lane_at e w3 = Ok lane) as Hl3 by (by rewrite (lane_at_same e w w3)).
  destruct (upd_lane_Ok e (alter (LaneData.set_thread tid) (Z.to_nat 0)) w3 lane Hl3)
    as (w4 & Hu & Hl4 & Hh4 & Hn4).
  pose proof (upd_lane_threads _ _ _ _ Hu) as Ht4. unfold upd_entry in Hit. rewrite Hu in Hit.
  cbn [mbind outcome_bind] in Hit. rewrite Hd in Hl4.
  assert (Node.heap w4 !! a = Some o2) as Ho4 by (rewrite Hh4; apply lookup_insert_eq).
  rewrite (cleanup_waits wi e 0 a exec w4 o2 Ho4) in Hit.
  2: { unfold o2. simpl. revert Hmc. flags_task. by rewrite orb_false_r. }
  cbn [mbind outcome_bind] in Hit. exists c, tid, w4.
  split; [by eapply (poll_loop_one rpc ncpu wi e 1024); [lia|exact Hit|..]|]. split; [done|].
  split; [rewrite Hh4; simpl; rewrite Hh2; simpl; by rewrite insert_insert_eq|].
  split; [by rewrite Ht4; simpl; rewrite Ht2|]. split.
  { unfold tid. simpl. rewrite Ht2. apply fresh_addr_None. }
  transitivity w1; [by split; [split_and!|]|]. transitivity w2; [done|]. exact Hn4.
Qed.

(** Once the thread ended, a poll completes the task. *)
Lemma poll_thread_last wi e w lane p o tid :
  let a := Convert p in
  lane_at e w = Ok lane → Lane.data lane = [LaneData.set_thread tid (LaneData.make p false)] →
  Node.heap w !! a = Some o → remote_push o w → Task.IsRunDisabled (base o) = true →
  Task.IsModuleComplete (base o) = true → Task.IsFireAndForget (base o) = false →
  Node.threads w !! tid = None → (wi < length (Node.workers_ w))%nat →
  ∃ c w', PollGrouped wi e w = Ok w' ∧ lane_at e w' = Ok (Lane.set_data [] lane) ∧
    Node.heap w' = <[a := on_base (λ t, Task.SetComplete (Task.set_ctx c t)) o]> (Node.heap w) ∧
    Node.threads w' = Node.threads w ∧ same_node (WorkEntry.queue_ e) w w'.
Proof.
  intros a Hl Hd Hh [He Hloc Hco Hpr [pb Hb] Hm Hst] Hdis Hmc Hff Htid Hwi.
  destruct (poll_iteration_local wi e w lane _ [] o Hl Hd eq_refl Hh He Hloc) as (c & Hit).
  cbv zeta in Hit. simpl (LaneData.p_ _) in Hit. fold a in Hit. rewrite Hdis in Hit.
  set (exec := GetTaskState _ _) in *. cbn [mbind outcome_bind] in Hit.
  set (o1 := on_base (Task.set_ctx c) o) in *. set (w1 := put_task a o1 w) in *.
  assert (Node.heap w1 !! a = Some o1) as Ho1 by apply lookup_insert_eq.
  unfold cleanup in Hit. rewrite (proj2 (get_task_Ok _ _ _) Ho1) in Hit. cbn [mbind outcome_bind] in Hit.
  change (Task.IsModuleComplete (base o1)) with (Task.IsModuleComplete (base o)) in Hit.
  change (Task.IsCoroutine (base o1)) with (Task.IsCoroutine (base o)) in Hit.
  change (Task.IsPreemptive (base o1)) with (Task.IsPreemptive (base o)) in Hit.
  rewrite Hmc, Hco, Hpr in Hit.
  destruct (upd_lane_Ok e (alter LaneData.set_complete (Z.to_nat 0)) w1 lane Hl) as (w2 & Hu & Hl2 & Hh2 & Hn2).
  pose proof (upd_lane_threads _ _ _ _ Hu) as Ht2. unfold upd_entry in Hit. rewrite Hu in Hit.
  cbn [mbind outcome_bind] in Hit. rewrite Hd in Hl2. unfold lane_at in Hl2. rewrite Hl2 in Hit.
  cbn [mbind outcome_bind Lane.data Lane.set_data deref] in Hit. simpl (_ !! Z.to_nat 0) in Hit.
  cbn [deref mbind outcome_bind] in Hit. unfold ABT_thread_join in Hit. simpl LaneData.thread_ in Hit.
  rewrite Ht2 in Hit. change (Node.threads w1) with (Node.threads w) in Hit. rewrite Htid in Hit.
  cbn [mbind outcome_bind] in Hit.
  destruct (remote_push_group wi a exec (WorkEntry.lane_id_ e) (WorkEntry.queue_ e) w2 o1 pb)
    as (w3 & Hg & Hh3 & Hq3 & Ht3 & Hn3); try done.
  { eapply remote_queue_same; [exact Hst|]. by destruct Hn2 as [(-> & _) _]. }
  { by rewrite Hh2. } { by rewrite (same_node_workers _ _ _ Hn2). }
  unfold RemoveTaskGroup in Hit. rewrite Hg in Hit. cbn [mbind outcome_bind] in Hit.
  destruct (upd_lane_Ok e mpsc_pop w3 _ (eq_trans (lane_at_same e w2 w3 Hq3) Hl2))
    as (w4 & Hu4 & Hl4 & Hh4 & Hn4). pose proof (upd_lane_threads _ _ _ _ Hu4) as Ht4.
  unfold EndTask, PopTask in Hit. simpl (0 =? 0) in Hit. cbv iota in Hit. rewrite Hu4 in Hit.
  cbn [mbind outcome_bind] in Hit.
  assert (Node.heap w4 !! a = Some o1) as Ho4 by (by rewrite Hh4, Hh3, Hh2).
  unfold get_task at 1 in Hit. rewrite Ho4 in Hit. cbn [deref mbind outcome_bind] in Hit.
  change (Task.IsFireAndForget (base o1)) with (Task.IsFireAndForget (base o)) in Hit.
  rewrite Hff, andb_false_r in Hit. erewrite upd_task_Ok in Hit by done. cbn [mbind outcome_bind] in Hit.
  exists c. set (w5 := put_task a _ w4) in Hit. exists w5.
  assert (lane_at e w5 = Ok (Lane.set_data [] lane)) as Hl5.
  { transitivity (lane_at e w4); [done|]. by rewrite Hl4, mpsc_pop_spec. }
  split; [by eapply (poll_loop_emptied rpc ncpu wi e 1024); [lia|exact Hit|..]|]. split; [done|].
  split; [simpl; rewrite Hh4, Hh3, Hh2; simpl; by rewrite insert_insert_eq|].
  split; [simpl; by rewrite Ht4, Ht3, Ht2|]. transitivity w1; [by split; [split_and!|]|].
  transitivity w2; [done|]. transitivity w3; [done|]. exact Hn4.
Qed.

End thread.

(** ** The message on a node that receives it *)

Section server.
Context `{BitfieldLaws} `{Logger} `{MpscLaws} `{SpscOps} `{AllocLaws} `{RawMemory} `{CerealLaws}
        `{CharbufLaws} `{HvecOps} `{Dlfcn} `{NetOps} `{ThalliumOps} `{OtherLibs}
        `{DaemonOps}.

Lemma c_Io_srl : SUPPORTS_SRL (tc_serial c_Io) = true.
Proof. change (TaskFlags.SUPPORTS_SRL Io.FLAGS = true). unfold Io.FLAGS. eval_flags. Qed.

Lemma ser_Io : ser_task true 0 (tc_serial c_Io) = Visitor Io.SaveStart Io.LoadStart.
Proof.
  unfold ser_task. rewrite c_Io_srl.
  by replace (SRL_SYM_START (tc_serial c_Io)) with false
    by (change (false = TaskFlags.SRL_SYM_START Io.FLAGS); unfold Io.FLAGS; symmetry; eval_flags).
Qed.

(** The first transfer is the data, for the receiver to read; with any transfer of these bytes
    in its place, the message is rebuilt. *)
Lemma Io_start count a o p nid w :
  get_task a w = Ok o → body o = BIo p → Task.wf (base o) →
  Z.of_nat (length (Io.data_ p)) = Io.DATA_SIZE →
  ∃ x0 x1, SaveStart (methods_of (SmallMessageServer count)) SmallMessageMethod.kIo
      (BinaryOutputArchive_new nid) a w = Ok [x0; x1] ∧
    DataTransfer.data_ x0 = Io.data_ p ∧ DataTransfer.data_size_ x0 = Io.DATA_SIZE ∧
    Any (DataTransfer.flags_ x0) DT_RECEIVER_READ = true ∧
    DataTransfer.data_size_ x1 = Z.of_nat (length (DataTransfer.data_ x1)) ∧
    ∀ f n, ∃ ar, BinaryInputArchive_new [DataTransfer.mkDataTransfer f (Io.data_ p) Io.DATA_SIZE n;
        RemoteQueue.xfer_of (DataTransfer.data_ x1)] = Ok ar ∧
      ∀ w2 pl, allocate (Node.heap w2) = Some pl → ∃ o1,
        LoadStart (methods_of (SmallMessageServer count)) SmallMessageMethod.kIo ar w2 =
          Ok (Some (mkLPointer pl.2 pl.1), put_task pl.2 o1 w2) ∧
        base o1 = Task.received (base o) (Task.new raw_task) ∧
        body o1 = BIo (Io.mk (Io.data_ p) raw_int).
Proof.
  intros Ho Hb Hwf Hlen.
  destruct (base_serialize_ok (base o, p) nid Hwf) as (bs & xs & Hsave & Hload).
  assert (xs = []) as ->.
  { specialize (Hsave [] []). simpl in Hsave. by injection Hsave. }
  set (x := DataTransfer.make DT_RECEIVER_READ (Io.data_ p) Io.DATA_SIZE (Task.domain_id_ (base o))).
  exists (DataTransfer.set_node_id nid x),
    (DataTransfer.make (Z.lor DT_RECEIVER_READ DT_FREE_DATA) bs (Z.of_nat (length bs)) nid).
  unfold SaveStart, Save, LoadStart. change (methods_of _ SmallMessageMethod.kIo) with (Some c_Io).
  cbv iota beta. rewrite Ho. cbn [mbind outcome_bind]. unfold as_type. rewrite Hb.
  cbn [tc_get c_Io plain_class deref mbind outcome_bind]. rewrite ser_Io. cbn [v_save v_load].
  unfold Io.SaveStart, BinaryOutputArchive_new. cbn [snd fst]. fold x.
  cbn [tc_payload c_Io plain_class] in *. rewrite Hsave. cbn [mbind outcome_bind].
  split; [reflexivity|]. split; [done|]. split; [done|]. split.
  { unfold x, DataTransfer.make, DT_RECEIVER_READ. simpl.
    by rewrite bitfield_of_spec, Any_testbit, testbit_BIT_OPT by lia. }
  split; [done|]. intros f n. eexists. split.
  { unfold BinaryInputArchive_new. cbn. by rewrite read_memory_all. }
  intros w2 [q a2] Hal. unfold Client.NewTask. rewrite Hal. cbn [mbind outcome_bind].
  unfold Io.LoadStart. cbn [tc_empty c_Io plain_class].
  set (o0 := Io.mk _ _). set (y := DataTransfer.mkDataTransfer f _ _ n).
  specialize (Hload (Task.new raw_task, o0) [] [y; RemoteQueue.xfer_of bs] []).
  rewrite app_nil_r in Hload. cbn [app length DataTransfer.data_ DataTransfer.make] in *. rewrite Hload.
  cbn [mbind outcome_bind]. eexists. split; [|split].
  - cbn [v_load ser_xfer lookup list_lookup in_xfer_ in_xfer_off_ in_ss_ deref mbind outcome_bind].
    unfold y. cbn [DataTransfer.data_ DataTransfer.data_size_]. rewrite <- Hlen at 1.
    rewrite read_memory_all. cbn [mbind outcome_bind]. rewrite Z.ltb_irrefl. cbn [mbind outcome_bind].
    by rewrite put_put_task.
  - done.
  - cbn [body of_type tc_put c_Io plain_class snd Io.data_ Io.ret_ o0]. unfold memcpy_at.
    rewrite drop_ge by (rewrite length_replicate; lia). by rewrite app_nil_r.
Qed.

Lemma ser_Io_end replica : ser_task false replica (tc_serial c_Io) = Io.SerializeEnd replica.
Proof.
  unfold ser_task. rewrite c_Io_srl.
  by replace (SRL_SYM_END (tc_serial c_Io)) with true
    by (change (true = TaskFlags.SRL_SYM_END Io.FLAGS); unfold Io.FLAGS; symmetry; eval_flags).
Qed.

(** The bytes of its answer, and the answer they become *)
Lemma Io_end count a o data ret w nid :
  get_task a w = Ok o → body o = BIo (Io.mk data ret) →
  ∃ x, SaveEnd (methods_of (SmallMessageServer count)) SmallMessageMethod.kIo
      (BinaryOutputArchive_new nid) a w = Ok [x] ∧
    DataTransfer.data_ x = enc cereal_int ret ∧
    DataTransfer.data_size_ x = Z.of_nat (length (DataTransfer.data_ x)).
Proof.
  intros Ho Hb. unfold SaveEnd, Save. change (methods_of _ SmallMessageMethod.kIo) with (Some c_Io).
  cbv iota beta. rewrite Ho. cbn [mbind outcome_bind]. unfold as_type. rewrite Hb.
  cbn [tc_get c_Io plain_class deref mbind outcome_bind]. rewrite ser_Io_end.
  eexists. split; [reflexivity|]. by split.
Qed.

Lemma Io_LoadEnd count replica a w o p x :
  get_task a w = Ok o → body o = BIo p → is_i32 x →
  ∃ ar, BinaryInputArchive_new [RemoteQueue.xfer_of (enc cereal_int x)] = Ok ar ∧
    LoadEnd (methods_of (SmallMessageServer count)) replica SmallMessageMethod.kIo ar a w =
    Ok (put_task a (mkTaskObj (base o) (BIo (Io.mk (Io.data_ p) x))) w).
Proof.
  intros Ho Hp Hx. unfold BinaryInputArchive_new. cbn [list.last deref mbind outcome_bind].
  unfold RemoteQueue.xfer_of. cbn [DataTransfer.data_ DataTransfer.data_size_].
  rewrite read_memory_all. cbn [mbind outcome_bind]. eexists. split; [done|].
  unfold LoadEnd. change (methods_of _ SmallMessageMethod.kIo) with (Some c_Io). cbv iota beta.
  rewrite Ho. cbn [mbind outcome_bind]. unfold as_type. rewrite Hp.
  cbn [tc_get c_Io plain_class deref mbind outcome_bind]. rewrite ser_Io_end.
  simpl. rewrite <- (app_nil_r (enc cereal_int x)). by rewrite cereal_int_ok by done.
Qed.

Variable (rpc : RpcContext) (ncpu : Z).
#[local] Hint Extern 0 TaskExecOps => exact (path_exec rpc ncpu) : typeclass_instances.

(** A data message that can be sent and run *)
Record io_sendable (o : TaskObj) (p : Io.IoTask) (id : TaskStateId) : Prop := {
  snd_body : body o = BIo p;
  snd_method : Task.method_ (base o) = SmallMessageMethod.kIo;
  snd_state : Task.task_state_ (base o) = id;
  snd_wf : Task.wf (base o);
  snd_enabled : Task.IsRunDisabled (base o) = false;
  snd_stack : Task.IsCoroutine (base o) = false;
  snd_thread : Task.IsPreemptive (base o) = false;
  snd_size : Z.of_nat (length (Io.data_ p)) = Io.DATA_SIZE;
}.

(** The message as [RpcExec] puts it in its lane *)
Definition received_io (nid : Z) (t : Task) (data : list Z) : TaskObj :=
  mkTaskObj (RemoteQueue.clear_flags (Task.set_domain_id (DomainId.GetNode nid)
    (Task.received t (Task.new raw_task)))) (BIo (Io.mk data raw_int)).

Lemma received_io_task o p id w :
  io_sendable o p id → GetTaskState id w ≠ 0 → is_small_message (GetTaskState id w) w →
  io_task (received_io (Node.node_id_ w) (base o) (Io.data_ p)) (Io.data_ p) w.
Proof.
  intros [Hb Hm Hs _ Hdis Hco Hpr Hsz] He Hsm. rewrite <- Hs in He, Hsm.
  destruct (received_plain (base o) (BIo (Io.mk (Io.data_ p) raw_int)) w Hdis Hco Hpr He)
    as (Hp & Hst & Hff). fold (received_io (Node.node_id_ w) (base o) (Io.data_ p)) in *.
  split; try done. by exists raw_int.
Qed.

(** The procedure up to its wait: the client's bytes are in the message. *)
Lemma RpcPushBulk_Io id ln wi e w a o p x0 x1 wc count :
  (∀ h : gmap Z TaskObj, is_Some (allocate h)) →
  md_server id (Task.prio_ (base o)) (Task.lane_hash_ (base o)) ln wi e w →
  get_task a wc = Ok o → io_sendable o p id →
  SaveStart (methods_of (SmallMessageServer count)) SmallMessageMethod.kIo
    (BinaryOutputArchive_new (DomainId.GetNode (Node.node_id_ wc))) a wc = Ok [x0; x1] →
  let o2 := received_io (Node.node_id_ w) (base o) (Io.data_ p) in
  ∃ shm ptr w1, allocate (Node.heap w) = Some (shm, ptr) ∧
    @RemoteQueue.RpcPushBulk _ _ _ _ _ _ _ _ (bulk_engine (Io.data_ p)) id SmallMessageMethod.kIo
      (DataTransfer.data_ x1) 0 (Z.of_nat (length (Io.data_ p))) kWrite w =
      Ok ((ptr, GetTaskState id w), Io.data_ p, w1) ∧
    Node.heap w1 = <[ptr := o2]> (Node.heap w) ∧ same_node (WorkEntry.queue_ e) w w1 ∧
    lane_at e w1 = Ok (Lane.set_data [LaneData.make shm false] ln).
Proof.
  intros Hal [He Hsm Hq Hprio Hopen Hem Hwi _] Ho Hs Hsave o2. destruct Hsm as (st & c & Hst & Hsv).
  destruct (Io_start count a o p (DomainId.GetNode (Node.node_id_ wc)) wc Ho
    (snd_body _ _ _ Hs) (snd_wf _ _ _ Hs) (snd_size _ _ _ Hs))
    as (y0 & y1 & Hs' & _ & _ & _ & _ & Hload).
  assert (y1 = x1) as -> by congruence. destruct (Hal (Node.heap w)) as [[shm ptr] Hp].
  destruct (Hload bitfield_new DomainId.new) as (ar & Hin & Hl).
  destruct (Hl w _ Hp) as (o1 & Hl1 & Hb1 & Hbody). cbn [fst snd] in Hl1.
  destruct (Emplace_open e (Task.lane_hash_ (base o)) ln shm w Hopen) as (wq & Hemp & Hlq & Hqo & Hqw).
  set (w1 := Node.set_queue_map (Node.queue_map_ wq) (put_task ptr o2 w)).
  exists shm, ptr, w1. split; [done|]. split.
  - unfold RemoteQueue.RpcPushBulk, IoCallServer. cbn [tl_pull bulk_engine].
    unfold check_bytes. rewrite Z.eqb_refl. cbn [negb mbind outcome_bind].
    rewrite length_buf_resize, Nat2Z.id. rewrite (snd_size _ _ _ Hs).
    rewrite (RpcExec_Ok id SmallMessageMethod.kIo _ ar w st
      (GetTaskState id w) shm ptr o1 (WorkEntry.queue_ e) true wq);
      try done; [|by rewrite Hsv|by rewrite Hb1, <- Hprio in *].
    cbn [mbind outcome_bind deref]. destruct o1; simpl in Hb1, Hbody; by subst.
  - split; [done|]. split; [split; [by split_and!|done]|].
    transitivity (lane_at e wq); [by apply lane_at_same|]. by rewrite Hlq, Hem.
Qed.

(** A node answers with the verdict on the bytes, and none of its tasks changes. *)
Lemma answer_bulk_Io id ln wi e w a o p x0 x1 wc count :
  (∀ h : gmap Z TaskObj, is_Some (allocate h)) →
  md_server id (Task.prio_ (base o)) (Task.lane_hash_ (base o)) ln wi e w →
  get_task a wc = Ok o → io_sendable o p id →
  SaveStart (methods_of (SmallMessageServer count)) SmallMessageMethod.kIo
    (BinaryOutputArchive_new (DomainId.GetNode (Node.node_id_ wc))) a wc = Ok [x0; x1] →
  ∃ w', answer_bulk rpc ncpu wi e id SmallMessageMethod.kIo (DataTransfer.data_ x1) kWrite
      (Io.data_ p) w = Ok (enc cereal_int (verdict (Io.data_ p)), Io.data_ p, w') ∧
    Node.heap w' = Node.heap w.
Proof.
  intros Hal Hsrv Ho Hs Hsave.
  destruct (RpcPushBulk_Io id ln wi e w a o p x0 x1 wc count Hal Hsrv Ho Hs Hsave)
    as (shm & ptr & w1 & Hp & Hrpc & Hh1 & Hn1 & Hl1).
  pose proof (allocate_fresh _ _ _ Hp) as (Hfree & _ & Hconv).
  destruct Hsrv as [He Hsm _ _ _ _ Hwi _]. pose proof Hn1 as [(Es & Er & Ei & Eh & _) _].
  set (o2 := received_io _ _ _) in *.
  pose proof (received_io_task o p id w Hs He Hsm) as Hio. fold o2 in Hio.
  assert (io_task o2 (Io.data_ p) w1) as Hio1 by (eapply io_task_kept; [exact Hio|apply Hn1]).
  destruct (poll_io rpc ncpu wi e w1 _ shm o2 (Io.data_ p) Hl1 eq_refl)
    as (w2 & o3 & Hpoll & _ & Hh2 & Hc & Hdel & Hme & Hb3 & Hn2); try done.
  { rewrite Hconv, Hh1. apply lookup_insert_eq. }
  { by rewrite (same_node_workers _ _ _ Hn1). }
  rewrite Hconv in Hh2. assert (get_task ptr w2 = Ok o3) as Ho3
    by (apply get_task_Ok; rewrite Hh2; apply lookup_insert_eq).
  destruct Hsm as (st & c & Hst & Hsv).
  assert (is_i32 (verdict (Io.data_ p))) as Hv by (unfold verdict; by case_match).
  destruct (Io_end c ptr o3 _ _ w2 (DomainId.GetNode (Node.node_id_ w2)) Ho3 Hb3) as (y & Hy & Hyd & Hys).
  exists (Node.set_heap (delete ptr (Node.heap w2)) w2). split.
  - unfold answer_bulk. rewrite Hrpc. cbn [mbind outcome_bind]. rewrite Hpoll.
    cbn [mbind outcome_bind]. rewrite <- Hyd.
    pose proof (RpcPush_finish_Ok SmallMessageMethod.kIo c_Io ptr o3 st (GetTaskState id w) w2 y) as Hfin.
    rewrite Hsv in Hfin. unfold RemoteQueue.RpcPush_finish, Task.Wait in Hfin. cbn [fst snd] in Hfin.
    unfold RemoteQueue.RpcPushBulk_finish, Task.Wait. cbn [fst snd].
    rewrite Ho3 in Hfin |- *. cbn [mbind outcome_bind] in Hfin |- *.
    rewrite Hc in Hfin |- *. cbn [mbind outcome_bind] in Hfin |- *.
    rewrite Hfin; clear Hfin; try done.
    + unfold get_state in *. destruct Hn2 as [(-> & _) _]. by rewrite Es.
    + exact c_Io_srl.
    + rewrite Hme. apply Hs.
  - simpl. by rewrite Hh2, delete_insert_eq, Hh1, delete_insert_eq, delete_id.
Qed.

End server.

(** ** The sending side *)

Section client.
Context `{BitfieldLaws} `{Logger} `{MpscLaws} `{SpscOps} `{AllocLaws} `{RawMemory} `{CerealLaws}
        `{CharbufLaws} `{HvecLaws} `{Dlfcn} `{NetOps} `{ThalliumOps} `{OtherLibs}
        `{DaemonOps}.

(** Every node of the domain answers [ret], and the calls leave the node alone. *)
Definition io_answers (rpc : RpcContext) (id : TaskStateId) (params data : list Z) (ret : Z)
    (ids : list DomainId) : Prop :=
  ∀ d, d ∈ ids → ∀ w, ThalliumRpc.SyncIoCall rpc (DomainId.id_ d) "RpcPushBulk" kWrite data id
    SmallMessageMethod.kIo params w = Ok (enc cereal_int ret, data, w).

(** The loop over the replicas: each answer takes the place of the one before. *)
Lemma io_replicas_Io rpc task orig exec st count params data ret q t : ∀ ids k w o p,
  TaskLib.server st = SmallMessageServer count → task ≠ orig → is_i32 ret → ids ≠ [] →
  get_state exec w = Ok st → get_task orig w = Ok o → body o = BIo p →
  get_task task w = Ok t → body t = BRemotePush q →
  RemotePush.orig_task_ q = orig → RemotePush.exec_ q = exec →
  RemotePush.exec_method_ q = SmallMessageMethod.kIo → RemotePush.params_ q = params →
  io_answers rpc (TaskLib.id_ st) params data ret ids →
  RemoteQueue.io_replicas rpc task k kWrite data ids w =
    Ok (put_task orig (mkTaskObj (base o) (BIo (Io.mk (Io.data_ p) ret))) w).
Proof.
  induction ids as [|id ids IH]; intros k w o p Hsv Hne Hret Hids Hst Ho Hp Ht Hq Ho' He Hm Hps Ha; [done|].
  clear Hids. simpl. rewrite (get_remote_push _ _ _ _ Ht Hq). cbn [mbind outcome_bind snd].
  rewrite He, Hst. cbn [mbind outcome_bind]. rewrite Hm, Hps, (Ha id) by (by left).
  cbn [mbind outcome_bind].
  destruct (Io_LoadEnd count k orig w o p ret Ho Hp Hret) as (ar & Hin & Hload).
  unfold RemoteQueue.ClientHandlePushReplicaOutput. rewrite (get_remote_push _ _ _ _ Ht Hq).
  cbn [mbind outcome_bind snd]. rewrite Hin. cbn [mbind outcome_bind].
  rewrite He, (exec_table_Ok _ _ _ Hst), Hsv. cbn [mbind outcome_bind]. rewrite Hm, Ho', Hload.
  cbn [mbind outcome_bind]. destruct ids as [|id' ids]; [done|].
  rewrite (IH _ _ (mkTaskObj (base o) (BIo (Io.mk (Io.data_ p) ret))) (Io.mk (Io.data_ p) ret));
    try done.
  - simpl. by rewrite put_put_task.
  - apply get_put_task_eq.
  - by rewrite get_put_task_ne.
  - intros d Hd. apply Ha. by right.
Qed.

Lemma put_task_swap a b o o' w :
  a ≠ b → put_task a o (put_task b o' w) = put_task b o' (put_task a o w).
Proof. intros Hne. unfold put_task, Node.set_heap. simpl. by rewrite insert_insert_ne. Qed.

(** [Push] for a message with data *)
Lemma Push_Io rpc task orig exec ids x0 x1 data ret w st count o p t :
  TaskLib.server st = SmallMessageServer count → task ≠ orig → is_i32 ret → ids ≠ [] →
  get_state exec w = Ok st → get_task orig w = Ok o → body o = BIo p →
  Task.method_ (base o) = SmallMessageMethod.kIo → get_task task w = Ok t →
  body t = BRemotePush (RemotePush.mk ids orig exec SmallMessageMethod.kIo [x0; x1] []) →
  DataTransfer.data_ x0 = data → DataTransfer.data_size_ x0 = Z.of_nat (length data) →
  Any (DataTransfer.flags_ x0) DT_RECEIVER_READ = true →
  DataTransfer.data_size_ x1 = Z.of_nat (length (DataTransfer.data_ x1)) →
  io_answers rpc (TaskLib.id_ st) (DataTransfer.data_ x1) data ret ids →
  RemoteQueue.Push rpc task w =
    Ok (put_task task (mkTaskObj (Task.SetModuleComplete (base t))
           (BRemotePush (RemotePush.mk ids orig exec SmallMessageMethod.kIo [x0; x1] (DataTransfer.data_ x1))))
       (put_task orig (mkTaskObj (Task.SetModuleComplete (base o)) (BIo (Io.mk (Io.data_ p) ret))) w)).
Proof.
  intros Hsv Hne Hret Hids Hst Ho Hp Hm Ht Hq Hx0 Hz0 Hf Hz1 Ha. unfold RemoteQueue.Push.
  rewrite (get_remote_push _ _ _ _ Ht Hq). cbn [mbind outcome_bind snd RemotePush.xfer_ length].
  unfold RemoteQueue.ClientIoPush. cbn [lookup list_lookup deref mbind outcome_bind].
  rewrite Hz1, read_memory_all. cbn [mbind outcome_bind].
  rewrite (upd_remote_push _ _ _ _ _ Ht Hq). cbn [mbind outcome_bind]. rewrite Hf.
  set (t1 := mkTaskObj _ _). set (w1 := put_task task t1 w).
  assert (get_task task w1 = Ok t1) as Ht1 by apply get_put_task_eq.
  assert (get_task orig w1 = Ok o) as Ho1 by (unfold w1; by rewrite get_put_task_ne).
  rewrite (get_remote_push _ _ _ _ Ht1 eq_refl). cbn [mbind outcome_bind snd].
  rewrite Hx0, Hz0, read_memory_all. cbn [mbind outcome_bind].
  rewrite (io_replicas_Io rpc task orig exec st count (DataTransfer.data_ x1) data ret _ t1 _ _ w1 o p
    Hsv Hne Hret Hids Hst Ho1 Hp Ht1 eq_refl) by done.
  cbn [mbind outcome_bind]. set (o1 := mkTaskObj _ _). set (w2 := put_task orig o1 w1).
  assert (get_task task w2 = Ok t1) as Ht2 by (unfold w2; by rewrite get_put_task_ne).
  unfold RemoteQueue.ClientHandlePushReplicaEnd. rewrite (get_remote_push _ _ _ _ Ht2 eq_refl).
  cbn [mbind outcome_bind snd]. simpl RemotePush.orig_task_. simpl RemotePush.exec_.
  rewrite (get_put_task_eq orig o1 w1 : get_task orig w2 = Ok o1). cbn [mbind outcome_bind].
  rewrite (exec_table_Ok exec w2 st Hst), Hsv. cbn [mbind outcome_bind]. simpl base. rewrite Hm.
  change (ReplicateEnd (methods_of (SmallMessageServer count)) SmallMessageMethod.kIo orig w2) with (Ok w2).
  cbn [mbind outcome_bind]. rewrite (upd_get_Ok _ _ _ _ (get_put_task_eq orig o1 w1)).
  cbn [mbind outcome_bind]. unfold w2. rewrite put_put_task.
  assert (get_task task (put_task orig (on_base Task.SetModuleComplete o1) w1) = Ok t1) as Ht3
    by (by rewrite get_put_task_ne).
  rewrite (upd_get_Ok _ _ _ _ Ht3). unfold w1.
  rewrite (put_task_swap orig task) by congruence. by rewrite put_put_task.
Qed.

Variable (rpc : RpcContext) (ncpu : Z).
#[local] Hint Extern 0 TaskExecOps => exact (path_exec rpc ncpu) : typeclass_instances.

(** A push task that [Disperse] made *)
Lemma made_remote_push memory node id ids orig exec method xfer b w :
  (∃ p, b = BRemotePush p) → GetTaskState id w ≠ 0 → is_remote_queue (GetTaskState id w) w →
  let o := mkTaskObj (RemotePush.make memory node DomainId.GetLocal id ids orig exec method xfer).1 b in
  remote_push o w ∧ Task.IsRunDisabled (base o) = false ∧ Task.IsStarted (base o) = false ∧
  Task.IsModuleComplete (base o) = false ∧ Task.IsFireAndForget (base o) = false.
Proof.
  intros Hb He Hst o.
  assert (∀ n, 0 ≤ n < 32 → n ∈ [8; 10; 12; 13; 16] →
    Task.AnyTaskFlags (BIT_OPT n) (base o) = false) as E.
  { intros n Hn Hin. unfold Task.AnyTaskFlags, o, RemotePush.make, init_task. simpl.
    rewrite Any_testbit, testbit_SetBits, bitfield_new_spec, Z.bits_0 by done.
    unfold TASK_LOW_LATENCY, TASK_PREEMPTIVE, TASK_REMOTE_DEBUG_MARK.
    rewrite !Z.lor_spec, !testbit_BIT_OPT by lia.
    repeat (apply elem_of_cons in Hin as [->|Hin]; [done|]). by apply not_elem_of_nil in Hin. }
  assert (Task.IsPreemptive (base o) = true) as Hpr.
  { unfold Task.IsPreemptive, Task.AnyTaskFlags, o, RemotePush.make, init_task. simpl.
    unfold TASK_LOW_LATENCY, TASK_PREEMPTIVE, TASK_REMOTE_DEBUG_MARK.
    rewrite Any_testbit, testbit_SetBits, !Z.lor_spec, !testbit_BIT_OPT by lia.
    by rewrite !orb_true_r. }
  split; [|split_and!; apply E; (lia || set_solver)].
  split; try done; [apply local_not_remote|apply E; (lia || set_solver)].
Qed.

(** What [Disperse] leaves of a data message: the message as it was, and a push task with its
    bytes in the lane of the remote queue *)
Record io_dispersed (er : WorkEntry) (lr : Lane) (a exec ptr shm : Z) (ids : list DomainId)
    (p : Io.IoTask) (x0 x1 : DataTransfer) (op : TaskObj) (w wd : Node) : Prop := {
  iod_heap : Node.heap wd = <[ptr := op]> (Node.heap w);
  iod_new : Node.heap w !! ptr = None;
  iod_shm : Convert shm = ptr;
  iod_push : remote_push op wd;
  iod_body : body op = BRemotePush (RemotePush.mk ids a exec SmallMessageMethod.kIo [x0; x1] []);
  iod_enabled : Task.IsRunDisabled (base op) = false;
  iod_fresh : Task.IsStarted (base op) = false;
  iod_incomplete : Task.IsModuleComplete (base op) = false;
  iod_kept : Task.IsFireAndForget (base op) = false;
  iod_data : DataTransfer.data_ x0 = Io.data_ p;
  iod_data_size : DataTransfer.data_size_ x0 = Z.of_nat (length (Io.data_ p));
  iod_read : Any (DataTransfer.flags_ x0) DT_RECEIVER_READ = true;
  iod_size : DataTransfer.data_size_ x1 = Z.of_nat (length (DataTransfer.data_ x1));
  iod_env : env_kept (WorkEntry.queue_ er) w wd;
  iod_workers : Node.workers_ wd = Node.workers_ w;
  iod_lane : lane_at er wd = Ok (Lane.set_data (Lane.data lr ++ [LaneData.make shm false]) lr);
}.

Lemma Disperse_Io a exec o p st count ids er lr w :
  (∀ h : gmap Z TaskObj, is_Some (allocate h)) →
  get_task a w = Ok o → io_sendable o p (TaskLib.id_ st) → get_state exec w = Ok st →
  TaskLib.server st = SmallMessageServer count → Z.of_nat (length ids) < 2 ^ 32 →
  Client.GetQueue (snd (Node.remote_queue_ w)) w = Ok (WorkEntry.queue_ er) →
  Task.prio_ (base o) = WorkEntry.prio_ er → lane_open er (Task.lane_hash_ (base o)) lr w →
  GetTaskState (fst (Node.remote_queue_ w)) w ≠ 0 →
  is_remote_queue (GetTaskState (fst (Node.remote_queue_ w)) w) w →
  ∃ x0 x1 shm ptr op wd, Disperse a exec ids w = Ok wd ∧
    SaveStart (methods_of (SmallMessageServer count)) SmallMessageMethod.kIo
      (BinaryOutputArchive_new (DomainId.GetNode (Node.node_id_ w))) a w = Ok [x0; x1] ∧
    io_dispersed er lr a exec ptr shm ids p x0 x1 op w wd.
Proof.
  intros Hal Ho Hs Hst Hsv Hlen Hq Hprio Hopen He Hrq.
  destruct (Io_start count a o p (DomainId.GetNode (Node.node_id_ w)) w Ho
    (snd_body _ _ _ Hs) (snd_wf _ _ _ Hs) (snd_size _ _ _ Hs))
    as (x0 & x1 & Hsave & Hd0 & Hz0 & Hf0 & Hz1 & _).
  pose proof (snd_method _ _ _ Hs) as Hme.
  destruct (Node.remote_queue_ w) as [id qid] eqn:Erq. cbn [fst snd] in *.
  destruct (Disperse_Ok a exec ids w o st c_Io (base o, p) id qid (WorkEntry.queue_ er) [x0; x1] Ho Hst)
    as (og & shm & ptr & op & ret & wq & Hd & Hr & _ & _ & Hap & Hnew & Hconv & Hop & Hob & Hem);
    rewrite ?Hsv, ?Hme; try done.
  { unfold as_type. by rewrite (snd_body _ _ _ Hs). }
  { intros q. destruct (Emplace_open er _ lr q w Hopen) as (wq & Hq' & _). rewrite Hprio. by eexists _, _. }
  rewrite Hsv, Hme in Hr. change (ReplicateStart _ _ _ a w) with (Ok (A:=Node) w) in Hr.
  injection Hr as Hr. rewrite <- Hr in Hd.
  destruct (Emplace_open er (Task.lane_hash_ (base o)) lr shm w Hopen) as (wq' & Hem' & Hlq & Hqo & _).
  rewrite Hprio, Hem' in Hem. injection Hem as _ <-. rewrite Hme in Hop.
  set (wd := Node.set_queue_map _ _) in Hd.
  exists x0, x1, shm, ptr, op, wd. split; [|split; [done|]].
  { change (lib_Disperse a exec ids w = Ok wd). unfold lib_Disperse. rewrite Hst.
    cbn [mbind outcome_bind]. by rewrite Hsv. }
  destruct (made_remote_push raw_task (TaskNode.add (Task.task_node_ (base o)) 1) id ids a exec
    (Task.method_ (base o)) [x0; x1] (body op) wd) as (Hrp & F1 & F2 & F3 & F4); [by eexists|done..|].
  assert (op = mkTaskObj (base op) (body op)) as Eop by (by destruct op).
  rewrite <- Hob, <- Eop in *. split; try done. by rewrite Hz0, (snd_size _ _ _ Hs).
Qed.

End client.

(** ** The whole path *)

Section remote.
Context `{BitfieldLaws} `{Logger} `{MpscLaws} `{SpscOps} `{AllocLaws} `{RawMemory} `{CerealLaws}
        `{CharbufLaws} `{HvecLaws} `{Dlfcn} `{NetOps} {Calls : ThalliumOps} `{OtherLibs}
        `{DaemonOps}.
Variable (rpc : RpcContext) (ncpu : Z) (servers : string → option Server).

(** The node with id [nid], another one, serves the data messages of the state [id]. *)
Definition serves_io (id : TaskStateId) (prio hash : Z) (nid : Z) : Prop :=
  ∃ name s ln other, ThalliumRpc.GetServerName rpc nid = Ok name ∧ servers name = Some s ∧
    server_node s = Some other ∧
    md_server id prio hash ln (server_worker s) (server_entry s) other.

Lemma cluster_io_answers id a o p x0 x1 wc count ids :
  (∀ h : gmap Z TaskObj, is_Some (allocate h)) →
  get_task a wc = Ok o → io_sendable o p id →
  SaveStart (methods_of (SmallMessageServer count)) SmallMessageMethod.kIo
    (BinaryOutputArchive_new (DomainId.GetNode (Node.node_id_ wc))) a wc = Ok [x0; x1] →
  Forall (λ d, serves_io id (Task.prio_ (base o)) (Task.lane_hash_ (base o)) (DomainId.id_ d)) ids →
  @io_answers _ _ _ (cluster_thallium rpc ncpu servers) rpc id (DataTransfer.data_ x1) (Io.data_ p)
    (verdict (Io.data_ p)) ids.
Proof.
  intros Hal Ho Hs Hsave Hall d Hd w. rewrite Forall_forall in Hall.
  destruct (Hall d Hd) as (name & s & ln & other & Hn & Hse & Hother & Hsrv).
  destruct (answer_bulk_Io rpc ncpu id ln _ _ other a o p x0 x1 wc count Hal Hsrv Ho Hs Hsave)
    as (w' & Ha & _).
  unfold ThalliumRpc.SyncIoCall. rewrite Hn. cbn [mbind outcome_bind]. simpl. rewrite Hse.
  cbv iota. rewrite Hother. simpl default.
  destruct (srv_rpcs _ _ _ _ _ _ _ Hsrv) as [_ [this ->]]. by rewrite Ha.
Qed.

(** From here on, calls are those of the cluster. *)
#[local] Instance remote_thallium : ThalliumOps := cluster_thallium rpc ncpu servers.
#[local] Hint Extern 0 TaskExecOps => exact (path_exec rpc ncpu) : typeclass_instances.

(** What the path needs besides [io_client] when the domain [dom] covers other nodes: the
    message's state by its id, the remote queue and its lane, and a worker for it *)
Record io_remote (sm : SmallMessageClient.Client) (dom : DomainId) (wr : nat) (ep es er : WorkEntry)
    (lr : Lane) (st : TaskState) (count : Z) (w : Node) : Prop := {
  rem_domain : DomainId.IsRemote dom (Z.of_nat (length (Node.hosts_ w))) (Node.node_id_ w) = true;
  rem_hosts : Z.of_nat (length (ResolveDomainId dom (Node.hosts_ w))) < 2 ^ 32;
  rem_state : get_state (GetTaskState (SmallMessageClient.id_ sm) w) w = Ok st;
  rem_id : TaskLib.id_ st = SmallMessageClient.id_ sm;
  rem_server : TaskLib.server st = SmallMessageServer count;
  rem_queue : Client.GetQueue (snd (Node.remote_queue_ w)) w = Ok (WorkEntry.queue_ er);
  rem_prio : WorkEntry.prio_ er = TaskPrio.kLowLatency;
  rem_lane : lane_open er 3 lr w;
  rem_empty : Lane.data lr = [];
  rem_queues : WorkEntry.queue_ er ≠ WorkEntry.queue_ ep ∧ WorkEntry.queue_ er ≠ WorkEntry.queue_ es;
  rem_exec : GetTaskState (fst (Node.remote_queue_ w)) w ≠ 0;
  rem_push_state : is_remote_queue (GetTaskState (fst (Node.remote_queue_ w)) w) w;
  rem_worker : (wr < length (Node.workers_ w))%nat;
}.

Lemma io_remote_kept sm dom wr ep es er lr st count q w w' :
  io_remote sm dom wr ep es er lr st count w → env_kept q w w' → WorkEntry.queue_ er ≠ q →
  length (Node.workers_ w') = length (Node.workers_ w) →
  io_remote sm dom wr ep es er lr st count w'.
Proof.
  intros [Hd Hh Hst Hid Hsv Hq Hp Hl He Hqs Hx Hrq Hw] Hk Hne Hwk.
  pose proof Hk as (Es & Er & En & Eh & Eq & _ & E). split; rewrite ?Eh, ?En, ?Eq, ?Hwk; try done.
  - unfold get_state in *. by rewrite (GetTaskState_same _ _ _ Er), Es.
  - by eapply GetQueue_kept.
  - eapply lane_open_same; [done|]. by apply E.
  - by rewrite (GetTaskState_same _ _ _ Er).
  - rewrite (GetTaskState_same _ _ _ Er). by eapply remote_queue_same.
Qed.

Lemma io_message_sendable o data ret w id c :
  io_message o data w → body o = BIo (Io.mk data ret) → Task.wf (base o) →
  Task.task_state_ (base o) = id → io_sendable (on_base (Task.set_ctx c) o) (Io.mk data ret) id.
Proof. intros [] Hb Hwf Hid. by split. Qed.

Lemma push_task_kept o tp q w w' : push_task o tp w → env_kept q w w' → push_task o tp w'.
Proof.
  intros [Hp Hb Hm (st & Hst & Hsv) Hu Hff Hmc] Hk. pose proof Hk as (Es & Er & _).
  split; try done; [by eapply plain_kept|]. exists st. split; [|done]. unfold get_state in *. rewrite Es.
  by rewrite (GetTaskState_same _ _ _ Er).
Qed.

Lemma remote_push_kept o q w w' : remote_push o w → env_kept q w w' → remote_push o w'.
Proof.
  intros [He Hl Hs Ht Hb Hm Hst] Hk. pose proof Hk as (Es & Er & En & Eh & _).
  split; try done; rewrite ?(GetTaskState_same _ _ _ Er), ?En, ?Eh; try done.
  by eapply remote_queue_same.
Qed.

Lemma remote_push_changed f o b w :
  remote_push o w → (∃ p, b = BRemotePush p) → Task.task_state_ (f (base o)) = Task.task_state_ (base o) →
  Task.domain_id_ (f (base o)) = Task.domain_id_ (base o) →
  Task.method_ (f (base o)) = Task.method_ (base o) →
  Task.IsCoroutine (f (base o)) = Task.IsCoroutine (base o) →
  Task.IsPreemptive (f (base o)) = Task.IsPreemptive (base o) →
  remote_push (mkTaskObj (f (base o)) b) w.
Proof. intros [] Hb Es Ed Em Ec Ep. split; simpl; rewrite ?Es, ?Ed, ?Em, ?Ec, ?Ep; done. Qed.

Lemma io_message_kept o data w w' :
  io_message o data w → Node.states w' = Node.states w →
  Node.task_registry_ w' = Node.task_registry_ w → io_message o data w'.
Proof.
  intros [] Es Er. split; try done; rewrite (GetTaskState_same _ _ _ Er); [done|by eapply small_message_same].
Qed.

Lemma put_task_kept a o q w : env_kept q w (put_task a o w).
Proof. by split_and!. Qed.

(** While the thread of the remote push task runs: the three tasks, each at the head of its
    lane, and what the answers will be *)
Record io_out (sm : SmallMessageClient.Client) (st : TaskState) (push sub : LPointer) (op os : TaskObj)
    (tp : TypedPush.TypedPushTask) (data : list Z) (wi : nat) (ep es er : WorkEntry) (lp ls lr : Lane)
    (ids : list DomainId) (ptr shm tid : Z) (w w4 : Node) : Prop := {
  out_ep : lane_at ep w4 = Ok (Lane.set_data [LaneData.make (shm_ push) false] lp);
  out_es : lane_at es w4 = Ok (Lane.set_data [LaneData.make (shm_ sub) false] ls);
  out_er : lane_at er w4 = Ok (Lane.set_data [LaneData.set_thread tid (LaneData.make shm false)] lr);
  out_shm : Convert shm = ptr;
  out_thread : Node.threads w4 !! tid = Some ptr;
  out_distinct : ptr ≠ ptr_ push ∧ ptr ≠ ptr_ sub;
  out_new : Node.heap w !! ptr = None;
  out_push : ∃ c, Node.heap w4 !! ptr_ push = Some (pushed c op tp) ∧
    push_task (pushed c op tp)
      (TypedPush.mk sub (mkLPointer (ptr_ sub) (shm_ sub)) PushTaskPhase.kWaitSchedule) w4;
  out_sub : ∃ c, Node.heap w4 !! ptr_ sub = Some (on_base dispersed (on_base (Task.set_ctx c) os));
  out_rpush : ∃ rop x0 x1, Node.heap w4 !! ptr = Some rop ∧ remote_push rop w4 ∧
    Task.IsRunDisabled (base rop) = true ∧ Task.IsFireAndForget (base rop) = false ∧
    body rop = BRemotePush (RemotePush.mk ids (ptr_ sub) (GetTaskState (SmallMessageClient.id_ sm) w)
      SmallMessageMethod.kIo [x0; x1] []) ∧
    DataTransfer.data_ x0 = data ∧ DataTransfer.data_size_ x0 = Z.of_nat (length data) ∧
    Any (DataTransfer.flags_ x0) DT_RECEIVER_READ = true ∧
    DataTransfer.data_size_ x1 = Z.of_nat (length (DataTransfer.data_ x1)) ∧
    io_answers rpc (TaskLib.id_ st) (DataTransfer.data_ x1) data 1 ids;
  out_others : ∀ b, b ≠ ptr_ push → b ≠ ptr_ sub → b ≠ ptr → Node.heap w4 !! b = Node.heap w !! b;
  out_worker : ∃ wk n, get_worker wi w4 = Ok wk ∧
    Worker.group_map_ wk !! le_bytes 4 (WorkEntry.lane_id_ ep) = Some n ∧ TaskNode.node_depth_ n = 1;
  out_workers : length (Node.workers_ w4) = length (Node.workers_ w);
  out_env : Node.states w4 = Node.states w ∧ Node.task_registry_ w4 = Node.task_registry_ w ∧
    Node.node_id_ w4 = Node.node_id_ w ∧ Node.hosts_ w4 = Node.hosts_ w;
}.

(** The second poll disperses the message. *)
Lemma message_dispersed sm dom wj wr ep es er ls lr st count w2 sub os data :
  (∀ h : gmap Z TaskObj, is_Some (allocate h)) →
  io_remote sm dom wr ep es er lr st count w2 →
  Convert (shm_ sub) = ptr_ sub →
  lane_at es w2 = Ok (Lane.set_data [LaneData.make (shm_ sub) false] ls) →
  Node.heap w2 !! ptr_ sub = Some os → io_message os data w2 → Task.wf (base os) →
  Task.domain_id_ (base os) = dom → Task.prio_ (base os) = TaskPrio.kLowLatency →
  Task.lane_hash_ (base os) = 3 → Task.task_state_ (base os) = SmallMessageClient.id_ sm →
  verdict data = 1 →
  let ids := ResolveDomainId dom (Node.hosts_ w2) in
  Forall (λ d, serves_io (SmallMessageClient.id_ sm) TaskPrio.kLowLatency 3 (DomainId.id_ d)) ids →
  ∃ c p x0 x1 shm ptr op wd w3, PollGrouped wj es w2 = Ok w3 ∧ Io.data_ p = data ∧
    io_dispersed er lr (ptr_ sub) (GetTaskState (SmallMessageClient.id_ sm) w2) ptr shm ids p x0 x1 op
      (put_task (ptr_ sub) (on_base (Task.set_ctx c) os) w2) wd ∧
    w3 = put_task (ptr_ sub) (on_base dispersed (on_base (Task.set_ctx c) os)) wd ∧
    io_answers rpc (TaskLib.id_ st) (DataTransfer.data_ x1) data 1 ids.
Proof.
  intros Hal [Hd Hh Hst Hid Hsv Hq Hp Hl He Hqs Hx Hrq Hw] Cs Hls Ho Hmsg Hwf Hdom Hpr Hhash Hstate Hver ids Hsrv.
  pose proof Hmsg as [Hex Hen _ _ Hmc [ret Hb] _ _ _ _ Hsz].
  destruct (poll_remote_first (Calls:=Calls) rpc ncpu servers wj es w2 _ (shm_ sub) os Hls eq_refl) as (c & Hfirst); rewrite ?Cs; try done.
  { by rewrite Hdom. }
  set (o1 := on_base (Task.set_ctx c) os). set (w2' := put_task (ptr_ sub) o1 w2).
  assert (io_sendable o1 (Io.mk data ret) (TaskLib.id_ st)) as Hs1
    by (eapply io_message_sendable; [exact Hmsg|done|done|congruence]).
  assert (get_task (ptr_ sub) w2' = Ok o1) as Ho1 by apply get_put_task_eq.
  destruct (Disperse_Io rpc ncpu (ptr_ sub) (GetTaskState (SmallMessageClient.id_ sm) w2) o1 _ st count ids
    er lr w2' Hal Ho1 Hs1 Hst Hsv Hh Hq) as (x0 & x1 & shm & ptr & op & wd & Hdis & Hsave & Hout).
  { transitivity TaskPrio.kLowLatency; [exact Hpr|by rewrite Hp]. }
  { change (Task.lane_hash_ (base o1)) with (Task.lane_hash_ (base os)). rewrite Hhash.
    by apply (lane_open_same er 3 lr w2). }
  { exact Hx. } { exact Hrq. }
  pose proof (iod_new _ _ _ _ _ _ _ _ _ _ _ _ _ Hout) as Hnew.
  assert (ptr ≠ ptr_ sub) as Hne.
  { intros ->. simpl in Hnew. by rewrite lookup_insert_eq in Hnew. }
  exists c, (Io.mk data ret), x0, x1, shm, ptr, op, wd, (put_task (ptr_ sub) (on_base dispersed o1) wd).
  split; [|split; [reflexivity|split; [exact Hout|split; [reflexivity|]]]].
  - rewrite Cs, Hstate, Hdom in Hfirst. apply (Hfirst wd _ Hdis).
    + rewrite (iod_heap _ _ _ _ _ _ _ _ _ _ _ _ _ Hout), lookup_insert_ne by done. apply lookup_insert_eq.
    + exact Hmc.
    + rewrite (lane_at_kept _ _ _ _ (iod_env _ _ _ _ _ _ _ _ _ _ _ _ _ Hout)) by (apply not_eq_sym, Hqs).
      exact Hls.
  - rewrite <- Hver. apply (cluster_io_answers (TaskLib.id_ st) (ptr_ sub) o1 (Io.mk data ret) x0 x1 w2' count ids); try done.
    rewrite Hid. change (Task.prio_ (base o1)) with (Task.prio_ (base os)).
    change (Task.lane_hash_ (base o1)) with (Task.lane_hash_ (base os)). by rewrite Hpr, Hhash.
Qed.

(** The flags of the push task once its thread was started *)
Lemma thread_flags c o :
  Task.IsRunDisabled (Task.DisableRun (Task.set_ctx c (base o))) = true ∧
  Task.IsFireAndForget (Task.DisableRun (Task.set_ctx c (base o))) = Task.IsFireAndForget (base o).
Proof. split; flags_task; by rewrite ?orb_true_r, ?orb_false_r. Qed.

(** The first three polls: the request is out. *)
Lemma request_out pq sm tid pid dom wi wj wr ep es er lp ls lr st count w push sub op os tp data w1 :
  (∀ h : gmap Z TaskObj, is_Some (allocate h)) →
  io_client pq sm tid pid wi wj ep es lp ls w → io_remote sm dom wr ep es er lr st count w →
  ids_fit sm dom w → io_submitted sm dom ep lp push sub op os tp data w w1 →
  let ids := ResolveDomainId dom (Node.hosts_ w) in
  Forall (λ d, serves_io (SmallMessageClient.id_ sm) TaskPrio.kLowLatency 3 (DomainId.id_ d)) ids →
  ∃ w2 w3 w4 shm t, PollGrouped wi ep w1 = Ok w2 ∧ PollGrouped wj es w2 = Ok w3 ∧
    PollGrouped wr er w3 = Ok w4 ∧
    io_out sm st push sub op os tp data wi ep es er lp ls lr ids (Convert shm) shm t w w4.
Proof.
  intros Hal Hcl Hrem Hfit Hsent ids Hsrv. pose proof (rem_queues _ _ _ _ _ _ _ _ _ _ Hrem) as [Hqp Hqs].
  destruct (push_submitted rpc ncpu _ _ _ _ _ _ _ _ _ _ _ _ _ _ _ _ _ _ _ Hcl Hsent)
    as (c & w2 & wk & n & Hp1 & Hlp2 & Hls2 & Ha2 & Hs2 & Ho2 & Hwk2 & Hg2 & Hn & K2 & L2).
  destruct Hsent as [Cp Cs Dist Hh1 Np Ns Hl1 K1 W1 Hpt Hst Hsub Hph Hdel Hmsg Hdom Hwf Hinc Hver Hdels Hpr Hhash Hstate].
  assert (io_remote sm dom wr ep es er lr st count w2) as Hrem2.
  { eapply io_remote_kept; [|exact K2|done|by rewrite L2, W1].
    eapply io_remote_kept; [exact Hrem|exact K1|done|by rewrite W1]. }
  pose proof K1 as (Es1 & Er1 & En1 & Eh1 & _). pose proof K2 as (Es2 & Er2 & En2 & Eh2 & _).
  assert (ResolveDomainId dom (Node.hosts_ w2) = ids) as Eids by (unfold ids; by rewrite Eh2, Eh1).
  assert (GetTaskState (SmallMessageClient.id_ sm) w2 = GetTaskState (SmallMessageClient.id_ sm) w) as Eex
    by (by rewrite (GetTaskState_same _ _ _ Er2), (GetTaskState_same _ _ _ Er1)).
  destruct (message_dispersed sm dom wj wr ep es er ls lr st count w2 sub os data Hal Hrem2 Cs Hls2 Hs2)
    as (c2 & p & x0 & x1 & shm & ptr & rop & wd & w3 & Hp2 & Hdp & Hout & -> & Hans); try done.
  { by apply (io_message_kept os data w1). } { by apply Hwf. } { by rewrite Eids. }
  rewrite Eids, Eex in *. destruct Hout as [Hhd Hnew Cr Hrp Hrb F1 F2 F3 F4 D1 D2 D3 D4 Kd Wd Lr].
  rewrite Hdp in D1, D2. rewrite (rem_empty _ _ _ _ _ _ _ _ _ _ Hrem) in Lr.
  assert (ptr ≠ ptr_ sub ∧ ptr ≠ ptr_ push) as [Nsub Npush].
  { split; intros ->; simpl in Hnew; [by rewrite lookup_insert_eq in Hnew|].
    by rewrite lookup_insert_ne, Ha2 in Hnew. }
  set (osd := on_base dispersed _) in *. set (w3 := put_task (ptr_ sub) osd wd) in *.
  set (w2' := put_task (ptr_ sub) _ w2) in *.
  assert (Node.heap w3 !! ptr = Some rop) as Hr3.
  { simpl. rewrite lookup_insert_ne, Hhd by done. apply lookup_insert_eq. }
  pose proof (remote_push_kept _ _ _ _ Hrp (put_task_kept (ptr_ sub) osd 0 wd)) as Hrp3.
  destruct (poll_thread_first rpc ncpu wr er w3 _ shm rop Lr eq_refl)
    as (c3 & t & w4 & Hp3 & Hler4 & Hh4 & Ht4 & Hfree & Hn4); rewrite ?Cr; try done.
  { simpl. rewrite Wd. simpl. rewrite L2. apply Hrem. }
  rewrite Cr in Hh4, Ht4. exists w2, w3, w4, shm, t. do 3 (split; [done|]). rewrite Cr.
  assert (env_kept (WorkEntry.queue_ er) w2 w4) as K4.
  { transitivity w2'; [apply put_task_kept|]. transitivity wd; [done|].
    transitivity w3; [apply put_task_kept|apply Hn4]. }
  assert (groups_of w3 = groups_of w2) as G3 by (unfold groups_of; simpl; by rewrite Wd).
  destruct (groups_worker wi w2 w4 wk) as (wk4 & Hwk4 & Hg4); [by destruct Hn4 as [_ ->]|done|].
  pose proof (push_task_pushed c op tp w1 w2 _ Hpt K2) as Hpt2. rewrite Hsub, Cs in Hpt2.
  pose proof K4 as (Es4 & Er4 & En4 & Eh4 & _).
  assert (∀ b, b ≠ ptr_ sub → b ≠ ptr → Node.heap w4 !! b = Node.heap w2 !! b) as Hother.
  { intros b Hb1 Hb2. rewrite Hh4, lookup_insert_ne by done. simpl.
    rewrite lookup_insert_ne, Hhd by done. simpl. by rewrite !lookup_insert_ne by done. }
  split; try done.
  - rewrite (lane_at_kept _ _ _ _ K4) by (by apply not_eq_sym). exact Hlp2.
  - rewrite (lane_at_kept _ _ _ _ K4) by (by apply not_eq_sym). exact Hls2.
  - rewrite Ht4. apply lookup_insert_eq.
  - simpl in Hnew. rewrite lookup_insert_ne, Ho2 in Hnew by done. exact Hnew.
  - exists c. split; [|by eapply push_task_kept]. by rewrite Hother by done.
  - exists c2. rewrite Hh4, lookup_insert_ne by done. apply lookup_insert_eq.
  - destruct (thread_flags c3 rop) as (G1 & G2). eexists _, x0, x1. rewrite Hh4.
    split; [apply lookup_insert_eq|]. split_and!; try done; [|exact (eq_trans G2 F4)].
    apply (remote_push_changed (λ t, Task.DisableRun (Task.set_ctx c3 t)) rop (body rop) w4); try done;
      [by eapply remote_push_kept; [|apply Hn4]|by eexists|..]; flags_task; by rewrite orb_false_r.
  - intros b Hb1 Hb2 Hb3. by rewrite Hother, Ho2.
  - by exists wk4, n; rewrite Hg4.
  - rewrite (same_node_workers _ _ _ Hn4). simpl. by rewrite Wd.
  - split_and!; congruence.
Qed.

(** The thread of the remote push task: each node of the domain answers, the message has the
    answer, and the thread ends. *)
Lemma thread_answers sm st count push sub op os tp data ret wi ep es er lp ls lr ids ptr shm t w w4 :
  io_out sm st push sub op os tp data wi ep es er lp ls lr ids ptr shm t w w4 →
  TaskLib.server st = SmallMessageServer count →
  get_state (GetTaskState (SmallMessageClient.id_ sm) w) w = Ok st → ids ≠ [] →
  body os = BIo (Io.mk data ret) → Task.method_ (base os) = SmallMessageMethod.kIo →
  ∃ rop c w5, RunPreemptive t w4 = Ok w5 ∧
    Node.heap w5 = <[ptr := rop]>
      (<[ptr_ sub := mkTaskObj (Task.SetModuleComplete (dispersed (Task.set_ctx c (base os))))
           (BIo (Io.mk data 1))]> (Node.heap w4)) ∧
    Node.threads w5 !! t = None ∧ remote_push rop w5 ∧ Task.IsRunDisabled (base rop) = true ∧
    Task.IsModuleComplete (base rop) = true ∧ Task.IsFireAndForget (base rop) = false ∧
    Node.queue_map_ w5 = Node.queue_map_ w4 ∧ Node.workers_ w5 = Node.workers_ w4 ∧
    ∀ q, env_kept q w4 w5.
Proof.
  intros [_ _ _ _ Ht [Npush Nsub] _ _ (c & Hsub) (rop & x0 & x1 & Hr & Hrp & Hdis & Hff & Hb & D1 & D2 & D3 & D4 & Hans) _ _ _ (Es & Er & _)]
    Hsv Hst Hids Hbos Hm. pose proof Hrp as [He _ _ _ _ Hmr Hq].
  set (osd := on_base dispersed _) in Hsub.
  pose proof (Push_Io rpc ptr (ptr_ sub) (GetTaskState (SmallMessageClient.id_ sm) w) ids x0 x1 data 1 w4
    st count osd (Io.mk data ret) rop Hsv Nsub ltac:(by split) Hids) as Hpush.
  rewrite !get_task_Ok in Hpush. unfold get_state in Hpush, Hst. rewrite Es in Hpush.
  specialize (Hpush Hst Hsub Hbos Hm Hr Hb D1 D2 D3 D4 Hans).
  set (rop' := mkTaskObj _ _) in Hpush. set (os5 := mkTaskObj _ _) in Hpush.
  set (wp := put_task ptr rop' _) in Hpush.
  set (w5 := Node.set_threads (delete t (Node.threads wp)) wp).
  assert (RunPreemptive t w4 = Ok w5) as Hrun.
  { unfold RunPreemptive. rewrite Ht. cbn [deref mbind outcome_bind].
    rewrite (proj2 (get_task_Ok _ _ _) Hr). cbn [mbind outcome_bind].
    rewrite (proj2 (Z.eqb_neq _ _) He), Hmr, remote_queue_Run by exact Hq. by rewrite Hpush. }
  assert (∀ n, 0 ≤ n < 32 → n ≠ 10 → Task.AnyTaskFlags (BIT_OPT n) (base rop') =
    Task.AnyTaskFlags (BIT_OPT n) (base rop)) as Hflag by (intros; by apply flag_SetModuleComplete).
  exists rop', c, w5. split; [done|]. split; [done|]. split; [apply lookup_delete_eq|]. split.
  { apply (remote_push_kept _ 0 w4); [|by split_and!].
    apply (remote_push_changed Task.SetModuleComplete rop _ w4 Hrp); try done;
      [by eexists|apply (Hflag 16)|apply (Hflag 17)]; lia. }
  split; [rewrite <- Hdis; apply (Hflag 13); lia|]. split; [apply IsModuleComplete_set|].
  split; [rewrite <- Hff; apply (Hflag 12); lia|]. do 2 (split; [done|]). by intros q; split_and!.
Qed.

(** One more poll of its lane takes the remote push task from it. *)
Lemma thread_completes sm dom wr st count push sub op os tp data ret wi ep es er lp ls lr ids ptr shm t w w4 :
  io_out sm st push sub op os tp data wi ep es er lp ls lr ids ptr shm t w w4 →
  io_remote sm dom wr ep es er lr st count w → ids ≠ [] →
  body os = BIo (Io.mk data ret) → Task.method_ (base os) = SmallMessageMethod.kIo →
  ∃ rop c w5 w6, RunPreemptive t w4 = Ok w5 ∧ PollGrouped wr er w5 = Ok w6 ∧
    lane_at er w6 = Ok lr ∧ Task.IsComplete (base rop) = true ∧
    Node.heap w6 = <[ptr := rop]>
      (<[ptr_ sub := mkTaskObj (Task.SetModuleComplete (dispersed (Task.set_ctx c (base os))))
           (BIo (Io.mk data 1))]> (Node.heap w4)) ∧
    env_kept (WorkEntry.queue_ er) w4 w6 ∧
    ∃ wk n, get_worker wi w6 = Ok wk ∧
      Worker.group_map_ wk !! le_bytes 4 (WorkEntry.lane_id_ ep) = Some n ∧ TaskNode.node_depth_ n = 1.
Proof.
  intros Hout Hrem Hids Hb Hm.
  destruct (thread_answers _ _ count _ _ _ _ _ _ ret _ _ _ _ _ _ _ _ _ _ _ _ _ Hout
    (rem_server _ _ _ _ _ _ _ _ _ _ Hrem) (rem_state _ _ _ _ _ _ _ _ _ _ Hrem) Hids Hb Hm)
    as (rop & c & w5 & Hrun & Hh5 & Ht5 & Hrp5 & R1 & R2 & R3 & Q5 & W5 & K5).
  destruct Hout as [_ _ Hlr4 Cr _ _ _ _ _ _ _ (wk & n & Hwk & Hg & Hn) L4 _].
  destruct (poll_thread_last rpc ncpu wr er w5 (Lane.set_data [LaneData.set_thread t (LaneData.make shm false)] lr)
    shm rop t) as (c6 & w6 & Hp6 & Hlr6 & Hh6 & _ & K6 & G6); rewrite ?Cr; try done.
  { by rewrite (lane_at_same er w4 w5). } { rewrite Hh5. apply lookup_insert_eq. }
  { rewrite W5, L4. apply Hrem. }
  destruct (groups_worker wi w5 w6 wk G6) as (wk6 & Hwk6 & Hg6); [unfold get_worker in *; by rewrite W5|].
  rewrite set_data_nil in Hlr6 by apply Hrem. rewrite Cr in Hh6. set (rop6 := on_base _ rop) in Hh6.
  exists rop6, c, w5, w6. do 3 (split; [done|]). split; [apply IsComplete_set|].
  split; [by rewrite Hh6, Hh5, insert_insert_eq|]. split; [transitivity w5; [apply K5|done]|].
  exists wk6, n. by rewrite Hg6.
Qed.

(** The heap once the two tasks of the client are gone *)
Lemma restored_heap (a b k : Z) (oa ob ob' ok : TaskObj) (h h4 : gmap Z TaskObj) :
  b ≠ a → k ≠ a → k ≠ b → h !! a = None → h !! b = None →
  (∀ i, i ≠ a → i ≠ b → i ≠ k → h4 !! i = h !! i) →
  delete a (delete b (<[a := oa]> (<[b := ob]> (<[k := ok]> (<[b := ob']> h4))))) = <[k := ok]> h.
Proof.
  intros Hba Hka Hkb Ha Hb Ho. apply map_eq. intros i.
  destruct (decide (i = a)) as [->|Hia]; [by rewrite lookup_delete_eq, lookup_insert_ne|].
  rewrite lookup_delete_ne by done.
  destruct (decide (i = b)) as [->|Hib]; [by rewrite lookup_delete_eq, lookup_insert_ne|].
  rewrite lookup_delete_ne, !lookup_insert_ne by done.
  destruct (decide (i = k)) as [->|Hik]; [by rewrite !lookup_insert_eq|].
  by rewrite !lookup_insert_ne, Ho.
Qed.

Lemma set_data_empty (l : Lane) : Lane.data l = [] → Lane.set_data [] l = l.
Proof. destruct l. simpl. by intros ->. Qed.

(** The last polls of the message's lane and of the client's: both tasks complete. *)
Lemma request_back wi wj ep es er lp ls p sub op os tp data c c' w6 wk n :
  let os5 := mkTaskObj (Task.SetModuleComplete (dispersed (Task.set_ctx c' (base os)))) (BIo (Io.mk data 1)) in
  let tp' := TypedPush.mk sub (mkLPointer (ptr_ sub) (shm_ sub)) PushTaskPhase.kWaitSchedule in
  lane_at ep w6 = Ok (Lane.set_data [LaneData.make p false] lp) →
  lane_at es w6 = Ok (Lane.set_data [LaneData.make (shm_ sub) false] ls) →
  WorkEntry.queue_ es ≠ WorkEntry.queue_ ep →
  WorkEntry.queue_ er ≠ WorkEntry.queue_ ep → WorkEntry.queue_ er ≠ WorkEntry.queue_ es →
  Convert (shm_ sub) = ptr_ sub → ptr_ sub ≠ Convert p →
  Node.heap w6 !! Convert p = Some (pushed c op tp) → push_task (pushed c op tp) tp' w6 →
  Node.heap w6 !! ptr_ sub = Some os5 → io_message os data w6 →
  DomainId.IsRemote (Task.domain_id_ (base os)) (Z.of_nat (length (Node.hosts_ w6)))
    (Node.node_id_ w6) = true →
  get_worker wi w6 = Ok wk → Worker.group_map_ wk !! le_bytes 4 (WorkEntry.lane_id_ ep) = Some n →
  TaskNode.node_depth_ n = 1 →
  ∃ w7 w8 os7 op', PollGrouped wj es w6 = Ok w7 ∧ PollGrouped wi ep w7 = Ok w8 ∧
    lane_at ep w8 = Ok (Lane.set_data [] lp) ∧ lane_at es w8 = Ok (Lane.set_data [] ls) ∧
    lane_at er w8 = lane_at er w6 ∧
    Node.heap w8 = <[Convert p := op']> (<[ptr_ sub := os7]> (Node.heap w6)) ∧
    body op' = body (pushed c op tp) ∧ Task.IsComplete (base op') = true ∧
    Task.IsFireAndForget (base op') = false ∧ Task.delcnt_ (base op') = Task.delcnt_ (base op) ∧
    body os7 = BIo (Io.mk data 1) ∧ Task.delcnt_ (base os7) = Task.delcnt_ (base os).
Proof.
  intros os5 tp' Hlp Hls Qsp Qrp Qrs Cs Dist Hp Hpt Hs Hmsg Hrem Hwk Hg Hn.
  destruct (dispersed_flags c' (base os)) as (F1 & F2 & F3 & F4 & F5). cbv zeta in *.
  destruct (poll_remote_last (Calls:=Calls) rpc ncpu servers wj es w6 _ (shm_ sub) os5 Hls eq_refl)
    as (c7 & w7 & Hp7 & Hls7 & Hh7 & K7 & G7); rewrite ?Cs; try done.
  { apply (msg_exec _ _ _ Hmsg). }
  { unfold os5. cbn [base]. rewrite F4. apply (msg_thread _ _ _ Hmsg). }
  { unfold os5. cbn [base]. rewrite F5. apply (msg_kept _ _ _ Hmsg). }
  rewrite Cs in Hh7. set (os7 := on_base _ os5) in Hh7.
  destruct (groups_worker wi w6 w7 wk G7 Hwk) as (wk7 & Hwk7 & Hg7).
  pose proof (push_task_kept _ _ _ _ _ Hpt K7) as Hpt7.
  destruct (poll_push_last rpc ncpu wi ep w7 (Lane.set_data [LaneData.make p false] lp) p (pushed c op tp)
    tp' os7 wk7 n) as (w8 & op' & Hp8 & Hlp8 & Hh8 & Hb8 & Hc8 & Hd8 & Hff8 & K8); try done.
  { by rewrite (lane_at_kept _ _ _ _ K7) by (by apply not_eq_sym). }
  { by rewrite Hh7, lookup_insert_ne. }
  { apply IsStarted_set. }
  { rewrite Hh7. apply lookup_insert_eq. }
  { apply IsComplete_set. }
  { by rewrite Hg7. }
  exists w7, w8, os7, op'. split_and!; try done.
  - by rewrite (lane_at_kept _ _ _ _ K8) by done.
  - by rewrite (lane_at_kept _ _ _ _ K8), (lane_at_kept _ _ _ _ K7) by done.
  - by rewrite Hh8, Hh7.
Qed.

(** C2: liveness of a client's request that other nodes serve: the longest path of the system.
    [AsyncIoRoot] submits the push task; polling its lane submits the message; polling the
    message's lane disperses it; polling the lane of the remote queue starts the thread of the
    remote push task; the thread sends the bytes to each node of the domain, where the
    procedure transfers them, a worker runs the message and the node responds, and ends; one
    more poll of each of the three lanes completes the three tasks; then [IoRoot] does not
    block and returns 1, the verdict of the other nodes that every byte arrived. All three
    lanes are empty again. Of the three tasks one stays behind: the remote push task is complete
    and nobody deletes it. *)
Theorem IoRoot_remote pq sm tid pid dom wi wj wr ep es er lp ls lr st count w :
  (∀ h : gmap Z TaskObj, is_Some (allocate h)) →
  io_client pq sm tid pid wi wj ep es lp ls w → io_remote sm dom wr ep es er lr st count w →
  ids_fit sm dom w →
  let ids := ResolveDomainId dom (Node.hosts_ w) in
  ids ≠ [] →
  Forall (λ d, serves_io (SmallMessageClient.id_ sm) TaskPrio.kLowLatency 3 (DomainId.id_ d)) ids →
  ∃ push w1 w2 w3 w4 t w5 w6 w7 w8 w9 a rop,
    SmallMessageClient.AsyncIoRoot sm pq tid pid dom w = Ok (push, w1) ∧
    PollGrouped wi ep w1 = Ok w2 ∧ PollGrouped wj es w2 = Ok w3 ∧ PollGrouped wr er w3 = Ok w4 ∧
    RunPreemptive t w4 = Ok w5 ∧
    PollGrouped wr er w5 = Ok w6 ∧ PollGrouped wj es w6 = Ok w7 ∧ PollGrouped wi ep w7 = Ok w8 ∧
    SmallMessageClient.IoRoot_finish push w8 = Ok (1, w9) ∧
    lane_at ep w9 = Ok lp ∧ lane_at es w9 = Ok ls ∧ lane_at er w9 = Ok lr ∧
    Node.heap w !! a = None ∧ Node.heap w9 = <[a := rop]> (Node.heap w) ∧
    Task.IsComplete (base rop) = true.
Proof.
  intros Hal Hcl Hrem Hfit ids Hids Hsrv.
  destruct (AsyncIoRoot_Ok pq sm tid pid dom wi wj ep es lp ls w Hal Hcl)
    as (push & sub & op & os & tp & data & w1 & Hasync & Hsent).
  destruct (request_out _ _ _ _ _ _ _ _ _ _ _ _ _ _ _ _ _ _ _ _ _ _ _ _ Hal Hcl Hrem Hfit Hsent Hsrv)
    as (w2 & w3 & w4 & shm & t & Hp2 & Hp3 & Hp4 & Hout).
  destruct Hsent as [Cp Cs Dist _ Np Ns _ K1 _ _ _ Hsub _ Hdel Hmsg Hdom _ _ _ Hdels _ _ _].
  pose proof (msg_body _ _ _ Hmsg) as [ret Hb].
  destruct (thread_completes _ _ _ _ _ _ _ _ _ _ _ ret _ _ _ _ _ _ _ _ _ _ _ _ _ Hout Hrem Hids Hb
    (msg_method _ _ _ Hmsg)) as (rop & c & w5 & w6 & Hrun & Hp6 & Hlr6 & Hrc & Hh6 & K6 & wk & n & Hwk & Hg & Hn).
  destruct Hout as [Hlp4 Hls4 _ _ _ [Npush Nsub] Hnew (c1 & Hpush4 & Hpt4) _ _ Hother _ _ (Es4 & Er4 & En4 & Eh4)].
  set (ptr := Convert shm) in *. pose proof K1 as (Es1 & Er1 & _). pose proof K6 as (Es6 & Er6 & En6 & Eh6 & _).
  pose proof (rem_queues _ _ _ _ _ _ _ _ _ _ Hrem) as [Qrp Qrs].
  destruct (request_back wi wj ep es er lp ls (shm_ push) sub op os tp data c1 c w6 wk n)
    as (w7 & w8 & os7 & op' & Hp7 & Hp8 & Hlp8 & Hls8 & Hlr8 & Hh8 & B1 & B2 & B3 & B4 & B5 & B6);
    rewrite ?Cp, ?(lane_at_kept _ _ _ _ K6) by (done || by apply not_eq_sym); try done.
  { apply Hcl. }
  { by rewrite Hh6, !lookup_insert_ne by done. }
  { by eapply push_task_kept. }
  { rewrite Hh6, lookup_insert_ne by done. apply lookup_insert_eq. }
  { apply (io_message_kept os data w1); [done|congruence..]. }
  { rewrite Hdom, Eh6, Eh4, En6, En4. apply Hrem. }
  rewrite Cp in Hh8. simpl in B1. rewrite Hsub, Cs in B1.
  destruct (IoRoot_finish_Ok push sub w8 op' os7 data 1 (mkLPointer (ptr_ sub) (shm_ sub))
    PushTaskPhase.kWaitSchedule) as (w9 & Hfin & Hh9 & Hq9); rewrite ?Hh8, ?B4, ?B6; try done.
  { apply lookup_insert_eq. } { rewrite lookup_insert_ne by done. apply lookup_insert_eq. }
  exists push, w1, w2, w3, w4, t, w5, w6, w7, w8, w9, ptr, rop. do 9 (split; [done|]).
  rewrite !(lane_at_same _ w8 w9 Hq9), Hlp8, Hls8, Hlr8, Hlr6, !set_data_empty by apply Hcl.
  do 4 (split; [done|]). split; [|done]. rewrite Hh9, Hh8, Hh6. by apply restored_heap.
Qed.

End remote.

(** ** Witness: the machine of [Scenario] as the first of three nodes; the message is for the
    second, a copy of it *)

Section witness.
Import RefInstances RefMachine RefRun.

Definition wit_first : Node := on_host 1 wit_running.

Definition wit_io_servers (name : string) : option Server :=
  if String.eqb name (wit_name 2) then
    Some (mkServer 1 wit_io_entry (Some (on_host 2 wit_running)))
  else None.

Lemma wit_io_client :
  io_client process_queue running.1 5 6 1 1 wit_push_entry wit_io_entry
    (lane_of wit_push_entry wit_first) (lane_of wit_io_entry wit_first) wit_first.
Proof.
  split; try done; try (by vm_compute).
  all: exists_by_evaluation.
Qed.

Lemma wit_io_remote :
  io_remote running.1 (DomainId.GetNode 2) 1 wit_push_entry wit_io_entry wit_remote_entry
    (lane_of wit_remote_entry wit_first) wit_md_state 0 wit_first.
Proof.
  split; try (by vm_compute).
  all: exists_by_evaluation.
Qed.

Lemma wit_serves_io :
  serves_io wit_rpc_context wit_io_servers (SmallMessageClient.id_ running.1) TaskPrio.kLowLatency 3 2.
Proof.
  eexists _, _, (lane_of wit_io_entry (on_host 2 wit_running)), _.
  split; [by vm_compute|]. split; [by vm_compute|]. split; [by vm_compute|].
  split; try (by vm_compute); exists_by_evaluation.
Qed.

Lemma IoRoot_remote_witness :
  ∃ push w1 w8 w9, SmallMessageClient.AsyncIoRoot running.1 process_queue 5 6 (DomainId.GetNode 2) wit_first
      = Ok (push, w1) ∧ SmallMessageClient.IoRoot_finish push w8 = Ok (1, w9).
Proof.
  destruct (IoRoot_remote wit_rpc_context 2 wit_io_servers process_queue running.1 5 6 (DomainId.GetNode 2)
    1 1 1 wit_push_entry wit_io_entry wit_remote_entry (lane_of wit_push_entry wit_first)
    (lane_of wit_io_entry wit_first) (lane_of wit_remote_entry wit_first) wit_md_state 0 wit_first)
    as (push & w1 & _ & _ & _ & _ & _ & _ & _ & w8 & w9 & _ & _ & Ha & _ & _ & _ & _ & _ & _ & _ & Hf & _).
  - intros h. by eexists.
  - exact wit_io_client.
  - exact wit_io_remote.
  - split_and!; by vm_compute.
  - by vm_compute.
  - repeat constructor. exact wit_serves_io.
  - exists push, w1, w8, w9. split; [exact Ha|exact Hf].
Defined.

End witness.
