(* ===== verification/Shutdown.v ===== *)
(** * The two programs: starting a runtime, and stopping it

    [hermes_run_start_runtime.cc] and [hermes_run_stop_runtime.cc]. Stopping crosses the system:
    a client process that has only just connected submits one task for the admin queue; a
    worker runs it, which tells the RPC server to end; then the daemon, which waited for that,
    ends the workers. *)

From S2P Require Import Prelude Hshm RefLib Types Queue LocalSerialize Yaml Config QueueManager.
From S2P Require Import Archive Task TaskTypes World LibExec Registry Rpc Exec WorkerLoop.
From S2P Require Import Thallium Schedulers ProcQueue SmallMessage Admin RemoteQueue TaskName.
From S2P Require Import LibClients Libs Runtime Startup Scenario IoPath.

Section programs.
Context `{BitfieldOps} `{Logger} `{MpscOps} `{SpscOps} `{AllocOps} `{RawMemory} `{CerealOps}
        `{CharbufOps} `{HvecOps} `{TicketOps} `{Dlfcn} `{ConstructOps} `{NetOps} `{TlEngineOps}
        `{ProcessOps} `{YamlOps} `{ConfigParse} `{AbtOps} `{TaskExecOps}.
Variable (server_default client_default : string).
(** What other threads do while the daemon waits for the workers ([Runtime.Join]) *)
Variable (hshm_error : string → bool) (env : nat → nat → Node → Node) (fuel : nat).

(** [main] of [hermes_run_start_runtime.cc], to the first wait of [Create] *)
Definition start_main (r : Runtime) : outcome (option (LPointer * TaskStateId) * Runtime) :=
  Create server_default client_default "" r.

(** The rest of it, from when [Create] returned: [RunDaemon], [Finalize], which does nothing, and
    the exit code *)
Definition start_main_end (r : Runtime) : outcome (Z * Runtime) :=
  r ← RunDaemon hshm_error env fuel r; Ok (0, r).

(** [main] of [hermes_run_stop_runtime.cc], run by a process with the client [c] on the shared
    memory of a node: the exit code, and both afterwards *)
Definition stop_main (c : ClientProcess) (w : Node) : outcome (Z * ClientProcess * Node) :=
  '(_, c) ← TRANSPARENT_HERMES_RUN server_default client_default (Node.node_id_ w) c;
  '(_, w) ← AdminClient.AsyncRoot (λ task_node,
    AdminClient.AsyncStopRuntime (AdminClient.new (cl_queue_manager_ c)) task_node
      DomainId.GetLocal) w;
  Ok (0, c, w).

End programs.

(** ** Behind the standing tasks of a lane

    The schedulers stay in the lane of the admin queue: they are polled each time and never
    complete. What is submitted later is behind them, where a task that completes is deleted
    but its entry stays. *)

Section standing.
Context `{BitfieldLaws} `{MpscLaws} `{SpscOps} `{CharbufOps} `{AllocOps} `{Logger}
        `{TaskExecOps} `{RawMemory}.

Lemma put_worker_id wi wk w : get_worker wi w = Ok wk → put_worker wi wk w = w.
Proof.
  intros Hw%deref_Ok. unfold put_worker, Node.set_workers. rewrite list_insert_id by done.
  by destruct w.
Qed.

Lemma task_group_fixed wi task exec lid w o wk :
  get_task task w = Ok o → get_worker wi w = Ok wk →
  exec_GetGroup exec (Task.method_ (base o)) task (Worker.group_ wk) w =
    Ok (TASK_UNORDERED, Worker.group_ wk) →
  task_group wi task exec lid w = Ok (None, w).
Proof.
  intros Ho Hw Hg. unfold task_group. rewrite Ho. cbn [mbind outcome_bind]. rewrite Hw.
  cbn [mbind outcome_bind]. rewrite Hg. cbn [mbind outcome_bind]. rewrite Z.eqb_refl. simpl.
  replace (Worker.set_group (Worker.group_ wk) wk) with wk by (by destruct wk).
  by rewrite put_worker_id.
Qed.

(** What an update of a lane makes of the node *)
Lemma upd_lane_node e f w lane :
  lane_at e w = Ok lane →
  upd_lane e f w = Ok (Node.set_queue_map
    (queues_with e (Lane.set_data (f (Lane.data lane)) lane) (Node.queue_map_ w)) w).
Proof.
  intros Hl. destruct (upd_lane_Ok e f w lane Hl) as (w' & Hu & _). rewrite Hu.
  rewrite <- (upd_lane_queues e f w lane w' Hl Hu).
  unfold upd_lane, put_lane in Hu. invert_ok. done.
Qed.

Lemma lane_at_with e w lane data :
  lane_at e w = Ok lane →
  lane_at e (Node.set_queue_map (queues_with e (Lane.set_data data lane) (Node.queue_map_ w)) w) =
    Ok (Lane.set_data data lane).
Proof.
  intros Hl. destruct (upd_lane_Ok e (λ _, data) w lane Hl) as (w' & Hu & Hl' & _).
  rewrite (upd_lane_node _ _ _ _ Hl) in Hu. by injection Hu as <-.
Qed.

(** An unordered task that nobody keeps, complete behind the head of its lane, is deleted; its
    entry is marked and passed over. *)
Lemma cleanup_fired wi e off a exec w o lane wk :
  0 < off → get_task a w = Ok o → Task.IsModuleComplete (base o) = true →
  Task.IsCoroutine (base o) = false → Task.IsPreemptive (base o) = false →
  Task.IsFireAndForget (base o) = true → exec ≠ 0 →
  lane_at e w = Ok lane → get_worker wi w = Ok wk →
  (∀ w', Node.heap w' = Node.heap w → Node.states w' = Node.states w →
     exec_GetGroup exec (Task.method_ (base o)) a (Worker.group_ wk) w' =
       Ok (TASK_UNORDERED, Worker.group_ wk) ∧
     exec_Del exec (Task.method_ (base o)) a w' = Ok (Node.set_heap (delete a (Node.heap w')) w')) →
  cleanup wi e off a exec false w =
    Ok (off + 1, Node.set_heap (delete a (Node.heap w)) (Node.set_queue_map (queues_with e
      (Lane.set_data (alter LaneData.set_complete (Z.to_nat off) (Lane.data lane)) lane)
      (Node.queue_map_ w)) w)).
Proof.
  intros Hoff Ho Hmc Hco Hpr Hff He Hl Hw Hx. unfold cleanup. rewrite Ho. cbn [mbind outcome_bind].
  rewrite Hmc. unfold upd_entry. rewrite (upd_lane_node _ _ _ _ Hl). cbn [mbind outcome_bind].
  rewrite Hco, Hpr. cbn [mbind outcome_bind].
  set (w1 := Node.set_queue_map _ w). destruct (Hx w1 eq_refl eq_refl) as [Hg Hdel].
  unfold RemoveTaskGroup. rewrite (task_group_fixed wi a exec _ w1 o wk Ho Hw Hg).
  cbn [mbind outcome_bind].
  unfold EndTask, PopTask. rewrite (proj2 (Z.eqb_neq off 0)) by lia. cbn [mbind outcome_bind].
  change (get_task a w1) with (get_task a w). rewrite Ho. cbn [mbind outcome_bind].
  rewrite Hff, (proj2 (Z.eqb_neq _ _) He). simpl. rewrite Hdel. done.
Qed.

(** A task already polled in the lane of [e] that runs without effect: its method is run at each
    poll, and leaves the node as it was, whatever the heap, the tasks of the lane and the counter
    of ids are. *)
Record standing_task (e : WorkEntry) (o : TaskObj) (w : Node) : Prop := {
  standing_plain : plain_task o w;
  standing_incomplete : Task.IsModuleComplete (base o) = false;
  standing_started : Task.IsStarted (base o) = true;
  standing_lane : RunContext.lane_id_ (Task.ctx_ (base o)) = WorkEntry.lane_id_ e;
  standing_exec : RunContext.exec_ (Task.ctx_ (base o)) = GetTaskState (Task.task_state_ (base o)) w;
  standing_run a heap lane u :
    let w' := Node.set_heap heap (Node.set_queue_map (queues_with e lane (Node.queue_map_ w))
                (Node.set_unique u w)) in
    exec_Run (GetTaskState (Task.task_state_ (base o)) w) (Task.method_ (base o)) a w' = Ok w';
}.

(** An entry that a poll passes over *)
Definition passed_over (e : WorkEntry) (d : LaneData) (w : Node) : Prop :=
  LaneData.complete_ d = true ∨
  ∃ o, Node.heap w !! Convert (LaneData.p_ d) = Some o ∧ standing_task e o w.

Lemma SetStarted_id (t : Task) : Task.IsStarted t = true → Task.SetStarted t = t.
Proof.
  unfold Task.IsStarted, Task.AnyTaskFlags, Task.SetStarted, Task.SetTaskFlags, TASK_HAS_STARTED.
  rewrite Any_testbit by lia. intros Hb. rewrite SetBits_spec.
  replace (Z.lor (Task.task_flags_ t) (BIT_OPT 8)) with (Task.task_flags_ t); [by destruct t|].
  apply Z.bits_inj'. intros n Hn. rewrite Z.lor_spec, testbit_BIT_OPT by lia.
  destruct (Z.eqb_spec 8 n) as [<-|]; [by rewrite Hb|by rewrite orb_false_r].
Qed.

(** Polling one of them *)
Lemma poll_passed wi e w off d lane heap u :
  let w' := Node.set_heap heap (Node.set_queue_map (queues_with e lane (Node.queue_map_ w))
              (Node.set_unique u w)) in
  0 ≤ off → lane_at e w' = Ok lane → Lane.data lane !! Z.to_nat off = Some d →
  (off = 0 → LaneData.complete_ d = false) → passed_over e d w →
  (∀ a, is_Some (Node.heap w !! a) → heap !! a = Node.heap w !! a) →
  poll_iteration wi e off w' = Ok (Some (off + 1), w').
Proof.
  intros w' Hoff Hl Hd Hhead Hover Hheap. destruct (LaneData.complete_ d) eqn:Hc.
  { unfold poll_iteration. unfold lane_at in Hl. rewrite Hl. cbn [mbind outcome_bind].
    rewrite mpsc_peek_spec, Hd, Hc by done. unfold PopTask.
    destruct (Z.eqb_spec off 0) as [->|]; [by specialize (Hhead eq_refl)|done]. }
  destruct Hover as [Hc'|(o & Ho & Hst)]; [congruence|]. destruct Hst as [[He Hloc Hen Hco Hpr] Hinc Hs Hlane Hexec Hrun].
  set (a := Convert (LaneData.p_ d)) in *.
  assert (Node.heap w' !! a = Some o) as Ho' by (simpl; rewrite <- Ho; apply Hheap; by rewrite Ho).
  rewrite (poll_iteration_at wi e off w' lane d o Hoff Hl Hd Hc Ho' He Hloc).
  change (GetTaskState (Task.task_state_ (base o)) w') with (GetTaskState (Task.task_state_ (base o)) w).
  set (exec := GetTaskState _ w) in *. fold a. rewrite Hen.
  set (c := RunContext.set_exec _ _).
  assert (on_base (Task.set_ctx c) o = o) as ->.
  { unfold c. rewrite <- Hlane, <- Hexec. by destruct o as [[? ? ? ? ? ? ? ? []] ?]. }
  rewrite put_task_id by (by apply get_task_Ok).
  unfold CheckTaskGroup. rewrite (proj2 (get_task_Ok _ _ _) Ho'). cbn [mbind outcome_bind orb].
  rewrite Hs. cbn [mbind outcome_bind]. rewrite (execute_plain e off a exec w' o Ho' Hco Hpr).
  replace (on_base Task.SetStarted o) with o
    by (destruct o as [t b]; unfold on_base; simpl; by rewrite SetStarted_id).
  rewrite put_task_id by (by apply get_task_Ok). unfold w'. rewrite Hrun. fold w'.
  cbn [mbind outcome_bind]. by rewrite (cleanup_waits wi e off a exec w' o Ho' Hinc).
Qed.

(** Passing over the first [n] entries of a lane *)
Lemma poll_loop_passes wi e w n :
  (∀ i, (i < n)%nat → poll_iteration wi e (Z.of_nat i) w = Ok (Some (Z.of_nat i + 1), w)) →
  ∀ k, poll_loop wi e (n + k) 0 w = poll_loop wi e k (Z.of_nat n) w.
Proof.
  intros Hit k.
  assert (∀ j, (j ≤ n)%nat → poll_loop wi e (n + k) 0 w = poll_loop wi e (n - j + k) (Z.of_nat j) w)
    as E.
  { induction j as [|j IH]; intros Hj; [by rewrite Nat.sub_0_r|].
    rewrite IH by lia. replace (n - j + k)%nat with (S (n - S j + k)) by lia. simpl.
    rewrite Hit by lia. cbn [mbind outcome_bind]. f_equal. lia. }
  rewrite (E n) by lia. f_equal. lia.
Qed.

(** The last entry of a lane *)
Lemma poll_loop_last wi e k off w w' lane :
  0 ≤ off → poll_iteration wi e off w = Ok (Some (off + 1), w') → lane_at e w' = Ok lane →
  length (Lane.data lane) = Z.to_nat (off + 1) → poll_loop wi e (S k) off w = Ok w'.
Proof.
  intros Hoff Hit Hl Hlen. simpl. rewrite Hit. cbn [mbind outcome_bind]. destruct k as [|k]; [done|].
  simpl. unfold poll_iteration. unfold lane_at in Hl. rewrite Hl. cbn [mbind outcome_bind].
  rewrite mpsc_peek_spec by lia. by rewrite lookup_ge_None_2 by lia.
Qed.

End standing.

(** ** The task that stops the runtime *)

Section stop.
Context `{BitfieldLaws} `{Logger} `{MpscLaws} `{SpscOps} `{AllocLaws} `{RawMemory} `{CerealOps}
        `{CharbufLaws} `{HvecOps} `{Dlfcn} `{NetOps} `{ThalliumOps} `{OtherLibs}
        `{DaemonOps}.
Variable (rpc : RpcContext) (ncpu : Z).
#[local] Hint Extern 0 TaskExecOps => exact (path_exec rpc ncpu) : typeclass_instances.

(** The admin library of a node *)
Definition is_admin (exec : Z) (w : Node) : Prop :=
  ∃ st q p, get_state exec w = Ok st ∧ TaskLib.server st = AdminServer q p.

Lemma admin_same exec w w' : is_admin exec w → Node.states w' = Node.states w → is_admin exec w'.
Proof. intros (st & q & p & Hst & Hs) E. exists st, q, p. unfold get_state in *. by rewrite E. Qed.

Lemma admin_StopRuntime exec a w :
  is_admin exec w → exec_Run exec AdminMethod.kStopRuntime a w = Admin.StopRuntime a w.
Proof.
  intros (st & q & p & Hst & Hs).
  change (lib_Run rpc ncpu exec AdminMethod.kStopRuntime a w = Admin.StopRuntime a w).
  unfold lib_Run. rewrite Hst. cbn [mbind outcome_bind]. by rewrite Hs.
Qed.

Lemma admin_GetGroup exec a w o group :
  is_admin exec w → get_task a w = Ok o → body o = BStopRuntime →
  exec_GetGroup exec AdminMethod.kStopRuntime a group w = Ok (TASK_UNORDERED, group).
Proof.
  intros (st & q & p & Hst & Hs) Ho Hb.
  change (lib_GetGroup exec AdminMethod.kStopRuntime a group w = Ok (TASK_UNORDERED, group)).
  unfold lib_GetGroup. rewrite Hst. cbn [mbind outcome_bind]. rewrite Hs. unfold GetGroup.
  change (methods_of (AdminServer q p) AdminMethod.kStopRuntime) with (Some c_StopRuntime). cbv iota.
  rewrite Ho. cbn [mbind outcome_bind]. unfold as_type. by rewrite Hb.
Qed.

Lemma admin_Del exec a w o :
  is_admin exec w → get_task a w = Ok o → Task.delcnt_ (base o) = 0 →
  exec_Del exec AdminMethod.kStopRuntime a w = Ok (Node.set_heap (delete a (Node.heap w)) w).
Proof.
  intros (st & q & p & Hst & Hs) Ho Hd.
  change (lib_Del exec AdminMethod.kStopRuntime a w = Ok (Node.set_heap (delete a (Node.heap w)) w)).
  unfold lib_Del. rewrite Hst. cbn [mbind outcome_bind]. rewrite Hs. unfold Del.
  change (methods_of (AdminServer q p) AdminMethod.kStopRuntime) with (Some c_StopRuntime). cbv iota.
  change (tc_DelTask c_StopRuntime a w) with (Client.DelTask a w). unfold Client.DelTask.
  rewrite Ho. cbn [mbind outcome_bind]. simpl Task.delcnt_. rewrite Hd. simpl.
  rewrite delete_insert_eq. by destruct w.
Qed.

(** The task as its constructor leaves it *)
Definition stop_task (task_node : TaskNode) : TaskObj :=
  of_type c_StopRuntime (StopRuntime.make (AdminClient.memory c_StopRuntime) task_node
    DomainId.GetLocal (UniqueId.make 1 0)).

Lemma stop_task_flags n tn :
  0 ≤ n < 32 → Task.AnyTaskFlags (BIT_OPT n) (base (stop_task tn)) = (n =? 12).
Proof.
  intros Hn. unfold Task.AnyTaskFlags, TASK_FIRE_AND_FORGET. simpl.
  unfold TASK_FIRE_AND_FORGET.
  rewrite Any_testbit, testbit_SetBits, bitfield_new_spec, Z.bits_0, testbit_BIT_OPT by lia.
  apply Z.eqb_sym.
Qed.

(** What matters of it *)
Record stop_request (o : TaskObj) : Prop := {
  request_body : body o = BStopRuntime;
  request_state : Task.task_state_ (base o) = UniqueId.make 1 0;
  request_method : Task.method_ (base o) = AdminMethod.kStopRuntime;
  request_domain : Task.domain_id_ (base o) = DomainId.GetLocal;
  request_flags n : 0 ≤ n < 32 → Task.AnyTaskFlags (BIT_OPT n) (base o) = (n =? 12);
  request_new : Task.delcnt_ (base o) = 0;
}.

Lemma stop_task_request tn : stop_request (stop_task tn).
Proof. split; try done. intros n. apply stop_task_flags. Qed.

(** The request once its method returned *)
Record stop_done (o : TaskObj) : Prop := {
  done_body : body o = BStopRuntime;
  done_method : Task.method_ (base o) = AdminMethod.kStopRuntime;
  done_flags n : 0 ≤ n < 32 → n ≠ 8 → n ≠ 10 → Task.AnyTaskFlags (BIT_OPT n) (base o) = (n =? 12);
  done_complete : Task.IsModuleComplete (base o) = true;
  done_new : Task.delcnt_ (base o) = 0;
}.

Lemma cleanup_stop wi e off a exec w o lane wk :
  0 < off → get_task a w = Ok o → stop_done o → exec ≠ 0 → lane_at e w = Ok lane →
  is_admin exec w → get_worker wi w = Ok wk →
  cleanup wi e off a exec false w =
    Ok (off + 1, Node.set_heap (delete a (Node.heap w)) (Node.set_queue_map (queues_with e
      (Lane.set_data (alter LaneData.set_complete (Z.to_nat off) (Lane.data lane)) lane)
      (Node.queue_map_ w)) w)).
Proof.
  intros Hoff Ho [Hb Hm Hf Hc Hn] He Hl Had Hw.
  apply (cleanup_fired wi e off a exec w o lane wk);
    [done|done|done|exact (Hf 16 ltac:(lia) ltac:(lia) ltac:(lia))
    |exact (Hf 17 ltac:(lia) ltac:(lia) ltac:(lia))
    |exact (Hf 12 ltac:(lia) ltac:(lia) ltac:(lia))|done..|].
  intros w' Hh Hs. rewrite Hm.
  assert (get_task a w' = Ok o) as Ho' by (unfold get_task in *; by rewrite Hh).
  assert (is_admin exec w') as Had' by (by eapply admin_same).
  split; [exact (admin_GetGroup exec a w' o _ Had' Ho' Hb)|exact (admin_Del exec a w' o Had' Ho' Hn)].
Qed.

(** Polled behind the head of the lane of the admin queue, the task sets the flag that the runtime
    is to stop, signals the daemon, and is gone; its entry is marked. *)
Lemma poll_stop_task wi e off w lane p o wk l :
  let a := Convert p in let exec := GetTaskState (UniqueId.make 1 0) w in
  0 < off → lane_at e w = Ok lane → Lane.data lane !! Z.to_nat off = Some (LaneData.make p false) →
  Node.heap w !! a = Some o → stop_request o → exec ≠ 0 → is_admin exec w →
  get_worker wi w = Ok wk →
  (∀ v, stop_this_daemon v = Ok (Node.set_signals (Node.signals_ v ++ l) v)) →
  poll_iteration wi e off w = Ok (Some (off + 1), Node.set_signals (Node.signals_ w ++ l)
    (Node.set_stop_runtime true (Node.set_heap (delete a (Node.heap w)) (Node.set_queue_map
      (queues_with e (Lane.set_data (alter LaneData.set_complete (Z.to_nat off) (Lane.data lane)) lane)
         (Node.queue_map_ w)) w)))).
Proof.
  intros a exec Hoff Hl Hd Ho [Hb Hid Hm Hdom Hf Hnew] He Had Hw Hsig.
  rewrite (poll_iteration_at wi e off w lane _ o ltac:(lia) Hl Hd eq_refl Ho);
    [|by rewrite Hid|rewrite Hdom; apply local_not_remote].
  rewrite Hid. cbn [LaneData.p_ LaneData.make]. fold a exec.
  unfold Task.IsRunDisabled, TASK_DISABLE_RUN. rewrite Hf by lia. change (13 =? 12) with false.
  set (c := RunContext.set_exec _ _). set (o1 := on_base (Task.set_ctx c) o).
  set (w1 := put_task a o1 w). assert (get_task a w1 = Ok o1) as Ho1 by apply get_put_task_eq.
  assert (∀ n, 0 ≤ n < 32 → Task.AnyTaskFlags (BIT_OPT n) (base o1) = (n =? 12)) as Hf1
    by exact Hf.
  unfold CheckTaskGroup. rewrite Ho1. cbn [mbind outcome_bind orb].
  unfold Task.IsStarted, TASK_HAS_STARTED. rewrite Hf1 by lia. change (8 =? 12) with false.
  rewrite (task_group_fixed wi a exec _ w1 o1 wk Ho1 Hw).
  2: { change (Task.method_ (base o1)) with (Task.method_ (base o)). rewrite Hm.
       exact (admin_GetGroup exec a w1 o1 _ Had Ho1 Hb). }
  cbn [mbind outcome_bind].
  rewrite (execute_plain e off a exec w1 o1 (lookup_insert_eq _ _ _) (Hf1 16 ltac:(lia))
    (Hf1 17 ltac:(lia))).
  change (Task.method_ (base o1)) with (Task.method_ (base o)). rewrite Hm.
  set (o3 := on_base Task.SetStarted o1). set (w3 := put_task a o3 w1).
  rewrite admin_StopRuntime by exact Had. unfold Admin.StopRuntime.
  rewrite Hsig. cbn [mbind outcome_bind].
  set (v3 := Node.set_signals _ (FinalizeRuntime w3)).
  rewrite (upd_task_Ok a Task.SetModuleComplete v3 o3 (lookup_insert_eq _ _ _)).
  cbn [mbind outcome_bind]. set (o4 := on_base Task.SetModuleComplete o3).
  set (w4 := put_task a o4 _).
  rewrite (cleanup_stop wi e off a exec w4 o4 lane wk Hoff (get_put_task_eq _ _ _));
    [| |exact He|exact Hl|exact Had|exact Hw].
  2: { split; [exact Hb|exact Hm| |apply IsModuleComplete_set|exact Hnew].
       intros n Hn Hn8 Hn10. unfold o4, o3. cbn [base on_base set_base].
       rewrite flag_SetModuleComplete, flag_SetStarted by done. by apply Hf1. }
  cbn [mbind outcome_bind]. do 2 f_equal. unfold w4, v3, w3, w1. destruct w.
  unfold Node.set_heap, Node.set_stop_runtime, Node.set_signals. simpl. by rewrite !delete_insert_eq.
Qed.

End stop.

(** ** Submitting it *)

Section submit.
Context `{BitfieldLaws} `{Logger} `{MpscLaws} `{SpscOps} `{AllocLaws} `{RawMemory} `{CerealOps}
        `{CharbufLaws} `{HvecOps} `{Dlfcn} `{NetOps} `{ThalliumOps} `{OtherLibs} `{TlEngineOps}
        `{ProcessOps} `{YamlOps} `{ConfigParse} `{TaskExecOps}.
Variable (server_default client_default : string).

(** A client process that is not connected yet, and can be *)
Record can_connect (c c' : ClientProcess) (w : Node) : Prop := {
  connect_new : is_initialized_ (cl_manager c) = false;
  connect_idle : is_being_initialized_ (cl_manager c) = false;
  connect_alive : is_terminated_ (cl_manager c) = false;
  connect_create : Client_Create server_default client_default "" "" (Node.node_id_ w) c = Ok c';
}.

(** The admin of a running node: its state, and the lane of its queue, which is the lane of the
    entry [e] of worker [wi], has room, and holds the schedulers, the first of them at its head,
    and entries that are complete *)
Record admin_ready (wi : nat) (e : WorkEntry) (lane : Lane) (w : Node) : Prop := {
  ready_exec : GetTaskState (UniqueId.make 1 0) w ≠ 0;
  ready_state : is_admin (GetTaskState (UniqueId.make 1 0) w) w;
  ready_queue : Client.GetQueue (UniqueId.make 1 0) w = Ok (WorkEntry.queue_ e);
  ready_prio : WorkEntry.prio_ e = TaskPrio.kAdmin;
  ready_lane : lane_open e 0 lane w;
  ready_head : LaneData.complete_ <$> head (Lane.data lane) = Some false;
  ready_standing : Forall (λ d, passed_over e d w) (Lane.data lane);
  ready_short : (length (Lane.data lane) < 1024)%nat;
  ready_worker : is_Some (Node.workers_ w !! wi);
}.

Lemma Client_Create_ids path c c' node_id :
  is_initialized_ (cl_manager c) = false →
  Client_Create server_default client_default path "" node_id c = Ok c' →
  cl_queue_manager_ c' = QueueManager.Init node_id ∧ cl_node_id_ c' = node_id.
Proof.
  unfold Client_Create, Client_ClientInit. intros ->. intros. invert_ok. done.
Qed.

(** The node after the submission, in full *)
Lemma stop_main_Ok wi e lane c c1 w :
  (∀ h : gmap Z TaskObj, is_Some (allocate h)) →
  can_connect c c1 w → admin_ready wi e lane w →
  let '(u, wu) := Client.fetch_add_unique w in
  let tn := TaskNode.add (TaskNode.make (UniqueId.make (Node.node_id_ w) u)) 1 in
  ∃ c' shm ptr, allocate (Node.heap w) = Some (shm, ptr) ∧
    stop_main server_default client_default c w =
      Ok (0, c', Node.set_heap (<[ptr := stop_task tn]> (Node.heap w))
        (Node.set_queue_map (queues_with e
           (Lane.set_data (Lane.data lane ++ [LaneData.make shm false]) lane)
           (Node.queue_map_ w)) wu)) ∧
    cl_node_id_ c' = Node.node_id_ w ∧ is_initialized_ (cl_manager c') = true.
Proof.
  intros Hal [Hn Hi Ht Hc] [He Hst Hq Hp Hopen _ _ _ _]. cbn [Client.fetch_add_unique].
  set (u := Node.unique_ w). set (wu := Node.set_unique _ w). set (tn := TaskNode.add _ 1).
  destruct (Hal (Node.heap w)) as [[shm ptr] Ha].
  destruct (Client_Create_ids _ _ _ _ Hn Hc) as [Hqm Hid].
  destruct (Emplace_open e 0 lane shm wu) as (wq & Hemp & _ & _ & Hqs).
  { by eapply lane_open_same. }
  rewrite Hp in Hemp.
  pose proof (Async_Ok (UniqueId.make 1 0) (stop_task tn) wu shm ptr (WorkEntry.queue_ e) true wq
    Ha Hq Hemp) as Has.
  unfold stop_main, TRANSPARENT_HERMES_RUN, IsInitialized, IsBeingInitialized, IsTerminated.
  rewrite Hn, Hi, Ht. cbn [negb andb]. rewrite Hc. cbn [mbind outcome_bind cl_queue_manager_].
  rewrite Hqm. unfold AdminClient.AsyncRoot, Client.MakeTaskNodeId, Client.fetch_add_unique.
  fold u wu tn.
  change (AdminClient.AsyncStopRuntime (AdminClient.new (QueueManager.Init (Node.node_id_ w))) tn
    DomainId.GetLocal wu) with (Client.Async (UniqueId.make 1 0) (stop_task tn) wu).
  rewrite Has. cbn [mbind outcome_bind]. eexists _, shm, ptr. split; [done|]. split; [|split].
  - do 2 f_equal. rewrite (Emplace_result _ _ _ _ _ _ _ Hemp), Hqs. done.
  - exact Hid.
  - unfold Client_Create in Hc. rewrite Hn in Hc. invert_ok. done.
Qed.

End submit.

(** ** Properties *)

Section stops.
Context `{BitfieldLaws} `{Logger} `{MpscLaws} `{SpscOps} `{AllocLaws} `{RawMemory} `{CerealOps}
        `{CharbufLaws} `{HvecOps} `{Dlfcn} `{NetOps} `{ThalliumOps} `{OtherLibs} `{TlEngineOps}
        `{ProcessOps} `{YamlOps} `{ConfigParse} `{AbtLaws}.
Variable (server_default client_default : string) (th : ThalliumState) (ncpu : Z).

(** The libraries of a node whose RPC server is [th] *)
Definition daemon_exec : TaskExecOps :=
  (λ D : DaemonOps, path_exec (tl_rpc_ th) ncpu) (runtime_daemon th).
#[local] Hint Extern 0 TaskExecOps => exact daemon_exec : typeclass_instances.

(** The polls of the standing tasks change nothing in the node the process left. *)
Lemma standing_polls wi e lane w w1 heap u :
  let lane1 := Lane.set_data (Lane.data lane ++ [w1]) lane in
  let w' := Node.set_heap heap (Node.set_queue_map (queues_with e lane1 (Node.queue_map_ w))
              (Node.set_unique u w)) in
  lane_at e w' = Ok lane1 → LaneData.complete_ <$> head (Lane.data lane) = Some false →
  Forall (λ d, passed_over e d w) (Lane.data lane) →
  (∀ a, is_Some (Node.heap w !! a) → heap !! a = Node.heap w !! a) →
  ∀ k, poll_loop wi e (length (Lane.data lane) + k) 0 w' =
         poll_loop wi e k (Z.of_nat (length (Lane.data lane))) w'.
Proof.
  intros lane1 w' Hl Hhead Hall Hheap. apply poll_loop_passes. intros i Hi.
  destruct (lookup_lt_is_Some_2 _ _ Hi) as [d Hd].
  apply (poll_passed wi e w (Z.of_nat i) d lane1 heap u); [lia|exact Hl| | | |exact Hheap].
  - simpl. rewrite Nat2Z.id. by apply lookup_app_l_Some.
  - intros ->%(Nat2Z.inj i 0). destruct (Lane.data lane) as [|d0 l]; [done|]. simpl in *. congruence.
  - by apply (Forall_lookup_1 _ _ _ _ Hall Hd).
Qed.

(** C4: stopping a runtime. A process that is not connected yet and can be, run on a node whose
    schedulers are installed, exits with code 0 and leaves one task, behind them in the lane of
    the admin queue; the runtime is alive still. The worker's next poll of that lane sets the flag
    that the runtime is to stop and sends the shutdown signal to the server of this node; the task
    is freed, and besides the flag, the signal, the counter of ids and the entry left in the lane
    the node is the one the process found. If the server engine ends once that signal was sent to
    it, the daemon's [main] then tells the workers to end and waits for each: every worker makes one
    more pass of [Run] and no other, and when those return, the flag still up and no thread of a
    task left, it exits with code 0. *)
Theorem stop_runtime_stops (wi : nat)
    (e : WorkEntry) (lane : Lane) (c c1 : ClientProcess) (w : Node) (name : string) :
  (∀ h : gmap Z TaskObj, is_Some (allocate h)) →
  can_connect server_default client_default c c1 w → admin_ready wi e lane w →
  ThalliumRpc.GetServerName (tl_rpc_ th) (RpcContext.node_id_ (tl_rpc_ th)) = Ok name →
  tl_shutdown (client_engine_ th) name = true →
  (∀ v, name ∈ Node.signals_ v → ∃ v', tl_wait_for_finalize (server_engine_ th) v = Ok v') →
  let lane_with d := Lane.set_data (Lane.data lane ++ [d]) lane in
  ∃ c' shm ptr w1,
    stop_main server_default client_default c w = Ok (0, c', w1) ∧
    allocate (Node.heap w) = Some (shm, ptr) ∧
    lane_at e w1 = Ok (lane_with (LaneData.make shm false)) ∧
    IsRuntimeAlive w1 = IsRuntimeAlive w ∧
    PollGrouped wi e w1 = Ok (Node.set_signals (Node.signals_ w ++ [name]) (Node.set_stop_runtime true
      (Node.set_queue_map (queues_with e (lane_with (LaneData.make shm true)) (Node.queue_map_ w))
      (Node.set_unique (wrap64 (Node.unique_ w + 1)) w)))) ∧
    ∀ hshm_error env fuel r, thallium_ r = Some th → name ∈ Node.signals_ (node r) →
      (∀ i k v, Node.kill_requested_ v = true → Node.kill_requested_ (env i k v) = true) →
      ∃ w2, tl_wait_for_finalize (server_engine_ th) (node r) = Ok w2 ∧
        ∀ w3, last_passes env fuel 0 (length (Node.workers_ w2)) (Node.set_kill_requested true w2) w3 →
          start_main_end hshm_error env fuel r = Ok (0, set_node w3 r) ∧ IsAlive w3 = false.
Proof.
  intros Hal Hcon Hadm Hname Hsig Hends lane_with.
  pose proof (λ v, StopThisDaemon_sends th name v Hname Hsig) as Hstop.
  destruct (stop_main_Ok server_default client_default wi e lane c c1 w Hal Hcon Hadm)
    as (c' & shm & ptr & Ha & Hmain & _).
  destruct Hadm as [He Hst Hq Hp Hopen Hhead Hall Hlen [wk Hwk]].
  pose proof (allocate_fresh _ _ _ Ha) as (Hfree & _ & Hconv).
  pose proof (lane_open_at _ _ _ _ Hopen) as Hl.
  set (n := length (Lane.data lane)) in *. set (w1 := Node.set_heap _ _) in Hmain.
  assert (lane_at e w1 = Ok (lane_with (LaneData.make shm false))) as Hl1
    by exact (lane_at_with e w lane _ Hl).
  assert (0 < Z.of_nat n) as Hn by (unfold n; destruct (Lane.data lane); [done|simpl; lia]).
  exists c', shm, ptr, w1. split; [exact Hmain|]. split; [exact Ha|]. split; [exact Hl1|].
  split; [done|]. split.
  - unfold PollGrouped. replace 1024%nat with (n + S (1023 - n))%nat by lia.
    rewrite (standing_polls wi e lane w _ _ _ Hl1 Hhead Hall).
    2: { intros a [o Ho]. apply lookup_insert_ne. intros ->. congruence. }
    fold n w1. set (tn := TaskNode.add _ 1) in *.
    pose proof ((λ D : DaemonOps, poll_stop_task (tl_rpc_ th) ncpu wi e (Z.of_nat n) w1
      (lane_with (LaneData.make shm false)) shm (stop_task tn) wk [name]) (runtime_daemon th)) as Hit.
    cbv zeta in Hit. rewrite Hconv in Hit.
    eapply poll_loop_last; [lia| |exact (lane_at_with e w lane (Lane.data lane ++ [LaneData.make shm true]) Hl)
      |simpl; rewrite length_app; simpl; lia].
    refine (eq_trans (Hit Hn Hl1 _ (lookup_insert_eq _ _ _) (stop_task_request _) He Hst _ _) _);
      clear Hit.
    { simpl. rewrite Nat2Z.id. by apply list_lookup_middle. }
    { unfold get_worker. simpl. by rewrite Hwk. }
    { exact Hstop. }
    do 2 f_equal. unfold w1, lane_with, n. simpl.
    rewrite Nat2Z.id, <- (Nat.add_0_r (length (Lane.data lane))), alter_app_r, queues_with_with,
      delete_insert_id by exact Hfree.
    by destruct w.
  - intros hshm_error env fuel r Hth Hin Henv. destruct (Hends (node r) Hin) as [w2 Hfin].
    exists w2. split; [exact Hfin|]. intros w3 Hpasses.
    destruct (join_workers_Ok hshm_error env fuel 0 _ (Node.set_kill_requested true w2) w3 Henv eq_refl Hpasses) as [Hjoin Hk].
    split; [|unfold IsAlive; by rewrite Hk]. unfold start_main_end, Runtime.RunDaemon. rewrite Hth.
    unfold Thallium.RunDaemon. rewrite Hfin. cbn [mbind outcome_bind].
    assert (Join hshm_error env fuel w2 = Ok w3) as -> by exact Hjoin. done.
Qed.

End stops.

(** ** Witness: the machine of [Scenario], once it has booted *)

Section witness.
Import RefInstances RefMachine RefRun.

Definition wit_admin_entry : WorkEntry := WorkEntry.mkWorkEntry TaskPrio.kAdmin 0 0 0.
Definition wit_booted : Node := node booted.
Definition wit_admin_lane : Lane := result (Lane.mkLane [] 0 0) (lane_at wit_admin_entry wit_booted).

(** A process that has not connected yet *)
Definition wit_process : ClientProcess :=
  new_client ref_client_config ref_server_config (QueueManager.Init 0) 0.
Definition wit_connected : ClientProcess :=
  result wit_process (Client_Create "server" "client" "" "" (Node.node_id_ wit_booted) wit_process).

#[local] Hint Extern 0 TaskExecOps => exact (daemon_exec wit_engines 2) : typeclass_instances.

Ltac wit_standing :=
  eexists; split; [vm_compute; reflexivity|]; split;
  [split; by vm_compute|by vm_compute..|intros; vm_compute; reflexivity].

(** The two schedulers at the front of the lane: their methods change nothing, whatever the tasks
    of the lane are. *)
Lemma wit_passed d : d ∈ Lane.data wit_admin_lane → passed_over wit_admin_entry d wit_booted.
Proof.
  intros Hd. vm_compute in Hd.
  repeat (apply elem_of_cons in Hd as [->|Hd]; [first [by left | right; wit_standing]|]).
  by apply not_elem_of_nil in Hd.
Qed.

Lemma wit_admin_ready : admin_ready 0 wit_admin_entry wit_admin_lane wit_booted.
Proof.
  split.
  - by vm_compute.
  - exists_by_evaluation.
  - by vm_compute.
  - by vm_compute.
  - exists_by_evaluation.
  - by vm_compute.
  - apply Forall_forall. exact wit_passed.
  - apply Nat.ltb_lt. by vm_compute.
  - exists_by_evaluation.
Qed.

Lemma wit_can_connect : can_connect "server" "client" wit_process wit_connected wit_booted.
Proof. split; by vm_compute. Qed.

(** The last pass of a worker *)
Definition wit_pass (wi : nat) (w : Node) : Node := result w (Run wi w).

(** The poll of the worker, and the daemon after it *)
Lemma stop_runtime_stops_witness :
  ∃ c' w1 w2 w3, stop_main "server" "client" wit_process wit_booted = Ok (0, c', w1) ∧
    IsRuntimeAlive w1 = true ∧
    PollGrouped 0 wit_admin_entry w1 = Ok w2 ∧ IsRuntimeAlive w2 = false ∧
    Node.heap w2 = Node.heap wit_booted ∧
    Node.signals_ w2 = ["tcp://10.0.0.2:8080"%string] ∧
    start_main_end (λ _, true) (λ _ _ v, v) 0 (set_node w2 booted) = Ok (0, set_node w3 booted) ∧
    IsAlive w3 = false.
Proof.
  destruct (stop_runtime_stops "server" "client" wit_engines 2 0 wit_admin_entry wit_admin_lane
    wit_process wit_connected wit_booted "tcp://10.0.0.2:8080")
    as (c' & shm & ptr & w1 & Hm & Ha & _ & Halive & Hpoll & Hend).
  - intros h. by eexists.
  - exact wit_can_connect.
  - exact wit_admin_ready.
  - by vm_compute.
  - reflexivity.
  - intros v _. by eexists.
  - vm_compute in Ha. injection Ha as <- <-.
    set (w2 := Node.set_signals _ _) in Hpoll.
    destruct (Hend (λ _, true) (λ _ _ v, v) 0%nat (set_node w2 booted)) as (w2' & Hfin & Hrest);
      [by vm_compute|set_solver|done|]. injection Hfin as <-.
    assert (∃ w3, last_passes (λ _ _ v, v) 0 0 (length (Node.workers_ w2))
      (Node.set_kill_requested true w2) w3) as [w3 Hw3].
    { set (x0 := wit_pass 0 (Node.set_kill_requested true w2)).
      set (x1 := wit_pass 1 (Node.set_xstream 0 x0)).
      exists (Node.set_xstream 0 x1). exists x0. split; [vm_compute; reflexivity|].
      split; [by vm_compute|]. split; [right; by vm_compute|]. exists x1.
      split; [vm_compute; reflexivity|]. split; [by vm_compute|]. split; [left; by vm_compute|done]. }
    destruct (Hrest w3 Hw3) as [Hmain Hdead].
    exists c', w1, w2, w3. split; [exact Hm|]. split; [rewrite Halive; by vm_compute|].
    split; [exact Hpoll|]. split; [done|]. split; [done|]. split; [by vm_compute|].
    split; [exact Hmain|exact Hdead].
Defined.

End witness.
